(* ===== verification/_CoqProject ===== *)
-Q . S2P
Prelude.v
GoStrings.v
Strconv.v
TaskStatus.v
Dag.v
Workflow.v
Json.v
JsonString.v
JsonDecode.v
Xml.v
Bus.v
Sha256.v
Cipher.v
Md5.v
Url.v
Filepath.v
Callback.v
Wecom.v
TokenCache.v
Contracts.v
ApprovalGate.v
WebhookAuth.v
SchemaParser.v
Runtime.v
TaskStore.v
LongTermMemory.v
Session.v
Prompt.v
ChatRequest.v
Float64.v
GoValue.v
Sprint.v
RedisReceive.v
Transport.v
Calendar.v
Logging.v
AuditTrail.v
Skills.v
Sandbox.v
TaskResult.v
Threads.v
Orchestrator.v
Chunk.v
Subagent.v
GatewayTypes.v
Router.v
Sender.v
Ingress.v
Dingtalk.v
DingtalkApp.v
WecomClient.v
WecomRobot.v
WecomHandler.v
WecomMedia.v
FeishuBot.v
FeishuClient.v
FeishuApp.v
DingtalkClient.v
DingtalkSdk.v
DingtalkRobot.v
DingtalkAdapter.v
MockAdapter.v
GatewayConfig.v
MediaRetention.v
GatewayMain.v
CallbackSim.v
ProviderStream.v
ChatCompletions.v
OpenAI.v
Escaping.v
Startup.v
System.v
Delivery.v
