(* ===== verification/Prelude.v ===== *)
(** * Agentic-Core: a verification library for the agent runtime

    Agentic-Core is a Go program of three processes that talk over a message
    bus.  The gateway takes messages from chat platforms and OpenAI-compatible
    requests and sends the answers back; the orchestrator turns each task into a
    workflow and starts a subagent process for its nodes; a subagent runs the
    inference loop on a task's messages and reports its result.  This library
    models that program, file by file, and proves what makes it correct.

    ** Parts, and where they are modelled

    Foundations.  Prelude: errors with their wrap chains, contexts, 64-bit
    wrap-around, the unspecified order of Go's map iteration ([RangeOrder]).
    GoStrings, Strconv: the string and number functions the program uses.
    Json, JsonString, JsonDecode, Float64, GoValue, Escaping: encoding/json on
    texts, since agents keep and forward raw messages: scanner, printer, string
    literals, decoding into structs and interface values, escaping.  Xml:
    encoding/xml on documents read into a struct.  Sha256,
    Cipher, Md5: SHA-256, HMAC, SHA-1, base64, AES, CBC, MD5, executable and
    checked against published vectors.  Url: net/url, its texts and queries.
    Filepath: path/filepath's Clean and Join.
    Calendar: dates as package time prints and parses them.  Threads: handlers as sequences of atomic
    actions, and their interleavings.

    The bus (internal/bus).  Bus: [Message], ParseMessage, the in-memory
    transport with its channels of capacity 100, the Redis transport over a
    server interface ([RedisServer]).  RedisReceive: its receiving goroutines,
    interleaved with their reader.  Transport: the interface the agents use
    ([Transport]), with both transports as instances.  TaskResult: what a
    subagent reports.

    Workflows (internal/workflow).  Dag: the dependency graph and Kahn's
    algorithm.  Workflow: state machine, executor and workflow; the executor
    refines an abstract scheduler.

    Inference (internal/llm, internal/skill, internal/session).  Contracts:
    the shared records.  SchemaParser: the model's answer.  ApprovalGate:
    human approval, a gate shared by concurrent calls.  Runtime: the inference
    loop and its chunk stream, in a state monad over an environment.  Prompt,
    Session: prompts and history.  ChatRequest: validation of chat requests and
    model routing.  OpenAI: the provider over HTTP.  Skills: the registry, the
    executor, the built-in skills.  Sandbox (internal/sandbox): WebAssembly runs.
    WebhookAuth: signed webhooks.  Chunk: the chunk's JSON.

    State (internal/memory, internal/process).  TaskStatus, TaskStore: the
    seven statuses; the store interface ([TaskStateStore]) with its laws and two
    implementations.  LongTermMemory: the vector store.  AuditTrail: audit events, redaction, agent profiles,
    subagent processes.  Logging (internal/logging): levels, the manager and
    its tee handler, daily files with their retention.

    Processes.  Orchestrator (cmd/orchestrator/main.go) and Subagent
    (cmd/subagent/main.go): every handler.  Startup: both from the command line to
    the running program, heartbeats, routes, and what a spawned subagent is.
    System: a conversation through the gateway, the orchestrator, the subagent
    and back.  Delivery: a task's way over the queues of Redis, from the gateway
    to the process the orchestrator starts for it, and its answer's way back.

    The gateway (internal/gateway).  GatewayTypes, Router: channel messages and
    the session router.  Ingress: the channel endpoint.  Sender,
    ProviderStream, ChatCompletions: event streams and the chat endpoint.
    Callback, Wecom, WecomHandler, TokenCache, WecomClient, WecomMedia,
    MediaRetention: the WeCom channel; CallbackSim (cmd/wecom-callback-sim): its
    simulator; WecomRobot: its robot.  FeishuApp, FeishuClient, FeishuBot:
    the Feishu channels.  Dingtalk, DingtalkApp, DingtalkClient, DingtalkSdk,
    DingtalkRobot, DingtalkAdapter: the DingTalk channels.  MockAdapter: the
    adapter that only logs, and telemetry (pkg/telemetry).  Sprint: fmt.Sprint.  GatewayConfig:
    flags, environment, validation.  GatewayMain (cmd/gateway): the channels a
    gateway starts with and the paths it serves.

    ** How code became definitions

    A Go function is a Rocq function of the same name; a method takes its
    receiver's record and returns the new one.  The pair of a value and an
    error is [result]; an error keeps its text and the sentinels it wraps.  A
    panic is [None].  What a function asks of the outside (model providers,
    HTTP exchanges, the operating system, response writers, clocks, random
    bytes) is an argument, an operation on a world of a type of its own;
    whatever holds, holds for every such operation.  A range statement over a
    map takes its order from a [RangeOrder], so a theorem covers every order.

    Concurrency is in the model where the code has it: [ApprovalGate] interleaves
    any number of waiting calls with arriving decisions at the granularity of
    the mutex; [Bus] the queue's producers, forwarding goroutine, consumer and
    cancellation; [Orchestrator] and [Sender] the atomic actions of their
    handlers ([Threads.pool_step]).  A critical section, or one call of a shared
    component, is one action.

    ** What is proved

    - Workflows: the order is topological and computed in as many rounds as
      nodes; nodes start only when their dependencies are completed, once; a
      workflow of an acyclic graph runs to completion; the executor refines the
      scheduler.
    - The bus: queues are first-in first-out in any interleaving; the in-memory
      queue loses nothing until its context is cancelled, and then at most the
      message its goroutine holds; a Redis subscription hands on what is
      published, in order, and loses at most one message when it ends; messages
      survive the wire.
    - The inference loop: it refines a specification by turns, which fixes what
      the model is sent, the executor's answers included; it ends within its
      bound, never executes a declared write without the approval of that very
      call, and its stream is numbered and terminated once.
    - The approval gate: a returned decision is for this call and trace; no call
      waits while a decision that answers it is pending, though of several
      decisions for one call only one is kept.
    - The orchestrator: recovery attempts every unfinished task once and keeps it
      recoverable; what intake, recovery and results do outside is stated call
      by call ([Orchestrator.did]); statuses are normalised in every
      interleaving.  One theorem shows a race that ends with a wrong status.
    - The gateway: an answer goes back to its session; a sink gets its task's
      chunks in order and is then closed, once; replays of a signed request are
      refused; a chat request makes one task and ends it.
    - The platform callbacks: exactly the signed and encrypted messages are
      accepted by WeCom; DingTalk's handler accepts unsigned ones too, and both
      codecs panic on some inputs, which the theorems say exactly; Feishu's
      events are authenticated by their signature when there is a key, and
      otherwise by a token they may leave out.  Tokens are not used beyond their
      lifetime; a WeCom payload says key by key what it has to; a message is sent
      once, to the receivers it names, after the uploads it needs.
    - The start of the gateway: it comes up with exactly the enabled channels,
      their adapters and handlers, or fails or panics for the reasons the
      theorem lists.
    - Redaction: what is under a secret key is gone, and all else is as it was.
    - The start of the orchestrator: it succeeds exactly when its calls do, and a
      failed start closes its database.  What it spawns is the task's subagent,
      on the default addresses whatever the orchestrator's own are.
    - Interoperation: the simulator's request is dispatched by the gateway; the
      OpenAI provider's request passes the program's own validation.
    - A WeCom download of plain names stays in the media directory.
    - Log files: a write appends to today's file and removes exactly the days
      before the retention, as long as that is at most 10^14 days.
    - The system: a message dispatched by the gateway is started by the
      orchestrator and reaches the subagent started for it, and the answer the
      gateway, unchanged.

    Theorems with the word C and a number in their comment are the claims; the
    other lemmas support them, or describe operations completely.

    ** Interfaces

    [Transport] and [TaskStateStore] state what a bus and a store promise; the
    orchestrator, the subagent, the auditor and the gateway are proved against
    them, and the instances discharge them.  [RedisServer] states what is used
    of Redis, [StreamSink] of a stream's sink.

    ** Bounds and fuel

    JSON is parsed with fuel twice the text's length, which is always enough
    ([parse_value_fuel]); nesting is limited to 10,000 as in Go.  Kahn's loop has
    as much fuel as nodes, and is shown not to run out.  The inference loop is
    bounded by MaxTurns, as in the code.  A line of a provider's stream is
    limited as by bufio.Scanner.  The loops of shortest float printing, XML's
    text and tokens (enough by [tokens_fuel]), block ciphers and digests have the
    fuel of their inputs' lengths.  64-bit results wrap ([wrap64]), 32-bit
    unsigned ones too ([add32]).  The cutoff of log files wraps from about
    1.06 * 10^14 days on; [retention_max] is below.

    ** Not modelled

    - Client libraries, which are parameters: Redis beyond the commands used,
      MQTT, Milvus, the WebAssembly runtime, OpenTelemetry, HTTP exchanges,
      SQL's schemas; the gateway's mux, which is a predicate on the paths it accepts; a URL's hosts in
      brackets.
    - The vendors' SDKs: the decoding, decryption and signatures of Feishu's
      callbacks ([LarkCallbacks]) and the calls of Feishu's and DingTalk's
      clients ([larkClient], [vendorClients]) are interfaces.
    - The lines slog's handlers print, which are functions of a record.
    - The texts of encoding/json's, base64's and flag's errors, where no code
      looks at them.
    - The tables of letters above ASCII that XML names take, MIME types and file
      operations, which are parameters of the WeCom channel.
    - Real time: clocks are readings given with each call.
    - Token fetches that overlap: a call of a client's token cache is one step.
    - A database that fails between two statements: it fails all or none.
    - Memory that Go shares between values (maps in metadata) where no code
      writes to it after sharing. *)
From stdpp Require Export base gmap sets fin_sets list strings numbers option pretty relations.
From Stdlib Require Export ZArith Lia.
From Stdlib Require String Ascii.

Open Scope Z_scope.

(** ** Tactics *)

(** Case analysis on the scrutinee of the first match of the goal or of a
    hypothesis, remembering the equation. *)
Ltac split_match :=
  match goal with
  | |- context [match ?x with _ => _ end] => destruct x eqn:?
  | H : context [match ?x with _ => _ end] |- _ => destruct x eqn:?
  end.

Ltac crush_match := repeat (split_match; simplify_eq/=; try done).

(** ** Errors

    A Go [error] is seen by the program through its text ([Error()]) and
    through [errors.Is], which compares it and the errors it wraps with the
    package-level sentinels.  [err_chain] lists the sentinels of the wrap chain. *)
Inductive sentinel :=
| ContextCanceled
| ContextDeadlineExceeded
| ErrNoMessage
| ErrTaskStateNotFound
| ErrNodeNotFound
| ErrTransitionFailed
| SqlErrNoRows.

#[export] Instance sentinel_eq_dec : EqDecision sentinel.
Proof. solve_decision. Defined.

Record error := Err { err_msg : string; err_chain : list sentinel }.

#[export] Instance error_eq_dec : EqDecision error.
Proof. solve_decision. Defined.

(** [errors.New] and [fmt.Errorf] without [%w]. *)
Definition new_error (msg : string) : error := Err msg [].

(** [errors.Is]. *)
Definition errors_is (e : error) (t : sentinel) : bool := bool_decide (t ∈ err_chain e).

Definition err_canceled : error := Err "context canceled" [ContextCanceled].
Definition err_deadline : error := Err "context deadline exceeded" [ContextDeadlineExceeded].

(** The pair [(T, error)] that a Go function returns when exactly one of the
    two is meaningful. *)
Inductive result (A : Type) :=
| Ok (a : A)
| Fail (e : error).
Arguments Ok {A} _.
Arguments Fail {A} _.

Definition is_ok {A} (r : result A) : bool := match r with Ok _ => true | Fail _ => false end.

#[export] Instance result_ret : MRet result := @Ok.
#[export] Instance result_bind : MBind result := λ A B f r,
  match r with Ok a => f a | Fail e => Fail e end.

#[export] Instance result_eq_dec {A} `{EqDecision A} : EqDecision (result A).
Proof. solve_decision. Defined.

(** ** Contexts

    A [context.Context] as the non-blocking operations see it: what [ctx.Err()]
    returns at the moment of the call ([None] is a live context). *)
Abbreviation ctx := (option error).
Definition background : ctx := None.

(** ** Machine integers *)

Definition int64_min : Z := - 2 ^ 63.
Definition int64_max : Z := 2 ^ 63 - 1.
Definition in_int64 (z : Z) : Prop := int64_min ≤ z ≤ int64_max.

(** Two's complement wrap-around of a 64-bit signed result. *)
Definition wrap64 (z : Z) : Z := (z + 2 ^ 63) mod 2 ^ 64 - 2 ^ 63.

Lemma wrap64_id z : in_int64 z → wrap64 z = z.
Proof.
  unfold in_int64, int64_min, int64_max, wrap64. intros H.
  rewrite Z.mod_small; lia.
Qed.

Lemma wrap64_cases z :
  - 2 ^ 64 ≤ z < 2 ^ 64 →
  wrap64 z = z ∨ wrap64 z = z - 2 ^ 64 ∨ wrap64 z = z + 2 ^ 64.
Proof.
  unfold wrap64. intros H.
  pose proof (Z.div_mod (z + 2 ^ 63) (2 ^ 64) ltac:(lia)) as Hdm.
  pose proof (Z.mod_pos_bound (z + 2 ^ 63) (2 ^ 64) ltac:(lia)) as Hb.
  set (q := (z + 2 ^ 63) / 2 ^ 64) in *.
  assert (q = 0 ∨ q = 1 ∨ q = -1) as [-> | [-> | ->]] by lia; lia.
Qed.

(** Unsigned 32-bit addition. *)
Definition add32 (a b : Z) : Z := (a + b) mod 2 ^ 32.

(** ** Map iteration

    Go visits the keys of a map in an order the language leaves unspecified,
    and a new one at every [range] statement.  A [RangeOrder] is one run's
    choice of these orders: [range_perm k l] is the order used by the range
    statement labelled [k] over a map whose keys are [l].  A definition with
    several range statements, or one inside a loop, labels each execution
    differently, so that no two of them are tied to the same order. *)
Class RangeOrder := {
  range_perm : string → list string → list string;
  range_perm_ok : ∀ k l, range_perm k l ≡ₚ l
}.

Definition range_set `{RangeOrder} (k : string) (s : gset string) : list string :=
  range_perm k (elements s).

(** Two concrete orders, for evaluation. *)
Definition range_ascending : RangeOrder :=
  {| range_perm := λ _ l, l; range_perm_ok := λ _ l, Permutation_refl l |}.

Definition range_descending : RangeOrder :=
  {| range_perm := λ _ l, reverse l; range_perm_ok := λ _ l, reverse_Permutation l |}.

Section range.
Context `{RangeOrder}.

Lemma elem_of_range_set k s x : x ∈ range_set k s ↔ x ∈ s.
Proof. unfold range_set. by rewrite range_perm_ok, elem_of_elements. Qed.

Lemma NoDup_range_set k s : NoDup (range_set k s).
Proof. unfold range_set. rewrite range_perm_ok. apply NoDup_elements. Qed.

Lemma length_range_set k s : length (range_set k s) = size s.
Proof. unfold range_set. by rewrite range_perm_ok. Qed.

Lemma list_to_set_range_set k s : list_to_set (range_set k s) = s.
Proof. apply set_eq. intros x. by rewrite elem_of_list_to_set, elem_of_range_set. Qed.
End range.

(** ** Lists *)

(** A list with a repeated element splits around two of its occurrences. *)
Lemma not_NoDup_split {A} `{EqDecision A} (l : list A) :
  ¬ NoDup l → ∃ x l1 l2 l3, l = l1 ++ x :: l2 ++ x :: l3.
Proof.
  induction l as [|a l IH]; intros Hnd; [by destruct Hnd; constructor|].
  destruct (decide (a ∈ l)) as [Ha|Ha].
  - apply list_elem_of_split in Ha as (l2 & l3 & ->). by exists a, [], l2, l3.
  - destruct IH as (x & l1 & l2 & l3 & ->).
    { intros Hl. apply Hnd. by constructor. }
    by exists x, (a :: l1), l2, l3.
Qed.

(** A duplicate-free list of members of a finite set is no longer than it. *)
Lemma NoDup_length_le_size (l : list string) (s : gset string) :
  NoDup l → (∀ x, x ∈ l → x ∈ s) → (length l ≤ size s)%nat.
Proof.
  intros Hnd Hin.
  rewrite <-(size_list_to_set (C := gset string) l Hnd).
  apply subseteq_size. intros x. rewrite elem_of_list_to_set. auto.
Qed.

(** ** Cycles

    A non-empty finite set in which every element has an [R]-predecessor
    contains a cycle of [R]: walking backwards must revisit an element. *)
Section cycles.
Context (R : string → string → Prop).

Definition chained (l : list string) : Prop :=
  ∀ i x y, l !! i = Some x → l !! S i = Some y → R x y.

Lemma chained_tc l i j x y :
  chained l → (i < j)%nat → l !! i = Some x → l !! j = Some y → tc R x y.
Proof.
  intros Hl Hij Hx. revert y. induction Hij as [|j Hij IH]; intros y Hy.
  - apply tc_once. by eapply Hl.
  - destruct (l !! j) as [z|] eqn:Hz; [|apply lookup_ge_None in Hz; apply lookup_lt_Some in Hy; lia].
    eapply tc_r; [by apply IH|]. by eapply Hl.
Qed.

Lemma backward_chain (X : gset string) n :
  X ≠ ∅ → (∀ v, v ∈ X → ∃ u, u ∈ X ∧ R u v) →
  ∃ l, length l = S n ∧ (∀ x, x ∈ l → x ∈ X) ∧ chained l.
Proof.
  intros [v Hv]%set_choose_L Hpred. induction n as [|n (l & Hlen & Hin & Hl)].
  - exists [v]. split_and!; [done|set_solver|]. intros [|i] x y; done.
  - destruct l as [|h l]; [done|]. destruct (Hpred h) as (u & Hu & HR); [set_solver|].
    exists (u :: h :: l). split_and!; [simpl in *; lia|set_solver|].
    intros [|i] x y; simpl; [by intros [= <-] [= <-]|by apply Hl].
Qed.

Lemma pred_closed_cycle (X : gset string) :
  X ≠ ∅ → (∀ v, v ∈ X → ∃ u, u ∈ X ∧ R u v) → ∃ x, tc R x x.
Proof.
  intros Hne Hpred. destruct (backward_chain X (size X) Hne Hpred) as (l & Hlen & Hin & Hl).
  destruct (not_NoDup_split l) as (x & l1 & l2 & l3 & ->).
  { intros Hnd. pose proof (NoDup_length_le_size l X Hnd Hin). lia. }
  exists x. eapply (chained_tc _ (length l1) (length l1 + S (length l2))); [done|lia| |].
  - by apply list_lookup_middle.
  - rewrite lookup_app_r by lia.
    replace (length l1 + S (length l2) - length l1)%nat with (S (length l2)) by lia.
    simpl. by apply list_lookup_middle.
Qed.
End cycles.

Create HintDb agentic discriminated.
Create Rewrite HintDb agentic_rw.
#[export] Hint Resolve NoDup_range_set : agentic.
#[export] Hint Rewrite @elem_of_range_set @list_to_set_range_set @length_range_set : agentic_rw.
