(* ===== verification/GoStrings.v ===== *)
(** * The functions of Go's [strings] package that the program uses

    A Go string is a sequence of bytes; so is [String.string]. *)
From S2P Require Import Prelude.
From Stdlib Require Import String Ascii.

Open Scope string_scope.

Global Arguments String.append _ _ : simpl nomatch.
Global Arguments String.length _ : simpl nomatch.

(** ** Prefixes, suffixes, substrings *)

(** [strings.HasPrefix(s, p)]. *)
Definition HasPrefix (s p : string) : bool := String.prefix p s.

Fixpoint skip (n : nat) (s : string) : string :=
  match n, s with
  | S n', String _ s' => skip n' s'
  | _, _ => s
  end.

(** [strings.TrimPrefix(s, p)]. *)
Definition TrimPrefix (s p : string) : string :=
  if HasPrefix s p then skip (String.length p) s else s.

Fixpoint srev_app (s acc : string) : string :=
  match s with
  | "" => acc
  | String c s' => srev_app s' (String c acc)
  end.

Definition srev (s : string) : string := srev_app s "".

(** [strings.HasSuffix(s, p)] and [strings.TrimSuffix(s, p)]. *)
Definition HasSuffix (s p : string) : bool := HasPrefix (srev s) (srev p).
Definition TrimSuffix (s p : string) : string :=
  if HasSuffix s p then srev (skip (String.length p) (srev s)) else s.

(** [strings.Contains(s, sub)]. *)
Fixpoint Contains (s sub : string) : bool :=
  HasPrefix s sub ||
  match s with
  | "" => false
  | String _ s' => Contains s' sub
  end.

(** ** Case mapping

    [strings.ToLower] maps runes.  The model lowers ASCII letters and the two
    non-ASCII runes whose lower case is ASCII (U+0130 to [i], U+212A to [k]);
    every other byte is kept.  The results are only ever compared with, or
    searched for, ASCII constants, on which this agrees with the full mapping:
    the other runes lower to non-ASCII runes, kept or not. *)
Definition byte_of (n : nat) : ascii := ascii_of_nat n.

Definition lower_ascii (c : ascii) : ascii :=
  let n := nat_of_ascii c in
  if (65 <=? n)%nat && (n <=? 90)%nat then byte_of (n + 32) else c.

Definition upper_ascii (c : ascii) : ascii :=
  let n := nat_of_ascii c in
  if (97 <=? n)%nat && (n <=? 122)%nat then byte_of (n - 32) else c.

Fixpoint ToLower (s : string) : string :=
  match s with
  | "" => ""
  | String "196" (String "176" s') => String "i" (ToLower s')
  | String "226" (String "132" (String "170" s')) => String "k" (ToLower s')
  | String c s' => String (lower_ascii c) (ToLower s')
  end.

(** Likewise [strings.ToUpper]: U+0131 to [I] and U+017F to [S]. *)
Fixpoint ToUpper (s : string) : string :=
  match s with
  | "" => ""
  | String "196" (String "177" s') => String "I" (ToUpper s')
  | String "197" (String "191" s') => String "S" (ToUpper s')
  | String c s' => String (upper_ascii c) (ToUpper s')
  end.

(** ** Trimming white space

    [strings.TrimSpace] removes the leading and trailing runes of
    [unicode.IsSpace]: the ASCII ones (tab, newline, vertical tab, form feed,
    carriage return, space), U+0085, U+00A0, U+1680, U+2000 to U+200A, U+2028,
    U+2029, U+202F, U+205F and U+3000, here by their UTF-8 encodings. *)
Definition is_ascii_space (c : ascii) : bool :=
  let n := nat_of_ascii c in ((9 <=? n)%nat && (n <=? 13)%nat) || (n =? 32)%nat.

Definition is_space2 (a b : ascii) : bool :=
  let '(a, b) := (nat_of_ascii a, nat_of_ascii b) in
  (a =? 194)%nat && ((b =? 133)%nat || (b =? 160)%nat).

Definition is_space3 (a b c : ascii) : bool :=
  let '(a, b, c) := (nat_of_ascii a, nat_of_ascii b, nat_of_ascii c) in
  ((a =? 225)%nat && (b =? 154)%nat && (c =? 128)%nat) ||
  ((a =? 226)%nat && (b =? 128)%nat &&
     (((128 <=? c)%nat && (c <=? 138)%nat) || (c =? 168)%nat || (c =? 169)%nat || (c =? 175)%nat)) ||
  ((a =? 226)%nat && (b =? 129)%nat && (c =? 159)%nat) ||
  ((a =? 227)%nat && (b =? 128)%nat && (c =? 128)%nat).

Fixpoint TrimLeftSpace (s : string) : string :=
  match s with
  | "" => ""
  | String a s1 =>
      if is_ascii_space a then TrimLeftSpace s1 else
      match s1 with
      | "" => s
      | String b s2 =>
          if is_space2 a b then TrimLeftSpace s2 else
          match s2 with
          | "" => s
          | String c s3 => if is_space3 a b c then TrimLeftSpace s3 else s
          end
      end
  end.

(** The same, on the reversed bytes. *)
Fixpoint trim_left_rev (s : string) : string :=
  match s with
  | "" => ""
  | String a s1 =>
      if is_ascii_space a then trim_left_rev s1 else
      match s1 with
      | "" => s
      | String b s2 =>
          if is_space2 b a then trim_left_rev s2 else
          match s2 with
          | "" => s
          | String c s3 => if is_space3 c b a then trim_left_rev s3 else s
          end
      end
  end.

Definition TrimSpace (s : string) : string := srev (trim_left_rev (srev (TrimLeftSpace s))).

(** ** Lemmas *)

Lemma sapp_assoc (a b c : string) : ((a ++ b) ++ c = a ++ (b ++ c))%string.
Proof. induction a; simpl; congruence. Qed.

Lemma sapp_nil_r (a : string) : (a ++ "" = a)%string.
Proof. induction a; simpl; congruence. Qed.

Lemma slength_app (a b : string) : String.length (a ++ b)%string = (String.length a + String.length b)%nat.
Proof. induction a; simpl; lia. Qed.

Lemma sapp_inj_l (a b c : string) : (a ++ b = a ++ c)%string → b = c.
Proof. induction a; simpl; [done|]. intros [=]. auto. Qed.

Lemma srev_app_spec s acc : srev_app s acc = (srev s ++ acc)%string.
Proof.
  unfold srev. revert acc. induction s as [|c s IH]; intros acc; simpl; [done|].
  rewrite IH, (IH (String c "")), sapp_assoc. done.
Qed.

Lemma srev_cons c s : srev (String c s) = (srev s ++ String c "")%string.
Proof. unfold srev at 1. simpl. apply srev_app_spec. Qed.

Lemma srev_app_distr a b : srev (a ++ b)%string = (srev b ++ srev a)%string.
Proof.
  induction a as [|c a IH]; simpl; [by rewrite sapp_nil_r|].
  by rewrite !srev_cons, IH, sapp_assoc.
Qed.

Lemma srev_involutive s : srev (srev s) = s.
Proof. induction s as [|c s IH]; [done|]. by rewrite srev_cons, srev_app_distr, IH. Qed.

Lemma skip_app p s : skip (String.length p) (p ++ s)%string = s.
Proof. induction p; simpl; auto. Qed.

Lemma HasPrefix_spec s p : HasPrefix s p = true ↔ ∃ t, s = (p ++ t)%string.
Proof.
  unfold HasPrefix. revert s. induction p as [|c p IH]; intros s; simpl.
  - split; [eauto|]. by destruct s.
  - destruct s as [|d s]; simpl; [split; [done|by intros [? [=]]]|].
    destruct (ascii_dec c d) as [->|Hne].
    + rewrite IH. split; intros [t Ht]; exists t; by simplify_eq/=.
    + split; [done|]. intros [t [=]]. done.
Qed.

Lemma HasPrefix_app p s : HasPrefix (p ++ s) p = true.
Proof. apply HasPrefix_spec. eauto. Qed.

Lemma TrimPrefix_app p s : TrimPrefix (p ++ s) p = s.
Proof. unfold TrimPrefix. by rewrite HasPrefix_app, skip_app. Qed.

Lemma HasSuffix_spec s p : HasSuffix s p = true ↔ ∃ t, s = (t ++ p)%string.
Proof.
  unfold HasSuffix. rewrite HasPrefix_spec. split; intros [t Ht].
  - exists (srev t). by rewrite <-(srev_involutive s), Ht, srev_app_distr, srev_involutive.
  - exists (srev t). by rewrite Ht, srev_app_distr.
Qed.

Lemma TrimSuffix_app t p : TrimSuffix (t ++ p) p = t.
Proof.
  unfold TrimSuffix. rewrite (proj2 (HasSuffix_spec _ _)) by eauto.
  rewrite srev_app_distr.
  replace (String.length p) with (String.length (srev p)).
  - by rewrite skip_app, srev_involutive.
  - clear. induction p as [|c p IH]; [done|]. rewrite srev_cons, slength_app, IH. simpl. lia.
Qed.

Lemma Contains_spec s sub : Contains s sub = true ↔ ∃ a b, s = (a ++ sub ++ b)%string.
Proof.
  induction s as [|c s IH]; cbn [Contains].
  - rewrite orb_false_r, HasPrefix_spec. split.
    + intros [t Ht]. by exists "", t.
    + intros (a & b & H). destruct a; [eauto|done].
  - rewrite orb_true_iff, HasPrefix_spec, IH. split.
    + intros [[t Ht]|(a & b & ->)]; [by exists "", t|by exists (String c a), b].
    + intros ([|d a] & b & H); simplify_eq/=; [left; eauto|right; eauto].
Qed.

(** [TrimSpace] removes ASCII white space around a text whose first and last
    bytes are other ASCII characters. *)
Fixpoint all_ascii_space (s : string) : bool :=
  match s with String c r => is_ascii_space c && all_ascii_space r | "" => true end.

(** ASCII and not white space: never part of a space rune. *)
Definition solid (c : ascii) : bool := (nat_of_ascii c <? 128)%nat && negb (is_ascii_space c).

Lemma solid_not_space c :
  solid c = true → is_ascii_space c = false ∧
  (∀ b, is_space2 c b = false ∧ is_space2 b c = false) ∧
  (∀ b d, is_space3 c b d = false ∧ is_space3 d b c = false).
Proof.
  unfold solid, is_space2, is_space3. intros [H1 H2]%andb_prop. apply Nat.ltb_lt in H1. apply negb_true_iff in H2.
  assert (∀ k, (128 <= k)%nat → (nat_of_ascii c =? k)%nat = false) as Hk by (intros k Hk; apply Nat.eqb_neq; lia).
  assert ((128 <=? nat_of_ascii c)%nat = false) as Hle by (apply Nat.leb_gt; lia).
  split; [done|]. split; [intros b|intros b d]; split;
    rewrite ?Hle, ?Hk by (apply Nat.leb_le; reflexivity); cbn [andb orb]; rewrite ?andb_false_r; done.
Qed.

Lemma TrimLeftSpace_spaces w s : all_ascii_space w = true → TrimLeftSpace (w ++ s) = TrimLeftSpace s.
Proof. induction w as [|c w IH]; [done|]. intros [Hc Hw]%andb_prop. cbn. rewrite Hc. by apply IH. Qed.

Lemma TrimLeftSpace_solid c s : solid c = true → TrimLeftSpace (String c s) = String c s.
Proof.
  intros (H1 & H2 & H3)%solid_not_space. cbn [TrimLeftSpace]. rewrite H1. destruct s as [|b s]; [done|].
  rewrite (proj1 (H2 b)). destruct s as [|d s]; [done|]. by rewrite (proj1 (H3 b d)).
Qed.

Lemma trim_left_rev_spaces w s : all_ascii_space w = true → trim_left_rev (w ++ s) = trim_left_rev s.
Proof. induction w as [|c w IH]; [done|]. intros [Hc Hw]%andb_prop. cbn. rewrite Hc. by apply IH. Qed.

Lemma trim_left_rev_solid c s : solid c = true → trim_left_rev (String c s) = String c s.
Proof.
  intros (H1 & H2 & H3)%solid_not_space. cbn [trim_left_rev]. rewrite H1. destruct s as [|b s]; [done|].
  rewrite (proj2 (H2 b)). destruct s as [|d s]; [done|]. by rewrite (proj2 (H3 b d)).
Qed.

Lemma all_ascii_space_app a b : all_ascii_space (a ++ b) = all_ascii_space a && all_ascii_space b.
Proof. induction a as [|c a IH]; [done|]. cbn. by rewrite IH, andb_assoc. Qed.

Lemma all_ascii_space_srev s : all_ascii_space (srev s) = all_ascii_space s.
Proof.
  induction s as [|c s IH]; [done|]. rewrite srev_cons, all_ascii_space_app, IH. cbn.
  by rewrite andb_true_r, andb_comm.
Qed.

Lemma TrimSpace_frame w1 w2 c s d :
  all_ascii_space w1 = true → all_ascii_space w2 = true → solid c = true → solid d = true →
  (∃ t, s = (t ++ String d "")%string ∧ ∃ u, s = String c u) →
  TrimSpace (w1 ++ (s ++ w2)) = s.
Proof.
  intros Hw1 Hw2 Hc Hd (t & Ht & u & Hu). unfold TrimSpace.
  rewrite TrimLeftSpace_spaces by done. rewrite Hu at 1. cbn [String.append]. rewrite TrimLeftSpace_solid by done.
  change (String c (u ++ w2)) with (String c u ++ w2). rewrite <-Hu, srev_app_distr.
  rewrite trim_left_rev_spaces by (by rewrite all_ascii_space_srev).
  rewrite Ht at 1. rewrite srev_app_distr. change (srev (String d "")) with (String d ""). cbn [String.append].
  rewrite trim_left_rev_solid by done.
  change (String d (srev t)) with (srev (String d "") ++ srev t). by rewrite <-srev_app_distr, <-Ht, srev_involutive.
Qed.
