(* ===== verification/Strconv.v ===== *)
(** * Decimal integers: strconv.ParseInt(s, 10, 64) and the %d verb

    [FormatInt] is the decimal text of an integer, [ParseInt] the parser with
    its optional sign and its 64-bit range check; parsing a formatted 64-bit
    integer gives it back. *)
From S2P Require Import Prelude GoStrings.
From Stdlib Require Import String Ascii.

Local Open Scope Z_scope.

Definition code (c : ascii) : Z := Z.of_N (N_of_ascii c).
Definition is_digit (c : ascii) : bool := (48 <=? code c) && (code c <=? 57).

Definition FormatInt (z : Z) : string := pretty z.

(** The value of a run of digits after the value [acc]. *)
Fixpoint digits_value (acc : Z) (s : string) : option Z :=
  match s with
  | EmptyString => Some acc
  | String c r => if is_digit c then digits_value (acc * 10 + (code c - 48)) r else None
  end.

Definition parse_digits (s : string) : option Z :=
  match s with EmptyString => None | _ => digits_value 0 s end.

Definition in_range64 (z : Z) : bool := (int64_min <=? z) && (z <=? int64_max).

(** [strconv.ParseInt(s, 10, 64)]; a syntax or a range error is [None]. *)
Definition ParseInt (s : string) : option Z :=
  z ← match s with
      | String c r =>
        if bool_decide (c = "-"%char) then Z.opp <$> parse_digits r
        else if bool_decide (c = "+"%char) then parse_digits r
        else parse_digits s
      | EmptyString => None
      end;
  if in_range64 z then Some z else None.

Lemma pretty_N_char_code n : (n < 10)%N → code (pretty_N_char n) = 48 + Z.of_N n.
Proof.
  intros H. assert (n = 0 ∨ n = 1 ∨ n = 2 ∨ n = 3 ∨ n = 4 ∨ n = 5 ∨ n = 6 ∨ n = 7 ∨ n = 8 ∨ n = 9)%N as Hn by lia.
  repeat (destruct Hn as [-> | Hn]; [reflexivity|]). by subst.
Qed.

Lemma digits_value_pretty x s : digits_value 0 (pretty_N_go x s) = digits_value (Z.of_N x) s.
Proof.
  revert s. induction x as [x IH] using (well_founded_induction N.lt_wf_0). intros s.
  destruct (decide (x = 0%N)) as [->|Hx]; [done|].
  rewrite pretty_N_go_step by lia. rewrite IH by (apply N.div_lt; lia). cbn [digits_value].
  assert (x `mod` 10 < 10)%N as Hm by (apply N.mod_lt; lia).
  unfold is_digit. rewrite !pretty_N_char_code by done.
  set (m := (x `mod` 10)%N) in *. replace ((48 <=? 48 + Z.of_N m) && (48 + Z.of_N m <=? 57)) with true by lia.
  f_equal. unfold m. rewrite N2Z.inj_div, N2Z.inj_mod. pose proof (Z.div_mod (Z.of_N x) (Z.of_N 10) ltac:(lia)). lia.
Qed.

(** The text of a positive number starts with a non-zero digit. *)
Lemma pretty_N_go_head x s : (0 < x)%N → ∃ c t, pretty_N_go x s = String c t ∧ is_digit c = true ∧ code c ≠ 48.
Proof.
  revert s. induction x as [x IH] using (well_founded_induction N.lt_wf_0). intros s Hx.
  rewrite pretty_N_go_step by lia.
  destruct (decide (x `div` 10 = 0)%N) as [H0|H0].
  - rewrite H0, pretty_N_go_0. do 2 eexists. split; [done|].
    assert (x < 10)%N as Hlt by (apply N.div_small_iff in H0; lia).
    unfold is_digit. rewrite N.mod_small, pretty_N_char_code by done. lia.
  - apply IH; [apply N.div_lt; lia|by apply N.neq_0_lt_0].
Qed.

Fixpoint all_digits (s : string) : bool :=
  match s with String c r => is_digit c && all_digits r | EmptyString => true end.

Lemma pretty_N_go_digits x s : all_digits s = true → all_digits (pretty_N_go x s) = true.
Proof.
  revert s. induction x as [x IH] using (well_founded_induction N.lt_wf_0). intros s Hs.
  destruct (decide (x = 0%N)) as [->|Hx]; [done|].
  rewrite pretty_N_go_step by lia. apply IH; [apply N.div_lt; lia|].
  assert (x `mod` 10 < 10)%N as Hm by (apply N.mod_lt; lia).
  cbn. unfold is_digit. rewrite !pretty_N_char_code by done. rewrite Hs. set (m := (x `mod` 10)%N) in *. lia.
Qed.

(** The shape of the decimal text of a natural number. *)
Lemma pretty_N_shape x : ∃ c t, pretty x = String c t ∧ is_digit c = true ∧ all_digits t = true ∧
  (code c = 48 → t = EmptyString) ∧ digits_value 0 (String c t) = Some (Z.of_N x).
Proof.
  unfold pretty, pretty_N. destruct (decide (x = 0%N)) as [->|Hx].
  - by exists "0"%char, EmptyString.
  - destruct (pretty_N_go_head x EmptyString) as (c & t & Ht & Hc & Hc'); [lia|].
    pose proof (pretty_N_go_digits x EmptyString eq_refl) as Hd. pose proof (digits_value_pretty x EmptyString) as Hv.
    rewrite Ht in *. apply andb_prop in Hd as [_ Hd]. exists c, t. done.
Qed.

Lemma FormatInt_cases z :
  (∃ x : N, z = Z.of_N x ∧ FormatInt z = pretty x) ∨
  (∃ x : N, z = - Z.of_N x ∧ z < 0 ∧ FormatInt z = String "-" (pretty x)).
Proof.
  unfold FormatInt, pretty at 1 3, pretty_Z. destruct z as [|p|p].
  - left. by exists 0%N.
  - left. by exists (Npos p).
  - right. by exists (Npos p).
Qed.

Lemma digit_not_sign c : is_digit c = true → c ≠ "-"%char ∧ c ≠ "+"%char.
Proof. intros H; split; intros ->; by vm_compute in H. Qed.

Lemma ParseInt_FormatInt z : in_int64 z → ParseInt (FormatInt z) = Some z.
Proof.
  intros Hz. assert (in_range64 z = true) as Hr by (unfold in_range64, in_int64 in *; lia).
  unfold ParseInt. destruct (FormatInt_cases z) as [(x & -> & ->)|(x & -> & _ & ->)];
    destruct (pretty_N_shape x) as (c & t & -> & Hc & _ & _ & Hv).
  - destruct (digit_not_sign c Hc). rewrite !bool_decide_eq_false_2 by done.
    unfold parse_digits. rewrite Hv. cbn. by rewrite Hr.
  - rewrite bool_decide_eq_true_2 by done. unfold parse_digits. rewrite Hv. cbn. by rewrite Hr.
Qed.

(** The decimal text of an integer contains no [.]. *)
Lemma digits_no_char c s d : all_digits s = true → is_digit d = false → c = d → Contains s (String c EmptyString) = false.
Proof.
  intros Hs Hd ->. induction s as [|a s IH]; [done|]. apply andb_prop in Hs as [Ha Hs].
  cbn [Contains]. rewrite IH by done. rewrite orb_false_r. cbn.
  destruct (ascii_dec d a); [congruence|done].
Qed.

Lemma FormatInt_inj a b : FormatInt a = FormatInt b → a = b.
Proof. apply pretty_Z_inj. Qed.

(** [strconv.ParseBool] *)
Definition ParseBool (s : string) : option bool :=
  if bool_decide (s ∈ ["1"; "t"; "T"; "true"; "TRUE"; "True"]%string) then Some true
  else if bool_decide (s ∈ ["0"; "f"; "F"; "false"; "FALSE"; "False"]%string) then Some false
  else None.
