(* ===== verification/TaskStatus.v ===== *)
(** * Task statuses (internal/memory/task_status.go)

    The seven statuses a task may have, the normalisation every status string
    goes through before it is stored, and the two classifications the
    orchestrator and the gateway branch on. *)
From S2P Require Import Prelude GoStrings.

Open Scope string_scope.

Definition TaskStatusPending : string := "pending".
Definition TaskStatusRunning : string := "running".
Definition TaskStatusSuccess : string := "success".
Definition TaskStatusFailed : string := "failed".
Definition TaskStatusRejected : string := "rejected".
Definition TaskStatusTimeout : string := "timeout".
Definition TaskStatusCancelled : string := "cancelled".

(** The cases of the [switch] of [NormalizeTaskStatus]. *)
Definition known_statuses : list string :=
  [TaskStatusPending; TaskStatusRunning; TaskStatusSuccess; TaskStatusFailed;
   TaskStatusRejected; TaskStatusTimeout; TaskStatusCancelled].

Definition NormalizeTaskStatus (status : string) : string :=
  let normalized := ToLower (TrimSpace status) in
  if bool_decide (normalized ∈ known_statuses) then normalized else TaskStatusFailed.

Definition IsTerminalTaskStatus (status : string) : bool :=
  let s := NormalizeTaskStatus status in
  negb (bool_decide (s ∈ [TaskStatusPending; TaskStatusRunning])).

Definition IsSuccessfulTaskStatus (status : string) : bool :=
  bool_decide (NormalizeTaskStatus status = TaskStatusSuccess).

(** ** Lemmas *)

Lemma normalize_known s : NormalizeTaskStatus s ∈ known_statuses.
Proof.
  unfold NormalizeTaskStatus. case_bool_decide; [done|].
  apply (bool_decide_unpack _). by vm_compute.
Qed.

(** Every known status is a fixed point of the normalisation. *)
Lemma normalize_fixed s : s ∈ known_statuses → NormalizeTaskStatus s = s.
Proof.
  unfold known_statuses. rewrite !elem_of_cons, elem_of_nil.
  intros H. destruct_or!; subst; done.
Qed.

#[export] Hint Resolve normalize_known : agentic.

(** ** Properties *)

(** Normalisation is total onto the seven statuses and idempotent, so a status
    read back from a store and normalised again does not change; and it leaves
    exactly [pending] and [running] non-terminal. *)
Theorem normalize_idempotent_onto (s : string) :
  NormalizeTaskStatus s ∈ known_statuses ∧
  NormalizeTaskStatus (NormalizeTaskStatus s) = NormalizeTaskStatus s ∧
  (IsTerminalTaskStatus s = false ↔
     NormalizeTaskStatus s = TaskStatusPending ∨ NormalizeTaskStatus s = TaskStatusRunning) ∧
  (IsSuccessfulTaskStatus s = true → IsTerminalTaskStatus s = true).
Proof.
  split_and!; [apply normalize_known|apply normalize_fixed, normalize_known| |].
  - unfold IsTerminalTaskStatus. rewrite negb_false_iff, bool_decide_eq_true.
    rewrite !elem_of_cons, elem_of_nil. naive_solver.
  - unfold IsSuccessfulTaskStatus, IsTerminalTaskStatus.
    rewrite bool_decide_eq_true. intros ->. done.
Qed.

Example normalize_examples :
  map NormalizeTaskStatus ["  Running"; "CANCELLED
"; "error"; ""; "rejected"] =
  ["running"; "cancelled"; "failed"; "failed"; "rejected"].
Proof. reflexivity. Qed.
