(* ===== verification/Dag.v ===== *)
(** * The workflow graph (internal/workflow/dag.go)

    Nodes are strings; [edges] maps a node to the set of the nodes that depend
    on it.  [TopologicalOrder] is Kahn's algorithm over Go maps, whose
    iteration order is left to a [RangeOrder]. *)
From S2P Require Import Prelude.

(** ** Data and operations *)

Record DAG := mkDAG { nodes : gset string; edges : gmap string (gset string) }.

Definition NewDAG : DAG := mkDAG ∅ ∅.

Definition AddNode (d : DAG) (id : string) : DAG :=
  if decide (id ∈ nodes d) then d
  else mkDAG ({[id]} ∪ nodes d)
             (match edges d !! id with
              | Some _ => edges d
              | None => <[id := ∅]> (edges d)
              end).

(** A read of [d.edges[n]]: the zero value, a nil map, when the key is absent. *)
Definition out_edges (d : DAG) (n : string) : gset string := default ∅ (edges d !! n).

Definition AddDependency (d : DAG) (node dependsOn : string) : DAG * option error :=
  if decide (node ∉ nodes d) then (d, Some (new_error "node not found"))
  else if decide (dependsOn ∉ nodes d) then (d, Some (new_error "dependency node not found"))
  else (mkDAG (nodes d) (<[dependsOn := {[node]} ∪ out_edges d dependsOn]> (edges d)), None).

Section dag.
Context `{RangeOrder}.

Definition Dependencies (k : string) (d : DAG) (nodeID : string) : list string :=
  from ← range_set k (dom (edges d));
  to ← range_set (k +:+ "/" +:+ from) (out_edges d from);
  if decide (to = nodeID) then [from] else [].

Definition Dependents (k : string) (d : DAG) (nodeID : string) : list string :=
  range_set k (out_edges d nodeID).

(** [indegree[n] = 0] for every node, then [indegree[to]++] for every edge. *)
Definition zero_indegrees (d : DAG) : gmap string Z :=
  foldl (λ m n, <[n := 0]> m) ∅ (range_set "nodes" (nodes d)).

Definition incr_indegree (m : gmap string Z) (to : string) : gmap string Z :=
  <[to := default 0 (m !! to) + 1]> m.

Definition indegrees (d : DAG) : gmap string Z :=
  foldl (λ m from, foldl incr_indegree m (range_set ("edges/" +:+ from) (out_edges d from)))
    (zero_indegrees d) (range_set "edges" (dom (edges d))).

Definition initial_queue (m : gmap string Z) : list string :=
  filter (λ n, default 0 (m !! n) = 0) (range_set "indegree" (dom m)).

(** The body of [for to := range d.edges[n]]. *)
Definition relax (st : gmap string Z * list string) (to : string) : gmap string Z * list string :=
  let '(m, q) := st in
  let deg := default 0 (m !! to) - 1 in
  (<[to := deg]> m, if bool_decide (deg = 0) then q ++ [to] else q).

(** The [for len(queue) > 0] loop; [None] when the fuel runs out. *)
Fixpoint kahn_loop (fuel : nat) (d : DAG) (queue order : list string) (m : gmap string Z)
    : option (list string) :=
  match queue with
  | [] => Some order
  | n :: rest =>
      match fuel with
      | O => None
      | S fuel' =>
          let '(m', queue') := foldl relax (m, rest) (range_set ("out/" +:+ n) (out_edges d n)) in
          kahn_loop fuel' d queue' (order ++ [n]) m'
      end
  end.

Definition topological_order_fuel (fuel : nat) (d : DAG) : option (result (list string)) :=
  let m := indegrees d in
  match kahn_loop fuel d (initial_queue m) [] m with
  | None => None
  | Some order =>
      Some (if decide (length order = size (nodes d)) then Ok order
            else Fail (new_error "cycle detected"))
  end.

(** Every iteration emits one node, so the number of nodes is fuel enough. *)
Definition TopologicalOrder (d : DAG) : option (result (list string)) :=
  topological_order_fuel (size (nodes d)) d.
End dag.

(** ** Well-formed graphs *)

Definition edge (d : DAG) (u v : string) : Prop := v ∈ out_edges d u.

#[export] Instance edge_dec d u v : Decision (edge d u v).
Proof. unfold edge. apply _. Defined.

Definition dag_wf (d : DAG) : Prop :=
  dom (edges d) ⊆ nodes d ∧ ∀ u v, edge d u v → v ∈ nodes d.

Definition cyclic (d : DAG) : Prop := ∃ x, tc (edge d) x x.

(** The predecessors of a node. *)
Definition preds (d : DAG) (v : string) : gset string :=
  filter (λ u, v ∈ out_edges d u) (dom (edges d)).

Lemma edge_dom d u v : edge d u v → u ∈ dom (edges d).
Proof.
  unfold edge, out_edges. rewrite elem_of_dom.
  destruct (edges d !! u); simpl; [eauto|set_solver].
Qed.

Lemma elem_of_preds d u v : u ∈ preds d v ↔ edge d u v.
Proof.
  unfold preds. rewrite elem_of_filter. split; [by intros [? _]|].
  intros He. split; [done|]. eapply edge_dom, He.
Qed.

Lemma dag_wf_edge d u v : dag_wf d → edge d u v → u ∈ nodes d ∧ v ∈ nodes d.
Proof. intros [Hdom Hv] He. split; [|eauto]. apply Hdom. eapply edge_dom, He. Qed.

#[export] Hint Rewrite elem_of_preds : agentic_rw.

Lemma out_edges_AddNode d id u : dag_wf d → out_edges (AddNode d id) u = out_edges d u.
Proof.
  intros _. unfold AddNode, out_edges. case_decide; [done|]. simpl.
  destruct (edges d !! id) eqn:Hid; [done|].
  rewrite lookup_insert. case_decide; subst; [by rewrite Hid|done].
Qed.

Lemma nodes_AddNode d id : nodes (AddNode d id) = {[id]} ∪ nodes d.
Proof. unfold AddNode. case_decide; simpl; [set_solver|done]. Qed.

Lemma NewDAG_wf : dag_wf NewDAG.
Proof. split; [set_solver|]. intros u v. unfold edge, out_edges. simpl. rewrite lookup_empty. set_solver. Qed.

Lemma AddNode_wf d id : dag_wf d → dag_wf (AddNode d id).
Proof.
  intros Hwf. split.
  - rewrite nodes_AddNode. destruct Hwf as [Hdom _].
    unfold AddNode. case_decide; simpl; [set_solver|].
    destruct (edges d !! id); rewrite ?dom_insert_L; set_solver.
  - intros u v. unfold edge. rewrite out_edges_AddNode, nodes_AddNode by done.
    intros He. apply elem_of_union_r. by eapply (proj2 Hwf).
Qed.

(** The edges after a successful [AddDependency node dependsOn]. *)
Lemma edge_AddDependency d node dep u v :
  node ∈ nodes d → dep ∈ nodes d →
  edge (AddDependency d node dep).1 u v ↔ edge d u v ∨ (u = dep ∧ v = node).
Proof.
  intros Hn Hd. unfold AddDependency. do 2 (case_decide; [done|]). simpl.
  unfold edge, out_edges. simpl. rewrite lookup_insert. case_decide; subst; simpl; set_solver.
Qed.

Lemma AddDependency_error d node dep e :
  (AddDependency d node dep).2 = Some e → (AddDependency d node dep).1 = d.
Proof. unfold AddDependency. repeat case_decide; simpl; congruence. Qed.

Lemma nodes_AddDependency d node dep : nodes (AddDependency d node dep).1 = nodes d.
Proof. unfold AddDependency. by repeat case_decide. Qed.

Lemma AddDependency_wf d node dep : dag_wf d → dag_wf (AddDependency d node dep).1.
Proof.
  intros Hwf. destruct (AddDependency d node dep).2 as [e|] eqn:He.
  { by rewrite (AddDependency_error _ _ _ _ He). }
  assert (node ∈ nodes d ∧ dep ∈ nodes d) as [Hn Hd].
  { revert He. unfold AddDependency. by repeat case_decide. }
  split.
  - rewrite nodes_AddDependency. destruct Hwf as [Hdom _]. unfold AddDependency.
    repeat case_decide; simpl; rewrite ?dom_insert_L; set_solver.
  - intros u v. rewrite edge_AddDependency, nodes_AddDependency by done.
    intros [He'|[-> ->]]; [by eapply (proj2 Hwf)|done].
Qed.

#[export] Hint Resolve NewDAG_wf AddNode_wf AddDependency_wf : agentic.

(** ** Dependencies and dependents *)

Section dependencies.
Context `{RangeOrder}.

Lemma elem_of_Dependencies k d v u : u ∈ Dependencies k d v ↔ edge d u v.
Proof.
  unfold Dependencies. rewrite list_elem_of_bind. split.
  - intros (u' & Hin & _). apply list_elem_of_bind in Hin as (to & Hto & Hin').
    rewrite elem_of_range_set in Hin'. case_decide; [|set_solver].
    apply list_elem_of_singleton in Hto as ->. by subst.
  - intros He. exists u. rewrite elem_of_range_set. split; [|by eapply edge_dom].
    apply list_elem_of_bind. exists v. rewrite elem_of_range_set. split; [|done].
    rewrite decide_True by done. set_solver.
Qed.

Lemma elem_of_Dependents k d v u : v ∈ Dependents k d u ↔ edge d u v.
Proof. unfold Dependents. by rewrite elem_of_range_set. Qed.

Lemma Dependencies_nil k d v : length (Dependencies k d v) = 0%nat ↔ ∀ u, ¬ edge d u v.
Proof.
  setoid_rewrite <-(elem_of_Dependencies k). rewrite length_zero_iff_nil.
  split; [by intros ->; set_solver|]. destruct (Dependencies k d v); [done|set_solver].
Qed.
End dependencies.

(** ** Counting in-degrees *)

(** Occurrences of [v] in a list of edge targets. *)
Definition count (v : string) (l : list string) : nat := length (filter (λ x, x = v) l).

Lemma count_app v l1 l2 : count v (l1 ++ l2) = (count v l1 + count v l2)%nat.
Proof. unfold count. by rewrite filter_app, length_app. Qed.

Lemma count_NoDup v l : NoDup l → count v l = if decide (v ∈ l) then 1%nat else 0%nat.
Proof.
  unfold count. induction 1 as [|x l Hx Hl IH]; [by rewrite decide_False by set_solver|].
  destruct (decide (x = v)) as [->|Hne].
  - rewrite filter_cons_True, decide_True by set_solver. simpl.
    rewrite IH, decide_False; done.
  - rewrite filter_cons_False, IH by done.
    destruct (decide (v ∈ l)); [rewrite decide_True by set_solver|rewrite decide_False by set_solver]; done.
Qed.

Lemma default_foldl_incr m l v :
  default 0 (foldl incr_indegree m l !! v) = default 0 (m !! v) + Z.of_nat (count v l).
Proof.
  revert m. induction l as [|x l IH]; intros m; simpl; [unfold count; simpl; lia|].
  rewrite IH. unfold incr_indegree, count. destruct (decide (x = v)) as [->|Hne].
  - rewrite lookup_insert_eq, filter_cons_True by done. simpl. lia.
  - rewrite lookup_insert_ne, filter_cons_False by done. lia.
Qed.

Lemma dom_foldl_incr m l : dom (foldl incr_indegree m l) = dom m ∪ list_to_set l.
Proof.
  revert m. induction l as [|x l IH]; intros m; simpl; [set_solver|].
  rewrite IH. unfold incr_indegree. rewrite dom_insert_L. set_solver.
Qed.

Lemma foldl_zero (m : gmap string Z) l v :
  (∀ w, default 0 (m !! w) = 0) → default 0 (foldl (λ m n, <[n := 0]> m) m l !! v) = 0.
Proof.
  revert m. induction l as [|x l IH]; intros m Hm; simpl; [done|].
  apply IH. intros w. rewrite lookup_insert. by case_decide.
Qed.

Lemma dom_foldl_zero (m : gmap string Z) l :
  dom (foldl (λ m n, <[n := 0]> m) m l) = dom m ∪ list_to_set l.
Proof.
  revert m. induction l as [|x l IH]; intros m; simpl; [set_solver|].
  rewrite IH, dom_insert_L. set_solver.
Qed.

Lemma foldl_nested {A} (f : A → string → A) (g : string → list string) (a : A) l :
  foldl (λ a x, foldl f a (g x)) a l = foldl f a (l ≫= g).
Proof.
  revert a. induction l as [|x l IH]; intros a; simpl; [done|].
  by rewrite IH, foldl_app.
Qed.

(** The counting pass computes the number of predecessors. *)
Section indegrees.
Context `{RangeOrder}.

Lemma count_targets d v l :
  count v (l ≫= λ from, range_set ("edges/" +:+ from) (out_edges d from)) =
  length (filter (λ u, v ∈ out_edges d u) l).
Proof.
  induction l as [|u l IH]; [done|].
  rewrite bind_cons, count_app, IH, count_NoDup by apply NoDup_range_set.
  rewrite filter_cons. destruct (decide (v ∈ out_edges d u)) as [Hu|Hu].
  - rewrite decide_True by by rewrite elem_of_range_set. done.
  - rewrite decide_False by by rewrite elem_of_range_set. done.
Qed.

Lemma length_filter_preds k d v :
  length (filter (λ u, v ∈ out_edges d u) (range_set k (dom (edges d)))) = size (preds d v).
Proof.
  set (l := filter _ _).
  rewrite <-(size_list_to_set (C := gset string) l).
  - f_equal. apply set_eq. intros u. unfold l, preds.
    rewrite elem_of_list_to_set, list_elem_of_filter, elem_of_filter, elem_of_range_set. done.
  - apply NoDup_filter, NoDup_range_set.
Qed.

Lemma indegrees_spec d v : default 0 (indegrees d !! v) = Z.of_nat (size (preds d v)).
Proof.
  unfold indegrees. rewrite foldl_nested, default_foldl_incr, count_targets, length_filter_preds.
  unfold zero_indegrees. rewrite foldl_zero; [done|]. intros w. by rewrite lookup_empty.
Qed.

Lemma dom_indegrees d : dag_wf d → dom (indegrees d) = nodes d.
Proof.
  intros Hwf. unfold indegrees. rewrite foldl_nested, dom_foldl_incr.
  unfold zero_indegrees. rewrite dom_foldl_zero, list_to_set_range_set, dom_empty_L.
  apply set_eq. intros v. rewrite !elem_of_union, elem_of_list_to_set, elem_of_empty.
  split; [|by auto]. intros [[[]|?]|Hin]; [done|].
  apply list_elem_of_bind in Hin as (u & Hv & _). rewrite elem_of_range_set in Hv.
  by apply (dag_wf_edge d u v).
Qed.

Lemma elem_of_initial_queue d v :
  dag_wf d → v ∈ initial_queue (indegrees d) ↔ v ∈ nodes d ∧ preds d v = ∅.
Proof.
  intros Hwf. unfold initial_queue.
  rewrite list_elem_of_filter, elem_of_range_set, dom_indegrees, indegrees_spec by done.
  split; intros [Hz Hn]; split; try done.
  - apply leibniz_equiv, size_empty_inv. lia.
  - rewrite Hn. by rewrite size_empty.
Qed.

Lemma NoDup_initial_queue m : NoDup (initial_queue m).
Proof. apply NoDup_filter, NoDup_range_set. Qed.
End indegrees.

(** ** Kahn's loop *)

Lemma foldl_relax m q ts :
  NoDup ts →
  let st := foldl relax (m, q) ts in
  (∀ v, default 0 (st.1 !! v) = default 0 (m !! v) - (if decide (v ∈ ts) then 1 else 0)) ∧
  st.2 = q ++ filter (λ v, default 0 (m !! v) = 1) ts.
Proof.
  revert m q. induction ts as [|t ts IH]; intros m q Hnd; cbn [foldl relax fst snd].
  { split; [intros v; rewrite decide_False by set_solver; lia|by rewrite app_nil_r]. }
  apply NoDup_cons in Hnd as [Ht Hnd].
  set (m' := <[t:=default 0 (m !! t) - 1]> m).
  set (q' := if bool_decide (default 0 (m !! t) - 1 = 0) then q ++ [t] else q).
  destruct (IH m' q' Hnd) as [IHm IHq]. split.
  - intros v. rewrite IHm. unfold m'. destruct (decide (t = v)) as [->|Hne].
    + rewrite lookup_insert_eq, (decide_False (P := v ∈ ts)), decide_True by set_solver. simpl. lia.
    + rewrite lookup_insert_ne by done.
      destruct (decide (v ∈ ts)); [rewrite decide_True by set_solver|rewrite decide_False by set_solver]; done.
  - rewrite IHq.
    assert (filter (λ v, default 0 (m' !! v) = 1) ts = filter (λ v, default 0 (m !! v) = 1) ts) as ->.
    { clear -Ht. induction ts as [|x ts IH]; [done|].
      assert (m' !! x = m !! x) as Hx by (unfold m'; apply lookup_insert_ne; set_solver).
      rewrite !filter_cons, Hx, IH by set_solver. done. }
    unfold q'. case_bool_decide as Hd.
    + rewrite filter_cons_True by lia. by rewrite <-app_assoc.
    + rewrite filter_cons_False by lia. done.
Qed.

(** Emitting [n] removes it from the predecessors still to come. *)
Lemma size_missing_snoc (X O : gset string) (n : string) :
  n ∉ O →
  Z.of_nat (size (X ∖ (O ∪ {[n]}))) =
  Z.of_nat (size (X ∖ O)) - (if decide (n ∈ X) then 1 else 0).
Proof.
  intros Hn. replace (X ∖ (O ∪ {[n]})) with ((X ∖ O) ∖ {[n]}) by set_solver.
  case_decide as Hx.
  - assert (size (X ∖ O) ≠ 0)%nat.
    { intros Hz. apply size_empty_inv in Hz. set_solver. }
    rewrite size_difference, size_singleton by set_solver. lia.
  - replace ((X ∖ O) ∖ {[n]}) with (X ∖ O) by set_solver. lia.
Qed.

(** The invariant of the loop: what has been emitted is closed under
    predecessors in emission order, the queue holds exactly the other nodes
    whose predecessors have all been emitted, and the map counts the
    predecessors still to come. *)
Record kahn_inv (d : DAG) (queue order : list string) (m : gmap string Z) : Prop := {
  ki_nodup : NoDup (order ++ queue);
  ki_nodes : ∀ v, v ∈ order ++ queue → v ∈ nodes d;
  ki_degree : ∀ v, default 0 (m !! v) = Z.of_nat (size (preds d v ∖ list_to_set order));
  ki_ready : ∀ v, v ∈ nodes d → (v ∈ order ++ queue ↔ preds d v ⊆ list_to_set order);
  ki_before : ∀ u v j, order !! j = Some v → edge d u v → ∃ i, (i < j)%nat ∧ order !! i = Some u
}.

Section kahn.
Context `{RangeOrder}.

Lemma kahn_inv_initial d :
  dag_wf d → kahn_inv d (initial_queue (indegrees d)) [] (indegrees d).
Proof.
  intros Hwf. split; simpl.
  - apply NoDup_initial_queue.
  - intros v. rewrite elem_of_initial_queue by done. by intros [? _].
  - intros v. rewrite indegrees_spec. by rewrite difference_empty_L.
  - intros v Hv. rewrite elem_of_initial_queue by done. set_solver.
  - intros u v j Hj. done.
Qed.

(** Nodes that [relax] appends: those whose only missing predecessor was [n]. *)
Lemma released_spec d n rest order m :
  kahn_inv d (n :: rest) order m → ∀ v,
  v ∈ filter (λ v, default 0 (m !! v) = 1) (range_set ("out/" +:+ n) (out_edges d n)) ↔
  edge d n v ∧ preds d v ⊆ {[n]} ∪ list_to_set order.
Proof.
  intros Hinv v. rewrite list_elem_of_filter, elem_of_range_set, (ki_degree _ _ _ _ Hinv).
  assert (n ∉ order) as Hn.
  { pose proof (ki_nodup _ _ _ _ Hinv) as Hnd. apply NoDup_app in Hnd as (_ & Hd & _).
    intros Hin. apply (Hd n Hin). set_solver. }
  split.
  - intros [Hsz He]. split; [done|].
    assert (∃ x, preds d v ∖ list_to_set order = {[x]}) as [x Hx].
    { destruct (size_1_elem_of (preds d v ∖ list_to_set order)) as [x Hx]; [lia|].
      exists x. by apply leibniz_equiv. }
    assert (n ∈ preds d v ∖ list_to_set (C := gset string) order) as Hnin.
    { rewrite elem_of_difference, elem_of_preds, elem_of_list_to_set. done. }
    assert (x = n) as -> by set_solver.
    intros u Hu. destruct (decide (u ∈ order)); [set_solver|].
    assert (u ∈ preds d v ∖ list_to_set (C := gset string) order) by set_solver. set_solver.
  - intros [He Hsub]. split; [|done].
    assert (preds d v ∖ list_to_set order = {[n]}) as ->.
    { apply set_eq. intros u. rewrite elem_of_difference, elem_of_list_to_set, elem_of_singleton.
      split; [set_solver|]. intros ->. by rewrite elem_of_preds. }
    by rewrite size_singleton.
Qed.

Lemma kahn_inv_step d n rest order m :
  dag_wf d → kahn_inv d (n :: rest) order m →
  let st := foldl relax (m, rest) (range_set ("out/" +:+ n) (out_edges d n)) in
  kahn_inv d st.2 (order ++ [n]) st.1.
Proof.
  intros Hwf Hinv. pose proof (released_spec d n rest order m Hinv) as Hrel.
  destruct (foldl_relax m rest _ (NoDup_range_set ("out/" +:+ n) (out_edges d n))) as [Hm Hq].
  cbn zeta in Hm, Hq. destruct Hinv as [Hnd Hin Hdeg Hready Hbefore].
  assert (n ∈ nodes d ∧ n ∉ order ∧ preds d n ⊆ list_to_set order) as (Hn & Hno & Hpn).
  { assert (n ∈ nodes d) by (apply Hin; set_solver).
    split_and!; [done| |apply Hready; [done|set_solver]].
    apply NoDup_app in Hnd as (_ & Hd & _). intros Hc. apply (Hd n Hc). set_solver. }
  cbn zeta. rewrite Hq. set (fresh := filter _ _) in *.
  assert (∀ v, v ∈ fresh → v ∉ order ++ n :: rest) as Hfresh.
  { intros v Hv. apply Hrel in Hv as [He Hs]. intros Hc.
    apply Hready in Hc; [|by apply (dag_wf_edge d n v)].
    apply elem_of_preds in He. set_solver. }
  split.
  - rewrite <-app_assoc. change ([n] ++ rest ++ fresh) with ((n :: rest) ++ fresh).
    rewrite app_assoc. apply NoDup_app. split_and!; [done|set_solver|].
    apply NoDup_filter, NoDup_range_set.
  - intros v. rewrite !elem_of_app, list_elem_of_singleton.
    intros [[Hv|Hv]|[Hv|Hv]]; [apply Hin; set_solver..|].
    apply Hrel in Hv as [He _]. by apply (dag_wf_edge d n v).
  - intros v. rewrite Hm, Hdeg, list_to_set_app_L, list_to_set_singleton_L.
    rewrite size_missing_snoc by by rewrite elem_of_list_to_set.
    f_equal. apply decide_ext. by rewrite elem_of_range_set, elem_of_preds.
  - intros v Hv. rewrite list_to_set_app_L, list_to_set_singleton_L.
    destruct (decide (v ∈ fresh)) as [Hf|Hf].
    { apply Hrel in Hf as [He Hs]. split; [set_solver|]. intros _.
      rewrite !elem_of_app. right. right. apply Hrel. done. }
    split.
    + intros Hc. assert (v ∈ order ++ n :: rest) as Hc' by set_solver.
      apply Hready in Hc'; [set_solver|done].
    + intros Hs. assert (¬ edge d n v) as Hne by (intros He; apply Hf, Hrel; set_solver).
      assert (v ∈ order ++ n :: rest) as Hc; [|set_solver].
      apply Hready; [done|]. intros u Hu. assert (u ≠ n) by (intros ->; by apply elem_of_preds in Hu).
      set_solver.
  - intros u v j Hj He. apply lookup_app_Some in Hj as [Hj|[Hlen Hj]].
    + destruct (Hbefore u v j Hj He) as (i & Hi & Hu). exists i. split; [done|].
      by apply lookup_app_l_Some.
    + apply list_lookup_singleton_Some in Hj as [Hj ->].
      apply elem_of_preds, Hpn, elem_of_list_to_set, list_elem_of_lookup in He as [i Hi].
      exists i. apply lookup_lt_Some in Hi as Hlt. split; [lia|]. by apply lookup_app_l_Some.
Qed.

Lemma kahn_loop_spec d fuel queue order m :
  dag_wf d → kahn_inv d queue order m → (size (nodes d) ≤ length order + fuel)%nat →
  ∃ order' m', kahn_loop fuel d queue order m = Some order' ∧ kahn_inv d [] order' m'.
Proof.
  intros Hwf. revert queue order m.
  induction fuel as [|fuel IH]; intros [|n rest] order m Hinv Hfuel; simpl; try by eauto.
  - pose proof (NoDup_length_le_size (order ++ n :: rest) (nodes d)
      (ki_nodup _ _ _ _ Hinv) (ki_nodes _ _ _ _ Hinv)) as Hlen.
    rewrite length_app in Hlen. simpl in Hlen. lia.
  - pose proof (kahn_inv_step d n rest order m Hwf Hinv) as Hstep.
    destruct (foldl relax _ _) as [m' queue']. apply IH; [done|].
    rewrite length_app. simpl. lia.
Qed.

(** What is emitted once the queue is empty: either every node, or the rest
    is closed under predecessors. *)
Lemma kahn_final_acyclic d order m :
  dag_wf d → kahn_inv d [] order m → length order = size (nodes d) → ¬ cyclic d.
Proof.
  intros Hwf Hinv Hlen [x Hx].
  assert (∀ u v, tc (edge d) u v → ∀ j, order !! j = Some v → ∃ i, (i < j)%nat ∧ order !! i = Some u) as Hlt.
  { intros u v. induction 1 as [u v He|u w v He _ IH]; intros j Hj.
    - by apply (ki_before _ _ _ _ Hinv u v j).
    - destruct (IH j Hj) as (k & Hk & Hw).
      destruct (ki_before _ _ _ _ Hinv u w k Hw He) as (i & Hi & Hu). exists i. split; [lia|done]. }
  assert (NoDup order) as Hnd.
  { pose proof (ki_nodup _ _ _ _ Hinv) as Hnd. by rewrite app_nil_r in Hnd. }
  assert (x ∈ order) as Hin.
  { assert (x ∈ nodes d) as Hxn.
    { inversion Hx as [? ? He|? ? ? He]; subst; by apply (dag_wf_edge d) in He as [? _]. }
    assert (list_to_set order = nodes d) as Heq.
    { apply set_subseteq_size_eq.
      - intros v Hv. rewrite elem_of_list_to_set in Hv. apply (ki_nodes _ _ _ _ Hinv). by rewrite app_nil_r.
      - by rewrite size_list_to_set, Hlen. }
    by rewrite <-Heq, elem_of_list_to_set in Hxn. }
  apply list_elem_of_lookup in Hin as [j Hj].
  destruct (Hlt x x Hx j Hj) as (i & Hi & Hxi).
  pose proof (NoDup_lookup _ _ _ _ Hnd Hxi Hj). lia.
Qed.

Lemma kahn_final_cyclic d order m :
  dag_wf d → kahn_inv d [] order m → length order ≠ size (nodes d) → cyclic d.
Proof.
  intros Hwf Hinv Hlen. pose proof (ki_nodup _ _ _ _ Hinv) as Hnd. rewrite app_nil_r in Hnd.
  apply (pred_closed_cycle _ (nodes d ∖ list_to_set order)).
  - intros He. apply Hlen. rewrite <-(size_list_to_set (C := gset string) order Hnd).
    f_equal. apply set_eq. intros v. split; intros Hv; [|set_solver].
    rewrite elem_of_list_to_set in Hv. apply (ki_nodes _ _ _ _ Hinv). by rewrite app_nil_r.
  - intros v [Hv Hno]%elem_of_difference.
    assert (¬ preds d v ⊆ list_to_set order) as Hns.
    { rewrite <-(ki_ready _ _ _ _ Hinv v Hv), app_nil_r. by rewrite elem_of_list_to_set in Hno. }
    assert (preds d v ∖ list_to_set order ≠ ∅) as [u Hu]%set_choose_L.
    { intros He. apply Hns. intros u Hu. destruct (decide (u ∈ order)); set_solver. }
    apply elem_of_difference in Hu as [Hu Huo]. rewrite elem_of_preds in Hu.
    exists u. split; [|done]. apply elem_of_difference. split; [|done].
    by apply (dag_wf_edge d u v).
Qed.
End kahn.

(** When an order is returned the graph is acyclic. *)
Lemma topological_order_acyclic `{RangeOrder} d order :
  dag_wf d → TopologicalOrder d = Some (Ok order) → ¬ cyclic d.
Proof.
  intros Hwf. unfold TopologicalOrder, topological_order_fuel.
  destruct (kahn_loop_spec d (size (nodes d)) _ [] _ Hwf (kahn_inv_initial d Hwf))
    as (order' & m & -> & Hinv); [simpl; lia|].
  case_decide as Hlen; [|done]. intros _. by eapply kahn_final_acyclic.
Qed.

(** ** Properties *)

(** [AddNode] and [AddDependency] keep the graph well-formed; an edge is only
    ever added between existing nodes, and a refused call changes nothing. *)
Theorem dag_ops_well_formed (d : DAG) (id node dep : string) :
  dag_wf d →
  dag_wf (AddNode d id) ∧ (∀ u v, edge (AddNode d id) u v ↔ edge d u v) ∧
  dag_wf (AddDependency d node dep).1 ∧
  ((AddDependency d node dep).2 = None ↔ node ∈ nodes d ∧ dep ∈ nodes d) ∧
  (∀ e, (AddDependency d node dep).2 = Some e → (AddDependency d node dep).1 = d).
Proof.
  intros Hwf. split_and!; [by auto with agentic| |by auto with agentic| |].
  - intros u v. unfold edge. by rewrite out_edges_AddNode.
  - unfold AddDependency. repeat case_decide; simpl; naive_solver.
  - apply AddDependency_error.
Qed.

(** C11: On a well-formed graph, and whatever the map iteration orders, the
    algorithm terminates; when it returns an order it is a permutation of the
    nodes in which every dependency precedes its dependents and the graph has no
    cycle; when it reports a cycle there is one. *)
Theorem topological_order_correct `{RangeOrder} (d : DAG) :
  dag_wf d →
  match TopologicalOrder d with
  | Some (Ok order) =>
      order ≡ₚ elements (nodes d) ∧ ¬ cyclic d ∧
      ∀ u v j, edge d u v → order !! j = Some v → ∃ i, (i < j)%nat ∧ order !! i = Some u
  | Some (Fail e) => e = new_error "cycle detected" ∧ cyclic d
  | None => False
  end.
Proof.
  intros Hwf. unfold TopologicalOrder, topological_order_fuel.
  destruct (kahn_loop_spec d (size (nodes d)) _ [] _ Hwf (kahn_inv_initial d Hwf))
    as (order & m & -> & Hinv); [simpl; lia|].
  case_decide as Hlen; [|split; [done|by eapply kahn_final_cyclic]].
  split_and!; [|by eapply kahn_final_acyclic|by intros u v j ? ?; eapply ki_before].
  pose proof (ki_nodup _ _ _ _ Hinv) as Hnd. rewrite app_nil_r in Hnd.
  apply NoDup_Permutation; [done|apply NoDup_elements|]. intros v. rewrite elem_of_elements.
  assert (list_to_set order = nodes d) as <-; [|by rewrite elem_of_list_to_set].
  apply set_subseteq_size_eq; [|by rewrite size_list_to_set, Hlen].
  intros w. rewrite elem_of_list_to_set. intros Hw. apply (ki_nodes _ _ _ _ Hinv). by rewrite app_nil_r.
Qed.

(** ** A concrete graph: a diamond, and the same graph closed into a cycle *)

Definition diamond : DAG :=
  let d := foldl AddNode NewDAG ["a"; "b"; "c"; "d"] in
  let dep d node on := (AddDependency d node on).1 in
  dep (dep (dep (dep d "b" "a") "c" "a") "d" "b") "d" "c".

Definition looped : DAG := (AddDependency diamond "a" "d").1.

Lemma diamond_wf : dag_wf diamond.
Proof. unfold diamond. cbn [foldl]. eauto 12 with agentic. Qed.

Lemma looped_wf : dag_wf looped.
Proof. unfold looped. eauto using diamond_wf with agentic. Qed.

Lemma dag_ops_well_formed_witness :
  dag_wf diamond ∧ dag_wf (AddDependency diamond "a" "zz").1.
Proof.
  split; [exact diamond_wf|].
  exact (proj1 (proj2 (proj2 (dag_ops_well_formed diamond "e" "a" "zz" diamond_wf)))).
Defined.

Lemma topological_order_correct_witness :
  dag_wf diamond ∧ dag_wf looped ∧
  (∃ order, @TopologicalOrder range_descending diamond = Some (Ok order) ∧
            order ≡ₚ elements (nodes diamond)) ∧
  cyclic looped.
Proof.
  split; [exact diamond_wf|]. split; [exact looped_wf|]. split.
  - pose proof (@topological_order_correct range_descending diamond diamond_wf) as Hd.
    assert (@TopologicalOrder range_descending diamond = Some (Ok ["a"; "b"; "c"; "d"])) as Hc
      by (vm_compute; reflexivity).
    rewrite Hc in Hd. eexists. split; [exact Hc|exact (proj1 Hd)].
  - pose proof (@topological_order_correct range_ascending looped looped_wf) as Hl.
    assert (@TopologicalOrder range_ascending looped = Some (Fail (new_error "cycle detected"))) as Hc
      by (vm_compute; reflexivity).
    rewrite Hc in Hl. exact (proj2 Hl).
Defined.
