(* ===== verification/Workflow.v ===== *)
(** * Workflow execution (internal/workflow/state_machine.go, executor.go, workflow.go)

    The node state machine, the executor that launches a node when everything
    it depends on has completed, and the workflow that ties them together.  The
    executor is shown to refine an abstract scheduler, whose step relation
    carries the invariants. *)
From S2P Require Import Prelude Dag.

(** ** The node state machine *)

Inductive NodeState := NodeStatePending | NodeStateRunning | NodeStateCompleted | NodeStateFailed.

#[export] Instance NodeState_eq_dec : EqDecision NodeState.
Proof. solve_decision. Defined.

Definition NodeState_string (s : NodeState) : string :=
  match s with
  | NodeStatePending => "pending"
  | NodeStateRunning => "running"
  | NodeStateCompleted => "completed"
  | NodeStateFailed => "failed"
  end.

Abbreviation NodeStateMachine := (gmap string NodeState).

Definition NewNodeStateMachine : NodeStateMachine := ∅.
Definition InitNode (sm : NodeStateMachine) (nodeID : string) : NodeStateMachine :=
  <[nodeID := NodeStatePending]> sm.
Definition State (sm : NodeStateMachine) (nodeID : string) : option NodeState := sm !! nodeID.

Definition Transition (sm : NodeStateMachine) (nodeID : string) (target : NodeState)
    : NodeStateMachine * option error :=
  match sm !! nodeID with
  | None => (sm, Some (new_error ("unknown node: " +:+ nodeID)))
  | Some current =>
      let invalid := new_error ("invalid transition: " +:+ NodeState_string current
                                +:+ " -> " +:+ NodeState_string target) in
      match current with
      | NodeStatePending =>
          if decide (target = NodeStateRunning)
          then (<[nodeID := target]> sm, None) else (sm, Some invalid)
      | NodeStateRunning =>
          if decide (target = NodeStateCompleted ∨ target = NodeStateFailed)
          then (<[nodeID := target]> sm, None) else (sm, Some invalid)
      | _ => (sm, Some invalid)
      end
  end.

(** ** The executor *)

Record Executor := mkExecutor {
  dag : DAG;
  sm : NodeStateMachine;
  getAgent : option (string → string)
}.

Definition set_sm (e : Executor) (s : NodeStateMachine) : Executor := mkExecutor (dag e) s (getAgent e).

Definition NewExecutor (d : DAG) (s : NodeStateMachine) : Executor := mkExecutor d s None.
Definition SetAgentMapper (e : Executor) (fn : string → string) : Executor :=
  mkExecutor (dag e) (sm e) (Some fn).

Section executor.
Context `{RangeOrder}.
(** [onNodeReady] is the callback given to [NewExecutor]; it acts on a world
    [W] outside the executor. *)
Context {W : Type} (onNodeReady : ctx → string → string → W → W * option error).

Definition agent_of (e : Executor) (nodeID : string) : string :=
  match getAgent e with Some f => f nodeID | None => "generic" end.

Definition readyNode (cx : ctx) (nodeID : string) (e : Executor) (w : W)
    : (Executor * W) * option error :=
  match Transition (sm e) nodeID NodeStateRunning with
  | (_, Some err) => ((e, w), Some err)
  | (sm', None) =>
      let '(w', err) := onNodeReady cx (agent_of e nodeID) nodeID w in
      ((set_sm e sm', w'), err)
  end.

Fixpoint start_loop (k : string) (cx : ctx) (ids : list string) (e : Executor) (w : W)
    : (Executor * W) * option error :=
  match ids with
  | [] => ((e, w), None)
  | nodeID :: ids' =>
      match Dependencies (k +:+ "/" +:+ nodeID) (dag e) nodeID with
      | [] =>
          match readyNode cx nodeID e w with
          | (ew, Some err) => (ew, Some err)
          | ((e', w'), None) => start_loop k cx ids' e' w'
          end
      | _ => start_loop k cx ids' e w
      end
  end.

Definition Start (k : string) (cx : ctx) (e : Executor) (w : W) : (Executor * W) * option error :=
  start_loop k cx (range_set k (nodes (dag e))) e w.

Definition isNodeReady (k : string) (e : Executor) (nodeID : string) : bool :=
  forallb (λ depID, bool_decide (State (sm e) depID = Some NodeStateCompleted))
    (Dependencies k (dag e) nodeID) &&
  match State (sm e) nodeID with
  | Some NodeStatePending | Some NodeStateRunning => true
  | _ => false
  end.

Fixpoint complete_loop (k : string) (cx : ctx) (ids : list string) (e : Executor) (w : W)
    : (Executor * W) * option error :=
  match ids with
  | [] => ((e, w), None)
  | depID :: ids' =>
      if isNodeReady (k +:+ "/" +:+ depID) e depID then
        match readyNode cx depID e w with
        | (ew, Some err) => (ew, Some err)
        | ((e', w'), None) => complete_loop k cx ids' e' w'
        end
      else complete_loop k cx ids' e w
  end.

Definition transition_failed (nodeID : string) (err : error) : error :=
  Err ("state transition failed: " +:+ nodeID +:+ " -> completed: " +:+ err_msg err)
      [ErrTransitionFailed].

Definition MarkNodeCompleted (k : string) (cx : ctx) (nodeID : string) (e : Executor) (w : W)
    : (Executor * W) * option error :=
  match Transition (sm e) nodeID NodeStateCompleted with
  | (_, Some err) => ((e, w), Some (transition_failed nodeID err))
  | (sm', None) => complete_loop k cx (Dependents k (dag e) nodeID) (set_sm e sm') w
  end.

Definition MarkNodeFailed (cx : ctx) (nodeID : string) (msg : string) (e : Executor) (w : W)
    : (Executor * W) * option error :=
  let '(sm', err) := Transition (sm e) nodeID NodeStateFailed in ((set_sm e sm', w), err).
End executor.

(** ** The workflow

    [NewWorkflow] gives the executor the workflow's own graph, state machine and
    agent table (the Go values are shared pointers); [executor] is that view and
    [put_executor] stores back what an executor call changed. *)
Record Workflow := mkWorkflow {
  wdag : DAG;
  wsm : NodeStateMachine;
  agentTypes : gmap string string
}.

Definition NewWorkflow : Workflow := mkWorkflow NewDAG NewNodeStateMachine ∅.

Definition GetAgentType (w : Workflow) (nodeID : string) : string := default "" (agentTypes w !! nodeID).

Definition executor (w : Workflow) : Executor :=
  SetAgentMapper (NewExecutor (wdag w) (wsm w)) (GetAgentType w).

Definition put_executor (w : Workflow) (e : Executor) : Workflow :=
  mkWorkflow (dag e) (sm e) (agentTypes w).

Fixpoint add_dependencies (d : DAG) (id : string) (deps : list string) : DAG * option error :=
  match deps with
  | [] => (d, None)
  | dep :: deps' =>
      match AddDependency d id dep with
      | (d', Some err) => (d', Some err)
      | (d', None) => add_dependencies d' id deps'
      end
  end.

Definition AddTask (w : Workflow) (id agentType : string) (deps : list string)
    : Workflow * option error :=
  let agent := if decide (agentType = "") then "generic" else agentType in
  let '(d, err) := add_dependencies (AddNode (wdag w) id) id deps in
  (mkWorkflow d (InitNode (wsm w) id) (<[id := agent]> (agentTypes w)), err).

Definition NodeStateOf (w : Workflow) (nodeID : string) : option NodeState := State (wsm w) nodeID.

Section workflow.
Context `{RangeOrder} {W : Type} (onReady : ctx → string → string → W → W * option error).

Definition lift_executor (w : Workflow) (r : (Executor * W) * option error)
    : (Workflow * W) * option error :=
  let '((e, x), err) := r in ((put_executor w e, x), err).

Definition WorkflowStart (k : string) (cx : ctx) (w : Workflow) (x : W) :=
  lift_executor w (Start onReady k cx (executor w) x).

Definition MarkCompleted (k : string) (cx : ctx) (nodeID : string) (w : Workflow) (x : W) :=
  lift_executor w (MarkNodeCompleted onReady k cx nodeID (executor w) x).

Definition MarkFailed (cx : ctx) (nodeID msg : string) (w : Workflow) (x : W) :=
  lift_executor w (MarkNodeFailed cx nodeID msg (executor w) x).
End workflow.

(** ** The state machine: which transitions exist *)

Definition legal (a b : NodeState) : bool :=
  match a, b with
  | NodeStatePending, NodeStateRunning
  | NodeStateRunning, NodeStateCompleted
  | NodeStateRunning, NodeStateFailed => true
  | _, _ => false
  end.

Lemma Transition_eq s id target :
  Transition s id target =
  match s !! id with
  | None => (s, Some (new_error ("unknown node: " +:+ id)))
  | Some cur =>
      if legal cur target then (<[id := target]> s, None)
      else (s, Some (new_error ("invalid transition: " +:+ NodeState_string cur
                                +:+ " -> " +:+ NodeState_string target)))
  end.
Proof.
  unfold Transition. destruct (s !! id) as [cur|]; [|done].
  destruct cur, target; simpl; try done; case_decide; naive_solver.
Qed.

Lemma Transition_None s id target s' :
  Transition s id target = (s', None) →
  ∃ cur, s !! id = Some cur ∧ legal cur target = true ∧ s' = <[id := target]> s.
Proof. rewrite Transition_eq. intros Ht. crush_match. eauto. Qed.

Lemma Transition_Some s id target s' err :
  Transition s id target = (s', Some err) → s' = s.
Proof. rewrite Transition_eq. intros Ht. by crush_match. Qed.

Lemma Transition_legal s id cur target :
  s !! id = Some cur → legal cur target = true → Transition s id target = (<[id := target]> s, None).
Proof. intros Hc Hl. by rewrite Transition_eq, Hc, Hl. Qed.

(** A transition succeeds exactly along the three legal edges; it then changes
    that node only, and otherwise it changes nothing. *)
Theorem transition_exact (s : NodeStateMachine) (id : string) (target : NodeState) :
  match Transition s id target with
  | (s', None) => ∃ cur, s !! id = Some cur ∧ legal cur target = true ∧ s' = <[id := target]> s
  | (s', Some _) => s' = s ∧ ∀ cur, s !! id = Some cur → legal cur target = false
  end.
Proof. rewrite Transition_eq. crush_match; naive_solver. Qed.

(** ** The abstract scheduler

    A state of the scheduler is an executor and the outside world.  A node may
    be launched when it is pending and everything it depends on has completed;
    a running node may complete or fail; nothing else happens. *)
Section scheduler.
Context {W : Type} (onNodeReady : ctx → string → string → W → W * option error).

Definition deps_completed (e : Executor) (n : string) : Prop :=
  ∀ u, edge (dag e) u n → sm e !! u = Some NodeStateCompleted.

Inductive sched_step : Executor * W → Executor * W → Prop :=
| sched_launch cx e w n :
    sm e !! n = Some NodeStatePending → deps_completed e n →
    sched_step (e, w)
      (set_sm e (<[n := NodeStateRunning]> (sm e)), (onNodeReady cx (agent_of e n) n w).1)
| sched_finish e w n target :
    sm e !! n = Some NodeStateRunning → target = NodeStateCompleted ∨ target = NodeStateFailed →
    sched_step (e, w) (set_sm e (<[n := target]> (sm e)), w).

(** The operations of the executor, in any sequence, with any arguments and
    whether or not they report an error. *)
Inductive exec_step `{RangeOrder} : Executor * W → Executor * W → Prop :=
| exec_start k cx e w : exec_step (e, w) (Start onNodeReady k cx e w).1
| exec_completed k cx id e w : exec_step (e, w) (MarkNodeCompleted onNodeReady k cx id e w).1
| exec_failed cx id msg e w : exec_step (e, w) (MarkNodeFailed cx id msg e w).1.

Lemma sched_step_dag ew ew' : rtc sched_step ew ew' → dag ew'.1 = dag ew.1.
Proof. induction 1 as [|? ? ? [] _ IH]; [done|..]; by rewrite IH. Qed.
End scheduler.

Section refinement.
Context `{RangeOrder} {W : Type} (onNodeReady : ctx → string → string → W → W * option error).

Lemma readyNode_refines cx n e w :
  deps_completed e n → rtc (sched_step onNodeReady) (e, w) (readyNode onNodeReady cx n e w).1.
Proof.
  intros Hd. unfold readyNode. destruct (Transition (sm e) n NodeStateRunning) as [s' [err|]] eqn:Ht; [done|].
  apply Transition_None in Ht as (cur & Hc & Hl & ->).
  destruct (onNodeReady cx (agent_of e n) n w) as [w' err] eqn:Hcb. simpl.
  assert (w' = (onNodeReady cx (agent_of e n) n w).1) as -> by by rewrite Hcb.
  apply rtc_once, sched_launch; [by destruct cur|done].
Qed.

Lemma readyNode_dag cx n e w : dag (readyNode onNodeReady cx n e w).1.1 = dag e.
Proof. unfold readyNode. crush_match. Qed.

(** Both loops launch, in order, the nodes that pass a test. *)
Fixpoint launch_loop (ready : Executor → string → bool) (cx : ctx) (ids : list string)
    (e : Executor) (w : W) : (Executor * W) * option error :=
  match ids with
  | [] => ((e, w), None)
  | n :: ids' =>
      if ready e n then
        match readyNode onNodeReady cx n e w with
        | (ew, Some err) => (ew, Some err)
        | ((e', w'), None) => launch_loop ready cx ids' e' w'
        end
      else launch_loop ready cx ids' e w
  end.

Definition start_ready (k : string) (e : Executor) (n : string) : bool :=
  match Dependencies (k +:+ "/" +:+ n) (dag e) n with [] => true | _ => false end.

Definition complete_ready (k : string) (e : Executor) (n : string) : bool :=
  isNodeReady (k +:+ "/" +:+ n) e n.

Lemma start_loop_launch k cx ids e w :
  start_loop onNodeReady k cx ids e w = launch_loop (start_ready k) cx ids e w.
Proof.
  revert e w. induction ids as [|n ids IH]; intros e w; simpl; [done|].
  unfold start_ready at 1. destruct (Dependencies _ _ _); [|apply IH].
  destruct (readyNode _ _ _ _ _) as [[] []]; [done|apply IH].
Qed.

Lemma complete_loop_launch k cx ids e w :
  complete_loop onNodeReady k cx ids e w = launch_loop (complete_ready k) cx ids e w.
Proof.
  revert e w. induction ids as [|n ids IH]; intros e w; simpl; [done|].
  unfold complete_ready at 1. destruct (isNodeReady _ _ _); [|apply IH].
  destruct (readyNode _ _ _ _ _) as [[] []]; [done|apply IH].
Qed.

Lemma start_ready_spec k e n : start_ready k e n = true ↔ ∀ u, ¬ edge (dag e) u n.
Proof.
  unfold start_ready. rewrite <-(Dependencies_nil (k +:+ "/" +:+ n)).
  by destruct (Dependencies _ _ _).
Qed.

Lemma isNodeReady_spec k e n :
  isNodeReady k e n = true ↔
  deps_completed e n ∧ (sm e !! n = Some NodeStatePending ∨ sm e !! n = Some NodeStateRunning).
Proof.
  unfold isNodeReady, State. rewrite andb_true_iff, forallb_forall.
  setoid_rewrite <-list_elem_of_In. setoid_rewrite elem_of_Dependencies.
  setoid_rewrite bool_decide_eq_true. unfold deps_completed.
  destruct (sm e !! n) as [[]|]; naive_solver.
Qed.

Lemma start_ready_deps k e n : start_ready k e n = true → deps_completed e n.
Proof. rewrite start_ready_spec. intros Hs u Hu. by destruct (Hs u). Qed.

Lemma complete_ready_deps k e n : complete_ready k e n = true → deps_completed e n.
Proof. unfold complete_ready. rewrite isNodeReady_spec. by intros [? _]. Qed.

Lemma launch_loop_refines ready cx ids e w :
  (∀ e n, ready e n = true → deps_completed e n) →
  rtc (sched_step onNodeReady) (e, w) (launch_loop ready cx ids e w).1.
Proof.
  intros Hready. revert e w. induction ids as [|n ids IH]; intros e w; simpl; [done|].
  destruct (ready e n) eqn:Hr; [|apply IH].
  pose proof (readyNode_refines cx n e w (Hready e n Hr)) as Hs.
  destruct (readyNode onNodeReady cx n e w) as [[e' w'] [err|]]; [done|].
  etrans; [exact Hs|apply IH].
Qed.

(** One operation of the executor is a sequence of steps of the scheduler. *)
Lemma exec_step_sched ew ew' : exec_step onNodeReady ew ew' → rtc (sched_step onNodeReady) ew ew'.
Proof.
  intros [k cx e w|k cx id e w|cx id msg e w].
  - unfold Start. rewrite start_loop_launch. apply launch_loop_refines, start_ready_deps.
  - unfold MarkNodeCompleted.
    destruct (Transition (sm e) id NodeStateCompleted) as [s' [err|]] eqn:Ht; [done|].
    apply Transition_None in Ht as (cur & Hc & Hl & ->).
    rewrite complete_loop_launch.
    eapply rtc_l; [|apply launch_loop_refines, complete_ready_deps].
    apply sched_finish; [by destruct cur|by left].
  - unfold MarkNodeFailed. destruct (Transition (sm e) id NodeStateFailed) as [s' [err|]] eqn:Ht; simpl.
    + apply Transition_Some in Ht as ->. by destruct e.
    + apply Transition_None in Ht as (cur & Hc & Hl & ->).
      apply rtc_once, sched_finish; [by destruct cur|by right].
Qed.

Lemma exec_rtc_sched ew ew' : rtc (exec_step onNodeReady) ew ew' → rtc (sched_step onNodeReady) ew ew'.
Proof. induction 1 as [|? ? ? Hstep _ IH]; [done|]. etrans; [by apply exec_step_sched|done]. Qed.

(** C4: Every operation of the executor, on every path, is a sequence of steps of
    the abstract scheduler, which launches a node only when everything it
    depends on has completed, and keeps the graph and the agents. *)
Theorem executor_refines_scheduler (ew ew' : Executor * W) :
  rtc (exec_step onNodeReady) ew ew' →
  rtc (sched_step onNodeReady) ew ew' ∧ dag ew'.1 = dag ew.1 ∧ getAgent ew'.1 = getAgent ew.1.
Proof.
  intros Hr%exec_rtc_sched. split; [done|].
  induction Hr as [|x y z Hs _ IH]; [done|]. destruct Hs; exact IH.
Qed.
End refinement.

(** ** Invariants of the scheduler *)

(** A workflow that has been built but not started. *)
Definition fresh (e : Executor) : Prop :=
  dag_wf (dag e) ∧ dom (sm e) = nodes (dag e) ∧
  ∀ n s, sm e !! n = Some s → s = NodeStatePending.

Definition started (e : Executor) (n : string) : Prop :=
  ∃ s, sm e !! n = Some s ∧ s ≠ NodeStatePending.

Definition dependencies_first (e : Executor) : Prop := ∀ n, started e n → deps_completed e n.

Lemma started_insert e n s m :
  s ≠ NodeStatePending →
  started (set_sm e (<[n := s]> (sm e))) m ↔ m = n ∨ started e m.
Proof.
  intros Hs. unfold started. simpl. destruct (decide (n = m)) as [->|Hne].
  - rewrite lookup_insert_eq. naive_solver.
  - rewrite lookup_insert_ne by done. naive_solver.
Qed.

Lemma deps_completed_insert e n s m :
  sm e !! n ≠ Some NodeStateCompleted → deps_completed e m →
  deps_completed (set_sm e (<[n := s]> (sm e))) m.
Proof. intros Hn Hd u Hu. simpl. rewrite lookup_insert_ne; [by apply Hd|]. intros ->. by apply Hn, Hd. Qed.

Section invariants.
Context {W : Type} (onNodeReady : ctx → string → string → W → W * option error).

Lemma dependencies_first_step ew ew' :
  sched_step onNodeReady ew ew' → dependencies_first ew.1 → dependencies_first ew'.1.
Proof.
  intros [cx e w n Hn Hd|e w n target Hn Ht] Hinv m; simpl in *.
  - rewrite started_insert by done. intros Hm.
    apply deps_completed_insert; [by rewrite Hn|]. destruct Hm as [->|Hm]; [done|by apply Hinv].
  - rewrite started_insert by naive_solver. intros Hm.
    apply deps_completed_insert; [by rewrite Hn|]. apply Hinv.
    destruct Hm as [->|Hm]; [|done]. by exists NodeStateRunning.
Qed.

Lemma dependencies_first_rtc ew ew' :
  rtc (sched_step onNodeReady) ew ew' → dependencies_first ew.1 → dependencies_first ew'.1.
Proof. induction 1; eauto using dependencies_first_step. Qed.

Lemma fresh_dependencies_first e : fresh e → dependencies_first e.
Proof. intros (_ & _ & Hp) n (s & Hs & Hne). by apply Hp in Hs. Qed.

Lemma sched_step_dom ew ew' :
  sched_step onNodeReady ew ew' → dom (sm ew'.1) = dom (sm ew.1).
Proof.
  intros [cx e w n Hn _|e w n t Hn _]; simpl; apply elem_of_dom_2 in Hn; rewrite dom_insert_L; set_solver.
Qed.

Lemma sched_rtc_dom ew ew' :
  rtc (sched_step onNodeReady) ew ew' → dom (sm ew'.1) = dom (sm ew.1).
Proof. induction 1 as [|? ? ? Hs _ IH]; [done|]. by rewrite IH, (sched_step_dom _ _ Hs). Qed.
End invariants.
#[export] Hint Resolve fresh_dependencies_first : agentic.

(** ** Safety *)

(** Whatever the callers do after the workflow is built, and whatever the
    callback answers, a node that has left the pending state has only completed
    dependencies. *)
Theorem dependency_safety `{RangeOrder} {W} (onNodeReady : ctx → string → string → W → W * option error)
    (e e' : Executor) (w w' : W) (n u : string) :
  fresh e → rtc (exec_step onNodeReady) (e, w) (e', w') →
  started e' n → edge (dag e') u n → sm e' !! u = Some NodeStateCompleted.
Proof.
  intros Hf Hr Hs He.
  exact (dependencies_first_rtc _ _ _ (exec_rtc_sched _ _ _ Hr) (fresh_dependencies_first e Hf) n Hs u He).
Qed.

(** A callback that records which agent was asked to run which node. *)
Definition recording (verdict : ctx → string → string → option error)
    (cx : ctx) (agent id : string) (log : list (string * string)) :=
  (log ++ [(agent, id)], verdict cx agent id).

Definition recorded (ew : Executor * list (string * string)) : Prop :=
  NoDup ew.2.*2 ∧ (∀ n, n ∈ ew.2.*2 ↔ started ew.1 n) ∧ (∀ a n, (a, n) ∈ ew.2 → a = agent_of ew.1 n).

Lemma recording_step verdict ew ew' :
  sched_step (recording verdict) ew ew' → recorded ew → recorded ew'.
Proof.
  unfold recorded. intros [cx e w n Hn Hd|e w n t Hn Ht]; simpl; intros (Hnd & Hlog & Hag).
  - assert (n ∉ w.*2) as Hnw by (rewrite Hlog; intros (s & Hs & Hne); congruence).
    rewrite fmap_app. simpl. split_and!.
    + apply NoDup_app. split_and!; [done|set_solver|apply NoDup_singleton].
    + intros m. rewrite started_insert, elem_of_app, list_elem_of_singleton, Hlog by done. tauto.
    + intros a m. rewrite elem_of_app, list_elem_of_singleton. intros [Hin|[= -> ->]]; [by apply Hag|done].
  - split_and!; [done| |done]. intros m. rewrite started_insert, Hlog by naive_solver.
    split; [tauto|]. intros [->|Hm]; [|done]. by exists NodeStateRunning.
Qed.

(** Every node is handed to its agent at most once, to the agent registered
    for it, and the nodes handed out are exactly those that left the pending
    state, even when the callback reports errors. *)
Theorem launched_at_most_once `{RangeOrder} (verdict : ctx → string → string → option error)
    (e e' : Executor) (log : list (string * string)) :
  fresh e → rtc (exec_step (recording verdict)) (e, []) (e', log) →
  NoDup log.*2 ∧ (∀ n, n ∈ log.*2 ↔ started e' n) ∧ (∀ a n, (a, n) ∈ log → a = agent_of e' n).
Proof.
  intros Hf Hr%exec_rtc_sched. destruct Hf as (_ & _ & Hp).
  assert (∀ x y, rtc (sched_step (recording verdict)) x y →
    recorded x → recorded y) as Hpres.
  { induction 1; eauto using recording_step. }
  apply (Hpres _ _ Hr). unfold recorded. simpl. split_and!; [constructor| |set_solver].
  intros n. split; [set_solver|]. intros (s & Hs & Hne). by apply Hp in Hs.
Qed.

(** ** Progress *)

Definition blocked (e : Executor) : Prop :=
  ∀ n, sm e !! n = Some NodeStatePending →
       ∃ u, edge (dag e) u n ∧ sm e !! u ≠ Some NodeStateCompleted.

Definition done_nodes (e : Executor) : gset string :=
  filter (λ n, sm e !! n = Some NodeStateCompleted) (nodes (dag e)).

Record live_inv (e : Executor) : Prop := {
  li_wf : dag_wf (dag e);
  li_dom : dom (sm e) = nodes (dag e);
  li_first : dependencies_first e;
  li_blocked : blocked e;
  li_no_failure : ∀ n, sm e !! n ≠ Some NodeStateFailed
}.

(** Without cycles, failures or running nodes nothing can be left to do. *)
Lemma live_progress e :
  live_inv e → ¬ cyclic (dag e) → done_nodes e ≠ nodes (dag e) →
  ∃ n, sm e !! n = Some NodeStateRunning.
Proof.
  intros [Hwf Hdom Hfirst Hblocked Hnf] Hac Hne.
  destruct (decide (filter (λ n, sm e !! n = Some NodeStateRunning) (nodes (dag e)) = ∅)) as [Hr|Hr].
  - exfalso. apply Hac, (pred_closed_cycle _ (nodes (dag e) ∖ done_nodes e)).
    { intros He. apply Hne, set_eq. intros n. unfold done_nodes. rewrite elem_of_filter.
      split; [tauto|]. intros Hn. split; [|done].
      destruct (decide (sm e !! n = Some NodeStateCompleted)); [done|].
      assert (n ∈ nodes (dag e) ∖ done_nodes e); [|set_solver].
      unfold done_nodes. rewrite elem_of_difference, elem_of_filter. tauto. }
    intros v Hv. unfold done_nodes in Hv. rewrite elem_of_difference, elem_of_filter in Hv.
    destruct Hv as [Hv Hnd]. assert (sm e !! v = Some NodeStatePending) as Hp.
    { pose proof Hv as Hv'. rewrite <-Hdom, elem_of_dom in Hv'. destruct Hv' as [[] Hs]; try done.
      - assert (v ∈ filter (λ n, sm e !! n = Some NodeStateRunning) (nodes (dag e)));
          [by apply elem_of_filter|set_solver].
      - tauto.
      - by apply Hnf in Hs. }
    destruct (Hblocked v Hp) as (u & Hu & Hnc). exists u. split; [|done].
    unfold done_nodes. rewrite elem_of_difference, elem_of_filter.
    split; [by apply (dag_wf_edge _ u v)|tauto].
  - apply set_choose_L in Hr as [n Hn]. apply elem_of_filter in Hn as [Hn _]. by exists n.
Qed.

Lemma not_ready_dependency `{RangeOrder} k e n :
  isNodeReady k e n = false → sm e !! n = Some NodeStatePending →
  ∃ u, edge (dag e) u n ∧ sm e !! u ≠ Some NodeStateCompleted.
Proof.
  unfold isNodeReady, State. intros Hr Hp. rewrite Hp, andb_true_r in Hr.
  assert (∃ u, u ∈ Dependencies k (dag e) n ∧ bool_decide (sm e !! u = Some NodeStateCompleted) = false)
    as (u & Hu & Hnc).
  { induction (Dependencies k (dag e) n) as [|u l IH]; [done|]. simpl in Hr.
    destruct (bool_decide _) eqn:Hb; [|exists u; split; [set_solver|done]].
    destruct (IH Hr) as (u' & ? & ?). exists u'. split; [set_solver|done]. }
  exists u. rewrite elem_of_Dependencies in Hu. split; [done|]. by apply bool_decide_eq_false in Hnc.
Qed.

Section liveness.
Context `{RangeOrder} {W : Type} (onNodeReady : ctx → string → string → W → W * option error).
Context (Hok : ∀ cx agent n w, (onNodeReady cx agent n w).2 = None).

(** Launching some of a list of pending nodes, with a test that launching one
    node does not spoil for another. *)
Lemma launch_loop_ok ready cx ids e w :
  (∀ e n m, ready e m = true → sm e !! n = Some NodeStatePending → m ≠ n →
            ready (set_sm e (<[n := NodeStateRunning]> (sm e))) m = true) →
  NoDup ids → (∀ n, n ∈ ids → sm e !! n = Some NodeStatePending) →
  ∃ e' w', launch_loop onNodeReady ready cx ids e w = ((e', w'), None) ∧
    dag e' = dag e ∧
    (∀ m, m ∉ ids → sm e' !! m = sm e !! m) ∧
    (∀ m, m ∈ ids → sm e' !! m = Some NodeStatePending ∨ sm e' !! m = Some NodeStateRunning) ∧
    (∀ m, m ∈ ids → ready e m = true → sm e' !! m = Some NodeStateRunning).
Proof.
  intros Hstable. revert e w. induction ids as [|n ids IH]; intros e w Hnd Hp; simpl.
  { exists e, w. split_and!; set_solver. }
  apply NoDup_cons in Hnd as [Hn Hnd]. destruct (ready e n) eqn:Hr.
  - unfold readyNode. rewrite (Transition_legal _ _ NodeStatePending) by (done || apply Hp; set_solver).
    pose proof (Hok cx (agent_of e n) n w) as Herr.
    destruct (onNodeReady cx (agent_of e n) n w) as [w1 r]. simpl in Herr. subst r. simpl.
    set (e1 := set_sm e (<[n:=NodeStateRunning]> (sm e))).
    assert (∀ m, m ≠ n → sm e1 !! m = sm e !! m) as He1 by (intros; by apply lookup_insert_ne).
    destruct (IH e1 w1 Hnd) as (e' & w' & Hl & Hdag & Hout & Hin & Hrun).
    { intros m Hm. rewrite He1 by set_solver. apply Hp. set_solver. }
    exists e', w'. split_and!; [done|done| | |].
    + intros m Hm. rewrite Hout, He1; set_solver.
    + intros m [->|Hm]%elem_of_cons; [|by apply Hin]. right. rewrite Hout by done. apply lookup_insert_eq.
    + intros m [->|Hm]%elem_of_cons Hrm; [rewrite Hout by done; apply lookup_insert_eq|].
      apply Hrun; [done|]. apply Hstable; [done|apply Hp; set_solver|set_solver].
  - destruct (IH e w Hnd) as (e' & w' & Hl & Hdag & Hout & Hin & Hrun); [set_solver|].
    exists e', w'. split_and!; [done|done|set_solver| |].
    + intros m [->|Hm]%elem_of_cons; [|by apply Hin]. left. rewrite Hout by done. apply Hp. set_solver.
    + intros m [->|Hm]%elem_of_cons Hrm; [congruence|by apply Hrun].
Qed.

Lemma start_ready_stable k e n m :
  start_ready k e m = true → sm e !! n = Some NodeStatePending → m ≠ n →
  start_ready k (set_sm e (<[n := NodeStateRunning]> (sm e))) m = true.
Proof. rewrite !start_ready_spec. by intros Hs _ _. Qed.

Lemma complete_ready_stable k e n m :
  complete_ready k e m = true → sm e !! n = Some NodeStatePending → m ≠ n →
  complete_ready k (set_sm e (<[n := NodeStateRunning]> (sm e))) m = true.
Proof.
  unfold complete_ready. rewrite !isNodeReady_spec. intros [Hd Hm] Hn Hne. split.
  - apply deps_completed_insert; [by rewrite Hn|done].
  - simpl. by rewrite lookup_insert_ne.
Qed.

(** [Start] on a fresh executor succeeds and launches every node without
    dependencies. *)
Lemma Start_live k cx e w :
  fresh e → ∃ e' w', Start onNodeReady k cx e w = ((e', w'), None) ∧
    dag e' = dag e ∧ live_inv e' ∧ done_nodes e' = ∅.
Proof.
  intros Hf. pose proof Hf as (Hwf & Hdom & Hp).
  assert (∀ n, n ∈ range_set k (nodes (dag e)) → sm e !! n = Some NodeStatePending) as Hpend.
  { intros n. rewrite elem_of_range_set, <-Hdom, elem_of_dom. intros [s Hs]. by rewrite Hs, (Hp _ _ Hs). }
  destruct (launch_loop_ok (start_ready k) cx (range_set k (nodes (dag e))) e w)
    as (e' & w' & Hl & Hdag & _ & Hin & Hrun);
    [intros; by apply start_ready_stable|apply NoDup_range_set|done|].
  assert (rtc (sched_step onNodeReady) (e, w) (e', w')) as Hr.
  { replace (e', w') with (launch_loop onNodeReady (start_ready k) cx (range_set k (nodes (dag e))) e w).1
      by by rewrite Hl. apply launch_loop_refines, start_ready_deps. }
  pose proof (sched_rtc_dom _ _ _ Hr) as Hdom'. simpl in Hdom'.
  assert (∀ n s, sm e' !! n = Some s → n ∈ range_set k (nodes (dag e)) ∧ (s = NodeStatePending ∨ s = NodeStateRunning)) as Hcase.
  { intros n s Hs. assert (n ∈ range_set k (nodes (dag e))) as Hn.
    { rewrite elem_of_range_set, <-Hdom, <-Hdom'. apply elem_of_dom. by exists s. }
    split; [done|]. destruct (Hin n Hn); naive_solver. }
  exists e', w'. unfold Start. rewrite start_loop_launch. split_and!; [done|done| |].
  - split.
    + by rewrite Hdag.
    + by rewrite Hdag, <-Hdom.
    + exact (dependencies_first_rtc _ _ _ Hr (fresh_dependencies_first e Hf)).
    + intros n Hn. destruct (Hcase n _ Hn) as [Hin' _].
      destruct (Dependencies (k +:+ "/" +:+ n) (dag e) n) as [|u l] eqn:Hdeps.
      { assert (sm e' !! n = Some NodeStateRunning); [|congruence].
        apply Hrun; [done|]. unfold start_ready. by rewrite Hdeps. }
      exists u. rewrite Hdag. split; [apply (elem_of_Dependencies (k +:+ "/" +:+ n)); rewrite Hdeps; set_solver|].
      intros Hu. destruct (Hcase u _ Hu); naive_solver.
    + intros n Hn. destruct (Hcase n _ Hn); naive_solver.
  - apply set_eq. intros n. unfold done_nodes. rewrite elem_of_filter.
    split; [|set_solver]. intros [Hn _]. destruct (Hcase n _ Hn); naive_solver.
Qed.

(** What depends on a running node is still pending. *)
Lemma dependents_pending k e id :
  live_inv e → sm e !! id = Some NodeStateRunning →
  ∀ n, n ∈ Dependents k (dag e) id → n ≠ id ∧ sm e !! n = Some NodeStatePending.
Proof.
  intros Hinv Hid n Hn%elem_of_Dependents.
  assert (¬ started e n) as Hns.
  { intros Hs. pose proof (li_first _ Hinv n Hs id Hn). congruence. }
  split; [intros ->; apply Hns; by exists NodeStateRunning|].
  assert (n ∈ dom (sm e)) as [s Hs]%elem_of_dom.
  { rewrite (li_dom _ Hinv). by apply (dag_wf_edge _ id n (li_wf _ Hinv)). }
  destruct (decide (s = NodeStatePending)) as [->|Hne]; [done|]. destruct Hns. by exists s.
Qed.

(** Completing a running node succeeds, completes that node only, and keeps
    the invariant. *)
Lemma MarkNodeCompleted_live k cx id e w :
  live_inv e → sm e !! id = Some NodeStateRunning →
  ∃ e' w', MarkNodeCompleted onNodeReady k cx id e w = ((e', w'), None) ∧
    dag e' = dag e ∧ live_inv e' ∧ done_nodes e' = {[id]} ∪ done_nodes e.
Proof.
  intros Hinv Hid. unfold MarkNodeCompleted. rewrite (Transition_legal _ _ NodeStateRunning) by done.
  set (e1 := set_sm e (<[id:=NodeStateCompleted]> (sm e))). set (ids := Dependents k (dag e) id).
  pose proof (dependents_pending k e id Hinv Hid) as Hdep. rewrite complete_loop_launch.
  assert (∀ n, n ≠ id → sm e1 !! n = sm e !! n) as He1 by (intros; by apply lookup_insert_ne).
  assert (sm e1 !! id = Some NodeStateCompleted) as Hid1 by apply lookup_insert_eq.
  destruct (launch_loop_ok (complete_ready k) cx ids e1 w)
    as (e' & w' & Hl & Hdag & Hout & Hin & Hrun);
    [intros; by apply complete_ready_stable|apply NoDup_range_set
    |intros n Hn; rewrite He1 by (by apply Hdep); by apply Hdep|].
  assert (rtc (sched_step onNodeReady) (e, w) (e', w')) as Hr.
  { eapply rtc_l; [eapply (sched_finish _ e w id NodeStateCompleted); [done|by left]|].
    change (e', w') with ((e', w'), @None error).1. rewrite <-Hl.
    apply launch_loop_refines, complete_ready_deps. }
  assert (∀ n s, sm e' !! n = Some s →
    (n = id ∧ s = NodeStateCompleted) ∨ (n ≠ id ∧ sm e !! n = Some s ∧ n ∉ ids) ∨
    (n ∈ ids ∧ n ≠ id ∧ sm e !! n = Some NodeStatePending ∧ (s = NodeStatePending ∨ s = NodeStateRunning))) as Hcase.
  { intros n s Hs. destruct (decide (n ∈ ids)) as [Hn|Hn].
    - right; right. destruct (Hdep n Hn). destruct (Hin n Hn); naive_solver.
    - rewrite Hout in Hs by done. destruct (decide (n = id)) as [->|Hne]; [left; naive_solver|].
      rewrite He1 in Hs by done. naive_solver. }
  exists e', w'. split_and!; [done|done| |].
  - split.
    + rewrite Hdag. apply Hinv.
    + pose proof (sched_rtc_dom _ _ _ Hr) as Hd. simpl in Hd. by rewrite Hd, Hdag, (li_dom _ Hinv).
    + exact (dependencies_first_rtc _ _ _ Hr (li_first _ Hinv)).
    + intros n Hn. rewrite Hdag. change (dag e1) with (dag e).
      assert (∃ u, edge (dag e) u n ∧ sm e1 !! u ≠ Some NodeStateCompleted) as (u & Hu & Hnc).
      { destruct (Hcase n _ Hn) as [[-> [=]]|[(Hne & Hp & Hni)|(Hni & Hne & Hp & _)]].
        - destruct (li_blocked _ Hinv n Hp) as (u & Hu & Hnc). exists u. split; [done|].
          rewrite He1; [done|]. intros ->. apply Hni. by apply elem_of_Dependents.
        - apply (not_ready_dependency (k +:+ "/" +:+ n) e1); [|by rewrite He1].
          apply not_true_is_false. intros Hrd. specialize (Hrun n Hni Hrd). congruence. }
      exists u. split; [done|]. intros Hc. destruct (Hcase u _ Hc) as [[-> _]|[(Hne & Hs & _)|(_ & _ & _ & [?|?])]];
        [by rewrite Hid1 in Hnc|by rewrite He1, Hs in Hnc|done|done].
    + intros n Hn. destruct (Hcase n _ Hn) as [[_ ?]|[(_ & Hs & _)|(_ & _ & _ & [?|?])]]; try done.
      by apply (li_no_failure _ Hinv n).
  - assert (id ∈ nodes (dag e)) by (rewrite <-(li_dom _ Hinv); by eapply elem_of_dom_2).
    apply set_eq. intros n. unfold done_nodes. rewrite elem_of_union, elem_of_singleton, !elem_of_filter, Hdag.
    change (dag e1) with (dag e). split.
    + intros [Hn Hin']. destruct (Hcase n _ Hn) as [[-> _]|[(_ & Hs & _)|(_ & _ & _ & [?|?])]]; naive_solver.
    + intros [->|[Hn Hn']]; (split; [|done]).
      * rewrite Hout; [done|]. intros Hi. by destruct (Hdep id Hi).
      * assert (n ≠ id) by congruence. rewrite Hout, He1; [done..|].
        intros Hi. destruct (Hdep n Hi). congruence.
Qed.

(** One completion of some running node. *)
Inductive completion : Executor * W → Executor * W → Prop :=
| completion_of k cx id e w ew :
    sm e !! id = Some NodeStateRunning →
    (MarkNodeCompleted onNodeReady k cx id e w).1 = ew → completion (e, w) ew.

Lemma completion_live ew ew' :
  live_inv ew.1 → completion ew ew' →
  dag ew'.1 = dag ew.1 ∧ live_inv ew'.1 ∧ size (done_nodes ew'.1) = S (size (done_nodes ew.1)).
Proof.
  intros Hinv Hc. destruct Hc as [k cx id e w ew2 Hid Hm]. simpl in *.
  destruct (MarkNodeCompleted_live k cx id e w Hinv Hid) as (e' & w' & Hl & Hdag & Hinv' & Hdone).
  rewrite Hl in Hm. simpl in Hm. subst ew2. simpl. split_and!; [done|done|].
  rewrite Hdone, size_union, size_singleton; [done|].
  apply disjoint_singleton_l. unfold done_nodes. rewrite elem_of_filter. naive_solver.
Qed.

Lemma completions_live n ew ew' :
  live_inv ew.1 → nsteps completion n ew ew' →
  dag ew'.1 = dag ew.1 ∧ live_inv ew'.1 ∧ size (done_nodes ew'.1) = (n + size (done_nodes ew.1))%nat.
Proof.
  intros Hinv Hn. induction Hn as [|n ew ew1 ew2 Hs _ IH]; [done|].
  destruct (completion_live _ _ Hinv Hs) as (Hd1 & Hinv1 & Hsz1).
  destruct (IH Hinv1) as (-> & ? & ->). split_and!; [done|done|lia].
Qed.

(** C9: On an acyclic graph whose agents all start, [Start] succeeds, and then
    every sequence of completions of running nodes, in any order, can be
    continued until, after exactly as many completions as there are nodes, every
    node has completed: the executor neither deadlocks nor runs a node twice. *)
Theorem workflow_runs_to_completion k cx (e : Executor) (w : W) :
  fresh e → ¬ cyclic (dag e) →
  ∃ e0 w0, Start onNodeReady k cx e w = ((e0, w0), None) ∧
  ∀ i ew, nsteps completion i (e0, w0) ew →
    size (done_nodes ew.1) = i ∧
    (i < size (nodes (dag e)) → ∃ ew', completion ew ew')%nat ∧
    (i = size (nodes (dag e)) → ∀ n, n ∈ nodes (dag e) → sm ew.1 !! n = Some NodeStateCompleted).
Proof.
  intros Hf Hac. destruct (Start_live k cx e w Hf) as (e0 & w0 & Hstart & Hdag & Hinv & Hnone).
  exists e0, w0. split; [done|]. intros i ew Hi.
  destruct (completions_live i (e0, w0) ew Hinv Hi) as (Hdag' & Hinv' & Hsz). simpl in *.
  rewrite Hnone, size_empty, Nat.add_0_r in Hsz. rewrite Hdag in Hdag'.
  split_and!; [done| |].
  - intros Hlt. destruct ew as [e1 w1]. simpl in *.
    destruct (live_progress e1 Hinv') as [n Hn]; [by rewrite Hdag'|intros Hc; rewrite Hc, Hdag' in Hsz; lia|].
    eexists. by eapply (completion_of "" None n).
  - intros Hn n Hnode. assert (done_nodes ew.1 = nodes (dag e)) as Hall.
    { apply set_subseteq_size_eq; [|lia]. unfold done_nodes. rewrite Hdag'. set_solver. }
    rewrite <-Hall in Hnode. unfold done_nodes in Hnode. by apply elem_of_filter in Hnode as [? _].
Qed.
End liveness.

(** ** Building workflows *)

Lemma add_dependencies_nodes d id deps : nodes (add_dependencies d id deps).1 = nodes d.
Proof.
  revert d. induction deps as [|dep deps IH]; intros d; simpl; [done|].
  pose proof (nodes_AddDependency d id dep) as Hn.
  destruct (AddDependency d id dep) as [d' [err|]]; simpl in *; [done|]. by rewrite IH.
Qed.

Lemma add_dependencies_wf d id deps : dag_wf d → dag_wf (add_dependencies d id deps).1.
Proof.
  revert d. induction deps as [|dep deps IH]; intros d Hwf; simpl; [done|].
  pose proof (AddDependency_wf d id dep Hwf) as Hwf'.
  destruct (AddDependency d id dep) as [d' [err|]]; simpl in *; auto.
Qed.

Lemma add_dependencies_ok d id deps :
  id ∈ nodes d →
  match add_dependencies d id deps with
  | (d', None) => (∀ dep, dep ∈ deps → dep ∈ nodes d) ∧
                  ∀ u v, edge d' u v ↔ edge d u v ∨ (u ∈ deps ∧ v = id)
  | (_, Some err) => err = new_error "dependency node not found" ∧ ∃ dep, dep ∈ deps ∧ dep ∉ nodes d
  end.
Proof.
  revert d. induction deps as [|dep deps IH]; intros d Hid; simpl; [set_solver|].
  destruct (decide (dep ∈ nodes d)) as [Hdep|Hdep].
  - pose proof (edge_AddDependency d id dep) as Hedge. pose proof (nodes_AddDependency d id dep) as Hn.
    destruct (AddDependency d id dep) as [d1 r] eqn:Had. simpl in *.
    assert (r = None) as ->.
    { revert Had. unfold AddDependency. repeat case_decide; naive_solver. }
    specialize (IH d1). rewrite Hn in IH. specialize (IH Hid).
    destruct (add_dependencies d1 id deps) as [d2 [err|]]; [set_solver|].
    destruct IH as [Hall He]. split; [set_solver|]. intros u v. rewrite He, Hedge by done. set_solver.
  - unfold AddDependency. rewrite decide_False by tauto. rewrite decide_True by done. set_solver.
Qed.

(** [AddTask] registers the node, pending, with its agent ("generic" when none
    is given).  It succeeds exactly when every dependency exists, and then adds
    precisely the edges from the dependencies to the task. *)
Theorem add_task_correct (w : Workflow) (id agent : string) (deps : list string) :
  let '(w', err) := AddTask w id agent deps in
  nodes (wdag w') = {[id]} ∪ nodes (wdag w) ∧
  wsm w' = <[id := NodeStatePending]> (wsm w) ∧
  GetAgentType w' id = (if decide (agent = "") then "generic" else agent) ∧
  (err = None ↔ ∀ dep, dep ∈ deps → dep = id ∨ dep ∈ nodes (wdag w)) ∧
  (dag_wf (wdag w) → dag_wf (wdag w') ∧
     (err = None → ∀ u v, edge (wdag w') u v ↔ edge (wdag w) u v ∨ (u ∈ deps ∧ v = id))).
Proof.
  unfold AddTask. pose proof (add_dependencies_nodes (AddNode (wdag w) id) id deps) as Hn.
  pose proof (add_dependencies_ok (AddNode (wdag w) id) id deps) as Hok.
  pose proof (add_dependencies_wf (AddNode (wdag w) id) id deps) as Hwf.
  destruct (add_dependencies _ _ _) as [d err]. simpl in *. rewrite nodes_AddNode in *.
  specialize (Hok ltac:(set_solver)). split_and!.
  - done.
  - done.
  - unfold GetAgentType. simpl. by rewrite lookup_insert_eq.
  - destruct err as [err|]; [|set_solver]. destruct Hok as (_ & dep & Hd & Hnd). split; [done|].
    intros Hall. specialize (Hall dep Hd). set_solver.
  - intros Hwf0. split; [by apply Hwf, AddNode_wf|]. intros ->. destruct Hok as [_ He].
    intros u v. rewrite He. unfold edge. by rewrite out_edges_AddNode.
Qed.

Lemma AddTask_fresh w id agent deps :
  fresh (executor w) → fresh (executor (AddTask w id agent deps).1).
Proof.
  intros (Hwf & Hdom & Hp). unfold AddTask.
  pose proof (add_dependencies_nodes (AddNode (wdag w) id) id deps) as Hn.
  pose proof (add_dependencies_wf (AddNode (wdag w) id) id deps (AddNode_wf _ _ Hwf)) as Hwf'.
  destruct (add_dependencies _ _ _) as [d err]. simpl in *. split_and!; simpl.
  - done.
  - unfold InitNode. rewrite dom_insert_L, Hdom, Hn, nodes_AddNode. done.
  - intros n s. unfold InitNode. rewrite lookup_insert. case_decide; [naive_solver|apply Hp].
Qed.

Lemma NewWorkflow_fresh : fresh (executor NewWorkflow).
Proof. split_and!; [apply NewDAG_wf|set_solver|intros n s Hs; done]. Qed.

Lemma fresh_wdag_wf w : fresh (executor w) → dag_wf (wdag w).
Proof. by intros [Hwf _]. Qed.

#[export] Hint Resolve NewWorkflow_fresh AddTask_fresh fresh_wdag_wf : agentic.

(** ** Concrete runs *)

(** Two branches that join, submitted to agents that always start. *)
Definition demo : Workflow :=
  let w := (AddTask NewWorkflow "plan" "orchestrator" []).1 in
  let w := (AddTask w "search" "researcher" ["plan"]).1 in
  let w := (AddTask w "code" "" ["plan"]).1 in
  (AddTask w "review" "coder" ["search"; "code"]).1.

Definition always_ok (cx : ctx) (agent id : string) (log : list (string * string)) :=
  recording (λ _ _ _, None) cx agent id log.

(** A script of executor calls. *)
Inductive exec_call := CallStart (k : string) | CallCompleted (k id : string) | CallFailed (id : string).

Definition run_call `{RangeOrder} {W} (cb : ctx → string → string → W → W * option error)
    (ew : Executor * W) (c : exec_call) : Executor * W :=
  match c with
  | CallStart k => (Start cb k None ew.1 ew.2).1
  | CallCompleted k id => (MarkNodeCompleted cb k None id ew.1 ew.2).1
  | CallFailed id => (MarkNodeFailed None id "" ew.1 ew.2).1
  end.

Lemma run_calls_steps `{RangeOrder} {W} (cb : ctx → string → string → W → W * option error) cs ew :
  rtc (exec_step cb) ew (foldl (run_call cb) ew cs).
Proof.
  revert ew. induction cs as [|c cs IH]; intros [e w]; simpl; [done|].
  eapply rtc_l; [|apply IH]. destruct c; simpl; constructor.
Qed.

(** Start, then complete the first two nodes of the demo. *)
Definition demo_run : Executor * list (string * string) :=
  foldl (@run_call range_ascending _ always_ok) (executor demo, [])
    [CallStart "start"; CallCompleted "1" "plan"; CallCompleted "2" "search"].

Lemma demo_fresh : fresh (executor demo).
Proof. unfold demo. eauto 6 with agentic. Qed.

Lemma demo_acyclic : ¬ cyclic (wdag demo).
Proof.
  apply (@topological_order_acyclic range_ascending _ ["plan"; "search"; "code"; "review"]
           (fresh_wdag_wf demo demo_fresh)).
  vm_compute. reflexivity.
Qed.

Lemma demo_run_steps :
  rtc (@exec_step _ always_ok range_ascending) (executor demo, []) (demo_run.1, demo_run.2).
Proof. rewrite <-surjective_pairing. apply (@run_calls_steps range_ascending _ always_ok). Qed.

Lemma executor_refines_scheduler_witness :
  rtc (sched_step always_ok) (executor demo, []) (demo_run.1, demo_run.2) ∧ demo_run.1.(sm) !! "review" = Some NodeStatePending.
Proof.
  split; [|vm_compute; reflexivity].
  exact (proj1 (@executor_refines_scheduler range_ascending _ always_ok (executor demo, []) (demo_run.1, demo_run.2)
                  demo_run_steps)).
Defined.

Lemma dependency_safety_witness :
  started demo_run.1 "code" ∧ sm demo_run.1 !! "plan" = Some NodeStateCompleted.
Proof.
  assert (started demo_run.1 "code") as Hs
    by (exists NodeStateRunning; split; [vm_compute; reflexivity|discriminate]).
  split; [exact Hs|].
  apply (@dependency_safety range_ascending _ always_ok (executor demo) demo_run.1 [] demo_run.2
           "code" "plan" demo_fresh); [|exact Hs|].
  - exact demo_run_steps.
  - apply (bool_decide_unpack _). vm_compute. reflexivity.
Defined.

Lemma launched_at_most_once_witness :
  demo_run.2 = [("orchestrator", "plan"); ("researcher", "search"); ("generic", "code")] ∧
  NoDup demo_run.2.*2.
Proof.
  split; [vm_compute; reflexivity|].
  apply (@launched_at_most_once range_ascending (λ _ _ _, None) (executor demo) demo_run.1 demo_run.2 demo_fresh).
  exact demo_run_steps.
Defined.

Lemma workflow_runs_to_completion_witness :
  fresh (executor demo) ∧ ¬ cyclic (wdag demo) ∧
  ∃ e0 w0, @Start range_ascending _ always_ok "start" None (executor demo) [] = ((e0, w0), None).
Proof.
  split; [exact demo_fresh|]. split; [exact demo_acyclic|].
  destruct (@workflow_runs_to_completion range_ascending _ always_ok (λ _ _ _ _, eq_refl)
              "start" None (executor demo) [] demo_fresh demo_acyclic) as (e0 & w0 & Hs & _).
  exists e0, w0. exact Hs.
Defined.
