(* ===== verification/Json.v ===== *)
(** * The part of encoding/json the program relies on

    The agents exchange JSON texts and keep parts of them uninterpreted
    ([json.RawMessage]), so the text itself is modelled: the scanner behind
    [json.Valid] and [Decode] with its nesting limit ([parse_value]), the
    compact printer ([print]), string literals in both directions ([quote],
    [unquote]) with Go's treatment of malformed UTF-8, and the decoding of an
    object into the fields of a struct ([object_fields], [decode_struct]).

    A value keeps string bodies and number literals as written, so printing is
    exact; [unquote] and [parse_int] interpret them.  The scanner is recursive
    with fuel; [parse_value_fuel] shows that the fuel [parse] gives it is always
    enough: whatever some fuel accepts, this one accepts with the same value. *)
From Stdlib Require Import String Ascii.
From S2P Require Export Prelude GoStrings Strconv.
From stdpp Require Import list.

Local Open Scope Z_scope.

(** ** Characters *)

Definition dquote : ascii := "034"%char.
Definition backslash : ascii := "092"%char.
Definition is_ws (c : ascii) : bool :=
  let n := code c in (n =? 32) || (n =? 9) || (n =? 10) || (n =? 13).
Definition is_hex (c : ascii) : bool :=
  is_digit c || ((97 <=? code c) && (code c <=? 102)) || ((65 <=? code c) && (code c <=? 70)).

Fixpoint skip_ws (s : string) : string :=
  match s with
  | String c r => if is_ws c then skip_ws r else s
  | EmptyString => EmptyString
  end.

(** ** Tokens *)

(** The body of a string literal, up to the closing quote. *)
Definition is_escape (c : ascii) : bool :=
  bool_decide (c ∈ [dquote; backslash; "/"%char; "b"%char; "f"%char; "n"%char; "r"%char; "t"%char]).

Fixpoint scan_string (s : string) : option (string * string) :=
  match s with
  | EmptyString => None
  | String c r =>
    if bool_decide (c = dquote) then Some (EmptyString, r)
    else if code c <? 32 then None
    else if bool_decide (c = backslash) then
      match r with
      | String e r1 =>
        if is_escape e then '(b, r') ← scan_string r1; Some (String c (String e b), r')
        else if bool_decide (e = "u"%char) then
          match r1 with
          | String h1 (String h2 (String h3 (String h4 r2))) =>
            if is_hex h1 && is_hex h2 && is_hex h3 && is_hex h4 then
              '(b, r') ← scan_string r2;
              Some (String c (String e (String h1 (String h2 (String h3 (String h4 b))))), r')
            else None
          | _ => None
          end
        else None
      | EmptyString => None
      end
    else '(b, r') ← scan_string r; Some (String c b, r')
  end.

Fixpoint take_digits (s : string) : string * string :=
  match s with
  | String c r => if is_digit c then let '(d, r') := take_digits r in (String c d, r') else (EmptyString, s)
  | EmptyString => (EmptyString, EmptyString)
  end.

Definition scan_int (s : string) : option (string * string) :=
  match s with
  | String c r =>
    if bool_decide (c = "0"%char) then Some (String c EmptyString, r)
    else if is_digit c then Some (take_digits s) else None
  | EmptyString => None
  end.

Definition scan_frac (s : string) : option (string * string) :=
  match s with
  | String c r =>
    if bool_decide (c = "."%char) then
      match take_digits r with
      | (EmptyString, _) => None
      | (d, r') => Some (String c d, r')
      end
    else Some (EmptyString, s)
  | EmptyString => Some (EmptyString, s)
  end.

Definition is_e (c : ascii) : bool := bool_decide (c = "e"%char) || bool_decide (c = "E"%char).
Definition is_sign (c : ascii) : bool := bool_decide (c = "+"%char) || bool_decide (c = "-"%char).

Definition scan_sign (s : string) : string * string :=
  match s with
  | String c r => if is_sign c then (String c EmptyString, r) else (EmptyString, s)
  | EmptyString => (EmptyString, s)
  end.

Definition scan_exp (s : string) : option (string * string) :=
  match s with
  | String c r =>
    if is_e c then
      let '(sg, r1) := scan_sign r in
      match take_digits r1 with
      | (EmptyString, _) => None
      | (d, r') => Some (String c (sg ++ d), r')
      end
    else Some (EmptyString, s)
  | EmptyString => Some (EmptyString, s)
  end.

Definition scan_minus (s : string) : string * string :=
  match s with
  | String c r => if bool_decide (c = "-"%char) then (String c EmptyString, r) else (EmptyString, s)
  | EmptyString => (EmptyString, s)
  end.

Definition scan_number (s : string) : option (string * string) :=
  let '(m, s1) := scan_minus s in
  '(i, s2) ← scan_int s1;
  '(f, s3) ← scan_frac s2;
  '(e, s4) ← scan_exp s3;
  Some ((m ++ (i ++ (f ++ e)))%string, s4).

(** ** Values *)

Inductive json :=
| JNull
| JBool (b : bool)
| JNum (lit : string)
| JStr (body : string)
| JArr (l : list json)
| JObj (ms : list (string * json)).

(** maxNestingDepth of encoding/json. *)
Definition max_depth : Z := 10000.

Definition scan_literal (lit : string) (v : json) (s : string) : option (json * string) :=
  if HasPrefix s lit then Some (v, skip (String.length lit) s) else None.

Fixpoint parse_value (fuel : nat) (depth : Z) (s : string) {struct fuel} : option (json * string) :=
  match fuel with
  | O => None
  | S fuel =>
    let s := skip_ws s in
    match s with
    | EmptyString => None
    | String c r =>
      if bool_decide (c = "{"%char) then
        if max_depth <=? depth then None else
        match skip_ws r with
        | String c' r' =>
          if bool_decide (c' = "}"%char) then Some (JObj [], r')
          else '(ms, r'') ← parse_members fuel (depth + 1) r; Some (JObj ms, r'')
        | EmptyString => None
        end
      else if bool_decide (c = "["%char) then
        if max_depth <=? depth then None else
        match skip_ws r with
        | String c' r' =>
          if bool_decide (c' = "]"%char) then Some (JArr [], r')
          else '(l, r'') ← parse_elems fuel (depth + 1) r; Some (JArr l, r'')
        | EmptyString => None
        end
      else if bool_decide (c = dquote) then '(b, r') ← scan_string r; Some (JStr b, r')
      else if bool_decide (c = "t"%char) then scan_literal "true" (JBool true) s
      else if bool_decide (c = "f"%char) then scan_literal "false" (JBool false) s
      else if bool_decide (c = "n"%char) then scan_literal "null" JNull s
      else '(n, r') ← scan_number s; Some (JNum n, r')
    end
  end
with parse_elems (fuel : nat) (depth : Z) (s : string) {struct fuel} : option (list json * string) :=
  match fuel with
  | O => None
  | S fuel =>
    '(v, r) ← parse_value fuel depth s;
    match skip_ws r with
    | String c r' =>
      if bool_decide (c = ","%char) then '(l, r'') ← parse_elems fuel depth r'; Some (v :: l, r'')
      else if bool_decide (c = "]"%char) then Some ([v], r')
      else None
    | EmptyString => None
    end
  end
with parse_members (fuel : nat) (depth : Z) (s : string) {struct fuel} : option (list (string * json) * string) :=
  match fuel with
  | O => None
  | S fuel =>
    match skip_ws s with
    | String q r =>
      if bool_decide (q = dquote) then
        '(k, r1) ← scan_string r;
        match skip_ws r1 with
        | String c r2 =>
          if bool_decide (c = ":"%char) then
            '(v, r3) ← parse_value fuel depth r2;
            match skip_ws r3 with
            | String c r' =>
              if bool_decide (c = ","%char) then '(l, r'') ← parse_members fuel depth r'; Some ((k, v) :: l, r'')
              else if bool_decide (c = "}"%char) then Some ([(k, v)], r')
              else None
            | EmptyString => None
            end
          else None
        | EmptyString => None
        end
      else None
    | EmptyString => None
    end
  end.

Definition parse_fuel (s : string) : nat := (2 * String.length s)%nat.

Definition parse (s : string) : option json :=
  '(v, r) ← parse_value (parse_fuel s) 0 s;
  match skip_ws r with EmptyString => Some v | _ => None end.

(** [json.Valid]. *)
Definition Valid (s : string) : bool := bool_decide (is_Some (parse s)).

(** ** Printing *)

Fixpoint print (v : json) : string :=
  match v with
  | JNull => "null"
  | JBool b => if b then "true" else "false"
  | JNum n => n
  | JStr b => String dquote (b ++ String dquote EmptyString)
  | JArr l =>
    String "[" match l with
    | [] => "]"
    | v :: l => print v ++ (fix tail l := match l with [] => "]" | v :: l => String "," (print v ++ tail l) end) l
    end
  | JObj ms =>
    String "{" match ms with
    | [] => "}"
    | (k, v) :: ms =>
      String dquote (k ++ String dquote (String ":" (print v ++
        (fix tail ms := match ms with
         | [] => "}"
         | (k, v) :: ms => String "," (String dquote (k ++ String dquote (String ":" (print v ++ tail ms))))
         end) ms)))
    end
  end%string.

Definition print_tail : list json → string :=
  fix tail l := match l with [] => "]" | v :: l => String "," (print v ++ tail l) end%string.

Definition print_members_tail : list (string * json) → string :=
  fix tail ms := match ms with
  | [] => "}"
  | (k, v) :: ms => String "," (String dquote (k ++ String dquote (String ":" (print v ++ tail ms))))
  end%string.

(** A JSON text written with single quotes, for readable concrete inputs. *)
Definition quote_char (c : ascii) : ascii := if bool_decide (c = "'"%char) then dquote else c.
Fixpoint jtext (s : string) : string :=
  match s with
  | String c r => String (quote_char c) (jtext r)
  | EmptyString => EmptyString
  end.

Example parse_example :
  parse (jtext " { 'a' : [1, -2.5e+3, true ,null], 'b':{}} ") =
  Some (JObj [("a", JArr [JNum "1"; JNum "-2.5e+3"; JBool true; JNull]); ("b", JObj [])]%string).
Proof. vm_compute. reflexivity. Qed.

Example parse_rejects :
  Forall (λ s, parse (jtext s) = None)
    ["01"; "1."; "{'a':1,}"; "[1 2]"; "'a"; "nul"; ""; "{} x"; "'\q'"; "+1"; "1e"]%string.
Proof. repeat constructor. Qed.

(** ** The scanner on printed text *)

Lemma string_length_ind (P : string → Prop) :
  (∀ s, (∀ t, (String.length t < String.length s)%nat → P t) → P s) → ∀ s, P s.
Proof.
  intros IH s. remember (String.length s) as n eqn:Hn. revert s Hn.
  induction n as [n IHn] using (well_founded_induction lt_wf).
  intros s ->. apply IH. intros t Ht. by eapply IHn.
Qed.

Lemma skip_ws_length s : (String.length (skip_ws s) ≤ String.length s)%nat.
Proof. induction s as [|c s IH]; simpl; [done|]. destruct (is_ws c); simpl; lia. Qed.

Ltac scan_step :=
  match goal with
  | H : None = Some _ |- _ => discriminate H
  | H : Some _ = Some _ |- _ => injection H as ?; subst
  | H : (if ?b then _ else _) = Some _ |- _ => destruct b eqn:?
  | H : (match ?x with _ => _ end) = Some _ |- _ => destruct x eqn:?
  | H : (?x ≫= _) = Some _ |- _ => apply bind_Some in H as ([? ?] & ? & ?)
  | H : bool_decide _ = true |- _ => apply bool_decide_eq_true_1 in H; subst
  | H : (_ && _) = true |- _ => apply andb_prop in H as [? ?]
  end.

(** What [scan_string] returns is the text up to the closing quote, and it
    depends on nothing after it. *)
Lemma scan_string_spec s b r :
  scan_string s = Some (b, r) →
  s = (b ++ String dquote r)%string ∧ ∀ t, scan_string (b ++ String dquote t) = Some (b, t).
Proof.
  revert b r. induction s as [s IH] using string_length_ind. intros b r H.
  destruct s as [|c s]; [done|]. cbn in H. repeat scan_step.
  all: try done.
  all: match goal with H : scan_string _ = Some _ |- _ => apply IH in H as [-> Ht]; [|simpl; lia] end.
  all: split; [done|]; intros t; cbn.
  all: repeat match goal with H : ?x = _ |- context [?x] => rewrite H end.
  all: by rewrite ?Ht.
Qed.

(** The head of [s], if any, is not a [P]. *)
Definition nohead (P : ascii → bool) (s : string) : Prop :=
  match s with String c _ => P c = false | EmptyString => True end.

Lemma take_digits_spec s d r :
  take_digits s = (d, r) → s = (d ++ r)%string ∧ ∀ t, nohead is_digit t → take_digits (d ++ t) = (d, t).
Proof.
  revert d r. induction s as [|c s IH]; intros d r; cbn.
  - intros [= <- <-]. split; [done|]. intros [|c t]; cbn; [done|]. by intros ->.
  - destruct (is_digit c) eqn:Hc.
    + destruct (take_digits s) as [d' r'] eqn:Hd. intros [= <- <-].
      destruct (IH _ _ eq_refl) as [-> Ht]. split; [done|]. intros t Hn. cbn. by rewrite Hc, (Ht t Hn).
    + intros [= <- <-]. split; [done|]. intros [|c' t]; cbn; [done|]. by intros ->.
Qed.

Lemma take_digits_head s c d r : take_digits s = (String c d, r) → is_digit c = true.
Proof. destruct s as [|c' s]; cbn; [done|]. destruct (is_digit c') eqn:?; [|done]. destruct (take_digits s). congruence. Qed.

#[local] Arguments take_digits : simpl never.

Definition is_minus (c : ascii) : bool := bool_decide (c = "-"%char).
Definition is_dot (c : ascii) : bool := bool_decide (c = "."%char).

Lemma scan_int_spec s d r :
  scan_int s = Some (d, r) →
  s = (d ++ r)%string ∧ (∃ c d', d = String c d' ∧ is_digit c = true) ∧
  ∀ t, nohead is_digit t → scan_int (d ++ t) = Some (d, t).
Proof.
  destruct s as [|c s]; [done|]. unfold scan_int.
  destruct (bool_decide (c = "0"%char)) eqn:?; [|destruct (is_digit c) eqn:?; [|done]].
  - intros [= <- <-]. scan_step. split_and!; eauto.
  - destruct (take_digits (String c s)) as [d0 r0] eqn:Hd. intros [= -> ->].
    pose proof (take_digits_spec _ _ _ Hd) as [Hs Ht].
    assert (∃ d', d = String c d') as [d' ->].
    { unfold take_digits in Hd; fold take_digits in Hd. rewrite Heqb0 in Hd.
      destruct (take_digits s). injection Hd as <- <-. eauto. }
    split; [done|]. split; [by eauto|]. intros t Hn. specialize (Ht t Hn).
    change (String c d' +:+ t) with (String c (d' +:+ t)) in *. unfold scan_int. by rewrite Heqb, Heqb0, Ht.
Qed.

Lemma scan_frac_spec s d r :
  scan_frac s = Some (d, r) →
  s = (d ++ r)%string ∧ (d = EmptyString ∨ ∃ d', d = String "." d') ∧
  ∀ t, nohead is_digit t → nohead is_dot t → scan_frac (d ++ t) = Some (d, t).
Proof.
  intros H. destruct s as [|c s]; cbn in H; repeat scan_step.
  - split_and!; [done|by left|]. intros [|c t]; cbn; [done|]. unfold is_dot. by intros _ ->.
  - match goal with H : take_digits _ = _ |- _ => pose proof (take_digits_spec _ _ _ H) as [-> Ht] end.
    split_and!; [done|by eauto|]. intros t Hn _. specialize (Ht t Hn). cbn in Ht |- *. by rewrite Ht.
  - split_and!; [done|by left|]. intros [|c' t]; cbn; [done|]. unfold is_dot. by intros _ ->.
Qed.

Lemma scan_exp_spec s d r :
  scan_exp s = Some (d, r) →
  s = (d ++ r)%string ∧ (d = EmptyString ∨ ∃ c d', d = String c d' ∧ is_e c = true) ∧
  ∀ t, nohead is_digit t → nohead is_e t → scan_exp (d ++ t) = Some (d, t).
Proof.
  intros H. destruct s as [|c s]; cbn in H; repeat scan_step.
  - split_and!; [done|by left|]. intros [|c t]; cbn; [done|]. by intros _ ->.
  - match goal with H : take_digits _ = _ |- _ => rename H into Hd end.
    pose proof (take_digits_head _ _ _ _ Hd) as Ha. apply take_digits_spec in Hd as [-> Ht].
    match goal with H : scan_sign _ = _ |- _ => rename H into Hs end.
    destruct s as [|c' s]; [by cbn in Hs; simplify_eq|]. unfold scan_sign in Hs.
    destruct (is_sign c') eqn:Hc'; injection Hs as ? ?; subst.
    + split_and!; [done|by eauto|]. intros t Hn _. cbn. rewrite Heqb, Hc'.
      specialize (Ht t Hn). cbn in Ht. by rewrite Ht.
    + cbn in *. simplify_eq. split_and!; [done|by eauto|]. intros t Hn _. cbn. rewrite Heqb, Hc'.
      specialize (Ht t Hn). by rewrite Ht.
  - split_and!; [done|by left|]. intros [|c' t]; cbn; [done|]. by intros _ ->.
Qed.

Definition num_char (c : ascii) : bool := is_digit c || is_dot c || is_e c.

Lemma scan_number_spec s n r :
  scan_number s = Some (n, r) →
  s = (n ++ r)%string ∧ (∃ c n', n = String c n' ∧ (is_digit c || is_minus c) = true) ∧
  ∀ t, nohead num_char t → scan_number (n ++ t) = Some (n, t).
Proof.
  unfold scan_number. destruct (scan_minus s) as [m s1] eqn:Hm. intros H.
  apply bind_Some in H as ([i s2] & Hi & H). apply bind_Some in H as ([f s3] & Hf & H).
  apply bind_Some in H as ([e s4] & He & [= <- <-]).
  apply scan_int_spec in Hi as (-> & (ci & i' & -> & Hci) & Hi).
  apply scan_frac_spec in Hf as (-> & Hfd & Hf). apply scan_exp_spec in He as (-> & Hed & He).
  assert (s = (m ++ (String ci i' ++ (f ++ (e ++ s4))))%string ∧ (m = EmptyString ∨ m = String "-" EmptyString)) as [-> Hmd].
  { destruct s as [|c s]; cbn in Hm; [by simplify_eq|]. case_match; simplify_eq/=; [|by eauto].
    apply bool_decide_eq_true_1 in H as ->. eauto. }
  split; [by rewrite ?sapp_assoc|]. split.
  { destruct Hmd as [-> | ->]; cbn; [|by eauto]. do 2 eexists. split; [done|]. by rewrite Hci. }
  intros t Ht.
  assert (nohead is_digit t ∧ nohead is_dot t ∧ nohead is_e t) as (Ht1 & Ht2 & Ht3).
  { destruct t as [|c t]; cbn in *; [done|]. unfold num_char in Ht.
    destruct (is_digit c), (is_dot c), (is_e c); done. }
  assert (nohead is_digit (e ++ t)%string ∧ nohead is_dot (e ++ t)%string) as [Het1 Het2].
  { destruct Hed as [-> | (ce & e' & -> & Hce)]; [done|]. cbn. unfold is_e in Hce.
    apply orb_prop in Hce as [Hce|Hce]; apply bool_decide_eq_true_1 in Hce as ->; done. }
  rewrite !sapp_assoc. replace (scan_minus _) with (m, (String ci i' ++ (f ++ (e ++ t)))%string).
  - cbn [mbind]. rewrite Hi; [cbn|by destruct Hfd as [-> | [f' ->]]; cbn].
    rewrite Hf by done. cbn. by rewrite He.
  - destruct Hmd as [-> | ->]; cbn; [|done].
    rewrite bool_decide_eq_false_2; [done|]. by intros ->.
Qed.

(** ** Well-formed values

    Values whose string bodies and number literals are such tokens, nested
    within the limit when [d] containers are open around them. *)
Definition token_str (b : string) : bool :=
  bool_decide (scan_string (b ++ String dquote EmptyString) = Some (b, EmptyString)).
Definition token_num (n : string) : bool := bool_decide (scan_number n = Some (n, EmptyString)).

Fixpoint json_ok (d : Z) (v : json) : bool :=
  match v with
  | JNull | JBool _ => true
  | JNum n => token_num n
  | JStr b => token_str b
  | JArr l =>
    (d <? max_depth) && (fix all l := match l with [] => true | v :: l => json_ok (d + 1) v && all l end) l
  | JObj ms =>
    (d <? max_depth) &&
    (fix all ms := match ms with [] => true | (k, v) :: ms => token_str k && json_ok (d + 1) v && all ms end) ms
  end.

Definition all_ok (d : Z) : list json → bool :=
  fix all l := match l with [] => true | v :: l => json_ok d v && all l end.
Definition members_ok (d : Z) : list (string * json) → bool :=
  fix all ms := match ms with [] => true | (k, v) :: ms => token_str k && json_ok d v && all ms end.

(** Nodes of a value: the fuel its printed text needs. *)
Fixpoint jsize (v : json) : nat :=
  match v with
  | JArr l => S ((fix sz l := match l with [] => O | v :: l => S (jsize v + sz l) end) l)
  | JObj ms => S ((fix sz ms := match ms with [] => O | (_, v) :: ms => S (jsize v + sz ms) end) ms)
  | _ => 1
  end%nat.

Definition elems_size : list json → nat :=
  fix sz l := match l with [] => O | v :: l => S (jsize v + sz l) end%nat.
Definition members_size : list (string * json) → nat :=
  fix sz ms := match ms with [] => O | (_, v) :: ms => S (jsize v + sz ms) end%nat.

Fixpoint json_induction (P : json → Prop)
  (Hn : P JNull) (Hb : ∀ b, P (JBool b)) (Hi : ∀ n, P (JNum n)) (Hs : ∀ s, P (JStr s))
  (Ha : ∀ l, Forall P l → P (JArr l)) (Ho : ∀ ms, Forall (λ m, P m.2) ms → P (JObj ms)) (v : json) : P v :=
  let rec := json_induction P Hn Hb Hi Hs Ha Ho in
  match v with
  | JNull => Hn | JBool b => Hb b | JNum n => Hi n | JStr s => Hs s
  | JArr l => Ha l ((fix go l : Forall P l :=
      match l with [] => List.Forall_nil _ | v :: l => List.Forall_cons _ _ _ (rec v) (go l) end) l)
  | JObj ms => Ho ms ((fix go ms : Forall (λ m, P m.2) ms :=
      match ms with [] => List.Forall_nil _ | m :: ms => List.Forall_cons _ _ _ (rec m.2) (go ms) end) ms)
  end.

Lemma token_str_scan b t : token_str b = true → scan_string (b ++ String dquote t) = Some (b, t).
Proof. intros H. apply bool_decide_eq_true_1, scan_string_spec in H as [_ H]. apply H. Qed.

Lemma token_num_scan n t :
  token_num n = true → nohead num_char t →
  scan_number (n ++ t) = Some (n, t) ∧ ∃ c n', n = String c n' ∧ (is_digit c || is_minus c) = true.
Proof. intros H%bool_decide_eq_true_1. apply scan_number_spec in H as (_ & He & H). eauto. Qed.

Lemma scan_literal_app lit v t : scan_literal lit v (lit ++ t) = Some (v, t).
Proof. unfold scan_literal. by rewrite HasPrefix_app, skip_app. Qed.

(** The first character of a number is none of those that start other values. *)
Lemma number_head c :
  (is_digit c || is_minus c) = true →
  is_ws c = false ∧ c ≠ "{"%char ∧ c ≠ "["%char ∧ c ≠ dquote ∧ c ≠ "t"%char ∧ c ≠ "f"%char ∧ c ≠ "n"%char.
Proof.
  destruct c as [[] [] [] [] [] [] [] []]; vm_compute; intros H; try discriminate H; split_and!; done.
Qed.

(** The characters that may follow a value. *)
Definition follow (t : string) : Prop := nohead num_char t.

Ltac bd :=
  repeat match goal with
  | |- context [bool_decide (?a = ?b)] =>
    first [ rewrite (bool_decide_eq_true_2 (a = b)) by reflexivity
          | rewrite (bool_decide_eq_false_2 (a = b)) by (done || congruence) ]
  end.

Section roundtrip.
#[local] Arguments print_tail : simpl never.
#[local] Arguments print_members_tail : simpl never.
#[local] Arguments print : simpl never.
Definition parses (v : json) : Prop := ∀ d f t, json_ok d v = true → follow t → (jsize v ≤ f)%nat →
  parse_value f d (print v ++ t) = Some (v, t).

Lemma print_head v d : json_ok d v = true → ∃ c s, print v = String c s ∧ is_ws c = false ∧ c ≠ "]"%char ∧ c ≠ "}"%char.
Proof.
  destruct v as [|[]|n|b|l|ms]; cbn; intros H; try (do 2 eexists; split_and!; done).
  - destruct (token_num_scan n EmptyString H I) as (_ & c & n' & -> & Hc).
    exists c, n'. destruct (number_head c Hc) as (? & _). split_and!; [done..| |];
    intros ->; by vm_compute in Hc.
Qed.

Lemma skip_ws_nows c s : is_ws c = false → skip_ws (String c s) = String c s.
Proof. cbn. by intros ->. Qed.

Lemma skip_ws_print v d t : json_ok d v = true → skip_ws (print v ++ t) = (print v ++ t)%string.
Proof. intros H. destruct (print_head v d H) as (c & s & -> & Hc & _). by apply skip_ws_nows. Qed.

Lemma parse_elems_print l : ∀ v d f t,
  Forall parses (v :: l) → all_ok d (v :: l) = true → follow t →
  (elems_size (v :: l) ≤ f)%nat →
  parse_elems f d (print v ++ (print_tail l ++ t)) = Some (v :: l, t).
Proof.
  induction l as [|w l IH]; intros v d f t [Hv Hl]%Forall_cons_1 Hok Ht Hf;
    (destruct f as [|f]; [cbn in Hf; lia|]); cbn [elems_size] in Hf; cbn [parse_elems];
    apply andb_prop in Hok as [Hov Hol].
  - cbn [print_tail]. rewrite (Hv d f _ Hov) by (done || lia). done.
  - change (print_tail (w :: l)) with (String "," (print w ++ print_tail l))%string.
    rewrite (Hv d f _ Hov) by (done || lia). cbn [mbind option_bind String.append]. rewrite skip_ws_nows by done. bd. rewrite sapp_assoc.
    rewrite (IH w d f t) by (done || (cbn; lia)). done.
Qed.

Lemma parse_members_print ms : ∀ k v d f t,
  Forall (λ m, parses m.2) ((k, v) :: ms) → members_ok d ((k, v) :: ms) = true → follow t →
  (members_size ((k, v) :: ms) ≤ f)%nat →
  parse_members f d (String dquote (k ++ String dquote (String ":" (print v ++ (print_members_tail ms ++ t))))) =
  Some ((k, v) :: ms, t).
Proof.
  induction ms as [|[k' w] ms IH]; intros k v d f t [Hv Hl]%Forall_cons_1 Hok Ht Hf;
    (destruct f as [|f]; [cbn in Hf; lia|]); cbn [members_size] in Hf; cbn [snd] in Hv;
    apply andb_prop in Hok as [[Hk Hov]%andb_prop Hol]; cbn [parse_members];
    rewrite skip_ws_nows by done; cbn [mbind option_bind];
    rewrite bool_decide_eq_true_2, (token_str_scan k) by done; cbn [mbind option_bind];
    rewrite skip_ws_nows by done; rewrite bool_decide_eq_true_2 by done.
  - cbn [print_members_tail]. rewrite (Hv d f _ Hov) by (done || lia). done.
  - change (print_members_tail ((k', w) :: ms)) with
      (String "," (String dquote (k' ++ String dquote (String ":" (print w ++ print_members_tail ms)))))%string.
    rewrite (Hv d f _ Hov) by (done || lia). cbn [mbind option_bind String.append]. rewrite skip_ws_nows by done. bd.
    rewrite sapp_assoc. cbn [String.append]. rewrite sapp_assoc.
    rewrite (IH k' w d f t) by (done || (cbn; lia)). done.
Qed.

Lemma print_arr v l : print (JArr (v :: l)) = String "[" (print v ++ print_tail l)%string.
Proof. done. Qed.
Lemma print_obj k v ms :
  print (JObj ((k, v) :: ms)) =
  String "{" (String dquote (k ++ String dquote (String ":" (print v ++ print_members_tail ms))))%string.
Proof. done. Qed.

Lemma parse_value_print v : parses v.
Proof.
  induction v as [|b|n|b|l IH|ms IH] using json_induction; intros d f t Hok Ht Hf;
    (destruct f as [|f]; [cbn in Hf; lia|]).
  - apply (scan_literal_app "null").
  - destruct b; [apply (scan_literal_app "true")|apply (scan_literal_app "false")].
  - destruct (token_num_scan n t Hok Ht) as (Hs & c & n' & -> & Hc).
    destruct (number_head c Hc) as (Hw & ? & ? & ? & ? & ? & ?).
    change (print (JNum (String c n')) +:+ t) with (String c (n' +:+ t)) in *.
    cbn [parse_value]. rewrite skip_ws_nows by done. bd.
    change (String c n' +:+ t) with (String c (n' +:+ t)) in Hs. by rewrite Hs.
  - change (print (JStr b)) with (String dquote (b ++ String dquote EmptyString)).
    cbn [parse_value]. change (String dquote ?x +:+ t) with (String dquote (x +:+ t)).
    rewrite skip_ws_nows by done. bd. rewrite sapp_assoc. cbn. by rewrite token_str_scan.
  - apply andb_prop in Hok as [Hd Hok]. assert (max_depth <=? d = false) as Hd' by lia.
    destruct l as [|v l]; [cbn; by rewrite Hd'|]. rewrite print_arr.
    change (String "[" ?x +:+ t) with (String "[" (x +:+ t)). cbn [parse_value].
    rewrite skip_ws_nows by done. bd. rewrite Hd', sapp_assoc.
    destruct (print_head v (d + 1)) as (c & s & Hp & Hc & Hc1 & Hc2).
    { by apply andb_prop in Hok as [? ?]. }
    rewrite Hp at 1. change (String c s +:+ ?x) with (String c (s +:+ x)). rewrite skip_ws_nows by done.
    bd. change (S (elems_size (v :: l)) ≤ S f)%nat in Hf. rewrite parse_elems_print by (done || lia). done.
  - apply andb_prop in Hok as [Hd Hok]. assert (max_depth <=? d = false) as Hd' by lia.
    destruct ms as [|[k v] ms]; [cbn; by rewrite Hd'|]. rewrite print_obj.
    change (String "{" ?x +:+ t) with (String "{" (x +:+ t)). cbn [parse_value].
    rewrite skip_ws_nows by done. bd. rewrite Hd'.
    change (String dquote ?x +:+ t) with (String dquote (x +:+ t)). rewrite skip_ws_nows by done. bd.
    rewrite sapp_assoc. change (String dquote ?x +:+ t) with (String dquote (x +:+ t)).
    change (String ":" ?x +:+ t) with (String ":" (x +:+ t)). rewrite sapp_assoc.
    change (S (members_size ((k, v) :: ms)) ≤ S f)%nat in Hf. rewrite parse_members_print by (done || lia). done.
Qed.
End roundtrip.

(** ** Enough fuel

    A scanner that succeeds consumes text, and then [2 * consumed] units of
    fuel are enough for the same result. *)
Lemma scan_string_length s b r : scan_string s = Some (b, r) → (String.length r < String.length s)%nat.
Proof. intros [-> _]%scan_string_spec. rewrite slength_app. simpl. lia. Qed.

Lemma scan_number_length s n r : scan_number s = Some (n, r) → (String.length r < String.length s)%nat.
Proof. intros (-> & (c & n' & -> & _) & _)%scan_number_spec. rewrite slength_app. simpl. lia. Qed.

Lemma scan_literal_length lit v s w r :
  (0 < String.length lit)%nat → scan_literal lit v s = Some (w, r) → (String.length r < String.length s)%nat.
Proof.
  unfold scan_literal. intros Hl H. destruct (HasPrefix s lit) eqn:Hp; [|done].
  apply HasPrefix_spec in Hp as [t ->]. rewrite skip_app in H. simplify_eq. rewrite slength_app. lia.
Qed.

Definition value_fuel_ok (f : nat) : Prop := ∀ d s v r, parse_value f d s = Some (v, r) →
  (String.length r < String.length s)%nat ∧
  ∀ f', (2 * (String.length s - String.length r) ≤ f')%nat → parse_value f' d s = Some (v, r).
Definition elems_fuel_ok (f : nat) : Prop := ∀ d s l r, parse_elems f d s = Some (l, r) →
  (S (String.length r) < String.length s)%nat ∧
  ∀ f', (2 * (String.length s - String.length r) ≤ S f')%nat → parse_elems f' d s = Some (l, r).
Definition members_fuel_ok (f : nat) : Prop := ∀ d s l r, parse_members f d s = Some (l, r) →
  (S (String.length r) < String.length s)%nat ∧
  ∀ f', (2 * (String.length s - String.length r) ≤ S f')%nat → parse_members f' d s = Some (l, r).

Lemma parse_value_fuel_step f : elems_fuel_ok f → members_fuel_ok f → value_fuel_ok (S f).
Proof.
  intros He Hm d s v r H. cbn [parse_value] in H. pose proof (skip_ws_length s) as Hsl.
  assert (∀ f', (0 < 2 * (String.length s - String.length r) ≤ f')%nat → ∃ g, f' = S g) as Hf'.
  { intros [|g] ?; [lia|by exists g]. }
  destruct (skip_ws s) as [|c s1] eqn:Hs; [done|]. simpl in Hsl.
  destruct (bool_decide (c = "{"%char)) eqn:H1.
  { destruct (max_depth <=? d) eqn:Hd; [done|]. pose proof (skip_ws_length s1).
    destruct (skip_ws s1) as [|c' s2] eqn:Hs1; [done|]. simpl in *.
    destruct (bool_decide (c' = "}"%char)) eqn:H2.
    - simplify_eq. split; [lia|]. intros f' Hf. destruct (Hf' f') as [g ->]; [lia|].
      cbn [parse_value]. by rewrite Hs, H1, Hd, Hs1, H2.
    - apply bind_Some in H as ([ms r'] & H & [= <- ->]). apply Hm in H as [Hlen Hmf].
      split; [lia|]. intros f' Hf. destruct (Hf' f') as [g ->]; [lia|].
      cbn [parse_value]. rewrite Hs, H1, Hd, Hs1, H2, Hmf by lia. done. }
  destruct (bool_decide (c = "["%char)) eqn:H2.
  { destruct (max_depth <=? d) eqn:Hd; [done|]. pose proof (skip_ws_length s1).
    destruct (skip_ws s1) as [|c' s2] eqn:Hs1; [done|]. simpl in *.
    destruct (bool_decide (c' = "]"%char)) eqn:H3.
    - simplify_eq. split; [lia|]. intros f' Hf. destruct (Hf' f') as [g ->]; [lia|].
      cbn [parse_value]. by rewrite Hs, H1, H2, Hd, Hs1, H3.
    - apply bind_Some in H as ([ms r'] & H & [= <- ->]). apply He in H as [Hlen Hmf].
      split; [lia|]. intros f' Hf. destruct (Hf' f') as [g ->]; [lia|].
      cbn [parse_value]. rewrite Hs, H1, H2, Hd, Hs1, H3, Hmf by lia. done. }
  assert (String.length r < S (String.length s1))%nat as Hlen.
  { repeat match type of H with (if ?b then _ else _) = _ => destruct b end.
    - apply bind_Some in H as ([b r'] & H%scan_string_length & [= <- ->]). lia.
    - apply scan_literal_length in H; simpl in *; lia.
    - apply scan_literal_length in H; simpl in *; lia.
    - apply scan_literal_length in H; simpl in *; lia.
    - apply bind_Some in H as ([b r'] & H%scan_number_length & [= <- ->]). simpl in *. lia. }
  split; [lia|]. intros f' Hf. destruct (Hf' f') as [g ->]; [lia|].
  cbn [parse_value]. by rewrite Hs, H1, H2.
Qed.

Lemma parse_elems_fuel_step f : value_fuel_ok f → elems_fuel_ok f → elems_fuel_ok (S f).
Proof.
  intros Hv He d s l r H. cbn [parse_elems] in H.
  apply bind_Some in H as ([v r1] & Hv1 & H). apply Hv in Hv1 as [Hlen Hv1].
  pose proof (skip_ws_length r1). destruct (skip_ws r1) as [|c r2] eqn:Hr; [done|]. simpl in *.
  destruct (bool_decide (c = ","%char)) eqn:H1.
  - apply bind_Some in H as ([l' r'] & H & [= <- ->]). apply He in H as [Hlen' He1].
    split; [lia|]. intros [|g] Hf; [lia|]. cbn [parse_elems]. rewrite Hv1 by lia. cbn.
    rewrite Hr, H1, He1 by lia. done.
  - destruct (bool_decide (c = "]"%char)) eqn:H2; [|done]. simplify_eq.
    split; [lia|]. intros [|g] Hf; [lia|]. cbn [parse_elems]. rewrite Hv1 by lia. cbn. by rewrite Hr, H1, H2.
Qed.

Lemma parse_members_fuel_step f : value_fuel_ok f → members_fuel_ok f → members_fuel_ok (S f).
Proof.
  intros Hv Hm d s l r H. cbn [parse_members] in H.
  pose proof (skip_ws_length s). destruct (skip_ws s) as [|q s1] eqn:Hs; [done|].
  destruct (bool_decide (q = dquote)) eqn:Hq; [|done].
  apply bind_Some in H as ([k s2] & Hk & H). pose proof (scan_string_length _ _ _ Hk).
  pose proof (skip_ws_length s2). destruct (skip_ws s2) as [|c s3] eqn:Hs2; [done|].
  destruct (bool_decide (c = ":"%char)) eqn:Hc; [|done].
  apply bind_Some in H as ([v r1] & Hv1 & H). apply Hv in Hv1 as [Hlen Hv1].
  pose proof (skip_ws_length r1). destruct (skip_ws r1) as [|c' r2] eqn:Hr; [done|]. simpl in *.
  destruct (bool_decide (c' = ","%char)) eqn:Hcomma.
  - apply bind_Some in H as ([l' r'] & H & [= <- ->]). apply Hm in H as [Hlen' Hm1].
    split; [lia|]. intros [|g] Hf; [lia|]. cbn [parse_members]. rewrite Hs, Hq, Hk. cbn.
    rewrite Hs2, Hc, Hv1 by lia. cbn. rewrite Hr, Hcomma, Hm1 by lia. done.
  - destruct (bool_decide (c' = "}"%char)) eqn:Hend; [|done]. simplify_eq.
    split; [lia|]. intros [|g] Hf; [lia|]. cbn [parse_members]. rewrite Hs, Hq, Hk. cbn.
    rewrite Hs2, Hc, Hv1 by lia. cbn. by rewrite Hr, Hcomma, Hend.
Qed.

Lemma parse_fuel_ok f : value_fuel_ok f ∧ elems_fuel_ok f ∧ members_fuel_ok f.
Proof.
  induction f as [|f (Hv & He & Hm)]; [done|]. split_and!;
    auto using parse_value_fuel_step, parse_elems_fuel_step, parse_members_fuel_step.
Qed.

(** Whatever some fuel accepts, the fuel of [parse] accepts. *)
Lemma parse_value_fuel f d s v r :
  parse_value f d s = Some (v, r) → parse_value (parse_fuel s) d s = Some (v, r).
Proof. intros H. apply (parse_fuel_ok f) in H as [? Hf]. apply Hf. unfold parse_fuel. lia. Qed.

Lemma parse_value_print_default v d t :
  json_ok d v = true → follow t →
  parse_value (parse_fuel (print v ++ t)) d (print v ++ t) = Some (v, t).
Proof. intros Hok Ht. by apply (parse_value_fuel (jsize v)), parse_value_print. Qed.

Lemma parse_print v : json_ok 0 v = true → parse (print v) = Some v.
Proof.
  intros Hok. pose proof (parse_value_print_default v 0 EmptyString Hok I) as H.
  unfold parse. rewrite sapp_nil_r in H. by rewrite H.
Qed.

(** Everything the scanner returns is well formed, so its printed form scans
    back to the same value: [print] of a parsed text is its compact form. *)
Lemma scan_string_token s b r : scan_string s = Some (b, r) → token_str b = true.
Proof. intros [_ H]%scan_string_spec. unfold token_str. rewrite H. by apply bool_decide_eq_true_2. Qed.

Lemma scan_number_token s n r : scan_number s = Some (n, r) → token_num n = true.
Proof.
  intros (_ & _ & H)%scan_number_spec. specialize (H EmptyString I). rewrite sapp_nil_r in H.
  unfold token_num. rewrite H. by apply bool_decide_eq_true_2.
Qed.

Lemma parse_ok f :
  (∀ d s v r, parse_value f d s = Some (v, r) → json_ok d v = true) ∧
  (∀ d s l r, parse_elems f d s = Some (l, r) → all_ok d l = true) ∧
  (∀ d s l r, parse_members f d s = Some (l, r) → members_ok d l = true).
Proof.
  induction f as [|f (Hv & He & Hm)]; [done|]. split_and!; intros d s v r H.
  - cbn [parse_value] in H. destruct (skip_ws s) as [|c s1]; [done|].
    repeat match type of H with (if ?b then _ else _) = _ => destruct b eqn:? end; try done.
    + destruct (skip_ws s1) as [|c' s2]; [done|]. case_match; [simplify_eq; cbn; lia|].
      apply bind_Some in H as ([ms r'] & H%Hm & [= <- ->]).
      change (json_ok d (JObj ms)) with ((d <? max_depth) && members_ok (d + 1) ms). rewrite H. lia.
    + destruct (skip_ws s1) as [|c' s2]; [done|]. case_match; [simplify_eq; cbn; lia|].
      apply bind_Some in H as ([l r'] & H%He & [= <- ->]).
      change (json_ok d (JArr l)) with ((d <? max_depth) && all_ok (d + 1) l). rewrite H. lia.
    + apply bind_Some in H as ([b r'] & H & [= <- ->]). by apply scan_string_token in H.
    + unfold scan_literal in H. case_match; by simplify_eq.
    + unfold scan_literal in H. case_match; by simplify_eq.
    + unfold scan_literal in H. case_match; by simplify_eq.
    + apply bind_Some in H as ([b r'] & H & [= <- ->]). by apply scan_number_token in H.
  - cbn [parse_elems] in H. apply bind_Some in H as ([w r1] & Hw%Hv & H).
    destruct (skip_ws r1) as [|c r2]; [done|]. repeat case_match; simplify_eq/=.
    + apply bind_Some in H as ([l r'] & H%He & [= <- ->]). cbn. by rewrite Hw, H.
    + by rewrite Hw.
  - cbn [parse_members] in H. destruct (skip_ws s) as [|q s1]; [done|]. case_match; [|done].
    apply bind_Some in H as ([k s2] & Hk%scan_string_token & H).
    destruct (skip_ws s2) as [|c s3]; [done|]. case_match; [|done].
    apply bind_Some in H as ([w r1] & Hw%Hv & H).
    destruct (skip_ws r1) as [|c' r2]; [done|]. repeat case_match; simplify_eq/=.
    + apply bind_Some in H as ([l r'] & H%Hm & [= <- ->]). cbn. by rewrite Hk, Hw, H.
    + by rewrite Hk, Hw.
Qed.

Lemma parse_compact s v : parse s = Some v → json_ok 0 v = true ∧ parse (print v) = Some v.
Proof.
  unfold parse at 1. intros H. apply bind_Some in H as ([w r] & H & H'). apply parse_ok in H.
  case_match; simplify_eq. split; [done|]. by apply parse_print.
Qed.
