(* ===== verification/JsonString.v ===== *)
(** * String literals of encoding/json

    [quote] is the encoder's literal body (with the default HTML escaping and
    the replacement of malformed UTF-8), [unquote] the decoder's.  [sanitize]
    replaces each malformed byte by U+FFFD; decoding an encoded string gives
    its sanitized form, so valid UTF-8 survives a round trip unchanged. *)
From Stdlib Require Import String Ascii.
From S2P Require Export Json.
From stdpp Require Import list.

Local Open Scope Z_scope.

Definition chr (n : Z) : ascii := ascii_of_N (Z.to_N n).

(** ** UTF-8 *)

Definition between (a n b : Z) : bool := (a <=? n) && (n <=? b).
Definition cont (c : ascii) : bool := between 128 (code c) 191.
Definition valid2 (c1 c2 : ascii) : bool := between 194 (code c1) 223 && cont c2.
Definition valid3 (c1 c2 c3 : ascii) : bool :=
  (if code c1 =? 224 then between 160 (code c2) 191
   else if code c1 =? 237 then between 128 (code c2) 159
   else between 225 (code c1) 239 && cont c2) && cont c3.
Definition valid4 (c1 c2 c3 c4 : ascii) : bool :=
  (if code c1 =? 240 then between 144 (code c2) 191
   else if code c1 =? 244 then between 128 (code c2) 143
   else between 241 (code c1) 243 && cont c2) && cont c3 && cont c4.

(** Length of the UTF-8 sequence at the front, 0 when it is malformed. *)
Definition rune_len (s : string) : nat :=
  match s with
  | EmptyString => 0%nat
  | String c1 s1 =>
    if code c1 <? 128 then 1%nat else
    match s1 with
    | String c2 s2 =>
      if valid2 c1 c2 then 2%nat else
      match s2 with
      | String c3 s3 =>
        if valid3 c1 c2 c3 then 3%nat else
        match s3 with
        | String c4 _ => if valid4 c1 c2 c3 c4 then 4%nat else 0%nat
        | EmptyString => 0%nat
        end
      | EmptyString => 0%nat
      end
    | EmptyString => 0%nat
    end
  end.

(** [utf8.AppendRune]; the argument is a rune outside the surrogate range. *)
Definition encode_rune (r : Z) : string :=
  if r <? 128 then String (chr r) EmptyString
  else if r <? 2048 then String (chr (192 + r / 64)) (String (chr (128 + r mod 64)) EmptyString)
  else if r <? 65536 then
    String (chr (224 + r / 4096)) (String (chr (128 + r / 64 mod 64)) (String (chr (128 + r mod 64)) EmptyString))
  else
    String (chr (240 + r / 262144)) (String (chr (128 + r / 4096 mod 64))
      (String (chr (128 + r / 64 mod 64)) (String (chr (128 + r mod 64)) EmptyString))).

Definition rune_error : Z := 65533.
Definition replacement : string := encode_rune rune_error.

Fixpoint sanitize (s : string) : string :=
  match s with
  | EmptyString => EmptyString
  | String c1 s1 =>
    if code c1 <? 128 then String c1 (sanitize s1) else
    match s1 with
    | String c2 s2 =>
      if valid2 c1 c2 then String c1 (String c2 (sanitize s2)) else
      match s2 with
      | String c3 s3 =>
        if valid3 c1 c2 c3 then String c1 (String c2 (String c3 (sanitize s3))) else
        match s3 with
        | String c4 s4 =>
          if valid4 c1 c2 c3 c4 then String c1 (String c2 (String c3 (String c4 (sanitize s4))))
          else (replacement ++ sanitize s1)%string
        | EmptyString => (replacement ++ sanitize s1)%string
        end
      | EmptyString => (replacement ++ sanitize s1)%string
      end
    | EmptyString => (replacement ++ sanitize s1)%string
    end
  end.

Definition valid_utf8 (s : string) : bool := bool_decide (sanitize s = s).

(** ** Encoding *)

Definition hex_digit (n : Z) : ascii := if n <? 10 then chr (48 + n) else chr (87 + n).
Definition esc1 (c : ascii) : string := String backslash (String c EmptyString).
Definition esc_u (r : Z) : string :=
  String backslash (String "u" (String (hex_digit (r / 4096)) (String (hex_digit (r / 256 mod 16))
    (String (hex_digit (r / 16 mod 16)) (String (hex_digit (r mod 16)) EmptyString))))).

Definition quote_ascii (c : ascii) : string :=
  if bool_decide (c = dquote) || bool_decide (c = backslash) then esc1 c
  else if code c =? 8 then esc1 "b"
  else if code c =? 12 then esc1 "f"
  else if code c =? 10 then esc1 "n"
  else if code c =? 13 then esc1 "r"
  else if code c =? 9 then esc1 "t"
  else if (code c <? 32) || bool_decide (c = "<"%char) || bool_decide (c = ">"%char) || bool_decide (c = "&"%char)
  then esc_u (code c)
  else String c EmptyString.

(** U+2028 and U+2029. *)
Definition is_line_sep (c1 c2 c3 : ascii) : bool :=
  (code c1 =? 226) && (code c2 =? 128) && ((code c3 =? 168) || (code c3 =? 169)).

Definition bad_byte (quoted_tail : string) : string := (esc_u rune_error ++ quoted_tail)%string.

Fixpoint quote (s : string) : string :=
  match s with
  | EmptyString => EmptyString
  | String c1 s1 =>
    if code c1 <? 128 then (quote_ascii c1 ++ quote s1)%string else
    match s1 with
    | String c2 s2 =>
      if valid2 c1 c2 then String c1 (String c2 (quote s2)) else
      match s2 with
      | String c3 s3 =>
        if valid3 c1 c2 c3 then
          if is_line_sep c1 c2 c3 then (esc_u (8192 + code c3 - 128) ++ quote s3)%string
          else String c1 (String c2 (String c3 (quote s3)))
        else
        match s3 with
        | String c4 s4 =>
          if valid4 c1 c2 c3 c4 then String c1 (String c2 (String c3 (String c4 (quote s4))))
          else bad_byte (quote s1)
        | EmptyString => bad_byte (quote s1)
        end
      | EmptyString => bad_byte (quote s1)
      end
    | EmptyString => bad_byte (quote s1)
    end
  end.

(** ** Decoding *)

Definition hex_val (c : ascii) : Z :=
  let n := code c in
  if n <=? 57 then n - 48 else if n <=? 70 then n - 55 else n - 87.
Definition hex4 (h1 h2 h3 h4 : ascii) : Z :=
  ((hex_val h1 * 16 + hex_val h2) * 16 + hex_val h3) * 16 + hex_val h4.
Definition is_surrogate (r : Z) : bool := between 55296 r 57343.

(** [utf16.DecodeRune]. *)
Definition decode_pair (r1 r2 : Z) : option Z :=
  if between 55296 r1 56319 && between 56320 r2 57343
  then Some ((r1 - 55296) * 1024 + (r2 - 56320) + 65536) else None.

(** The escapes other than [\u]. *)
Definition unescape (e : ascii) : ascii :=
  if bool_decide (e = "b"%char) then chr 8
  else if bool_decide (e = "f"%char) then chr 12
  else if bool_decide (e = "n"%char) then chr 10
  else if bool_decide (e = "r"%char) then chr 13
  else if bool_decide (e = "t"%char) then chr 9
  else e.

(** The body of a literal the scanner accepted; on any other text the decoder
    is never called. *)
Fixpoint unquote (s : string) : string :=
  match s with
  | EmptyString => EmptyString
  | String c1 s1 =>
    if bool_decide (c1 = backslash) then
      match s1 with
      | String e r1 =>
        if bool_decide (e = "u"%char) then
          match r1 with
          | String h1 (String h2 (String h3 (String h4 r2))) =>
            let r := hex4 h1 h2 h3 h4 in
            if is_surrogate r then
              match r2 with
              | String b (String u (String g1 (String g2 (String g3 (String g4 r3))))) =>
                match decode_pair r (hex4 g1 g2 g3 g4) with
                | Some r' =>
                  if bool_decide (b = backslash) && bool_decide (u = "u"%char) &&
                     is_hex g1 && is_hex g2 && is_hex g3 && is_hex g4
                  then (encode_rune r' ++ unquote r3)%string
                  else (replacement ++ unquote r2)%string
                | None => (replacement ++ unquote r2)%string
                end
              | _ => (replacement ++ unquote r2)%string
              end
            else (encode_rune r ++ unquote r2)%string
          | _ => EmptyString
          end
        else String (unescape e) (unquote r1)
      | EmptyString => EmptyString
      end
    else if code c1 <? 128 then String c1 (unquote s1) else
    match s1 with
    | String c2 s2 =>
      if valid2 c1 c2 then String c1 (String c2 (unquote s2)) else
      match s2 with
      | String c3 s3 =>
        if valid3 c1 c2 c3 then String c1 (String c2 (String c3 (unquote s3))) else
        match s3 with
        | String c4 s4 =>
          if valid4 c1 c2 c3 c4 then String c1 (String c2 (String c3 (String c4 (unquote s4))))
          else (replacement ++ unquote s1)%string
        | EmptyString => (replacement ++ unquote s1)%string
        end
      | EmptyString => (replacement ++ unquote s1)%string
      end
    | EmptyString => (replacement ++ unquote s1)%string
    end
  end.

Example unquote_surrogates : unquote "\ud83d\ude00\n\ud83dx" = (encode_rune 128512 ++ String (chr 10) (replacement ++ "x"))%string.
Proof. vm_compute. reflexivity. Qed.

(** ** Round trip *)

(** Induction over the runes of a string. *)
Lemma utf8_ind (P : string → Prop) :
  P EmptyString →
  (∀ c s, (code c <? 128) = true → P s → P (String c s)) →
  (∀ c1 c2 s, (code c1 <? 128) = false → valid2 c1 c2 = true → P s → P (String c1 (String c2 s))) →
  (∀ c1 c2 c3 s, (code c1 <? 128) = false → valid2 c1 c2 = false → valid3 c1 c2 c3 = true → P s →
     P (String c1 (String c2 (String c3 s)))) →
  (∀ c1 c2 c3 c4 s, (code c1 <? 128) = false → valid2 c1 c2 = false → valid3 c1 c2 c3 = false →
     valid4 c1 c2 c3 c4 = true → P s → P (String c1 (String c2 (String c3 (String c4 s))))) →
  (∀ c s, rune_len (String c s) = 0%nat → P s → P (String c s)) →
  ∀ s, P s.
Proof.
  intros H0 H1 H2 H3 H4 Hbad s. induction s as [s IH] using string_length_ind.
  destruct s as [|c1 s1]; [done|]. destruct (code c1 <? 128) eqn:E1; [apply H1; auto|].
  assert (rune_len (String c1 s1) = 0%nat → P (String c1 s1)) as Hb by (intros; apply Hbad; auto).
  simpl in Hb. rewrite E1 in Hb. destruct s1 as [|c2 s2]; [auto|].
  destruct (valid2 c1 c2) eqn:E2; [apply H2; auto; apply IH; simpl; lia|].
  destruct s2 as [|c3 s3]; [auto|].
  destruct (valid3 c1 c2 c3) eqn:E3; [apply H3; auto; apply IH; simpl; lia|].
  destruct s3 as [|c4 s4]; [auto|].
  destruct (valid4 c1 c2 c3 c4) eqn:E4; [apply H4; auto; apply IH; simpl; lia|auto].
Qed.

(** A malformed front byte: both directions treat it alone. *)
Lemma quote_bad c s : rune_len (String c s) = 0%nat → quote (String c s) = bad_byte (quote s).
Proof. cbn. intros H. repeat case_match; done. Qed.
Lemma sanitize_bad c s : rune_len (String c s) = 0%nat → sanitize (String c s) = (replacement ++ sanitize s)%string.
Proof. cbn [rune_len sanitize]. intros H. repeat case_match; done. Qed.

Lemma unquote_ascii_ok c t : (code c <? 128) = true → unquote (quote_ascii c ++ t) = String c (unquote t).
Proof.
  intros H. destruct c as [[] [] [] [] [] [] [] []]; try (vm_compute in H; discriminate H); reflexivity.
Qed.

Lemma high_not_backslash c : (code c <? 128) = false → c ≠ backslash ∧ c ≠ dquote ∧ (code c <? 32) = false.
Proof. intros H. split_and!; [by intros ->; vm_compute in H..|]. apply Z.ltb_ge in H. apply Z.ltb_ge. lia. Qed.

Lemma line_sep_bytes c1 c2 c3 :
  is_line_sep c1 c2 c3 = true →
  ∀ t, unquote (esc_u (8192 + code c3 - 128) ++ t) = String c1 (String c2 (String c3 (unquote t))).
Proof.
  unfold is_line_sep. rewrite !andb_true_iff, orb_true_iff, !Z.eqb_eq. intros [[H1 H2] H3] t.
  assert (∀ c n, code c = n → c = chr n) as Hchr.
  { intros c n <-. unfold chr, code. by rewrite N2Z.id, ascii_N_embedding. }
  apply Hchr in H1, H2. subst. destruct H3 as [H3|H3]; apply Hchr in H3; subst; reflexivity.
Qed.

Lemma unquote_quote s : unquote (quote s) = sanitize s.
Proof.
  induction s as [|c s H IH|c1 c2 s H H2 IH|c1 c2 c3 s H H2 H3 IH|c1 c2 c3 c4 s H H2 H3 H4 IH|c s H IH] using utf8_ind.
  - done.
  - cbn [quote sanitize]. by rewrite H, unquote_ascii_ok, IH.
  - destruct (high_not_backslash c1 H) as [Hb _]. cbn. rewrite H, H2. cbn. bd. by rewrite H, H2, IH.
  - destruct (high_not_backslash c1 H) as [Hb _]. cbn [quote sanitize]. rewrite H, H2, H3.
    destruct (is_line_sep c1 c2 c3) eqn:Hl; [by rewrite (line_sep_bytes c1 c2 c3 Hl), IH|].
    cbn. bd. by rewrite H, H2, H3, IH.
  - destruct (high_not_backslash c1 H) as [Hb _]. cbn. rewrite H, H2, H3, H4. cbn. bd. by rewrite H, H2, H3, H4, IH.
  - rewrite quote_bad, sanitize_bad, <-IH by done. reflexivity.
Qed.

Lemma unquote_quote_valid s : valid_utf8 s = true → unquote (quote s) = s.
Proof. intros H%bool_decide_eq_true_1. by rewrite unquote_quote. Qed.

(** Valid texts joined are valid. *)
Lemma sanitize_app s t : sanitize s = s → sanitize (s ++ t) = (s ++ sanitize t)%string.
Proof.
  induction s as [|c s H IH|c1 c2 s H H2 IH|c1 c2 c3 s H H2 H3 IH|c1 c2 c3 c4 s H H2 H3 H4 IH|c s H IH] using utf8_ind; [done|..]; cbn [String.append].
  - cbn [sanitize]. rewrite H. intros [= Hs]. by rewrite IH.
  - cbn [sanitize]. rewrite H, H2. intros [= Hs]. by rewrite IH.
  - cbn [sanitize]. rewrite H, H2, H3. intros [= Hs]. by rewrite IH.
  - cbn [sanitize]. rewrite H, H2, H3, H4. intros [= Hs]. by rewrite IH.
  - rewrite sanitize_bad by done. unfold replacement, encode_rune, rune_error. cbn [String.append]. intros [= <- Hs]. rewrite <-Hs in H. by vm_compute in H.
Qed.
Lemma valid_utf8_app s t : valid_utf8 s = true → valid_utf8 t = true → valid_utf8 (s ++ t) = true.
Proof. intros Hs%bool_decide_eq_true_1 Ht%bool_decide_eq_true_1. apply bool_decide_eq_true_2. by rewrite sanitize_app, Ht. Qed.

(** An encoded string is a literal body. *)
Lemma scan_quote_ascii c t b r :
  (code c <? 128) = true → scan_string t = Some (b, r) →
  scan_string (quote_ascii c ++ t) = Some ((quote_ascii c ++ b)%string, r).
Proof.
  intros H Ht. transitivity ('(b, r) ← scan_string t; Some ((quote_ascii c ++ b)%string, r)); [|by rewrite Ht].
  clear Ht. destruct c as [[] [] [] [] [] [] [] []]; try (vm_compute in H; discriminate H); reflexivity.
Qed.

Lemma scan_high c t b r :
  (code c <? 128) = false → scan_string t = Some (b, r) → scan_string (String c t) = Some (String c b, r).
Proof. intros H Ht. destruct (high_not_backslash c H) as (? & ? & Hl). cbn. bd. by rewrite Hl, Ht. Qed.

Lemma cont_high c : cont c = true → (code c <? 128) = false.
Proof. unfold cont, between. intros H. lia. Qed.

Lemma scan_line_sep c1 c2 c3 t b r :
  is_line_sep c1 c2 c3 = true → scan_string t = Some (b, r) →
  scan_string (esc_u (8192 + code c3 - 128) ++ t) = Some ((esc_u (8192 + code c3 - 128) ++ b)%string, r).
Proof.
  unfold is_line_sep. rewrite !andb_true_iff, orb_true_iff, !Z.eqb_eq. intros [_ H3] Ht.
  destruct H3 as [-> | ->]; cbn; by rewrite Ht.
Qed.

Lemma valid3_high c1 c2 c3 : valid3 c1 c2 c3 = true → (code c2 <? 128) = false ∧ (code c3 <? 128) = false.
Proof. unfold valid3, cont, between. intros H. repeat case_match; lia. Qed.
Lemma valid4_high c1 c2 c3 c4 :
  valid4 c1 c2 c3 c4 = true → (code c2 <? 128) = false ∧ (code c3 <? 128) = false ∧ (code c4 <? 128) = false.
Proof. unfold valid4, cont, between. intros H. repeat case_match; lia. Qed.

Lemma quote_token s : token_str (quote s) = true.
Proof.
  assert (∀ t, scan_string (quote s ++ String dquote t) = Some (quote s, t)) as H.
  { intros t. induction s as [|c s H IH|c1 c2 s H H2 IH|c1 c2 c3 s H H2 H3 IH|c1 c2 c3 c4 s H H2 H3 H4 IH|c s H IH] using utf8_ind.
    - done.
    - cbn [quote]. rewrite H, sapp_assoc. by apply scan_quote_ascii.
    - cbn [quote]. rewrite H, H2. apply andb_prop in H2 as [_ H2%cont_high]. cbn [String.append].
      by do 2 (apply scan_high; [done|]).
    - cbn [quote]. rewrite H, H2, H3. apply valid3_high in H3 as [? ?].
      destruct (is_line_sep c1 c2 c3) eqn:Hl; [rewrite sapp_assoc; by apply (scan_line_sep c1 c2 c3)|].
      cbn [String.append]. by do 3 (apply scan_high; [done|]).
    - cbn [quote]. rewrite H, H2, H3, H4. apply valid4_high in H4 as (? & ? & ?). cbn [String.append].
      by do 4 (apply scan_high; [done|]).
    - rewrite quote_bad by done. unfold bad_byte. rewrite sapp_assoc. cbn. by rewrite IH. }
  unfold token_str. rewrite H. by apply bool_decide_eq_true_2.
Qed.
