(* ===== verification/JsonDecode.v ===== *)
(** * Decoding JSON objects into structs, and encoding structs

    [object_fields] lists the members of an object text with the text of each
    value, as the decoder visits them; [decode_struct] stores each into the
    field of that name: names match up to Go's case folding, the last of
    several members wins, [null] leaves a string, integer or boolean field
    unchanged, a [json.RawMessage] takes the text as it stands.  The texts of
    type errors are abbreviated; no caller inspects them. *)
From Stdlib Require Import String Ascii.
From S2P Require Export JsonString.
From stdpp Require Import list.

Local Open Scope Z_scope.

(** ** The members of an object *)

Fixpoint stake (n : nat) (s : string) : string :=
  match n, s with
  | S n, String c r => String c (stake n r)
  | _, _ => EmptyString
  end.

(** The text consumed between [s] and its suffix [r]. *)
Definition span (s r : string) : string := stake (String.length s - String.length r) s.

(** From after the opening brace or a comma. *)
Fixpoint scan_fields (fuel : nat) (s : string) : option (list (string * string) * string) :=
  match fuel with
  | O => None
  | S fuel =>
    match skip_ws s with
    | String q r =>
      if bool_decide (q = dquote) then
        '(k, r1) ← scan_string r;
        match skip_ws r1 with
        | String c r2 =>
          if bool_decide (c = ":"%char) then
            let s2 := skip_ws r2 in
            '(_, r3) ← parse_value (parse_fuel s2) 1 s2;
            match skip_ws r3 with
            | String c r' =>
              if bool_decide (c = ","%char) then
                '(l, r'') ← scan_fields fuel r'; Some ((unquote k, span s2 r3) :: l, r'')
              else if bool_decide (c = "}"%char) then Some ([(unquote k, span s2 r3)], r')
              else None
            | EmptyString => None
            end
          else None
        | EmptyString => None
        end
      else None
    | EmptyString => None
    end
  end.

(** The members of the object at the front of [s] and what follows it;
    [None] when there is no object there. *)
Definition object_fields (s : string) : option (list (string * string) * string) :=
  match skip_ws s with
  | String c r =>
    if bool_decide (c = "{"%char) then
      match skip_ws r with
      | String c' r' => if bool_decide (c' = "}"%char) then Some ([], r') else scan_fields (String.length r) r
      | EmptyString => None
      end
    else None
  | EmptyString => None
  end.

(** From after the opening bracket or a comma: the texts of the elements. *)
Fixpoint scan_items (fuel : nat) (s : string) : option (list string * string) :=
  match fuel with
  | O => None
  | S fuel =>
    let s := skip_ws s in
    '(_, r) ← parse_value (parse_fuel s) 1 s;
    match skip_ws r with
    | String c r' =>
      if bool_decide (c = ","%char) then '(l, r'') ← scan_items fuel r'; Some (span s r :: l, r'')
      else if bool_decide (c = "]"%char) then Some ([span s r], r')
      else None
    | EmptyString => None
    end
  end.

(** The element texts of the array at the front of [s]. *)
Definition array_items (s : string) : option (list string * string) :=
  match skip_ws s with
  | String c r =>
    if bool_decide (c = "["%char) then
      match skip_ws r with
      | String c' r' => if bool_decide (c' = "]"%char) then Some ([], r') else scan_items (String.length r) r
      | EmptyString => None
      end
    else None
  | EmptyString => None
  end.

(** ** Storing a value into a field *)

(** Go's [foldName]: ASCII letters to upper case, and the two other runes
    whose case folding is an ASCII letter (U+212A and U+017F). *)
Fixpoint fold_name (s : string) : string :=
  match s with
  | EmptyString => EmptyString
  | String c r =>
    if (code c =? 226) then
      match r with
      | String c2 (String c3 r3) =>
        if (code c2 =? 132) && (code c3 =? 170) then String "K" (fold_name r3) else String c (fold_name r)
      | _ => String c (fold_name r)
      end
    else if (code c =? 197) then
      match r with
      | String c2 r2 => if code c2 =? 191 then String "S" (fold_name r2) else String c (fold_name r)
      | _ => String c (fold_name r)
      end
    else String (upper_ascii c) (fold_name r)
  end.

Definition type_error (ty : string) : error :=
  new_error ("json: cannot unmarshal into Go value of type " ++ ty)%string.

Section fields.
Context {A : Type}.

(** A field: its JSON name and how a value text is stored. *)
Definition field : Type := string * (string → A → result A).

Definition string_field (name : string) (set : string → A → A) : field :=
  (name, λ t a, match parse t with
                | Some (JStr b) => Ok (set (unquote b) a)
                | Some JNull => Ok a
                | _ => Fail (type_error "string")
                end).

Definition int64_field (name : string) (set : Z → A → A) : field :=
  (name, λ t a, match parse t with
                | Some (JNum n) => match ParseInt n with Some z => Ok (set z a) | None => Fail (type_error "int64") end
                | Some JNull => Ok a
                | _ => Fail (type_error "int64")
                end).

Definition bool_field (name : string) (set : bool → A → A) : field :=
  (name, λ t a, match parse t with
                | Some (JBool b) => Ok (set b a)
                | Some JNull => Ok a
                | _ => Fail (type_error "bool")
                end).

Definition raw_field (name : string) (set : string → A → A) : field :=
  (name, λ t a, Ok (set t a)).

Definition find_field (fs : list field) (key : string) : option field :=
  list_find (λ f, fold_name f.1 = fold_name key) fs ≫= λ p, Some p.2.

(** [strict] is [DisallowUnknownFields]. *)
Definition store_member (strict : bool) (fs : list field) (m : string * string) (a : A) : result A :=
  match find_field fs m.1 with
  | Some f => f.2 m.2 a
  | None => if strict then Fail (new_error ("json: unknown field " ++ m.1)%string) else Ok a
  end.

Fixpoint store_members (strict : bool) (fs : list field) (ms : list (string * string)) (a : A) : result A :=
  match ms with
  | [] => Ok a
  | m :: ms => a ← store_member strict fs m a; store_members strict fs ms a
  end.

(** A value text decoded into a struct: an object member by member, [null] as
    nothing. *)
Definition struct_value (strict : bool) (fs : list field) (t : string) (a : A) : result A :=
  match parse t with
  | Some (JObj _) =>
    match object_fields t with
    | Some (ms, _) => store_members strict fs ms a
    | None => Fail (new_error "invalid json")
    end
  | Some JNull => Ok a
  | Some _ => Fail (type_error "struct")
  | None => Fail (new_error "invalid json")
  end.

(** [json.Unmarshal(data, &a)] for a struct [a]. *)
Definition Unmarshal (fs : list field) (zero : A) (data : string) : result A :=
  match parse data with
  | None => Fail (new_error "invalid json")
  | Some (JObj _) =>
    match object_fields data with
    | Some (ms, _) => store_members false fs ms zero
    | None => Fail (new_error "invalid json")
    end
  | Some JNull => Ok zero
  | Some _ => Fail (type_error "struct")
  end.
End fields.
Arguments field : clear implicits.

(** A value text decoded into a slice of structs: the elements are decoded
    over the ones the slice already has, [null] makes it empty. *)
Fixpoint slice_items {A} (strict : bool) (fs : list (field A)) (zero : A) (ts : list string) (old : list A) : result (list A) :=
  match ts with
  | [] => Ok []
  | t :: ts =>
    a ← struct_value strict fs t (default zero (head old));
    l ← slice_items strict fs zero ts (tail old);
    mret (a :: l)
  end.

Definition slice_value {A} (strict : bool) (fs : list (field A)) (zero : A) (t : string) (old : list A) : result (list A) :=
  match parse t with
  | Some (JArr _) =>
    match array_items t with
    | Some (ts, _) => slice_items strict fs zero ts old
    | None => Fail (new_error "invalid json")
    end
  | Some JNull => Ok []
  | Some _ => Fail (type_error "slice")
  | None => Fail (new_error "invalid json")
  end.

(** A [json.Decoder]'s [Decode] followed by the check that nothing but white
    space is left: the text of the value, and whether something follows it.
    [None] is a syntax error or an empty input. *)
Definition decode_one (data : string) : option (string * bool) :=
  let s := skip_ws data in
  '(_, r) ← parse_value (parse_fuel s) 0 s;
  Some (span s r, negb (bool_decide (skip_ws r = EmptyString))).

(** ** Encoding *)

(** [json.Marshal] of a string, an integer, and a [json.RawMessage] (whose
    text is compacted and HTML-escaped); the empty message is [null]. *)
Definition jstring (s : string) : json := JStr (quote s).
Definition jint (z : Z) : json := JNum (FormatInt z).

(** HTML escaping inside literal bodies already in JSON syntax. *)
Fixpoint html_escape (s : string) : string :=
  match s with
  | EmptyString => EmptyString
  | String c1 s1 =>
    if bool_decide (c1 = "<"%char) || bool_decide (c1 = ">"%char) || bool_decide (c1 = "&"%char)
    then (esc_u (code c1) ++ html_escape s1)%string
    else match s1 with
    | String c2 (String c3 s3) =>
      if is_line_sep c1 c2 c3 then (esc_u (8192 + code c3 - 128) ++ html_escape s3)%string
      else String c1 (html_escape s1)
    | _ => String c1 (html_escape s1)
    end
  end.

Fixpoint escape_json (v : json) : json :=
  match v with
  | JStr b => JStr (html_escape b)
  | JArr l => JArr (map escape_json l)
  | JObj ms => JObj (map (λ m, (html_escape m.1, escape_json m.2)) ms)
  | _ => v
  end.

(** The value a raw message is encoded as; [None] is the encoder's error. *)
Definition raw_json (t : string) : option json :=
  match t with EmptyString => Some JNull | _ => escape_json <$> parse t end.

(** ** Reading back what was printed *)

Lemma stake_app a b : stake (String.length a) (a ++ b) = a.
Proof. induction a as [|c a IH]; simpl; [by destruct b|by rewrite IH]. Qed.

Lemma span_app a b : span (a ++ b) b = a.
Proof.
  unfold span. rewrite slength_app.
  replace (String.length a + String.length b - String.length b)%nat with (String.length a) by lia. apply stake_app.
Qed.

Definition field_text (m : string * json) : string * string := (unquote m.1, print m.2).

Section print_fields.
#[local] Arguments print : simpl never.
#[local] Arguments print_members_tail : simpl never.

Lemma follow_members_tail ms t : follow (print_members_tail ms ++ t).
Proof. by destruct ms as [|[k v] ms]. Qed.

Lemma scan_fields_print ms : ∀ k v f t,
  members_ok 1 ((k, v) :: ms) = true → (length ms < f)%nat →
  scan_fields f (String dquote (k ++ String dquote (String ":" (print v ++ (print_members_tail ms ++ t))))) =
  Some (map field_text ((k, v) :: ms), t).
Proof.
  induction ms as [|[k' w] ms IH]; intros k v f t Hok Hf;
    (destruct f as [|f]; [simpl in Hf; lia|]);
    apply andb_prop in Hok as [[Hk Hov]%andb_prop Hol]; cbn [scan_fields];
    rewrite skip_ws_nows by done; cbn [mbind option_bind];
    rewrite bool_decide_eq_true_2, (token_str_scan k) by done; cbn [mbind option_bind];
    rewrite skip_ws_nows by done; rewrite bool_decide_eq_true_2 by done;
    rewrite (skip_ws_print v 1) by done; rewrite (parse_value_print_default v 1) by (done || apply follow_members_tail);
    cbn [mbind option_bind]; rewrite span_app.
  - done.
  - change (print_members_tail ((k', w) :: ms)) with
      (String "," (String dquote (k' ++ String dquote (String ":" (print w ++ print_members_tail ms)))))%string.
    cbn [String.append]. rewrite skip_ws_nows by done. bd.
    rewrite sapp_assoc. cbn [String.append]. rewrite sapp_assoc.
    rewrite IH by (done || (simpl in Hf; lia)). done.
Qed.

Lemma object_fields_print ms t :
  json_ok 0 (JObj ms) = true → object_fields (print (JObj ms) ++ t) = Some (map field_text ms, t).
Proof.
  intros Hok. apply andb_prop in Hok as [_ Hok]. destruct ms as [|[k v] ms]; [done|].
  rewrite print_obj. unfold object_fields. change (String "{" ?x +:+ t) with (String "{" (x +:+ t)).
  rewrite skip_ws_nows by done. bd. cbn [String.append]. rewrite skip_ws_nows by done. bd.
  rewrite sapp_assoc. cbn [String.append]. rewrite sapp_assoc. apply scan_fields_print; [done|].
  clear Hok. assert (∀ ms, length ms ≤ String.length (print_members_tail ms))%nat as Hlen.
  { intros l. induction l as [|[k' w] l IH]; [simpl; lia|].
    change (print_members_tail ((k', w) :: l)) with
      (String "," (String dquote (k' ++ String dquote (String ":" (print w ++ print_members_tail l)))))%string.
    simpl. rewrite slength_app. simpl. rewrite slength_app. lia. }
  specialize (Hlen ms). simpl. rewrite slength_app. simpl. rewrite !slength_app. lia.
Qed.
End print_fields.

(** ** Encoded scalars *)

Lemma token_FormatInt z : token_num (FormatInt z) = true.
Proof.
  assert (∀ x : N, scan_int (pretty x) = Some (pretty x, EmptyString)) as Hx.
  { intros x. destruct (pretty_N_shape x) as (c & t & -> & Hc & Ht & H0 & _). unfold scan_int.
    destruct (bool_decide (c = "0"%char)) eqn:E.
    - apply bool_decide_eq_true_1 in E as ->. by rewrite H0.
    - rewrite Hc. f_equal. clear E H0. cbn. rewrite Hc.
      assert (take_digits t = (t, EmptyString)) as ->; [|done].
      clear Hc. induction t as [|a t IH]; [done|]. apply andb_prop in Ht as [Ha Ht]. cbn. by rewrite Ha, IH. }
  unfold token_num. apply bool_decide_eq_true_2. unfold scan_number.
  destruct (FormatInt_cases z) as [(x & _ & ->)|(x & _ & _ & ->)]; specialize (Hx x).
  - replace (scan_minus (pretty x)) with (EmptyString, pretty x).
    + cbv beta iota. rewrite Hx. cbn -[pretty]. by rewrite !sapp_nil_r.
    + destruct (pretty_N_shape x) as (c & t & -> & Hc & _). destruct (digit_not_sign c Hc).
      cbn. bd. done.
  - cbn [scan_minus]. rewrite bool_decide_eq_true_2 by done. cbv beta iota. rewrite Hx.
    cbn -[pretty]. by rewrite !sapp_nil_r.
Qed.

Lemma json_ok_depth v d d' : d' ≤ d → json_ok d v = true → json_ok d' v = true.
Proof.
  revert d d'. induction v as [|b|n|b|l IH|ms IH] using json_induction; intros d d' Hd; try done;
    cbn; intros [Hlt Hall]%andb_prop; apply andb_true_intro; (split; [lia|]); clear Hlt.
  - induction IH as [|v l Hv _ IHl]; [done|]. apply andb_prop in Hall as [H1 H2].
    rewrite (Hv (d + 1) (d' + 1)) by (done || lia). by apply IHl.
  - induction IH as [|[k v] l Hv _ IHl]; [done|]. apply andb_prop in Hall as [[Hk H1]%andb_prop H2].
    cbn [snd] in Hv. rewrite Hk, (Hv (d + 1) (d' + 1)) by (done || lia). by apply IHl.
Qed.

Section field_lemmas.
Context {A : Type}.

Lemma string_field_print name (set : string → A → A) s a :
  valid_utf8 s = true → (string_field name set).2 (print (jstring s)) a = Ok (set s a).
Proof.
  intros Hs. unfold string_field. cbn [snd]. rewrite parse_print by apply quote_token.
  unfold jstring. by rewrite unquote_quote_valid.
Qed.

Lemma int64_field_print name (set : Z → A → A) z a :
  in_int64 z → (int64_field name set).2 (print (jint z)) a = Ok (set z a).
Proof.
  intros Hz. unfold int64_field. cbn [snd]. rewrite parse_print by apply token_FormatInt.
  unfold jint. by rewrite ParseInt_FormatInt.
Qed.
End field_lemmas.

(** ** HTML escaping keeps literals literals *)

Inductive token : string → Prop :=
| token_nil : token EmptyString
| token_plain c b : c ≠ dquote → c ≠ backslash → (code c <? 32) = false → token b → token (String c b)
| token_esc e b : is_escape e = true → token b → token (String backslash (String e b))
| token_u h1 h2 h3 h4 b :
  is_hex h1 && is_hex h2 && is_hex h3 && is_hex h4 = true → token b →
  token (String backslash (String "u" (String h1 (String h2 (String h3 (String h4 b)))))).

Lemma scan_string_is_token s b r : scan_string s = Some (b, r) → token b.
Proof.
  revert b r. induction s as [s IH] using string_length_ind. intros b r H.
  destruct s as [|c s]; [done|]. cbn in H.
  destruct (bool_decide (c = dquote)) eqn:E1; [simplify_eq; constructor|].
  destruct (code c <? 32) eqn:E2; [done|]. apply bool_decide_eq_false_1 in E1.
  destruct (bool_decide (c = backslash)) eqn:E3; repeat scan_step;
    match goal with H : scan_string _ = Some _ |- _ => apply IH in H; [|simpl; lia] end.
  - by constructor.
  - constructor; [|done]. by repeat match goal with H : is_hex _ = true |- _ => rewrite H end.
  - apply bool_decide_eq_false_1 in E3. by constructor.
Qed.

Lemma token_str_token b : token_str b = true → token b.
Proof. intros H%bool_decide_eq_true_1. by eapply scan_string_is_token. Qed.

Definition html_special (c : ascii) : bool :=
  bool_decide (c = "<"%char) || bool_decide (c = ">"%char) || bool_decide (c = "&"%char).

(** One step of [html_escape] at a character it leaves alone. *)
Lemma html_escape_plain c s :
  html_special c = false → (code c =? 226) = false → html_escape (String c s) = String c (html_escape s).
Proof.
  intros H1 H2. cbn. unfold html_special in H1. rewrite H1. destruct s as [|c2 [|c3 s]]; [done..|].
  unfold is_line_sep. by rewrite H2.
Qed.

Lemma scan_plain c t b r :
  c ≠ dquote → c ≠ backslash → (code c <? 32) = false → scan_string t = Some (b, r) →
  scan_string (String c t) = Some (String c b, r).
Proof. intros H1 H2 H3 Ht. cbn. bd. by rewrite H3, Ht. Qed.

Lemma scan_html_special c t b r :
  html_special c = true → scan_string t = Some (b, r) →
  scan_string (esc_u (code c) ++ t) = Some ((esc_u (code c) ++ b)%string, r).
Proof.
  unfold html_special. intros H Ht.
  assert (c = "<"%char ∨ c = ">"%char ∨ c = "&"%char) as Hc.
  { apply orb_prop in H as [[H|H]%orb_prop|H]; apply bool_decide_eq_true_1 in H; auto. }
  destruct Hc as [-> | [-> | ->]]; cbn; by rewrite Ht.
Qed.

Lemma plain_ascii c : is_escape c = true ∨ is_hex c = true → html_special c = false ∧ (code c =? 226) = false.
Proof. destruct c as [[] [] [] [] [] [] [] []]; vm_compute; intuition congruence. Qed.

Lemma scan_html_escape b t : token b → scan_string (html_escape b ++ String dquote t) = Some (html_escape b, t).
Proof.
  induction b as [b IH] using string_length_ind. intros Hb.
  destruct Hb as [|c b Hq Hbs Hc Hb|e b He Hb|h1 h2 h3 h4 b Hh Hb].
  - done.
  - assert (scan_string (html_escape b ++ String dquote t) = Some (html_escape b, t)) as Hrec by (apply IH; [simpl; lia|done]).
    cbn [html_escape]. change (_ || _) with (html_special c).
    destruct (html_special c) eqn:Hs; [rewrite sapp_assoc; by apply scan_html_special|].
    destruct b as [|c2 [|c3 b]]; [by apply scan_plain..|].
    destruct (is_line_sep c c2 c3) eqn:Hl; [|by apply scan_plain].
    rewrite sapp_assoc. apply (scan_line_sep c c2 c3 _ _ _ Hl). apply IH; [simpl; lia|].
    unfold is_line_sep in Hl. apply andb_prop in Hl as [[_ H2]%andb_prop H3].
    inversion Hb as [|? ? ? ? ? Hb'|? ? ? ?|? ? ? ? ? ? ?]; subst; [|done..].
    inversion Hb' as [|? ? ? ? ? Hb''|? ? ? ?|? ? ? ? ? ? ?]; subst; [done| |].
    all: apply orb_prop in H3 as [H3|H3]; by vm_compute in H3.
  - destruct (plain_ascii e (or_introl He)). rewrite html_escape_plain, html_escape_plain by done.
    cbn [String.append]. cbn. rewrite He. rewrite IH by (simpl; lia || done). done.
  - apply andb_prop in Hh as [[[H1 H2]%andb_prop H3]%andb_prop H4].
    destruct (plain_ascii h1 (or_intror H1)), (plain_ascii h2 (or_intror H2)),
      (plain_ascii h3 (or_intror H3)), (plain_ascii h4 (or_intror H4)).
    rewrite 6!html_escape_plain by done. cbn. rewrite H1, H2, H3, H4. cbn. rewrite IH by (simpl; lia || done). done.
Qed.

Lemma token_html_escape b : token_str b = true → token_str (html_escape b) = true.
Proof.
  intros H%token_str_token. unfold token_str. rewrite scan_html_escape by done. by apply bool_decide_eq_true_2.
Qed.

Lemma json_ok_escape v d : json_ok d v = true → json_ok d (escape_json v) = true.
Proof.
  revert d. induction v as [|b|n|b|l IH|ms IH] using json_induction; intros d; try done; cbn.
  - apply token_html_escape.
  - intros [Hlt Hall]%andb_prop. apply andb_true_intro; split; [done|]. clear Hlt.
    induction IH as [|v l Hv _ IHl]; [done|]. cbn. apply andb_prop in Hall as [H1 H2]. by rewrite Hv, IHl.
  - intros [Hlt Hall]%andb_prop. apply andb_true_intro; split; [done|]. clear Hlt.
    induction IH as [|[k v] l Hv _ IHl]; [done|]. cbn. apply andb_prop in Hall as [[Hk H1]%andb_prop H2].
    cbn [snd] in Hv. by rewrite token_html_escape, Hv, IHl.
Qed.

(** ** Storing the members of an encoded struct *)
Section store.
Context {A : Type}.
Implicit Types (fs : list (field A)) (a : A).

Lemma store_members_app strict fs l1 l2 a :
  store_members strict fs (l1 ++ l2) a = (a ← store_members strict fs l1 a; store_members strict fs l2 a).
Proof.
  revert a. induction l1 as [|m l1 IH]; intros a; [done|]. cbn.
  destruct (store_member strict fs m a); [apply IH|done].
Qed.

Lemma store_member_found strict fs name f v a :
  find_field fs (unquote name) = Some f → store_member strict fs (field_text (name, v)) a = f.2 (print v) a.
Proof. intros Hf. unfold store_member. change (field_text (name, v)).1 with (unquote name). by rewrite Hf. Qed.

Lemma store_string strict fs name (set : string → A → A) s l a :
  valid_utf8 s = true → find_field fs (unquote name) = Some (string_field name set) →
  store_members strict fs (map field_text ((name, jstring s) :: l)) a =
  store_members strict fs (map field_text l) (set s a).
Proof.
  intros Hs Hf. cbn [map store_members]. rewrite (store_member_found _ _ _ _ _ _ Hf). by rewrite string_field_print.
Qed.

Lemma store_int64 strict fs name (set : Z → A → A) z l a :
  in_int64 z → find_field fs (unquote name) = Some (int64_field name set) →
  store_members strict fs (map field_text ((name, jint z) :: l)) a =
  store_members strict fs (map field_text l) (set z a).
Proof.
  intros Hs Hf. cbn [map store_members]. rewrite (store_member_found _ _ _ _ _ _ Hf). by rewrite int64_field_print.
Qed.

Lemma store_raw strict fs name (set : string → A → A) v l a :
  find_field fs (unquote name) = Some (raw_field name set) →
  store_members strict fs (map field_text ((name, v) :: l)) a =
  store_members strict fs (map field_text l) (set (print v) a).
Proof.
  intros Hf. cbn [map store_members]. by rewrite (store_member_found _ _ _ _ _ _ Hf).
Qed.

Lemma members_ok_app d l1 l2 : members_ok d (l1 ++ l2) = members_ok d l1 && members_ok d l2.
Proof. induction l1 as [|[k v] l1 IH]; [done|]. cbn. by rewrite IH, andb_assoc. Qed.
End store.

Lemma members_ok_string d name s l :
  token_str name = true → members_ok d ((name, jstring s) :: l) = members_ok d l.
Proof. intros H. cbn. by rewrite H, quote_token. Qed.
Lemma members_ok_int d name z l :
  token_str name = true → members_ok d ((name, jint z) :: l) = members_ok d l.
Proof. intros H. cbn -[token_num]. by rewrite H, token_FormatInt. Qed.
Lemma members_ok_value d name v l :
  token_str name = true → json_ok d v = true → members_ok d ((name, v) :: l) = members_ok d l.
Proof. intros H Hv. cbn. by rewrite H, Hv. Qed.
