(* ===== verification/Xml.v ===== *)
(** * encoding/xml: documents read into a struct

    [xml.Unmarshal] into a struct whose members are elements with a text or an
    integer in them: the decoder's tokens (elements, attributes, text, character
    references, CDATA, comments, processing instructions, directives), the stack
    of open elements, and what a struct takes of them.  Errors are not told
    apart.  The tables of the letters above ASCII are a parameter. *)
From Stdlib Require Import String Ascii.
From S2P Require Import Prelude GoStrings Strconv JsonString.
From stdpp Require Import list.

Local Open Scope Z_scope.

Local Abbreviation between := JsonString.between.

(** ** Characters *)
Definition at_byte (c : ascii) (n : Z) : bool := code c =? n.

Fixpoint span (p : ascii → bool) (s : string) : string * string :=
  match s with
  | EmptyString => (EmptyString, EmptyString)
  | String c r => if p c then let '(a, b) := span p r in (String c a, b) else (EmptyString, s)
  end.

Definition xml_space (c : ascii) : bool := at_byte c 32 || at_byte c 13 || at_byte c 10 || at_byte c 9.
Definition skip_space (s : string) : string := (span xml_space s).2.

Definition isNameByte (c : ascii) : bool :=
  let n := code c in
  between 65 n 90 || between 97 n 122 || between 48 n 57 || (n =? 95) || (n =? 58) || (n =? 46) || (n =? 45).
(** Bytes of longer sequences are taken in and looked at later. *)
Definition name_part (c : ascii) : bool := (128 <=? code c) || isNameByte c.

(** The runes of a text, [None] where it is no UTF-8. *)
Fixpoint runes (s : string) : option (list Z) :=
  match s with
  | EmptyString => Some []
  | String c1 s1 =>
    if code c1 <? 128 then cons (code c1) <$> runes s1 else
    match s1 with
    | String c2 s2 =>
      if valid2 c1 c2 then cons ((code c1 - 192) * 64 + (code c2 - 128)) <$> runes s2 else
      match s2 with
      | String c3 s3 =>
        if valid3 c1 c2 c3 then cons ((code c1 - 224) * 4096 + (code c2 - 128) * 64 + (code c3 - 128)) <$> runes s3 else
        match s3 with
        | String c4 s4 =>
          if valid4 c1 c2 c3 c4 then cons ((code c1 - 240) * 262144 + (code c2 - 128) * 4096 + (code c3 - 128) * 64 + (code c4 - 128)) <$> runes s4
          else None
        | EmptyString => None
        end
      | EmptyString => None
      end
    | EmptyString => None
    end
  end.

(** [isInCharacterRange] *)
Definition in_character_range (r : Z) : bool :=
  (r =? 9) || (r =? 10) || (r =? 13) || between 32 r 55295 || between 57344 r 65533 || between 65536 r 1114111.
Definition xml_chars (s : string) : bool := match runes s with Some l => forallb in_character_range l | None => false end.

Section names.
(** Whether a rune above ASCII may begin a name ([true]) or continue one. *)
Variable letter : bool → Z → bool.

Definition name_first (r : Z) : bool :=
  if r <? 128 then between 65 r 90 || between 97 r 122 || (r =? 95) || (r =? 58) else letter true r.
Definition name_next (r : Z) : bool :=
  name_first r || (if r <? 128 then between 48 r 57 || (r =? 46) || (r =? 45) else letter false r).

Definition isName (s : string) : bool :=
  match runes s with Some (c :: l) => name_first c && forallb name_next l | _ => false end.

(** A name: the decoder wants a byte after it. *)
Definition read_name (s : string) : option (string * string) :=
  let '(n, r) := span name_part s in
  if bool_decide (r = EmptyString) || negb (isName n) then None else Some (n, r).

Definition count_colons (s : string) : nat := length (filter (λ c, c = ":"%char) (list_ascii_of_string s)).

(** Prefix and local name. *)
Definition split_name (s : string) : option (string * string) :=
  if (1 <? count_colons s)%nat then None
  else let '(space, r) := span (λ c, negb (at_byte c 58)) s in
       match r with
       | String _ (String _ _ as local) => if bool_decide (space = EmptyString) then Some (EmptyString, s) else Some (space, local)
       | _ => Some (EmptyString, s)
       end.

Definition nsname (s : string) : option (string * string * string) :=
  '(n, r) ← read_name s; q ← split_name n; Some (q, r).

(** ** Text *)
Definition entities : list (string * string) := [("lt", "<"); ("gt", ">"); ("amp", "&"); ("apos", "'"); ("quot", String dquote EmptyString)]%string.

Definition hex_char (c : ascii) : bool := let n := code c in between 48 n 57 || between 97 n 102 || between 65 n 70.

Definition char_value (base : Z) (digits : string) : Z := foldl (λ acc c, acc * base + hex_val c) 0 (list_ascii_of_string digits).

(** What follows an ampersand: the text it stands for, and the rest. *)
Definition reference (s : string) : option (string * string) :=
  match s with
  | EmptyString => None
  | String h r =>
    if at_byte h 35 then
      let '(base, r) := match r with String x r' => if at_byte x 120 then (16, r') else (10, r) | EmptyString => (10, r) end in
      let '(digits, r) := span (if base =? 16 then hex_char else is_digit) r in
      match r with
      | String c r =>
        let n := char_value base digits in
        if negb (at_byte c 59) || bool_decide (digits = EmptyString) || (1114111 <? n) then None
        else Some (encode_rune (if is_surrogate n then rune_error else n), r)
      | EmptyString => None
      end
    else
      let '(name, r) := span name_part s in
      match r with
      | String c r => if negb (at_byte c 59) then None else '(_, t) ← list_find (λ p, p.1 = name) entities; Some (t.2, r)
      | EmptyString => None
      end
  end.

(** The loop of [text]: the last two bytes read, and the text so far, reversed. *)
Fixpoint text_loop (fuel : nat) (quote : option ascii) (cdata : bool) (b0 b1 : Z) (acc s : string) : option (string * string) :=
  match fuel with
  | O => None
  | S fuel =>
    match s with
    | EmptyString => if cdata then None else Some (srev acc, EmptyString)
    | String b r =>
      if bool_decide (quote = None) && (b0 =? 93) && (b1 =? 93) && at_byte b 62 then if cdata then Some (srev (GoStrings.skip 2 acc), r) else None
      else if at_byte b 60 && negb cdata then match quote with Some _ => None | None => Some (srev acc, s) end
      else if bool_decide (quote = Some b) then Some (srev acc, r)
      else if at_byte b 38 && negb cdata then
        match reference r with
        | Some (t, r) => text_loop fuel quote cdata 0 0 (srev_app t acc) r
        | None => None
        end
      else
        let acc := if at_byte b 13 then String "010" acc else if (b1 =? 13) && at_byte b 10 then acc else String b acc in
        text_loop fuel quote cdata b1 (code b) acc r
    end
  end.

Definition text (quote : option ascii) (cdata : bool) (s : string) : option (string * string) :=
  '(t, r) ← text_loop (S (String.length s)) quote cdata 0 0 EmptyString s; if xml_chars t then Some (t, r) else None.

(** ** Markup *)

(** Up to the end of a processing instruction; what it holds. *)
Fixpoint proc_inst (b0 : Z) (acc s : string) : option (string * string) :=
  match s with
  | EmptyString => None
  | String b r => if (b0 =? 63) && at_byte b 62 then Some (srev (GoStrings.skip 1 acc), r) else proc_inst (code b) (String b acc) r
  end.

(** The rest after the first occurrence of a text that is not empty. *)
Fixpoint after (p s : string) : option string :=
  match s with
  | EmptyString => None
  | String c r => if HasPrefix s p then Some (GoStrings.skip (String.length p) s) else after p r
  end.

(** [procInst]: the value of a pseudo-attribute. *)
Fixpoint inst_value (fuel : nat) (param s : string) : string :=
  match fuel with
  | O => EmptyString
  | S fuel =>
    match after param s with
    | Some (String c r) =>
      if at_byte c 39 || at_byte c 34 then
        let '(v, t) := span (λ d, negb (at_byte d (code c))) r in if bool_decide (t = EmptyString) then EmptyString else v
      else inst_value fuel param r
    | _ => EmptyString
    end
  end.
Definition procInst (param s : string) : string := inst_value (S (String.length s)) (param ++ "=") s.

(** The declaration: version 1.0 and UTF-8. *)
Definition declaration_ok (content : string) : bool :=
  let ver := procInst "version" content in
  let enc := procInst "encoding" content in
  (bool_decide (ver = EmptyString) || bool_decide (ver = "1.0"%string)) && (bool_decide (enc = EmptyString) || bool_decide (ToLower enc = "utf-8"%string)).

Fixpoint comment (b0 b1 : Z) (s : string) : option string :=
  match s with
  | EmptyString => None
  | String b r => if (b0 =? 45) && (b1 =? 45) then if at_byte b 62 then Some r else None else comment b1 (code b) r
  end.

(** A directive: in quotes or not, at a depth of brackets; after a bracket that
    may open a comment; in a comment. *)
Inductive directive_state := Plain (inquote : option Z) (depth : Z) | Opening (matched : nat) (depth : Z) | Commented (b0 b1 depth : Z).

Definition directive_byte (b : ascii) (inquote : option Z) (depth : Z) : directive_state :=
  match inquote with
  | Some q => Plain (if at_byte b q then None else inquote) depth
  | None =>
    if at_byte b 39 || at_byte b 34 then Plain (Some (code b)) depth
    else if at_byte b 62 then Plain None (depth - 1)
    else if at_byte b 60 then Opening 0 depth
    else Plain None depth
  end.

Fixpoint directive (st : directive_state) (s : string) : option string :=
  match s with
  | EmptyString => None
  | String b r =>
    match st with
    | Plain q depth => if bool_decide (q = None) && at_byte b 62 && (depth =? 0) then Some r else directive (directive_byte b q depth) r
    | Opening i depth =>
      if at_byte b (match i with O => 33 | _ => 45 end) then directive (match i with 2%nat => Commented 0 0 depth | _ => Opening (S i) depth end) r
      else directive (directive_byte b None (depth + 1)) r
    | Commented b0 b1 depth => if (b0 =? 45) && (b1 =? 45) && at_byte b 62 then directive (Plain None depth) r else directive (Commented b1 (code b) depth) r
    end
  end.

(** The attributes of an element and its end; whether it is empty. *)
Fixpoint attributes (fuel : nat) (s : string) : option (bool * string) :=
  match fuel with
  | O => None
  | S fuel =>
    let s := skip_space s in
    match s with
    | EmptyString => None
    | String b r =>
      if at_byte b 47 then match r with String c r => if at_byte c 62 then Some (true, r) else None | EmptyString => None end
      else if at_byte b 62 then Some (false, r)
      else
        '(_, r) ← nsname s;
        match skip_space r with
        | String e r =>
          if at_byte e 61 then
            match skip_space r with
            | String q r => if at_byte q 34 || at_byte q 39 then '(_, r) ← text (Some q) false r; attributes fuel r else None
            | EmptyString => None
            end
          else None
        | EmptyString => None
        end
    end
  end.

(** ** Tokens *)
Inductive raw_token := RawStart (name : string * string) (empty : bool) | RawEnd (name : string * string) | RawText (t : string) | RawMarkup.

Definition bang (s : string) : option (raw_token * string) :=
  match s with
  | EmptyString => None
  | String b r =>
    if at_byte b 45 then match r with String d r => if at_byte d 45 then r ← comment 0 0 r; Some (RawMarkup, r) else None | EmptyString => None end
    else if at_byte b 91 then if HasPrefix r "CDATA[" then '(t, r) ← text None true (TrimPrefix r "CDATA["); Some (RawText t, r) else None
    else r ← directive (Plain None 0) r; Some (RawMarkup, r)
  end.

(** [rawToken], for a text that is not empty. *)
Definition raw (s : string) : option (raw_token * string) :=
  match s with
  | String b r =>
    if negb (at_byte b 60) then '(t, r) ← text None false s; Some (RawText t, r)
    else match r with
    | EmptyString => None
    | String b r' =>
      if at_byte b 47 then
        '(n, r) ← nsname r';
        match skip_space r with String c r => if at_byte c 62 then Some (RawEnd n, r) else None | EmptyString => None end
      else if at_byte b 63 then
        '(target, r) ← read_name r';
        '(content, r) ← proc_inst 0 EmptyString (skip_space r);
        if bool_decide (target = "xml"%string) && negb (declaration_ok content) then None else Some (RawMarkup, r)
      else if at_byte b 33 then bang r'
      else '(n, r) ← nsname r; '(empty, r) ← attributes (S (String.length r)) r; Some (RawStart n empty, r)
    end
  | EmptyString => None
  end.

Inductive token := StartElement (local : string) | EndElement | CharData (t : string) | Markup.

(** The tokens up to the first error or the end, with the open elements. *)
Fixpoint tokens (fuel : nat) (stack : list (string * string)) (s : string) : list token :=
  match fuel with
  | O => []
  | S fuel =>
    match raw s with
    | None => []
    | Some (RawStart n true, r) => StartElement n.2 :: EndElement :: tokens fuel stack r
    | Some (RawStart n false, r) => StartElement n.2 :: tokens fuel (n :: stack) r
    | Some (RawEnd n, r) =>
      match stack with
      | m :: stack => if bool_decide (m = n) then EndElement :: tokens fuel stack r else []
      | [] => []
      end
    | Some (RawText t, r) => CharData t :: tokens fuel stack r
    | Some (RawMarkup, r) => Markup :: tokens fuel stack r
    end
  end.
Definition document (s : string) : list token := tokens (S (String.length s)) [] s.
End names.

(** ** A struct of elements *)

(** A member: its name and how its text is stored. *)
Abbreviation xml_field A := (string * (string → A → option A))%type.

Definition string_member {A} (name : string) (set : string → A → A) : xml_field A := (name, λ t a, Some (set t a)).
(** [copyValue] for an int64: an empty text is zero. *)
Definition int64_member {A} (name : string) (set : Z → A → A) : xml_field A :=
  (name, λ t a, if bool_decide (t = EmptyString) then Some (set 0 a) else z ← ParseInt (TrimSpace t); Some (set z a)).

(** Where the reading of a struct is: among its elements, in the element of a
    member with the text so far, or in an element that is skipped, at a depth,
    inside one of those. *)
Inductive place A := Among | Within (store : string → A → option A) (t : string) | Skipping (depth : nat) (back : option ((string → A → option A) * string)).
Arguments Among {A}.
Arguments Within {A} _ _.
Arguments Skipping {A} _ _.

Definition find_member {A} (fields : list (xml_field A)) (name : string) : option (string → A → option A) :=
  (λ p, p.2.2) <$> list_find (λ f, f.1 = name) fields.

Fixpoint read_struct {A} (fields : list (xml_field A)) (l : list token) (p : place A) (a : A) : option A :=
  match l with
  | [] => None
  | t :: l =>
    match p, t with
    | Among, StartElement n => read_struct fields l (match find_member fields n with Some store => Within store EmptyString | None => Skipping 0 None end) a
    | Among, EndElement => Some a
    | Among, _ => read_struct fields l Among a
    | Within store t, StartElement _ => read_struct fields l (Skipping 0 (Some (store, t))) a
    | Within store t, EndElement => a ← store t a; read_struct fields l Among a
    | Within store t, CharData u => read_struct fields l (Within store (t ++ u)) a
    | Within store t, Markup => read_struct fields l p a
    | Skipping d back, StartElement _ => read_struct fields l (Skipping (S d) back) a
    | Skipping (S d) back, EndElement => read_struct fields l (Skipping d back) a
    | Skipping O back, EndElement => read_struct fields l (match back with Some (store, t) => Within store t | None => Among end) a
    | Skipping d back, _ => read_struct fields l p a
    end
  end.

(** [xml.Unmarshal] into a struct that is an element of this name: the first
    element decides, what follows it is not read. *)
Fixpoint read_root {A} (root : string) (fields : list (xml_field A)) (l : list token) (a : A) : option A :=
  match l with
  | [] => None
  | StartElement n :: l => if bool_decide (n = root) then read_struct fields l Among a else None
  | _ :: l => read_root root fields l a
  end.

Definition UnmarshalXML {A} (letter : bool → Z → bool) (root : string) (fields : list (xml_field A)) (zero : A) (s : string) : option A :=
  read_root root fields (document letter s) zero.

(** ** The fuel is enough *)

(** A reader takes a front of the text. *)
Definition shortens {B} (f : string → option (B * string)) : Prop := ∀ s b r, f s = Some (b, r) → (String.length r ≤ String.length s)%nat.

Lemma span_split p s : s = ((span p s).1 ++ (span p s).2)%string.
Proof. induction s as [|c s IH]; [done|]. cbn. destruct (p c); [|done]. destruct (span p s) as [a b]. cbn in *. by rewrite <-IH. Qed.
Lemma span_length p s a b : span p s = (a, b) → String.length s = (String.length a + String.length b)%nat.
Proof. intros Hs. pose proof (span_split p s) as Hl. rewrite Hs in Hl. rewrite Hl at 1. by rewrite slength_app. Qed.
Lemma skip_space_length s : (String.length (skip_space s) ≤ String.length s)%nat.
Proof. unfold skip_space. destruct (span xml_space s) as [a b] eqn:Hs. apply span_length in Hs. cbn. lia. Qed.
Lemma skip_length n s : (String.length (GoStrings.skip n s) ≤ String.length s)%nat.
Proof. revert s. induction n as [|n IH]; intros [|c s]; cbn; try lia. specialize (IH s). lia. Qed.

#[local] Ltac lengths := cbn [String.length fst snd] in *; lia.

Lemma reference_shorter s t r : reference s = Some (t, r) → (String.length r < String.length s)%nat.
Proof.
  unfold reference. destruct s as [|h s]; [done|]. destruct (at_byte h 35).
  - assert (∀ x : Z * string, (let '(base, r) := x in let '(digits, r) := span (if base =? 16 then hex_char else is_digit) r in
      match r with String c r => let n := char_value base digits in
        if negb (at_byte c 59) || bool_decide (digits = EmptyString) || (1114111 <? n) then None
        else Some (encode_rune (if is_surrogate n then rune_error else n), r) | EmptyString => None end) = Some (t, r) →
      (String.length r < String.length x.2)%nat) as Hx.
    { intros [base u]. destruct (span _ u) as [digits v] eqn:Hs. apply span_length in Hs. destruct v as [|c v]; [done|]. cbv zeta.
      destruct (_ || _); [done|]. intros [= _ <-]. lengths. }
    intros Hr. apply Hx in Hr. destruct s as [|x s]; [cbn in Hr; lia|]. destruct (at_byte x 120); lengths.
  - destruct (span _ _) as [name v] eqn:Hs. apply span_length in Hs. destruct v as [|c v]; [done|]. destruct (negb _); [done|].
    destruct (list_find _ entities) as [[i e]|]; [|done]. intros [= _ <-]. lengths.
Qed.

Lemma text_loop_length f q cd b0 b1 acc s t r : text_loop f q cd b0 b1 acc s = Some (t, r) → (String.length r ≤ String.length s)%nat.
Proof.
  revert b0 b1 acc s. induction f as [|f IH]; intros b0 b1 acc s; [done|]. cbn [text_loop]. destruct s as [|b s]; [destruct cd; intros [= _ <-]; done|].
  destruct (bool_decide (q = None) && (b0 =? 93) && (b1 =? 93) && at_byte b 62); [destruct cd; [|done]; intros [= _ <-]; lengths|].
  destruct (at_byte b 60 && negb cd); [destruct q; [done|]; by intros [= _ <-]|]. destruct (bool_decide (q = Some b)); [intros [= _ <-]; lengths|].
  destruct (at_byte b 38 && negb cd); [|intros Hr%IH; lengths].
  destruct (reference s) as [[u v]|] eqn:Href; [|done]. apply reference_shorter in Href. intros Hr%IH. lengths.
Qed.

(** Text that does not begin with a bracket takes at least its first byte. *)
Lemma text_progress q cd b s t r : (q = None → at_byte b 60 && negb cd = false) → text q cd (String b s) = Some (t, r) → (String.length r < String.length (String b s))%nat.
Proof.
  intros Hb. unfold text. destruct (text_loop _ _ _ _ _ _ _) as [[t' r']|] eqn:Hl; [|done]. cbn [mbind option_bind].
  destruct (xml_chars t'); [|done]. intros [= -> ->]. revert Hl. cbn [text_loop]. rewrite andb_false_r. cbn [andb].
  destruct q as [q|]; [destruct (at_byte b 60 && negb cd); [done|]|rewrite Hb by done].
  all: repeat case_bool_decide; try done; try (by intros [= _ <-]; lengths).
  all: destruct (at_byte b 38 && negb cd); [destruct (reference s) as [[u v]|] eqn:Href; [|done]; apply reference_shorter in Href|].
  all: intros Hr%text_loop_length; lengths.
Qed.

Lemma text_shortens q cd : shortens (text q cd).
Proof.
  intros s t r. unfold text. destruct (text_loop _ _ _ _ _ _ _) as [[t' r']|] eqn:Hl; [|done]. cbn. destruct (xml_chars t'); [|done].
  intros [= _ <-]. by eapply text_loop_length.
Qed.

Lemma text_loop_fuel f f' q cd b0 b1 acc s :
  (String.length s < f)%nat → (String.length s < f')%nat → text_loop f q cd b0 b1 acc s = text_loop f' q cd b0 b1 acc s.
Proof.
  revert f' b0 b1 acc s. induction f as [|f IH]; intros f' b0 b1 acc s H1 H2; [lia|]. destruct f' as [|f']; [lia|]. cbn [text_loop].
  destruct s as [|b s]; [done|]. repeat (destruct (_ && _); [done|]). destruct (bool_decide _); [done|].
  destruct (at_byte b 38 && negb cd); [|apply IH; lengths]. destruct (reference s) as [[u v]|] eqn:Href; [|done].
  apply reference_shorter in Href. apply IH; lengths.
Qed.

Section fuel.
Variable letter : bool → Z → bool.

Lemma read_name_shorter s n r : read_name letter s = Some (n, r) → (String.length r < String.length s)%nat.
Proof.
  unfold read_name. destruct (span _ s) as [a b] eqn:Hs. apply span_length in Hs. destruct (bool_decide _); [done|]. cbn [orb].
  destruct (isName letter a) eqn:Hn; [|done]. intros [= <- <-]. destruct a; [done|]. lengths.
Qed.
Lemma nsname_shorter s n r : nsname letter s = Some (n, r) → (String.length r < String.length s)%nat.
Proof.
  unfold nsname. destruct (read_name letter s) as [[m t]|] eqn:Hr; [|done]. apply read_name_shorter in Hr. cbn. destruct (split_name m); [|done].
  cbn. by intros [= _ <-].
Qed.

Lemma proc_inst_length b acc s t r : proc_inst b acc s = Some (t, r) → (String.length r < String.length s)%nat.
Proof.
  revert b acc. induction s as [|c s IH]; intros b acc; [done|]. cbn [proc_inst]. destruct (_ && _); [intros [= _ <-]; lengths|]. intros Hr%IH. lengths.
Qed.
Lemma comment_length b0 b1 s r : comment b0 b1 s = Some r → (String.length r < String.length s)%nat.
Proof.
  revert b0 b1. induction s as [|c s IH]; intros b0 b1; [done|]. cbn [comment]. destruct (_ && _); [destruct (at_byte c 62); [|done]; intros [= <-]; lengths|].
  intros Hr%IH. lengths.
Qed.
Lemma directive_length st s r : directive st s = Some r → (String.length r < String.length s)%nat.
Proof.
  revert st. induction s as [|c s IH]; intros st; [done|]. cbn [directive].
  destruct st as [q d|i d|b0 b1 d]; [destruct (_ && _ && _); [intros [= <-]; lengths|]|destruct (at_byte c _)|destruct (_ && _ && _)];
    intros Hr%IH; lengths.
Qed.

Lemma attributes_length f s e r : attributes letter f s = Some (e, r) → (String.length r < String.length s)%nat.
Proof.
  revert s. induction f as [|f IH]; intros s; [done|]. cbn [attributes]. pose proof (skip_space_length s) as H1. destruct (skip_space s) as [|b u] eqn:Hu; [done|].
  destruct (at_byte b 47); [destruct u as [|c u]; [done|]; destruct (at_byte c 62); [|done]; intros [= _ <-]; lengths|].
  destruct (at_byte b 62); [intros [= _ <-]; lengths|]. destruct (nsname letter _) as [[n v]|] eqn:Hn; [|done]. apply nsname_shorter in Hn. cbn [mbind option_bind].
  pose proof (skip_space_length v) as H2. destruct (skip_space v) as [|c w]; [done|]. destruct (at_byte c 61); [|done].
  pose proof (skip_space_length w) as H3. destruct (skip_space w) as [|q x]; [done|]. destruct (_ || _); [|done].
  destruct (text (Some q) false x) as [[t y]|] eqn:Ht; [|done]. apply text_shortens in Ht. cbn [mbind option_bind]. intros Hr%IH. lengths.
Qed.

Lemma attributes_fuel f f' s : (String.length s < f)%nat → (String.length s < f')%nat → attributes letter f s = attributes letter f' s.
Proof.
  revert f' s. induction f as [|f IH]; intros f' s H1 H2; [lia|]. destruct f' as [|f']; [lia|]. cbn [attributes].
  pose proof (skip_space_length s) as H3. destruct (skip_space s) as [|b u]; [done|]. destruct (at_byte b 47); [done|]. destruct (at_byte b 62); [done|].
  destruct (nsname letter _) as [[n v]|] eqn:Hn; [|done]. apply nsname_shorter in Hn. cbn [mbind option_bind].
  pose proof (skip_space_length v) as H4. destruct (skip_space v) as [|c w]; [done|]. destruct (at_byte c 61); [|done].
  pose proof (skip_space_length w) as H5. destruct (skip_space w) as [|q x]; [done|]. destruct (_ || _); [|done].
  destruct (text (Some q) false x) as [[t y]|] eqn:Ht; [|done]. apply text_shortens in Ht. cbn [mbind option_bind]. apply IH; lengths.
Qed.

Lemma bang_shorter s t r : bang s = Some (t, r) → (String.length r < String.length s)%nat.
Proof.
  unfold bang. destruct s as [|b s]; [done|]. destruct (at_byte b 45).
  { destruct s as [|d s]; [done|]. destruct (at_byte d 45); [|done]. destruct (comment 0 0 s) eqn:Hc; [|done]. apply comment_length in Hc. intros [= _ <-]. lengths. }
  destruct (at_byte b 91).
  { destruct (HasPrefix s "CDATA[") eqn:Hp; [|done]. destruct (text None true _) as [[u v]|] eqn:Ht; [|done]. apply text_shortens in Ht. intros [= _ <-].
    apply HasPrefix_spec in Hp as [w ->]. rewrite TrimPrefix_app in Ht. cbn in *. lia. }
  destruct (directive _ s) eqn:Hd; [|done]. apply directive_length in Hd. intros [= _ <-]. lengths.
Qed.

Lemma raw_shorter s t r : raw letter s = Some (t, r) → (String.length r < String.length s)%nat.
Proof.
  unfold raw. destruct s as [|b s]; [done|]. destruct (at_byte b 60) eqn:Hb; cbn [negb].
  2:{ destruct (text _ _ _) as [[u v]|] eqn:Ht; [|done]. apply text_progress in Ht; [|by rewrite Hb]. by intros [= _ <-]. }
  destruct s as [|c s]; [done|]. destruct (at_byte c 47).
  { destruct (nsname letter s) as [[n v]|] eqn:Hn; [|done]. apply nsname_shorter in Hn. cbn [mbind option_bind]. pose proof (skip_space_length v) as Hv.
    destruct (skip_space v) as [|d w]; [done|]. destruct (at_byte d 62); [|done]. intros [= _ <-]. lengths. }
  destruct (at_byte c 63).
  { destruct (read_name letter s) as [[n v]|] eqn:Hn; [|done]. apply read_name_shorter in Hn. cbn [mbind option_bind]. pose proof (skip_space_length v) as Hv.
    destruct (proc_inst _ _ _) as [[u w]|] eqn:Hp; [|done]. apply proc_inst_length in Hp. cbn [mbind option_bind]. destruct (_ && _); [done|]. intros [= _ <-]. lengths. }
  destruct (at_byte c 33); [intros Hr%bang_shorter; lengths|].
  destruct (nsname letter _) as [[n v]|] eqn:Hn; [|done]. apply nsname_shorter in Hn. cbn [mbind option_bind].
  destruct (attributes letter _ v) as [[e w]|] eqn:Ha; [|done]. apply attributes_length in Ha. intros [= _ <-]. lengths.
Qed.

(** Any more fuel gives the same tokens. *)
Lemma tokens_fuel f f' stack s : (String.length s < f)%nat → (String.length s < f')%nat → tokens letter f stack s = tokens letter f' stack s.
Proof.
  revert f' stack s. induction f as [|f IH]; intros f' stack s H1 H2; [lia|]. destruct f' as [|f']; [lia|]. cbn [tokens].
  destruct (raw letter s) as [[t r]|] eqn:Hr; [|done]. apply raw_shorter in Hr.
  assert (∀ st, tokens letter f st r = tokens letter f' st r) as Heq by (intros; apply IH; lia).
  destruct t as [n [|]|n|t|]; [| |destruct stack as [|m stack]; [done|]; case_bool_decide; [|done]| |]; by rewrite Heq.
Qed.

(** The tokens of a text are its first and those of the rest. *)
Lemma tokens_step f stack s t r : (String.length s < f)%nat → raw letter s = Some (t, r) →
  tokens letter f stack s =
    let rest stack := tokens letter (S (String.length r)) stack r in
    match t with
    | RawStart n true => StartElement n.2 :: EndElement :: rest stack
    | RawStart n false => StartElement n.2 :: rest (n :: stack)
    | RawEnd n => match stack with m :: stack => if bool_decide (m = n) then EndElement :: rest stack else [] | [] => [] end
    | RawText t => CharData t :: rest stack
    | RawMarkup => Markup :: rest stack
    end.
Proof.
  intros Hf Hr. destruct f as [|f]; [lia|]. cbn [tokens]. rewrite Hr. apply raw_shorter in Hr. cbv zeta.
  assert (∀ st, tokens letter f st r = tokens letter (S (String.length r)) st r) as Heq by (intros; apply tokens_fuel; lia).
  destruct t as [n [|]|n|t|]; [| |destruct stack as [|m stack]; [done|]; case_bool_decide; [|done]| |]; by rewrite Heq.
Qed.
End fuel.

(** ** Documents of elements are read back *)

(** A text in a CDATA section, or as it is. *)
Inductive content := Cdata (t : string) | Bare (t : string).
Definition content_text (c : content) : string := match c with Cdata t | Bare t => t end.
Definition content_body (c : content) : string := match c with Cdata t => "<![CDATA[" ++ t ++ "]]>" | Bare t => t end.
Definition element (e : string * content) : string := "<" ++ e.1 ++ ">" ++ content_body e.2 ++ "</" ++ e.1 ++ ">".
Definition elements (l : list (string * content)) : string := foldr (λ e s, (element e ++ s)%string) EmptyString l.
Definition render (root : string) (l : list (string * content)) : string := "<" ++ root ++ ">" ++ elements l ++ "</" ++ root ++ ">".

(** *** What can be written so *)
Definition tag_ok (n : string) : bool :=
  match n with
  | EmptyString => false
  | String c _ => forallb (λ d, (code d <? 128) && isNameByte d && negb (at_byte d 58)) (list_ascii_of_string n) &&
      (between 65 (code c) 90 || between 97 (code c) 122 || (code c =? 95))
  end.

(** No bracket closes a CDATA section, the two bytes before being given. *)
Fixpoint no_close (b0 b1 : Z) (t : string) : bool :=
  match t with EmptyString => true | String c t => negb ((b0 =? 93) && (b1 =? 93) && at_byte c 62) && no_close b1 (code c) t end.
Definition copied (cd : bool) (c : ascii) : bool := negb (at_byte c 13) && (cd || negb (at_byte c 60 || at_byte c 38)).
Definition plain_text (cd : bool) (t : string) : bool := no_close 0 0 t && forallb (copied cd) (list_ascii_of_string t) && xml_chars t.
Definition content_ok (c : content) : bool := match c with Cdata t => plain_text true t | Bare t => plain_text false t end.

(** The two bytes read last after a text. *)
Fixpoint feed (b0 b1 : Z) (t : string) : Z * Z := match t with EmptyString => (b0, b1) | String c t => feed b1 (code c) t end.

Lemma text_loop_copies f cd b0 b1 acc t rest :
  (String.length (t ++ rest) < f)%nat → b1 ≠ 13 → no_close b0 b1 t = true → forallb (copied cd) (list_ascii_of_string t) = true →
  ∃ f', (String.length rest < f')%nat ∧
    text_loop f None cd b0 b1 acc (t ++ rest) = text_loop f' None cd (feed b0 b1 t).1 (feed b0 b1 t).2 (srev_app t acc) rest.
Proof.
  revert f b0 b1 acc. induction t as [|c t IH]; intros f b0 b1 acc Hf Hb Hn Hc; [by exists f|]. destruct f as [|f]; [lia|].
  cbn [no_close] in Hn. apply andb_prop in Hn as [Hn Ht]. apply negb_true_iff in Hn. cbn [list_ascii_of_string forallb] in Hc. apply andb_prop in Hc as [Hc Hcs].
  unfold copied in Hc. apply andb_prop in Hc as [Hr Hlt]. apply negb_true_iff in Hr. cbn [String.append] in *. cbn [text_loop feed srev_app].
  rewrite bool_decide_eq_true_2 by done. cbn [andb]. rewrite Hn.
  assert (at_byte c 60 && negb cd = false ∧ at_byte c 38 && negb cd = false) as [-> ->]
    by (destruct cd, (at_byte c 60), (at_byte c 38); by try split).
  rewrite bool_decide_eq_false_2, Hr by done. apply Z.eqb_neq in Hb. rewrite Hb. cbn [andb].
  destruct (IH f b1 (code c) (String c acc)) as (f' & Hf' & Heq); [cbn in Hf; lia|by apply Z.eqb_neq|done|done|]. by exists f'.
Qed.

Lemma feed_app b0 b1 t u : feed b0 b1 (t ++ u) = feed (feed b0 b1 t).1 (feed b0 b1 t).2 u.
Proof. revert b0 b1. induction t as [|c t IH]; intros b0 b1; [done|]. apply IH. Qed.
Lemma no_close_app b0 b1 t u : no_close b0 b1 (t ++ u) = no_close b0 b1 t && no_close (feed b0 b1 t).1 (feed b0 b1 t).2 u.
Proof. revert b0 b1. induction t as [|c t IH]; intros b0 b1; [done|]. cbn. by rewrite IH, andb_assoc. Qed.
Lemma forallb_chars p t u : forallb p (list_ascii_of_string (t ++ u)) = forallb p (list_ascii_of_string t) && forallb p (list_ascii_of_string u).
Proof. induction t as [|c t IH]; [done|]. cbn. by rewrite IH, andb_assoc. Qed.

Lemma text_cdata t rest : plain_text true t = true → text None true (t ++ "]]>" ++ rest) = Some (t, rest).
Proof.
  unfold plain_text. intros [[Hn Hc]%andb_prop Hx]%andb_prop. unfold text.
  change ("]]>" ++ rest)%string with ("]]" ++ String ">" rest)%string. rewrite <-sapp_assoc.
  destruct (text_loop_copies (S (String.length ((t ++ "]]") ++ String ">" rest))) true 0 0 EmptyString (t ++ "]]") (String ">" rest)) as (f & Hf & ->);
    [lia|done|rewrite no_close_app, Hn; cbn; by rewrite !andb_false_r|by rewrite forallb_chars, Hc|].
  destruct f as [|f]; [lia|]. rewrite feed_app. destruct (feed 0 0 t) as [a b]. cbn [feed fst snd]. cbn [text_loop].
  change (bool_decide _ && _ && _ && _) with true. cbn [mbind option_bind]. rewrite srev_app_spec, sapp_nil_r, srev_app_distr.
  change (GoStrings.skip 2 (srev "]]" ++ srev t)) with (srev t). by rewrite srev_involutive, Hx.
Qed.

Lemma text_bare t rest : plain_text false t = true → text None false (t ++ String "<" rest) = Some (t, String "<" rest).
Proof.
  unfold plain_text. intros [[Hn Hc]%andb_prop Hx]%andb_prop. unfold text.
  destruct (text_loop_copies (S (String.length (t ++ String "<" rest))) false 0 0 EmptyString t (String "<" rest)) as (f & Hf & ->); [lia|done|done|done|].
  destruct f as [|f]; [lia|]. cbn [text_loop]. change (at_byte "<" 62) with false. rewrite andb_false_r.
  change (at_byte "<" 60 && negb false) with true. cbv iota beta. cbn [mbind option_bind].
  by rewrite srev_app_spec, sapp_nil_r, srev_involutive, Hx.
Qed.

(** *** Tags *)
Lemma runes_ascii s : forallb (λ c, code c <? 128) (list_ascii_of_string s) = true → runes s = Some (map code (list_ascii_of_string s)).
Proof. induction s as [|c s IH]; [done|]. cbn. intros [-> Hs]%andb_prop. by rewrite IH. Qed.

Lemma forallb_imp {A} (p q : A → bool) l : (∀ x, p x = true → q x = true) → forallb p l = true → forallb q l = true.
Proof. intros Hpq. induction l as [|x l IH]; [done|]. cbn. intros [Hx Hl]%andb_prop. by rewrite Hpq, IH. Qed.

Lemma span_all p n c r : forallb p (list_ascii_of_string n) = true → p c = false → span p (n ++ String c r) = (n, String c r).
Proof. intros Hn Hc. induction n as [|d n IH]; cbn; [by rewrite Hc|]. cbn in Hn. apply andb_prop in Hn as [-> Hn]. by rewrite IH. Qed.
Lemma span_end p n : forallb p (list_ascii_of_string n) = true → span p n = (n, EmptyString).
Proof. intros Hn. induction n as [|d n IH]; [done|]. cbn in *. apply andb_prop in Hn as [-> Hn]. by rewrite IH. Qed.

Lemma no_colons s : forallb (λ c, negb (at_byte c 58)) (list_ascii_of_string s) = true → count_colons s = 0%nat.
Proof.
  unfold count_colons. induction s as [|c s IH]; [done|]. cbn [list_ascii_of_string forallb]. intros [Hc Hs]%andb_prop.
  rewrite filter_cons_False; [by apply IH|]. intros ->. by vm_compute in Hc.
Qed.

Section rendered.
Variable letter : bool → Z → bool.

Lemma tag_name n : tag_ok n = true → isName letter n = true ∧ forallb name_part (list_ascii_of_string n) = true ∧ split_name n = Some (EmptyString, n) ∧
  forallb (λ c, negb (at_byte c 58)) (list_ascii_of_string n) = true.
Proof.
  destruct n as [|c n]; [done|]. intros [Hall Hfirst]%andb_prop.
  assert (forallb (λ d, code d <? 128) (list_ascii_of_string (String c n)) = true) as Hasc
    by (revert Hall; apply forallb_imp; intros d [[? _]%andb_prop _]%andb_prop; done).
  assert (forallb (λ d, negb (at_byte d 58)) (list_ascii_of_string (String c n)) = true) as Hcol
    by (revert Hall; apply forallb_imp; intros d [_ ?]%andb_prop; done).
  split_and!; [| | |done].
  - unfold isName. rewrite runes_ascii by done. cbn [list_ascii_of_string map]. cbn in Hasc. apply andb_prop in Hasc as [Hc _].
    unfold name_first at 1. rewrite Hc. apply andb_true_intro. split; [destruct (between 65 _ 90), (between 97 _ 122), (code c =? 95); done|].
    cbn in Hall. apply andb_prop in Hall as [_ Hall]. revert Hall. clear. induction (list_ascii_of_string n) as [|d l IH]; [done|]. cbn.
    intros [[[Hd Hn]%andb_prop _]%andb_prop Hl]%andb_prop. rewrite IH by done. rewrite andb_true_r. unfold name_next, name_first. rewrite Hd.
    unfold isNameByte in Hn. revert Hn. destruct (between 65 _ 90), (between 97 _ 122), (between 48 _ 57), (code d =? 95), (code d =? 58), (code d =? 46), (code d =? 45); done.
  - revert Hall. apply forallb_imp. intros d [[_ Hd]%andb_prop _]%andb_prop. unfold name_part. by rewrite Hd, orb_true_r.
  - unfold split_name. rewrite no_colons by done.
    cbn [Nat.ltb Nat.leb]. by rewrite span_end.
Qed.

Lemma nsname_tag n c r : tag_ok n = true → name_part c = false → nsname letter (n ++ String c r) = Some (EmptyString, n, String c r).
Proof.
  intros (Hn & Hp & Hs & _)%tag_name Hc. unfold nsname, read_name. rewrite span_all by done. rewrite Hn, bool_decide_eq_false_2 by done. cbn.
  by rewrite Hs.
Qed.

Lemma attributes_none f r : attributes letter (S f) (String ">" r) = Some (false, r).
Proof. done. Qed.

Lemma tag_not_markup n : tag_ok n = true → ∃ c m, n = String c m ∧ at_byte c 47 = false ∧ at_byte c 63 = false ∧ at_byte c 33 = false.
Proof.
  destruct n as [|c m]; [done|]. intros [_ Hc]%andb_prop. exists c, m. split; [done|]. unfold at_byte, between, JsonString.between in *.
  split_and!; apply Z.eqb_neq; intros He; rewrite He in Hc; done.
Qed.

(** The tokens of the parts. *)
Lemma raw_start n r : tag_ok n = true → raw letter ("<" ++ n ++ String ">" r) = Some (RawStart (EmptyString, n) false, r).
Proof.
  intros Hn. pose proof (tag_not_markup n Hn) as (c & m & -> & H1 & H2 & H3). cbn [String.append raw]. change (negb (at_byte "<" 60)) with false. cbv iota.
  rewrite H1, H2, H3. change (String c (m ++ String ">" r)) with (String c m ++ String ">" r)%string. rewrite nsname_tag by done. cbn [mbind option_bind].
  by rewrite attributes_none.
Qed.

Lemma raw_end n r : tag_ok n = true → raw letter ("</" ++ n ++ String ">" r) = Some (RawEnd (EmptyString, n), r).
Proof.
  intros Hn. cbn [String.append raw]. change (negb (at_byte "<" 60)) with false. change (at_byte "/" 47) with true. cbv iota.
  rewrite nsname_tag by done. done.
Qed.

Lemma raw_cdata t r : plain_text true t = true → raw letter ("<![CDATA[" ++ t ++ "]]>" ++ r) = Some (RawText t, r).
Proof.
  intros Ht. change ("<![CDATA[" ++ t ++ "]]>" ++ r)%string with (String "<" (String "!" (String "[" ("CDATA[" ++ (t ++ "]]>" ++ r))))).
  cbn [raw]. change (negb (at_byte "<" 60)) with false. change (at_byte "!" 47) with false. change (at_byte "!" 63) with false. change (at_byte "!" 33) with true. cbv iota.
  unfold bang. change (at_byte "[" 45) with false. change (at_byte "[" 91) with true. cbv iota. rewrite HasPrefix_app, TrimPrefix_app, text_cdata by done. done.
Qed.

Lemma raw_bare t r : plain_text false t = true → t ≠ EmptyString → raw letter (t ++ String "<" r) = Some (RawText t, String "<" r).
Proof.
  intros Ht Hne. destruct t as [|c t]; [done|]. pose proof Ht as [[_ Hc]%andb_prop _]%andb_prop. cbn in Hc. apply andb_prop in Hc as [Hc _].
  unfold copied in Hc. apply andb_prop in Hc as [_ Hc]. cbn in Hc. apply negb_true_iff, orb_false_iff in Hc as [Hc _].
  cbn [String.append raw]. rewrite Hc. cbn [negb]. change (String c (t ++ String "<" r)) with (String c t ++ String "<" r)%string. by rewrite text_bare.
Qed.

Definition content_tokens (c : content) : list token := match c with Cdata t => [CharData t] | Bare EmptyString => [] | Bare t => [CharData t] end.
Definition element_tokens (e : string * content) : list token := StartElement e.1 :: content_tokens e.2 ++ [EndElement].
Definition elements_ok (l : list (string * content)) : bool := forallb (λ e, tag_ok e.1 && content_ok e.2) l.

(** The first token, known, and the rest. *)
#[local] Tactic Notation "token_by" uconstr(H) := rewrite (tokens_step _ _ _ _ _ _ (Nat.lt_succ_diag_r _) H); cbv beta iota zeta; cbn [fst snd].

Abbreviation toks stack s := (tokens letter (S (String.length s)) stack s).

Lemma tokens_content c stack r : content_ok c = true → toks stack (content_body c ++ String "<" r) = content_tokens c ++ toks stack (String "<" r).
Proof.
  intros Hc. destruct c as [t|t]; cbn [content_body content_ok content_tokens] in *.
  - rewrite !sapp_assoc. token_by (raw_cdata t _ Hc). done.
  - destruct (decide (t = EmptyString)) as [->|Hne]; [done|]. token_by (raw_bare t _ Hc Hne).
    cbv zeta. by destruct t.
Qed.

Lemma tokens_element e stack r : tag_ok e.1 = true → content_ok e.2 = true → toks stack (element e ++ r) = element_tokens e ++ toks stack r.
Proof.
  intros Hn Hc. destruct e as [n c]. unfold element, element_tokens. cbn [fst snd] in *.
  assert ((("<" ++ n ++ ">" ++ content_body c ++ "</" ++ n ++ ">") ++ r)%string = ("<" ++ n ++ String ">" (content_body c ++ String "<" (String "/" (n ++ String ">" r))))%string) as ->
    by (by rewrite !sapp_assoc).
  token_by (raw_start n _ Hn). rewrite tokens_content by done.
  change (String "<" (String "/" (n ++ String ">" r))) with ("</" ++ n ++ String ">" r)%string.
  token_by (raw_end n r Hn). rewrite bool_decide_eq_true_2 by done. cbn. by rewrite <-app_assoc.
Qed.

Lemma tokens_elements l stack r : elements_ok l = true → toks stack (elements l ++ r) = concat (map element_tokens l) ++ toks stack r.
Proof.
  induction l as [|e l IH]; [done|]. intros [[He Hc]%andb_prop Hl]%andb_prop. cbn [elements foldr map concat].
  rewrite sapp_assoc, tokens_element, <-app_assoc by done. f_equal. by apply IH.
Qed.

(** *** What a struct takes of them *)
Fixpoint store_elements {A} (fields : list (xml_field A)) (l : list (string * content)) (a : A) : option A :=
  match l with
  | [] => Some a
  | e :: l => match find_member fields e.1 with Some store => a ← store (content_text e.2) a; store_elements fields l a | None => store_elements fields l a end
  end.

Lemma read_content {A} (fields : list (xml_field A)) store t c l a :
  read_struct fields (content_tokens c ++ l) (Within store t) a = read_struct fields l (Within store (t ++ content_text c)) a.
Proof. by destruct c as [u|[|x u]]; cbn; rewrite ?sapp_nil_r. Qed.
Lemma skip_content {A} (fields : list (xml_field A)) d back c l a :
  read_struct fields (content_tokens c ++ l) (Skipping d back) a = read_struct fields l (Skipping d back) a.
Proof. by destruct c as [u|[|x u]], d. Qed.

Lemma read_elements {A} (fields : list (xml_field A)) l rest a :
  read_struct fields (concat (map element_tokens l) ++ rest) Among a = a ← store_elements fields l a; read_struct fields rest Among a.
Proof.
  revert a. induction l as [|[n c] l IH]; intros a; [done|]. cbn [map concat store_elements]. unfold element_tokens at 1. cbn [fst snd].
  rewrite <-app_assoc, <-app_comm_cons, <-app_assoc. cbn [read_struct]. destruct (find_member fields n) as [store|].
  - rewrite read_content. cbn [app read_struct]. destruct (store (EmptyString ++ content_text c)%string a) eqn:Hs; cbn in Hs; rewrite Hs; [apply IH|done].
  - rewrite skip_content. apply IH.
Qed.

(** A document of elements is read back: each of its texts is stored in the
    member of its name, in order, and elements without a member are passed over;
    whatever follows the document is not read. *)
Lemma unmarshal_render {A} root l (fields : list (xml_field A)) zero rest :
  tag_ok root = true → elements_ok l = true → UnmarshalXML letter root fields zero (render root l ++ rest) = store_elements fields l zero.
Proof.
  intros Hr Hl. unfold UnmarshalXML, document, render.
  assert ((("<" ++ root ++ ">" ++ elements l ++ "</" ++ root ++ ">") ++ rest)%string = ("<" ++ root ++ String ">" (elements l ++ ("</" ++ root ++ String ">" rest)))%string) as ->
    by (by rewrite !sapp_assoc).
  token_by (raw_start root _ Hr). cbn [read_root snd]. rewrite bool_decide_eq_true_2 by done.
  rewrite tokens_elements by done. rewrite read_elements. token_by (raw_end root rest Hr).
  rewrite bool_decide_eq_true_2 by done. cbn. by destruct (store_elements fields l zero).
Qed.
End rendered.

(** ** Texts that can be written *)

(** Printable ASCII without markup and brackets. *)
Definition bare_char (c : ascii) : bool := between 32 (code c) 127 && negb (at_byte c 60 || at_byte c 38 || at_byte c 93).

Lemma bare_plain cd t : forallb bare_char (list_ascii_of_string t) = true → plain_text cd t = true.
Proof.
  assert (∀ c, bare_char c = true → 32 ≤ code c ≤ 127 ∧ code c ≠ 60 ∧ code c ≠ 38 ∧ code c ≠ 93) as Hbare.
  { unfold bare_char, at_byte, between, JsonString.between. intros c Hc. lia. }
  intros Ht. unfold plain_text. apply andb_true_intro. split; [apply andb_true_intro; split|].
  - assert (∀ b0 b1, b1 ≠ 93 → no_close b0 b1 t = true) as Hn; [|by apply Hn]. induction t as [|c t IH]; intros b0 b1 Hb; [done|].
    cbn in Ht. apply andb_prop in Ht as [(_ & _ & _ & Hc)%Hbare Ht]. cbn. apply Z.eqb_neq in Hb. rewrite Hb, andb_false_r. by apply IH.
  - revert Ht. apply forallb_imp. intros c (Hc & H1 & H2 & _)%Hbare. unfold copied, at_byte. lia.
  - unfold xml_chars. rewrite runes_ascii; [|revert Ht; apply forallb_imp; intros c (Hc & _)%Hbare; lia].
    induction t as [|c t IH]; [done|]. cbn in *. apply andb_prop in Ht as [(Hc & _)%Hbare Ht]. rewrite IH by done.
    unfold in_character_range, between, JsonString.between. lia.
Qed.

(** The last byte of a text. *)
Lemma sapp_last c s : ∃ u d, String c s = (u ++ String d EmptyString)%string.
Proof.
  revert c. induction s as [|b s IH]; intros c; [by exists EmptyString, c|]. destruct (IH b) as (u & d & ->). by exists (String c u), d.
Qed.

Lemma TrimSpace_solid s : forallb solid (list_ascii_of_string s) = true → TrimSpace s = s.
Proof.
  destruct s as [|c s]; [done|]. intros Hs. destruct (sapp_last c s) as (u & d & Hu).
  pose proof Hs as Hd. rewrite Hu, forallb_chars in Hd. cbn in Hs, Hd. apply andb_prop in Hs as [Hc _]. apply andb_prop in Hd as [_ Hd]. rewrite andb_true_r in Hd.
  pose proof (TrimSpace_frame EmptyString EmptyString c (String c s) d eq_refl eq_refl Hc Hd) as Ht. rewrite sapp_nil_r in Ht. apply Ht. eauto.
Qed.

Definition number_char (c : ascii) : bool := is_digit c || at_byte c 45.

Lemma FormatInt_chars z : forallb number_char (list_ascii_of_string (FormatInt z)) = true ∧ FormatInt z ≠ EmptyString.
Proof.
  assert (∀ s, all_digits s = true → forallb number_char (list_ascii_of_string s) = true) as Hall.
  { induction s as [|c s IH]; [done|]. cbn. intros [Hc Hs]%andb_prop. unfold number_char at 1. by rewrite Hc, IH. }
  destruct (FormatInt_cases z) as [(x & _ & ->)|(x & _ & _ & ->)]; destruct (pretty_N_shape x) as (c & t & -> & Hc & Ht & _).
  - split; [|done]. apply Hall. cbn. by rewrite Hc, Ht.
  - split; [|done]. cbn [list_ascii_of_string forallb]. change (number_char "-") with true. apply (Hall (String c t)). cbn. by rewrite Hc, Ht.
Qed.

Lemma number_char_spec c : number_char c = true → bare_char c = true ∧ solid c = true.
Proof. destruct c as [[] [] [] [] [] [] [] []]; try done. Qed.

Lemma FormatInt_plain cd z : plain_text cd (FormatInt z) = true.
Proof. apply bare_plain. generalize (proj1 (FormatInt_chars z)). apply forallb_imp. intros c. apply number_char_spec. Qed.

(** The text of an int64 is stored as it. *)
Lemma store_xml_int64 {A} name (set : Z → A → A) z a : in_int64 z → (int64_member name set).2 (FormatInt z) a = Some (set z a).
Proof.
  intros Hz. destruct (FormatInt_chars z) as [Hc Hne]. cbn. rewrite bool_decide_eq_false_2, TrimSpace_solid, ParseInt_FormatInt by
    (try done; revert Hc; apply forallb_imp; intros c; apply number_char_spec). done.
Qed.

(** ** Documents, by evaluation *)
Definition no_letter (_ : bool) (_ : Z) : bool := false.
Definition demo_fields : list (xml_field (string * Z)) := [string_member "A" (λ v p, (v, p.2)); int64_member "N" (λ v p, (p.1, v))].
Definition demo_read (s : string) : option (string * Z) := UnmarshalXML no_letter "xml" demo_fields (EmptyString, 5) s.

(** The last element of a name decides; an element without a member is passed
    over with what it holds, one inside a member's too; an empty number is zero. *)
Example xml_read :
  map demo_read
    ["<?xml version='1.0' encoding='UTF-8'?><!-- c --><!DOCTYPE x [<!ENTITY a 'b>'>]> <xml a='1' b:c = '&lt;'><B><A>no</A></B><A>p<i>q</i>r&#65;&amp;<![CDATA[<&]]x]]]></A><N/></xml> trailing <";
     "<xml><N> 12 </N><A>1</A><A>2</A></xml>"; "<a:xml xmlns:a='u'><a:A>1</a:A></a:xml>"; "<xml/>"; "<xml><A>&#xD800;</A></xml>"]%string =
  [Some ("prA&<&]]x]"%string, 0); Some ("2"%string, 12); Some ("1"%string, 5); Some (EmptyString, 5); Some (encode_rune rune_error, 5)].
Proof. vm_compute. reflexivity. Qed.

Example xml_refused :
  map demo_read
    ["<xml><A>x</B></xml>"; "<yml/>"; "<xml><N>1x</N></xml>"; "<xml>]]></xml>"; "<xml><A>&nbsp;</A></xml>"; "<a:xml><A>1</A></b:xml>"; "<xml><A>1</A>";
     "<xml a></xml>"; "<xml><!-- -- --></xml>"; "<xml><N>9223372036854775808</N></xml>"; "<?xml version='1.1'?><xml/>"; "<xml><A>&#0;</A></xml>"; ""]%string =
  replicate 13 None.
Proof. vm_compute. reflexivity. Qed.
