(* ===== verification/Bus.v ===== *)
(** * Message bus: internal/bus

    - [Message], its validation, its JSON encoding and [ParseMessage];
    - [FakeTransport], the in-memory transport: named queues and topic
      subscriptions, each a Go channel of capacity 100 that drops what does not
      fit ([try_send] is a [select] with a [default] case);
    - [RedisTransport], over a Redis server given as an interface.

    Each method holds its mutex for its whole effect, so a call is one step. *)
From Stdlib Require Import String Ascii.
From S2P Require Export JsonDecode.
From stdpp Require Import list.

Local Open Scope Z_scope.

(** ** Buffered channels *)
Record chan (A : Type) := Chan { ch_buf : list A; ch_cap : nat; ch_closed : bool }.
Arguments Chan {A} _ _ _.
Arguments ch_buf {A} _.
Arguments ch_cap {A} _.
Arguments ch_closed {A} _.

Definition make_chan {A} (cap : nat) : chan A := Chan [] cap false.

(** [select { case c <- x: default: }]. *)
Definition try_send {A} (x : A) (c : chan A) : chan A :=
  if bool_decide (length (ch_buf c) < ch_cap c)%nat then Chan (ch_buf c ++ [x]) (ch_cap c) (ch_closed c) else c.

(** A receive that finds a value. *)
Definition recv {A} (c : chan A) : option (A * chan A) :=
  match ch_buf c with [] => None | x :: b => Some (x, Chan b (ch_cap c) (ch_closed c)) end.

Definition close_chan {A} (c : chan A) : chan A := Chan (ch_buf c) (ch_cap c) true.

(** ** Messages *)
Record Message := {
  MessageID : string;
  ParentTaskID : string;
  SenderID : string;
  ReceiverID : string;
  TargetAgent : string;
  Payload : string;
  Timestamp : Z
}.

Definition zero_message : Message :=
  {| MessageID := ""; ParentTaskID := ""; SenderID := ""; ReceiverID := ""; TargetAgent := "";
     Payload := ""; Timestamp := 0 |}.

Definition Validate (m : Message) : option error :=
  if bool_decide (MessageID m = "") then Some (new_error "message_id is required")
  else if bool_decide (SenderID m = "") then Some (new_error "sender_id is required")
  else if bool_decide (ReceiverID m = "") then Some (new_error "receiver_id is required")
  else if Timestamp m <=? 0 then Some (new_error "timestamp must be positive")
  else if bool_decide (Payload m = "") then Some (new_error "payload is required")
  else if negb (Valid (Payload m)) then Some (new_error "payload must be valid json")
  else None.

Definition set_MessageID (v : string) (m : Message) : Message :=
  {| MessageID := v; ParentTaskID := ParentTaskID m; SenderID := SenderID m; ReceiverID := ReceiverID m;
     TargetAgent := TargetAgent m; Payload := Payload m; Timestamp := Timestamp m |}.
Definition set_ParentTaskID (v : string) (m : Message) : Message :=
  {| MessageID := MessageID m; ParentTaskID := v; SenderID := SenderID m; ReceiverID := ReceiverID m;
     TargetAgent := TargetAgent m; Payload := Payload m; Timestamp := Timestamp m |}.
Definition set_SenderID (v : string) (m : Message) : Message :=
  {| MessageID := MessageID m; ParentTaskID := ParentTaskID m; SenderID := v; ReceiverID := ReceiverID m;
     TargetAgent := TargetAgent m; Payload := Payload m; Timestamp := Timestamp m |}.
Definition set_ReceiverID (v : string) (m : Message) : Message :=
  {| MessageID := MessageID m; ParentTaskID := ParentTaskID m; SenderID := SenderID m; ReceiverID := v;
     TargetAgent := TargetAgent m; Payload := Payload m; Timestamp := Timestamp m |}.
Definition set_TargetAgent (v : string) (m : Message) : Message :=
  {| MessageID := MessageID m; ParentTaskID := ParentTaskID m; SenderID := SenderID m; ReceiverID := ReceiverID m;
     TargetAgent := v; Payload := Payload m; Timestamp := Timestamp m |}.
Definition set_Payload (v : string) (m : Message) : Message :=
  {| MessageID := MessageID m; ParentTaskID := ParentTaskID m; SenderID := SenderID m; ReceiverID := ReceiverID m;
     TargetAgent := TargetAgent m; Payload := v; Timestamp := Timestamp m |}.
Definition set_Timestamp (v : Z) (m : Message) : Message :=
  {| MessageID := MessageID m; ParentTaskID := ParentTaskID m; SenderID := SenderID m; ReceiverID := ReceiverID m;
     TargetAgent := TargetAgent m; Payload := Payload m; Timestamp := v |}.

(** The struct tags. *)
Definition message_fields : list (field Message) :=
  [ string_field "message_id" set_MessageID;
    string_field "parent_task_id" set_ParentTaskID;
    string_field "sender_id" set_SenderID;
    string_field "receiver_id" set_ReceiverID;
    string_field "target_agent" set_TargetAgent;
    raw_field "payload" set_Payload;
    int64_field "timestamp" set_Timestamp ].

(** Members of a struct with [omitempty] on some string fields. *)
Definition omitempty (name s : string) : list (string * json) :=
  if bool_decide (s = EmptyString) then [] else [(name, jstring s)].

(** [json.Marshal(msg)]; [None] is the encoder's error, for a payload that is
    not JSON. *)
Definition message_json (m : Message) : option json :=
  p ← raw_json (Payload m);
  Some (JObj ([("message_id", jstring (MessageID m))] ++ omitempty "parent_task_id" (ParentTaskID m) ++
    [("sender_id", jstring (SenderID m)); ("receiver_id", jstring (ReceiverID m))] ++
    omitempty "target_agent" (TargetAgent m) ++
    [("payload", p); ("timestamp", jint (Timestamp m))])).

Definition MarshalMessage (m : Message) : result string :=
  match message_json m with
  | Some v => Ok (print v)
  | None => Fail (new_error "json: error calling MarshalJSON for type json.RawMessage")
  end.

Definition err_eof : error := new_error "EOF".

(** [ParseMessage]: one strict [Decode], validation, then the check that
    nothing but white space follows (a second [Decode] returns [io.EOF]). *)
Definition ParseMessage (data : string) : result Message :=
  if bool_decide (skip_ws data = EmptyString) then Fail err_eof else
  match parse_value (parse_fuel data) 0 data with
  | None => Fail (new_error "invalid json")
  | Some (v, rest) =>
    msg ← match v with
          | JObj _ =>
            match object_fields data with
            | Some (ms, _) => store_members true message_fields ms zero_message
            | None => Fail (new_error "invalid json")
            end
          | JNull => Ok zero_message
          | _ => Fail (type_error "bus.Message")
          end;
    match Validate msg with
    | Some e => Fail e
    | None =>
      if bool_decide (skip_ws rest = EmptyString) then Ok msg else Fail (new_error "trailing json data")
    end
  end.

Definition sample_message : Message :=
  {| MessageID := "m-1"; ParentTaskID := ""; SenderID := "orchestrator"; ReceiverID := "queue";
     TargetAgent := "coder"; Payload := jtext " {'k' : '<a>'} "; Timestamp := 1700000000 |}.

Example marshal_sample :
  MarshalMessage sample_message =
  Ok (jtext "{'message_id':'m-1','sender_id':'orchestrator','receiver_id':'queue','target_agent':'coder','payload':{'k':'\u003ca\u003e'},'timestamp':1700000000}").
Proof. vm_compute. reflexivity. Qed.

Example parse_message_rejects :
  map (λ s, is_ok (ParseMessage (jtext s)))
    ["{'Message_ID':'a','sender_id':'b','receiver_id':'c','payload':1,'timestamp':5}";
     "{'message_id':'a','sender_id':'b','receiver_id':'c','payload':1,'timestamp':5} x";
     "{'message_id':'a','sender_id':'b','receiver_id':'c','payload':1,'timestamp':5,'z':0}";
     "{'message_id':'a','sender_id':'b','receiver_id':'c','payload':1,'timestamp':5.0}"; "null"; " "]%string
  = [true; false; false; false; false; false].
Proof. vm_compute. reflexivity. Qed.

(** *** Round trip *)

(** What a valid message carries over the wire: strings of valid UTF-8 (any
    others are altered by the encoder), an int64 time stamp, a payload whose
    nesting leaves room for the enclosing object. *)
Record wire_ok (m : Message) : Prop := {
  wire_id : valid_utf8 (MessageID m) = true;
  wire_parent : valid_utf8 (ParentTaskID m) = true;
  wire_sender : valid_utf8 (SenderID m) = true;
  wire_receiver : valid_utf8 (ReceiverID m) = true;
  wire_target : valid_utf8 (TargetAgent m) = true;
  wire_time : in_int64 (Timestamp m);
  wire_payload : ∃ p, parse (Payload m) = Some p ∧ json_ok 1 p = true
}.

(** The payload as it arrives: compact and HTML-escaped. *)
Definition wire_normal (m : Message) : Message :=
  match raw_json (Payload m) with Some p => set_Payload (print p) m | None => m end.

Lemma Validate_spec m :
  Validate m = None ↔
  MessageID m ≠ "" ∧ SenderID m ≠ "" ∧ ReceiverID m ≠ "" ∧ 0 < Timestamp m ∧ Valid (Payload m) = true.
Proof.
  unfold Validate. repeat case_bool_decide; try naive_solver.
  - destruct (Timestamp m <=? 0) eqn:?; [naive_solver lia|]. split; [done|]. intros (_ & _ & _ & _ & Hv).
    by rewrite H2 in Hv.
  - destruct (Timestamp m <=? 0) eqn:?; [naive_solver lia|].
    destruct (Valid (Payload m)); naive_solver lia.
Qed.

Lemma Valid_print v : json_ok 0 v = true → Valid (print v) = true.
Proof. intros H. unfold Valid. rewrite parse_print by done. by apply bool_decide_eq_true_2. Qed.

Lemma Valid_parse s : Valid s = true ↔ ∃ v, parse s = Some v.
Proof. unfold Valid. rewrite bool_decide_eq_true. done. Qed.

Lemma store_omitempty (fs : list (field Message)) name (set : string → Message → Message) s l a :
  valid_utf8 s = true → find_field fs (unquote name) = Some (string_field name set) → set EmptyString a = a →
  store_members true fs (map field_text (omitempty name s ++ l)) a =
  store_members true fs (map field_text l) (set s a).
Proof.
  intros Hs Hf Ha. unfold omitempty. case_bool_decide as He.
  - rewrite He, Ha. done.
  - cbn [app]. by rewrite (store_string true fs name set).
Qed.

Lemma members_ok_omitempty d name s : token_str name = true → members_ok d (omitempty name s) = true.
Proof.
  intros H. unfold omitempty. case_bool_decide; [done|]. by rewrite members_ok_string.
Qed.

Lemma message_json_ok m p :
  raw_json (Payload m) = Some p → json_ok 1 p = true →
  ∃ ms, message_json m = Some (JObj ms) ∧ json_ok 0 (JObj ms) = true ∧
    (wire_ok m → store_members true message_fields (map field_text ms) zero_message = Ok (set_Payload (print p) m)).
Proof.
  intros Hp Hok. unfold message_json. rewrite Hp. cbn [mbind option_bind]. eexists. split; [done|]. split.
  - change (members_ok 1 ([("message_id"%string, jstring (MessageID m))] ++ omitempty "parent_task_id" (ParentTaskID m) ++
      [("sender_id"%string, jstring (SenderID m)); ("receiver_id"%string, jstring (ReceiverID m))] ++
      omitempty "target_agent" (TargetAgent m) ++
      [("payload"%string, p); ("timestamp"%string, jint (Timestamp m))]) = true).
    rewrite !members_ok_app, !members_ok_omitempty by done.
    rewrite !members_ok_string, members_ok_value, members_ok_int by done. done.
  - intros [H1 H2 H3 H4 H5 H6 _]. cbn [app].
    rewrite (store_string _ _ _ set_MessageID), (store_omitempty _ _ set_ParentTaskID),
      (store_string _ _ _ set_SenderID), (store_string _ _ _ set_ReceiverID),
      (store_omitempty _ _ set_TargetAgent), (store_raw _ _ _ set_Payload), (store_int64 _ _ _ set_Timestamp)
      by done.
    by destruct m.
Qed.

Lemma raw_json_payload m p :
  parse (Payload m) = Some p → json_ok 1 p = true →
  ∃ q, raw_json (Payload m) = Some q ∧ json_ok 1 q = true ∧ wire_normal m = set_Payload (print q) m.
Proof.
  intros Hp Hok. exists (escape_json p).
  assert (raw_json (Payload m) = Some (escape_json p)) as Hr.
  { unfold raw_json. rewrite Hp. by destruct (Payload m). }
  unfold wire_normal. rewrite Hr. auto using json_ok_escape.
Qed.

Lemma Validate_set_payload m q :
  Validate m = None → json_ok 0 q = true → Validate (set_Payload (print q) m) = None.
Proof. rewrite !Validate_spec. intros (? & ? & ? & ? & _) Hq. split_and!; try done. by apply Valid_print. Qed.

Lemma ParseMessage_print ms m :
  json_ok 0 (JObj ms) = true → Validate m = None →
  store_members true message_fields (map field_text ms) zero_message = Ok m →
  ParseMessage (print (JObj ms)) = Ok m.
Proof.
  intros Hok Hval Hst. unfold ParseMessage. rewrite bool_decide_eq_false_2.
  2:{ destruct (print_head (JObj ms) 0 Hok) as (c & s & -> & Hc & _). by rewrite skip_ws_nows. }
  pose proof (parse_value_print_default (JObj ms) 0 EmptyString Hok I) as Hp. rewrite sapp_nil_r in Hp.
  pose proof (object_fields_print ms EmptyString Hok) as Ho. rewrite sapp_nil_r in Ho.
  rewrite Hp, Ho, Hst. cbn [mbind result_bind]. by rewrite Hval.
Qed.

Lemma marshal_parse m :
  Validate m = None → wire_ok m →
  ∃ data, MarshalMessage m = Ok data ∧ ParseMessage data = Ok (wire_normal m) ∧ Validate (wire_normal m) = None.
Proof.
  intros Hval Hw. destruct (wire_payload m Hw) as (p & Hp & Hok).
  destruct (raw_json_payload m p Hp Hok) as (q & Hq & Hok1 & ->).
  destruct (message_json_ok m q Hq Hok1) as (ms & Hms & Hok0 & Hst).
  assert (Validate (set_Payload (print q) m) = None) as Hv.
  { apply Validate_set_payload; [done|]. by apply (json_ok_depth q 1). }
  exists (print (JObj ms)). split; [|split; [|done]].
  - unfold MarshalMessage. by rewrite Hms.
  - apply ParseMessage_print; auto.
Qed.

(** C31: A valid message whose texts are UTF-8, whose time is a 64-bit integer and
    whose payload is nested no deeper than the decoder goes is, encoded by a
    transport, read back by ParseMessage with every field unchanged, the
    payload in its compact escaped form; the message read back is valid again. *)
Theorem message_roundtrip m :
  Validate m = None → wire_ok m →
  ∃ data, MarshalMessage m = Ok data ∧ ParseMessage data = Ok (wire_normal m) ∧ Validate (wire_normal m) = None.
Proof. apply marshal_parse. Qed.

Lemma sample_message_wire_ok : wire_ok sample_message.
Proof.
  split; try (by vm_compute). eexists. split; vm_compute; reflexivity.
Qed.

Lemma message_roundtrip_witness :
  ∃ data, MarshalMessage sample_message = Ok data ∧ ParseMessage data = Ok (wire_normal sample_message) ∧
    Validate (wire_normal sample_message) = None.
Proof. apply (message_roundtrip sample_message); [vm_compute; reflexivity|exact sample_message_wire_ok]. Defined.

Lemma store_members_known {A} (fs : list (field A)) ms a b :
  store_members true fs ms a = Ok b → Forall (λ f, is_Some (find_field fs f.1)) ms.
Proof.
  revert a. induction ms as [|m ms IH]; intros a; [constructor|]. cbn.
  destruct (store_member true fs m a) as [a'|e] eqn:Hm; [|done]. cbn. intros H. constructor; [|by eapply IH].
  unfold store_member in Hm. by destruct (find_field fs m.1).
Qed.

(** Whatever ParseMessage accepts is a valid message, read from exactly one
    JSON object with no member outside the struct and only white space around
    it; it never accepts a text that is not valid JSON. *)
Theorem parse_message_sound data m :
  ParseMessage data = Ok m →
  Validate m = None ∧ Valid data = true ∧
  ∃ ms rest, object_fields data = Some (ms, rest) ∧
    store_members true message_fields ms zero_message = Ok m ∧
    Forall (λ f, is_Some (find_field message_fields f.1)) ms.
Proof.
  unfold ParseMessage. case_bool_decide; [done|].
  destruct (parse_value (parse_fuel data) 0 data) as [[v rest]|] eqn:Hp; [|done].
  assert (skip_ws rest = "" → Valid data = true) as Hvalid.
  { intros Hr. apply Valid_parse. exists v. unfold parse. rewrite Hp. cbn. by rewrite Hr. }
  intros Hm. destruct v as [| | | | |ms0]; try done.
  destruct (object_fields data) as [[ms rest']|] eqn:Ho; [|done].
  destruct (store_members true message_fields ms zero_message) as [m'|] eqn:Hst; [|done]. cbn in Hm.
  destruct (Validate m') eqn:Hv; [done|]. case_bool_decide; [|done]. simplify_eq.
  split_and!; [done|auto|]. exists ms, rest'. split_and!; [done..|]. by eapply store_members_known.
Qed.

Lemma parse_message_sound_witness :
  ∃ data, Validate (wire_normal sample_message) = None ∧ Valid data = true ∧
  ∃ ms rest, object_fields data = Some (ms, rest) ∧
    store_members true message_fields ms zero_message = Ok (wire_normal sample_message) ∧
    Forall (λ f, is_Some (find_field message_fields f.1)) ms.
Proof.
  exists (jtext "{'message_id':'m-1','sender_id':'orchestrator','receiver_id':'queue','target_agent':'coder','payload':{'k':'\u003ca\u003e'},'timestamp':1700000000}").
  apply parse_message_sound. vm_compute. reflexivity.
Defined.

(** ** FakeTransport

    [chans] holds the subscription channels by subscription id: a channel
    outlives its entry in [subscribers], since its reader still holds it. *)
Record FakeTransport := {
  queues : gmap string (chan Message);
  subscribers : gmap nat string;
  sub_chans : gmap nat (chan Message);
  nextSubID : nat
}.

Definition NewFakeTransport : FakeTransport :=
  {| queues := ∅; subscribers := ∅; sub_chans := ∅; nextSubID := 0 |}.

Definition fake_capacity : nat := 100.

Definition with_queues (qs : gmap string (chan Message)) (f : FakeTransport) : FakeTransport :=
  {| queues := qs; subscribers := subscribers f; sub_chans := sub_chans f; nextSubID := nextSubID f |}.
Definition with_chans (cs : gmap nat (chan Message)) (f : FakeTransport) : FakeTransport :=
  {| queues := queues f; subscribers := subscribers f; sub_chans := cs; nextSubID := nextSubID f |}.

(** The channel of a queue, made on first use. *)
Definition getQueue (queue : string) (f : FakeTransport) : chan Message * FakeTransport :=
  match queues f !! queue with
  | Some ch => (ch, f)
  | None => let ch := make_chan fake_capacity in (ch, with_queues (<[queue := ch]> (queues f)) f)
  end.

Definition Enqueue (c : ctx) (queue : string) (msg : Message) (f : FakeTransport) : option error * FakeTransport :=
  match c with
  | Some e => (Some e, f)
  | None =>
    match Validate msg with
    | Some e => (Some e, f)
    | None => let '(ch, f) := getQueue queue f in
              (None, with_queues (<[queue := try_send msg ch]> (queues f)) f)
    end
  end.

Definition matchTopic (pattern topic : string) : bool :=
  if HasSuffix pattern "*" then HasPrefix topic (TrimSuffix pattern "*") else bool_decide (pattern = topic).

(** The goroutine of [Dequeue]: it takes a message from the queue, then hands
    it to the channel it returned; cancellation closes that channel. *)
Record dequeuer := Dequeuer { dq_queue : string; dq_held : option Message; dq_out : chan Message; dq_done : bool }.

Definition Dequeue (queue : string) (f : FakeTransport) : dequeuer * FakeTransport :=
  (Dequeuer queue None (make_chan fake_capacity) false, (getQueue queue f).2).

Definition dq_take (d : dequeuer) (f : FakeTransport) : option (dequeuer * FakeTransport) :=
  if dq_done d then None else
  match dq_held d with
  | Some _ => None
  | None =>
    ch ← queues f !! dq_queue d;
    '(msg, ch') ← recv ch;
    Some (Dequeuer (dq_queue d) (Some msg) (dq_out d) false, with_queues (<[dq_queue d := ch']> (queues f)) f)
  end.

Definition dq_put (d : dequeuer) : option dequeuer :=
  if dq_done d then None else
  msg ← dq_held d;
  if bool_decide (length (ch_buf (dq_out d)) < ch_cap (dq_out d))%nat
  then Some (Dequeuer (dq_queue d) None (try_send msg (dq_out d)) false) else None.

Definition dq_cancel (d : dequeuer) : option dequeuer :=
  if dq_done d then None else Some (Dequeuer (dq_queue d) None (close_chan (dq_out d)) true).

Definition dq_receive (d : dequeuer) : option (Message * dequeuer) :=
  '(msg, out) ← recv (dq_out d); Some (msg, Dequeuer (dq_queue d) (dq_held d) out (dq_done d)).

(** [Subscribe] and the goroutine that ends the subscription. *)
Definition Subscribe (topic : string) (f : FakeTransport) : nat * FakeTransport :=
  let id := nextSubID f in
  (id, {| queues := queues f; subscribers := <[id := topic]> (subscribers f);
          sub_chans := <[id := make_chan fake_capacity]> (sub_chans f); nextSubID := S id |}).

Definition unsubscribe (id : nat) (f : FakeTransport) : FakeTransport :=
  match subscribers f !! id with
  | Some _ => {| queues := queues f; subscribers := delete id (subscribers f);
                 sub_chans := alter close_chan id (sub_chans f); nextSubID := nextSubID f |}
  | None => f
  end.

Definition Consume (topic : string) (f : FakeTransport) : nat * FakeTransport := Subscribe topic f.
Definition SubscriberCount (f : FakeTransport) : nat := size (subscribers f).

(** [Publish] visits the subscribers in an unspecified order. *)
Section publish.
Context (order : list nat → list nat).

Definition publish_one (topic : string) (msg : Message) (subs : gmap nat string)
    (chans : gmap nat (chan Message)) (id : nat) : gmap nat (chan Message) :=
  match subs !! id with
  | Some pattern => if matchTopic pattern topic then alter (try_send msg) id chans else chans
  | None => chans
  end.

Definition Publish (c : ctx) (topic : string) (msg : Message) (f : FakeTransport) : option error * FakeTransport :=
  match c with
  | Some e => (Some e, f)
  | None =>
    match Validate msg with
    | Some e => (Some e, f)
    | None =>
      let ids := order (elements (dom (subscribers f))) in
      (None, with_chans (foldl (publish_one topic msg (subscribers f)) (sub_chans f) ids) f)
    end
  end.
End publish.

(** *** Topics and delivery *)

(** A pattern ending in [*] matches the topics that extend it; any other
    pattern matches itself only. *)
Theorem match_topic_spec pattern topic :
  matchTopic pattern topic = true ↔
  pattern = topic ∨ ∃ prefix rest, pattern = (prefix ++ "*")%string ∧ topic = (prefix ++ rest)%string.
Proof.
  unfold matchTopic. destruct (HasSuffix pattern "*") eqn:Hs.
  - apply HasSuffix_spec in Hs as [t ->]. rewrite TrimSuffix_app, HasPrefix_spec. split.
    + intros [r ->]. right. eauto.
    + intros [<-|(p & r & Hp & ->)]; [by exists "*"%string|].
      assert (t = p) as ->; [|by exists r].
      apply (f_equal (λ s, TrimSuffix s "*")) in Hp. by rewrite !TrimSuffix_app in Hp.
  - rewrite bool_decide_eq_true. split; [by left|]. intros [H|(p & r & -> & ->)]; [done|].
    assert (HasSuffix (p ++ "*")%string "*" = true); [|congruence]. apply HasSuffix_spec. by exists p.
Qed.

Lemma publish_loop_lookup topic msg subs ids chans i :
  NoDup ids →
  foldl (publish_one topic msg subs) chans ids !! i =
  (if decide (i ∈ ids)
   then (λ ch, match subs !! i with
               | Some p => if matchTopic p topic then try_send msg ch else ch
               | None => ch
               end) <$> chans !! i
   else chans !! i).
Proof.
  revert chans. induction ids as [|j ids IH]; intros chans Hnd; [done|].
  apply NoDup_cons in Hnd as [Hj Hnd]. cbn [foldl]. rewrite IH by done.
  assert (publish_one topic msg subs chans j !! i =
    (if decide (i = j) then (λ ch, match subs !! i with
       | Some p => if matchTopic p topic then try_send msg ch else ch | None => ch end) <$> chans !! i
     else chans !! i)) as ->.
  { unfold publish_one. destruct (decide (i = j)) as [<-|Hij].
    - destruct (subs !! i) as [p|]; [|by destruct (chans !! i)].
      destruct (matchTopic p topic); [by rewrite lookup_alter_eq|by destruct (chans !! i)].
    - destruct (subs !! j) as [p|]; [|done]. destruct (matchTopic p topic); [|done]. by rewrite lookup_alter_ne by congruence. }
  destruct (decide (i ∈ ids)) as [Hi|Hi].
  - rewrite (decide_True _ _ (proj2 (elem_of_cons ids i j) (or_intror Hi))).
    rewrite decide_False; [done|]. by intros ->.
  - destruct (decide (i = j)) as [<-|Hij].
    + by rewrite decide_True by (by left).
    + rewrite decide_False; [done|]. intros [?|?]%elem_of_cons; done.
Qed.

(** Does a live subscription receive a topic? *)
Definition listens (f : FakeTransport) (topic : string) (id : nat) : bool :=
  match subscribers f !! id with Some p => matchTopic p topic | None => false end.

(** Publish appends a valid message to the channel of every live subscription
    whose pattern matches and that has room, whatever the iteration order; all
    other channels, the queues and the subscriptions are untouched.  With a
    cancelled context or an invalid message it changes nothing. *)
Theorem publish_delivers order c topic msg f :
  (∀ l, order l ≡ₚ l) →
  let '(err, f') := Publish order c topic msg f in
  err = match c with Some e => Some e | None => Validate msg end ∧
  queues f' = queues f ∧ subscribers f' = subscribers f ∧ nextSubID f' = nextSubID f ∧
  ∀ id, sub_chans f' !! id =
    (if bool_decide (err = None) && listens f topic id
     then try_send msg <$> sub_chans f !! id else sub_chans f !! id).
Proof.
  intros Hord. unfold Publish. destruct c as [e|]; [done|]. destruct (Validate msg) as [e|]; [done|].
  split_and!; try done. intros id. cbn [sub_chans with_chans]. unfold listens.
  rewrite publish_loop_lookup by (rewrite Hord; apply NoDup_elements).
  destruct (subscribers f !! id) as [p|] eqn:Hp; cbn.
  - rewrite decide_True by (rewrite Hord; apply elem_of_elements, elem_of_dom; eauto).
    destruct (matchTopic p topic); [done|]. by destruct (sub_chans f !! id).
  - rewrite decide_False; [done|]. rewrite Hord, elem_of_elements, elem_of_dom, Hp. by intros [].
Qed.

Definition sub_two : FakeTransport := (Subscribe "stream.*" (Subscribe "stream.7" NewFakeTransport).2).2.

Lemma publish_delivers_witness :
  let '(err, f') := Publish (λ l, l) background "stream.7" sample_message sub_two in
  err = match background with Some e => Some e | None => Validate sample_message end ∧
  queues f' = queues sub_two ∧ subscribers f' = subscribers sub_two ∧ nextSubID f' = nextSubID sub_two ∧
  ∀ id, sub_chans f' !! id =
    (if bool_decide (err = None) && listens sub_two "stream.7" id
     then try_send sample_message <$> sub_chans sub_two !! id else sub_chans sub_two !! id).
Proof. apply (publish_delivers (λ l, l) background "stream.7" sample_message sub_two). done. Defined.

(** ** A queue and its consumer

    One queue of the transport with the goroutine of one [Dequeue] call, any
    producers, and the history of what was accepted and received. *)
Record qsys := QSys {
  q_bus : FakeTransport;
  q_deq : dequeuer;
  q_sent : list Message;        (* messages Enqueue put into the queue *)
  q_received : list Message     (* messages read from the returned channel *)
}.

Definition queue_buf (f : FakeTransport) (queue : string) : list Message :=
  match queues f !! queue with Some ch => ch_buf ch | None => [] end.

(** Does [Enqueue] store the message?  It reports success also when it drops it. *)
Definition stored (c : ctx) (queue : string) (msg : Message) (f : FakeTransport) : bool :=
  bool_decide (c = None) && bool_decide (Validate msg = None) &&
  bool_decide (length (queue_buf f queue) < fake_capacity)%nat.

Inductive qstep : qsys → qsys → Prop :=
| q_enqueue s c queue msg :
  qstep s (QSys (Enqueue c queue msg (q_bus s)).2 (q_deq s)
             (if bool_decide (queue = dq_queue (q_deq s)) && stored c queue msg (q_bus s)
              then q_sent s ++ [msg] else q_sent s) (q_received s))
| q_take s d f : dq_take (q_deq s) (q_bus s) = Some (d, f) → qstep s (QSys f d (q_sent s) (q_received s))
| q_put s d : dq_put (q_deq s) = Some d → qstep s (QSys (q_bus s) d (q_sent s) (q_received s))
| q_recv s msg d : dq_receive (q_deq s) = Some (msg, d) →
  qstep s (QSys (q_bus s) d (q_sent s) (q_received s ++ [msg]))
| q_cancel s d : dq_cancel (q_deq s) = Some d → qstep s (QSys (q_bus s) d (q_sent s) (q_received s)).

Definition q_start (queue : string) (f : FakeTransport) : qsys :=
  let '(d, f') := Dequeue queue f in QSys f' d [] [].

Definition held_list (o : option Message) : list Message := match o with Some m => [m] | None => [] end.

(** What is between the producer and the consumer, oldest first. *)
Definition in_flight (s : qsys) : list Message :=
  ch_buf (dq_out (q_deq s)) ++ held_list (dq_held (q_deq s)) ++ queue_buf (q_bus s) (dq_queue (q_deq s)).

Definition caps_ok (s : qsys) : Prop :=
  (∃ ch, queues (q_bus s) !! dq_queue (q_deq s) = Some ch ∧ ch_cap ch = fake_capacity) ∧
  ch_cap (dq_out (q_deq s)) = fake_capacity ∧
  (length (queue_buf (q_bus s) (dq_queue (q_deq s))) ≤ fake_capacity)%nat ∧
  (length (ch_buf (dq_out (q_deq s))) ≤ fake_capacity)%nat.

(** Before cancellation nothing is lost, duplicated or reordered; afterwards
    only the message the goroutine was holding can be missing. *)
Definition conserved (s : qsys) : Prop :=
  if dq_done (q_deq s)
  then dq_held (q_deq s) = None ∧ ∃ lost, (length lost ≤ 1)%nat ∧
       q_sent s = q_received s ++ ch_buf (dq_out (q_deq s)) ++ lost ++ queue_buf (q_bus s) (dq_queue (q_deq s))
  else q_sent s = q_received s ++ in_flight s.

Lemma Enqueue_other c queue msg f q : q ≠ queue → queues (Enqueue c queue msg f).2 !! q = queues f !! q.
Proof.
  intros Hq. unfold Enqueue, getQueue. destruct c; [done|]. destruct (Validate msg); [done|].
  destruct (queues f !! queue); cbn; by rewrite ?lookup_insert_ne by done.
Qed.

Lemma Enqueue_same c queue msg f ch :
  queues f !! queue = Some ch →
  queues (Enqueue c queue msg f).2 !! queue =
    Some (if bool_decide (c = None) && bool_decide (Validate msg = None) then try_send msg ch else ch).
Proof.
  intros Hq. unfold Enqueue, getQueue. destruct c; [done|]. destruct (Validate msg); [done|].
  rewrite Hq. cbn. by rewrite lookup_insert_eq.
Qed.

Lemma try_send_spec {A} (x : A) c :
  try_send x c = c ∧ ¬ (length (ch_buf c) < ch_cap c)%nat ∨
  (length (ch_buf c) < ch_cap c)%nat ∧ ch_buf (try_send x c) = ch_buf c ++ [x] ∧
    ch_cap (try_send x c) = ch_cap c.
Proof. unfold try_send. case_bool_decide; eauto. Qed.

(** What a call of [Enqueue] does to the buffer of the watched queue. *)
Lemma Enqueue_watched c queue msg f q ch :
  queues f !! q = Some ch → ch_cap ch = fake_capacity →
  ∃ ch', queues (Enqueue c queue msg f).2 !! q = Some ch' ∧ ch_cap ch' = fake_capacity ∧
    queue_buf (Enqueue c queue msg f).2 q =
      queue_buf f q ++ (if bool_decide (queue = q) && stored c queue msg f then [msg] else []) ∧
    (length (queue_buf f q) ≤ fake_capacity → length (queue_buf (Enqueue c queue msg f).2 q) ≤ fake_capacity)%nat.
Proof.
  intros Hq Hcap. destruct (decide (queue = q)) as [->|Hne].
  - pose proof (Enqueue_same c q msg f ch Hq) as He. eexists. split; [done|].
    unfold queue_buf. rewrite He, Hq. rewrite (bool_decide_eq_true_2 (q = q)) by done. unfold stored, queue_buf. rewrite Hq.
    destruct (bool_decide (c = None) && bool_decide (Validate msg = None)); cbn; [|by rewrite app_nil_r].
    destruct (try_send_spec msg ch) as [[-> Hf]|(Hf & Hb & Hc)]; rewrite Hcap in Hf.
    + rewrite (bool_decide_eq_false_2 _ Hf), app_nil_r. done.
    + rewrite (bool_decide_eq_true_2 _ Hf), Hb, Hc, length_app. cbn. split_and!; [done..|lia].
  - exists ch. rewrite (bool_decide_eq_false_2 (queue = q)) by done. unfold queue_buf.
    rewrite Enqueue_other, Hq by done. cbn. by rewrite app_nil_r.
Qed.

Lemma q_enqueue_ok s c queue msg :
  caps_ok s ∧ conserved s →
  let s' := QSys (Enqueue c queue msg (q_bus s)).2 (q_deq s)
             (if bool_decide (queue = dq_queue (q_deq s)) && stored c queue msg (q_bus s)
              then q_sent s ++ [msg] else q_sent s) (q_received s) in
  caps_ok s' ∧ conserved s'.
Proof.
  intros [((ch & Hq & Hcap) & Ho & Hl & Hlo) Hc]. cbn.
  destruct (Enqueue_watched c queue msg (q_bus s) _ ch Hq Hcap) as (ch' & Hq' & Hcap' & Hb & Hle). split.
  - split_and!; cbn; eauto.
  - unfold conserved, in_flight in *. cbn. rewrite Hb. destruct (_ && stored _ _ _ _).
    + destruct (dq_done (q_deq s)).
      * destruct Hc as (? & lost & ? & Hs). split; [done|]. exists lost. by rewrite Hs, <-!app_assoc.
      * by rewrite Hc, <-!app_assoc.
    + rewrite app_nil_r. done.
Qed.

Lemma qstep_ok s s' : qstep s s' → caps_ok s ∧ conserved s → caps_ok s' ∧ conserved s'.
Proof.
  destruct 1 as [s c queue msg|s d f Ht|s d Ht|s msg d Ht|s d Ht]; [by apply q_enqueue_ok|..];
    intros [((ch & Hq & Hcap) & Ho & Hl & Hlo) Hc];
    destruct s as [bus [q held out dn] sent received]; cbn in *.
  - unfold dq_take in Ht. cbn in Ht. destruct dn; [done|]. destruct held; [done|]. rewrite Hq in Ht.
    cbn in Ht. apply bind_Some in Ht as ([m ch'] & Hr & [= <- <-]).
    unfold recv in Hr. destruct (ch_buf ch) as [|x b] eqn:Hb; [done|]. simplify_eq.
    unfold caps_ok, conserved, in_flight, queue_buf in *. cbn in *. rewrite Hq, lookup_insert_eq in *. cbn in *.
    rewrite Hb in *. split; [|by rewrite Hc, <-?app_assoc]. split_and!; eauto. simpl in Hl. lia.
  - unfold dq_put in Ht. cbn in Ht. destruct dn; [done|]. destruct held as [m|]; [|done]. cbn in Ht.
    case_bool_decide as Hf; [|done]. simplify_eq. destruct (try_send_spec m out) as [[_ ?]|(_ & Hb & Hc')]; [done|].
    unfold caps_ok, conserved, in_flight in *. cbn in *. rewrite Hb, Hc'.
    split; [|by rewrite Hc, <-?app_assoc]. split_and!; eauto. rewrite length_app. simpl. lia.
  - unfold dq_receive, recv in Ht. cbn in Ht. destruct (ch_buf out) as [|x b] eqn:Hb; [done|]. cbn in Ht. simplify_eq.
    unfold caps_ok, conserved, in_flight in *. cbn in *. rewrite Hb in *. split.
    + split_and!; eauto. simpl in Hlo. lia.
    + destruct dn; [destruct Hc as (? & lost & ? & Hs); split; [done|]; exists lost|]; by rewrite ?Hs, ?Hc, <-?app_assoc.
  - unfold dq_cancel in Ht. cbn in Ht. destruct dn; [done|]. simplify_eq.
    unfold caps_ok, conserved, in_flight in *. cbn in *. split; [split_and!; eauto|]. split; [done|].
    exists (held_list held). split; [destruct held; simpl; lia|]. by rewrite Hc.
Qed.

(** C25: FakeTransport's queue with one consumer, in every interleaving of
    producers, the forwarding goroutine, the consumer and cancellation: until
    the context is cancelled, what the consumer has received, followed by what
    is buffered and in the goroutine's hands, is exactly what Enqueue stored,
    in that order; once it is cancelled the same holds but for at most one
    message, the one the goroutine held, which is lost; no buffer exceeds its
    capacity. *)
Theorem fake_queue_fifo queue s :
  rtc qstep (q_start queue NewFakeTransport) s → caps_ok s ∧ conserved s.
Proof.
  intros H. assert (caps_ok (q_start queue NewFakeTransport) ∧ conserved (q_start queue NewFakeTransport)) as Hi.
  { unfold caps_ok, conserved, in_flight, q_start, Dequeue, getQueue, queue_buf.
    cbn [queues NewFakeTransport snd]. rewrite lookup_empty.
    cbn [queues with_queues snd q_bus q_deq q_sent q_received dq_queue dq_out dq_held dq_done].
    rewrite lookup_insert_eq. split; [|done]. split_and!; [eauto|done|cbn; lia..]. }
  induction H as [|s s' s'' Hs _ IH]; [done|]. apply IH. by eapply qstep_ok.
Qed.

Definition q_after_enqueue (queue : string) : qsys :=
  let s := q_start queue NewFakeTransport in
  QSys (Enqueue background queue sample_message (q_bus s)).2 (q_deq s)
    (if bool_decide (queue = dq_queue (q_deq s)) && stored background queue sample_message (q_bus s)
     then q_sent s ++ [sample_message] else q_sent s) (q_received s).

Lemma fake_queue_fifo_witness :
  q_sent (q_after_enqueue "tasks") = [sample_message] ∧
  caps_ok (q_after_enqueue "tasks") ∧ conserved (q_after_enqueue "tasks").
Proof.
  split; [vm_compute; reflexivity|]. apply (fake_queue_fifo "tasks").
  eapply rtc_l; [apply (q_enqueue _ background "tasks" sample_message)|]. apply rtc_refl.
Defined.

(** ** RedisTransport

    The Redis server is outside the repository: [RedisServer] lists the three
    commands the transport issues with what the Redis documentation says of a
    successful one; publishing touches no list.  [r_list] is the list stored at a key, head first. *)
Class RedisServer (R : Type) := {
  r_list : string → R → list string;
  LPush : string → string → R → option error * R;
  BRPop : string → R → result (list string) * R;
  RPublish : string → string → R → option error * R;
  LPush_ok k v r r' : LPush k v r = (None, r') →
    r_list k r' = v :: r_list k r ∧ ∀ k', k' ≠ k → r_list k' r' = r_list k' r;
  BRPop_ok k r vs r' : BRPop k r = (Ok vs, r') →
    ∃ v l, vs = [k; v] ∧ r_list k r = l ++ [v] ∧ r_list k r' = l ∧ ∀ k', k' ≠ k → r_list k' r' = r_list k' r;
  RPublish_lists k topic v r : r_list k (RPublish topic v r).2 = r_list k r
}.

Section redis.
Context {R : Type} `{RedisServer R}.

Definition RedisEnqueue (queue : string) (msg : Message) (r : R) : option error * R :=
  match Validate msg with
  | Some e => (Some e, r)
  | None =>
    match MarshalMessage msg with
    | Fail e => (Some e, r)
    | Ok data => LPush queue data r
    end
  end.

(** [Publish] differs from [Enqueue] in the command only. *)
Definition RedisPublish (topic : string) (msg : Message) (r : R) : option error * R :=
  match Validate msg with
  | Some e => (Some e, r)
  | None =>
    match MarshalMessage msg with
    | Fail e => (Some e, r)
    | Ok data => RPublish topic data r
    end
  end.

(** One iteration of the goroutine of [Dequeue] with a live context: a message
    handed on, or another turn of the loop. *)
Definition RedisDequeue_iter (queue : string) (r : R) : option Message * R :=
  match BRPop queue r with
  | (Fail _, r') => (None, r')
  | (Ok values, r') =>
    match values with
    | [_; data] => match ParseMessage data with Ok msg => (Some msg, r') | Fail _ => (None, r') end
    | _ => (None, r')
    end
  end.

(** The list at a key holds these messages, oldest first. *)
Definition holds (queue : string) (r : R) (msgs : list Message) : Prop :=
  Forall2 (λ d m, Validate m = None ∧ wire_ok m ∧ MarshalMessage m = Ok d) (r_list queue r) (reverse msgs).

(** A Redis queue is a first-in first-out queue of messages: a successful
    Enqueue appends the message, and a successful pop delivers the oldest one
    as it was sent (its payload compacted); none is skipped as unreadable. *)
Theorem redis_queue_fifo queue r msgs :
  holds queue r msgs →
  (∀ msg r', wire_ok msg → RedisEnqueue queue msg r = (None, r') → holds queue r' (msgs ++ [msg])) ∧
  (∀ vs r', BRPop queue r = (Ok vs, r') →
    ∃ msg rest, msgs = msg :: rest ∧ RedisDequeue_iter queue r = (Some (wire_normal msg), r') ∧ holds queue r' rest).
Proof.
  intros Hh. split.
  - intros msg r' Hw. unfold RedisEnqueue. destruct (Validate msg) eqn:Hv; [done|].
    destruct (MarshalMessage msg) as [data|] eqn:Hm; [|done]. intros [Hl _]%LPush_ok.
    unfold holds. rewrite Hl, reverse_app. by constructor.
  - intros vs r' Hp. pose proof (BRPop_ok _ _ _ _ Hp) as (v & l & -> & Hl & Hl' & _).
    unfold holds in Hh. rewrite Hl in Hh. destruct msgs as [|msg rest].
    { apply Forall2_length in Hh. rewrite length_app in Hh. simpl in Hh. lia. }
    rewrite reverse_cons in Hh. apply Forall2_app_inv_r in Hh as (l1 & l2 & H1 & H2 & Heq).
    assert (∃ v', l2 = [v'] ∧ Validate msg = None ∧ wire_ok msg ∧ MarshalMessage msg = Ok v') as (v' & -> & Hv & Hw & Hm).
    { inversion H2 as [|v' ? l2' ? (? & ? & ?) H2' ]; subst. inversion H2'; subst. eauto. }
    apply app_inj_tail in Heq as [-> ->]. exists msg, rest. split; [done|].
    destruct (marshal_parse msg Hv Hw) as (d & Hd & Hpm & _).
    rewrite Hm in Hd. injection Hd as <-. unfold RedisDequeue_iter. rewrite Hp, Hpm. split; [done|].
    unfold holds. by rewrite Hl'.
Qed.
End redis.

(** A concrete server: the lists of a map. *)
Definition map_server : RedisServer (gmap string (list string)).
Proof.
  refine {|
    r_list := λ k r, default [] (r !! k);
    LPush := λ k v r, (None, <[k := v :: default [] (r !! k)]> r);
    BRPop := λ k r, match reverse (default [] (r !! k)) with
                    | [] => (Fail (new_error "redis: nil"), r)
                    | v :: l => (Ok [k; v], <[k := reverse l]> r)
                    end;
    RPublish := λ _ _ r, (None, r) |}.
  - intros k v r r' [= <-]. rewrite lookup_insert_eq. split; [done|]. intros k' Hk. by rewrite lookup_insert_ne.
  - intros k r vs r'. destruct (reverse (default [] (r !! k))) as [|v l] eqn:Hr; [done|]. intros [= <- <-].
    exists v, (reverse l). rewrite lookup_insert_eq. split_and!; [done| |done|].
    + by rewrite <-(reverse_involutive (default [] (r !! k))), Hr, reverse_cons.
    + intros k' Hk. by rewrite lookup_insert_ne.
  - done.
Defined.

Definition sample_data : string := match MarshalMessage sample_message with Ok d => d | Fail _ => "" end.
Definition one_queued : gmap string (list string) := {["tasks" := [sample_data]]}.

Lemma redis_queue_fifo_witness :
  let _ := map_server in
  (∀ msg r', wire_ok msg → RedisEnqueue "tasks" msg one_queued = (None, r') → holds "tasks" r' ([sample_message] ++ [msg])) ∧
  (∀ vs r', BRPop "tasks" one_queued = (Ok vs, r') →
    ∃ msg rest, [sample_message] = msg :: rest ∧
      RedisDequeue_iter "tasks" one_queued = (Some (wire_normal msg), r') ∧ holds "tasks" r' rest).
Proof.
  intros ?. apply (redis_queue_fifo (R := gmap string (list string)) "tasks" one_queued [sample_message]).
  constructor; [|constructor]. split; [vm_compute; reflexivity|]. split; [exact sample_message_wire_ok|].
  vm_compute. reflexivity.
Defined.

(** ** FakeHeartbeatBus: the last status of each agent *)
Definition PublishHeartbeat (c : ctx) (agentID status : string) (m : gmap string string) : option error * gmap string string :=
  match c with Some e => (Some e, m) | None => (None, <[agentID := status]> m) end.
Definition NewFakeHeartbeatBus : gmap string string := ∅.
Definition LastStatus (agentID : string) (m : gmap string string) : option string := m !! agentID.
