(* ===== verification/Sha256.v ===== *)
(** * crypto/sha256, crypto/hmac and encoding/hex

    The digest functions the webhook signatures use, executable on byte
    strings and checked against published test vectors, and the hexadecimal
    text of a byte string with its decoder. *)
From Stdlib Require Import String Ascii.
From S2P Require Import Prelude GoStrings Strconv Json JsonString.
From stdpp Require Import list.

Local Open Scope Z_scope.

(** ** 32-bit words *)
Definition mask32 (z : Z) : Z := z mod 2 ^ 32.
Definition rotr (n x : Z) : Z := Z.lor (Z.shiftr x n) (mask32 (Z.shiftl x (32 - n))).
Definition not32 (x : Z) : Z := 2 ^ 32 - 1 - x.

Definition ch (x y z : Z) : Z := Z.lxor (Z.land x y) (Z.land (not32 x) z).
Definition maj (x y z : Z) : Z := Z.lxor (Z.lxor (Z.land x y) (Z.land x z)) (Z.land y z).
Definition big_sigma0 (x : Z) : Z := Z.lxor (Z.lxor (rotr 2 x) (rotr 13 x)) (rotr 22 x).
Definition big_sigma1 (x : Z) : Z := Z.lxor (Z.lxor (rotr 6 x) (rotr 11 x)) (rotr 25 x).
Definition small_sigma0 (x : Z) : Z := Z.lxor (Z.lxor (rotr 7 x) (rotr 18 x)) (Z.shiftr x 3).
Definition small_sigma1 (x : Z) : Z := Z.lxor (Z.lxor (rotr 17 x) (rotr 19 x)) (Z.shiftr x 10).

(** The constants of the standard: the first 32 bits of the fractional parts of
    the cube roots of the first 64 primes, and of the square roots of the first
    eight. *)
Definition is_prime (n : Z) : bool :=
  forallb (λ d, negb (n mod Z.of_nat d =? 0)) (seq 2 (Z.to_nat n - 2)).
Definition primes : list Z := filter (λ n, is_prime n = true) (map Z.of_nat (seq 2 310)).

(** The largest [r < 2 ^ bits + acc] with [r ^ 3 <= n], bit by bit. *)
Fixpoint cube_root (bits : nat) (acc n : Z) : Z :=
  match bits with
  | O => acc
  | S b => let r := acc + 2 ^ Z.of_nat b in cube_root b (if r ^ 3 <=? n then r else acc) n
  end.

Definition round_constants : list Z := Eval vm_compute in
  map (λ p, mask32 (cube_root 40 0 (p * 2 ^ 96))) (take 64 primes).
Definition initial_state : list Z := Eval vm_compute in
  map (λ p, mask32 (Z.sqrt (p * 2 ^ 64))) (take 8 primes).

(** ** Compression *)

(** The message schedule as a sliding window of the last sixteen words. *)
Definition schedule_next (w : list Z) : Z :=
  let at_ i := nth i w 0 in
  mask32 (small_sigma1 (at_ 14%nat) + at_ 9%nat + small_sigma0 (at_ 1%nat) + at_ 0%nat).

Definition round (k w : Z) (h : list Z) : list Z :=
  match h with
  | [a; b; c; d; e; f; g; h] =>
    let t1 := h + big_sigma1 e + ch e f g + k + w in
    let t2 := big_sigma0 a + maj a b c in
    [mask32 (t1 + t2); a; b; c; mask32 (d + t1); e; f; g]
  | _ => h
  end.

Fixpoint rounds (ks : list Z) (w h : list Z) : list Z :=
  match ks with
  | [] => h
  | k :: ks => rounds ks (drop 1 w ++ [schedule_next w]) (round k (nth 0 w 0) h)
  end.

Definition compress (block h : list Z) : list Z :=
  zip_with (λ a b, mask32 (a + b)) h (rounds round_constants block h).

(** ** Padding *)
Fixpoint bytes_of (s : string) : list Z :=
  match s with String c r => code c :: bytes_of r | EmptyString => [] end.
Fixpoint string_of_bytes (l : list Z) : string :=
  match l with b :: l => String (chr b) (string_of_bytes l) | [] => EmptyString end.

Fixpoint be_bytes (n : nat) (z : Z) : list Z :=
  match n with O => [] | S n => be_bytes n (z / 256) ++ [z mod 256] end.

Definition pad (msg : list Z) : list Z :=
  let len := Z.of_nat (length msg) in
  let zeros := Z.to_nat ((55 - len) mod 64) in
  msg ++ [128] ++ replicate zeros 0 ++ be_bytes 8 (8 * len).

Fixpoint words (l : list Z) : list Z :=
  match l with
  | a :: b :: c :: d :: l => (((a * 256 + b) * 256 + c) * 256 + d) :: words l
  | _ => []
  end.

Fixpoint blocks (fuel : nat) (l : list Z) (h : list Z) : list Z :=
  match fuel, l with
  | S fuel, _ :: _ => blocks fuel (drop 16 l) (compress (take 16 l) h)
  | _, _ => h
  end.

(** [sha256.Sum256]. *)
Definition sha256_bytes (msg : list Z) : list Z :=
  let w := words (pad msg) in
  flat_map (be_bytes 4) (blocks (length w) w initial_state).

(** [hmac.New(sha256.New, key)], [Write(msg)], [Sum(nil)]. *)
Definition hmac_bytes (key msg : list Z) : list Z :=
  let key := if (64 <? length key)%nat then sha256_bytes key else key in
  let key := key ++ replicate (64 - length key) 0 in
  sha256_bytes (map (λ b, Z.lxor b 92) key ++ sha256_bytes (map (λ b, Z.lxor b 54) key ++ msg)).

Definition sha256 (s : string) : string := string_of_bytes (sha256_bytes (bytes_of s)).
Definition hmac_sha256 (key msg : string) : string := string_of_bytes (hmac_bytes (bytes_of key) (bytes_of msg)).

(** ** Hexadecimal *)
Fixpoint hex_encode (s : string) : string :=
  match s with
  | String c r => String (hex_digit (code c / 16)) (String (hex_digit (code c mod 16)) (hex_encode r))
  | EmptyString => EmptyString
  end.

(** [hex.DecodeString]; an odd length or a foreign character is an error. *)
Fixpoint hex_decode (s : string) : option string :=
  match s with
  | EmptyString => Some EmptyString
  | String a (String b r) =>
    if is_hex a && is_hex b then String (chr (hex_val a * 16 + hex_val b)) <$> hex_decode r else None
  | String _ EmptyString => None
  end.

Lemma hex_decode_encode s : hex_decode (hex_encode s) = Some s.
Proof.
  induction s as [|c s IH]; [done|]. cbn [hex_encode hex_decode]. rewrite IH.
  assert ((is_hex (hex_digit (code c / 16)) && is_hex (hex_digit (code c mod 16))) = true ∧
    chr (hex_val (hex_digit (code c / 16)) * 16 + hex_val (hex_digit (code c mod 16))) = c) as [-> ->]; [|done].
  destruct c as [[] [] [] [] [] [] [] []]; vm_compute; done.
Qed.

(** FIPS 180-4 and RFC 4231 (test case 2) vectors. *)
Example sha256_abc : hex_encode (sha256 "abc") = "ba7816bf8f01cfea414140de5dae2223b00361a396177a9cb410ff61f20015ad"%string.
Proof. vm_compute. reflexivity. Qed.

Example sha256_two_blocks :
  hex_encode (sha256 "abcdbcdecdefdefgefghfghighijhijkijkljklmklmnlmnomnopnopq") =
  "248d6a61d20638b8e5c026930c3e6039a33ce45964ff2167f6ecedd419db06c1"%string.
Proof. vm_compute. reflexivity. Qed.

Example hmac_rfc4231_2 :
  hex_encode (hmac_sha256 "Jefe" "what do ya want for nothing?") =
  "5bdcc146bf60754e6a042426089575c75a003f089d2739839dec58b964ec3843"%string.
Proof. vm_compute. reflexivity. Qed.
