(* ===== verification/Cipher.v ===== *)
(** * crypto/sha1, encoding/base64, crypto/aes and CBC mode

    What the platform callbacks use of the standard library, executable on
    bytes and checked against published vectors, with the laws the codecs
    rely on: base64 decoding undoes encoding, AES decryption undoes encryption,
    CBC likewise. *)
From Stdlib Require Import String Ascii Btauto.
From S2P Require Import Prelude GoStrings Strconv Json JsonString Sha256.
From stdpp Require Import list.

Local Open Scope Z_scope.

(** ** SHA-1 *)
Definition rotl32 (n x : Z) : Z := rotr (32 - n) x.

Definition sha1_f (t : nat) (b c d : Z) : Z * Z :=
  if (t <? 20)%nat then (ch b c d, 1518500249)
  else if (t <? 40)%nat then (Z.lxor (Z.lxor b c) d, 1859775393)
  else if (t <? 60)%nat then (maj b c d, 2400959708)
  else (Z.lxor (Z.lxor b c) d, 3395469782).

(** [w]: the last sixteen words of the schedule. *)
Fixpoint sha1_rounds (n t : nat) (w h : list Z) : list Z :=
  match n with
  | O => h
  | S n =>
    match h with
    | [a; b; c; d; e] =>
      let at_ i := nth i w 0 in
      let '(f, k) := sha1_f t b c d in
      let next := rotl32 1 (Z.lxor (Z.lxor (at_ 13%nat) (at_ 8%nat)) (Z.lxor (at_ 2%nat) (at_ 0%nat))) in
      sha1_rounds n (S t) (drop 1 w ++ [next]) [mask32 (rotl32 5 a + f + e + k + at_ 0%nat); a; rotl32 30 b; c; d]
    | _ => h
    end
  end.

Fixpoint sha1_blocks (fuel : nat) (l h : list Z) : list Z :=
  match fuel, l with
  | S fuel, _ :: _ => sha1_blocks fuel (drop 16 l) (zip_with (λ a b, mask32 (a + b)) h (sha1_rounds 80 0 (take 16 l) h))
  | _, _ => h
  end.

Definition sha1_bytes (msg : list Z) : list Z :=
  let w := words (pad msg) in
  flat_map (be_bytes 4) (sha1_blocks (length w) w [1732584193; 4023233417; 2562383102; 271733878; 3285377520]).

(** [sha1.Sum] *)
Definition sha1 (s : string) : string := string_of_bytes (sha1_bytes (bytes_of s)).

Example sha1_abc : hex_encode (sha1 "abc") = "a9993e364706816aba3e25717850c26c9cd0d89d"%string.
Proof. vm_compute. reflexivity. Qed.

(** ** Base64, the standard alphabet with padding *)
Definition alphabet (n : Z) : ascii :=
  if n <? 26 then chr (65 + n) else if n <? 52 then chr (71 + n) else if n <? 62 then chr (n - 4) else if n =? 62 then "+"%char else "/"%char.

Definition sextet (c : ascii) : option Z :=
  let n := code c in
  if (65 <=? n) && (n <=? 90) then Some (n - 65)
  else if (97 <=? n) && (n <=? 122) then Some (n - 71)
  else if (48 <=? n) && (n <=? 57) then Some (n + 4)
  else if n =? 43 then Some 62 else if n =? 47 then Some 63 else None.

Definition equals : ascii := "="%char.

Fixpoint base64_encode (l : list Z) : string :=
  match l with
  | [] => EmptyString
  | [a] => String (alphabet (a / 4)) (String (alphabet (a mod 4 * 16)) (String equals (String equals EmptyString)))
  | [a; b] =>
    String (alphabet (a / 4)) (String (alphabet (a mod 4 * 16 + b / 16)) (String (alphabet (b mod 16 * 4)) (String equals EmptyString)))
  | a :: b :: c :: l =>
    String (alphabet (a / 4)) (String (alphabet (a mod 4 * 16 + b / 16))
      (String (alphabet (b mod 16 * 4 + c / 64)) (String (alphabet (c mod 64)) (base64_encode l))))
  end.

(** The decoder skips line breaks, and wants the padding to end the text; the
    bits a final group leaves over are not looked at. *)
Fixpoint strip_breaks (s : string) : string :=
  match s with
  | EmptyString => EmptyString
  | String c s => if (code c =? 10) || (code c =? 13) then strip_breaks s else String c (strip_breaks s)
  end.

Fixpoint base64_groups (s : string) : option (list Z) :=
  match s with
  | EmptyString => Some []
  | String c1 (String c2 (String c3 (String c4 s))) =>
    a ← sextet c1; b ← sextet c2;
    if bool_decide (c3 = equals) then
      if bool_decide (c4 = equals) && bool_decide (s = EmptyString) then Some [a * 4 + b / 16] else None
    else
      c ← sextet c3;
      if bool_decide (c4 = equals) then
        if bool_decide (s = EmptyString) then Some [a * 4 + b / 16; b mod 16 * 16 + c / 4] else None
      else
        d ← sextet c4;
        l ← base64_groups s;
        Some (a * 4 + b / 16 :: b mod 16 * 16 + c / 4 :: c mod 4 * 64 + d :: l)
  | _ => None
  end.

(** [base64.StdEncoding.DecodeString]; [None] is its error. *)
Definition base64_decode (s : string) : option (list Z) := base64_groups (strip_breaks s).

Example base64_vectors :
  map (λ s, base64_encode (bytes_of s)) ["f"; "fo"; "foo"; "foob"]%string = ["Zg=="; "Zm8="; "Zm9v"; "Zm9vYg=="]%string ∧
  map (λ s, string_of_bytes <$> base64_decode s) ["Zm9vYg=="; "Zm9v
Yg=="; "Zm9vY"; "Zm9=Yg=="]%string = [Some "foob"; Some "foob"; None; None]%string.
Proof. vm_compute. done. Qed.

Definition byte (b : Z) : Prop := 0 ≤ b < 256.

(** A fact about all bytes, by trying them. *)
Definition all_below (n : nat) (p : Z → bool) : bool := forallb (λ i, p (Z.of_nat i)) (seq 0 n).

Lemma all_below_spec n p : all_below n p = true → ∀ b, 0 ≤ b < Z.of_nat n → p b = true.
Proof.
  unfold all_below. rewrite forallb_forall. intros Hp b Hb. specialize (Hp (Z.to_nat b)). rewrite Z2Nat.id in Hp by lia.
  apply Hp. apply in_seq. lia.
Qed.

Definition alphabet_ok (n : Z) : bool :=
  let c := alphabet n in
  bool_decide (sextet c = Some n) && negb (bool_decide (c = equals)) && negb ((code c =? 10) || (code c =? 13)).

Lemma alphabet_spec n : 0 ≤ n < 64 →
  sextet (alphabet n) = Some n ∧ alphabet n ≠ equals ∧ ((code (alphabet n) =? 10) || (code (alphabet n) =? 13)) = false.
Proof.
  intros Hn. assert (alphabet_ok n = true) as H by (apply (all_below_spec 64); [vm_compute; reflexivity|lia]).
  unfold alphabet_ok in H. apply andb_prop in H as [[H1%bool_decide_eq_true_1 H2]%andb_prop H3%negb_true_iff].
  apply negb_true_iff, bool_decide_eq_false_1 in H2. done.
Qed.

Lemma strip_alphabet n s : 0 ≤ n < 64 → strip_breaks (String (alphabet n) s) = String (alphabet n) (strip_breaks s).
Proof. intros Hn. cbn [strip_breaks]. by destruct (alphabet_spec n Hn) as (_ & _ & ->). Qed.

Ltac byte_range := unfold byte in *; repeat match goal with
  | |- context [?a / ?b] => lazymatch goal with H : 0 ≤ a / b ∧ _ |- _ => fail | _ =>
      pose proof (Z.div_mod a b ltac:(lia)); pose proof (Z.mod_pos_bound a b ltac:(lia)) end
  end; nia.

Lemma base64_group a b c : byte a → byte b → byte c →
  (0 ≤ a / 4 < 64 ∧ 0 ≤ a mod 4 * 16 + b / 16 < 64 ∧ 0 ≤ b mod 16 * 4 + c / 64 < 64 ∧ 0 ≤ c mod 64 < 64) ∧
  a / 4 * 4 + (a mod 4 * 16 + b / 16) / 16 = a ∧
  (a mod 4 * 16 + b / 16) mod 16 * 16 + (b mod 16 * 4 + c / 64) / 4 = b ∧
  (b mod 16 * 4 + c / 64) mod 4 * 64 + c mod 64 = c.
Proof. unfold byte. intros. repeat split; Z.div_mod_to_equations; lia. Qed.

Lemma base64_decode_encode l : Forall byte l → base64_decode (base64_encode l) = Some l.
Proof.
  unfold base64_decode. induction l as [l IH] using (induction_ltof1 _ (@length Z)). unfold ltof in IH.
  intros Hl. destruct l as [|a [|b [|c l]]].
  - done.
  - apply Forall_cons in Hl as [Ha _]. destruct (base64_group a 0 0) as ((R1 & R2 & _) & E1 & _); [done|done|done|].
    rewrite Z.add_0_r in R2, E1. cbn [base64_encode]. rewrite !strip_alphabet by done. cbn [base64_groups].
    destruct (alphabet_spec _ R1) as (-> & _). destruct (alphabet_spec _ R2) as (-> & _). cbn. by rewrite E1.
  - apply Forall_cons in Hl as [Ha [Hb _]%Forall_cons]. destruct (base64_group a b 0) as ((R1 & R2 & R3 & _) & E1 & E2 & _); [done|done|done|].
    rewrite Z.add_0_r in R3, E2. cbn [base64_encode]. rewrite !strip_alphabet by done. cbn [base64_groups].
    destruct (alphabet_spec _ R1) as (-> & _). destruct (alphabet_spec _ R2) as (-> & _). destruct (alphabet_spec _ R3) as (-> & N3 & _).
    cbn [mbind option_bind]. rewrite bool_decide_eq_false_2 by done. cbn. by rewrite E1, E2.
  - apply Forall_cons in Hl as [Ha [Hb [Hc Hl]%Forall_cons]%Forall_cons].
    destruct (base64_group a b c) as ((R1 & R2 & R3 & R4) & E1 & E2 & E3); [done|done|done|].
    cbn [base64_encode]. rewrite !strip_alphabet by done. cbn [base64_groups].
    destruct (alphabet_spec _ R1) as (-> & _). destruct (alphabet_spec _ R2) as (-> & _). destruct (alphabet_spec _ R3) as (-> & N3 & _).
    destruct (alphabet_spec _ R4) as (-> & N4 & _). cbn [mbind option_bind]. rewrite !bool_decide_eq_false_2 by done.
    rewrite IH; [|simpl; lia|done]. cbn. by rewrite E1, E2, E3.
Qed.

Lemma sextet_range c n : sextet c = Some n → 0 ≤ n < 64.
Proof. unfold sextet. intros H. repeat case_match; simplify_eq; lia. Qed.

(** What is decoded are bytes. *)
Lemma base64_groups_byte s l : base64_groups s = Some l → Forall byte l.
Proof.
  revert l. induction s as [s IH] using (induction_ltof1 _ String.length). unfold ltof in IH. intros l.
  destruct s as [|c1 [|c2 [|c3 [|c4 s]]]]; [by intros [= <-]|done..|]. cbn [base64_groups].
  destruct (sextet c1) as [a|] eqn:Ha; [|done]. destruct (sextet c2) as [b|] eqn:Hb; [|done]. cbn.
  apply sextet_range in Ha, Hb. destruct (bool_decide (c3 = equals)).
  { destruct (_ && _); [|done]. intros [= <-]. repeat constructor; Z.div_mod_to_equations; lia. }
  destruct (sextet c3) as [d|] eqn:Hc; [|done]. cbn. apply sextet_range in Hc. destruct (bool_decide (c4 = equals)).
  { destruct (bool_decide _); [|done]. intros [= <-]. repeat constructor; Z.div_mod_to_equations; lia. }
  destruct (sextet c4) as [e|] eqn:Hd; [|done]. cbn. apply sextet_range in Hd.
  destruct (base64_groups s) as [l'|] eqn:Hs; [|done]. intros [= <-].
  repeat constructor; [Z.div_mod_to_equations; lia..|]. eapply IH; [|done]. simpl. lia.
Qed.

Lemma base64_decode_byte s l : base64_decode s = Some l → Forall byte l.
Proof. apply base64_groups_byte. Qed.

(** ** AES *)

(** Doubling in the field of 256 elements, and the multiples the two column
    transformations use. *)
Definition xtime (a : Z) : Z := Z.lxor (Z.shiftl a 1) (if Z.testbit a 7 then 283 else 0).
Definition mul3 (a : Z) : Z := Z.lxor (xtime a) a.
Definition x4 (a : Z) : Z := xtime (xtime a).
Definition x8 (a : Z) : Z := xtime (x4 a).
Definition mul9 (a : Z) : Z := Z.lxor (x8 a) a.
Definition mul11 (a : Z) : Z := Z.lxor (Z.lxor (x8 a) (xtime a)) a.
Definition mul13 (a : Z) : Z := Z.lxor (Z.lxor (x8 a) (x4 a)) a.
Definition mul14 (a : Z) : Z := Z.lxor (Z.lxor (x8 a) (x4 a)) (xtime a).

Fixpoint field_mul (bits : nat) (a b : Z) : Z :=
  match bits with O => 0 | S n => Z.lxor (if Z.odd b then a else 0) (field_mul n (xtime a) (b / 2)) end.

(** The substitution: the field's inverse, then an affine map. *)
Definition field_inverse (a : Z) : Z :=
  default 0 (head (filter (λ b, field_mul 8 a b = 1) (map Z.of_nat (seq 0 256)))).
Definition affine (b : Z) : Z :=
  let rot n := Z.lor (Z.shiftr b (8 - n)) (Z.shiftl b n mod 256) in
  Z.lxor (Z.lxor (Z.lxor (Z.lxor b (rot 1)) (rot 2)) (Z.lxor (rot 3) (rot 4))) 99.

Definition sbox_table : list Z := Eval vm_compute in map (λ i, affine (field_inverse (Z.of_nat i))) (seq 0 256).
Definition inv_sbox_table : list Z := Eval vm_compute in
  map (λ i, default 0 (Z.of_nat <$> head (filter (λ j, nth j sbox_table 0 = Z.of_nat i) (seq 0 256)))) (seq 0 256).
Definition sbox (b : Z) : Z := nth (Z.to_nat b) sbox_table 0.
Definition inv_sbox (b : Z) : Z := nth (Z.to_nat b) inv_sbox_table 0.

(** A block is sixteen bytes, column by column. *)
Definition shift_rows (s : list Z) : list Z :=
  match s with
  | [a0; a1; a2; a3; b0; b1; b2; b3; c0; c1; c2; c3; d0; d1; d2; d3] =>
    [a0; b1; c2; d3; b0; c1; d2; a3; c0; d1; a2; b3; d0; a1; b2; c3]
  | _ => s
  end.
Definition inv_shift_rows (s : list Z) : list Z :=
  match s with
  | [a0; a1; a2; a3; b0; b1; b2; b3; c0; c1; c2; c3; d0; d1; d2; d3] =>
    [a0; d1; c2; b3; b0; a1; d2; c3; c0; b1; a2; d3; d0; c1; b2; a3]
  | _ => s
  end.

Definition xor4 (a b c d : Z) : Z := Z.lxor (Z.lxor a b) (Z.lxor c d).
Definition mix_column (a b c d : Z) : list Z :=
  [xor4 (xtime a) (mul3 b) c d; xor4 a (xtime b) (mul3 c) d; xor4 a b (xtime c) (mul3 d); xor4 (mul3 a) b c (xtime d)].
Definition inv_mix_column (a b c d : Z) : list Z :=
  [xor4 (mul14 a) (mul11 b) (mul13 c) (mul9 d); xor4 (mul9 a) (mul14 b) (mul11 c) (mul13 d);
   xor4 (mul13 a) (mul9 b) (mul14 c) (mul11 d); xor4 (mul11 a) (mul13 b) (mul9 c) (mul14 d)].

Fixpoint columns (f : Z → Z → Z → Z → list Z) (s : list Z) : list Z :=
  match s with a :: b :: c :: d :: s => f a b c d ++ columns f s | _ => [] end.

Definition add_key (k s : list Z) : list Z := zip_with Z.lxor s k.

(** *** The key schedule *)
Definition sub_word (w : list Z) : list Z := map sbox w.
Definition rot_word (w : list Z) : list Z := match w with a :: w => w ++ [a] | [] => [] end.

(** The words so far, last first; [i] is the next word's number. *)
Fixpoint expand (n i nk : nat) (rcon : Z) (ws : list (list Z)) : list (list Z) :=
  match n with
  | O => ws
  | S n =>
    let prev := nth 0 ws [] in
    let first := (i mod nk =? 0)%nat in
    let t := if first then zip_with Z.lxor (sub_word (rot_word prev)) [rcon; 0; 0; 0]
             else if ((6 <? nk) && (i mod nk =? 4))%nat then sub_word prev else prev in
    expand n (S i) nk (if first then xtime rcon else rcon) (zip_with Z.lxor (nth (nk - 1) ws []) t :: ws)
  end.

Fixpoint chunks (n : nat) (fuel : nat) {A} (l : list A) : list (list A) :=
  match fuel, l with S fuel, _ :: _ => take n l :: chunks n fuel (drop n l) | _, _ => [] end.

(** The round keys, for a key of 16, 24 or 32 bytes. *)
Definition round_keys (key : list Z) : list (list Z) :=
  let nk := (length key / 4)%nat in
  let ws := rev (expand (4 * (nk + 7) - nk) nk nk 1 (rev (chunks 4 8 key))) in
  map (λ l, flat_map id l) (chunks 4 15 ws).

(** *** One block *)
Fixpoint cipher_rounds (ks : list (list Z)) (s : list Z) : list Z :=
  match ks with
  | [] => s
  | [k] => add_key k (shift_rows (map sbox s))
  | k :: ks => cipher_rounds ks (add_key k (columns mix_column (shift_rows (map sbox s))))
  end.

Definition aes_encrypt (ks : list (list Z)) (s : list Z) : list Z :=
  match ks with k :: ks => cipher_rounds ks (add_key k s) | [] => s end.

Fixpoint decipher_rounds (ks : list (list Z)) (s : list Z) : list Z :=
  match ks with
  | [] => s
  | [k] => map inv_sbox (inv_shift_rows (add_key k s))
  | k :: ks => map inv_sbox (inv_shift_rows (columns inv_mix_column (add_key k (decipher_rounds ks s))))
  end.

Definition aes_decrypt (ks : list (list Z)) (s : list Z) : list Z :=
  match ks with k :: ks => add_key k (decipher_rounds ks s) | [] => s end.

(** FIPS 197, appendix C. *)
Definition fips_plain : list Z := map (λ i, 17 * Z.of_nat i) (seq 0 16).
Definition fips_key (n : nat) : list Z := map Z.of_nat (seq 0 n).
Example aes_vectors :
  map (λ n, hex_encode (string_of_bytes (aes_encrypt (round_keys (fips_key n)) fips_plain))) [16; 24; 32]%nat =
  ["69c4e0d86a7b0430d8cdb78070b4c55a"; "dda97ca4864cdfe06eaf70a0ec0d7191"; "8ea2b7ca516745bfeafc49904b496089"]%string.
Proof. vm_compute. reflexivity. Qed.

(** *** Decryption undoes encryption *)
Lemma byte_lxor a b : byte a → byte b → byte (Z.lxor a b).
Proof.
  unfold byte. intros Ha Hb. assert (0 ≤ Z.lxor a b) as H0 by (apply Z.lxor_nonneg; lia). split; [done|].
  destruct (decide (Z.lxor a b = 0)) as [->|Hne]; [lia|]. apply (Z.log2_lt_pow2 _ 8); [lia|].
  pose proof (Z.log2_lxor a b ltac:(lia) ltac:(lia)) as Hl.
  assert (∀ x, 0 ≤ x < 256 → Z.log2 x < 8) as Hlog.
  { intros x Hx. destruct (decide (x = 0)) as [->|]; [done|]. apply Z.log2_lt_pow2; lia. }
  specialize (Hlog a Ha) as H1. specialize (Hlog b Hb) as H2. lia.
Qed.

Lemma byte_xtime a : byte a → byte (xtime a).
Proof.
  intros Ha. assert ((0 <=? xtime a) && (xtime a <? 256) = true) as H.
  { apply (all_below_spec 256 (λ a, (0 <=? xtime a) && (xtime a <? 256))); [vm_compute; reflexivity|exact Ha]. }
  apply andb_prop in H as [H1 H2]. unfold byte. lia.
Qed.

Lemma xtime_lxor a b : xtime (Z.lxor a b) = Z.lxor (xtime a) (xtime b).
Proof.
  unfold xtime. rewrite Z.shiftl_lxor, Z.lxor_spec.
  destruct (Z.testbit a 7), (Z.testbit b 7); cbn [xorb]; rewrite ?Z.lxor_0_r, ?Z.lxor_assoc; f_equal.
  - rewrite (Z.lxor_comm 283), !Z.lxor_assoc, Z.lxor_nilpotent, Z.lxor_0_r. done.
  - apply Z.lxor_comm.
Qed.

#[local] Hint Resolve byte_lxor byte_xtime : bytes.

Ltac xor_identity := unfold xor4, mul3, mul9, mul11, mul13, mul14, x8, x4; rewrite ?xtime_lxor;
  apply Z.bits_inj'; intros n _; rewrite ?Z.lxor_spec; btauto.

Lemma inv_mix_mix a b c d :
  match mix_column a b c d with [x; y; z; w] => inv_mix_column x y z w = [a; b; c; d] | _ => False end.
Proof. unfold mix_column, inv_mix_column. do 4 (apply f_equal2; [xor_identity|]). done. Qed.

Definition is_block (s : list Z) : Prop := length s = 16%nat ∧ Forall byte s.

(** A block, byte by byte. *)
Ltac open_block s H :=
  let Hl := fresh in destruct H as [Hl H];
  do 16 (destruct s as [|? s]; [discriminate Hl|]); destruct s as [|? s]; [clear Hl|discriminate Hl];
  repeat match type of H with Forall _ (_ :: _) => let Hb := fresh "Hb" in apply Forall_cons in H as [Hb H] end; clear H.

Ltac close_block := split; [reflexivity|repeat first [apply Forall_nil_2 | apply Forall_cons_2]].

Lemma block_columns s : is_block s → is_block (columns mix_column s) ∧ columns inv_mix_column (columns mix_column s) = s.
Proof.
  intros H. open_block s H. split.
  - cbn. unfold xor4, mul3. close_block; auto 8 with bytes.
  - cbn [columns mix_column app]. 
    repeat match goal with |- context [inv_mix_column (xor4 (xtime ?a) (mul3 ?b) ?c ?d) _ _ _] =>
      pose proof (inv_mix_mix a b c d) as Hm; unfold mix_column in Hm; rewrite Hm; clear Hm end. reflexivity.
Qed.

Lemma block_shift s : is_block s → is_block (shift_rows s) ∧ inv_shift_rows (shift_rows s) = s.
Proof. intros H. open_block s H. split; [|reflexivity]. cbn [shift_rows]. by close_block. Qed.

Definition sbox_ok (b : Z) : bool := (inv_sbox (sbox b) =? b) && (0 <=? sbox b) && (sbox b <? 256).

Lemma sbox_spec b : byte b → inv_sbox (sbox b) = b ∧ byte (sbox b).
Proof.
  intros Hb. assert (sbox_ok b = true) as H by (apply (all_below_spec 256); [vm_compute; reflexivity|exact Hb]).
  unfold sbox_ok in H. apply andb_prop in H as [[H1 H2]%andb_prop H3]. unfold byte. lia.
Qed.

Lemma block_sub s : is_block s → is_block (map sbox s) ∧ map inv_sbox (map sbox s) = s.
Proof.
  intros [Hl Hb]. split; [split; [by rewrite length_map|]|].
  - apply Forall_map. eapply Forall_impl; [exact Hb|]. intros b. apply sbox_spec.
  - rewrite map_map. clear Hl. induction Hb as [|b s Hb _ IH]; [done|]. cbn [map]. rewrite IH. f_equal. by apply sbox_spec.
Qed.

Lemma block_add k s : is_block k → is_block s → is_block (add_key k s) ∧ add_key k (add_key k s) = s.
Proof.
  unfold add_key. intros [Hlk Hk] [Hls Hs]. split; [split; [rewrite length_zip_with; lia|]|].
  - clear Hlk Hls. revert k Hk. induction Hs as [|b s Hb _ IH]; intros k Hk; [by destruct k|]. destruct Hk as [|x k Hx Hk]; [constructor|].
    constructor; [by apply byte_lxor|by apply IH].
  - assert (length s = length k) as Hl by congruence. clear Hlk Hls Hk Hs. revert k Hl.
    induction s as [|b s IH]; intros [|x k] Hl; try done. cbn. rewrite IH by (simpl in Hl; lia).
    by rewrite Z.lxor_assoc, Z.lxor_nilpotent, Z.lxor_0_r.
Qed.

Lemma decipher_cipher ks : Forall is_block ks → ∀ s, is_block s → is_block (cipher_rounds ks s) ∧ decipher_rounds ks (cipher_rounds ks s) = s.
Proof.
  induction 1 as [|k ks Hk Hks IH]; intros s Hs; [done|].
  destruct (block_sub s Hs) as [B1 E1]. destruct (block_shift _ B1) as [B2 E2].
  destruct ks as [|k' ks].
  - cbn [cipher_rounds decipher_rounds]. destruct (block_add k _ Hk B2) as [B3 E3]. by rewrite E3, E2, E1.
  - destruct (block_columns _ B2) as [B3 E3]. destruct (block_add k _ Hk B3) as [B4 E4]. destruct (IH _ B4) as [B5 E5].
    change (cipher_rounds (k :: k' :: ks) s) with (cipher_rounds (k' :: ks) (add_key k (columns mix_column (shift_rows (map sbox s))))).
    split; [exact B5|].
    change (decipher_rounds (k :: k' :: ks) ?x) with (map inv_sbox (inv_shift_rows (columns inv_mix_column (add_key k (decipher_rounds (k' :: ks) x))))).
    by rewrite E5, E4, E3, E2, E1.
Qed.

Lemma aes_decrypt_encrypt ks s : Forall is_block ks → is_block s → is_block (aes_encrypt ks s) ∧ aes_decrypt ks (aes_encrypt ks s) = s.
Proof.
  intros Hks Hs. destruct ks as [|k ks]; [done|]. apply Forall_cons in Hks as [Hk Hks]. cbn.
  destruct (block_add k s Hk Hs) as [B1 E1]. destruct (decipher_cipher ks Hks _ B1) as [B2 E2]. by rewrite E2, E1.
Qed.

(** Whatever is decrypted, blocks come out. *)
Lemma block_inv_columns s : is_block s → is_block (columns inv_mix_column s).
Proof. intros H. open_block s H. cbn. unfold xor4, mul9, mul11, mul13, mul14, x8, x4. close_block; auto 12 with bytes. Qed.

Lemma block_inv_shift s : is_block s → is_block (inv_shift_rows s).
Proof. intros H. open_block s H. cbn [inv_shift_rows]. by close_block. Qed.

Lemma block_inv_sub s : is_block s → is_block (map inv_sbox s).
Proof.
  intros [Hl Hb]. split; [by rewrite length_map|]. apply Forall_map. eapply Forall_impl; [exact Hb|]. intros b Hx.
  assert ((0 <=? inv_sbox b) && (inv_sbox b <? 256) = true) as [H1 H2]%andb_prop; [|unfold byte; lia].
  apply (all_below_spec 256 (λ b, (0 <=? inv_sbox b) && (inv_sbox b <? 256))); [vm_compute; reflexivity|exact Hx].
Qed.

Lemma block_decrypt ks s : Forall is_block ks → is_block s → is_block (aes_decrypt ks s).
Proof.
  assert (∀ ks, Forall is_block ks → ∀ s, is_block s → is_block (decipher_rounds ks s)) as Hd.
  { clear. induction 1 as [|k ks Hk Hks IH]; intros s Hs; [done|]. destruct ks as [|k' ks].
    - cbn [decipher_rounds]. apply block_inv_sub, block_inv_shift. by apply block_add.
    - change (decipher_rounds (k :: k' :: ks) s) with (map inv_sbox (inv_shift_rows (columns inv_mix_column (add_key k (decipher_rounds (k' :: ks) s))))).
      apply block_inv_sub, block_inv_shift, block_inv_columns. apply block_add; auto. }
  intros Hks Hs. destruct ks as [|k ks]; [done|]. apply Forall_cons in Hks as [Hk Hks]. cbn. apply block_add; auto.
Qed.

(** *** The round keys of a key are blocks *)
Lemma chunks_concat {A} n (bs : list (list A)) : ∀ fuel,
  (0 < n)%nat → Forall (λ b, length b = n) bs → (length bs ≤ fuel)%nat → chunks n fuel (concat bs) = bs.
Proof.
  induction bs as [|b bs IH]; intros fuel Hn Hb Hf; [by destruct fuel|]. apply Forall_cons in Hb as [Hb Hbs].
  destruct fuel as [|fuel]; [simpl in Hf; lia|]. cbn [concat]. destruct b as [|x b]; [simpl in Hb; lia|].
  cbn [chunks app]. change (x :: b ++ concat bs) with ((x :: b) ++ concat bs).
  rewrite take_app_length' by done. rewrite drop_app_length' by done. rewrite IH; [done|done|done|simpl in Hf; lia].
Qed.

Lemma chunks_spec {A} n m : ∀ (l : list A) fuel,
  (0 < n)%nat → length l = (n * m)%nat → (m ≤ fuel)%nat →
  length (chunks n fuel l) = m ∧ Forall (λ b, length b = n) (chunks n fuel l) ∧ concat (chunks n fuel l) = l.
Proof.
  induction m as [|m IH]; intros l fuel Hn Hl Hf.
  { rewrite Nat.mul_0_r in Hl. apply nil_length_inv in Hl as ->. by destruct fuel. }
  destruct fuel as [|fuel]; [lia|]. destruct l as [|x l]; [simpl in Hl; lia|].
  assert (length (drop n (x :: l)) = (n * m)%nat) as Hd by (rewrite length_drop; lia).
  destruct (IH (drop n (x :: l)) fuel Hn Hd ltac:(lia)) as (H1 & H2 & H3).
  change (chunks n (S fuel) (x :: l)) with (take n (x :: l) :: chunks n fuel (drop n (x :: l))). cbn [length concat].
  split_and!; [by rewrite H1|constructor; [rewrite length_take; lia|done]|by rewrite H3, take_drop].
Qed.

Definition word (w : list Z) : Prop := length w = 4%nat ∧ Forall byte w.

Lemma word_xor u v : word u → word v → word (zip_with Z.lxor u v).
Proof.
  intros [Hlu Hu] [Hlv Hv]. split; [rewrite length_zip_with; lia|]. clear Hlu Hlv. revert v Hv.
  induction Hu as [|a u Ha _ IH]; intros v Hv; [constructor|]. destruct Hv; constructor; [by apply byte_lxor|by apply IH].
Qed.

Lemma word_sub w : word w → word (sub_word w).
Proof. intros [Hl Hw]. unfold sub_word. split; [by rewrite length_map|]. apply Forall_map. eapply Forall_impl; [exact Hw|]. intros b. apply sbox_spec. Qed.

Lemma word_rot w : word w → word (rot_word w).
Proof.
  intros [Hl Hw]. destruct w as [|a w]; [done|]. apply Forall_cons in Hw as [Ha Hw]. split; [cbn; rewrite length_app; simpl in *; lia|].
  apply Forall_app. by split; [|constructor].
Qed.

Lemma expand_words n : ∀ i nk rcon ws,
  (0 < nk)%nat → byte rcon → (nk ≤ length ws)%nat → Forall word ws →
  Forall word (expand n i nk rcon ws) ∧ length (expand n i nk rcon ws) = (n + length ws)%nat.
Proof.
  induction n as [|n IH]; intros i nk rcon ws Hnk Hr Hl Hw; [done|]. cbn [expand].
  assert (∀ j, (j < length ws)%nat → word (nth j ws [])) as Hnth.
  { intros j Hj. rewrite Forall_lookup in Hw. destruct (lookup_lt_is_Some_2 ws j Hj) as [w Hj'].
    rewrite (nth_lookup_Some _ _ _ _ Hj'). by eapply Hw. }
  assert (word [rcon; 0; 0; 0]) as Hrc by (split; [done|]; repeat constructor; unfold byte in *; lia).
  destruct (IH (S i) nk (if (i mod nk =? 0)%nat then xtime rcon else rcon)
    (zip_with Z.lxor (nth (nk - 1) ws []) (if (i mod nk =? 0)%nat then zip_with Z.lxor (sub_word (rot_word (nth 0 ws []))) [rcon; 0; 0; 0]
             else if ((6 <? nk) && (i mod nk =? 4))%nat then sub_word (nth 0 ws []) else nth 0 ws []) :: ws)) as [H1 H2].
  - done.
  - destruct (_ =? _)%nat; [by apply byte_xtime|done].
  - simpl. lia.
  - constructor; [|done]. apply word_xor; [apply Hnth; lia|]. assert (word (nth 0 ws [])) as H0 by (apply Hnth; lia).
    destruct (_ =? _)%nat; [apply word_xor; [by apply word_sub, word_rot|done]|]. destruct (_ && _); [by apply word_sub|done].
  - split; [exact H1|]. rewrite H2. simpl. lia.
Qed.

Lemma Forall_concat_rev {A} (P : A → Prop) (bs : list (list A)) : Forall P (concat bs) → Forall (Forall P) bs.
Proof. induction bs as [|b bs IH]; [constructor|]. intros [? ?]%Forall_app. constructor; auto. Qed.

Definition key_ok (key : list Z) : Prop := Forall byte key ∧ length key ∈ [16; 24; 32]%nat.

Lemma round_keys_blocks key : key_ok key → Forall is_block (round_keys key).
Proof.
  intros [Hb Hl]. set (nk := (length key / 4)%nat).
  assert (length key = (4 * nk)%nat ∧ (4 ≤ nk ≤ 8)%nat) as [Hk Hnk].
  { subst nk. rewrite !elem_of_cons, elem_of_nil in Hl. destruct Hl as [->|[->|[->|[]]]]; cbn; lia. }
  destruct (chunks_spec 4 nk key 8 ltac:(lia) Hk ltac:(lia)) as (Hc1 & Hc2 & Hc3).
  assert (Forall word (chunks 4 8 key)) as Hw.
  { rewrite <-Hc3 in Hb. apply Forall_concat_rev in Hb. apply Forall_forall. intros w Hin. rewrite Forall_forall in Hb, Hc2. by split; auto. }
  unfold round_keys. fold nk. destruct (expand_words (4 * (nk + 7) - nk) nk nk 1 (rev (chunks 4 8 key))) as [He Hel].
  { lia. } { done. } { by rewrite length_rev, Hc1. } { by apply Forall_rev. }
  rewrite length_rev, Hc1 in Hel. set (ws := rev (expand _ _ _ _ _)).
  assert (length ws = (4 * (nk + 7))%nat) as Hws by (unfold ws; rewrite length_rev, Hel; lia).
  assert (Forall word ws) as Hww by (by apply Forall_rev).
  destruct (chunks_spec 4 (nk + 7) ws 15 ltac:(lia) Hws ltac:(lia)) as (Hd1 & Hd2 & Hd3).
  rewrite <-Hd3 in Hww. apply Forall_concat_rev in Hww. apply Forall_map, Forall_forall. intros l Hin.
  rewrite Forall_forall in Hd2, Hww. specialize (Hd2 l Hin). specialize (Hww l Hin). clear -Hd2 Hww.
  do 4 (destruct l as [|? l]; [discriminate Hd2|]). destruct l; [|discriminate Hd2].
  repeat match goal with H : Forall word (_ :: _) |- _ => apply Forall_cons in H as [[? ?] H] end.
  cbn [flat_map]. unfold id. split; [rewrite !length_app; simpl; lia|]. rewrite !Forall_app. by split_and!.
Qed.

(** ** CBC mode *)
Fixpoint cbc_encrypt (ks : list (list Z)) (iv : list Z) (bs : list (list Z)) : list (list Z) :=
  match bs with [] => [] | b :: bs => let c := aes_encrypt ks (add_key iv b) in c :: cbc_encrypt ks c bs end.
Fixpoint cbc_decrypt (ks : list (list Z)) (iv : list Z) (bs : list (list Z)) : list (list Z) :=
  match bs with [] => [] | c :: bs => add_key iv (aes_decrypt ks c) :: cbc_decrypt ks c bs end.

(** [CryptBlocks]; [None] is its panic, when the text is no whole number of
    blocks. *)
Definition crypt_blocks (f : list (list Z) → list (list Z)) (l : list Z) : option (list Z) :=
  if (length l mod 16 =? 0)%nat then Some (concat (f (chunks 16 (length l) l))) else None.

Lemma cbc_roundtrip ks bs : Forall is_block ks → ∀ iv, is_block iv → Forall is_block bs →
  Forall is_block (cbc_encrypt ks iv bs) ∧ length (cbc_encrypt ks iv bs) = length bs ∧ cbc_decrypt ks iv (cbc_encrypt ks iv bs) = bs.
Proof.
  intros Hks. induction bs as [|b bs IH]; intros iv Hiv Hbs; [done|]. apply Forall_cons in Hbs as [Hb Hbs]. cbn.
  destruct (block_add iv b Hiv Hb) as [B1 E1]. destruct (aes_decrypt_encrypt ks _ Hks B1) as [B2 E2].
  destruct (IH _ B2 Hbs) as (H1 & H2 & H3). split_and!; [by constructor|by rewrite H2|by rewrite E2, E1, H3].
Qed.

(** Encrypting whole blocks of bytes gives as many bytes, which decrypt to
    them. *)
Lemma crypt_roundtrip key iv l m :
  key_ok key → is_block iv → Forall byte l → length l = (16 * m)%nat →
  ∃ e, crypt_blocks (cbc_encrypt (round_keys key) iv) l = Some e ∧ Forall byte e ∧ length e = length l ∧
    crypt_blocks (cbc_decrypt (round_keys key) iv) e = Some l.
Proof.
  intros Hkey Hiv Hb Hl. pose proof (round_keys_blocks key Hkey) as Hks.
  destruct (chunks_spec 16 m l (length l) ltac:(lia) Hl ltac:(lia)) as (Hc1 & Hc2 & Hc3). set (bs := chunks 16 (length l) l) in *.
  assert (Forall is_block bs) as Hbs.
  { rewrite <-Hc3 in Hb. apply Forall_concat_rev in Hb. apply Forall_forall. intros b Hin. rewrite Forall_forall in Hb, Hc2. by split; auto. }
  destruct (cbc_roundtrip _ bs Hks iv Hiv Hbs) as (H1 & H2 & H3). set (es := cbc_encrypt (round_keys key) iv bs) in *.
  assert (∀ x : list (list Z), Forall is_block x → length (concat x) = (16 * length x)%nat ∧ Forall byte (concat x)) as Hcat.
  { clear. induction 1 as [|b x [Hb1 Hb2] _ [IH1 IH2]]; [done|]. cbn. rewrite length_app, Forall_app. split; [lia|done]. }
  destruct (Hcat es H1) as [Hel Heb]. assert (length (concat es) = length l) as Hlen by (rewrite Hel, H2, Hc1; lia).
  assert (∀ n : nat, n = (16 * m)%nat → (n mod 16 =? 0)%nat = true) as Hmod.
  { intros n ->. apply Nat.eqb_eq. rewrite Nat.mul_comm. apply Nat.Div0.mod_mul. }
  exists (concat es). unfold crypt_blocks. rewrite Hlen, !(Hmod (length l)) by done. split_and!; try done.
  rewrite <-Hlen, chunks_concat; [by rewrite H3, Hc3|lia| |lia].
  eapply Forall_impl; [exact H1|]. by intros b [? _].
Qed.

Lemma Forall_chunks l m : Forall byte l → length l = (16 * m)%nat → Forall is_block (chunks 16 (length l) l).
Proof.
  intros Hb Hl. destruct (chunks_spec 16 m l (length l) ltac:(lia) Hl ltac:(lia)) as (_ & Hc2 & Hc3).
  rewrite <-Hc3 in Hb. apply Forall_concat_rev in Hb. apply Forall_forall. intros b Hin. rewrite Forall_forall in Hb, Hc2. by split; auto.
Qed.

(** Deciphering never panics on whole blocks, and gives bytes. *)
Lemma decrypt_bytes key iv l :
  key_ok key → is_block iv → Forall byte l → (length l mod 16 = 0)%nat →
  ∃ p, crypt_blocks (cbc_decrypt (round_keys key) iv) l = Some p ∧ Forall byte p.
Proof.
  intros Hk Hiv Hb Hl. unfold crypt_blocks. rewrite Hl. eexists. split; [reflexivity|].
  apply Nat.Div0.mod_divides in Hl as [m Hm]. pose proof (Forall_chunks l m Hb Hm) as Hbs. revert iv Hiv.
  induction Hbs as [|b bs Hblk _ IH]; intros iv Hiv; [constructor|]. cbn. apply Forall_app. split; [|by apply IH].
  apply block_add; [done|]. apply block_decrypt; [by apply round_keys_blocks|done].
Qed.
