(* ===== verification/Md5.v ===== *)
(** * crypto/md5

    The digest, executable on bytes and checked against the vectors of
    RFC 1321. *)
From Stdlib Require Import String Ascii.
From S2P Require Import Prelude GoStrings Strconv Json JsonString Sha256 Cipher.
From stdpp Require Import list.

Local Open Scope Z_scope.

(** The integer parts of 2^32 |sin i|. *)
Definition md5_constants : list Z :=
  [3614090360; 3905402710; 606105819; 3250441966; 4118548399; 1200080426; 2821735955; 4249261313;
   1770035416; 2336552879; 4294925233; 2304563134; 1804603682; 4254626195; 2792965006; 1236535329;
   4129170786; 3225465664; 643717713; 3921069994; 3593408605; 38016083; 3634488961; 3889429448;
   568446438; 3275163606; 4107603335; 1163531501; 2850285829; 4243563512; 1735328473; 2368359562;
   4294588738; 2272392833; 1839030562; 4259657740; 2763975236; 1272893353; 4139469664; 3200236656;
   681279174; 3936430074; 3572445317; 76029189; 3654602809; 3873151461; 530742520; 3299628645;
   4096336452; 1126891415; 2878612391; 4237533241; 1700485571; 2399980690; 4293915773; 2240044497;
   1873313359; 4264355552; 2734768916; 1309151649; 4149444226; 3174756917; 718787259; 3951481745].

Definition md5_shifts : list Z :=
  [7; 12; 17; 22; 7; 12; 17; 22; 7; 12; 17; 22; 7; 12; 17; 22;
   5; 9; 14; 20; 5; 9; 14; 20; 5; 9; 14; 20; 5; 9; 14; 20;
   4; 11; 16; 23; 4; 11; 16; 23; 4; 11; 16; 23; 4; 11; 16; 23;
   6; 10; 15; 21; 6; 10; 15; 21; 6; 10; 15; 21; 6; 10; 15; 21].

(** A step's function of three words, and the index of the word it adds. *)
Definition md5_mix (t : nat) (b c d : Z) : Z * nat :=
  if (t <? 16)%nat then (ch b c d, t)
  else if (t <? 32)%nat then (ch d b c, ((5 * t + 1) mod 16)%nat)
  else if (t <? 48)%nat then (Z.lxor (Z.lxor b c) d, ((3 * t + 5) mod 16)%nat)
  else (Z.lxor c (Z.lor b (not32 d)), ((7 * t) mod 16)%nat).

Definition md5_step (m : list Z) (st : list Z) (t : nat) : list Z :=
  match st with
  | [a; b; c; d] =>
    let '(f, g) := md5_mix t b c d in
    [d; mask32 (b + rotl32 (nth t md5_shifts 0) (mask32 (a + f + nth t md5_constants 0 + nth g m 0))); b; c]
  | _ => st
  end.

Definition md5_block (m h : list Z) : list Z := zip_with (λ a b, mask32 (a + b)) h (foldl (md5_step m) h (seq 0 64)).

(** Little-endian words and their bytes. *)
Fixpoint le_words (l : list Z) : list Z :=
  match l with
  | a :: b :: c :: d :: l => (((d * 256 + c) * 256 + b) * 256 + a) :: le_words l
  | _ => []
  end.
Definition le_bytes (n : nat) (z : Z) : list Z := rev (be_bytes n z).

Definition md5_pad (msg : list Z) : list Z :=
  let len := Z.of_nat (length msg) in
  msg ++ [128] ++ replicate (Z.to_nat ((55 - len) mod 64)) 0 ++ le_bytes 8 (8 * len).

Fixpoint md5_blocks (fuel : nat) (l h : list Z) : list Z :=
  match fuel, l with
  | S fuel, _ :: _ => md5_blocks fuel (drop 16 l) (md5_block (take 16 l) h)
  | _, _ => h
  end.

(** [md5.Sum] *)
Definition md5_sum (msg : list Z) : list Z :=
  let w := le_words (md5_pad msg) in
  flat_map (le_bytes 4) (md5_blocks (length w) w [1732584193; 4023233417; 2562383102; 271733878]).

Definition md5_hex (msg : list Z) : string := hex_encode (string_of_bytes (md5_sum msg)).

Example md5_vectors :
  map (λ s, md5_hex (bytes_of s)) [""; "a"; "message digest"; "12345678901234567890123456789012345678901234567890123456789012345678901234567890"]%string =
  ["d41d8cd98f00b204e9800998ecf8427e"; "0cc175b9c0f1b6a831c399e269772661"; "f96b697d7cb7938d525a2f31aaf161d0"; "57edf4a22be3c955ac49da2e2107b67a"]%string.
Proof. vm_compute. reflexivity. Qed.
