(* ===== verification/Url.v ===== *)
(** * net/url: parsing, printing, queries

    The parts of a URL, their escaping, and a query's encoding, as the clients
    use them.  A host with a bracket is an IP literal, which net/netip reads: a
    parameter, the function [ip_host] from the text of the host to what it stands
    for.  The texts of errors are not kept. *)
From Stdlib Require Import String Ascii.
From S2P Require Import Prelude GoStrings Strconv Json JsonString Sha256 Cipher.
From stdpp Require Import list.

Local Open Scope Z_scope.

Definition err_url : error := new_error "invalid url".

(** ** Escaping *)
Inductive encoding := encodePath | encodeHost | encodeZone | encodeUserPassword | encodeQueryComponent | encodeFragment.

#[export] Instance encoding_eq_dec : EqDecision encoding.
Proof. solve_decision. Defined.

Definition one_of (c : ascii) (s : string) : bool := existsb (Z.eqb (code c)) (bytes_of s).

Definition alphanumeric (c : ascii) : bool := JsonString.between 65 (code c) 90 || JsonString.between 97 (code c) 122 || JsonString.between 48 (code c) 57.

(** The double quote, which no string constant of ours holds. *)
Definition double_quote (c : ascii) : bool := code c =? 34.

Definition shouldEscape (c : ascii) (mode : encoding) : bool :=
  if alphanumeric c then false
  else if bool_decide (mode ∈ [encodeHost; encodeZone]) && (one_of c "!$&'()*+,;=:[]<>" || double_quote c) then false
  else if one_of c "-_.~" then false
  else if one_of c "$&+,/:;=?@" then
    match mode with
    | encodePath => one_of c "?"
    | encodeUserPassword => one_of c "@/?:"
    | encodeQueryComponent => true
    | encodeFragment => false
    | encodeHost | encodeZone => true
    end
  else if bool_decide (mode = encodeFragment) && one_of c "!()*" then false
  else true.

Definition upper_hex (n : Z) : ascii := if n <? 10 then chr (48 + n) else chr (55 + n).

Fixpoint escape (mode : encoding) (s : string) : string :=
  match s with
  | EmptyString => EmptyString
  | String c s =>
    if negb (shouldEscape c mode) then String c (escape mode s)
    else if (code c =? 32) && bool_decide (mode = encodeQueryComponent) then String "+" (escape mode s)
    else String "%" (String (upper_hex (code c / 16)) (String (upper_hex (code c mod 16)) (escape mode s)))
  end.

(** What a percent sign and two digits may stand for in a mode. *)
Definition escape_allowed (mode : encoding) (a b : ascii) : bool :=
  let v := hex_val a * 16 + hex_val b in
  let percent := v =? 37 in
  match mode with
  | encodeHost => negb (hex_val a <? 8) || percent
  | encodeZone => percent || (v =? 32) || negb (shouldEscape (chr v) encodeHost)
  | _ => true
  end.

Fixpoint unescape (mode : encoding) (s : string) : option string :=
  match s with
  | EmptyString => Some EmptyString
  | String c r =>
    if bool_decide (c = "%"%char) then
      match r with
      | String a (String b r) =>
        if is_hex a && is_hex b && escape_allowed mode a b then String (chr (hex_val a * 16 + hex_val b)) <$> unescape mode r else None
      | _ => None
      end
    else if bool_decide (c = "+"%char) && bool_decide (mode = encodeQueryComponent) then String " " <$> unescape mode r
    else if bool_decide (mode ∈ [encodeHost; encodeZone]) && (code c <? 128) && shouldEscape c mode then None
    else String c <$> unescape mode r
  end.

Definition QueryEscape : string → string := escape encodeQueryComponent.
Definition QueryUnescape : string → option string := unescape encodeQueryComponent.

(** ** Cutting *)

(** [strings.Cut] at a byte: what is before it and, when it is there, after it. *)
Fixpoint cut (sep : ascii) (s : string) : string * option string :=
  match s with
  | EmptyString => (EmptyString, None)
  | String c r => if bool_decide (c = sep) then (EmptyString, Some r) else let '(a, b) := cut sep r in (String c a, b)
  end.

(** At the last occurrence: [None] when there is none. *)
Definition cut_last (sep : ascii) (s : string) : option (string * string) :=
  match cut sep (srev s) with (after, Some before) => Some (srev before, srev after) | (_, None) => None end.

Definition has (c : ascii) (s : string) : bool := match (cut c s).2 with Some _ => true | None => false end.

(** ** Queries: [url.Values]

    The pairs in their order; only the order of one key's values matters. *)
Abbreviation Values := (list (string * string)).

Definition set_value (k v : string) (l : Values) : Values := filter (λ m, m.1 ≠ k) l ++ [(k, v)].
Definition add_value (k v : string) (l : Values) : Values := l ++ [(k, v)].
(** [Get]: the first value, empty when there is none. *)
Definition get_value (k : string) (l : Values) : string :=
  match filter (λ m, m.1 = k) l with m :: _ => m.2 | [] => EmptyString end.

Fixpoint insert_pair (m : string * string) (l : Values) : Values :=
  match l with [] => [m] | m' :: l => if (m.1 <=? m'.1)%string then m :: m' :: l else m' :: insert_pair m l end.
Definition sort_values (l : Values) : Values := foldr insert_pair [] l.

Fixpoint join_with (sep : string) (l : list string) : string :=
  match l with [] => EmptyString | [s] => s | s :: l => (s ++ sep ++ join_with sep l)%string end.

(** [Values.Encode] sorts by key. *)
Definition pair_text (m : string * string) : string := (QueryEscape m.1 ++ "=" ++ QueryEscape m.2)%string.
Definition encode_values (l : Values) : string := join_with "&" (map pair_text (sort_values l)).

(** One part of a query between ampersands: nothing is stored for an empty part,
    and for one that is malformed. *)
Definition query_part (s : string) : Values :=
  if has ";" s || bool_decide (s = EmptyString) then []
  else
    let '(k, v) := cut "=" s in
    match QueryUnescape k, QueryUnescape (default EmptyString v) with Some k, Some v => [(k, v)] | _, _ => [] end.

Fixpoint parse_query (fuel : nat) (s : string) : Values :=
  match fuel, s with
  | S fuel, String _ _ => let '(a, r) := cut "&" s in query_part a ++ parse_query fuel (default EmptyString r)
  | _, _ => []
  end.

(** [ParseQuery] with its error ignored, as [URL.Query] does; every step
    consumes a byte. *)
Definition ParseQuery (s : string) : Values := parse_query (String.length s) s.

(** ** URLs *)
Record URL := MkURL {
  u_Scheme : string;
  u_Opaque : string;
  u_User : option (string * option string);
  u_Host : string;
  u_Path : string;
  u_RawPath : string;
  u_OmitHost : bool;
  u_ForceQuery : bool;
  u_RawQuery : string;
  u_Fragment : string;
  u_RawFragment : string
}.

Definition zero_url : URL := MkURL "" "" None "" "" "" false false "" "" "".
Definition with_host (user : option (string * option string)) (host : string) (omit : bool) (u : URL) : URL :=
  MkURL (u_Scheme u) (u_Opaque u) user host (u_Path u) (u_RawPath u) omit (u_ForceQuery u) (u_RawQuery u) (u_Fragment u) (u_RawFragment u).
Definition with_path (path raw : string) (u : URL) : URL :=
  MkURL (u_Scheme u) (u_Opaque u) (u_User u) (u_Host u) path raw (u_OmitHost u) (u_ForceQuery u) (u_RawQuery u) (u_Fragment u) (u_RawFragment u).
(** Assigning [url.Path], which keeps RawPath; assigning [url.RawQuery]. *)
Definition set_path (path : string) (u : URL) : URL := with_path path (u_RawPath u) u.
Definition set_query (q : string) (u : URL) : URL :=
  MkURL (u_Scheme u) (u_Opaque u) (u_User u) (u_Host u) (u_Path u) (u_RawPath u) (u_OmitHost u) (u_ForceQuery u) q (u_Fragment u) (u_RawFragment u).
Definition with_fragment (frag raw : string) (u : URL) : URL :=
  MkURL (u_Scheme u) (u_Opaque u) (u_User u) (u_Host u) (u_Path u) (u_RawPath u) (u_OmitHost u) (u_ForceQuery u) (u_RawQuery u) frag raw.

(** *** Parsing *)
Definition control (c : ascii) : bool := (code c <? 32) || (code c =? 127).
Definition letter (c : ascii) : bool := JsonString.between 65 (code c) 90 || JsonString.between 97 (code c) 122.

(** [getScheme]: [first] at the first byte, [acc] the bytes read, reversed. *)
Fixpoint get_scheme (raw : string) (acc : list ascii) (s : string) : option (string * string) :=
  match s with
  | EmptyString => Some (EmptyString, raw)
  | String c r =>
    if letter c then get_scheme raw (c :: acc) r
    else if is_digit c || one_of c "+-." then match acc with [] => Some (EmptyString, raw) | _ => get_scheme raw (c :: acc) r end
    else if bool_decide (c = ":"%char) then
      match acc with [] => None | _ => Some (foldl (λ s c, String c s) EmptyString acc, r) end
    else Some (EmptyString, raw)
  end.

Definition all_digits (s : string) : bool := forallb (λ b, JsonString.between 48 b 57) (bytes_of s).
Definition validUserinfo (s : string) : bool :=
  forallb (λ b, alphanumeric (chr b) || one_of (chr b) "-._:~!$&'()*+,;=%@") (bytes_of s).

Section parse.
Variable ip_host : string → option string.

Definition parse_host (host : string) : option string :=
  if has "[" host then ip_host host
  else match cut_last ":" host with
  | Some (_, port) => if all_digits port then unescape encodeHost host else None
  | None => unescape encodeHost host
  end.

Definition parse_user (s : string) : option (string * option string) :=
  if validUserinfo s then
    match cut ":" s with
    | (name, None) => n ← unescape encodeUserPassword name; Some (n, None)
    | (name, Some password) => n ← unescape encodeUserPassword name; p ← unescape encodeUserPassword password; Some (n, Some p)
    end
  else None.

Definition parse_authority (s : string) : option (option (string * option string) * string) :=
  match cut_last "@" s with
  | None => h ← parse_host s; Some (None, h)
  | Some (user, host) => h ← parse_host host; u ← parse_user user; Some (Some u, h)
  end.

Definition setPath (p : string) (u : URL) : option URL :=
  path ← unescape encodePath p;
  Some (with_path path (if bool_decide (escape encodePath path = p) then EmptyString else p) u).

Definition setFragment (f : string) (u : URL) : option URL :=
  frag ← unescape encodeFragment f;
  Some (with_fragment frag (if bool_decide (escape encodeFragment frag = f) then EmptyString else f) u).

(** The query cut from the rest: a lone question mark at the end is kept in a
    flag. *)
Definition split_query (rest : string) : string * bool * string :=
  match cut "?" rest with
  | (before, Some EmptyString) => (before, true, EmptyString)
  | (before, Some q) => (before, false, q)
  | (before, None) => (before, false, EmptyString)
  end.

Definition parse_rest (scheme rest : string) : option URL :=
  let '(rest, force, query) := split_query rest in
  let u := MkURL scheme "" None "" "" "" false force query "" "" in
  if negb (HasPrefix rest "/") && negb (bool_decide (scheme = EmptyString)) then
    Some (MkURL scheme rest None "" "" "" false force query "" "")
  else if negb (HasPrefix rest "/") && has ":" (cut "/" rest).1 then None
  else if (negb (bool_decide (scheme = EmptyString)) || negb (HasPrefix rest "///")) && HasPrefix rest "//" then
    let '(authority, path) := cut "/" (skip 2 rest) in
    '(user, host) ← parse_authority authority;
    setPath (match path with Some p => String "/" p | None => EmptyString end) (with_host user host false u)
  else if negb (bool_decide (scheme = EmptyString)) && HasPrefix rest "/" then setPath rest (with_host None "" true u)
  else setPath rest u.

Definition parse_no_fragment (s : string) : option URL :=
  if existsb (λ b, control (chr b)) (bytes_of s) then None
  else if bool_decide (s = "*"%string) then Some (with_path "*" "" zero_url)
  else
    '(scheme, rest) ← get_scheme s [] s;
    parse_rest (ToLower scheme) rest.

Definition Parse (rawURL : string) : result URL :=
  let '(s, frag) := cut "#" rawURL in
  match (u ← parse_no_fragment s;
         match frag with None | Some EmptyString => Some u | Some f => setFragment f u end) with
  | Some u => Ok u
  | None => Fail err_url
  end.
End parse.

(** *** Printing *)
Definition validEncoded (s : string) (mode : encoding) : bool :=
  forallb (λ b, one_of (chr b) "!$&'()*+,;=:@[]%" || negb (shouldEscape (chr b) mode)) (bytes_of s).

(** The hint of the original text when it still stands for the value. *)
Definition escaped_with (mode : encoding) (value raw : string) : string :=
  if negb (bool_decide (raw = EmptyString)) && validEncoded raw mode && bool_decide (unescape mode raw = Some value) then raw
  else if bool_decide (value = "*"%string) && bool_decide (mode = encodePath) then "*"%string else escape mode value.

Definition EscapedPath (u : URL) : string := escaped_with encodePath (u_Path u) (u_RawPath u).
Definition EscapedFragment (u : URL) : string := escaped_with encodeFragment (u_Fragment u) (u_RawFragment u).

Definition user_text (u : string * option string) : string :=
  (escape encodeUserPassword u.1 ++ match u.2 with Some p => ":" ++ escape encodeUserPassword p | None => "" end)%string.

Definition scheme_text (u : URL) : string :=
  if bool_decide (u_Scheme u = EmptyString) then EmptyString else (u_Scheme u ++ ":")%string.

Definition authority_text (u : URL) : string :=
  let no_host := bool_decide (u_Host u = EmptyString) in
  let no_user := bool_decide (u_User u = None) in
  if bool_decide (u_Scheme u = EmptyString) && no_host && no_user then EmptyString
  else if u_OmitHost u && no_host && no_user then EmptyString
  else
    ((if negb no_host || negb (bool_decide (u_Path u = EmptyString)) || negb no_user then "//" else "") ++
     match u_User u with Some i => user_text i ++ "@" | None => "" end ++ escape encodeHost (u_Host u))%string.

Definition path_text (u : URL) : string :=
  let path := EscapedPath u in
  if negb (bool_decide (path = EmptyString)) && negb (HasPrefix path "/") && negb (bool_decide (u_Host u = EmptyString)) then ("/" ++ path)%string
  else if bool_decide (scheme_text u = EmptyString) && bool_decide (authority_text u = EmptyString) && has ":" (cut "/" path).1
  then ("./" ++ path)%string else path.

(** [URL.String] *)
Definition url_text (u : URL) : string :=
  (scheme_text u ++
   (if negb (bool_decide (u_Opaque u = EmptyString)) then u_Opaque u else authority_text u ++ path_text u) ++
   (if u_ForceQuery u || negb (bool_decide (u_RawQuery u = EmptyString)) then "?" ++ u_RawQuery u else "") ++
   (if negb (bool_decide (u_Fragment u = EmptyString)) then "#" ++ EscapedFragment u else ""))%string.

(** [base.ResolveReference(ref)] for a reference that is an absolute path
    without dot segments, and nothing else. *)
Definition resolve_path (base : URL) (path : string) : option URL :=
  setPath path (MkURL (u_Scheme base) "" (u_User base) (u_Host base) "" "" false false "" "" "").

(** ** Samples *)
Definition no_ip (_ : string) : option string := None.
Definition reprint (s : string) : option string := match Parse no_ip s with Ok u => Some (url_text u) | Fail _ => None end.

Example urls :
  map reprint ["https://Host:8080/a%2Fb/c?key=1&k=%20#frag x"; "HTTP://u:p%40@h/"; "mailto:a@b"; "/rel?"; "//h"; "a:b/c"; "1a:b"; ":x"; "http://h:x/";
    "http://a b/"; "http://%41/"; "file:///etc"; "*"; "a/b:c"; "http://h/%zz"; "http://[::1]/"]%string =
  [Some "https://Host:8080/a%2Fb/c?key=1&k=%20#frag%20x"; Some "http://u:p%40@h/"; Some "mailto:a@b"; Some "/rel?"; Some "//h"; Some "a:b/c"; None; None; None;
    None; None; Some "file:///etc"; Some "*"; Some "a/b:c"; None; None]%string.
Proof. vm_compute. reflexivity. Qed.

Example query_sample : encode_values [("corpsecret", "a b/c"); ("corpid", "ww1")]%string = "corpid=ww1&corpsecret=a+b%2Fc"%string.
Proof. vm_compute. reflexivity. Qed.

Example query_parsed : ParseQuery "a=1&b&&a=%20+x&c;d=1&%zz=1&=v" = [("a", "1"); ("b", ""); ("a", "  x"); ("", "v")]%string.
Proof. vm_compute. reflexivity. Qed.

(** ** Round trips *)
Definition plain_mode (mode : encoding) : bool := match mode with encodeHost | encodeZone => false | _ => true end.

Definition kept_ok (c : ascii) (mode : encoding) : bool :=
  shouldEscape c mode || (negb (bool_decide (c = "%"%char)) && negb (bool_decide (c = "+"%char) && bool_decide (mode = encodeQueryComponent)) &&
    negb (bool_decide (c = "&"%char) && bool_decide (mode = encodeQueryComponent)) &&
    negb (bool_decide (c = "="%char) && bool_decide (mode = encodeQueryComponent)) &&
    negb (bool_decide (c = ";"%char) && bool_decide (mode = encodeQueryComponent))).

Lemma kept_char c mode : kept_ok c mode = true.
Proof. destruct mode, c as [[] [] [] [] [] [] [] []]; vm_compute; reflexivity. Qed.

Definition hex_pair_ok (c : ascii) : bool :=
  let a := upper_hex (code c / 16) in
  let b := upper_hex (code c mod 16) in
  is_hex a && is_hex b && bool_decide (chr (hex_val a * 16 + hex_val b) = c) &&
  forallb (λ d, negb (bool_decide (a = d)) && negb (bool_decide (b = d))) ["&"; "="; ";"; "+"]%char.

Lemma hex_pair c : hex_pair_ok c = true.
Proof. destruct c as [[] [] [] [] [] [] [] []]; vm_compute; reflexivity. Qed.

(** What is escaped is unescaped to the same text. *)
Lemma unescape_escape mode s : plain_mode mode = true → unescape mode (escape mode s) = Some s.
Proof.
  intros Hm. induction s as [|c s IH]; [done|]. cbn [escape]. pose proof (kept_char c mode) as Hk. pose proof (hex_pair c) as Hh.
  unfold kept_ok in Hk. destruct (shouldEscape c mode) eqn:He; cbn [negb].
  - destruct ((code c =? 32) && _) eqn:Hs.
    + apply andb_true_iff in Hs as [Hc%Z.eqb_eq Hq%bool_decide_eq_true]. subst mode. cbn. rewrite IH. cbn. f_equal. f_equal.
      revert Hc. clear. destruct c as [[] [] [] [] [] [] [] []]; vm_compute; congruence.
    + unfold hex_pair_ok in Hh. apply andb_true_iff in Hh as [[[Ha Hb]%andb_true_iff Hv%bool_decide_eq_true]%andb_true_iff _].
      cbn [unescape]. rewrite bool_decide_eq_true_2, Ha, Hb, Hv by done. cbn [andb].
      assert (escape_allowed mode (upper_hex (code c / 16)) (upper_hex (code c mod 16)) = true) as -> by (by destruct mode). by rewrite IH.
  - cbn [orb] in Hk. rewrite !andb_true_iff, !negb_true_iff in Hk. destruct Hk as ((((Hp & Hplus) & _) & _) & _).
    cbn [unescape]. rewrite Hp, Hplus, IH. destruct mode; done.
Qed.

Lemma in_chars (c d : ascii) s :
  d ∈ list_ascii_of_string (String c s) ↔ d = c ∨ d ∈ list_ascii_of_string s.
Proof. cbn. by rewrite elem_of_cons. Qed.

(** An escaped component holds none of a query's separators. *)
Lemma escaped_separators s d : d ∈ ["&"; "="; ";"]%char → d ∉ list_ascii_of_string (QueryEscape s).
Proof.
  intros Hd. unfold QueryEscape. induction s as [|c s IH]; [apply not_elem_of_nil|]. cbn [escape].
  pose proof (kept_char c encodeQueryComponent) as Hk. pose proof (hex_pair c) as Hh. unfold kept_ok, hex_pair_ok in *.
  destruct (shouldEscape c encodeQueryComponent); cbn [negb].
  - apply andb_true_iff in Hh as [_ Hf]. rewrite forallb_forall in Hf.
    assert (d ≠ upper_hex (code c / 16) ∧ d ≠ upper_hex (code c mod 16)) as [H1 H2].
    { specialize (Hf d). rewrite <-list_elem_of_In in Hf. rewrite andb_true_iff, !negb_true_iff, !bool_decide_eq_false in Hf.
      assert (d ∈ ["&"; "="; ";"; "+"]%char) as Hin by set_solver. destruct (Hf Hin). auto. }
    case_match; rewrite !in_chars; intros Hx; repeat destruct Hx as [->|Hx]; try done; set_solver.
  - rewrite in_chars. intros [->|?]; [|done]. cbn in Hk. rewrite !andb_true_iff, !negb_true_iff, !bool_decide_eq_false in Hk. set_solver.
Qed.

Lemma cut_at (sep : ascii) a b : sep ∉ list_ascii_of_string a → cut sep (a ++ String sep b)%string = (a, Some b).
Proof.
  induction a as [|c a IH]; [intros _; cbn; by rewrite bool_decide_eq_true_2|]. rewrite in_chars. intros Hn.
  cbn. rewrite bool_decide_eq_false_2 by (intros ->; auto). by rewrite IH by auto.
Qed.

Lemma cut_absent (sep : ascii) a : sep ∉ list_ascii_of_string a → cut sep a = (a, None).
Proof.
  induction a as [|c a IH]; [done|]. rewrite in_chars. intros Hn.
  cbn. rewrite bool_decide_eq_false_2 by (intros ->; auto). by rewrite IH by auto.
Qed.

Lemma chars_app a b d : d ∈ list_ascii_of_string (a ++ b)%string ↔ d ∈ list_ascii_of_string a ∨ d ∈ list_ascii_of_string b.
Proof. induction a as [|c a IH]; [cbn; set_solver|]. change (String c a ++ b)%string with (String c (a ++ b)). rewrite !in_chars, IH. tauto. Qed.

Lemma pair_chars m d : d ∈ ["&"; ";"]%char → d ∉ list_ascii_of_string (pair_text m).
Proof.
  intros Hd. unfold pair_text. rewrite chars_app. change ("=" ++ ?x)%string with (String "=" x). rewrite in_chars.
  intros [H|[->|H]]; [by apply escaped_separators in H; set_solver|set_solver|by apply escaped_separators in H; set_solver].
Qed.

Lemma query_pair m : query_part (pair_text m) = [m].
Proof.
  unfold query_part, has. rewrite cut_absent by (apply pair_chars; set_solver). cbn [snd orb].
  rewrite bool_decide_eq_false_2 by (unfold pair_text; by destruct (QueryEscape m.1)).
  unfold pair_text. change ("=" ++ ?x)%string with (String "=" x). rewrite cut_at by (apply escaped_separators; set_solver).
  unfold QueryUnescape, QueryEscape. cbn [default]. unfold default. cbn. rewrite !unescape_escape by done. by destruct m.
Qed.

Lemma parse_query_pairs l fuel :
  (String.length (join_with "&" (map pair_text l)) ≤ fuel)%nat → parse_query fuel (join_with "&" (map pair_text l)) = l.
Proof.
  revert fuel. induction l as [|m l IH]; intros fuel Hf; [by destruct fuel|].
  assert (pair_text m ≠ EmptyString) as Hne by (unfold pair_text; by destruct (QueryEscape m.1)).
  destruct l as [|m' l].
  - cbn in Hf |- *. destruct (pair_text m) as [|c r] eqn:Hp; [done|]. destruct fuel; [cbn in Hf; lia|]. cbn [parse_query].
    rewrite <-Hp, cut_absent by (apply pair_chars; set_solver). rewrite query_pair. by destruct fuel.
  - change (join_with "&" (map pair_text (m :: m' :: l))) with (pair_text m ++ String "&" (join_with "&" (map pair_text (m' :: l))))%string in *.
    remember (join_with "&" (map pair_text (m' :: l))) as rest eqn:Hr.
    destruct (pair_text m) as [|c r] eqn:Hp; [done|]. destruct fuel; [cbn in Hf; lia|]. cbn [parse_query String.append].
    change (String c (r ++ String "&" rest)) with (String c r ++ String "&" rest)%string. rewrite <-Hp.
    rewrite cut_at by (apply pair_chars; set_solver). rewrite query_pair. cbn. f_equal. apply IH.
    cbn in Hf. rewrite slength_app in Hf. cbn in Hf. lia.
Qed.

(** Decoding an encoded query gives its pairs, sorted by key. *)
Lemma ParseQuery_encode l : ParseQuery (encode_values l) = sort_values l.
Proof. apply parse_query_pairs. done. Qed.

(** ** A query's values *)
Lemma string_leb_refl s : (s <=? s)%string = true.
Proof. by destruct (String.leb_total s s). Qed.

Lemma filter_insert_pair k m l : filter (λ p : string * string, p.1 = k) (insert_pair m l) = filter (λ p, p.1 = k) (m :: l).
Proof.
  induction l as [|m' l IH]; [done|]. cbn [insert_pair]. destruct (m.1 <=? m'.1)%string eqn:Hle; [done|].
  rewrite !filter_cons in *. rewrite IH. repeat case_decide; try done. assert (m.1 = m'.1) as He by congruence. rewrite He in Hle.
  by rewrite string_leb_refl in Hle.
Qed.

(** Sorting keeps the order of each key's values. *)
Lemma filter_sort_values k l : filter (λ p : string * string, p.1 = k) (sort_values l) = filter (λ p, p.1 = k) l.
Proof.
  induction l as [|m l IH]; [done|]. change (sort_values (m :: l)) with (insert_pair m (sort_values l)).
  by rewrite filter_insert_pair, !filter_cons, IH.
Qed.

Lemma get_value_sorted k l : get_value k (sort_values l) = get_value k l.
Proof. unfold get_value. by rewrite filter_sort_values. Qed.

Lemma get_set_value k v l : get_value k (set_value k v l) = v.
Proof.
  unfold get_value, set_value. rewrite filter_app. replace (filter (λ m : string * string, m.1 = k) (filter (λ m, m.1 ≠ k) l)) with (@nil (string * string)).
  - cbn. by rewrite decide_True.
  - symmetry. induction l as [|m l IH]; [done|]. rewrite filter_cons. case_decide; [|done]. rewrite filter_cons. by case_decide.
Qed.

Lemma get_set_other k k' v l : k ≠ k' → get_value k (set_value k' v l) = get_value k l.
Proof.
  intros Hk. unfold get_value, set_value. rewrite filter_app, list_filter_filter.
  rewrite (list_filter_iff (λ m : string * string, m.1 = k ∧ m.1 ≠ k') (λ m, m.1 = k)) by (intros; naive_solver).
  assert (filter (λ m : string * string, m.1 = k) [(k', v)] = []) as -> by (rewrite filter_cons; case_decide; naive_solver). by rewrite app_nil_r.
Qed.
