(* ===== verification/Filepath.v ===== *)
(** * path/filepath: cleaned paths

    [Clean] and [Join] on paths with slashes, and where a joined name ends up. *)
From Stdlib Require Import String Ascii.
From S2P Require Import Prelude GoStrings Strconv Url.
From stdpp Require Import list.

(** The parts of a path between its slashes: the first one and the others. *)
Fixpoint split_path (p : string) : string * list string :=
  match p with
  | EmptyString => (EmptyString, [])
  | String c r =>
    let '(a, l) := split_path r in if bool_decide (c = "/"%char) then (EmptyString, a :: l) else (String c a, l)
  end.
Definition path_parts (p : string) : list string := (split_path p).1 :: (split_path p).2.

(** One part on the parts kept so far, the last one first. *)
Definition clean_part (rooted : bool) (stack : list string) (part : string) : list string :=
  if bool_decide (part = EmptyString) || bool_decide (part = "."%string) then stack
  else if bool_decide (part = ".."%string) then
    match stack with
    | top :: rest => if bool_decide (top = ".."%string) then part :: stack else rest
    | [] => if rooted then [] else [part]
    end
  else part :: stack.

Definition rooted (p : string) : bool := HasPrefix p "/".
Definition kept_parts (p : string) : list string := rev (foldl (clean_part (rooted p)) [] (path_parts p)).

Definition path_of (root : bool) (parts : list string) : string :=
  if root then ("/" ++ join_with "/" parts)%string else match parts with [] => "."%string | _ => join_with "/" parts end.

(** [filepath.Clean] *)
Definition Clean (p : string) : string := path_of (rooted p) (kept_parts p).

(** [filepath.Join] of a directory and a name. *)
Definition Join (dir name : string) : string :=
  if bool_decide (dir = EmptyString) then if bool_decide (name = EmptyString) then EmptyString else Clean name
  else Clean (dir ++ "/" ++ name).

Example clean_paths :
  map Clean [""; "/"; "a//b/./c/"; "../a/../../b"; "/../a/.."; "a/.."; "./x"; "/a/b/../../../c"]%string =
  ["."; "/"; "a/b/c"; "../../b"; "/"; "."; "x"; "/c"]%string.
Proof. vm_compute. reflexivity. Qed.

(** ** A name joined to a directory *)
Definition no_slash (s : string) : Prop := "/"%char ∉ list_ascii_of_string s.

(** A name that stays where it is put. *)
Definition entry_name (s : string) : Prop := no_slash s ∧ s ∉ [""; "."; ".."]%string.

(** The entry of a cleaned directory. *)
Definition entry (dir name : string) : string :=
  if bool_decide (dir = "/"%string) then ("/" ++ name)%string
  else if bool_decide (dir = "."%string) then name else (dir ++ "/" ++ name)%string.

Lemma path_parts_app a b : path_parts (a ++ "/" ++ b) = path_parts a ++ path_parts b.
Proof.
  unfold path_parts. change ("/" ++ b)%string with (String "/" b). induction a as [|c a IH]; [cbn; by destruct (split_path b)|].
  change (String c a ++ String "/" b)%string with (String c (a ++ String "/" b)). cbn [split_path].
  destruct (split_path (a ++ String "/" b)) as [x l], (split_path a) as [y m]. cbn [fst snd app] in *. case_bool_decide; cbn [fst snd app]; congruence.
Qed.

Lemma path_parts_plain s : no_slash s → path_parts s = [s].
Proof.
  unfold no_slash, path_parts. induction s as [|c s IH]; [done|]. rewrite in_chars. intros Hn. cbn.
  destruct (split_path s) as [a l]. cbn in IH. specialize (IH ltac:(auto)). injection IH as -> ->.
  rewrite bool_decide_eq_false_2; [done|]. intros ->. auto.
Qed.

Lemma parts_no_slash p : Forall no_slash (path_parts p).
Proof.
  unfold no_slash, path_parts. induction p as [|c p IH]; [constructor; [apply not_elem_of_nil|constructor]|]. cbn.
  destruct (split_path p) as [a l]. cbn in IH. case_bool_decide as Hc; cbn; [constructor; [apply not_elem_of_nil|done]|].
  apply Forall_cons in IH as [Ha Hl]. constructor; [|done]. rewrite in_chars. intros [He|?]; [by symmetry in He|auto].
Qed.

(** What is kept of a path: parts with a text, other than a dot, without a
    slash. *)
Definition kept_part (s : string) : Prop := no_slash s ∧ s ≠ EmptyString ∧ s ≠ "."%string.

Lemma clean_parts_kept root l stack :
  Forall no_slash l → Forall kept_part stack → Forall kept_part (foldl (clean_part root) stack l).
Proof.
  revert stack. induction l as [|a l IH]; intros stack Hl Hs; [done|]. apply Forall_cons in Hl as [Ha Hl]. cbn. apply IH; [done|].
  unfold clean_part. destruct (bool_decide (a = EmptyString) || _) eqn:He; [done|].
  apply orb_false_iff in He as [He1%bool_decide_eq_false He2%bool_decide_eq_false].
  assert (kept_part a) as Hka by done. case_bool_decide; [|by constructor].
  destruct stack as [|top stack]; [destruct root; [constructor|by constructor]|]. case_bool_decide; [by constructor|]. by apply Forall_cons in Hs as [_ Hs].
Qed.

Lemma kept_parts_kept p : Forall kept_part (kept_parts p).
Proof. unfold kept_parts. apply Forall_rev, clean_parts_kept; [apply parts_no_slash|constructor]. Qed.

Lemma kept_parts_join dir name : dir ≠ EmptyString → entry_name name → rooted (dir ++ "/" ++ name) = rooted dir ∧ kept_parts (dir ++ "/" ++ name) = kept_parts dir ++ [name].
Proof.
  intros Hd [Hn Hx]. assert (rooted (dir ++ "/" ++ name) = rooted dir) as Hr by (destruct dir as [|c [|d dir]]; by cbn). split; [done|].
  unfold kept_parts. rewrite Hr, path_parts_app, foldl_app, (path_parts_plain name Hn). cbn [foldl]. unfold clean_part at 1.
  rewrite !bool_decide_eq_false_2 by set_solver. done.
Qed.

Lemma join_with_snoc sep l x : join_with sep (l ++ [x]) = match l with [] => x | _ => (join_with sep l ++ sep ++ x)%string end.
Proof.
  induction l as [|a l IH]; [done|]. destruct l as [|b l]; [done|].
  change (join_with sep ((a :: b :: l) ++ [x])) with (a ++ sep ++ join_with sep ((b :: l) ++ [x]))%string. rewrite IH.
  change (join_with sep (a :: b :: l)) with (a ++ sep ++ join_with sep (b :: l))%string. by rewrite !sapp_assoc.
Qed.

(** What is kept joins to neither nothing nor a dot nor a slash. *)
Lemma joined_kept l : Forall kept_part l → l ≠ [] → join_with "/" l ∉ [""; "."; "/"]%string.
Proof.
  intros Hl Hne. destruct l as [|a [|b l]]; [done| |].
  - apply Forall_cons in Hl as [(Hs & H1 & H2) _]. cbn. assert (a ≠ "/"%string) by (intros ->; apply Hs; cbn; set_solver). set_solver.
  - apply Forall_cons in Hl as [(_ & H1 & _) Hl]. apply Forall_cons in Hl as [(_ & H2 & _) _].
    assert (1 ≤ String.length (join_with "/" (b :: l)))%nat as Hj by (destruct b; [done|]; destruct l; cbn; lia).
    change (join_with "/" (a :: b :: l)) with (a ++ "/" ++ join_with "/" (b :: l))%string. revert Hj. generalize (join_with "/" (b :: l)). intros t Ht.
    destruct a as [|c a]; [done|]. intros Hin. assert (String.length (String c a ++ "/" ++ t) ≤ 1)%nat as Hlen.
    { repeat (apply elem_of_cons in Hin as [->|Hin]; [cbn; lia|]). by apply elem_of_nil in Hin. }
    rewrite slength_app in Hlen. cbn in Hlen. lia.
Qed.

(** A name without slashes, dots apart, becomes an entry of the directory. *)
Lemma Join_entry dir name : dir ≠ EmptyString → entry_name name → Join dir name = entry (Clean dir) name.
Proof.
  intros Hd Hn. unfold Join, entry. rewrite bool_decide_eq_false_2 by done. unfold Clean.
  destruct (kept_parts_join dir name Hd Hn) as [-> ->]. pose proof (kept_parts_kept dir) as Hk. unfold path_of.
  destruct (kept_parts dir) as [|a l] eqn:He.
  - cbn. destruct (rooted dir); cbn; [by rewrite bool_decide_eq_true_2|]. by rewrite bool_decide_eq_false_2, bool_decide_eq_true_2.
  - rewrite join_with_snoc. pose proof (joined_kept (a :: l) Hk ltac:(done)) as Hj. revert Hj. generalize (join_with "/" (a :: l)). intros t Hj.
    destruct (rooted dir).
    + rewrite !bool_decide_eq_false_2; [by rewrite <-sapp_assoc|done|]. intros [= ->]. set_solver.
    + rewrite !bool_decide_eq_false_2 by set_solver. by destruct (a :: l).
Qed.
