(* ===== verification/Callback.v ===== *)
(** * What the platforms' encrypted callbacks share

    wecom/crypto.go and dingtalk/app_support.go frame a message the same way:
    sixteen bytes, the length in four bytes, the message, the receiver's name,
    padded to 32 bytes, AES-CBC under a key whose first sixteen bytes are the
    initialisation vector, base64.  This file has the padding, the signature and
    the framing, with the laws both codecs are proved from. *)
From Stdlib Require Import String Ascii.
From S2P Require Import Prelude GoStrings Strconv Json JsonString Sha256 Cipher.
From stdpp Require Import list.

Local Open Scope Z_scope.

(** ** Strings *)
Fixpoint insert_string (s : string) (l : list string) : list string :=
  match l with [] => [s] | t :: l => if (s <=? t)%string then s :: t :: l else t :: insert_string s l end.

(** [sort.Strings]; [strings.Join] with an empty separator. *)
Definition sort_strings (l : list string) : list string := foldr insert_string [] l.
Definition join_strings (l : list string) : string := foldr String.append EmptyString l.

(** The hexadecimal SHA-1 digest of the four texts, sorted and joined. *)
Definition callback_digest (token timestamp nonce encrypted : string) : string :=
  hex_encode (sha1 (join_strings (sort_strings [token; timestamp; nonce; encrypted]))).

(** ** Padding *)
Definition pkcs7Pad (src : list Z) (blockSize : nat) : list Z :=
  let padding := (blockSize - length src mod blockSize)%nat in
  src ++ replicate padding (Z.of_nat padding mod 256).

(** The texts are those of its three errors. *)
Definition unpad (bad_data bad_padding bad_content : string) (src : list Z) (blockSize : nat) : result (list Z) :=
  if (length src =? 0)%nat || negb (length src mod blockSize =? 0)%nat then Fail (new_error bad_data)
  else
    let padding := Z.to_nat (List.last src 0) in
    if (padding =? 0)%nat || (blockSize <? padding)%nat || (length src <? padding)%nat then Fail (new_error bad_padding)
    else if forallb (λ b, b =? Z.of_nat padding) (drop (length src - padding) src) then Ok (take (length src - padding) src)
    else Fail (new_error bad_content).

Lemma pad_length (src : list Z) n : (0 < n)%nat → ∃ k, length (pkcs7Pad src n) = (n * k)%nat ∧ (0 < k)%nat.
Proof.
  intros Hn. unfold pkcs7Pad. rewrite length_app, length_replicate. pose proof (Nat.div_mod_eq (length src) n) as Hd.
  pose proof (Nat.mod_upper_bound (length src) n ltac:(lia)). exists (S (length src / n)). split; [|lia]. lia.
Qed.

Lemma last_replicate (n : nat) (x d : Z) (l : list Z) : (0 < n)%nat → List.last (l ++ replicate n x) d = x.
Proof.
  intros Hn. destruct n as [|n]; [lia|]. rewrite replicate_S_end, (assoc_L (++)). apply last_last.
Qed.

Lemma unpad_pad e1 e2 e3 (src : list Z) n : (0 < n < 256)%nat → unpad e1 e2 e3 (pkcs7Pad src n) n = Ok src.
Proof.
  intros Hn. destruct (pad_length src n ltac:(lia)) as (k & Hk & Hk0). unfold unpad.
  rewrite Hk. replace ((n * k) mod n)%nat with 0%nat by (rewrite Nat.mul_comm; symmetry; apply Nat.Div0.mod_mul).
  destruct (Nat.eqb_spec (n * k) 0) as [|_]; [nia|]. cbn [orb negb Nat.eqb].
  pose proof (Nat.mod_upper_bound (length src) n ltac:(lia)) as Hm. set (p := (n - length src mod n)%nat) in *.
  unfold pkcs7Pad in *. fold p in Hk |- *. rewrite length_app, length_replicate in Hk.
  rewrite last_replicate by lia. rewrite Z.mod_small by lia. rewrite Nat2Z.id.
  replace (p =? 0)%nat with false by (symmetry; apply Nat.eqb_neq; lia).
  replace (n <? p)%nat with false by (symmetry; apply Nat.ltb_ge; lia).
  replace (n * k <? p)%nat with false by (symmetry; apply Nat.ltb_ge; lia). cbn [orb].
  replace (n * k - p)%nat with (length src) by lia. rewrite drop_app_length, take_app_length.
  replace (forallb _ _) with true; [done|]. symmetry. apply forallb_forall. intros b Hb.
  apply list_elem_of_In, elem_of_replicate in Hb as [-> _]. apply Z.eqb_refl.
Qed.

(** What is accepted is a padded text. *)
Lemma unpad_inv e1 e2 e3 (src l : list Z) n :
  (0 < n < 256)%nat → Forall byte src → unpad e1 e2 e3 src n = Ok l → src = pkcs7Pad l n.
Proof.
  intros Hn Hb. unfold unpad. destruct (_ || _) eqn:H1; [done|]. apply orb_false_iff in H1 as [H1 H2].
  apply Nat.eqb_neq in H1. apply negb_false_iff, Nat.eqb_eq in H2. set (p := Z.to_nat (List.last src 0)).
  destruct (_ || _) eqn:H3; [done|]. rewrite !orb_false_iff, Nat.eqb_neq, !Nat.ltb_ge in H3. destruct H3 as [[H3 H4] H5].
  destruct (forallb _ _) eqn:H6; [|done]. intros [= <-]. unfold pkcs7Pad. rewrite length_take_le by lia.
  assert (n - (length src - p) mod n = p)%nat as Hp.
  { apply Nat.Div0.mod_divides in H2 as [k Hk]. destruct (decide (p = n)) as [->|Hpn].
    - replace (length src - n)%nat with ((k - 1) * n)%nat by nia. rewrite Nat.Div0.mod_mul. lia.
    - replace (length src - p)%nat with (n - p + (k - 1) * n)%nat by (destruct k; nia). rewrite Nat.Div0.mod_add, Nat.mod_small by lia. lia. }
  rewrite Hp. rewrite Z.mod_small by lia. rewrite <-(take_drop (length src - p) src) at 1. f_equal.
  rewrite forallb_forall in H6. assert (length (drop (length src - p) src) = p) as Hl by (rewrite length_drop; lia).
  rewrite <-Hl at 2. symmetry. apply replicate_as_Forall. split; [done|]. apply Forall_forall. intros b Hin.
  apply list_elem_of_In, H6, Z.eqb_eq in Hin. done.
Qed.

(** ** Big-endian numbers *)
Definition be_value (l : list Z) : Z := foldl (λ acc b, acc * 256 + b) 0 l.

Lemma be_value_bytes n z : be_value (be_bytes n z) = z mod 256 ^ Z.of_nat n.
Proof.
  revert z. induction n as [|n IH]; intros z; [by rewrite Z.mod_1_r|]. cbn [be_bytes]. unfold be_value in *.
  rewrite foldl_app, IH. cbn [foldl]. replace (Z.of_nat (S n)) with (1 + Z.of_nat n) by lia.
  rewrite Z.pow_add_r, Z.pow_1_r by lia. rewrite Z.rem_mul_r by lia. lia.
Qed.

Lemma be_bytes_ok n z : length (be_bytes n z) = n ∧ Forall byte (be_bytes n z).
Proof.
  revert z. induction n as [|n IH]; intros z; [done|]. cbn [be_bytes]. destruct (IH (z / 256)) as [H1 H2].
  rewrite length_app, Forall_app. split; [simpl; lia|]. split; [done|]. repeat constructor; apply Z.mod_pos_bound; lia.
Qed.

Lemma length_be_bytes n z : length (be_bytes n z) = n.
Proof. apply be_bytes_ok. Qed.

Lemma bytes_of_ok s : Forall byte (bytes_of s).
Proof. induction s as [|c s IH]; constructor; [|done]. destruct c as [[] [] [] [] [] [] [] []]; vm_compute; split; congruence. Qed.

Lemma string_of_bytes_of s : string_of_bytes (bytes_of s) = s.
Proof. induction s as [|c s IH]; [done|]. cbn. rewrite IH. f_equal. destruct c as [[] [] [] [] [] [] [] []]; vm_compute; done. Qed.

Lemma length_bytes_of s : length (bytes_of s) = String.length s.
Proof. induction s as [|c s IH]; [done|]. simpl. by rewrite IH. Qed.

(** ** The frame *)
Definition frame (head plain : list Z) (receiver : string) : list Z :=
  head ++ be_bytes 4 (Z.of_nat (length plain)) ++ plain ++ bytes_of receiver.

(** [aes.NewCipher] *)
Definition NewCipher (key : list Z) : result (list (list Z)) :=
  if bool_decide (length key ∈ [16; 24; 32]%nat) then Ok (round_keys key)
  else Fail (new_error ("crypto/aes: invalid key size " ++ FormatInt (Z.of_nat (length key)))).

Lemma NewCipher_ok key : key_ok key → NewCipher key = Ok (round_keys key).
Proof. intros [_ Hl]. unfold NewCipher. by rewrite bool_decide_eq_true_2. Qed.

Lemma key_iv key : key_ok key → is_block (take 16 key).
Proof.
  intros [Hb Hl]. assert (16 ≤ length key)%nat by (rewrite !elem_of_cons, elem_of_nil in Hl; lia).
  split; [rewrite length_take; lia|by apply Forall_take].
Qed.

(** A padded text encrypts, and decrypts to itself. *)
Lemma padded_roundtrip key (l : list Z) :
  key_ok key → Forall byte l →
  ∃ e, crypt_blocks (cbc_encrypt (round_keys key) (take 16 key)) (pkcs7Pad l 32) = Some e ∧
    base64_decode (base64_encode e) = Some e ∧ (0 < length e)%nat ∧ (length e mod 16 = 0)%nat ∧
    crypt_blocks (cbc_decrypt (round_keys key) (take 16 key)) e = Some (pkcs7Pad l 32).
Proof.
  intros Hk Hl. destruct (pad_length l 32 ltac:(lia)) as (k & Hlen & Hk0).
  assert (Forall byte (pkcs7Pad l 32)) as Hb.
  { unfold pkcs7Pad. apply Forall_app. split; [done|]. apply Forall_replicate. apply Z.mod_pos_bound. lia. }
  destruct (crypt_roundtrip key (take 16 key) (pkcs7Pad l 32) (2 * k) Hk (key_iv key Hk) Hb ltac:(lia)) as (e & H1 & H2 & H3 & H4).
  exists e. split_and!; [done|by apply base64_decode_encode|lia| |done].
  rewrite H3, Hlen. replace (32 * k)%nat with (2 * k * 16)%nat by lia. apply Nat.Div0.mod_mul.
Qed.

(** The parts of a frame. *)
Section frame_parts.
Context (head plain : list Z) (receiver : string).
Hypothesis Hhead : length head = 16%nat.

Lemma frame_byte : Forall byte head → Forall byte plain → Forall byte (frame head plain receiver).
Proof. intros. unfold frame. rewrite !Forall_app. split_and!; [done|apply be_bytes_ok|done|apply bytes_of_ok]. Qed.

Lemma frame_length : length (frame head plain receiver) = (20 + length plain + String.length receiver)%nat.
Proof. unfold frame. rewrite !length_app, Hhead, length_bytes_of. rewrite length_be_bytes. lia. Qed.

Lemma frame_drop20 : drop 20 (frame head plain receiver) = plain ++ bytes_of receiver.
Proof.
  unfold frame. rewrite (assoc_L (++)). apply drop_app_length'. by rewrite length_app, Hhead, length_be_bytes.
Qed.

Lemma frame_size : Z.of_nat (length plain) < 2 ^ 32 →
  be_value (take 4 (drop 16 (frame head plain receiver))) = Z.of_nat (length plain).
Proof.
  intros Hp. unfold frame. rewrite drop_app_length' by done. rewrite take_app_length' by (by rewrite length_be_bytes).
  rewrite be_value_bytes. change (256 ^ Z.of_nat 4) with (2 ^ 32). apply Z.mod_small. lia.
Qed.

Lemma frame_message : take (length plain) (drop 20 (frame head plain receiver)) = plain.
Proof. by rewrite frame_drop20, take_app_length. Qed.

Lemma frame_receiver : string_of_bytes (drop (20 + length plain) (frame head plain receiver)) = receiver.
Proof. by rewrite <-drop_drop, frame_drop20, drop_app_length, string_of_bytes_of. Qed.
End frame_parts.

(** A text that begins with twenty bytes, of which the last four count bytes it
    has, is a frame. *)
Lemma frame_intro (l : list Z) n :
  Forall byte l → be_value (take 4 (drop 16 l)) = Z.of_nat n → (20 + n ≤ length l)%nat →
  l = frame (take 16 l) (take n (drop 20 l)) (string_of_bytes (drop (20 + n) l)).
Proof.
  intros Hb Hv Hn. assert (length (take n (drop 20 l)) = n) as Hlen by (rewrite length_take, length_drop; lia).
  assert (∀ l : list Z, Forall byte l → bytes_of (string_of_bytes l) = l) as Hbytes.
  { clear. induction 1 as [|b l Hb _ IH]; [done|]. cbn. rewrite IH. f_equal.
    assert (code (chr b) =? b = true) as H%Z.eqb_eq; [|done].
    apply (all_below_spec 256 (λ b, code (chr b) =? b)); [vm_compute; reflexivity|exact Hb]. }
  unfold frame. rewrite Hlen, Hbytes by (by apply Forall_drop). rewrite <-Hv.
  assert (be_bytes 4 (be_value (take 4 (drop 16 l))) = take 4 (drop 16 l)) as ->.
  { assert (length (take 4 (drop 16 l)) = 4%nat) as H4 by (rewrite length_take, length_drop; lia).
    assert (Forall byte (take 4 (drop 16 l))) as Hb4 by (by apply Forall_take, Forall_drop). clear -H4 Hb4.
    destruct (take 4 (drop 16 l)) as [|a [|b [|c [|d [|? ?]]]]]; try discriminate. rewrite !Forall_cons in Hb4.
    destruct Hb4 as (Ha & Hb & Hc & Hd & _). unfold byte in *. cbn. repeat f_equal; Z.div_mod_to_equations; lia. }
  rewrite <-drop_drop, take_drop. change 20%nat with (16 + 4)%nat. by rewrite <-drop_drop, take_drop, take_drop.
Qed.

(** The length a text of twenty bytes or more declares. *)
Lemma declared_range (text : list Z) :
  Forall byte text → (20 ≤ length text)%nat → 0 ≤ be_value (take 4 (drop 16 text)) < 2 ^ 32.
Proof.
  intros Hb Hl. assert (length (take 4 (drop 16 text)) = 4%nat) as H4 by (rewrite length_take, length_drop; lia).
  assert (Forall byte (take 4 (drop 16 text))) as Hb4 by (by apply Forall_take, Forall_drop).
  destruct (take 4 (drop 16 text)) as [|x1 [|x2 [|x3 [|x4 [|? ?]]]]]; try discriminate. rewrite !Forall_cons in Hb4.
  unfold byte in Hb4. cbn. lia.
Qed.

(** The text an encrypted body carries under a key: what its deciphering
    unpads to. *)
Definition carries (key : list Z) (encrypted : string) (text : list Z) : Prop :=
  ∃ ciphertext, base64_decode encrypted = Some ciphertext ∧ ciphertext ≠ [] ∧
    crypt_blocks (cbc_decrypt (round_keys key) (take 16 key)) ciphertext = Some (pkcs7Pad text 32).

Lemma carries_unique key encrypted t1 t2 : carries key encrypted t1 → carries key encrypted t2 → t1 = t2.
Proof.
  intros (c1 & H1 & _ & D1) (c2 & H2 & _ & D2). rewrite H1 in H2. injection H2 as <-. rewrite D1 in D2. injection D2 as D.
  pose proof (unpad_pad "" "" "" t1 32 ltac:(lia)) as U1. rewrite D, unpad_pad in U1 by lia. congruence.
Qed.

(** A ciphertext of whole blocks deciphers, and its text is accepted by the
    padding check exactly when something is carried. *)
Lemma deciphered_carries e1 e2 e3 key encrypted ct :
  key_ok key → base64_decode encrypted = Some ct → (length ct mod 16 = 0)%nat →
  ∃ p, crypt_blocks (cbc_decrypt (round_keys key) (take 16 key)) ct = Some p ∧
    ((∃ text, unpad e1 e2 e3 p 32 = Ok text ∧ carries key encrypted text ∧ Forall byte text) ∨
     (∃ e, unpad e1 e2 e3 p 32 = Fail e) ∧ ¬ ∃ text, carries key encrypted text).
Proof.
  intros Hk Hb Hl. pose proof (base64_decode_byte _ _ Hb) as Hct.
  destruct (decrypt_bytes _ _ ct Hk (key_iv _ Hk) Hct Hl) as (p & Hp & Hpb). exists p. split; [done|].
  destruct (unpad e1 e2 e3 p 32) as [text|e] eqn:Hu; [left|right].
  - exists text. apply unpad_inv in Hu; [|lia|done]. split_and!; [done| |by rewrite Hu in Hpb; apply Forall_app in Hpb as [? _]].
    exists ct. split_and!; [done| |by rewrite Hp, Hu]. intros ->.
    unfold crypt_blocks in Hp. cbn in Hp. injection Hp as <-. unfold pkcs7Pad in Hu. apply (f_equal length) in Hu.
    rewrite length_app, length_replicate in Hu. pose proof (Nat.mod_upper_bound (length text) 32 ltac:(lia)). simpl length in Hu at 1. lia.
  - split; [eauto|]. intros (text & ct' & Hb' & _ & Hd). rewrite Hb in Hb'. injection Hb' as <-. rewrite Hp in Hd. injection Hd as ->.
    by rewrite unpad_pad in Hu by lia.
Qed.

(** An encrypted frame is carried. *)
Lemma encrypted_carried key (text : list Z) :
  key_ok key → Forall byte text →
  ∃ e, crypt_blocks (cbc_encrypt (round_keys key) (take 16 key)) (pkcs7Pad text 32) = Some e ∧ carries key (base64_encode e) text.
Proof.
  intros Hk Hb. destruct (padded_roundtrip _ _ Hk Hb) as (e & H1 & H2 & H3 & _ & H5). exists e. split; [done|].
  exists e. split_and!; [done| |done]. intros ->. simpl in H3. lia.
Qed.
