(* ===== verification/Wecom.v ===== *)
(** * The WeCom callback codec: internal/gateway/wecom/config.go and crypto.go

    The adapter's configuration, and the encryption of its callbacks: what is
    signed, encrypted and accepted.

    An operation that may panic has an [option] result, [None] for the panic.
    The texts of the standard library's own errors are not modelled. *)
From Stdlib Require Import String Ascii.
From S2P Require Import Prelude GoStrings Strconv Json JsonString Sha256 Cipher Callback.
From stdpp Require Import list.

Local Open Scope Z_scope.

Definition blank (s : string) : bool := bool_decide (TrimSpace s = ""%string).

(** ** Configuration *)
Record Config := MkConfig {
  wc_CorpID : string;
  wc_AgentID : Z;
  wc_CorpSecret : string;
  wc_Token : string;
  wc_EncodingAESKey : string;
  wc_CallbackPath : string;
  wc_APIBaseURL : string;
  wc_HTTPTimeout : Z;
  wc_MediaDir : string
}.

Definition defaultCallbackPath : string := "/callbacks/wecom".
Definition defaultAPIBaseURL : string := "https://qyapi.weixin.qq.com".
Definition defaultHTTPTimeout : Z := 10 * 1000000000.

(** [temp]: the media directory under the system's temporary directory. *)
Definition normalize_config (temp : string) (c : Config) : Config :=
  MkConfig (wc_CorpID c) (wc_AgentID c) (wc_CorpSecret c) (wc_Token c) (wc_EncodingAESKey c)
    (if blank (wc_CallbackPath c) then defaultCallbackPath else wc_CallbackPath c)
    (if blank (wc_APIBaseURL c) then defaultAPIBaseURL else wc_APIBaseURL c)
    (if wc_HTTPTimeout c <=? 0 then defaultHTTPTimeout else wc_HTTPTimeout c)
    (if blank (wc_MediaDir c) then temp else wc_MediaDir c).

Definition Validate (c : Config) : option error :=
  if blank (wc_CorpID c) then Some (new_error "wecom corp id is required")
  else if wc_AgentID c <=? 0 then Some (new_error "wecom agent id must be positive")
  else if blank (wc_CorpSecret c) then Some (new_error "wecom corp secret is required")
  else if blank (wc_Token c) then Some (new_error "wecom token is required")
  else if blank (wc_EncodingAESKey c) then Some (new_error "wecom encoding aes key is required")
  else None.

(** ** The codec *)

(** [Codec] without its random source, which comes with each encryption. *)
Record Codec := MkCodec { cd_token : string; cd_receiveID : string; cd_aesKey : list Z }.

Definition err_base64 : error := new_error "illegal base64 data".

Definition NewCodec (cfg : Config) : result Codec :=
  let key := TrimSpace (wc_EncodingAESKey cfg) in
  if bool_decide (key = ""%string) then Fail (new_error "encoding aes key is required")
  else match base64_decode (key ++ "=") with
  | None => Fail (new_error ("decode aes key: " ++ err_msg err_base64))
  | Some decoded =>
    if negb (length decoded =? 32)%nat then Fail (new_error ("invalid aes key length " ++ FormatInt (Z.of_nat (length decoded))))
    else Ok (MkCodec (TrimSpace (wc_Token cfg)) (TrimSpace (wc_CorpID cfg)) decoded)
  end.

Definition Signature (c : Codec) (timestamp nonce encrypted : string) : string :=
  callback_digest (cd_token c) timestamp nonce encrypted.

Definition pkcs7Unpad (src : list Z) (blockSize : nat) : result (list Z) :=
  unpad "invalid padded data" "invalid padding" "invalid padding content" src blockSize.

(** [rand]: what reading sixteen random bytes gives. *)
Definition Encrypt (c : Codec) (rand : result (list Z)) (plain : list Z) : option (result string) :=
  match rand with
  | Fail e => Some (Fail e)
  | Ok randomBytes =>
    let padded := pkcs7Pad (frame randomBytes plain (cd_receiveID c)) 32 in
    match NewCipher (cd_aesKey c) with
    | Fail e => Some (Fail e)
    | Ok block =>
      match crypt_blocks (cbc_encrypt block (take 16 (cd_aesKey c))) padded with
      | None => None
      | Some encrypted => Some (Ok (base64_encode encrypted))
      end
    end
  end.

(** The message of a deciphered text: the length is an unsigned 32-bit number,
    and so is the sum that bounds the slice, which panics when it is below 20. *)
Definition open_frame (receiveID : string) (unpadded : list Z) : option (result (list Z)) :=
  if (length unpadded <? 20)%nat then Some (Fail (new_error "plaintext too short"))
  else
    let msgLength := be_value (take 4 (drop 16 unpadded)) in
    let end_ := add32 20 msgLength in
    if Z.of_nat (length unpadded) <? end_ then Some (Fail (new_error "invalid plaintext message length"))
    else if end_ <? 20 then None
    else
      let msg := take (Z.to_nat end_ - 20) (drop 20 unpadded) in
      let receiver := string_of_bytes (drop (Z.to_nat end_) unpadded) in
      if negb (bool_decide (receiveID = ""%string)) && negb (bool_decide (receiver = receiveID))
      then Some (Fail (new_error "receive id mismatch")) else Some (Ok msg).

Definition Decrypt (c : Codec) (signature timestamp nonce encrypted : string) : option (result (list Z)) :=
  if negb (bool_decide (signature = Signature c timestamp nonce encrypted)) then Some (Fail (new_error "invalid signature"))
  else match base64_decode encrypted with
  | None => Some (Fail (new_error ("decode ciphertext: " ++ err_msg err_base64)))
  | Some ciphertext =>
    if (length ciphertext =? 0)%nat || negb (length ciphertext mod 16 =? 0)%nat then Some (Fail (new_error "invalid ciphertext size"))
    else match NewCipher (cd_aesKey c) with
    | Fail e => Some (Fail e)
    | Ok block =>
      match crypt_blocks (cbc_decrypt block (take 16 (cd_aesKey c))) ciphertext with
      | None => None
      | Some plain =>
        match pkcs7Unpad plain 32 with
        | Fail e => Some (Fail e)
        | Ok unpadded => open_frame (cd_receiveID c) unpadded
        end
      end
    end
  end.

Definition VerifyURL (c : Codec) (signature timestamp nonce echostr : string) : option (result string) :=
  match Decrypt c signature timestamp nonce echostr with
  | None => None
  | Some (Fail e) => Some (Fail e)
  | Some (Ok plain) => Some (Ok (string_of_bytes plain))
  end.

(** ** What is accepted *)

Lemma NewCodec_key cfg c : NewCodec cfg = Ok c → length (cd_aesKey c) = 32%nat.
Proof.
  unfold NewCodec. case_bool_decide; [done|]. destruct (base64_decode _) as [k|]; [|done].
  destruct (Nat.eqb_spec (length k) 32); [|done]. by intros [= <-].
Qed.

Lemma NewCodec_key_ok cfg c : NewCodec cfg = Ok c → key_ok (cd_aesKey c).
Proof.
  intros H. pose proof (NewCodec_key _ _ H) as Hl. unfold NewCodec in H. case_bool_decide; [done|].
  destruct (base64_decode _) as [k|] eqn:Hk; [|done]. destruct (Nat.eqb_spec (length k) 32); [|done]. injection H as <-. cbn in *.
  split; [by eapply base64_decode_byte|]. rewrite Hl. set_solver.
Qed.

(** Decrypting a signed text is opening what it carries; a text that carries
    nothing is an error. *)
Lemma decrypt_carried cfg c timestamp nonce encrypted :
  NewCodec cfg = Ok c →
  let r := Decrypt c (Signature c timestamp nonce encrypted) timestamp nonce encrypted in
  (∃ text, carries (cd_aesKey c) encrypted text ∧ Forall byte text ∧ r = open_frame (cd_receiveID c) text) ∨
  (¬ ∃ text, carries (cd_aesKey c) encrypted text) ∧ ∃ e, r = Some (Fail e).
Proof.
  intros Hc. pose proof (NewCodec_key_ok _ _ Hc) as Hk. cbv zeta. unfold Decrypt. rewrite bool_decide_eq_true_2 by done. cbn [negb].
  destruct (base64_decode encrypted) as [ct|] eqn:Hb; [|right; split; [intros (? & ? & ? & _); congruence|eauto]].
  destruct (_ || _) eqn:Hsz.
  { right. split; [|eauto]. intros (text & ct' & Hb' & Hne & Hd). rewrite Hb in Hb'. injection Hb' as <-.
    apply orb_true_iff in Hsz as [Hz%Nat.eqb_eq|Hz%negb_true_iff]; [by apply nil_length_inv in Hz|].
    unfold crypt_blocks in Hd. by rewrite Hz in Hd. }
  apply orb_false_iff in Hsz as [Hz1%Nat.eqb_neq Hz2%negb_false_iff%Nat.eqb_eq]. rewrite NewCipher_ok by done. unfold pkcs7Unpad.
  destruct (deciphered_carries "invalid padded data" "invalid padding" "invalid padding content" _ _ _ Hk Hb Hz2)
    as (p & -> & [(text & -> & Hcar & Htb)|[[e ->] Hno]]); eauto 10.
Qed.

Lemma open_frame_exact id text msg :
  Forall byte text →
  open_frame id text = Some (Ok msg) ↔
  ∃ head receiver, length head = 16%nat ∧ text = frame head msg receiver ∧
    Z.of_nat (length msg) + 20 < 2 ^ 32 ∧ (id = ""%string ∨ receiver = id).
Proof.
  intros Hb. split.
  - unfold open_frame. destruct (Nat.ltb_spec (length text) 20) as [|Hl]; [done|].
    set (n := be_value (take 4 (drop 16 text))). unfold add32.
    pose proof (declared_range text Hb Hl) as Hn. fold n in Hn.
    destruct (Z.ltb_spec (Z.of_nat (length text)) ((20 + n) mod 2 ^ 32)) as [|Hle]; [done|].
    destruct (Z.ltb_spec ((20 + n) mod 2 ^ 32) 20) as [|H20]; [done|].
    assert ((20 + n) mod 2 ^ 32 = 20 + n ∧ 20 + n < 2 ^ 32) as [Hmod Hlt] by (Z.div_mod_to_equations; lia). rewrite Hmod in *.
    destruct (_ && _) eqn:Hr; [done|]. intros [= <-].
    replace (Z.to_nat (20 + n)) with (20 + Z.to_nat n)%nat in * by lia. replace (20 + Z.to_nat n - 20)%nat with (Z.to_nat n) by lia.
    exists (take 16 text), (string_of_bytes (drop (20 + Z.to_nat n) text)). split_and!.
    + rewrite length_take. lia.
    + apply frame_intro; [done|fold n; lia|lia].
    + rewrite length_take, length_drop. lia.
    + apply andb_false_iff in Hr as [H%negb_false_iff%bool_decide_eq_true|H%negb_false_iff%bool_decide_eq_true]; auto.
  - intros (head & receiver & Hh & -> & Hlen & Hid). unfold open_frame. rewrite frame_length by done.
    destruct (Nat.ltb_spec (20 + length msg + String.length receiver) 20) as [|_]; [lia|].
    rewrite frame_size by (done || lia). unfold add32. rewrite Z.mod_small by lia.
    destruct (Z.ltb_spec (Z.of_nat (20 + length msg + String.length receiver)) (20 + Z.of_nat (length msg))) as [|_]; [lia|].
    destruct (Z.ltb_spec (20 + Z.of_nat (length msg)) 20) as [|_]; [lia|].
    replace (Z.to_nat (20 + Z.of_nat (length msg))) with (20 + length msg)%nat by lia.
    replace (20 + length msg - 20)%nat with (length msg) by lia. rewrite frame_message, frame_receiver by done.
    destruct Hid as [->| ->]; [done|]. by rewrite (bool_decide_eq_true_2 (id = id)), andb_false_r.
Qed.

Lemma open_frame_panics id text :
  Forall byte text →
  open_frame id text = None ↔ (20 ≤ length text)%nat ∧ 2 ^ 32 - 20 ≤ be_value (take 4 (drop 16 text)).
Proof.
  intros Hb. unfold open_frame. destruct (Nat.ltb_spec (length text) 20) as [|Hl]; [split; [done|lia]|].
  set (n := be_value (take 4 (drop 16 text))).
  pose proof (declared_range text Hb Hl) as Hn. fold n in Hn.
  unfold add32. destruct (Z.ltb_spec (Z.of_nat (length text)) ((20 + n) mod 2 ^ 32)) as [Hlt|Hle].
  { split; [done|]. intros [_ Hov]. assert ((20 + n) mod 2 ^ 32 = 20 + n - 2 ^ 32) as Hm by (Z.div_mod_to_equations; lia). lia. }
  destruct (Z.ltb_spec ((20 + n) mod 2 ^ 32) 20) as [H20|H20].
  - split; [|done]. intros _. split; [lia|]. Z.div_mod_to_equations. lia.
  - split; [by destruct (_ && _)|]. intros [_ Hov]. assert ((20 + n) mod 2 ^ 32 = 20 + n - 2 ^ 32) as Hm by (Z.div_mod_to_equations; lia). lia.
Qed.

Lemma decrypt_unsigned c signature timestamp nonce encrypted :
  signature ≠ Signature c timestamp nonce encrypted → Decrypt c signature timestamp nonce encrypted = Some (Fail (new_error "invalid signature")).
Proof. intros H. unfold Decrypt. by rewrite bool_decide_eq_false_2. Qed.

(** A signed text that is a frame of the message for this receiver. *)
Definition delivers (c : Codec) (signature timestamp nonce encrypted : string) (msg : list Z) : Prop :=
  signature = Signature c timestamp nonce encrypted ∧
  ∃ head receiver, length head = 16%nat ∧ carries (cd_aesKey c) encrypted (frame head msg receiver) ∧
    Z.of_nat (length msg) + 20 < 2 ^ 32 ∧ (cd_receiveID c = ""%string ∨ receiver = cd_receiveID c).

Lemma wecom_decrypted cfg c signature timestamp nonce encrypted msg :
  NewCodec cfg = Ok c →
  Decrypt c signature timestamp nonce encrypted = Some (Ok msg) ↔ delivers c signature timestamp nonce encrypted msg.
Proof.
  intros Hc. unfold delivers. destruct (decide (signature = Signature c timestamp nonce encrypted)) as [->|Hs].
  2:{ rewrite decrypt_unsigned by done. split; [done|]. by intros [? _]. }
  destruct (decrypt_carried cfg c timestamp nonce encrypted Hc) as [(text & Hcar & Hb & ->)|[Hno [e ->]]].
  - rewrite open_frame_exact by done. split.
    + intros (head & receiver & H1 & -> & H2 & H3). split; [done|]. eauto 10.
    + intros [_ (head & receiver & H1 & H2 & H3 & H4)]. exists head, receiver. by rewrite (carries_unique _ _ _ _ Hcar H2).
  - split; [done|]. intros [_ (head & receiver & _ & H2 & _)]. destruct Hno. by eexists.
Qed.

(** C16: A codec accepts a callback exactly when its signature is that of the token
    and its text is a frame of the message, shorter than 2^32 bytes, for the
    codec's receiver if it has one; and it panics exactly when a signed text of
    20 bytes or more declares a length in the last 20 values of its four bytes. *)
Theorem decrypt_exact cfg c signature timestamp nonce encrypted :
  NewCodec cfg = Ok c →
  (∀ msg, Decrypt c signature timestamp nonce encrypted = Some (Ok msg) ↔ delivers c signature timestamp nonce encrypted msg) ∧
  (Decrypt c signature timestamp nonce encrypted = None ↔
     signature = Signature c timestamp nonce encrypted ∧
     ∃ text, carries (cd_aesKey c) encrypted text ∧ (20 ≤ length text)%nat ∧ 2 ^ 32 - 20 ≤ be_value (take 4 (drop 16 text))).
Proof.
  intros Hc. split; [intros msg; by eapply wecom_decrypted|].
  destruct (decide (signature = Signature c timestamp nonce encrypted)) as [->|Hs].
  2:{ rewrite decrypt_unsigned by done. split; [done|]. by intros [? _]. }
  destruct (decrypt_carried cfg c timestamp nonce encrypted Hc) as [(text & Hcar & Hb & ->)|[Hno [e ->]]].
  - rewrite open_frame_panics by done. split; [by intros; split; [|exists text]|].
    intros [_ (t & Ht & H1 & H2)]. by rewrite (carries_unique _ _ _ _ Hcar Ht).
  - split; [done|]. intros [_ (t & Ht & _)]. destruct Hno. by exists t.
Qed.

(** What a codec encrypts it accepts, under the signature it makes for it. *)
Theorem codec_roundtrip cfg c rnd plain timestamp nonce :
  NewCodec cfg = Ok c → length rnd = 16%nat → Forall byte rnd → Forall byte plain → Z.of_nat (length plain) + 20 < 2 ^ 32 →
  ∃ e, Encrypt c (Ok rnd) plain = Some (Ok e) ∧ Decrypt c (Signature c timestamp nonce e) timestamp nonce e = Some (Ok plain).
Proof.
  intros Hc Hr Hrb Hpb Hp. pose proof (NewCodec_key_ok _ _ Hc) as Hk.
  assert (Forall byte (frame rnd plain (cd_receiveID c))) as Hfb by (by apply frame_byte).
  destruct (encrypted_carried _ _ Hk Hfb) as (e & He & Hcar). exists (base64_encode e). unfold Encrypt.
  rewrite NewCipher_ok, He by done. split; [done|].
  destruct (decrypt_carried cfg c timestamp nonce (base64_encode e) Hc) as [(text & Ht & Hb & ->)|[Hno _]]; [|by destruct Hno; eexists].
  rewrite <-(carries_unique _ _ _ _ Hcar Ht) in *. apply open_frame_exact; [done|]. eauto 10.
Qed.

(** The codec of a configuration, and what it does to a message. *)
Definition demo_config : Config :=
  MkConfig "corp" 7 "secret" "token" "MDEyMzQ1Njc4OWFiY2RlZjAxMjM0NTY3ODlhYmNkZWY" "" "" 0 "".
Definition demo_codec : Codec := MkCodec "token" "corp" (bytes_of "0123456789abcdef0123456789abcdef").

Lemma codec_roundtrip_witness :
  ∃ e, Encrypt demo_codec (Ok (bytes_of "fedcba9876543210")) (bytes_of "<xml/>") = Some (Ok e) ∧
    Decrypt demo_codec (Signature demo_codec "1700000000" "n1" e) "1700000000" "n1" e = Some (Ok (bytes_of "<xml/>")).
Proof.
  apply (codec_roundtrip demo_config demo_codec (bytes_of "fedcba9876543210") (bytes_of "<xml/>") "1700000000" "n1").
  - vm_compute. reflexivity.
  - reflexivity.
  - apply bytes_of_ok.
  - apply bytes_of_ok.
  - vm_compute. reflexivity.
Defined.

Lemma decrypt_exact_witness :
  Decrypt demo_codec "sig" "t" "n" "AAAA" = None ↔
    "sig"%string = Signature demo_codec "t" "n" "AAAA" ∧
    ∃ text, carries (cd_aesKey demo_codec) "AAAA" text ∧ (20 ≤ length text)%nat ∧ 2 ^ 32 - 20 ≤ be_value (take 4 (drop 16 text)).
Proof. apply (decrypt_exact demo_config demo_codec "sig" "t" "n" "AAAA"). vm_compute. reflexivity. Defined.

(** A signed text whose declared length is 2^32 - 1. *)
Definition huge_length : string :=
  match crypt_blocks (cbc_encrypt (round_keys (cd_aesKey demo_codec)) (take 16 (cd_aesKey demo_codec)))
    (pkcs7Pad (bytes_of "fedcba9876543210" ++ [255; 255; 255; 255] ++ bytes_of "<xml/>corp") 32) with
  | Some e => base64_encode e | None => EmptyString end.

Example huge_length_panics : Decrypt demo_codec (Signature demo_codec "t" "n" huge_length) "t" "n" huge_length = None.
Proof. vm_compute. reflexivity. Qed.
