(* ===== verification/TokenCache.v ===== *)
(** * The access token cache of the platform clients

    wecom/client.go (like dingtalk/app_client.go) keeps an access token and the
    time it is used until, and fetches a new one when there is none or it is
    due.  The cache is generic in the fetch and in the lifetime it grants.

    The code looks at the cache and stores a fetched token in two critical
    sections, and fetches between them without the lock.  Here a call is one
    step, so the calls of a sequence are made one after the other: calls that
    overlap, find no token in use and all fetch are not covered. *)
From S2P Require Import Prelude.
From stdpp Require Import list.

Local Open Scope Z_scope.

Definition second : Z := 1000000000.

(** The cached token ([""]: none) and when it stops being used, in
    nanoseconds. *)
Record token_cache := TokenCache { tc_token : string; tc_expires : Z }.
Definition no_token : token_cache := TokenCache "" 0.

(** A call: its context and the clock's readings before and after the fetch. *)
Record token_call := TokenCall { tk_ctx : ctx; tk_before : Z; tk_after : Z }.

Section cache.
Context {W A : Type}.
(** A fetch, what it grants, and the time the grant is used for. *)
Variable fetch : ctx → W → result A * W.
Variable grant : A → result string.
Variable lifetime : A → Z.

Definition usable (now : Z) (s : token_cache) : bool :=
  negb (bool_decide (tc_token s = ""%string)) && (now <? tc_expires s).

Definition getAccessToken (k : token_call) (st : token_cache * W) : result string * (token_cache * W) :=
  let '(s, w) := st in
  if usable (tk_before k) s then (Ok (tc_token s), st)
  else match fetch (tk_ctx k) w with
  | (Fail e, w) => (Fail e, (s, w))
  | (Ok a, w) =>
    match grant a with
    | Fail e => (Fail e, (s, w))
    | Ok token => (Ok token, (TokenCache token (tk_after k + lifetime a), w))
    end
  end.

Definition token_calls (ks : list token_call) (st : token_cache * W) : token_cache * W :=
  foldl (λ st k, (getAccessToken k st).2) st ks.

(** The call [k], made in [st], fetched and was granted [token], until [until]. *)
Definition granted (k : token_call) (st : token_cache * W) (token : string) (until : Z) : Prop :=
  usable (tk_before k) st.1 = false ∧
  ∃ a, (fetch (tk_ctx k) st.2).1 = Ok a ∧ grant a = Ok token ∧ until = tk_after k + lifetime a.

(** Some call of the sequence was granted the token until then. *)
Definition granted_in (ks : list token_call) (st : token_cache * W) (token : string) (until : Z) : Prop :=
  ∃ before k after, ks = before ++ k :: after ∧ granted k (token_calls before st) token until.

Lemma granted_in_app ks1 ks2 st token until : granted_in ks1 st token until → granted_in (ks1 ++ ks2) st token until.
Proof. intros (b & k & a & -> & Hg). exists b, k, (a ++ ks2). by rewrite <-(assoc_L (++)). Qed.

Lemma granted_last ks k st token until : granted k (token_calls ks st) token until → granted_in (ks ++ [k]) st token until.
Proof. intros Hg. by exists ks, k, []. Qed.

Lemma cache_granted ks w :
  let s := (token_calls ks (no_token, w)).1 in
  tc_token s ≠ ""%string → granted_in ks (no_token, w) (tc_token s) (tc_expires s).
Proof.
  cbv zeta. induction ks as [|k ks IH] using rev_ind; [done|].
  assert (token_calls (ks ++ [k]) (no_token, w) = (getAccessToken k (token_calls ks (no_token, w))).2) as Hsnoc
    by (unfold token_calls; by rewrite foldl_snoc). rewrite Hsnoc.
  pose proof (granted_last ks k (no_token, w)) as Hlast. destruct (token_calls ks (no_token, w)) as [s w'].
  cbn [fst] in IH. unfold getAccessToken. destruct (usable (tk_before k) s) eqn:Hu.
  { intros Hne. by apply granted_in_app, IH. }
  destruct (fetch (tk_ctx k) w') as [[a|e] w2] eqn:Hf; cbn; [|intros Hne; by apply granted_in_app, IH].
  destruct (grant a) as [token|e] eqn:Hg; cbn; [|intros Hne; by apply granted_in_app, IH].
  intros _. apply Hlast. split; [done|]. exists a. cbn. by rewrite Hf.
Qed.

(** A token that a call returns was granted by a fetch: this call's own, or an
    earlier one whose time is not over when the call begins. *)
Lemma token_served ks k w token :
  (getAccessToken k (token_calls ks (no_token, w))).1 = Ok token →
  (∃ until, granted k (token_calls ks (no_token, w)) token until) ∨
  (∃ until, granted_in ks (no_token, w) token until ∧ tk_before k < until).
Proof.
  pose proof (cache_granted ks w) as Hc. cbv zeta in Hc. destruct (token_calls ks (no_token, w)) as [s w'].
  unfold getAccessToken, granted. cbn [fst snd] in *. destruct (usable (tk_before k) s) eqn:Hu.
  - intros [= <-]. right. unfold usable in Hu. apply andb_true_iff in Hu as [Hu%negb_true_iff%bool_decide_eq_false Ht%Z.ltb_lt].
    exists (tc_expires s). auto.
  - destruct (fetch (tk_ctx k) w') as [[a|e] w2]; [|done]. destruct (grant a) as [t|e] eqn:Hg; [|done].
    cbn. intros [= <-]. left. eexists. split; [done|]. by exists a.
Qed.

(** As long as the token's time is not over no call fetches. *)
Lemma token_reused ks : ∀ s w,
  tc_token s ≠ ""%string → Forall (λ k, tk_before k < tc_expires s) ks → token_calls ks (s, w) = (s, w).
Proof.
  induction ks as [|k ks IH]; intros s w Hne Hks; [done|]. apply Forall_cons in Hks as [Hk Hks]. unfold token_calls. cbn [foldl].
  assert ((getAccessToken k (s, w)).2 = (s, w)) as ->; [|by apply IH].
  unfold getAccessToken, usable. rewrite bool_decide_eq_false_2 by done. apply Z.ltb_lt in Hk. by rewrite Hk.
Qed.
End cache.
