(* ===== verification/Contracts.v ===== *)
(** * Shared data of the inference core: internal/llm/contracts.go

    The records the runtime, the approval gate and the event sinks exchange,
    with their validation, the JSON decoding the program applies to them, and
    the exported text of the ones it encodes. *)
From Stdlib Require Import String Ascii.
From S2P Require Export JsonDecode.
From stdpp Require Import list.

Local Open Scope Z_scope.

(** ** Approval *)
Record ApprovalRequest := {
  ar_TraceID : string;
  ar_TaskID : string;
  ar_ToolCallID : string;
  ar_ToolName : string;
  ar_Arguments : string;
  ar_RequestedAtMs : Z
}.

Definition ApprovalRequest_Validate (r : ApprovalRequest) : option error :=
  if bool_decide (ar_TaskID r = "") then Some (new_error "task_id is required")
  else if bool_decide (ar_ToolCallID r = "") then Some (new_error "tool_call_id is required")
  else if bool_decide (ar_ToolName r = "") then Some (new_error "tool_name is required")
  else if negb (bool_decide (ar_Arguments r = "")) && negb (Valid (ar_Arguments r))
  then Some (new_error "arguments must be valid json")
  else None.

Record ApprovalDecision := {
  ad_TraceID : string;
  ad_TaskID : string;
  ad_ToolCallID : string;
  ad_Approved : bool;
  ad_Reviewer : string;
  ad_Reason : string;
  ad_DecidedAtMs : Z
}.

#[export] Instance ApprovalDecision_eq_dec : EqDecision ApprovalDecision.
Proof. solve_decision. Defined.

Definition zero_decision : ApprovalDecision :=
  {| ad_TraceID := ""; ad_TaskID := ""; ad_ToolCallID := ""; ad_Approved := false; ad_Reviewer := "";
     ad_Reason := ""; ad_DecidedAtMs := 0 |}.

Definition ApprovalDecision_Validate (d : ApprovalDecision) : option error :=
  if bool_decide (ad_TaskID d = "") then Some (new_error "task_id is required")
  else if bool_decide (ad_ToolCallID d = "") then Some (new_error "tool_call_id is required")
  else if ad_DecidedAtMs d <=? 0 then Some (new_error "decided_at_ms must be positive")
  else None.

Definition decision_fields : list (field ApprovalDecision) :=
  [ string_field "trace_id" (λ v d, Build_ApprovalDecision v (ad_TaskID d) (ad_ToolCallID d) (ad_Approved d) (ad_Reviewer d) (ad_Reason d) (ad_DecidedAtMs d));
    string_field "task_id" (λ v d, Build_ApprovalDecision (ad_TraceID d) v (ad_ToolCallID d) (ad_Approved d) (ad_Reviewer d) (ad_Reason d) (ad_DecidedAtMs d));
    string_field "tool_call_id" (λ v d, Build_ApprovalDecision (ad_TraceID d) (ad_TaskID d) v (ad_Approved d) (ad_Reviewer d) (ad_Reason d) (ad_DecidedAtMs d));
    bool_field "approved" (λ v d, Build_ApprovalDecision (ad_TraceID d) (ad_TaskID d) (ad_ToolCallID d) v (ad_Reviewer d) (ad_Reason d) (ad_DecidedAtMs d));
    string_field "reviewer" (λ v d, Build_ApprovalDecision (ad_TraceID d) (ad_TaskID d) (ad_ToolCallID d) (ad_Approved d) v (ad_Reason d) (ad_DecidedAtMs d));
    string_field "reason" (λ v d, Build_ApprovalDecision (ad_TraceID d) (ad_TaskID d) (ad_ToolCallID d) (ad_Approved d) (ad_Reviewer d) v (ad_DecidedAtMs d));
    int64_field "decided_at_ms" (λ v d, Build_ApprovalDecision (ad_TraceID d) (ad_TaskID d) (ad_ToolCallID d) (ad_Approved d) (ad_Reviewer d) (ad_Reason d) v) ].

(** ** Chat messages, tool calls, results *)
Record ChatMessage := {
  cm_Role : string;
  cm_Content : string;
  cm_Name : string;
  cm_ToolCallID : string;
  cm_ToolCalls : string
}.

Record ToolCall := {
  tc_ID : string;
  tc_Name : string;
  tc_Arguments : string;
  tc_IsWriteOperation : bool
}.

Record ToolResult := {
  tr_ToolCallID : string;
  tr_Name : string;
  tr_Success : bool;
  tr_Output : string;
  tr_Error : string;
  tr_DurationMs : Z
}.

(** [call_skill] is a pointer: [None] is nil. *)
Record ActionEnvelope := {
  ae_Think : string;
  ae_CallSkill : option ToolCall;
  ae_Final : string
}.

Record FinalResult := {
  fr_TraceID : string;
  fr_TaskID : string;
  fr_Content : string;
  fr_Status : string;
  fr_TokensUsed : Z;
  fr_TimestampMs : Z
}.

#[export] Instance ChatMessage_eq_dec : EqDecision ChatMessage.
Proof. solve_decision. Defined.
#[export] Instance ToolCall_eq_dec : EqDecision ToolCall.
Proof. solve_decision. Defined.
#[export] Instance ToolResult_eq_dec : EqDecision ToolResult.
Proof. solve_decision. Defined.
#[export] Instance ActionEnvelope_eq_dec : EqDecision ActionEnvelope.
Proof. solve_decision. Defined.
#[export] Instance FinalResult_eq_dec : EqDecision FinalResult.
Proof. solve_decision. Defined.
