(* ===== verification/ApprovalGate.v ===== *)
(** * Human approval of write operations: internal/skill/approval_gate.go

    The gate's state is the undelivered decisions and the registered waiters by
    key, plus the capacity-one channel each waiting call made (named by the
    call).  The helper methods hold the mutex throughout, so each is one
    function on the state; [WaitDecision] is a sequence of them and of one
    [select], so a call is a small program counter ([phase]) and [gstep]
    interleaves any number of calls with the arrival of decisions. *)
From Stdlib Require Import String Ascii.
From S2P Require Import Contracts Bus.
From stdpp Require Import list.

Local Open Scope Z_scope.

Definition approvalKey (taskID toolCallID : string) : string := (taskID ++ ":" ++ toolCallID)%string.

Definition approvalTraceMatches (expected actual : string) : bool :=
  bool_decide (expected = "") || bool_decide (actual = "") || bool_decide (expected = actual).

Record waiter := Waiter { w_trace : string; w_chan : nat }.

Record gate := Gate {
  g_pending : gmap string (list ApprovalDecision);
  g_waiters : gmap string (list waiter);
  g_chans : gmap nat (chan ApprovalDecision);
  g_startErr : option error
}.

(** [NewApprovalGate], with the outcome of subscribing to the event bus
    ([None] for a nil bus). *)
Definition NewApprovalGate (subscribe : option (option error)) : gate :=
  Gate ∅ ∅ ∅ (match subscribe with
              | None => Some (new_error "approval event bus is required")
              | Some e => e
              end).

Definition lookup_list {A} (m : gmap string (list A)) (k : string) : list A := default [] (m !! k).

(** Store a filtered list back, or drop its key when it is empty. *)
Definition store_list {A} (k : string) (l : list A) (m : gmap string (list A)) : gmap string (list A) :=
  match l with [] => delete k m | _ => <[k := l]> m end.

(** ** The methods *)

(** The loop of [routeDecision]: the waiters kept, whether the decision was
    delivered, and the channels. *)
Fixpoint route_loop (d : ApprovalDecision) (ws : list waiter) (chans : gmap nat (chan ApprovalDecision))
    : list waiter * bool * gmap nat (chan ApprovalDecision) :=
  match ws with
  | [] => ([], false, chans)
  | w :: ws =>
    if negb (approvalTraceMatches (w_trace w) (ad_TraceID d)) then
      let '(rest, dl, chans) := route_loop d ws chans in (w :: rest, dl, chans)
    else
      let sent := match chans !! w_chan w with
                  | Some c => bool_decide (length (ch_buf c) < ch_cap c)%nat
                  | None => false
                  end in
      let '(rest, dl, chans) := route_loop d ws (alter (try_send d) (w_chan w) chans) in
      (rest, sent || dl, chans)
  end.

Definition routeDecision (d : ApprovalDecision) (g : gate) : gate :=
  let key := approvalKey (ad_TaskID d) (ad_ToolCallID d) in
  match lookup_list (g_waiters g) key with
  | [] => Gate (<[key := lookup_list (g_pending g) key ++ [d]]> (g_pending g)) (g_waiters g) (g_chans g) (g_startErr g)
  | ws =>
    let '(remaining, delivered, chans) := route_loop d ws (g_chans g) in
    Gate (if delivered then g_pending g else <[key := lookup_list (g_pending g) key ++ [d]]> (g_pending g))
      (store_list key remaining (g_waiters g)) chans (g_startErr g)
  end.

Definition addWaiter (key : string) (w : waiter) (g : gate) : gate :=
  Gate (g_pending g) (<[key := lookup_list (g_waiters g) key ++ [w]]> (g_waiters g)) (g_chans g) (g_startErr g).

Definition removeWaiter (key : string) (ch : nat) (g : gate) : gate :=
  match lookup_list (g_waiters g) key with
  | [] => g
  | ws => Gate (g_pending g) (store_list key (filter (λ w, w_chan w ≠ ch) ws) (g_waiters g)) (g_chans g) (g_startErr g)
  end.

(** The loop of [takePendingDecision] over a key's decisions: the ones passed
    over so far, and the first match. *)
Fixpoint take_loop (trace : string) (ds passed : list ApprovalDecision) : list ApprovalDecision * option ApprovalDecision :=
  match ds with
  | [] => (passed, None)
  | d :: ds =>
    if negb (approvalTraceMatches trace (ad_TraceID d)) then take_loop trace ds (passed ++ [d])
    else (passed, Some d)
  end.

Definition takePendingDecision (key trace : string) (g : gate) : option ApprovalDecision * gate :=
  match lookup_list (g_pending g) key with
  | [] => (None, g)
  | ds =>
    let '(remaining, found) := take_loop trace ds [] in
    (found, Gate (store_list key remaining (g_pending g)) (g_waiters g) (g_chans g) (g_startErr g))
  end.

Definition PendingDecisionCount (g : gate) : nat := map_fold (λ _ ds n, (n + length ds)%nat) 0%nat (g_pending g).

(** One message of the subscription: [consume]. *)
Definition consume (payload : string) (g : gate) : gate :=
  match Unmarshal decision_fields zero_decision payload with
  | Fail _ => g
  | Ok d => match ApprovalDecision_Validate d with Some _ => g | None => routeDecision d g end
  end.

(** ** [WaitDecision] *)
Definition answer : Type := ApprovalDecision * option error.

Inductive phase :=
| WInit                      (* before the first look at the pending decisions *)
| WRegister                  (* found nothing; about to register *)
| WRetake                    (* registered; before the second look *)
| WSelect                    (* waiting on the channel, the timer and the context *)
| WReturning (a : answer)    (* has its answer; the deferred removeWaiter is due *)
| WDone (a : answer).

Record call := Call { c_req : ApprovalRequest; c_phase : phase }.

Definition req_key (r : ApprovalRequest) : string := approvalKey (ar_TaskID r) (ar_ToolCallID r).

Definition timeout_answer (now : Z) (r : ApprovalRequest) : answer :=
  ({| ad_TraceID := ar_TraceID r; ad_TaskID := ar_TaskID r; ad_ToolCallID := ar_ToolCallID r;
      ad_Approved := false; ad_Reviewer := ""; ad_Reason := "timeout"; ad_DecidedAtMs := now |},
   Some (new_error "approval timeout")).

(** Validation and the check of [startErr]. *)
Definition wait_start (r : ApprovalRequest) (g : gate) : phase :=
  match ApprovalRequest_Validate r with
  | Some e => WDone (zero_decision, Some e)
  | None => match g_startErr g with Some e => WDone (zero_decision, Some e) | None => WInit end
  end.

Definition wait_take1 (r : ApprovalRequest) (g : gate) : phase * gate :=
  match takePendingDecision (req_key r) (ar_TraceID r) g with
  | (Some d, g') => (WDone (d, None), g')
  | (None, g') => (WRegister, g')
  end.

Definition wait_register (id : nat) (r : ApprovalRequest) (g : gate) : phase * gate :=
  let g := Gate (g_pending g) (g_waiters g) (<[id := make_chan 1]> (g_chans g)) (g_startErr g) in
  (WRetake, addWaiter (req_key r) (Waiter (ar_TraceID r) id) g).

Definition wait_take2 (r : ApprovalRequest) (g : gate) : phase * gate :=
  match takePendingDecision (req_key r) (ar_TraceID r) g with
  | (Some d, g') => (WReturning (d, None), g')
  | (None, g') => (WSelect, g')
  end.

Definition wait_recv (id : nat) (g : gate) : option (phase * gate) :=
  c ← g_chans g !! id;
  '(d, c') ← recv c;
  Some (WReturning (d, None), Gate (g_pending g) (g_waiters g) (<[id := c']> (g_chans g)) (g_startErr g)).

Definition wait_return (id : nat) (r : ApprovalRequest) (a : answer) (g : gate) : phase * gate :=
  (WDone a, removeWaiter (req_key r) id g).

(** The gate, the calls by id, and the decisions that have been routed. *)
Record gsys := GSys { s_gate : gate; s_calls : gmap nat call; s_routed : list ApprovalDecision }.

Definition set_phase (id : nat) (r : ApprovalRequest) (p : phase * gate) (s : gsys) : gsys :=
  GSys p.2 (<[id := Call r p.1]> (s_calls s)) (s_routed s).

Inductive gstep : gsys → gsys → Prop :=
| g_decision s d : ApprovalDecision_Validate d = None →
  gstep s (GSys (routeDecision d (s_gate s)) (s_calls s) (s_routed s ++ [d]))
| g_call s id r : s_calls s !! id = None →
  gstep s (set_phase id r (wait_start r (s_gate s), s_gate s) s)
| g_take1 s id r : s_calls s !! id = Some (Call r WInit) →
  gstep s (set_phase id r (wait_take1 r (s_gate s)) s)
| g_register s id r : s_calls s !! id = Some (Call r WRegister) →
  gstep s (set_phase id r (wait_register id r (s_gate s)) s)
| g_take2 s id r : s_calls s !! id = Some (Call r WRetake) →
  gstep s (set_phase id r (wait_take2 r (s_gate s)) s)
| g_recv s id r p : s_calls s !! id = Some (Call r WSelect) →
  wait_recv id (s_gate s) = Some p → gstep s (set_phase id r p s)
| g_ctx s id r e : s_calls s !! id = Some (Call r WSelect) →
  gstep s (set_phase id r (WReturning (zero_decision, Some e), s_gate s) s)
| g_timer s id r now : s_calls s !! id = Some (Call r WSelect) →
  gstep s (set_phase id r (WReturning (timeout_answer now r), s_gate s) s)
| g_return s id r a : s_calls s !! id = Some (Call r (WReturning a)) →
  gstep s (set_phase id r (wait_return id r a (s_gate s)) s).

Definition g_start (g : gate) : gsys := GSys g ∅ [].

(** ** Facts about the methods *)

Section lists.
Context {A : Type}.
Implicit Types (m : gmap string (list A)) (l : list A).

Lemma lookup_list_insert k l m k' :
  lookup_list (<[k := l]> m) k' = if decide (k = k') then l else lookup_list m k'.
Proof. unfold lookup_list. rewrite lookup_insert. by case_decide. Qed.

Lemma lookup_list_store k l m k' :
  lookup_list (store_list k l m) k' = if decide (k = k') then l else lookup_list m k'.
Proof.
  unfold store_list. destruct l as [|x l]; [|apply lookup_list_insert].
  unfold lookup_list. rewrite lookup_delete. by case_decide.
Qed.
End lists.

Definition w_matches (d : ApprovalDecision) (w : waiter) : bool := approvalTraceMatches (w_trace w) (ad_TraceID d).

(** With one empty channel per waiter, [route_loop] fills the channels of the
    matching waiters and keeps the others. *)
Lemma route_loop_spec d ws : ∀ chans,
  NoDup (w_chan <$> ws) →
  (∀ w, w ∈ ws → chans !! w_chan w = Some (make_chan 1)) →
  ∃ chans', route_loop d ws chans = (filter (λ w, w_matches d w = false) ws, existsb (w_matches d) ws, chans') ∧
    ∀ id, (∃ w, w ∈ ws ∧ w_chan w = id ∧ w_matches d w = true ∧ chans' !! id = Some (Chan [d] 1 false)) ∨
          (¬ ∃ w, w ∈ ws ∧ w_chan w = id ∧ w_matches d w = true) ∧ chans' !! id = chans !! id.
Proof.
  induction ws as [|w ws IH]; intros chans Hnd Hempty.
  { exists chans. split; [done|]. intros id. right. split; [|done]. intros (w & Hw & _). by apply elem_of_nil in Hw. }
  cbn in Hnd. apply NoDup_cons in Hnd as [Hw Hnd]. cbn [route_loop existsb].
  fold (w_matches d w). rewrite filter_cons. destruct (w_matches d w) eqn:Hm; cbn [negb].
  - rewrite decide_False by done. rewrite (Hempty w) by (by left). cbn [ch_buf ch_cap make_chan length].
    rewrite bool_decide_eq_true_2 by lia.
    destruct (IH (alter (try_send d) (w_chan w) chans) Hnd) as (chans' & -> & Hc).
    { intros w' Hw'. rewrite lookup_alter_ne; [apply Hempty; by right|].
      intros Heq. apply Hw. rewrite Heq. by apply list_elem_of_fmap_2. }
    exists chans'. split; [done|]. intros id.
    destruct (Hc id) as [(w' & ? & ? & ? & ?)|[Hno Heq]]; [left; exists w'; split_and!; try done; by right|].
    destruct (decide (id = w_chan w)) as [->|Hne].
    + left. exists w. split_and!; [by left|done..|]. rewrite Heq, lookup_alter_eq, (Hempty w) by (by left). done.
    + right. rewrite Heq, lookup_alter_ne by done. split; [|done].
      intros (w' & Hin & <- & Hm'). apply elem_of_cons in Hin as [->|Hin]; [done|]. apply Hno. eauto.
  - rewrite decide_True by done. destruct (IH chans Hnd) as (chans' & -> & Hc).
    { intros w' Hw'. apply Hempty. by right. }
    exists chans'. split; [done|]. intros id.
    destruct (Hc id) as [(w' & ? & ? & ? & ?)|[Hno Heq]]; [left; exists w'; split_and!; try done; by right|].
    right. split; [|done]. intros (w' & Hin & <- & Hm'). apply elem_of_cons in Hin as [->|Hin]; [congruence|].
    apply Hno. eauto.
Qed.

(** [takePendingDecision] returns the oldest matching decision. *)
Lemma take_loop_spec trace ds : ∀ passed,
  (∃ l d l', ds = l ++ d :: l' ∧ Forall (λ d, approvalTraceMatches trace (ad_TraceID d) = false) l ∧
     approvalTraceMatches trace (ad_TraceID d) = true ∧ take_loop trace ds passed = (passed ++ l, Some d)) ∨
  (Forall (λ d, approvalTraceMatches trace (ad_TraceID d) = false) ds ∧ take_loop trace ds passed = (passed ++ ds, None)).
Proof.
  induction ds as [|d ds IH]; intros passed; cbn [take_loop].
  - right. by rewrite app_nil_r.
  - destruct (approvalTraceMatches trace (ad_TraceID d)) eqn:Hm; cbn [negb].
    + left. exists [], d, ds. rewrite app_nil_r. by repeat constructor.
    + destruct (IH (passed ++ [d])) as [(l & d' & l' & -> & Hl & Hd & ->)|[Hl ->]].
      * left. exists (d :: l), d', l'. rewrite <-app_assoc. by repeat constructor.
      * right. rewrite <-app_assoc. by repeat constructor.
Qed.

Lemma take_pending_cases key trace g :
  let '(found, g') := takePendingDecision key trace g in
  g_waiters g' = g_waiters g ∧ g_chans g' = g_chans g ∧ g_startErr g' = g_startErr g ∧
  (∀ k d, d ∈ lookup_list (g_pending g') k → d ∈ lookup_list (g_pending g) k) ∧
  match found with
  | Some d => d ∈ lookup_list (g_pending g) key ∧ approvalTraceMatches trace (ad_TraceID d) = true
  | None => ∀ d, d ∈ lookup_list (g_pending g) key → approvalTraceMatches trace (ad_TraceID d) = false
  end.
Proof.
  unfold takePendingDecision. destruct (lookup_list (g_pending g) key) as [|d0 ds] eqn:Hl.
  { split_and!; try done. intros d Hd. by apply elem_of_nil in Hd. }
  destruct (take_loop_spec trace (d0 :: ds) []) as [(l & d & l' & Heq & Hf & Hd & ->)|[Hf ->]]; cbn [app].
  - split_and!; try done.
    + intros k d'. cbn [g_pending]. rewrite lookup_list_store. case_decide as Hk; [|done]. subst k.
      rewrite Hl, Heq. rewrite elem_of_app. by left.
    + rewrite Heq. apply elem_of_app. right. by left.
  - split_and!; try done.
    + intros k d'. cbn [g_pending]. rewrite lookup_list_store. case_decide as Hk; [|done]. by subst; rewrite Hl.
    + intros d Hd. rewrite Forall_forall in Hf. by apply Hf.
Qed.

(** Exactly what [takePendingDecision] leaves behind: the decisions before the
    one it returns.  Those after it are dropped. *)
Theorem take_pending_exact key trace g :
  let ds := lookup_list (g_pending g) key in
  let '(found, g') := takePendingDecision key trace g in
  (∀ k, k ≠ key → lookup_list (g_pending g') k = lookup_list (g_pending g) k) ∧
  match found with
  | Some d => ∃ l l', ds = l ++ d :: l' ∧ Forall (λ d, approvalTraceMatches trace (ad_TraceID d) = false) l ∧
      approvalTraceMatches trace (ad_TraceID d) = true ∧ lookup_list (g_pending g') key = l
  | None => Forall (λ d, approvalTraceMatches trace (ad_TraceID d) = false) ds ∧ lookup_list (g_pending g') key = ds
  end.
Proof.
  intros ds. unfold takePendingDecision. fold ds. destruct ds as [|d0 ds'] eqn:Hds; [by split|].
  destruct (take_loop_spec trace (d0 :: ds') []) as [(l & d & l' & Heq & Hf & Hd & ->)|[Hf ->]]; cbn [app];
    (split; [intros k Hk; cbn [g_pending]; rewrite lookup_list_store, decide_False by done; done|]).
  - exists l, l'. rewrite <-Hds at 1. rewrite Hds. split_and!; [done..|]. cbn [g_pending]. by rewrite lookup_list_store, decide_True.
  - split; [done|]. cbn [g_pending]. by rewrite lookup_list_store, decide_True.
Qed.

(** ** The invariant *)

(** A decision that answers a request: same key, matching trace. *)
Definition answers (d : ApprovalDecision) (r : ApprovalRequest) : Prop :=
  approvalKey (ad_TaskID d) (ad_ToolCallID d) = req_key r ∧ approvalTraceMatches (ar_TraceID r) (ad_TraceID d) = true.

(** Registered: between [addWaiter] and the deferred [removeWaiter]. *)
Definition may_be_registered (p : phase) : Prop :=
  match p with WRetake | WSelect | WReturning _ => True | _ => False end.

Definition answer_ok (routed : list ApprovalDecision) (r : ApprovalRequest) (a : answer) : Prop :=
  match a.2 with
  | None => answers a.1 r ∧ a.1 ∈ routed
  | Some _ => ad_Approved a.1 = false
  end.

Definition registered (g : gate) (id : nat) (r : ApprovalRequest) : Prop :=
  Waiter (ar_TraceID r) id ∈ lookup_list (g_waiters g) (req_key r).

(** What holds of one call, given the gate. *)
Definition call_ok (g : gate) (routed : list ApprovalDecision) (id : nat) (r : ApprovalRequest) (p : phase) : Prop :=
  match p with
  | WInit | WRegister => g_chans g !! id = None
  | WRetake => registered g id r ∨ ∃ d, g_chans g !! id = Some (Chan [d] 1 false)
  | WSelect =>
    registered g id r ∧ (∀ d, d ∈ lookup_list (g_pending g) (req_key r) →
      approvalTraceMatches (ar_TraceID r) (ad_TraceID d) = false) ∨
    ∃ d, g_chans g !! id = Some (Chan [d] 1 false)
  | WReturning a | WDone a => answer_ok routed r a
  end.

Record ginv (s : gsys) : Prop := {
  gi_pending key d : d ∈ lookup_list (g_pending (s_gate s)) key →
    key = approvalKey (ad_TaskID d) (ad_ToolCallID d) ∧ d ∈ s_routed s;
  gi_waiters key w : w ∈ lookup_list (g_waiters (s_gate s)) key →
    g_chans (s_gate s) !! w_chan w = Some (make_chan 1) ∧
    ∃ r p, s_calls s !! w_chan w = Some (Call r p) ∧ key = req_key r ∧ w_trace w = ar_TraceID r ∧ may_be_registered p;
  gi_nodup key : NoDup (w_chan <$> lookup_list (g_waiters (s_gate s)) key);
  gi_chans id c : g_chans (s_gate s) !! id = Some c →
    ∃ r p, s_calls s !! id = Some (Call r p) ∧ ∀ d, d ∈ ch_buf c → answers d r ∧ d ∈ s_routed s;
  gi_calls id r p : s_calls s !! id = Some (Call r p) → call_ok (s_gate s) (s_routed s) id r p
}.

Lemma answer_ok_mono l d r a : answer_ok l r a → answer_ok (l ++ [d]) r a.
Proof. unfold answer_ok. destruct a.2; [done|]. intros [? ?]. split; [done|]. apply elem_of_app. by left. Qed.

(** What routing a decision does, under the invariant. *)
Lemma route_spec d s :
  ginv s → let g := s_gate s in let g' := routeDecision d g in
  let key := approvalKey (ad_TaskID d) (ad_ToolCallID d) in
  (∀ k, lookup_list (g_waiters g') k =
     if decide (key = k) then filter (λ w, w_matches d w = false) (lookup_list (g_waiters g) k) else lookup_list (g_waiters g) k) ∧
  (∀ k, lookup_list (g_pending g') k =
     if decide (key = k) then lookup_list (g_pending g) k ++
       (if existsb (w_matches d) (lookup_list (g_waiters g) k) then [] else [d]) else lookup_list (g_pending g) k) ∧
  (∀ id, (∃ w, w ∈ lookup_list (g_waiters g) key ∧ w_chan w = id ∧ w_matches d w = true ∧ g_chans g' !! id = Some (Chan [d] 1 false)) ∨
     (¬ ∃ w, w ∈ lookup_list (g_waiters g) key ∧ w_chan w = id ∧ w_matches d w = true) ∧ g_chans g' !! id = g_chans g !! id).
Proof.
  intros Hi g g' key. subst g'. unfold routeDecision. fold key.
  pose proof (gi_nodup s Hi key) as Hnd. pose proof (gi_waiters s Hi key) as Hw. fold g in Hnd, Hw.
  destruct (lookup_list (g_waiters g) key) as [|w0 ws] eqn:Hl.
  - cbn [g_waiters g_pending g_chans]. split_and!; intros k.
    + case_decide as Hk; [subst k; by rewrite Hl|done].
    + rewrite lookup_list_insert. case_decide as Hk; [subst k; by rewrite Hl|done].
    + right. split; [|done]. intros (w & Hin & _). by apply elem_of_nil in Hin.
  - rewrite <-Hl in *. destruct (route_loop_spec d (lookup_list (g_waiters g) key) (g_chans g)) as (chans' & -> & Hc).
    { done. } { intros w Hin. by apply Hw. }
    cbn [g_waiters g_pending g_chans]. split_and!; [intros k..|done].
    + rewrite lookup_list_store. case_decide as Hk; [by subst k|done].
    + destruct (existsb (w_matches d) (lookup_list (g_waiters g) key)) eqn:He.
      * case_decide as Hk; [|done]. subst k. by rewrite He, app_nil_r.
      * rewrite lookup_list_insert. case_decide as Hk; [subst k; by rewrite He|done].
Qed.

Lemma existsb_false {A} (f : A → bool) l : existsb f l = false → ∀ x, x ∈ l → f x = false.
Proof.
  intros H x Hx. destruct (f x) eqn:Hf; [|done]. assert (existsb f l = true); [|congruence].
  apply existsb_exists. exists x. split; [by apply list_elem_of_In|done].
Qed.

Lemma ginv_decision s d :
  ginv s → ginv (GSys (routeDecision d (s_gate s)) (s_calls s) (s_routed s ++ [d])).
Proof.
  intros Hi. destruct (route_spec d s Hi) as (HW & HP & HC). set (g' := routeDecision d (s_gate s)) in *.
  set (key := approvalKey (ad_TaskID d) (ad_ToolCallID d)) in *.
  assert (∀ k w, w ∈ lookup_list (g_waiters g') k →
    w ∈ lookup_list (g_waiters (s_gate s)) k ∧ (k = key → w_matches d w = false)) as HWsub.
  { intros k w. rewrite HW. case_decide as Hk; [|naive_solver]. subst k. intros [? ?]%list_elem_of_filter. auto. }
  split; cbn.
  - intros k x. rewrite HP. case_decide as Hk; [subst k|].
    + intros [Hx|Hx]%elem_of_app.
      * destruct (gi_pending s Hi _ _ Hx). split; [done|]. apply elem_of_app. by left.
      * destruct (existsb _ _); [by apply elem_of_nil in Hx|]. apply list_elem_of_singleton in Hx as ->.
        split; [done|]. apply elem_of_app. right. by left.
    + intros Hx. destruct (gi_pending s Hi _ _ Hx). split; [done|]. apply elem_of_app. by left.
  - intros k w Hw. destruct (HWsub k w Hw) as [Hin Hno]. destruct (gi_waiters s Hi k w Hin) as [Hch Hcall].
    split; [|done]. destruct (HC (w_chan w)) as [(w' & Hw' & Heq & Hm & _)|[_ ->]]; [|done]. exfalso.
    destruct (gi_waiters s Hi _ _ Hw') as (_ & r' & p' & Hc' & Hk' & Ht' & _). rewrite Heq in Hc'.
    destruct Hcall as (r & p & Hc & Hk & Ht & _). simplify_eq.
    assert (w_matches d w = false) as Hf by (apply Hno; congruence).
    unfold w_matches in *. rewrite Ht in Hf. rewrite Ht' in Hm. congruence.
  - intros k. rewrite HW. case_decide; [|apply (gi_nodup s Hi)].
    eapply sublist_NoDup; [apply (gi_nodup s Hi k)|]. apply fmap_sublist, sublist_filter.
  - intros id c Hc. destruct (HC id) as [(w & Hw & Heq & Hm & Hch)|[_ Hch]].
    + destruct (gi_waiters s Hi _ _ Hw) as (_ & r & p & Hcall & Hk & Ht & _). rewrite Heq in Hcall.
      exists r, p. split; [done|]. rewrite Hch in Hc. simplify_eq. cbn. intros x ->%list_elem_of_singleton.
      split; [|apply elem_of_app; right; by left]. split; [done|]. unfold w_matches in Hm. by rewrite Ht in Hm.
    + rewrite Hch in Hc. destruct (gi_chans s Hi id c Hc) as (r & p & Hcall & Hbuf). exists r, p. split; [done|].
      intros x Hx. destruct (Hbuf x Hx). split; [done|]. apply elem_of_app. by left.
  - intros id r p Hcall. pose proof (gi_calls s Hi id r p Hcall) as Hok.
    assert (registered (s_gate s) id r → registered g' id r ∧ (w_matches d (Waiter (ar_TraceID r) id) = false ∨ key ≠ req_key r)
              ∨ g_chans g' !! id = Some (Chan [d] 1 false)) as Hreg.
    { intros Hr. destruct (HC id) as [(w & Hw & Heq & Hm & Hch)|[Hno Hch]]; [by right|left].
      unfold registered in *. rewrite HW. case_decide as Hk; [|split; [done|by right]].
      assert (w_matches d (Waiter (ar_TraceID r) id) = false) as Hf.
      { destruct (w_matches d _) eqn:Hm; [|done]. exfalso. apply Hno. eexists. rewrite Hk. eauto. }
      split; [|by left]. by apply list_elem_of_filter. }
    assert (∀ x, g_chans (s_gate s) !! id = Some (Chan [x] 1 false) → g_chans g' !! id = Some (Chan [x] 1 false)) as Hkeep.
    { intros x Hx. destruct (HC id) as [(w & Hw & Heq & _)|[_ ->]]; [|done].
      destruct (gi_waiters s Hi _ _ Hw) as [Hempty _]. rewrite Heq, Hx in Hempty. done. }
    destruct p as [| | | |a|a]; cbn in Hok |- *.
    + destruct (HC id) as [(w & Hw & Heq & _)|[_ ->]]; [|done].
      destruct (gi_waiters s Hi _ _ Hw) as [Hempty _]. by rewrite Heq, Hok in Hempty.
    + destruct (HC id) as [(w & Hw & Heq & _)|[_ ->]]; [|done].
      destruct (gi_waiters s Hi _ _ Hw) as [Hempty _]. by rewrite Heq, Hok in Hempty.
    + destruct Hok as [Hr|[x Hx]]; [|eauto]. destruct (Hreg Hr) as [[? _]|?]; eauto.
    + destruct Hok as [[Hr Hnone]|[x Hx]]; [|eauto]. destruct (Hreg Hr) as [[Hr' Hm]|?]; [left|eauto]. split; [done|].
      intros x. rewrite HP. case_decide as Hk; [|apply Hnone]. intros [Hx|Hx]%elem_of_app; [by apply Hnone|].
      destruct (existsb _ _) eqn:He; [by apply elem_of_nil in Hx|]. apply list_elem_of_singleton in Hx as ->.
      destruct Hm as [Hm|Hm]; [exact Hm|done].
    + by apply answer_ok_mono.
    + by apply answer_ok_mono.
Qed.

(** A step of one call that leaves the waiters and the channels alone and can
    only shorten the pending decisions. *)
Lemma ginv_phase s id r p p' g' :
  ginv s → s_calls s !! id = Some (Call r p) →
  g_waiters g' = g_waiters (s_gate s) → g_chans g' = g_chans (s_gate s) →
  (∀ k d, d ∈ lookup_list (g_pending g') k → d ∈ lookup_list (g_pending (s_gate s)) k) →
  (may_be_registered p → may_be_registered p') →
  call_ok g' (s_routed s) id r p' →
  ginv (set_phase id r (p', g') s).
Proof.
  intros Hi Hc HW HC HP Hreg Hok. split; cbn.
  - intros k d Hd. by apply (gi_pending s Hi), HP.
  - rewrite HW, HC. intros k w Hw. destruct (gi_waiters s Hi k w Hw) as (Hch & r' & p0 & Hcall & ? & ? & ?).
    split; [done|]. rewrite lookup_insert. case_decide as Hid; [|eauto 6]. subst. rewrite Hc in Hcall. simplify_eq.
    do 2 eexists. split_and!; eauto.
  - rewrite HW. apply (gi_nodup s Hi).
  - rewrite HC. intros i c Hch. destruct (gi_chans s Hi i c Hch) as (r' & p0 & Hcall & Hb).
    rewrite lookup_insert. case_decide as Hid; [|eauto]. subst. rewrite Hc in Hcall. simplify_eq. eauto.
  - intros i r' p0. rewrite lookup_insert. case_decide as Hid; [intros [= <- <-]; by subst|].
    intros Hcall. pose proof (gi_calls s Hi i r' p0 Hcall) as Hok'.
    destruct p0; cbn in *; unfold registered in *; rewrite ?HW, ?HC; try done. naive_solver.
Qed.

Lemma ginv_take1 s id r :
  ginv s → s_calls s !! id = Some (Call r WInit) → ginv (set_phase id r (wait_take1 r (s_gate s)) s).
Proof.
  intros Hi Hc. unfold wait_take1. pose proof (take_pending_cases (req_key r) (ar_TraceID r) (s_gate s)) as Hcase.
  destruct (takePendingDecision (req_key r) (ar_TraceID r) (s_gate s)) as [[d|] g'] eqn:Ht;
    destruct Hcase as (HW & HC & _ & HP & Hd); eapply ginv_phase; eauto; try done.
  - destruct Hd as [Hin Hm]. destruct (gi_pending s Hi _ _ Hin). by split.
  - cbn. rewrite HC. apply (gi_calls s Hi id r WInit Hc).
Qed.

Lemma ginv_take2 s id r :
  ginv s → s_calls s !! id = Some (Call r WRetake) → ginv (set_phase id r (wait_take2 r (s_gate s)) s).
Proof.
  intros Hi Hc. unfold wait_take2. pose proof (take_pending_cases (req_key r) (ar_TraceID r) (s_gate s)) as Hcase.
  destruct (takePendingDecision (req_key r) (ar_TraceID r) (s_gate s)) as [[d|] g'] eqn:Ht;
    destruct Hcase as (HW & HC & _ & HP & Hd); eapply ginv_phase; eauto; try done.
  - destruct Hd as [Hin Hm]. destruct (gi_pending s Hi _ _ Hin). by split.
  - destruct (gi_calls s Hi id r WRetake Hc) as [Hr|Hr]; [left|right; by rewrite HC].
    unfold registered. rewrite HW. split; [done|]. intros d Hdin. by apply Hd, HP.
Qed.

Lemma chan_fresh s id : ginv s → s_calls s !! id = None → g_chans (s_gate s) !! id = None.
Proof.
  intros Hi Hc. destruct (g_chans (s_gate s) !! id) as [c|] eqn:Hch; [|done].
  destruct (gi_chans s Hi id c Hch) as (r & p & Hcall & _). congruence.
Qed.

Lemma ginv_call s id r :
  ginv s → s_calls s !! id = None → ginv (set_phase id r (wait_start r (s_gate s), s_gate s) s).
Proof.
  intros Hi Hc. split; cbn; try apply Hi.
  - intros k w Hw. destruct (gi_waiters s Hi k w Hw) as (Hch & r' & p0 & Hcall & ? & ? & ?). split; [done|].
    rewrite lookup_insert_ne by (intros ->; congruence). eauto 6.
  - intros i c Hch. destruct (gi_chans s Hi i c Hch) as (r' & p0 & Hcall & Hb).
    rewrite lookup_insert_ne by (intros ->; congruence). eauto.
  - intros i r' p0. rewrite lookup_insert. case_decide as Hid; [|apply (gi_calls s Hi)].
    intros [= <- <-]. subst i. pose proof (chan_fresh s id Hi Hc). unfold wait_start.
    destruct (ApprovalRequest_Validate r); [done|]. by destruct (g_startErr (s_gate s)).
Qed.

Lemma not_registered_without_chan s key w id :
  ginv s → g_chans (s_gate s) !! id ≠ Some (make_chan 1) → w ∈ lookup_list (g_waiters (s_gate s)) key → w_chan w ≠ id.
Proof. intros Hi Hne Hw <-. by destruct (gi_waiters s Hi key w Hw) as [? _]. Qed.

Lemma ginv_register s id r :
  ginv s → s_calls s !! id = Some (Call r WRegister) → ginv (set_phase id r (wait_register id r (s_gate s)) s).
Proof.
  intros Hi Hc. pose proof (gi_calls s Hi id r WRegister Hc) as Hnone. cbn in Hnone.
  assert (∀ k w, w ∈ lookup_list (g_waiters (s_gate s)) k → w_chan w ≠ id) as Hne.
  { intros k w. apply not_registered_without_chan; [done|]. by rewrite Hnone. }
  assert (∀ k w, w ∈ lookup_list (<[req_key r := lookup_list (g_waiters (s_gate s)) (req_key r) ++ [Waiter (ar_TraceID r) id]]> (g_waiters (s_gate s))) k →
    w ∈ lookup_list (g_waiters (s_gate s)) k ∨ k = req_key r ∧ w = Waiter (ar_TraceID r) id) as Hsplit.
  { intros k w. rewrite lookup_list_insert. case_decide as Hk; [subst k|by left].
    intros [?|?%list_elem_of_singleton]%elem_of_app; auto. }
  split; cbn.
  - apply (gi_pending s Hi).
  - intros k w [Hw|[-> ->]]%Hsplit; cbn.
    + destruct (gi_waiters s Hi k w Hw) as (Hch & Hcall).
      rewrite !lookup_insert_ne by (intros Heq; by apply (Hne k w Hw)). done.
    + rewrite !lookup_insert_eq. split; [done|]. exists r, WRetake. done.
  - intros k. rewrite lookup_list_insert. case_decide as Hk; [subst k|apply (gi_nodup s Hi)].
    rewrite fmap_app. apply NoDup_app. split_and!; [apply (gi_nodup s Hi)| |apply NoDup_singleton].
    intros x (w & -> & Hw)%list_elem_of_fmap ?%list_elem_of_singleton. by apply (Hne _ w Hw).
  - intros i c. rewrite !lookup_insert. case_decide as Hid.
    + intros [= <-]. exists r, WRetake. split; [done|]. intros d Hd. by apply elem_of_nil in Hd.
    + apply (gi_chans s Hi).
  - intros i r' p0. rewrite lookup_insert. case_decide as Hid.
    + intros [= <- <-]. subst i. left. unfold registered. cbn. rewrite lookup_list_insert, decide_True by done.
      apply elem_of_app. right. by left.
    + intros Hcall. pose proof (gi_calls s Hi i r' p0 Hcall) as Hok.
      assert (registered (s_gate s) i r' → registered (wait_register id r (s_gate s)).2 i r') as Hmono.
      { unfold registered. cbn. rewrite lookup_list_insert. case_decide as Hk; [|done]. rewrite <-Hk.
        intros ?. apply elem_of_app. by left. }
      destruct p0; cbn in *; rewrite ?lookup_insert_ne by done; try done; naive_solver.
Qed.

Lemma ginv_recv s id r p :
  ginv s → s_calls s !! id = Some (Call r WSelect) → wait_recv id (s_gate s) = Some p → ginv (set_phase id r p s).
Proof.
  intros Hi Hc Hr. pose proof (gi_calls s Hi id r WSelect Hc) as Hok. unfold wait_recv in Hr.
  apply bind_Some in Hr as (c & Hch & Hr). apply bind_Some in Hr as ([d c'] & Hrecv & [= <-]).
  assert (c = Chan [d] 1 false ∧ c' = make_chan 1) as [-> ->].
  { unfold recv in Hrecv. destruct Hok as [[Hreg _]|[x Hx]]; cbn in *.
    - destruct (gi_waiters s Hi _ _ Hreg) as [He _]. cbn in He. rewrite Hch in He. by simplify_eq.
    - rewrite Hch in Hx. by simplify_eq/=. }
  assert (∀ k w, w ∈ lookup_list (g_waiters (s_gate s)) k → w_chan w ≠ id) as Hne.
  { intros k w. apply not_registered_without_chan; [done|]. by rewrite Hch. }
  destruct (gi_chans s Hi id _ Hch) as (r' & p' & Hcall & Hb). rewrite Hc in Hcall. simplify_eq.
  split; cbn.
  - apply (gi_pending s Hi).
  - intros k w Hw. destruct (gi_waiters s Hi k w Hw) as (Hch' & Hcall').
    rewrite !lookup_insert_ne by (intros Heq; by apply (Hne k w Hw)). done.
  - apply (gi_nodup s Hi).
  - intros i c. rewrite !lookup_insert. case_decide as Hid; [|apply (gi_chans s Hi)].
    intros [= <-]. do 2 eexists. split; [done|]. intros x Hx. by apply elem_of_nil in Hx.
  - intros i r2 p0. rewrite lookup_insert. case_decide as Hid.
    + intros [= <- <-]. apply (Hb d). by left.
    + intros Hcall. pose proof (gi_calls s Hi i r2 p0 Hcall) as Hok'.
      destruct p0; cbn in *; unfold registered in *; cbn; rewrite ?lookup_insert_ne by done; done.
Qed.

Lemma lookup_removeWaiter key id g k :
  lookup_list (g_waiters (removeWaiter key id g)) k =
  if decide (key = k) then filter (λ w, w_chan w ≠ id) (lookup_list (g_waiters g) k) else lookup_list (g_waiters g) k.
Proof.
  unfold removeWaiter. destruct (lookup_list (g_waiters g) key) as [|w0 ws] eqn:Hl.
  - case_decide as Hk; [subst k; by rewrite Hl|done].
  - rewrite <-Hl. cbn [g_waiters]. rewrite lookup_list_store. case_decide as Hk; [by subst k|done].
Qed.

Lemma removeWaiter_other key id g :
  g_pending (removeWaiter key id g) = g_pending g ∧ g_chans (removeWaiter key id g) = g_chans g.
Proof. unfold removeWaiter. by destruct (lookup_list (g_waiters g) key). Qed.

Lemma ginv_return s id r a :
  ginv s → s_calls s !! id = Some (Call r (WReturning a)) → ginv (set_phase id r (wait_return id r a (s_gate s)) s).
Proof.
  intros Hi Hc. destruct (removeWaiter_other (req_key r) id (s_gate s)) as [HP HC].
  assert (∀ k w, w ∈ lookup_list (g_waiters (removeWaiter (req_key r) id (s_gate s))) k ↔
    w ∈ lookup_list (g_waiters (s_gate s)) k ∧ w_chan w ≠ id) as HW.
  { intros k w. rewrite lookup_removeWaiter. case_decide as Hk; [subst k; rewrite list_elem_of_filter; tauto|].
    split; [|tauto]. intros Hw. split; [done|]. intros <-. apply Hk.
    destruct (gi_waiters s Hi k w Hw) as (_ & r' & p' & Hcall & -> & _). by simplify_eq. }
  split; cbn.
  - rewrite HP. apply (gi_pending s Hi).
  - intros k w [Hw Hne]%HW. rewrite HC. rewrite lookup_insert_ne by done. apply (gi_waiters s Hi k w Hw).
  - intros k. rewrite lookup_removeWaiter. case_decide; [|apply (gi_nodup s Hi)].
    eapply sublist_NoDup; [apply (gi_nodup s Hi k)|]. apply fmap_sublist, sublist_filter.
  - rewrite HC. intros i c Hch. destruct (gi_chans s Hi i c Hch) as (r' & p0 & Hcall & Hb).
    rewrite lookup_insert. case_decide as Hid; [|eauto]. subst. rewrite Hc in Hcall. simplify_eq. eauto.
  - intros i r' p0. rewrite lookup_insert. case_decide as Hid.
    + intros [= <- <-]. subst i. apply (gi_calls s Hi id r _ Hc).
    + intros Hcall. pose proof (gi_calls s Hi i r' p0 Hcall) as Hok.
      assert (registered (s_gate s) i r' → registered (removeWaiter (req_key r) id (s_gate s)) i r') as Hmono.
      { intros Hr. apply HW. split; [done|]. cbn. congruence. }
      destruct p0; cbn in *; rewrite ?HC, ?HP; try done; naive_solver.
Qed.

Lemma ginv_step s s' : gstep s s' → ginv s → ginv s'.
Proof.
  destruct 1 as [s d Hd|s id r Hc|s id r Hc|s id r Hc|s id r Hc|s id r p Hc Hr|s id r e Hc|s id r now Hc|s id r a Hc];
    intros Hi; auto using ginv_decision, ginv_call, ginv_take1, ginv_register, ginv_take2, ginv_recv, ginv_return.
  - by eapply ginv_phase.
  - by eapply ginv_phase.
Qed.

Lemma ginv_start bus : ginv (g_start (NewApprovalGate bus)).
Proof.
  split; cbn.
  - intros key d Hd. by apply elem_of_nil in Hd.
  - intros key w Hw. by apply elem_of_nil in Hw.
  - intros key. constructor.
  - intros id c Hc. by rewrite lookup_empty in Hc.
  - intros id r p Hc. by rewrite lookup_empty in Hc.
Qed.

Lemma ginv_reachable bus s : rtc gstep (g_start (NewApprovalGate bus)) s → ginv s.
Proof.
  intros H. pose proof (ginv_start bus) as Hi. induction H as [|s s' s'' Hs _ IH]; [done|].
  apply IH. by eapply ginv_step.
Qed.

(** ** What the gate promises *)

Definition no_colon (s : string) : bool := negb (Contains s ":").

Lemma no_colon_cons c s : no_colon (String c s) = true → c ≠ ":"%char ∧ no_colon s = true.
Proof.
  unfold no_colon. cbn [Contains]. rewrite negb_orb. intros [H1 H2]%andb_prop. split; [|done].
  intros ->. assert (HasPrefix (String ":" s) ":" = true) as Hp; [|by rewrite Hp in H1].
  apply HasPrefix_spec. by exists s.
Qed.

Lemma approvalKey_inj t1 c1 t2 c2 :
  no_colon t1 = true → no_colon t2 = true → approvalKey t1 c1 = approvalKey t2 c2 → t1 = t2 ∧ c1 = c2.
Proof.
  unfold approvalKey. revert t2. induction t1 as [|a t1 IH]; intros [|b t2] H1 H2; cbn.
  - by intros [= ->].
  - intros [= <- _]. by apply no_colon_cons in H2 as [? _].
  - intros [= -> _]. by apply no_colon_cons in H1 as [? _].
  - intros [= <- H]. apply no_colon_cons in H1 as [_ H1], H2 as [_ H2]. by destruct (IH t2 H1 H2 H) as [-> ->].
Qed.

(** C6: A call of WaitDecision that returns an approved decision returns one that
    arrived on the approvals topic for the same key and a matching trace, and
    for the same task and tool call when the task ids contain no colon; a call
    that returns an error never returns an approval.  This holds in every
    interleaving of any number of calls with the arriving decisions. *)
Theorem approval_sound bus s id r d err :
  rtc gstep (g_start (NewApprovalGate bus)) s →
  s_calls s !! id = Some (Call r (WDone (d, err))) →
  ad_Approved d = true →
  err = None ∧ d ∈ s_routed s ∧
  approvalKey (ad_TaskID d) (ad_ToolCallID d) = approvalKey (ar_TaskID r) (ar_ToolCallID r) ∧
  approvalTraceMatches (ar_TraceID r) (ad_TraceID d) = true ∧
  (no_colon (ad_TaskID d) = true → no_colon (ar_TaskID r) = true →
   ad_TaskID d = ar_TaskID r ∧ ad_ToolCallID d = ar_ToolCallID r).
Proof.
  intros Hr%ginv_reachable Hc Ha. pose proof (gi_calls s Hr id r _ Hc) as Hok. cbn in Hok. unfold answer_ok in Hok.
  cbn in Hok. destruct err; [congruence|]. destruct Hok as [[Hk Ht] Hin]. split_and!; try done.
  intros H1 H2. by apply approvalKey_inj.
Qed.


(** *** A run: a call waits, is approved, and returns *)
Definition demo_request : ApprovalRequest :=
  {| ar_TraceID := "tr"; ar_TaskID := "task"; ar_ToolCallID := "call"; ar_ToolName := "rm"; ar_Arguments := "{}"; ar_RequestedAtMs := 1 |}.
Definition demo_decision : ApprovalDecision :=
  {| ad_TraceID := "tr"; ad_TaskID := "task"; ad_ToolCallID := "call"; ad_Approved := true; ad_Reviewer := "ann";
     ad_Reason := ""; ad_DecidedAtMs := 5 |}.

Definition demo_gate : gate := NewApprovalGate (Some None).
Definition demo1 : gsys := set_phase 0 demo_request (wait_start demo_request demo_gate, demo_gate) (g_start demo_gate).
Definition demo2 : gsys := set_phase 0 demo_request (wait_take1 demo_request (s_gate demo1)) demo1.
Definition demo3 : gsys := set_phase 0 demo_request (wait_register 0 demo_request (s_gate demo2)) demo2.
Definition demo4 : gsys := set_phase 0 demo_request (wait_take2 demo_request (s_gate demo3)) demo3.
Definition demo5 : gsys := GSys (routeDecision demo_decision (s_gate demo4)) (s_calls demo4) (s_routed demo4 ++ [demo_decision]).
Definition demo6 : gsys := set_phase 0 demo_request (default (WInit, s_gate demo5) (wait_recv 0 (s_gate demo5))) demo5.
Definition demo7 : gsys := set_phase 0 demo_request (wait_return 0 demo_request (demo_decision, None) (s_gate demo6)) demo6.

Lemma demo4_reachable : rtc gstep (g_start demo_gate) demo4.
Proof.
  eapply rtc_l; [exact (g_call (g_start demo_gate) 0 demo_request eq_refl)|].
  eapply rtc_l; [exact (g_take1 demo1 0 demo_request eq_refl)|].
  eapply rtc_l; [exact (g_register demo2 0 demo_request eq_refl)|].
  eapply rtc_l; [exact (g_take2 demo3 0 demo_request eq_refl)|]. apply rtc_refl.
Qed.

Lemma demo7_reachable : rtc gstep (g_start demo_gate) demo7.
Proof.
  etrans; [exact demo4_reachable|].
  eapply rtc_l; [exact (g_decision demo4 demo_decision eq_refl)|].
  eapply rtc_l; [exact (g_recv demo5 0 demo_request _ eq_refl eq_refl)|].
  eapply rtc_l; [exact (g_return demo6 0 demo_request (demo_decision, None) eq_refl)|]. apply rtc_refl.
Qed.

Lemma approval_sound_witness :
  s_calls demo7 !! 0%nat = Some (Call demo_request (WDone (demo_decision, None))) ∧ g_waiters (s_gate demo7) = ∅ ∧
  (@None error = None ∧ demo_decision ∈ s_routed demo7 ∧
   approvalKey (ad_TaskID demo_decision) (ad_ToolCallID demo_decision) = approvalKey (ar_TaskID demo_request) (ar_ToolCallID demo_request) ∧
   approvalTraceMatches (ar_TraceID demo_request) (ad_TraceID demo_decision) = true ∧
   (no_colon (ad_TaskID demo_decision) = true → no_colon (ar_TaskID demo_request) = true →
    ad_TaskID demo_decision = ar_TaskID demo_request ∧ ad_ToolCallID demo_decision = ar_ToolCallID demo_request)).
Proof.
  split; [vm_compute; reflexivity|]. split; [vm_compute; reflexivity|].
  apply (approval_sound (Some None) demo7 0 demo_request demo_decision None demo7_reachable); vm_compute; reflexivity.
Defined.


(** Two decisions pending for one key: taking the first drops the second. *)
Example take_drops_later :
  let d2 := {| ad_TraceID := "other"; ad_TaskID := "task"; ad_ToolCallID := "call"; ad_Approved := false; ad_Reviewer := "bob";
               ad_Reason := ""; ad_DecidedAtMs := 6 |} in
  let g := routeDecision d2 (routeDecision demo_decision demo_gate) in
  PendingDecisionCount g = 2%nat ∧
  let '(found, g') := takePendingDecision (req_key demo_request) "tr" g in
  found = Some demo_decision ∧ PendingDecisionCount g' = 0%nat.
Proof. vm_compute. done. Qed.

(** The key does not separate task and tool call ids that contain a colon. *)
Example approval_key_ambiguous : approvalKey "a:b" "c" = approvalKey "a" "b:c".
Proof. done. Qed.
