(* ===== verification/WebhookAuth.v ===== *)
(** * Signed webhooks: internal/skill/webhook_auth.go

    Times are nanoseconds since the Unix epoch; [now.Unix()] is their whole
    seconds.  The check reads two clocks: the caller's [now] for the time
    window, and the nonce store's own. *)
From Stdlib Require Import String Ascii.
From S2P Require Import Prelude GoStrings Strconv Json Sha256.
From stdpp Require Import list.

Local Open Scope Z_scope.

Definition second : Z := 1000000000.
Definition nonceTTL : Z := 300 * second.
Definition timeWindow : Z := 300 * second.
Definition sigPrefix : string := "sha256=".

Definition unix (t : Z) : Z := t / second.

(** [http.Header], by canonical key; [Get] is the first value. *)
Abbreviation Header := (gmap string (list string)).
Definition HeaderGet (h : Header) (k : string) : string :=
  match h !! k with Some (v :: _) => v | _ => EmptyString end.
Definition HeaderSignature : string := "X-Signature".
Definition HeaderTimestamp : string := "X-Timestamp".
Definition HeaderNonce : string := "X-Nonce".

(** ** The nonce store: expiry times by nonce *)
Abbreviation InMemNonceStore := (gmap string Z).
Definition NewInMemNonceStore : InMemNonceStore := ∅.

Definition CheckAndSet (now : Z) (nonce : string) (ttl : Z) (s : InMemNonceStore) : bool * InMemNonceStore :=
  let s := filter (λ kv, ¬ kv.2 < now) s in
  match s !! nonce with
  | Some _ => (false, s)
  | None => (true, <[nonce := now + ttl]> s)
  end.

(** ** Signatures *)
Definition signed_payload (timestamp : Z) (nonce body : string) : string :=
  (FormatInt timestamp ++ "." ++ nonce ++ "." ++ body)%string.

Definition GenerateSignature (secret : string) (timestamp : Z) (nonce body : string) : string :=
  (sigPrefix ++ hex_encode (hmac_sha256 secret (signed_payload timestamp nonce body)))%string.

(** The time window test, on 64-bit integers. *)
Definition in_window (now ts : Z) : bool :=
  let diff := wrap64 (unix now - ts) in
  let w := timeWindow / second in
  negb ((diff <? - w) || (w <? diff)).

(** [store] is [None] for a nil store; [store_now] is the clock at the moment
    of [CheckAndSet]. *)
Definition VerifyWebhookSignature (headers : Header) (body secret : string) (store : option InMemNonceStore)
    (now store_now : Z) : option error * option InMemNonceStore :=
  let sig := HeaderGet headers HeaderSignature in
  let tsStr := HeaderGet headers HeaderTimestamp in
  let nonce := HeaderGet headers HeaderNonce in
  if bool_decide (sig = "") || bool_decide (tsStr = "") || bool_decide (nonce = "")
  then (Some (new_error "missing security headers"), store)
  else match store with
  | None => (Some (new_error "nonce store required"), store)
  | Some st =>
    match ParseInt tsStr with
    | None => (Some (new_error "invalid timestamp"), store)
    | Some ts =>
      if negb (in_window now ts) then (Some (new_error "timestamp out of window"), store)
      else if negb (HasPrefix sig sigPrefix) then (Some (new_error "invalid signature prefix"), store)
      else match hex_decode (TrimPrefix sig sigPrefix) with
      | None => (Some (new_error "invalid signature digest"), store)
      | Some received =>
        if negb (bool_decide (received = hmac_sha256 secret (signed_payload ts nonce body)))
        then (Some (new_error "invalid signature"), store)
        else let '(ok, st') := CheckAndSet store_now nonce nonceTTL st in
             if ok then (None, Some st') else (Some (new_error "replayed nonce"), Some st')
      end
    end
  end.

(** ** The time window *)

(** For any clock before the year 146 billion the wrapping subtraction decides
    exactly whether the time stamp is within 300 seconds of the clock. *)
Lemma in_window_exact now ts :
  0 ≤ unix now < 2 ^ 62 → in_int64 ts → in_window now ts = true ↔ Z.abs (unix now - ts) ≤ 300.
Proof.
  unfold in_window, in_int64, int64_min, int64_max. change (timeWindow / second) with 300. intros Hn Ht.
  set (d := unix now - ts) in *. assert (- 2 ^ 63 ≤ d < 2 ^ 62 + 2 ^ 63) as Hd by (unfold d; lia).
  rewrite negb_true_iff, orb_false_iff, !Z.ltb_ge.
  destruct (decide (d < 2 ^ 63)).
  - rewrite wrap64_id by (unfold in_int64, int64_min, int64_max; lia). lia.
  - unfold wrap64. replace (d + 2 ^ 63) with ((d - 2 ^ 63) + 1 * 2 ^ 64) by lia.
    rewrite Z.mod_add by lia. rewrite Z.mod_small by lia. lia.
Qed.

Lemma ParseInt_range s z : ParseInt s = Some z → in_int64 z.
Proof.
  unfold ParseInt. intros H. apply bind_Some in H as (x & _ & H).
  destruct (in_range64 x) eqn:Hr; [|done]. simplify_eq. unfold in_range64 in Hr. unfold in_int64. lia.
Qed.

(** ** Acceptance *)

(** The nonce is known and not expired. *)
Definition live (now : Z) (nonce : string) (s : InMemNonceStore) : Prop := ∃ e, s !! nonce = Some e ∧ now ≤ e.

Lemma CheckAndSet_spec now nonce ttl s :
  let '(ok, s') := CheckAndSet now nonce ttl s in
  (ok = true ↔ ¬ live now nonce s) ∧
  (ok = true → s' !! nonce = Some (now + ttl)) ∧
  (∀ k e, (k ≠ nonce ∨ ok = false) → s' !! k = Some e ↔ s !! k = Some e ∧ now ≤ e).
Proof.
  unfold CheckAndSet, live.
  assert (∀ k e, filter (λ kv : string * Z, ¬ kv.2 < now) s !! k = Some e ↔ s !! k = Some e ∧ now ≤ e) as Hf.
  { intros k e. rewrite map_lookup_filter_Some. cbn. intuition lia. }
  destruct (filter _ s !! nonce) as [e|] eqn:Hn.
  - split_and!; [|done|intros; apply Hf]. split; [done|]. intros Hno. exfalso. apply Hno. exists e. by apply Hf.
  - split_and!.
    + split; [intros _ (e & He)|done]. apply Hf in He. congruence.
    + intros _. by rewrite lookup_insert_eq.
    + intros k e [Hk|?]; [|done]. rewrite lookup_insert_ne by done. apply Hf.
Qed.

(** A rejection that leaves the store alone. *)
Ltac reject := split; [split; [done|]|by eauto].

(** C32: A request is accepted exactly when its three headers are present, its time
    stamp is a 64-bit integer within 300 seconds of the clock, its signature is
    the prefixed hexadecimal HMAC of time stamp, nonce and body, and its nonce
    is not live in the store; a rejected request leaves every live nonce as it
    was. *)
Theorem webhook_accept_exact headers body secret st now store_now :
  0 ≤ unix now < 2 ^ 62 →
  let sig := HeaderGet headers HeaderSignature in
  let nonce := HeaderGet headers HeaderNonce in
  let '(err, store') := VerifyWebhookSignature headers body secret (Some st) now store_now in
  (err = None ↔
   sig ≠ "" ∧ nonce ≠ "" ∧
   ∃ ts digest, ParseInt (HeaderGet headers HeaderTimestamp) = Some ts ∧ Z.abs (unix now - ts) ≤ 300 ∧
     sig = (sigPrefix ++ digest)%string ∧
     hex_decode digest = Some (hmac_sha256 secret (signed_payload ts nonce body)) ∧
     ¬ live store_now nonce st) ∧
  (err ≠ None → ∀ k, ∃ st', store' = Some st' ∧ (live store_now k st' ↔ live store_now k st)).
Proof.
  intros Hnow. cbv zeta. unfold VerifyWebhookSignature.
  set (sig := HeaderGet headers HeaderSignature). set (nonce := HeaderGet headers HeaderNonce).
  set (tsStr := HeaderGet headers HeaderTimestamp).
  destruct (bool_decide (sig = "")) eqn:E1; [apply bool_decide_eq_true_1 in E1|apply bool_decide_eq_false_1 in E1]; cbn [orb].
  { reject. tauto. }
  destruct (bool_decide (tsStr = "")) eqn:E2; [apply bool_decide_eq_true_1 in E2|apply bool_decide_eq_false_1 in E2]; cbn [orb].
  { reject. intros (_ & _ & ts & d & Hp & _). by rewrite E2 in Hp. }
  destruct (bool_decide (nonce = "")) eqn:E3; [apply bool_decide_eq_true_1 in E3|apply bool_decide_eq_false_1 in E3]; cbn [orb].
  { reject. tauto. }
  destruct (ParseInt tsStr) as [ts|] eqn:Hts.
  2:{ reject. naive_solver. }
  pose proof (in_window_exact now ts Hnow (ParseInt_range _ _ Hts)) as Hw.
  destruct (in_window now ts) eqn:Hwin; cbn [negb].
  2:{ reject. intros (_ & _ & ts' & d & [= <-] & Ha & _). by apply Hw in Ha. }
  destruct (HasPrefix sig sigPrefix) eqn:Hp; cbn [negb].
  2:{ reject. intros (_ & _ & ts' & d & _ & _ & Hs & _). rewrite Hs, HasPrefix_app in Hp. done. }
  apply HasPrefix_spec in Hp as [digest Hs]. rewrite Hs, TrimPrefix_app.
  destruct (hex_decode digest) as [received|] eqn:Hd.
  2:{ reject. intros (_ & _ & ts' & d & _ & _ & Hs' & Hd' & _). apply sapp_inj_l in Hs' as ->. congruence. }
  case_bool_decide as Hmac; cbn [negb].
  2:{ reject. intros (_ & _ & ts' & d & [= <-] & _ & Hs' & Hd' & _). apply sapp_inj_l in Hs' as ->. congruence. }
  pose proof (CheckAndSet_spec store_now nonce nonceTTL st) as Hc.
  destruct (CheckAndSet store_now nonce nonceTTL st) as [ok st']. destruct Hc as (Hok & _ & Hrest).
  destruct ok; cbv beta iota.
  - split; [|done]. split; [|done]. intros _. split_and!; [by rewrite <-Hs|done|].
    exists ts, digest. subst received. split_and!; try done; [by apply Hw|by apply Hok].
  - split; [split; [done|]|].
    + intros (_ & _ & ts' & d & _ & _ & _ & _ & Hl). by apply Hok in Hl.
    + intros _ k. exists st'. split; [done|]. unfold live. setoid_rewrite Hrest; [|by right..]. naive_solver.
Qed.

(** ** Senders *)

Definition signed_headers (secret : string) (ts : Z) (nonce body : string) : Header :=
  <[HeaderSignature := [GenerateSignature secret ts nonce body]]>
    (<[HeaderTimestamp := [FormatInt ts]]> (<[HeaderNonce := [nonce]]> ∅)).

Lemma signed_headers_get secret ts nonce body :
  HeaderGet (signed_headers secret ts nonce body) HeaderSignature = GenerateSignature secret ts nonce body ∧
  HeaderGet (signed_headers secret ts nonce body) HeaderTimestamp = FormatInt ts ∧
  HeaderGet (signed_headers secret ts nonce body) HeaderNonce = nonce.
Proof.
  unfold HeaderGet, signed_headers. split_and!.
  - by rewrite lookup_insert_eq.
  - by rewrite lookup_insert_ne, lookup_insert_eq by done.
  - by rewrite 2!lookup_insert_ne, lookup_insert_eq by done.
Qed.

Lemma FormatInt_not_empty z : FormatInt z ≠ "".
Proof.
  destruct (FormatInt_cases z) as [(x & _ & ->)|(x & _ & _ & ->)]; [|done].
  by destruct (pretty_N_shape x) as (c & t & -> & _).
Qed.

Definition verify_step (st : InMemNonceStore) (c : Header * string * string * Z * Z) : InMemNonceStore :=
  let '(h, body, secret, now, store_now) := c in
  default st (VerifyWebhookSignature h body secret (Some st) now store_now).2.

Lemma CheckAndSet_keeps now nonce n ttl s e :
  s !! n = Some e → now ≤ e → (CheckAndSet now nonce ttl s).2 !! n = Some e.
Proof.
  intros Hn He. pose proof (CheckAndSet_spec now nonce ttl s) as H.
  destruct (CheckAndSet now nonce ttl s) as [ok s']. destruct H as (Hok & _ & Hrest). cbn.
  destruct (decide (nonce = n)) as [->|Hne]; [|apply Hrest; auto].
  apply Hrest; [|done]. right. destruct ok; [|done]. exfalso. apply Hok; [done|]. by exists e.
Qed.

Lemma verify_step_keeps c st n e :
  st !! n = Some e → c.2 ≤ e → verify_step st c !! n = Some e.
Proof.
  destruct c as [[[[h body] secret] now] store_now]. cbn. intros Hn He.
  unfold VerifyWebhookSignature. destruct (_ || _); [done|].
  destruct (ParseInt _); [|done]. destruct (negb _); [done|]. destruct (negb _); [done|].
  destruct (hex_decode _); [|done]. destruct (negb _); [done|].
  pose proof (CheckAndSet_keeps store_now (HeaderGet h HeaderNonce) n nonceTTL st e Hn He) as H.
  destruct (CheckAndSet _ _ _ _) as [ok st']. by destruct ok.
Qed.

Lemma verify_steps_keep cs st n e :
  st !! n = Some e → Forall (λ c, c.2 ≤ e) cs → foldl verify_step st cs !! n = Some e.
Proof.
  intros Hn Hf. revert st Hn. induction Hf as [|c cs Hc _ IH]; intros st Hn; [done|].
  cbn. apply IH. by apply verify_step_keeps.
Qed.

Lemma live_rejected h body secret st now store_now :
  live store_now (HeaderGet h HeaderNonce) st →
  (VerifyWebhookSignature h body secret (Some st) now store_now).1 ≠ None.
Proof.
  intros Hl. unfold VerifyWebhookSignature. destruct (_ || _); [done|].
  destruct (ParseInt _); [|done]. destruct (negb _); [done|]. destruct (negb _); [done|].
  destruct (hex_decode _); [|done]. destruct (negb _); [done|].
  pose proof (CheckAndSet_spec store_now (HeaderGet h HeaderNonce) nonceTTL st) as H.
  destruct (CheckAndSet _ _ _ _) as [ok st']. destruct H as [Hok _]. destruct ok; [|done].
  exfalso. by apply Hok.
Qed.

(** An accepted request's nonce is recorded. *)
Lemma accepted_recorded h body secret store now store_now store' :
  VerifyWebhookSignature h body secret store now store_now = (None, store') →
  ∃ st', store' = Some st' ∧ st' !! HeaderGet h HeaderNonce = Some (store_now + nonceTTL).
Proof.
  unfold VerifyWebhookSignature. destruct (_ || _); [done|]. destruct store as [st|]; [|done].
  destruct (ParseInt _); [|done]. destruct (negb _); [done|]. destruct (negb _); [done|].
  destruct (hex_decode _); [|done]. destruct (negb _); [done|].
  pose proof (CheckAndSet_spec store_now (HeaderGet h HeaderNonce) nonceTTL st) as H.
  destruct (CheckAndSet _ _ _ _) as [[] st']; [|done]. intros [= <-]. exists st'. by destruct H as (_ & H & _); auto.
Qed.

Lemma generated_accepted secret ts nonce body st now store_now :
  in_int64 ts → nonce ≠ "" → in_window now ts = true → ¬ live store_now nonce st →
  ∃ st', VerifyWebhookSignature (signed_headers secret ts nonce body) body secret (Some st) now store_now = (None, Some st') ∧
    st' !! nonce = Some (store_now + nonceTTL).
Proof.
  intros Hts Hn Hw Hl. unfold VerifyWebhookSignature.
  destruct (signed_headers_get secret ts nonce body) as (-> & -> & ->).
  rewrite bool_decide_eq_false_2 by done. rewrite (bool_decide_eq_false_2 _ (FormatInt_not_empty ts)).
  rewrite (bool_decide_eq_false_2 _ Hn). cbn [orb]. rewrite ParseInt_FormatInt, Hw by done. cbn [negb].
  unfold GenerateSignature. rewrite HasPrefix_app, TrimPrefix_app, hex_decode_encode. cbn [negb].
  rewrite bool_decide_eq_true_2 by done. cbn [negb].
  pose proof (CheckAndSet_spec store_now nonce nonceTTL st) as H.
  destruct (CheckAndSet _ _ _ _) as [ok st']. destruct H as (Hok & Hset & _).
  assert (ok = true) as -> by (by apply Hok). exists st'. auto.
Qed.

(** A request signed with GenerateSignature under the receiver's secret, with
    a time stamp within 300 seconds of the receiver's clock and a nonce that is
    not live, is accepted; and as long as no more than 300 seconds of the
    store's clock have passed since, whatever other requests came between, no
    request with the same nonce is accepted again. *)
Theorem signed_once secret ts nonce body st now store_now :
  0 ≤ unix now < 2 ^ 62 → in_int64 ts → nonce ≠ "" → Z.abs (unix now - ts) ≤ 300 → ¬ live store_now nonce st →
  ∃ st', VerifyWebhookSignature (signed_headers secret ts nonce body) body secret (Some st) now store_now = (None, Some st') ∧
  ∀ between h body2 secret2 now2 store_now2,
    Forall (λ c, c.2 ≤ store_now + nonceTTL) between → store_now2 ≤ store_now + nonceTTL →
    HeaderGet h HeaderNonce = nonce →
    (VerifyWebhookSignature h body2 secret2 (Some (foldl verify_step st' between)) now2 store_now2).1 ≠ None.
Proof.
  intros Hnow Hts Hn Hw Hl. apply in_window_exact in Hw; [|done..].
  destruct (generated_accepted secret ts nonce body st now store_now Hts Hn Hw Hl) as (st' & Hv & Hst').
  exists st'. split; [done|]. intros between h body2 secret2 now2 store_now2 Hbt Ht2 <-.
  apply live_rejected. exists (store_now + nonceTTL). split; [|done]. by apply verify_steps_keep.
Qed.

Definition demo_now : Z := 1700000000 * second.

Lemma signed_once_witness :
  ∃ st', VerifyWebhookSignature (signed_headers "key" 1700000100 "n-1" "{}") "{}" "key" (Some NewInMemNonceStore) demo_now demo_now
    = (None, Some st') ∧
  ∀ between h body2 secret2 now2 store_now2,
    Forall (λ c, c.2 ≤ demo_now + nonceTTL) between → store_now2 ≤ demo_now + nonceTTL →
    HeaderGet h HeaderNonce = "n-1" →
    (VerifyWebhookSignature h body2 secret2 (Some (foldl verify_step st' between)) now2 store_now2).1 ≠ None.
Proof.
  apply (signed_once "key" 1700000100 "n-1" "{}" NewInMemNonceStore demo_now demo_now);
    [vm_compute; split; congruence|vm_compute; split; congruence|done|vm_compute; congruence|].
  intros (e & He & _). vm_compute in He. discriminate He.
Defined.

Lemma webhook_accept_exact_witness :
  let headers := signed_headers "key" 1700000100 "n-1" "{}" in
  let sig := HeaderGet headers HeaderSignature in
  let nonce := HeaderGet headers HeaderNonce in
  let '(err, store') := VerifyWebhookSignature headers "{}" "key" (Some NewInMemNonceStore) demo_now demo_now in
  (err = None ↔
   sig ≠ "" ∧ nonce ≠ "" ∧
   ∃ ts digest, ParseInt (HeaderGet headers HeaderTimestamp) = Some ts ∧ Z.abs (unix demo_now - ts) ≤ 300 ∧
     sig = (sigPrefix ++ digest)%string ∧
     hex_decode digest = Some (hmac_sha256 "key" (signed_payload ts nonce "{}")) ∧
     ¬ live demo_now nonce NewInMemNonceStore) ∧
  (err ≠ None → ∀ k, ∃ st', store' = Some st' ∧ (live demo_now k st' ↔ live demo_now k NewInMemNonceStore)).
Proof.
  apply (webhook_accept_exact (signed_headers "key" 1700000100 "n-1" "{}") "{}" "key" NewInMemNonceStore demo_now demo_now).
  vm_compute. split; congruence.
Defined.

(** A request stamped 300 seconds ahead is accepted twice: its nonce expires
    300 seconds after the first acceptance, while its time stamp is good for up
    to 300 seconds more. *)
Example replay_after_ttl :
  let ts := 1700000300 in
  let h := signed_headers "key" ts "n-1" "{}" in
  let '(err1, st1) := VerifyWebhookSignature h "{}" "key" (Some NewInMemNonceStore) demo_now demo_now in
  let later := demo_now + 301 * second in
  let '(err2, st2) := VerifyWebhookSignature h "{}" "key" st1 later later in
  err1 = None ∧ err2 = None.
Proof. vm_compute. done. Qed.

(** ** What a signature covers *)
Definition no_dot (s : string) : bool := negb (Contains s ".").

Lemma no_dot_split a b c d : no_dot a = true → no_dot c = true → (a ++ "." ++ b)%string = (c ++ "." ++ d)%string → a = c ∧ b = d.
Proof.
  unfold no_dot. revert c. induction a as [|x a IH]; intros [|y c]; cbn [Contains]; rewrite ?negb_orb.
  - by intros _ _ [= ->].
  - intros _ [Hy _]%andb_prop H. cbn in H. injection H as <- _.
    assert (HasPrefix (String "." c) "." = true) as Hp by (apply HasPrefix_spec; by exists c). by rewrite Hp in Hy.
  - intros [Hx _]%andb_prop _ H. cbn in H. injection H as -> _.
    assert (HasPrefix (String "." a) "." = true) as Hp by (apply HasPrefix_spec; by exists a). by rewrite Hp in Hx.
  - intros [_ Ha]%andb_prop [_ Hc]%andb_prop H. cbn in H. injection H as <- H.
    by destruct (IH c Ha Hc H) as [-> ->].
Qed.

Lemma no_dot_digits s : all_digits s = true → no_dot s = true.
Proof. intros H. unfold no_dot. by rewrite (digits_no_char "." s "." H). Qed.

Lemma no_dot_FormatInt z : no_dot (FormatInt z) = true.
Proof.
  destruct (FormatInt_cases z) as [(x & _ & ->)|(x & _ & _ & ->)];
    destruct (pretty_N_shape x) as (c & t & -> & Hc & Ht & _).
  - apply no_dot_digits. cbn. by rewrite Hc.
  - assert (no_dot (String c t) = true) as H by (apply no_dot_digits; cbn; by rewrite Hc).
    unfold no_dot in *. change (Contains (String "-" (String c t)) ".") with
      (HasPrefix (String "-" (String c t)) "." || Contains (String c t) ".").
    by rewrite negb_orb, H.
Qed.

(** The signed text determines the time stamp, the nonce and the body when
    nonces contain no dot, so one signature cannot serve two such requests. *)
Theorem signed_payload_injective ts1 n1 b1 ts2 n2 b2 :
  no_dot n1 = true → no_dot n2 = true →
  signed_payload ts1 n1 b1 = signed_payload ts2 n2 b2 → ts1 = ts2 ∧ n1 = n2 ∧ b1 = b2.
Proof.
  unfold signed_payload. intros H1 H2 H. apply no_dot_split in H as [Ht H]; [|apply no_dot_FormatInt..].
  apply FormatInt_inj in Ht. by apply no_dot_split in H as [-> ->].
Qed.

Lemma signed_payload_injective_witness : 5 = 5 ∧ "n" = "n" ∧ "a.b" = "a.b".
Proof. apply (signed_payload_injective 5 "n" "a.b" 5 "n" "a.b"); reflexivity. Defined.

(** Without that, the dot can move between nonce and body. *)
Example signed_payload_ambiguous : signed_payload 5 "n.a" "b" = signed_payload 5 "n" "a.b".
Proof. reflexivity. Qed.
