(* ===== verification/SchemaParser.v ===== *)
(** * Reading the model's answer: internal/llm/schema_parser.go

    The model answers with one JSON object, possibly inside a Markdown fence.
    [ParseModelOutput] strips white space and fence and decodes the object; it
    recovers every encoded [ActionEnvelope]. *)
From Stdlib Require Import String Ascii.
From S2P Require Import Contracts.
From stdpp Require Import list.

Local Open Scope Z_scope.

Definition zero_tool_call : ToolCall := Build_ToolCall "" "" "" false.
Definition zero_envelope : ActionEnvelope := Build_ActionEnvelope "" None "".

Definition set_tc_ID v c := Build_ToolCall v (tc_Name c) (tc_Arguments c) (tc_IsWriteOperation c).
Definition set_tc_Name v c := Build_ToolCall (tc_ID c) v (tc_Arguments c) (tc_IsWriteOperation c).
Definition set_tc_Arguments v c := Build_ToolCall (tc_ID c) (tc_Name c) v (tc_IsWriteOperation c).
Definition set_tc_IsWrite v c := Build_ToolCall (tc_ID c) (tc_Name c) (tc_Arguments c) v.

Definition tool_call_fields : list (field ToolCall) :=
  [ string_field "id" set_tc_ID; string_field "name" set_tc_Name;
    raw_field "arguments" set_tc_Arguments; bool_field "is_write_operation" set_tc_IsWrite ].

Definition set_ae_Think v a := Build_ActionEnvelope v (ae_CallSkill a) (ae_Final a).
Definition set_ae_CallSkill v a := Build_ActionEnvelope (ae_Think a) v (ae_Final a).
Definition set_ae_Final v a := Build_ActionEnvelope (ae_Think a) (ae_CallSkill a) v.

(** A pointer to a struct: [null] makes it nil, an object is decoded into what
    it points to, allocated first if it is nil. *)
Definition call_skill_field : field ActionEnvelope :=
  ("call_skill"%string, λ t a,
    match parse t with
    | Some JNull => Ok (set_ae_CallSkill None a)
    | Some (JObj _) =>
      match object_fields t with
      | Some (ms, _) =>
        c ← store_members false tool_call_fields ms (default zero_tool_call (ae_CallSkill a));
        Ok (set_ae_CallSkill (Some c) a)
      | None => Fail (new_error "invalid json")
      end
    | _ => Fail (type_error "llm.ToolCall")
    end).

Definition envelope_fields : list (field ActionEnvelope) :=
  [ string_field "think" set_ae_Think; call_skill_field; string_field "final" set_ae_Final ].

Definition fence : string := "```".
Definition json_fence : string := "```json".

Definition strip_fence (clean : string) : string :=
  if HasPrefix clean json_fence then TrimSpace (TrimSuffix (TrimPrefix clean json_fence) fence)
  else if HasPrefix clean fence then TrimSpace (TrimSuffix (TrimPrefix clean fence) fence)
  else clean.

Definition ParseModelOutput (raw : string) : result ActionEnvelope :=
  let clean := strip_fence (TrimSpace raw) in
  match Unmarshal envelope_fields zero_envelope clean with
  | Fail err => Fail (new_error ("invalid_json_error: " ++ err_msg err ++ " (raw: " ++ raw ++ ")")%string)
  | Ok action =>
    if bool_decide (ae_Think action = "") && bool_decide (ae_Final action = "") &&
       bool_decide (ae_CallSkill action = None)
    then Fail (new_error "invalid_action_error: response contains no think, final, or call_skill")
    else Ok action
  end.

Example parse_tool_call :
  ParseModelOutput (jtext " ```json
    {'think':'x','call_skill':{'id':'1','name':'ls','arguments':{ 'p' : 1},'is_write_operation':true,'extra':[]}}
  ``` ") =
  Ok (Build_ActionEnvelope "x" (Some (Build_ToolCall "1" "ls" (jtext "{ 'p' : 1}") true)) "").
Proof. vm_compute. reflexivity. Qed.

(** ** Encoding an envelope *)

Definition tool_call_json (c : ToolCall) (args : json) : json :=
  JObj [("id", jstring (tc_ID c)); ("name", jstring (tc_Name c)); ("arguments", args);
        ("is_write_operation", JBool (tc_IsWriteOperation c))]%string.

Definition envelope_members (a : ActionEnvelope) (args : json) : list (string * json) :=
  [("think"%string, jstring (ae_Think a))] ++
  match ae_CallSkill a with Some c => [("call_skill"%string, tool_call_json c args)] | None => [] end ++
  (if bool_decide (ae_Final a = EmptyString) then [] else [("final"%string, jstring (ae_Final a))]).

(** Strings of valid UTF-8, arguments that are JSON, and something said. *)
Record envelope_ok (a : ActionEnvelope) (args : json) : Prop := {
  eo_think : valid_utf8 (ae_Think a) = true;
  eo_final : valid_utf8 (ae_Final a) = true;
  eo_call c : ae_CallSkill a = Some c →
    valid_utf8 (tc_ID c) = true ∧ valid_utf8 (tc_Name c) = true ∧ tc_Arguments c = print args ∧ json_ok 2 args = true;
  eo_some : ae_Think a ≠ "" ∨ ae_Final a ≠ "" ∨ ae_CallSkill a ≠ None
}.

Section decode.

Lemma store_call_skill l a c args :
  ae_CallSkill a = None →
  valid_utf8 (tc_ID c) = true → valid_utf8 (tc_Name c) = true → tc_Arguments c = print args → json_ok 2 args = true →
  store_members false envelope_fields (map field_text (("call_skill"%string, tool_call_json c args) :: l)) a =
  store_members false envelope_fields (map field_text l) (set_ae_CallSkill (Some c) a).
Proof.
  intros Hnil H1 H2 H3 H4. cbn [map store_members].
  rewrite (store_member_found _ _ _ call_skill_field) by done. unfold call_skill_field at 1. cbn [snd].
  assert (json_ok 0 (tool_call_json c args) = true) as Hok.
  { apply (json_ok_depth _ 1); [lia|]. unfold tool_call_json.
    change (members_ok 2 [("id"%string, jstring (tc_ID c)); ("name"%string, jstring (tc_Name c)); ("arguments"%string, args);
        ("is_write_operation"%string, JBool (tc_IsWriteOperation c))] = true).
    by rewrite !members_ok_string, members_ok_value by done. }
  pose proof (object_fields_print _ EmptyString Hok) as Ho. rewrite sapp_nil_r in Ho.
  rewrite parse_print by done. unfold tool_call_json in *. rewrite Ho, Hnil.
  rewrite (store_string _ _ _ set_tc_ID), (store_string _ _ _ set_tc_Name), (store_raw _ _ _ set_tc_Arguments) by done.
  rewrite <-H3. by destruct c as [? ? ? []].
Qed.

Lemma envelope_json_ok a args : envelope_ok a args → json_ok 0 (JObj (envelope_members a args)) = true.
Proof.
  intros Ha. change (members_ok 1 (envelope_members a args) = true). unfold envelope_members.
  rewrite !members_ok_app, members_ok_string by done.
  assert (members_ok 1 (if bool_decide (ae_Final a = "") then [] else [("final"%string, jstring (ae_Final a))]) = true) as ->.
  { case_bool_decide; [done|]. by rewrite members_ok_string. }
  destruct (ae_CallSkill a) as [c|] eqn:Hc; [|done]. destruct (eo_call a args Ha c Hc) as (_ & _ & _ & Hok).
  rewrite members_ok_value; [done..|].
  change (members_ok 2 [("id"%string, jstring (tc_ID c)); ("name"%string, jstring (tc_Name c)); ("arguments"%string, args);
      ("is_write_operation"%string, JBool (tc_IsWriteOperation c))] = true).
  by rewrite !members_ok_string, members_ok_value by done.
Qed.

Lemma unmarshal_envelope a args :
  envelope_ok a args → Unmarshal envelope_fields zero_envelope (print (JObj (envelope_members a args))) = Ok a.
Proof.
  intros Ha. pose proof (envelope_json_ok a args Ha) as Hok. unfold Unmarshal. rewrite parse_print by done.
  pose proof (object_fields_print _ EmptyString Hok) as Ho. rewrite sapp_nil_r in Ho. rewrite Ho.
  destruct a as [think call final]. unfold envelope_members. cbn [ae_Think ae_CallSkill ae_Final app].
  rewrite (store_string _ _ _ set_ae_Think) by (done || apply (eo_think _ _ Ha)).
  assert (∀ b, ae_Final b = "" → store_members false envelope_fields
    (map field_text (if bool_decide (final = "") then [] else [("final"%string, jstring final)])) b = Ok (set_ae_Final final b)) as Hfinal.
  { intros b Hb. case_bool_decide as Hf.
    - destruct b as [? ? ?]; cbn in Hb. by subst.
    - by rewrite (store_string _ _ _ set_ae_Final) by (done || apply (eo_final _ _ Ha)). }
  destruct call as [c|]; [|by rewrite Hfinal].
  destruct (eo_call _ _ Ha c eq_refl) as (H1 & H2 & H3 & H4). cbn [app].
  rewrite store_call_skill by done. by rewrite Hfinal.
Qed.
End decode.

(** ** Fences and white space *)

Lemma print_obj_last ms : ∃ t, print (JObj ms) = (t ++ "}")%string.
Proof.
  destruct ms as [|[k v] ms]; [by exists "{"%string|]. rewrite print_obj.
  assert (∃ t, print_members_tail ms = (t ++ "}")%string) as [t ->].
  { induction ms as [|[k' w] ms [t IH]]; [by exists EmptyString|].
    exists (String "," (String dquote (k' ++ String dquote (String ":" (print w ++ t)))))%string.
    change (print_members_tail ((k', w) :: ms)) with
      (String "," (String dquote (k' ++ String dquote (String ":" (print w ++ print_members_tail ms)))))%string.
    rewrite IH. cbn. rewrite !sapp_assoc. cbn. by rewrite !sapp_assoc. }
  exists (String "{" (String dquote (k ++ String dquote (String ":" (print v ++ t)))))%string.
  cbn -[print]. rewrite !sapp_assoc. cbn -[print]. by rewrite !sapp_assoc.
Qed.

Lemma print_obj_head ms : ∃ s, print (JObj ms) = String "{" s.
Proof. destruct ms as [|[k v] ms]; [by exists "}"%string|]. rewrite print_obj. eauto. Qed.

Lemma TrimSpace_object w1 w2 ms :
  all_ascii_space w1 = true → all_ascii_space w2 = true →
  TrimSpace (w1 ++ (print (JObj ms) ++ w2)) = print (JObj ms).
Proof.
  intros H1 H2. destruct (print_obj_last ms) as [t Ht]. destruct (print_obj_head ms) as [u Hu].
  apply (TrimSpace_frame w1 w2 "{" _ "}"); eauto.
Qed.

Lemma TrimSpace_fenced w1 w2 f s :
  all_ascii_space w1 = true → all_ascii_space w2 = true → (∃ g, f = String "`" g) →
  TrimSpace (w1 ++ ((f ++ (s ++ fence)) ++ w2)) = (f ++ (s ++ fence))%string.
Proof.
  intros H1 H2 [g ->]. apply (TrimSpace_frame w1 w2 "`" _ "`"); try done.
  exists (String "`" g ++ (s ++ "``"))%string. unfold fence. split; [by rewrite !sapp_assoc|].
  eexists. reflexivity.
Qed.

Lemma HasPrefix_head p q s : HasPrefix (String q s) (String p EmptyString) = false → ∀ r, HasPrefix (String q s) (String p r) = false.
Proof.
  intros H r. destruct (HasPrefix (String q s) (String p r)) eqn:Hp; [|done].
  apply HasPrefix_spec in Hp as [t [= -> ->]]. by rewrite (proj2 (HasPrefix_spec _ _)) in H by (by exists (r ++ t)%string).
Qed.

(** The three framings of a text: none, a [json] fence, a plain fence. *)
Definition framed (w1 w2 w3 w4 body : string) (open : option string) : string :=
  match open with
  | None => w1 ++ (body ++ w2)
  | Some f => w1 ++ ((f ++ ((w3 ++ (body ++ w4)) ++ fence)) ++ w2)
  end%string.

Lemma strip_framed w1 w2 w3 w4 ms open :
  all_ascii_space w1 = true → all_ascii_space w2 = true → all_ascii_space w3 = true → all_ascii_space w4 = true →
  open ∈ [None; Some json_fence; Some fence] →
  strip_fence (TrimSpace (framed w1 w2 w3 w4 (print (JObj ms)) open)) = print (JObj ms).
Proof.
  intros H1 H2 H3 H4 Ho. destruct (print_obj_head ms) as [u Hu].
  apply elem_of_cons in Ho as [->|[->|[->|Ho%elem_of_nil]%elem_of_cons]%elem_of_cons]; [| | |done]; unfold framed.
  - rewrite TrimSpace_object by done. unfold strip_fence, json_fence, fence. by rewrite Hu.
  - rewrite TrimSpace_fenced by (done || by eexists). unfold strip_fence.
    rewrite HasPrefix_app, TrimPrefix_app, TrimSuffix_app. by apply TrimSpace_object.
  - rewrite TrimSpace_fenced by (done || by eexists). unfold strip_fence.
    assert (HasPrefix (fence ++ ((w3 ++ (print (JObj ms) ++ w4)) ++ fence)) json_fence = false) as ->.
    { destruct (HasPrefix _ json_fence) eqn:Hp; [|done]. apply HasPrefix_spec in Hp as [t Ht].
      change (json_fence ++ t)%string with (fence ++ ("json" ++ t))%string in Ht. apply sapp_inj_l in Ht.
      rewrite Hu in Ht. destruct w3 as [|c w3]; [done|]. injection Ht as -> _.
      apply andb_prop in H3 as [H3 _]. by vm_compute in H3. }
    rewrite HasPrefix_app, TrimPrefix_app, TrimSuffix_app. by apply TrimSpace_object.
Qed.

(** Any encoded action envelope is recovered, whatever white space surrounds it
    and whether it stands alone, in a json fence or in a plain fence. *)
Theorem parse_model_output_roundtrip a args w1 w2 w3 w4 open :
  envelope_ok a args →
  all_ascii_space w1 = true → all_ascii_space w2 = true → all_ascii_space w3 = true → all_ascii_space w4 = true →
  open ∈ [None; Some json_fence; Some fence] →
  ParseModelOutput (framed w1 w2 w3 w4 (print (JObj (envelope_members a args))) open) = Ok a.
Proof.
  intros Ha H1 H2 H3 H4 Ho. unfold ParseModelOutput. rewrite strip_framed, (unmarshal_envelope a args) by done.
  destruct (eo_some a args Ha) as [H|[H|H]]; rewrite (bool_decide_eq_false_2 _ H), ?andb_false_r; done.
Qed.

Lemma parse_model_output_roundtrip_witness :
  let a := Build_ActionEnvelope "x" (Some (Build_ToolCall "1" "ls" "[1]" true)) "" in
  ParseModelOutput (framed " " "" "
" "" (print (JObj (envelope_members a (JArr [JNum "1"])))) (Some json_fence)) = Ok a.
Proof.
  apply parse_model_output_roundtrip; try reflexivity.
  - split; try reflexivity; [|by left]. intros c [= <-]. done.
  - right. left.
Defined.
