(* ===== verification/Runtime.v ===== *)
(** * The inference loop: internal/llm/runtime_loop.go and stream_fanout.go

    A run alternates calls of the model provider with tool executions, asks for
    approval before what the model declares a write operation, and reports its
    progress as numbered stream chunks, the last of which is terminal.

    The provider, the tool executor, the approval gate, the chunk publisher and
    the clock are the operations of an environment over a world [W] of its own.
    A run is a computation in a state monad over the world, the fan-out's
    counters and the log of everything the run asked of its environment. *)
From Stdlib Require Import String Ascii.
From S2P Require Import Contracts SchemaParser.
From stdpp Require Import list.

Local Open Scope Z_scope.

(** ** Data *)

(** [ir_Temperature] is nil or the bits of a float32. *)
Record InferenceRequest := {
  ir_TraceID : string;
  ir_SessionID : string;
  ir_TaskID : string;
  ir_AgentType : string;
  ir_Messages : list ChatMessage;
  ir_ModelAlias : string;
  ir_MaxTurns : Z;
  ir_Stream : bool;
  ir_Temperature : option Z;
  ir_Metadata : gmap string string;
  ir_OnApprovalReject : string
}.

Record StreamChunk := {
  sc_TraceID : string;
  sc_SessionID : string;
  sc_TaskID : string;
  sc_Sequence : Z;
  sc_Event : string;
  sc_Delta : string;
  sc_Role : string;
  sc_ToolName : string;
  sc_Done : bool;
  sc_Error : string;
  sc_Data : string;
  sc_TimestampMs : Z
}.

Record Fanout := {
  f_TraceID : string;
  f_SessionID : string;
  f_TaskID : string;
  f_sequence : Z;
  f_terminalSent : bool
}.

Definition NewFanout (traceID sessionID taskID : string) : Fanout :=
  {| f_TraceID := traceID; f_SessionID := sessionID; f_TaskID := taskID; f_sequence := 0; f_terminalSent := false |}.

(** What a run asks of its environment, in order. *)
Inductive event :=
| EvPredict (req : InferenceRequest) (resp : result string)
| EvWait (req : ApprovalRequest) (answer : ApprovalDecision * option error)
| EvExecute (call : ToolCall) (answer : ToolResult * option error)
| EvChunk (c : StreamChunk).

(** The environment: [Wait] and [publisher] are [None] when nil. *)
Record env (W : Type) := Env {
  Predict : InferenceRequest → W → result string * W;
  Execute : ToolCall → W → (ToolResult * option error) * W;
  Wait : option (ApprovalRequest → Z → W → (ApprovalDecision * option error) * W);
  publisher : option (StreamChunk → W → option error * W);
  UnixMilli : W → Z * W
}.
Arguments Predict {W} _ _ _.
Arguments Execute {W} _ _ _.
Arguments Wait {W} _.
Arguments publisher {W} _.
Arguments UnixMilli {W} _ _.

Record rstate (W : Type) := RState { r_world : W; r_fan : option Fanout; r_log : list event }.
Arguments RState {W} _ _ _.
Arguments r_world {W} _.
Arguments r_fan {W} _.
Arguments r_log {W} _.

(** ** The monad of a run *)
Definition M (W A : Type) : Type := rstate W → A * rstate W.
#[export] Instance M_ret {W} : MRet (M W) := λ A a s, (a, s).
#[export] Instance M_bind {W} : MBind (M W) := λ A B f m s, let '(a, s') := m s in f a s'.

Section run.
Context {W : Type} (E : env W).

(** Call an operation of the environment and log it. *)
Definition ask {A} (op : W → A * W) (ev : A → event) : M W A := λ s,
  let '(a, w) := op (r_world s) in (a, RState w (r_fan s) (r_log s ++ [ev a])).

Definition now_ms : M W Z := λ s,
  let '(t, w) := UnixMilli E (r_world s) in (t, RState w (r_fan s) (r_log s)).

Definition get_fan : M W (option Fanout) := λ s, (r_fan s, s).
Definition put_fan (f : Fanout) : M W unit := λ s, (tt, RState (r_world s) (Some f) (r_log s)).

(** ** The fan-out *)

Definition set_sequence (n : Z) (f : Fanout) : Fanout :=
  Build_Fanout (f_TraceID f) (f_SessionID f) (f_TaskID f) n (f_terminalSent f).
Definition set_terminalSent (f : Fanout) : Fanout :=
  Build_Fanout (f_TraceID f) (f_SessionID f) (f_TaskID f) (f_sequence f) true.

(** [atomic.AddInt64(&f.sequence, 1)]. *)
Definition NextSequence (f : Fanout) : M W Z :=
  let n := wrap64 (f_sequence f + 1) in put_fan (set_sequence n f) ≫= λ _, mret n.

Definition NewChunk (f : Fanout) (event : string) : M W StreamChunk :=
  seq ← NextSequence f;
  t ← now_ms;
  mret {| sc_TraceID := f_TraceID f; sc_SessionID := f_SessionID f; sc_TaskID := f_TaskID f; sc_Sequence := seq;
          sc_Event := event; sc_Delta := ""; sc_Role := ""; sc_ToolName := ""; sc_Done := false; sc_Error := "";
          sc_Data := ""; sc_TimestampMs := t |}.

Definition Emit (chunk : StreamChunk) : M W (option error) :=
  match publisher E with
  | None => mret None
  | Some pub => ask (pub chunk) (λ _, EvChunk chunk)
  end.

(** [if !atomic.CompareAndSwapInt32(&f.terminalSent, 0, 1) { return nil }]. *)
Definition emitTerminal (chunk : StreamChunk) : M W (option error) :=
  o ← get_fan;
  match o with
  | None => mret None
  | Some f => if f_terminalSent f then mret None else put_fan (set_terminalSent f) ≫= λ _, Emit chunk
  end.

Definition chunk_with (role tool : string) (done_ : bool) (err data : string) (c : StreamChunk) : StreamChunk :=
  {| sc_TraceID := sc_TraceID c; sc_SessionID := sc_SessionID c; sc_TaskID := sc_TaskID c; sc_Sequence := sc_Sequence c;
     sc_Event := sc_Event c; sc_Delta := sc_Delta c; sc_Role := role; sc_ToolName := tool; sc_Done := done_;
     sc_Error := err; sc_Data := data; sc_TimestampMs := sc_TimestampMs c |}.

Definition marshal_error : error := new_error "json: error calling MarshalJSON for type json.RawMessage".

(** The guard [if fanout != nil] of every call site. *)
Definition with_fanout (k : Fanout → M W (option error)) : M W (option error) :=
  o ← get_fan; match o with None => mret None | Some f => k f end.

Definition tool_call_data (call : ToolCall) : option string :=
  args ← raw_json (tc_Arguments call); Some (print (tool_call_json call args)).

Definition EmitToolCall (call : ToolCall) : M W (option error) := with_fanout (λ f,
  chunk ← NewChunk f "tool_call";
  match tool_call_data call with
  | None => mret (Some marshal_error)
  | Some data => Emit (chunk_with "assistant" (tc_Name call) false "" data chunk)
  end).

Definition tool_result_json (r : ToolResult) : json :=
  JObj [("tool_call_id", jstring (tr_ToolCallID r)); ("name", jstring (tr_Name r)); ("success", JBool (tr_Success r));
        ("output", jstring (tr_Output r)); ("error", jstring (tr_Error r)); ("duration_ms", jint (tr_DurationMs r))]%string.

Definition EmitToolResult (r : ToolResult) : M W (option error) := with_fanout (λ f,
  chunk ← NewChunk f "tool_result";
  Emit (chunk_with "" (tr_Name r) false (if negb (tr_Success r) then tr_Error r else "") (print (tool_result_json r)) chunk)).

Definition approval_request_data (req : ApprovalRequest) : option string :=
  args ← raw_json (ar_Arguments req);
  Some (print (JObj [("trace_id", jstring (ar_TraceID req)); ("task_id", jstring (ar_TaskID req));
    ("tool_call_id", jstring (ar_ToolCallID req)); ("tool_name", jstring (ar_ToolName req)); ("arguments", args);
    ("requested_at_ms", jint (ar_RequestedAtMs req))]))%string.

Definition EmitWaitingApproval (req : ApprovalRequest) : M W (option error) := with_fanout (λ f,
  chunk ← NewChunk f "waiting_approval";
  match approval_request_data req with
  | None => mret (Some marshal_error)
  | Some data => Emit (chunk_with "" (ar_ToolName req) false "" data chunk)
  end).

Definition EmitFinal (content : string) : M W (option error) := with_fanout (λ f,
  chunk ← NewChunk f "final";
  emitTerminal (chunk_with "assistant" "" true "" (print (JObj [("content"%string, jstring content)])) chunk)).

(** [EmitError], [EmitTimeout] and [EmitCancelled]. *)
Definition emit_failure (event errMsg : string) : M W (option error) := with_fanout (λ f,
  chunk ← NewChunk f event;
  emitTerminal (chunk_with "" "" true errMsg "" chunk)).
Definition EmitError : string → M W (option error) := emit_failure "error".
Definition EmitTimeout : string → M W (option error) := emit_failure "timeout".
Definition EmitCancelled : string → M W (option error) := emit_failure "cancelled".

(** ** Failing *)

Definition classifyTerminalError (err : error) : string * string :=
  let errLower := ToLower (err_msg err) in
  if errors_is err ContextCanceled then ("cancelled", "cancelled")
  else if errors_is err ContextDeadlineExceeded then ("timeout", "timeout")
  else if Contains errLower "exceeded max turns" then ("failed", "error")
  else if Contains errLower "approval gate required" then ("failed", "error")
  else if Contains errLower "timeout" then ("timeout", "timeout")
  else ("error", "error")%string.

Definition outcome : Type := FinalResult * option error.

Definition failWithTerminalEvent (req : InferenceRequest) (err : error) : M W outcome :=
  let '(status, emit) := classifyTerminalError err in
  _ ← (if bool_decide (emit = "cancelled"%string) then EmitCancelled (err_msg err)
       else if bool_decide (emit = "timeout"%string) then EmitTimeout (err_msg err)
       else EmitError (err_msg err));
  t ← now_ms;
  mret (Build_FinalResult (ir_TraceID req) (ir_TaskID req) "" status 0 t, Some err).

(** ** One turn *)

(** The request of a turn: only these four fields are passed on. *)
Definition turn_request (req : InferenceRequest) (messages : list ChatMessage) : InferenceRequest :=
  {| ir_TraceID := ir_TraceID req; ir_SessionID := ""; ir_TaskID := ""; ir_AgentType := ""; ir_Messages := messages;
     ir_ModelAlias := ir_ModelAlias req; ir_MaxTurns := 0; ir_Stream := false; ir_Temperature := ir_Temperature req;
     ir_Metadata := ∅; ir_OnApprovalReject := "" |}.

Definition role_message (role id content : string) : ChatMessage := Build_ChatMessage role content "" id "".

(** The two messages that report a tool call back to the model. *)
Definition observation (resp : string) (call : ToolCall) (output : string) : list ChatMessage :=
  [role_message "assistant" "" resp; role_message "tool" (tc_ID call) output].

Definition rejection (call : ToolCall) (reason : string) : ToolResult :=
  Build_ToolResult (tc_ID call) (tc_Name call) false ("User rejected this operation: " ++ reason) reason 0.

Definition failure_result (call : ToolCall) (err : error) : ToolResult :=
  Build_ToolResult (tc_ID call) (tc_Name call) false (err_msg err) (err_msg err) 0.

Definition approvalTimeout : Z := 5 * 60 * 1000000000.

(** The tool call of a turn once it may run. *)
Definition execute_call (messages : list ChatMessage) (resp : string) (call : ToolCall) : M W (outcome + list ChatMessage) :=
  '(res, err) ← ask (Execute E call) (EvExecute call);
  let res := match err with Some e => failure_result call e | None => res end in
  _ ← EmitToolResult res;
  mret (inr (messages ++ observation resp call (tr_Output res))).

(** The approval step, and the tool call if it is approved. *)
Definition approve_call (req : InferenceRequest) (messages : list ChatMessage) (resp : string) (call : ToolCall)
    (wait : ApprovalRequest → Z → W → (ApprovalDecision * option error) * W) : M W (outcome + list ChatMessage) :=
  t ← now_ms;
  let appReq := Build_ApprovalRequest (ir_TraceID req) (ir_TaskID req) (tc_ID call) (tc_Name call) (tc_Arguments call) t in
  _ ← EmitWaitingApproval appReq;
  '(decision, err) ← ask (wait appReq approvalTimeout) (EvWait appReq);
  match err with
  | Some e => out ← failWithTerminalEvent req e; mret (inl out)
  | None =>
    if negb (ad_Approved decision) then
      let res := rejection call (ad_Reason decision) in
      _ ← EmitToolResult res;
      if bool_decide (ir_OnApprovalReject req = "fail"%string) then
        _ ← EmitError "approval rejected";
        mret (inl (Build_FinalResult "" "" "" "rejected" 0 0, Some (new_error "approval rejected")))
      else mret (inr (messages ++ observation resp call (tr_Output res)))
    else execute_call messages resp call
  end.

Definition run_turn (req : InferenceRequest) (messages : list ChatMessage) : M W (outcome + list ChatMessage) :=
  let fail err := out ← failWithTerminalEvent req err; mret (inl out) in
  resp ← ask (Predict E (turn_request req messages)) (EvPredict (turn_request req messages));
  match resp with
  | Fail err => fail err
  | Ok resp =>
    match ParseModelOutput resp with
    | Fail err => fail err
    | Ok action =>
      if negb (bool_decide (ae_Final action = ""%string)) then
        _ ← EmitFinal (ae_Final action);
        t ← now_ms;
        mret (inl (Build_FinalResult (ir_TraceID req) (ir_TaskID req) (ae_Final action) "success" 0 t, None))
      else match ae_CallSkill action with
      | None => mret (inr messages)
      | Some call =>
        _ ← EmitToolCall call;
        if tc_IsWriteOperation call then
          match Wait E with
          | None => fail (new_error "approval gate required for write operation")
          | Some wait => approve_call req messages resp call wait
          end
        else execute_call messages resp call
      end
    end
  end.

Fixpoint run_turns (n : nat) (req : InferenceRequest) (messages : list ChatMessage) : M W outcome :=
  match n with
  | O => failWithTerminalEvent req (new_error "exceeded max turns")
  | S n =>
    r ← run_turn req messages;
    match r with inl out => mret out | inr messages => run_turns n req messages end
  end.

(** [Runtime.Run], [MaxTurns] being the runtime's. *)
Definition Run (MaxTurns : Z) (req : InferenceRequest) : M W outcome :=
  run_turns (Z.to_nat MaxTurns) req (ir_Messages req).

Definition default_max_turns : Z := 10.
End run.

(** ** Reasoning about runs

    [wp m Q s]: running [m] from [s] ends with an answer and a state in [Q]. *)
Definition wp {W A} (m : M W A) (Q : A → rstate W → Prop) (s : rstate W) : Prop := Q (m s).1 (m s).2.

Lemma wp_bind {W A B} (m : M W A) (f : A → M W B) Q s :
  wp m (λ a s', wp (f a) Q s') s → wp (m ≫= f) Q s.
Proof. unfold wp, mbind, M_bind. by destruct (m s). Qed.

Lemma wp_mono {W A} (m : M W A) (Q Q' : A → rstate W → Prop) s :
  (∀ a s', Q a s' → Q' a s') → wp m Q s → wp m Q' s.
Proof. unfold wp. auto. Qed.

Lemma wp_ret {W A} (a : A) (Q : A → rstate W → Prop) s : Q a s → wp (mret a) Q s.
Proof. done. Qed.

Lemma wp_ask {W A} (op : W → A * W) ev (Q : A → rstate W → Prop) s :
  (∀ a w, op (r_world s) = (a, w) → Q a (RState w (r_fan s) (r_log s ++ [ev a]))) → wp (ask op ev) Q s.
Proof. unfold wp, ask. intros H. destruct (op (r_world s)) eqn:Hop. by apply H. Qed.

Lemma wp_now {W} (E : env W) (Q : Z → rstate W → Prop) s :
  (∀ t w, Q t (RState w (r_fan s) (r_log s))) → wp (now_ms E) Q s.
Proof. unfold wp, now_ms. intros H. destruct (UnixMilli E (r_world s)). apply H. Qed.

Lemma wp_get_fan {W} (Q : option Fanout → rstate W → Prop) s : Q (r_fan s) s → wp get_fan Q s.
Proof. done. Qed.

Lemma wp_put_fan {W} f (Q : unit → rstate W → Prop) s : Q tt (RState (r_world s) (Some f) (r_log s)) → wp (put_fan f) Q s.
Proof. done. Qed.

(** ** The specification of a run

    What a run asks of the provider, the gate and the executor, the stream
    chunks left out. *)
Definition is_call (e : event) : bool := match e with EvChunk _ => false | _ => true end.
Definition calls (log : list event) : list event := filter (λ e, is_call e = true) log.

Inductive verdict := Stop (status : string) (err : option error) (content : string) | Continue (messages : list ChatMessage).

(** The model is asked with the run's trace, alias and temperature and the
    conversation so far, and nothing else of the request. *)
Definition asked (req : InferenceRequest) (messages : list ChatMessage) : InferenceRequest :=
  {| ir_TraceID := ir_TraceID req; ir_SessionID := ""; ir_TaskID := ""; ir_AgentType := ""; ir_Messages := messages;
     ir_ModelAlias := ir_ModelAlias req; ir_MaxTurns := 0; ir_Stream := false; ir_Temperature := ir_Temperature req;
     ir_Metadata := ∅; ir_OnApprovalReject := "" |}.

(** The conversation goes on with what the model said, as the assistant's, and
    what came of its call, as the tool's. *)
Definition reported (messages : list ChatMessage) (resp : string) (call : ToolCall) (output : string) : list ChatMessage :=
  messages ++ [Build_ChatMessage "assistant" resp "" "" ""; Build_ChatMessage "tool" output "" (tc_ID call) ""].

(** What came of a call is what the executor answered: its error's text, or
    else its result's output. *)
Definition came_of (answer : ToolResult * option error) : string :=
  match answer.2 with Some e => err_msg e | None => tr_Output answer.1 end.

(** The request for the approval of a call. *)
Definition approval_of (req : InferenceRequest) (call : ToolCall) (areq : ApprovalRequest) : Prop :=
  ar_TraceID areq = ir_TraceID req ∧ ar_TaskID areq = ir_TaskID req ∧ ar_ToolCallID areq = tc_ID call ∧
  ar_ToolName areq = tc_Name call ∧ ar_Arguments areq = tc_Arguments call.

Section spec.
Context (req : InferenceRequest) (has_gate : bool).

(** One turn with the conversation so far: what is asked, and the verdict. *)
Inductive turn_spec (messages : list ChatMessage) : list event → verdict → Prop :=
| turn_predict_fails e :
  turn_spec messages [EvPredict (asked req messages) (Fail e)] (Stop (classifyTerminalError e).1 (Some e) "")
| turn_unreadable resp e :
  ParseModelOutput resp = Fail e →
  turn_spec messages [EvPredict (asked req messages) (Ok resp)] (Stop (classifyTerminalError e).1 (Some e) "")
| turn_final resp a :
  ParseModelOutput resp = Ok a → ae_Final a ≠ "" →
  turn_spec messages [EvPredict (asked req messages) (Ok resp)] (Stop "success" None (ae_Final a))
| turn_think resp a :
  ParseModelOutput resp = Ok a → ae_Final a = "" → ae_CallSkill a = None →
  turn_spec messages [EvPredict (asked req messages) (Ok resp)] (Continue messages)
| turn_no_gate resp a call :
  ParseModelOutput resp = Ok a → ae_Final a = "" → ae_CallSkill a = Some call → tc_IsWriteOperation call = true → has_gate = false →
  turn_spec messages [EvPredict (asked req messages) (Ok resp)]
    (Stop "failed" (Some (new_error "approval gate required for write operation")) "")
| turn_wait_fails resp a call areq d e :
  ParseModelOutput resp = Ok a → ae_Final a = "" → ae_CallSkill a = Some call → tc_IsWriteOperation call = true → has_gate = true →
  approval_of req call areq →
  turn_spec messages [EvPredict (asked req messages) (Ok resp); EvWait areq (d, Some e)]
    (Stop (classifyTerminalError e).1 (Some e) "")
| turn_rejected resp a call areq d :
  ParseModelOutput resp = Ok a → ae_Final a = "" → ae_CallSkill a = Some call → tc_IsWriteOperation call = true → has_gate = true →
  approval_of req call areq → ad_Approved d = false →
  turn_spec messages [EvPredict (asked req messages) (Ok resp); EvWait areq (d, None)]
    (if bool_decide (ir_OnApprovalReject req = "fail"%string)
     then Stop "rejected" (Some (new_error "approval rejected")) ""
     else Continue (reported messages resp call ("User rejected this operation: " ++ ad_Reason d)))
| turn_execute resp a call answer :
  ParseModelOutput resp = Ok a → ae_Final a = "" → ae_CallSkill a = Some call → tc_IsWriteOperation call = false →
  turn_spec messages [EvPredict (asked req messages) (Ok resp); EvExecute call answer]
    (Continue (reported messages resp call (came_of answer)))
| turn_execute_approved resp a call areq d answer :
  ParseModelOutput resp = Ok a → ae_Final a = "" → ae_CallSkill a = Some call → tc_IsWriteOperation call = true → has_gate = true →
  approval_of req call areq → ad_Approved d = true →
  turn_spec messages [EvPredict (asked req messages) (Ok resp); EvWait areq (d, None); EvExecute call answer]
    (Continue (reported messages resp call (came_of answer))).

(** A run of at most [n] turns. *)
Inductive run_spec : nat → list ChatMessage → list event → string → option error → string → Prop :=
| run_out messages : run_spec 0 messages [] "failed" (Some (new_error "exceeded max turns")) ""
| run_stop n messages evs status err content :
  turn_spec messages evs (Stop status err content) → run_spec (S n) messages evs status err content
| run_continue n messages messages' evs evs' status err content :
  turn_spec messages evs (Continue messages') → run_spec n messages' evs' status err content →
  run_spec (S n) messages (evs ++ evs') status err content.
End spec.

Definition verdict_of (r : outcome + list ChatMessage) : verdict :=
  match r with
  | inl (fr, err) => Stop (fr_Status fr) err (fr_Content fr)
  | inr messages => Continue messages
  end.

(** ** The loop implements the specification *)
Section refine.
Context {W : Type} (E : env W).

(** The calls grew by [evs]. *)
Definition grew (s s' : rstate W) (evs : list event) : Prop := calls (r_log s') = calls (r_log s) ++ evs.

Lemma grew_refl s : grew s s [].
Proof. unfold grew. by rewrite app_nil_r. Qed.
Lemma grew_trans s1 s2 s3 e1 e2 : grew s1 s2 e1 → grew s2 s3 e2 → grew s1 s3 (e1 ++ e2).
Proof. unfold grew. intros H1 H2. by rewrite H2, H1, app_assoc. Qed.
Lemma calls_snoc l e : calls (l ++ [e]) = calls l ++ (if is_call e then [e] else []).
Proof. unfold calls. rewrite filter_app, filter_cons. by destruct (is_call e). Qed.

(** A computation that only emits chunks. *)
Definition quiet {A} (m : M W A) : Prop := ∀ s, grew s (m s).2 [].

Lemma quiet_ret {A} (a : A) : quiet (mret a).
Proof. intros s. apply grew_refl. Qed.
Lemma quiet_bind {A B} (m : M W A) (f : A → M W B) : quiet m → (∀ a, quiet (f a)) → quiet (m ≫= f).
Proof.
  intros Hm Hf s. unfold mbind, M_bind. specialize (Hm s). destruct (m s) as [a s1]. cbn in Hm.
  by apply (grew_trans s s1 _ [] []); [|apply Hf].
Qed.
Lemma quiet_now : quiet (now_ms E).
Proof. intros s. unfold now_ms, grew. destruct (UnixMilli E (r_world s)). cbn. by rewrite app_nil_r. Qed.
Lemma quiet_get : quiet get_fan.
Proof. intros s. apply grew_refl. Qed.
Lemma quiet_put f : quiet (put_fan f).
Proof. intros s. unfold grew. cbn. by rewrite app_nil_r. Qed.
Lemma quiet_chunk f ev : quiet (NewChunk E f ev).
Proof.
  unfold NewChunk, NextSequence. apply quiet_bind; [apply quiet_bind; [apply quiet_put|intros _; apply quiet_ret]|].
  intros n. apply quiet_bind; [apply quiet_now|]. intros t. apply quiet_ret.
Qed.
Lemma quiet_emit c : quiet (Emit E c).
Proof.
  unfold Emit. destruct (publisher E) as [pub|]; [|apply quiet_ret]. intros s. unfold ask.
  destruct (pub c (r_world s)). unfold grew. cbn. by rewrite calls_snoc.
Qed.
Lemma quiet_terminal c : quiet (emitTerminal E c).
Proof.
  unfold emitTerminal. apply quiet_bind; [apply quiet_get|]. intros [f|]; [|apply quiet_ret].
  destruct (f_terminalSent f); [apply quiet_ret|]. apply quiet_bind; auto using quiet_put, quiet_emit.
Qed.
Lemma quiet_with_fanout k : (∀ f, quiet (k f)) → quiet (with_fanout k).
Proof. intros Hk. unfold with_fanout. apply quiet_bind; [apply quiet_get|]. intros [f|]; auto using quiet_ret. Qed.
End refine.

#[export] Hint Resolve quiet_ret quiet_now quiet_chunk quiet_emit quiet_terminal : agentic.

Section refine2.
Context {W : Type} (E : env W).

Ltac quiet_fan := apply quiet_with_fanout; intros f; apply quiet_bind; [apply quiet_chunk|intros ?].

Lemma quiet_tool_call c : quiet (EmitToolCall E c).
Proof. unfold EmitToolCall. quiet_fan. destruct (tool_call_data c); auto with agentic. Qed.
Lemma quiet_tool_result r : quiet (EmitToolResult E r).
Proof. unfold EmitToolResult. quiet_fan. auto with agentic. Qed.
Lemma quiet_waiting r : quiet (EmitWaitingApproval E r).
Proof. unfold EmitWaitingApproval. quiet_fan. destruct (approval_request_data r); auto with agentic. Qed.
Lemma quiet_final c : quiet (EmitFinal E c).
Proof. unfold EmitFinal. quiet_fan. auto with agentic. Qed.
Lemma quiet_failure ev e : quiet (emit_failure E ev e).
Proof. unfold emit_failure. quiet_fan. auto with agentic. Qed.

(** After a quiet computation. *)
Lemma wp_quiet {A} (m : M W A) (Q : A → rstate W → Prop) s :
  quiet m → (∀ a s', grew s s' [] → Q a s') → wp m Q s.
Proof. intros Hm HQ. unfold wp. apply HQ. apply Hm. Qed.

Definition fail_outcome (e : error) (o : outcome) : Prop :=
  fr_Status o.1 = (classifyTerminalError e).1 ∧ o.2 = Some e ∧ fr_Content o.1 = "".

Lemma wp_fail req e s : wp (failWithTerminalEvent E req e) (λ o s', grew s s' [] ∧ fail_outcome e o) s.
Proof.
  unfold failWithTerminalEvent, fail_outcome. destruct (classifyTerminalError e) as [status emit].
  apply wp_bind, wp_quiet.
  { unfold EmitCancelled, EmitTimeout, EmitError. repeat case_bool_decide; apply quiet_failure. }
  intros _ s1 H1. apply wp_bind, wp_now. intros t w. apply wp_ret. done.
Qed.

(** [turn_ok s messages Q]: the turn's verdict and calls meet the specification. *)
Definition turn_ok (req : InferenceRequest) (messages : list ChatMessage) (s : rstate W) (pre : list event)
    (r : outcome + list ChatMessage) (s' : rstate W) : Prop :=
  ∃ evs, grew s s' evs ∧ turn_spec req (bool_decide (is_Some (Wait E))) messages (pre ++ evs) (verdict_of r).

Lemma wp_fail_turn req messages s pre e :
  turn_spec req (bool_decide (is_Some (Wait E))) messages pre (Stop (classifyTerminalError e).1 (Some e) "") →
  wp (out ← failWithTerminalEvent E req e; mret (inl out)) (turn_ok req messages s pre) s.
Proof.
  intros Hspec. apply wp_bind. eapply wp_mono; [|apply wp_fail]. intros [fr err] s1 (Hg & Hs & He & Hc). apply wp_ret.
  exists []. split; [done|]. cbn in *. by rewrite app_nil_r, Hs, He, Hc.
Qed.

Lemma wp_execute req messages resp call s pre :
  (∀ answer, turn_spec req (bool_decide (is_Some (Wait E))) messages (pre ++ [EvExecute call answer])
     (Continue (reported messages resp call (came_of answer)))) →
  wp (execute_call E messages resp call) (turn_ok req messages s pre) s.
Proof.
  intros Hspec. unfold execute_call. apply wp_bind, wp_ask. intros [res err] w _.
  apply wp_bind, wp_quiet; [apply quiet_tool_result|]. intros _ s1 Hg. apply wp_ret.
  exists [EvExecute call (res, err)]. split; [unfold grew in *; rewrite Hg; cbn; by rewrite calls_snoc, app_nil_r|].
  specialize (Hspec (res, err)). by destruct err.
Qed.

Lemma turn_ok_weaken req messages s s1 pre e1 r s' :
  grew s s1 e1 → turn_ok req messages s1 (pre ++ e1) r s' → turn_ok req messages s pre r s'.
Proof.
  intros Hg (evs & Hg' & Hs). exists (e1 ++ evs). split; [by eapply grew_trans|]. by rewrite app_assoc.
Qed.

Lemma grew_ask e (s : rstate W) w f : is_call e = true → grew s (RState w f (r_log s ++ [e])) [e].
Proof. intros H. unfold grew. cbn. by rewrite calls_snoc, H. Qed.

Lemma wp_approve req messages resp a call wait s :
  ParseModelOutput resp = Ok a → ae_Final a = "" → ae_CallSkill a = Some call → tc_IsWriteOperation call = true →
  Wait E = Some wait →
  wp (approve_call E req messages resp call wait)
    (turn_ok req messages s [EvPredict (turn_request req messages) (Ok resp)]) s.
Proof.
  intros Hp Hf Hc Hw HE. assert (bool_decide (is_Some (Wait E)) = true) as Hgate by (rewrite HE; by apply bool_decide_eq_true_2).
  unfold approve_call. apply wp_bind, wp_now. intros t w0.
  set (areq := Build_ApprovalRequest _ _ _ _ _ _).
  apply wp_bind, wp_quiet; [apply quiet_waiting|]. intros _ s1 Hg1.
  apply wp_bind, wp_ask. intros [d err] w1 _. set (s2 := RState w1 _ _).
  assert (grew s s2 [EvWait areq (d, err)]) as Hg2.
  { eapply (grew_trans _ s1 _ []); [exact Hg1|by apply grew_ask]. }
  destruct err as [e|].
  { eapply wp_mono; [intros ? ?; by apply (turn_ok_weaken _ _ _ _ _ _ _ _ Hg2)|]. apply wp_fail_turn.
    by apply (turn_wait_fails _ _ _ resp a call). }
  destruct (ad_Approved d) eqn:Ha; cbn [negb].
  { eapply wp_mono; [intros ? ?; by apply (turn_ok_weaken _ _ _ _ _ _ _ _ Hg2)|]. apply wp_execute.
    intros answer. by apply (turn_execute_approved _ _ _ resp a call). }
  apply wp_bind, wp_quiet; [apply quiet_tool_result|]. intros _ s3 Hg3.
  pose proof (turn_rejected req (bool_decide (is_Some (Wait E))) messages resp a call areq d Hp Hf Hc Hw Hgate ltac:(done) Ha) as Hspec.
  destruct (bool_decide (ir_OnApprovalReject req = "fail"%string)).
  - apply wp_bind, wp_quiet; [apply quiet_failure|]. intros _ s4 Hg4. apply wp_ret.
    exists [EvWait areq (d, None)]. split; [|exact Hspec].
    apply (grew_trans s s2 s4 [EvWait areq (d, None)] []); [done|]. by apply (grew_trans s2 s3 s4 [] []).
  - apply wp_ret. exists [EvWait areq (d, None)]. split; [|exact Hspec].
    by apply (grew_trans s s2 s3 [EvWait areq (d, None)] []).
Qed.

Lemma wp_turn req messages s : wp (run_turn E req messages) (turn_ok req messages s []) s.
Proof.
  unfold run_turn. apply wp_bind, wp_ask. intros resp w _.
  set (ev := EvPredict _ resp). assert (is_call ev = true) as Hev by done.
  eapply wp_mono; [intros r s'; apply (turn_ok_weaken _ _ _ _ [] _ r s' (grew_ask ev s w (r_fan s) Hev))|].
  subst ev. clear Hev.
  destruct resp as [resp|e]; [|apply wp_fail_turn; constructor].
  destruct (ParseModelOutput resp) as [a|e] eqn:Hp; [|apply wp_fail_turn; by constructor].
  case_bool_decide as Hf; cbn [negb].
  - destruct (ae_CallSkill a) as [call|] eqn:Hc.
    2:{ apply wp_ret. exists []. split; [apply grew_refl|]. by eapply turn_think. }
    apply wp_bind, wp_quiet; [apply quiet_tool_call|]. intros _ s1 Hg1.
    eapply wp_mono; [intros r s'; apply (turn_ok_weaken _ _ _ _ _ [] r s' Hg1)|].
    destruct (tc_IsWriteOperation call) eqn:Hw.
    + destruct (Wait E) as [wait|] eqn:HE; [by eapply wp_approve|].
      apply wp_fail_turn. eapply turn_no_gate; eauto. rewrite HE. by apply bool_decide_eq_false_2; intros [? ?].
    + apply wp_execute. intros answer. by eapply turn_execute.
  - apply wp_bind, wp_quiet; [apply quiet_final|]. intros _ s1 Hg1. apply wp_bind, wp_now. intros t w1. apply wp_ret.
    exists []. split; [exact Hg1|]. by eapply turn_final.
Qed.

Lemma wp_turns n req : ∀ messages s,
  wp (run_turns E n req messages) (λ o s', ∃ evs, grew s s' evs ∧
    run_spec req (bool_decide (is_Some (Wait E))) n messages evs (fr_Status o.1) o.2 (fr_Content o.1)) s.
Proof.
  induction n as [|n IH]; intros messages s; cbn [run_turns].
  - eapply wp_mono; [|apply wp_fail]. intros o s' (Hg & Hs & He & Hc). exists []. split; [done|].
    rewrite Hs, He, Hc. apply run_out.
  - apply wp_bind. eapply wp_mono; [|apply wp_turn]. intros r s1 (evs & Hg & Hspec). cbn [app] in Hspec.
    destruct r as [[fr err]|messages'].
    + apply wp_ret. exists evs. split; [done|]. by apply run_stop.
    + eapply wp_mono; [|apply IH]. intros o s2 (evs' & Hg' & Hrun). exists (evs ++ evs').
      split; [by eapply grew_trans|]. by eapply run_continue.
Qed.

(** C7: Every run, for every provider, gate, executor and publisher, ends after at
    most MaxTurns turns, and what it asks of them, in which order, its status,
    error and content are those the turn-by-turn specification allows: the
    model is sent the conversation so far, an approval is asked for the very
    call the model makes, and the conversation goes on with what the model
    said and what the executor answered, or why the call was rejected. *)
Theorem run_refines_spec MaxTurns req s :
  let '(o, s') := Run E MaxTurns req s in
  ∃ evs, calls (r_log s') = calls (r_log s) ++ evs ∧
    run_spec req (bool_decide (is_Some (Wait E))) (Z.to_nat MaxTurns) (ir_Messages req) evs (fr_Status o.1) o.2 (fr_Content o.1).
Proof.
  pose proof (wp_turns (Z.to_nat MaxTurns) req (ir_Messages req) s) as H. unfold wp in H. unfold Run.
  by destruct (run_turns E (Z.to_nat MaxTurns) req (ir_Messages req) s).
Qed.
End refine2.

(** ** What follows from the specification *)

(** A write is executed only right after an approval of that very call. *)
Definition writes_guarded (req : InferenceRequest) (evs : list event) : Prop :=
  ∀ l1 call answer l2, evs = l1 ++ EvExecute call answer :: l2 → tc_IsWriteOperation call = true →
  ∃ l0 areq d, l1 = l0 ++ [EvWait areq (d, None)] ∧ ad_Approved d = true ∧
    ar_TraceID areq = ir_TraceID req ∧ ar_TaskID areq = ir_TaskID req ∧
    ar_ToolCallID areq = tc_ID call ∧ ar_ToolName areq = tc_Name call ∧ ar_Arguments areq = tc_Arguments call.

Lemma writes_guarded_app req e1 e2 : writes_guarded req e1 → writes_guarded req e2 → writes_guarded req (e1 ++ e2).
Proof.
  intros H1 H2 l1 call answer l2 Heq Hw. apply app_eq_app in Heq as [l [[-> Hr]|[-> Hr]]].
  - destruct l as [|e l]; cbn in Hr.
    + destruct (H2 [] call answer l2 (eq_sym Hr) Hw) as (l0 & ? & ? & Hnil & _). by destruct l0.
    + injection Hr as <- ->. by apply (H1 l1 call answer l).
  - destruct (H2 l call answer l2 Hr Hw) as (l0 & areq & d & -> & H). exists (e1 ++ l0), areq, d.
    by rewrite app_assoc.
Qed.

Definition predictions (evs : list event) : list InferenceRequest :=
  omap (λ e, match e with EvPredict rq _ => Some rq | _ => None end) evs.
Definition executions (evs : list event) : list ToolCall :=
  omap (λ e, match e with EvExecute c _ => Some c | _ => None end) evs.

Section consequences.
Context (req : InferenceRequest) (has_gate : bool).

Lemma turn_writes_guarded messages evs v : turn_spec req has_gate messages evs v → writes_guarded req evs.
Proof.
  destruct 1; intros l1 c ans l2 Heq Hw; destruct l1 as [|e1 [|e2 [|e3 l1]]]; simplify_eq/=; try (by destruct l1); try congruence.
  unfold approval_of in *. eexists [_], _, _. split_and!; [reflexivity|naive_solver..].
Qed.

Lemma run_writes_guarded n messages evs status err content :
  run_spec req has_gate n messages evs status err content → writes_guarded req evs.
Proof.
  induction 1 as [messages|n messages evs status err content Ht|n messages m' evs evs' status err content Ht _ IH].
  - intros l1 c ans l2 Heq. by destruct l1.
  - by eapply turn_writes_guarded.
  - apply writes_guarded_app; [by eapply turn_writes_guarded|done].
Qed.

Lemma turn_shape messages evs v :
  turn_spec req has_gate messages evs v →
  predictions evs = [asked req messages] ∧ (length (executions evs) ≤ 1)%nat ∧
  match v with
  | Stop status err content => (err = None ↔ status = "success") ∧ (content ≠ "" ↔ status = "success") ∧
      status ∈ ["success"; "rejected"; "failed"; "timeout"; "cancelled"; "error"]
  | Continue messages' => ∃ l, messages' = messages ++ l
  end.
Proof.
  assert (∀ e, (classifyTerminalError e).1 ∈ ["failed"; "timeout"; "cancelled"; "error"]) as Hcl.
  { intros e. unfold classifyTerminalError. repeat case_match; cbn; set_solver. }
  assert (∀ (e : error), (Some e = None ↔ (classifyTerminalError e).1 = "success") ∧
    ("" ≠ "" ↔ (classifyTerminalError e).1 = "success") ∧
    (classifyTerminalError e).1 ∈ ["success"; "rejected"; "failed"; "timeout"; "cancelled"; "error"]) as Hfail.
  { intros e. specialize (Hcl e). split_and!; [split; [done|]|split; [done|]|set_solver];
    intros Hs; rewrite Hs in Hcl; set_solver. }
  destruct 1; (split; [reflexivity|]); (split; [cbn; lia|]); try apply Hfail; try (eexists; reflexivity).
  - split_and!; [done|done|set_solver].
  - exists []. by rewrite app_nil_r.
  - destruct (bool_decide (ir_OnApprovalReject req = "fail")); [|by eexists].
    split_and!; [done..|set_solver].
Qed.

Lemma run_shape n messages evs status err content :
  run_spec req has_gate n messages evs status err content →
  (length (predictions evs) ≤ n)%nat ∧ (length (executions evs) ≤ length (predictions evs))%nat ∧
  Forall (λ rq, ∃ l, rq = asked req (messages ++ l)) (predictions evs) ∧
  (err = None ↔ status = "success") ∧ (content ≠ "" ↔ status = "success") ∧
  status ∈ ["success"; "rejected"; "failed"; "timeout"; "cancelled"; "error"].
Proof.
  induction 1 as [messages|n messages evs status err content Ht|n messages m' evs evs' status err content Ht _ IH].
  - split; [cbn; lia|]. split; [cbn; lia|]. split; [constructor|]. split; [done|]. split; [done|]. set_solver.
  - destruct (turn_shape _ _ _ Ht) as (Hp & He & H1 & H2 & H3). rewrite Hp. split_and!; try done; cbn; try lia.
    constructor; [|constructor]. exists []. by rewrite app_nil_r.
  - destruct (turn_shape _ _ _ Ht) as (Hp & He & l & ->). destruct IH as (IH1 & IH2 & IH3 & IH).
    unfold predictions, executions in *. rewrite !omap_app, !length_app, Hp in *. cbn [length app].
    split; [lia|]. split; [lia|]. split; [|done]. constructor; [exists []; by rewrite app_nil_r|].
    eapply Forall_impl; [exact IH3|]. intros rq [l' ->]. exists (l ++ l'). by rewrite app_assoc.
Qed.
End consequences.

(** C5: A write operation reaches the tool executor only immediately after the gate
    has approved that call (its id, name and arguments, for this task and
    trace), whatever the model, the gate and the executor do; without a gate it
    never does. *)
Theorem write_needs_approval {W} (E : env W) MaxTurns req w fan :
  let '(_, s') := Run E MaxTurns req (RState w fan []) in
  writes_guarded req (calls (r_log s')) ∧
  (Wait E = None → ∀ call answer, EvExecute call answer ∈ r_log s' → tc_IsWriteOperation call = false).
Proof.
  pose proof (wp_turns E (Z.to_nat MaxTurns) req (ir_Messages req) (RState w fan [])) as H. unfold wp in H. unfold Run.
  destruct (run_turns E (Z.to_nat MaxTurns) req (ir_Messages req) (RState w fan [])) as [o s'].
  destruct H as (evs & Hg & Hs). unfold grew in Hg. cbn in Hg. rewrite Hg. cbn. split; [by eapply run_writes_guarded|].
  intros HE call answer Hin. destruct (tc_IsWriteOperation call) eqn:Hw; [|done]. exfalso.
  assert (EvExecute call answer ∈ evs) as Hin'. { change (calls []) with (@nil event) in Hg. rewrite <-(app_nil_l evs), <-Hg. by apply list_elem_of_filter. }
  rewrite HE, bool_decide_eq_false_2 in Hs by (by intros [? ?]). clear -Hs Hin' Hw.
  induction Hs as [messages|n messages evs status err content Ht|n messages m' evs evs' status err content Ht _ IH].
  - by apply elem_of_nil in Hin'.
  - inversion Ht; subst; rewrite ?elem_of_cons, ?elem_of_nil in Hin'; naive_solver.
  - apply elem_of_app in Hin' as [Hin'|Hin']; [|by apply IH].
    inversion Ht; subst; rewrite ?elem_of_cons, ?elem_of_nil in Hin'; naive_solver congruence.
Qed.

(** C38: A run makes at most MaxTurns model calls and no more tool calls than model
    calls; every model call carries the original conversation followed by
    observations; it ends without an error exactly when its status is success,
    and then with the model's final answer. *)
Theorem run_bounded {W} (E : env W) MaxTurns req w fan :
  let '(o, s') := Run E MaxTurns req (RState w fan []) in
  Z.of_nat (length (predictions (calls (r_log s')))) ≤ Z.max 0 MaxTurns ∧
  (length (executions (calls (r_log s'))) ≤ length (predictions (calls (r_log s'))))%nat ∧
  Forall (λ rq, ∃ l, rq = turn_request req (ir_Messages req ++ l)) (predictions (calls (r_log s'))) ∧
  (o.2 = None ↔ fr_Status o.1 = "success") ∧ (fr_Content o.1 ≠ "" ↔ fr_Status o.1 = "success") ∧
  fr_Status o.1 ∈ ["success"; "rejected"; "failed"; "timeout"; "cancelled"; "error"].
Proof.
  pose proof (wp_turns E (Z.to_nat MaxTurns) req (ir_Messages req) (RState w fan [])) as H. unfold wp in H. unfold Run.
  destruct (run_turns E (Z.to_nat MaxTurns) req (ir_Messages req) (RState w fan [])) as [o s'].
  destruct H as (evs & Hg & Hs). unfold grew in Hg. cbn in Hg. rewrite Hg. cbn.
  destruct (run_shape _ _ _ _ _ _ _ _ Hs) as (H1 & H2 & H3 & H4). split_and!; try apply H4; try done. lia.
Qed.

(** ** The stream *)

Definition stream (log : list event) : list StreamChunk :=
  omap (λ e, match e with EvChunk c => Some c | _ => None end) log.

Lemma stream_snoc l e : stream (l ++ [e]) = stream l ++ match e with EvChunk c => [c] | _ => [] end.
Proof. unfold stream. rewrite omap_app. by destruct e. Qed.

(** Sequence numbers grow strictly from above [lo] to at most [hi]. *)
Fixpoint increasing (lo hi : Z) (cs : list StreamChunk) : Prop :=
  match cs with
  | [] => lo ≤ hi
  | c :: cs => lo < sc_Sequence c ∧ increasing (sc_Sequence c) hi cs
  end.

Lemma increasing_snoc lo hi cs c : increasing lo hi cs → hi < sc_Sequence c → increasing lo (sc_Sequence c) (cs ++ [c]).
Proof. revert lo. induction cs as [|x cs IH]; intros lo; cbn; [lia|]. intros [? ?] Hc. auto. Qed.

Lemma increasing_weaken lo hi hi' cs : increasing lo hi cs → hi ≤ hi' → increasing lo hi' cs.
Proof. revert lo. induction cs as [|x cs IH]; intros lo; cbn; [lia|]. naive_solver. Qed.

(** The terminal event of a status. *)
Definition terminal_event (status : string) : string :=
  if bool_decide (status = "success") then "final"
  else if bool_decide (status = "cancelled") then "cancelled"
  else if bool_decide (status = "timeout") then "timeout" else "error".

Definition of_task (f : Fanout) (c : StreamChunk) : Prop :=
  sc_TraceID c = f_TraceID f ∧ sc_SessionID c = f_SessionID f ∧ sc_TaskID c = f_TaskID f.
Definition same_task (f g : Fanout) : Prop :=
  f_TraceID f = f_TraceID g ∧ f_SessionID f = f_SessionID g ∧ f_TaskID f = f_TaskID g.

Section stream.
Context {W : Type} (E : env W) (Hpub : is_Some (publisher E)) (f0 : Fanout).

(** Chunks so far, with at most [k] sequence numbers used: none terminal. *)
Definition progress (cs : list StreamChunk) (f : Fanout) (hi : Z) : Prop :=
  same_task f f0 ∧ increasing (f_sequence f0) hi cs ∧ Forall (λ c, sc_Done c = false ∧ of_task f0 c) cs.

Definition sopen (k : Z) (s : rstate W) : Prop :=
  ∃ f, r_fan s = Some f ∧ f_terminalSent f = false ∧ f_sequence f0 ≤ f_sequence f ≤ f_sequence f0 + k ∧
    progress (stream (r_log s)) f (f_sequence f).

(** The terminal chunk has been sent, last. *)
Definition sclosed (ev : string) (s : rstate W) : Prop :=
  ∃ f cs c, r_fan s = Some f ∧ f_terminalSent f = true ∧ stream (r_log s) = cs ++ [c] ∧
    progress cs f (sc_Sequence c - 1) ∧ increasing (f_sequence f0) (sc_Sequence c) (cs ++ [c]) ∧
    sc_Done c = true ∧ sc_Event c = ev ∧ of_task f0 c.

(** A numbered chunk is in hand, not sent yet. *)
Definition holding (k : Z) (ev : string) (c : StreamChunk) (s : rstate W) : Prop :=
  ∃ f, r_fan s = Some f ∧ f_terminalSent f = false ∧ f_sequence f0 ≤ f_sequence f ≤ f_sequence f0 + k ∧
    progress (stream (r_log s)) f (f_sequence f - 1) ∧ sc_Sequence c = f_sequence f ∧ sc_Event c = ev ∧ of_task f0 c.

Lemma sopen_world k s w : sopen k s → sopen k (RState w (r_fan s) (r_log s)).
Proof. done. Qed.

Lemma wp_now_open k s : sopen k s → wp (now_ms E) (λ _, sopen k) s.
Proof. intros H. apply wp_now. intros t w. exact H. Qed.

Lemma wp_ask_open {A} (op : W → A * W) ev k s :
  (∀ a, is_call (ev a) = true) → sopen k s → wp (ask op ev) (λ _, sopen k) s.
Proof.
  intros Hev (f & H1 & H2 & H3 & H4). apply wp_ask. intros a w _. exists f. cbn. rewrite stream_snoc.
  specialize (Hev a). destruct (ev a); [..|done]; by rewrite app_nil_r.
Qed.

Lemma wp_newchunk k f ev s :
  sopen k s → r_fan s = Some f → 0 ≤ k → 0 ≤ f_sequence f0 → f_sequence f0 + k < int64_max →
  wp (NewChunk E f ev) (λ c s', holding (k + 1) ev c s') s.
Proof.
  intros (f' & H1 & H2 & H3 & H4) Hf Hk H0 Hmax. rewrite Hf in H1. simplify_eq.
  assert (wrap64 (f_sequence f' + 1) = f_sequence f' + 1) as Hw.
  { apply wrap64_id. unfold in_int64, int64_min, int64_max in *. lia. }
  unfold NewChunk, NextSequence. rewrite Hw. do 2 apply wp_bind. apply wp_put_fan, wp_ret.
  apply wp_bind, wp_now. intros t w. apply wp_ret. eexists. cbn. split; [done|].
  destruct H4 as ((T1 & T2 & T3) & Hi & Hall). split_and!; cbn; try done; try lia.
  split_and!; cbn; try done. by replace (f_sequence f' + 1 - 1) with (f_sequence f') by lia.
Qed.

Lemma holding_skip k ev c s : holding k ev c s → sopen k s.
Proof.
  intros (f & H1 & H2 & H3 & (T & Hi & Hall) & _). exists f. split_and!; try done; try lia.
  split_and!; try done. eapply increasing_weaken; [done|lia].
Qed.

Lemma wp_emit_open k ev c role tool err data s :
  holding k ev c s → wp (Emit E (chunk_with role tool false err data c)) (λ _, sopen k) s.
Proof.
  intros (f & H1 & H2 & H3 & (T & Hi & Hall) & Hseq & Hev & Ht). unfold Emit. destruct Hpub as [pub ->].
  apply wp_ask. intros a w _. exists f. cbn. rewrite stream_snoc. split_and!; try done; try lia.
  split_and!; [done| |].
  - rewrite <-Hseq. change (sc_Sequence c) with (sc_Sequence (chunk_with role tool false err data c)).
    eapply increasing_snoc; [done|]. cbn. lia.
  - apply Forall_app. split; [done|]. constructor; [|constructor]. done.
Qed.

Lemma wp_emit_terminal k ev c role tool err data s :
  holding k ev c s → wp (emitTerminal E (chunk_with role tool true err data c)) (λ _, sclosed ev) s.
Proof.
  intros (f & H1 & H2 & H3 & (T & Hi & Hall) & Hseq & Hev & Ht). unfold emitTerminal.
  apply wp_bind, wp_get_fan. rewrite H1, H2. apply wp_bind, wp_put_fan. unfold Emit. destruct Hpub as [pub ->].
  apply wp_ask. intros a w _. do 3 eexists. cbn. rewrite stream_snoc.
  split; [done|]. split; [done|]. split; [done|]. cbn. rewrite Hseq. split_and!; try done.
  - rewrite <-Hseq. change (sc_Sequence c) with (sc_Sequence (chunk_with role tool true err data c)) at 1.
    eapply increasing_snoc; [done|]. cbn. lia.
Qed.

(** Room for the sequence numbers of one more turn. *)
Definition room (k : Z) : Prop := 0 ≤ k ∧ 0 ≤ f_sequence f0 ∧ f_sequence f0 + k + 4 < int64_max.

Ltac fan_open Hs := unfold with_fanout; apply wp_bind, wp_get_fan; destruct (Hs) as (f & Hf & Hrest); rewrite Hf;
  apply wp_bind; eapply wp_mono; [|eapply wp_newchunk; [exact Hs|done|unfold room in *; lia..]].

Lemma wp_tool_call k call s : room k → sopen k s → wp (EmitToolCall E call) (λ _, sopen (k + 1)) s.
Proof.
  intros Hr Hs. unfold EmitToolCall. fan_open Hs. intros c s1 Hc.
  destruct (tool_call_data call); [by eapply wp_emit_open|]. apply wp_ret. by eapply holding_skip.
Qed.
Lemma wp_tool_result k r s : room k → sopen k s → wp (EmitToolResult E r) (λ _, sopen (k + 1)) s.
Proof. intros Hr Hs. unfold EmitToolResult. fan_open Hs. intros c s1 Hc. by eapply wp_emit_open. Qed.
Lemma wp_waiting k r s : room k → sopen k s → wp (EmitWaitingApproval E r) (λ _, sopen (k + 1)) s.
Proof.
  intros Hr Hs. unfold EmitWaitingApproval. fan_open Hs. intros c s1 Hc.
  destruct (approval_request_data r); [by eapply wp_emit_open|]. apply wp_ret. by eapply holding_skip.
Qed.
Lemma wp_final k content s : room k → sopen k s → wp (EmitFinal E content) (λ _, sclosed "final") s.
Proof. intros Hr Hs. unfold EmitFinal. fan_open Hs. intros c s1 Hc. by eapply wp_emit_terminal. Qed.
Lemma wp_failure k ev e s : room k → sopen k s → wp (emit_failure E ev e) (λ _, sclosed ev) s.
Proof. intros Hr Hs. unfold emit_failure. fan_open Hs. intros c s1 Hc. by eapply wp_emit_terminal. Qed.

Lemma classify_pairs e :
  terminal_event (classifyTerminalError e).1 = (classifyTerminalError e).2 ∧
  (classifyTerminalError e).2 ∈ ["cancelled"; "timeout"; "error"].
Proof. unfold classifyTerminalError. repeat case_match; split; try done; set_solver. Qed.

Lemma sclosed_now ev s : sclosed ev s → wp (now_ms E) (λ _, sclosed ev) s.
Proof. intros H. apply wp_now. intros t w. exact H. Qed.

Lemma wp_fail_stream k req e s :
  room k → sopen k s → wp (failWithTerminalEvent E req e) (λ o, sclosed (terminal_event (fr_Status o.1))) s.
Proof.
  intros Hr Hs. unfold failWithTerminalEvent. destruct (classify_pairs e) as [Heq Hin].
  destruct (classifyTerminalError e) as [status emit]. cbn in Heq, Hin. apply wp_bind.
  apply (wp_mono _ (λ _, sclosed emit)).
  - intros ? s1 Hc. apply wp_bind. eapply wp_mono; [|by apply sclosed_now]. intros t s2 Hc2. apply wp_ret. cbn. by rewrite Heq.
  - rewrite !elem_of_cons in Hin. unfold EmitCancelled, EmitTimeout, EmitError.
    destruct Hin as [->|[->|[->|Hin%elem_of_nil]]]; [| | |done]; cbn; by eapply wp_failure.
Qed.

(** A turn either closes the stream with the event of its status or leaves it
    open, having used at most three numbers. *)
Definition turn_stream (k : Z) (r : outcome + list ChatMessage) (s : rstate W) : Prop :=
  match r with inl o => sclosed (terminal_event (fr_Status o.1)) s | inr _ => sopen k s end.

Lemma wp_fail_turn_stream k k' req e s :
  room k → sopen k s → wp (out ← failWithTerminalEvent E req e; mret (inl out)) (turn_stream k') s.
Proof. intros Hr Hs. apply wp_bind. eapply wp_mono; [|by eapply wp_fail_stream]. done. Qed.

Lemma sopen_le k k' s : k ≤ k' → sopen k s → sopen k' s.
Proof. intros Hk (f & H1 & H2 & H3 & H4). exists f. split_and!; try done; lia. Qed.

Lemma wp_execute_stream k messages resp call s :
  room (k + 2) → 0 ≤ k → sopen (k + 2) s → wp (execute_call E messages resp call) (turn_stream (k + 3)) s.
Proof.
  intros Hr Hk Hs. unfold execute_call. apply wp_bind. eapply wp_mono; [|by apply (wp_ask_open _ _ (k + 2))].
  intros [res err] s1 Hs1. apply wp_bind. eapply wp_mono; [|by apply wp_tool_result].
  intros ? s2 Hs2. apply wp_ret. cbn. by replace (k + 3) with (k + 2 + 1) by lia.
Qed.

Lemma wp_approve_stream k req messages resp call wait s :
  room k → f_sequence f0 + k + 8 < int64_max → sopen (k + 1) s →
  wp (approve_call E req messages resp call wait) (turn_stream (k + 3)) s.
Proof.
  intros Hr Hm Hs. unfold approve_call. apply wp_bind. eapply wp_mono; [|by apply wp_now_open].
  intros t s1 Hs1. apply wp_bind. eapply wp_mono; [|apply (wp_waiting (k + 1)); [unfold room in *; lia|done]].
  intros ? s2 Hs2. replace (k + 1 + 1) with (k + 2) in Hs2 by lia.
  apply wp_bind. eapply wp_mono; [|by apply (wp_ask_open _ _ (k + 2))].
  intros [d err] s3 Hs3. assert (room (k + 2)) as Hr2 by (unfold room in *; lia).
  destruct err as [e|]; [by eapply wp_fail_turn_stream|].
  destruct (negb (ad_Approved d)); [|apply wp_execute_stream; [done|unfold room in *; lia|done]].
  apply wp_bind. eapply wp_mono; [|by apply wp_tool_result]. intros ? s4 Hs4. replace (k + 2 + 1) with (k + 3) in Hs4 by lia.
  destruct (bool_decide (ir_OnApprovalReject req = "fail")); [|by apply wp_ret].
  apply wp_bind. eapply wp_mono; [|apply (wp_failure (k + 3)); [unfold room in *; lia|done]].
  intros ? s5 Hs5. by apply wp_ret.
Qed.

Lemma wp_turn_stream k req messages s :
  room k → f_sequence f0 + k + 8 < int64_max → sopen k s → wp (run_turn E req messages) (turn_stream (k + 3)) s.
Proof.
  intros Hr Hm Hs. unfold run_turn. apply wp_bind. eapply wp_mono; [|by apply (wp_ask_open _ _ k)].
  intros resp s1 Hs1. destruct resp as [resp|e]; [|by eapply wp_fail_turn_stream].
  destruct (ParseModelOutput resp) as [a|e]; [|by eapply wp_fail_turn_stream].
  destruct (negb _).
  - apply wp_bind. eapply wp_mono; [|by eapply wp_final]. intros ? s2 Hs2.
    apply wp_bind. eapply wp_mono; [|apply (sclosed_now "final"), Hs2]. intros t s3 Hs3. by apply wp_ret.
  - destruct (ae_CallSkill a) as [call|]; [|apply wp_ret; apply (sopen_le k); [lia|done]].
    apply wp_bind. eapply wp_mono; [|by apply wp_tool_call]. intros ? s2 Hs2.
    assert (room (k + 1)) as Hr1 by (unfold room in *; lia).
    destruct (tc_IsWriteOperation call).
    + destruct (Wait E) as [wait|]; [by apply wp_approve_stream|by eapply wp_fail_turn_stream].
    + apply wp_execute_stream; [unfold room in *; lia|unfold room in *; lia|].
      apply (sopen_le (k + 1)); [lia|exact Hs2].
Qed.

Lemma wp_turns_stream n req : ∀ messages k s,
  0 ≤ k → 0 ≤ f_sequence f0 → f_sequence f0 + k + 3 * Z.of_nat n + 8 < int64_max → sopen k s →
  wp (run_turns E n req messages) (λ o, sclosed (terminal_event (fr_Status o.1))) s.
Proof.
  induction n as [|n IH]; intros messages k s Hk H0 Hm Hs; cbn [run_turns].
  - eapply (wp_fail_stream k); [unfold room; lia|done].
  - apply wp_bind. eapply wp_mono; [|apply (wp_turn_stream k); [unfold room; lia|lia|done]].
    intros [o|messages'] s1 Hs1; [by apply wp_ret|]. apply (IH messages' (k + 3)); [lia|lia|lia|done].
Qed.
End stream.

(** C12: A run over a fresh fan-out with a publisher publishes chunks of its own
    trace, session and task with strictly increasing sequence numbers; exactly
    one of them is terminal, it is the last, and its event is the one of the
    run's status: final for success, cancelled, timeout, and error otherwise. *)
Theorem run_stream {W} (E : env W) MaxTurns req w f :
  is_Some (publisher E) → f_terminalSent f = false → 0 ≤ f_sequence f →
  f_sequence f + 3 * Z.max 0 MaxTurns + 8 < int64_max →
  let '(o, s') := Run E MaxTurns req (RState w (Some f) []) in
  ∃ cs c, stream (r_log s') = cs ++ [c] ∧
    increasing (f_sequence f) (sc_Sequence c) (cs ++ [c]) ∧
    Forall (λ c, sc_Done c = false) cs ∧ sc_Done c = true ∧ sc_Event c = terminal_event (fr_Status o.1) ∧
    Forall (of_task f) (cs ++ [c]).
Proof.
  intros Hp Ht H0 Hm. pose proof (wp_turns_stream E Hp f (Z.to_nat MaxTurns) req (ir_Messages req) 0 (RState w (Some f) [])) as H.
  unfold wp in H. unfold Run. destruct (run_turns E (Z.to_nat MaxTurns) req (ir_Messages req) (RState w (Some f) [])) as [o s'].
  destruct H as (g & cs & c & _ & _ & Hst & (_ & _ & Hall) & Hi & Hd & He & Hof); [lia|lia|lia| |].
  - exists f. split_and!; try done; cbn; try lia. split_and!; cbn; [done|lia|constructor].
  - cbn [fst snd] in *. exists cs, c. rewrite Hst. split_and!; try done.
    + eapply Forall_impl; [exact Hall|]. by intros x [? _].
    + apply Forall_app. split; [|by constructor]. eapply Forall_impl; [exact Hall|]. by intros x [_ ?].
Qed.

(** ** What a run keeps of its world

    A property of the world that every operation of the environment keeps is
    kept by a run. *)
Section keep_world.
Context {W : Type} (E : env W) (I : W → Prop).

Definition keeps_world {A} (m : M W A) : Prop := ∀ s, I (r_world s) → I (r_world (m s).2).

Record env_keeps : Prop := {
  ek_predict req w : I w → I (Predict E req w).2;
  ek_execute call w : I w → I (Execute E call w).2;
  ek_wait f r t w : Wait E = Some f → I w → I (f r t w).2;
  ek_publish f c w : publisher E = Some f → I w → I (f c w).2;
  ek_clock w : I w → I (UnixMilli E w).2
}.

Context (HE : env_keeps).

Lemma kw_ret {A} (a : A) : keeps_world (mret a).
Proof. intros s Hs. exact Hs. Qed.

Lemma kw_bind {A B} (m : M W A) (f : A → M W B) : keeps_world m → (∀ a, keeps_world (f a)) → keeps_world (m ≫= f).
Proof. intros Hm Hf s Hs. unfold mbind, M_bind. specialize (Hm s Hs). destruct (m s). by apply Hf. Qed.

Lemma kw_ask {A} (op : W → A * W) ev : (∀ w, I w → I (op w).2) → keeps_world (ask op ev).
Proof. intros Hop s Hs. unfold ask. specialize (Hop _ Hs). by destruct (op (r_world s)). Qed.

Lemma kw_now : keeps_world (now_ms E).
Proof. intros s Hs. unfold now_ms. pose proof (ek_clock HE _ Hs) as H. by destruct (UnixMilli E (r_world s)). Qed.

Lemma kw_get : keeps_world get_fan.
Proof. intros s Hs. exact Hs. Qed.
Lemma kw_put f : keeps_world (put_fan f).
Proof. intros s Hs. exact Hs. Qed.

Ltac kw := repeat first [simple apply kw_ret | simple apply kw_now | simple apply kw_get | simple apply kw_put | simple apply kw_bind; [|intros]
  | case_match | assumption | progress cbv beta].

Lemma kw_chunk f ev : keeps_world (NewChunk E f ev).
Proof. unfold NewChunk, NextSequence. kw. Qed.
Lemma kw_emit c : keeps_world (Emit E c).
Proof. unfold Emit. destruct (publisher E) as [pub|] eqn:Hp; [|apply kw_ret]. apply kw_ask. intros w. by apply (ek_publish HE). Qed.
Lemma kw_terminal c : keeps_world (emitTerminal E c).
Proof. unfold emitTerminal. kw. apply kw_emit. Qed.
Lemma kw_fanout k : (∀ f, keeps_world (k f)) → keeps_world (with_fanout k).
Proof. intros Hk. unfold with_fanout. kw. apply Hk. Qed.
Lemma kw_failure ev e : keeps_world (emit_failure E ev e).
Proof. apply kw_fanout. intros f. apply kw_bind; [apply kw_chunk|]. intros. apply kw_terminal. Qed.
Lemma kw_final c : keeps_world (EmitFinal E c).
Proof. apply kw_fanout. intros f. apply kw_bind; [apply kw_chunk|]. intros. apply kw_terminal. Qed.

Ltac kw_emits := repeat first [simple apply kw_chunk | simple apply kw_emit | simple apply kw_failure | simple apply kw_final | simple apply kw_fanout; intros
  | progress kw].

Lemma kw_tool_call c : keeps_world (EmitToolCall E c).
Proof. unfold EmitToolCall. kw_emits. Qed.
Lemma kw_tool_result r : keeps_world (EmitToolResult E r).
Proof. unfold EmitToolResult. kw_emits. Qed.
Lemma kw_waiting r : keeps_world (EmitWaitingApproval E r).
Proof. unfold EmitWaitingApproval. kw_emits. Qed.
Lemma kw_fail req e : keeps_world (failWithTerminalEvent E req e).
Proof. unfold failWithTerminalEvent, EmitCancelled, EmitTimeout, EmitError. kw_emits. Qed.

Lemma kw_execute messages resp call : keeps_world (execute_call E messages resp call).
Proof.
  unfold execute_call. apply kw_bind; [apply kw_ask, (ek_execute HE)|]. intros [res err]. kw; apply kw_tool_result.
Qed.

Lemma kw_turn req messages : keeps_world (run_turn E req messages).
Proof.
  unfold run_turn. apply kw_bind; [apply kw_ask, (ek_predict HE)|]. intros [resp|e]; [|kw; apply kw_fail].
  destruct (ParseModelOutput resp) as [a|e]; [|kw; apply kw_fail]. destruct (negb _); [kw; apply kw_final|].
  destruct (ae_CallSkill a) as [call|]; [|kw]. apply kw_bind; [apply kw_tool_call|]. intros _.
  destruct (tc_IsWriteOperation call); [|apply kw_execute].
  destruct (Wait E) as [f|] eqn:Hw; [|kw; apply kw_fail]. unfold approve_call. apply kw_bind; [apply kw_now|]. intros t.
  apply kw_bind; [apply kw_waiting|]. intros _. apply kw_bind; [apply kw_ask; intros w; by apply (ek_wait HE)|].
  intros [d [e|]]; [kw; apply kw_fail|]. destruct (negb (ad_Approved d)); [|apply kw_execute].
  apply kw_bind; [apply kw_tool_result|]. intros _. case_bool_decide; kw. apply kw_failure.
Qed.

Lemma kw_turns n req : ∀ messages, keeps_world (run_turns E n req messages).
Proof.
  induction n as [|n IH]; intros messages; cbn [run_turns]; [apply kw_fail|].
  apply kw_bind; [apply kw_turn|]. intros [o|m]; [apply kw_ret|apply IH].
Qed.

Lemma run_keeps_world MaxTurns req : keeps_world (Run E MaxTurns req).
Proof. apply kw_turns. Qed.
End keep_world.

(** The statuses a run ends with. *)
Definition failure_statuses : list string := ["cancelled"; "timeout"; "failed"; "error"; "rejected"].

Lemma run_spec_status req gate n messages evs status err content :
  run_spec req gate n messages evs status err content →
  match err with Some _ => status ∈ failure_statuses | None => status = "success" end.
Proof.
  assert (∀ e, (classifyTerminalError e).1 ∈ failure_statuses) as Hc.
  { intros e. unfold classifyTerminalError. repeat case_match; cbn; set_solver. }
  induction 1 as [|n messages evs status err content Ht|]; [set_solver| |done].
  inversion Ht; subst; try done; try apply Hc; [set_solver|].
  revert H. case_bool_decide; intros [= <- <- <-]. set_solver.
Qed.

Lemma run_status {W} (E : env W) MaxTurns req s :
  let '((res, err), _) := Run E MaxTurns req s in
  match err with Some _ => fr_Status res ∈ failure_statuses | None => fr_Status res = "success" end.
Proof.
  pose proof (wp_turns E (Z.to_nat MaxTurns) req (ir_Messages req) s) as H. unfold wp in H. unfold Run.
  destruct (run_turns E (Z.to_nat MaxTurns) req (ir_Messages req) s) as [[res err] s'].
  destruct H as (evs & _ & H). by apply run_spec_status in H.
Qed.

(** *** A run: a write is approved and executed, then the model answers *)
Definition demo_request : InferenceRequest :=
  {| ir_TraceID := "tr"; ir_SessionID := "s"; ir_TaskID := "task"; ir_AgentType := "coder";
     ir_Messages := [role_message "user" "" "clean up"]; ir_ModelAlias := "m"; ir_MaxTurns := 10; ir_Stream := false;
     ir_Temperature := None; ir_Metadata := ∅; ir_OnApprovalReject := "continue" |}.

(** The world is the list of answers the model will give. *)
Definition demo_answers : list string :=
  [jtext "{'think':'t','call_skill':{'id':'c1','name':'rm','arguments':{},'is_write_operation':true}}";
   jtext "{'think':'t','final':'done'}"].

Definition demo_env : env (list string) :=
  Env (list string)
    (λ _ w, match w with [] => (Fail (new_error "no answer"), []) | a :: w => (Ok a, w) end)
    (λ call w, ((Build_ToolResult (tc_ID call) (tc_Name call) true "ok" "" 3, None), w))
    (Some (λ r _ w, ((Build_ApprovalDecision (ar_TraceID r) (ar_TaskID r) (ar_ToolCallID r) true "ann" "" 5, None), w)))
    (Some (λ _ w, (None, w)))
    (λ w, (1000, w)).

Definition demo_fan : Fanout := NewFanout "tr" "s" "task".
Definition demo_run : outcome * rstate (list string) := Run demo_env 10 demo_request (RState demo_answers (Some demo_fan) []).

Example demo_run_result :
  fr_Status demo_run.1.1 = "success" ∧ fr_Content demo_run.1.1 = "done" ∧
  map tc_Name (executions (r_log demo_run.2)) = ["rm"] ∧
  map (λ c, (sc_Sequence c, sc_Event c)) (stream (r_log demo_run.2)) =
    [(1, "tool_call"); (2, "waiting_approval"); (3, "tool_result"); (4, "final")]%string.
Proof. vm_compute. done. Qed.

Lemma run_stream_witness :
  let '(o, s') := Run demo_env 10 demo_request (RState demo_answers (Some demo_fan) []) in
  ∃ cs c, stream (r_log s') = cs ++ [c] ∧
    increasing (f_sequence demo_fan) (sc_Sequence c) (cs ++ [c]) ∧
    Forall (λ c, sc_Done c = false) cs ∧ sc_Done c = true ∧ sc_Event c = terminal_event (fr_Status o.1) ∧
    Forall (of_task demo_fan) (cs ++ [c]).
Proof.
  apply (run_stream demo_env 10 demo_request demo_answers demo_fan);
    [by eexists|reflexivity|discriminate|reflexivity].
Defined.

Lemma write_needs_approval_witness :
  let '(_, s') := Run demo_env 10 demo_request (RState demo_answers (Some demo_fan) []) in
  writes_guarded demo_request (calls (r_log s')) ∧
  (Wait demo_env = None → ∀ call answer, EvExecute call answer ∈ r_log s' → tc_IsWriteOperation call = false).
Proof. exact (write_needs_approval demo_env 10 demo_request demo_answers (Some demo_fan)). Defined.
