(* ===== verification/TaskStore.v ===== *)
(** * Task states: internal/memory

    The task state store as an interface ([TaskStateStore]) with its laws, and
    its two implementations: a map in memory, and a SQLite table whose upsert
    keeps the parent and agent of an existing row.  The laws are what the
    orchestrator may rely on with either. *)
From Stdlib Require Import String Ascii.
From S2P Require Import Prelude TaskStatus.
From stdpp Require Import list.

Local Open Scope Z_scope.

Record TaskState := {
  ts_TaskID : string;
  ts_ParentTaskID : string;
  ts_AgentName : string;
  ts_Status : string;
  ts_UpdatedAtUnix : Z;
  ts_ErrorMessage : string
}.

#[export] Instance TaskState_eq_dec : EqDecision TaskState.
Proof. solve_decision. Defined.

Definition err_task_not_found : error := Err "task state not found" [ErrTaskStateNotFound].

(** The statuses [ListRecoverable] selects. *)
Definition recoverable (s : TaskState) : bool :=
  bool_decide (ts_Status s = "pending") || bool_decide (ts_Status s = "running").

(** ** The interface

    [view] is the stored state of every task and [unavailable] the error, if
    any, every call with that context returns at the moment.  A successful
    [Save] makes the task's status, time and error those of the argument and
    touches no other task; the parent and the agent are the argument's for a
    new task, and for a known one when they agree with what is stored. *)
Class TaskStateStore (S : Type) := {
  Save : ctx → TaskState → S → option error * S;
  Get : ctx → string → S → result TaskState;
  GetSubTasks : ctx → string → S → result (list TaskState);
  ListRecoverable : ctx → S → result (list TaskState);
  view : S → gmap string TaskState;
  unavailable : ctx → S → option error;
  store_wf : S → Prop;
  view_key s k t : store_wf s → view s !! k = Some t → ts_TaskID t = k;
  Save_wf c t s : store_wf s → store_wf (Save c t s).2;
  Save_ok c t s : unavailable c s = None →
    ∃ t', (Save c t s).1 = None ∧ view (Save c t s).2 = <[ts_TaskID t := t']> (view s) ∧
      ts_Status t' = ts_Status t ∧ ts_UpdatedAtUnix t' = ts_UpdatedAtUnix t ∧ ts_ErrorMessage t' = ts_ErrorMessage t ∧
      ((∀ old, view s !! ts_TaskID t = Some old → ts_TaskID old = ts_TaskID t →
          ts_ParentTaskID old = ts_ParentTaskID t ∧ ts_AgentName old = ts_AgentName t) → store_wf s → t' = t);
  Save_fail c t s e : unavailable c s = Some e → Save c t s = (Some e, s);
  Save_available c c' t s : unavailable c (Save c' t s).2 = unavailable c s;
  Get_ok c k s : unavailable c s = None →
    Get c k s = match view s !! k with Some t => Ok t | None => Fail err_task_not_found end;
  Get_found c k s t : Get c k s = Ok t → view s !! k = Some t;
  ListRecoverable_ok c s l : store_wf s → ListRecoverable c s = Ok l →
    NoDup (ts_TaskID <$> l) ∧ ∀ t, t ∈ l ↔ view s !! ts_TaskID t = Some t ∧ recoverable t = true;
  ListRecoverable_answers c s : unavailable c s = None → is_ok (ListRecoverable c s) = true;
  GetSubTasks_ok c p s l : store_wf s → GetSubTasks c p s = Ok l →
    ∀ t, t ∈ l ↔ view s !! ts_TaskID t = Some t ∧ ts_ParentTaskID t = p
}.

(** ** In memory *)
Abbreviation states := (gmap string TaskState).

Definition mem_Save (c : ctx) (t : TaskState) (s : states) : option error * states :=
  match c with Some e => (Some e, s) | None => (None, <[ts_TaskID t := t]> s) end.

Definition mem_Get (c : ctx) (taskID : string) (s : states) : result TaskState :=
  match c with
  | Some e => Fail e
  | None => match s !! taskID with Some t => Ok t | None => Fail err_task_not_found end
  end.

(** The two listings range over the map, in an unspecified order. *)
Section mem_list.
Context `{RangeOrder}.

Definition mem_range (label : string) (s : states) : list TaskState :=
  omap (λ k, s !! k) (range_set label (dom s)).

(** [GetSubTasks] does not look at the context. *)
Definition mem_GetSubTasks (c : ctx) (parentTaskID : string) (s : states) : result (list TaskState) :=
  Ok (filter (λ t, ts_ParentTaskID t = parentTaskID) (mem_range "GetSubTasks" s)).

Definition mem_ListRecoverable (c : ctx) (s : states) : result (list TaskState) :=
  match c with
  | Some e => Fail e
  | None => Ok (filter (λ t, recoverable t = true) (mem_range "ListRecoverable" s))
  end.
End mem_list.

(** ** SQLite

    The table [task_states]: its primary key makes it a map from task id to
    row.  [db_down] is the error the database returns for every statement, if
    any; it then changes nothing.  A statement that fails on its own, between
    others that succeed, is not modelled. *)
Record sqlite := SQLite { db_rows : gmap string TaskState; db_down : option error }.

(** INSERT ... ON CONFLICT(task_id) DO UPDATE SET status, updated_at_unix,
    error_message. *)
Definition upsert (t : TaskState) (rows : gmap string TaskState) : gmap string TaskState :=
  match rows !! ts_TaskID t with
  | None => <[ts_TaskID t := t]> rows
  | Some old =>
    <[ts_TaskID t := {| ts_TaskID := ts_TaskID old; ts_ParentTaskID := ts_ParentTaskID old; ts_AgentName := ts_AgentName old;
                        ts_Status := ts_Status t; ts_UpdatedAtUnix := ts_UpdatedAtUnix t;
                        ts_ErrorMessage := ts_ErrorMessage t |}]> rows
  end.

Definition sql_error (c : ctx) (s : sqlite) : option error := match c with Some e => Some e | None => db_down s end.

Definition sql_Save (c : ctx) (t : TaskState) (s : sqlite) : option error * sqlite :=
  match sql_error c s with Some e => (Some e, s) | None => (None, SQLite (upsert t (db_rows s)) (db_down s)) end.

(** The error of [row.Scan]: what the database said, or no row. *)
Definition sql_no_rows : error := Err "sql: no rows in result set" [SqlErrNoRows].

Definition sql_Get (c : ctx) (taskID : string) (s : sqlite) : result TaskState :=
  let scanned := match sql_error c s with
                 | Some e => Fail e
                 | None => match db_rows s !! taskID with Some t => Ok t | None => Fail sql_no_rows end
                 end in
  match scanned with
  | Ok t => Ok t
  | Fail e => if bool_decide (e = sql_no_rows) then Fail err_task_not_found else Fail e
  end.

Definition sql_select (c : ctx) (p : TaskState → bool) (s : sqlite) : result (list TaskState) :=
  match sql_error c s with
  | Some e => Fail e
  | None => Ok (filter (λ t, p t = true) (snd <$> map_to_list (db_rows s)))
  end.
Definition sql_GetSubTasks (c : ctx) (parentTaskID : string) (s : sqlite) : result (list TaskState) :=
  sql_select c (λ t, bool_decide (ts_ParentTaskID t = parentTaskID)) s.
Definition sql_ListRecoverable (c : ctx) (s : sqlite) : result (list TaskState) := sql_select c recoverable s.

(** ** Both are stores *)

Definition keyed (m : gmap string TaskState) : Prop := ∀ k t, m !! k = Some t → ts_TaskID t = k.

Lemma keyed_empty : keyed ∅.
Proof. intros k t H. by rewrite lookup_empty in H. Qed.

Lemma keyed_insert m t : keyed m → keyed (<[ts_TaskID t := t]> m).
Proof. intros Hm k x. rewrite lookup_insert. case_decide; [intros [= <-]; done|apply Hm]. Qed.

Lemma keyed_upsert m t : keyed m → keyed (upsert t m).
Proof.
  intros Hm. unfold upsert. destruct (m !! ts_TaskID t) as [old|] eqn:Ho; [|by apply keyed_insert].
  intros k x. rewrite lookup_insert. case_decide as Hk; [intros [= <-]; cbn; rewrite (Hm _ _ Ho); done|apply Hm].
Qed.

Section mem.
Context `{RangeOrder}.

Lemma mem_range_spec label s : keyed s →
  NoDup (ts_TaskID <$> mem_range label s) ∧ ∀ t, t ∈ mem_range label s ↔ s !! ts_TaskID t = Some t.
Proof.
  intros Hs. unfold mem_range.
  assert (∀ (ks : list string) t, t ∈ omap (λ k, s !! k) ks ↔ ts_TaskID t ∈ ks ∧ s !! ts_TaskID t = Some t) as Hin.
  { intros ks t. rewrite list_elem_of_omap. split.
    - intros (k & Hk & Hl). pose proof (Hs k t Hl) as <-. done.
    - intros [Hk Hl]. eauto. }
  split.
  - pose proof (NoDup_range_set label (dom s)) as Hnd. induction Hnd as [|k ks Hk Hnd IH]; [constructor|].
    cbn. destruct (s !! k) as [t|] eqn:Hl; [|done]. cbn. constructor; [|done].
    rewrite (Hs k t Hl). intros (t' & Heq & Ht')%list_elem_of_fmap. apply Hin in Ht' as [Ht' _]. congruence.
  - intros t. rewrite Hin, elem_of_range_set, elem_of_dom. split; [tauto|]. intros Ht. by rewrite Ht.
Qed.

Lemma NoDup_fmap_filter {A} (f : A → string) (P : A → Prop) `{∀ x, Decision (P x)} l :
  NoDup (f <$> l) → NoDup (f <$> filter P l).
Proof. intros Hl. eapply sublist_NoDup; [exact Hl|]. apply fmap_sublist, sublist_filter. Qed.

#[export] Program Instance InMemoryTaskStateStore : TaskStateStore states := {|
  Save := mem_Save;
  Get := mem_Get;
  GetSubTasks := mem_GetSubTasks;
  ListRecoverable := mem_ListRecoverable;
  view := id;
  unavailable := λ c _, c;
  store_wf := keyed
|}.
Next Obligation. intros s k t Hs Hk. by apply Hs. Qed.
Next Obligation. intros [e|] t s Hs; [done|]. by apply keyed_insert. Qed.
Next Obligation. intros c t s ->. exists t. done. Qed.
Next Obligation. intros c t s e ->. done. Qed.
Next Obligation. done. Qed.
Next Obligation. intros c k s ->. done. Qed.
Next Obligation.
  intros c k s t. unfold mem_Get. destruct c; [done|]. cbn. destruct (s !! k); [by intros [= ->]|done].
Qed.
Next Obligation.
  intros c s l Hs. unfold mem_ListRecoverable. destruct c; [done|]. intros [= <-].
  destruct (mem_range_spec "ListRecoverable" s Hs) as [Hnd Hin]. split; [by apply NoDup_fmap_filter|].
  intros t. rewrite list_elem_of_filter, Hin. cbn. tauto.
Qed.
Next Obligation. intros c s ->. done. Qed.
Next Obligation.
  intros c p s l Hs [= <-] t. rewrite list_elem_of_filter. rewrite (proj2 (mem_range_spec "GetSubTasks" s Hs)). cbn. tauto.
Qed.
End mem.

Lemma elem_of_rows m (t : TaskState) : keyed m → t ∈ snd <$> map_to_list m ↔ m !! ts_TaskID t = Some t.
Proof.
  intros Hm. rewrite list_elem_of_fmap. split.
  - intros ([k x] & -> & Hx%elem_of_map_to_list). cbn. by rewrite (Hm k x Hx).
  - intros Ht. exists (ts_TaskID t, t). by rewrite elem_of_map_to_list.
Qed.

Lemma NoDup_rows m : keyed m → NoDup (ts_TaskID <$> (snd <$> map_to_list m)).
Proof.
  intros Hm. rewrite <-list_fmap_compose.
  rewrite (list_fmap_ext _ fst); [apply NoDup_fst_map_to_list|].
  intros i [k x] Hi%list_elem_of_lookup_2%elem_of_map_to_list. by apply Hm.
Qed.

#[export] Program Instance SQLiteTaskStateStore : TaskStateStore sqlite := {|
  Save := sql_Save;
  Get := sql_Get;
  GetSubTasks := sql_GetSubTasks;
  ListRecoverable := sql_ListRecoverable;
  view := db_rows;
  unavailable := sql_error;
  store_wf := λ s, keyed (db_rows s)
|}.
Next Obligation. intros s k t Hs Hk. by apply Hs. Qed.
Next Obligation. intros c t s Hs. unfold sql_Save. destruct (sql_error c s); [done|]. by apply keyed_upsert. Qed.
Next Obligation.
  intros c t s Hs. unfold sql_Save. rewrite Hs. cbn. unfold upsert.
  destruct (db_rows s !! ts_TaskID t) as [old|] eqn:Ho; eexists; split_and!; try done. cbn.
  intros Hsame Hwf. destruct (Hsame old eq_refl (Hwf _ _ Ho)) as [Hp Ha]. rewrite (Hwf _ _ Ho), Hp, Ha. by destruct t.
Qed.
Next Obligation. intros c t s e Hs. unfold sql_Save. by rewrite Hs. Qed.
Next Obligation. intros c c' t s. unfold sql_Save, sql_error. destruct c', (db_down s) eqn:Hd; cbn; by rewrite ?Hd. Qed.
Next Obligation.
  intros c k s Hs. unfold sql_Get. rewrite Hs. by destruct (db_rows s !! k).
Qed.
Next Obligation.
  intros c k s t. unfold sql_Get. destruct (sql_error c s); [by case_bool_decide|].
  destruct (db_rows s !! k); [by intros [= ->]|done].
Qed.
Next Obligation.
  intros c s l Hs. unfold sql_ListRecoverable, sql_select. destruct (sql_error c s); [done|]. intros [= <-]. split.
  - apply NoDup_fmap_filter. by apply NoDup_rows.
  - intros t. rewrite list_elem_of_filter, elem_of_rows by done. tauto.
Qed.
Next Obligation. intros c s Hs. unfold sql_ListRecoverable, sql_select. by rewrite Hs. Qed.
Next Obligation.
  intros c p s l Hs. unfold sql_GetSubTasks, sql_select. destruct (sql_error c s); [done|]. intros [= <-] t.
  rewrite list_elem_of_filter, elem_of_rows, bool_decide_eq_true by done. tauto.
Qed.

(** ** Histories of saves, against the interface *)
Section saves.
Context {S : Type} `{TaskStateStore S}.

Definition saves (c : ctx) (ts : list TaskState) (s : S) : S := foldl (λ s t, (Save c t s).2) s ts.

Lemma saves_snoc c ts t s : saves c (ts ++ [t]) s = (Save c t (saves c ts s)).2.
Proof. unfold saves. by rewrite foldl_app. Qed.

Lemma saves_available c ts s : unavailable c (saves c ts s) = unavailable c s.
Proof. induction ts as [|t ts IH] using rev_ind; [done|]. by rewrite saves_snoc, Save_available. Qed.

Lemma saves_wf c ts s : store_wf s → store_wf (saves c ts s).
Proof. intros Hs. induction ts as [|t ts IH] using rev_ind; [done|]. rewrite saves_snoc. by apply Save_wf. Qed.

(** The last save of a task. *)
Definition last_save (k : string) (ts : list TaskState) : option TaskState :=
  last (filter (λ t, ts_TaskID t = k) ts).

Lemma last_save_snoc k ts t : last_save k (ts ++ [t]) = if decide (ts_TaskID t = k) then Some t else last_save k ts.
Proof.
  unfold last_save. rewrite filter_app, filter_cons, filter_nil. case_decide; [by rewrite last_snoc|by rewrite app_nil_r].
Qed.

(** What a stored state shows of a save. *)
Definition shows (t t' : TaskState) : Prop :=
  ts_TaskID t = ts_TaskID t' ∧ ts_Status t = ts_Status t' ∧ ts_UpdatedAtUnix t = ts_UpdatedAtUnix t' ∧
  ts_ErrorMessage t = ts_ErrorMessage t'.

Lemma saves_view c ts s k :
  store_wf s → view s = ∅ → unavailable c s = None →
  match last_save k ts with
  | Some t => ∃ t', view (saves c ts s) !! k = Some t' ∧ shows t' t
  | None => view (saves c ts s) !! k = None
  end.
Proof.
  intros Hwf He Ha. induction ts as [|t ts IH] using rev_ind.
  - cbn. by rewrite He, lookup_empty.
  - rewrite last_save_snoc, saves_snoc. rewrite <-(saves_available c ts s) in Ha.
    destruct (Save_ok c t _ Ha) as (t' & _ & Hv & H1 & H2 & H3 & _). rewrite Hv. case_decide as Hk.
    + subst k. rewrite lookup_insert_eq. eexists. split; [done|].
      split; [|done]. assert (view (Save c t (saves c ts s)).2 !! ts_TaskID t = Some t') as Hl by (by rewrite Hv, lookup_insert_eq).
      apply (view_key _ _ _ (Save_wf c t _ (saves_wf c ts s Hwf)) Hl).
    + by rewrite lookup_insert_ne.
Qed.

(** Each task's saves agree on its parent and its agent. *)
Definition stable (ts : list TaskState) : Prop :=
  ∀ t1 t2, t1 ∈ ts → t2 ∈ ts → ts_TaskID t1 = ts_TaskID t2 →
  ts_ParentTaskID t1 = ts_ParentTaskID t2 ∧ ts_AgentName t1 = ts_AgentName t2.

Definition replay (ts : list TaskState) : gmap string TaskState := foldl (λ m t, <[ts_TaskID t := t]> m) ∅ ts.

Lemma replay_from ts k t : replay ts !! k = Some t → t ∈ ts.
Proof.
  unfold replay. induction ts as [|t0 ts IH] using rev_ind; [cbn; by rewrite lookup_empty|].
  rewrite foldl_app. cbn. rewrite lookup_insert, elem_of_app. case_decide; [intros [= ->]; right; by left|auto].
Qed.

Lemma stable_saves_view c ts s :
  store_wf s → view s = ∅ → unavailable c s = None → stable ts → view (saves c ts s) = replay ts.
Proof.
  intros Hwf He Ha. unfold replay. induction ts as [|t ts IH] using rev_ind; intros Hst; [done|].
  assert (view (saves c ts s) = replay ts) as Hv.
  { apply IH. intros t1 t2 H1 H2. apply Hst; apply elem_of_app; by left. }
  rewrite saves_snoc, foldl_app. cbn. rewrite <-(saves_available c ts s) in Ha.
  destruct (Save_ok c t _ Ha) as (t' & _ & -> & _ & _ & _ & Hsame). rewrite Hv. unfold replay. f_equal.
  apply Hsame; [|by apply saves_wf]. intros old Hold Hid. rewrite Hv in Hold. apply replay_from in Hold.
  apply Hst; [apply elem_of_app; by left|apply elem_of_app; right; by left|done].
Qed.
End saves.

(** C27: With any task state store, after any sequence of saves, Get returns for
    each task the status, time and error of its last save and reports the
    others as not found, and ListRecoverable lists exactly the tasks whose last
    saved status is pending or running, each once. *)
Theorem store_history {S} `{TaskStateStore S} c ts s :
  store_wf s → view s = ∅ → unavailable c s = None →
  (∀ k, match last_save k ts with
        | Some t => ∃ t', Get c k (saves c ts s) = Ok t' ∧ shows t' t
        | None => Get c k (saves c ts s) = Fail err_task_not_found
        end) ∧
  ∃ l, ListRecoverable c (saves c ts s) = Ok l ∧ NoDup (ts_TaskID <$> l) ∧
    ∀ k, k ∈ (ts_TaskID <$> l) ↔ ∃ t, last_save k ts = Some t ∧ recoverable t = true.
Proof.
  intros Hwf He Ha. pose proof (saves_available c ts s) as Ha'. rewrite Ha in Ha'.
  pose proof (saves_wf c ts s Hwf) as Hwf'.
  assert (∀ k, match last_save k ts with
               | Some t => ∃ t', view (saves c ts s) !! k = Some t' ∧ shows t' t
               | None => view (saves c ts s) !! k = None end) as Hview by (intros k; by apply saves_view).
  split.
  - intros k. specialize (Hview k). rewrite Get_ok by done.
    destruct (last_save k ts); [destruct Hview as (t' & -> & ?); eauto|by rewrite Hview].
  - pose proof (ListRecoverable_answers c _ Ha') as Hl. destruct (ListRecoverable c (saves c ts s)) as [l|] eqn:Hlr; [|done].
    destruct (ListRecoverable_ok _ _ _ Hwf' Hlr) as [Hnd Hin]. exists l. split_and!; try done. intros k. split.
    + intros (t & -> & [Ht Hr]%Hin)%list_elem_of_fmap. specialize (Hview (ts_TaskID t)).
      destruct (last_save (ts_TaskID t) ts) as [t0|]; [|congruence]. destruct Hview as (t' & Ht' & _ & Hst & _).
      exists t0. split; [done|]. rewrite Ht in Ht'. simplify_eq. unfold recoverable in *. by rewrite <-Hst.
    + intros (t & Hlast & Hr). specialize (Hview k). rewrite Hlast in Hview. destruct Hview as (t' & Ht' & Hid & Hst & _).
      pose proof (view_key _ _ _ Hwf' Ht') as Hk. rewrite <-Hk. apply list_elem_of_fmap_2, Hin. split; [by rewrite Hk|].
      unfold recoverable in *. by rewrite Hst.
Qed.

(** C39: The in-memory and the SQLite store are interchangeable as long as no save
    changes a task's parent or agent: the same saves leave them with the same
    answers. *)
Theorem stores_equivalent `{RangeOrder} ts k p :
  stable ts →
  let m := saves background ts (∅ : states) in
  let d := saves background ts (SQLite ∅ None) in
  Get background k m = Get background k d ∧
  (∃ l1 l2, ListRecoverable background m = Ok l1 ∧ ListRecoverable background d = Ok l2 ∧ l1 ≡ₚ l2) ∧
  (∃ l1 l2, GetSubTasks background p m = Ok l1 ∧ GetSubTasks background p d = Ok l2 ∧ ∀ t, t ∈ l1 ↔ t ∈ l2).
Proof.
  intros Hst m d.
  assert (view m = replay ts) as Hm by (apply stable_saves_view; try done; apply keyed_empty).
  assert (view d = replay ts) as Hd by (apply stable_saves_view; try done; apply keyed_empty).
  assert (store_wf m) as Wm by (apply saves_wf, keyed_empty).
  assert (store_wf d) as Wd by (apply saves_wf; apply keyed_empty).
  assert (unavailable background m = None) as Am by done.
  assert (unavailable background d = None) as Ad by (unfold d; by rewrite saves_available).
  split; [by rewrite !Get_ok, Hm, Hd by done|]. split.
  - pose proof (ListRecoverable_answers background m Am) as H1. pose proof (ListRecoverable_answers background d Ad) as H2.
    destruct (ListRecoverable background m) as [l1|] eqn:E1; [|done].
    destruct (ListRecoverable background d) as [l2|] eqn:E2; [|done]. exists l1, l2. split_and!; try done.
    destruct (ListRecoverable_ok _ _ _ Wm E1) as [N1 I1]. destruct (ListRecoverable_ok _ _ _ Wd E2) as [N2 I2].
    apply NoDup_Permutation; [by eapply NoDup_fmap_1..|]. intros t. by rewrite I1, I2, Hm, Hd.
  - assert (∃ l, GetSubTasks background p d = Ok l) as [l2 E2].
    { cbn. unfold sql_GetSubTasks, sql_select. destruct (sql_error background d) eqn:He; [|eauto].
      change (unavailable background d = Some e) in He. congruence. }
    do 2 eexists. split; [reflexivity|]. split; [exact E2|]. intros t.
    rewrite (GetSubTasks_ok background p m _ Wm eq_refl), (GetSubTasks_ok _ _ _ _ Wd E2). by rewrite Hm, Hd.
Qed.

Definition demo_saves : list TaskState :=
  [ Build_TaskState "a" "" "coder" "running" 1 ""; Build_TaskState "b" "a" "coder" "running" 2 "";
    Build_TaskState "a" "" "coder" "success" 3 "" ].

Lemma store_history_witness :
  (∀ k, match last_save k demo_saves with
        | Some t => ∃ t', Get background k (saves background demo_saves (SQLite ∅ None)) = Ok t' ∧ shows t' t
        | None => Get background k (saves background demo_saves (SQLite ∅ None)) = Fail err_task_not_found
        end) ∧
  ∃ l, ListRecoverable background (saves background demo_saves (SQLite ∅ None)) = Ok l ∧ NoDup (ts_TaskID <$> l) ∧
    ∀ k, k ∈ (ts_TaskID <$> l) ↔ ∃ t, last_save k demo_saves = Some t ∧ recoverable t = true.
Proof. apply (store_history background demo_saves (SQLite ∅ None)); [apply keyed_empty|reflexivity|reflexivity]. Defined.

Lemma stores_equivalent_witness :
  let _ := range_ascending in
  let m := saves background demo_saves (∅ : states) in
  let d := saves background demo_saves (SQLite ∅ None) in
  Get background "a" m = Get background "a" d ∧
  (∃ l1 l2, ListRecoverable background m = Ok l1 ∧ ListRecoverable background d = Ok l2 ∧ l1 ≡ₚ l2) ∧
  (∃ l1 l2, GetSubTasks background "a" m = Ok l1 ∧ GetSubTasks background "a" d = Ok l2 ∧ ∀ t, t ∈ l1 ↔ t ∈ l2).
Proof.
  intros ?. apply (stores_equivalent demo_saves "a" "a").
  intros t1 t2 H1 H2. unfold demo_saves in *. rewrite !elem_of_cons, elem_of_nil in H1, H2.
  destruct H1 as [->|[->|[->|[]]]], H2 as [->|[->|[->|[]]]]; cbn; (done || (intros; discriminate)).
Defined.

(** They differ otherwise: SQLite keeps the first parent and agent. *)
Example stores_differ :
  let ts := [Build_TaskState "a" "p" "coder" "running" 1 ""; Build_TaskState "a" "" "" "success" 2 ""] in
  (ts_ParentTaskID <$> (mem_Save background (Build_TaskState "a" "" "" "success" 2 "")
      (mem_Save background (Build_TaskState "a" "p" "coder" "running" 1 "") ∅).2).2 !! "a") = Some "" ∧
  (ts_ParentTaskID <$> db_rows (saves background ts (SQLite ∅ None)) !! "a") = Some "p".
Proof. vm_compute. done. Qed.
