(* ===== verification/LongTermMemory.v ===== *)
(** * Long-term memory: internal/memory/long_term_memory.go, milvus_store.go

    Memories in a vector database.  The database's client is a parameter: its
    statements, which may fail, and its searches.  A panic is an absent
    result. *)
From Stdlib Require Import String Ascii.
From S2P Require Import Prelude GoStrings Strconv.
From stdpp Require Import gmap list.

Local Open Scope Z_scope.

Record MemoryEntry := MkEntry {
  me_ID : string;
  me_TaskID : string;
  me_Content : string;
  me_Vector : list Z;
  me_Metadata : gmap string string;
  me_Timestamp : Z
}.
Definition zero_entry : MemoryEntry := MkEntry "" "" "" [] ∅ 0.

Definition DefaultCollectionName : string := "agent_memories".
Definition DefaultVectorDim : Z := 1536.

(** ** The client *)

(** The fields of a collection. *)
Inductive field_type := Int64Key | VarChar (limit : Z) | FloatVector (dim : Z) | Int64.
Definition schema : list (string * field_type) :=
  [("id", Int64Key); ("task_id", VarChar 128); ("content", VarChar 65535); ("vector", FloatVector DefaultVectorDim); ("timestamp", Int64)]%string.

(** A row to insert, its identifier being the server's. *)
Record row := MkRow { rw_task : string; rw_content : string; rw_vector : list Z; rw_timestamp : Z }.

Inductive statement :=
| CreateCollection (name : string) (fields : list (string * field_type))
| CreateIndex (name field : string) (nlist : Z)
| LoadCollection (name : string)
| Insert (name : string) (r : row)
| CloseClient.

(** A column of a search's result: its values as the client reads them. *)
Record column := MkColumn { col_string : Z → result string; col_int64 : Z → result Z }.
Record found := MkFound { fd_Count : nat; fd_IDs : Z → result Z; fd_column : string → option column }.

Record MilvusStore := MkStore { ml_collection : string }.

Section store.
Context {W : Type}.
Variable connect : string → W → option error * W.
Variable has : string → W → result bool * W.
Variable exec : statement → W → option error * W.
(** A search of a collection for a vector: the number of results asked for. *)
Variable search : string → list Z → Z → W → result (list found) * W.

(** Statements until one fails. *)
Fixpoint execute (l : list statement) (w : W) : option error * W :=
  match l with
  | [] => (None, w)
  | s :: l => match exec s w with (Some e, w) => (Some e, w) | (None, w) => execute l w end
  end.

Definition creation (name : string) : list statement := [CreateCollection name schema; CreateIndex name "vector" 1024; LoadCollection name].

Definition ensureCollection (s : MilvusStore) (w : W) : option error * W :=
  match has (ml_collection s) w with
  | (Fail e, w) => (Some e, w)
  | (Ok true, w) => (None, w)
  | (Ok false, w) => execute (creation (ml_collection s)) w
  end.

Definition NewMilvusStore (addr collection : string) (w : W) : result MilvusStore * W :=
  match connect addr w with
  | (Some e, w) => (Fail e, w)
  | (None, w) =>
    let s := MkStore (if bool_decide (collection = EmptyString) then DefaultCollectionName else collection) in
    match ensureCollection s w with
    | (Some e, w) => (Fail e, (exec CloseClient w).2)
    | (None, w) => (Ok s, w)
    end
  end.

(** [now]: the Unix time, read when the entry has none. *)
Definition stored_row (now : Z) (e : MemoryEntry) : row :=
  MkRow (me_TaskID e) (me_Content e) (me_Vector e) (if me_Timestamp e =? 0 then now else me_Timestamp e).
Definition Store (now : Z) (e : MemoryEntry) (s : MilvusStore) (w : W) : option error * W := exec (Insert (ml_collection s) (stored_row now e)) w.

(** The entry of a result; the unread parts stay zero. *)
Definition found_entry (f : found) (i : Z) : option MemoryEntry :=
  let id := match fd_IDs f i with Ok n => FormatInt n | Fail _ => EmptyString end in
  task ← fd_column f "task_id";
  content ← fd_column f "content";
  timestamp ← fd_column f "timestamp";
  let text c := match col_string c i with Ok t => t | Fail _ => EmptyString end in
  Some (MkEntry id (text task) (text content) [] ∅ (match col_int64 timestamp i with Ok t => t | Fail _ => 0 end)).

Definition found_entries (f : found) : option (list MemoryEntry) := mapM (found_entry f) (Z.of_nat <$> seq 0 (fd_Count f)).

Definition SearchMemory (vector : list Z) (limit : Z) (s : MilvusStore) (w : W) : option (result (list MemoryEntry)) * W :=
  match search (ml_collection s) vector limit w with
  | (Fail e, w) => (Some (Fail e), w)
  | (Ok l, w) => (ll ← mapM found_entries l; Some (Ok (concat ll)), w)
  end.

Definition CloseStore (w : W) : option error * W := exec CloseClient w.
End store.

(** ** What a search gives back *)

(** Rows as a search's result has them. *)
Definition row_at (rows : list (Z * row)) (i : Z) : result (Z * row) :=
  match rows !! Z.to_nat i with Some r => Ok r | None => Fail (new_error "index out of range") end.
Definition text_column (f : row → string) (rows : list (Z * row)) : column :=
  MkColumn (λ i, r ← row_at rows i; Ok (f r.2)) (λ _, Fail (new_error "type")).
Definition int_column (f : row → Z) (rows : list (Z * row)) : column :=
  MkColumn (λ _, Fail (new_error "type")) (λ i, r ← row_at rows i; Ok (f r.2)).

Definition as_found (rows : list (Z * row)) : found :=
  MkFound (length rows) (λ i, r ← row_at rows i; Ok r.1)
    (λ name, if bool_decide (name = "task_id"%string) then Some (text_column rw_task rows)
             else if bool_decide (name = "content"%string) then Some (text_column rw_content rows)
             else if bool_decide (name = "timestamp"%string) then Some (int_column rw_timestamp rows) else None).

Definition row_entry (r : Z * row) : MemoryEntry :=
  MkEntry (FormatInt r.1) (rw_task r.2) (rw_content r.2) [] ∅ (rw_timestamp r.2).

Lemma found_entries_rows rows : found_entries (as_found rows) = Some (map row_entry rows).
Proof.
  unfold found_entries, as_found. cbn [fd_Count]. apply mapM_Some. rewrite Forall2_fmap_l, Forall2_fmap_r.
  apply Forall2_same_length_lookup. rewrite length_seq. split; [done|]. intros i x r Hx Hr. apply lookup_seq in Hx as [-> _].
  assert (row_at rows (Z.of_nat i) = Ok r) as Hat by (unfold row_at; by rewrite Nat2Z.id, Hr).
  unfold found_entry. change (fd_column _ "task_id") with (Some (text_column rw_task rows)).
  change (fd_column _ "content") with (Some (text_column rw_content rows)). change (fd_column _ "timestamp") with (Some (int_column rw_timestamp rows)).
  cbn. by rewrite Hat.
Qed.

(** A search answers the rows it found, in the server's order, as entries with
    their identifier, task, content and time; their vectors and metadata are not
    read back. *)
Lemma search_exact {W} (search : string → list Z → Z → W → result (list found) * W) vector limit s w groups w' :
  search (ml_collection s) vector limit w = (Ok (map as_found groups), w') →
  SearchMemory search vector limit s w = (Some (Ok (map row_entry (concat groups))), w').
Proof.
  intros Hs. unfold SearchMemory. rewrite Hs. assert (mapM found_entries (map as_found groups) = Some (map (map row_entry) groups)) as ->.
  { clear Hs. induction groups as [|g groups IH]; [done|]. cbn [map mapM]. by rewrite found_entries_rows, IH. }
  cbn [mbind option_bind]. by rewrite concat_map.
Qed.

(** ** A server *)

(** Collections with whether they are indexed and loaded, and the rows; the
    number of statements it takes before one fails. *)
Record server := MkServer { sv_state : gmap string (bool * bool); sv_rows : list (Z * row); sv_budget : option nat }.

Definition serve (s : statement) (w : server) : option error * server :=
  let run (f : gmap string (bool * bool) → gmap string (bool * bool)) (rows : list (Z * row)) budget := (None, MkServer (f (sv_state w)) (sv_rows w ++ rows) budget) in
  match sv_budget w with
  | Some O => (Some (new_error "unavailable"), MkServer (sv_state w) (sv_rows w) None)
  | budget =>
    let budget := pred <$> budget in
    match s with
    | CreateCollection n _ => run <[n := (false, false)]> [] budget
    | CreateIndex n _ _ => run (alter (λ x, (true, x.2)) n) [] budget
    | LoadCollection n => run (alter (λ x, (x.1, true)) n) [] budget
    | Insert n r => run (λ m, m) [(Z.of_nat (length (sv_rows w)), r)] budget
    | CloseClient => run (λ m, m) [] budget
    end
  end.
Definition server_has (n : string) (w : server) : result bool * server := (Ok (bool_decide (n ∈ dom (sv_state w))), w).
Definition server_search (n : string) (v : list Z) (limit : Z) (w : server) : result (list found) * server :=
  match sv_state w !! n with
  | Some (_, true) => (Ok [as_found (take (Z.to_nat limit) (rev (sv_rows w)))], w)
  | _ => (Fail (new_error "collection not loaded"), w)
  end.
Definition no_error {A} (x : A) (w : server) : option error * server := (None, w).

(** What is remembered is found again, without its vector and its metadata. *)
Example remembered :
  let '(r, w) := NewMilvusStore no_error server_has serve "milvus:19530" "" (MkServer ∅ [] None) in
  match r with
  | Ok s => (SearchMemory server_search [3] 1 s (Store serve 50 (MkEntry "x" "t1" "notes" [1; 2] {["k" := "v"]} 0) s w).2).1
  | Fail _ => None
  end = Some (Ok [MkEntry "0" "t1" "notes" [] ∅ 50])%string.
Proof. vm_compute. reflexivity. Qed.

(** A collection whose index could not be created is there: the next start takes
    it as it is, and searches fail. *)
Example half_made :
  let '(r1, w) := NewMilvusStore no_error server_has serve "milvus:19530" "" (MkServer ∅ [] (Some 1%nat)) in
  let '(r2, w) := NewMilvusStore no_error server_has serve "milvus:19530" "" w in
  (match r1 with Ok _ => false | Fail _ => true end, r2, sv_state w !! DefaultCollectionName,
   match r2 with Ok s => (SearchMemory server_search [3] 1 s w).1 | Fail _ => None end) =
  (true, Ok (MkStore DefaultCollectionName), Some (false, false), Some (Fail (new_error "collection not loaded"))).
Proof. vm_compute. reflexivity. Qed.
