(* ===== verification/Session.v ===== *)
(** * Conversation history: internal/session

    The SQLite history store and the compaction of a history.  The table is
    the list of its rows; the order SQL gives to rows of equal time is
    unspecified, so the sort is a parameter with the law of ORDER BY. *)
From Stdlib Require Import String Ascii.
From S2P Require Import Prelude GoStrings.
From stdpp Require Import list sorting.

Local Open Scope Z_scope.

Record HistoryMessage := {
  hm_ID : string;
  hm_SessionID : string;
  hm_Role : string;
  hm_Content : string;
  hm_Tokens : Z;
  hm_CreatedAt : Z
}.

#[export] Instance HistoryMessage_eq_dec : EqDecision HistoryMessage.
Proof. solve_decision. Defined.

(** ** The store *)

(** [h_down] is the error every statement meets while the database fails. *)
Record history := History { h_rows : list HistoryMessage; h_down : option error }.

Definition err_unique : error := new_error "UNIQUE constraint failed: session_history.id".

Definition with_created (now : Z) (m : HistoryMessage) : HistoryMessage :=
  if hm_CreatedAt m =? 0
  then Build_HistoryMessage (hm_ID m) (hm_SessionID m) (hm_Role m) (hm_Content m) (hm_Tokens m) now else m.

Definition AddMessage (now : Z) (m : HistoryMessage) (h : history) : option error * history :=
  let m := with_created now m in
  match h_down h with
  | Some e => (Some e, h)
  | None =>
    if bool_decide (hm_ID m ∈ hm_ID <$> h_rows h) then (Some err_unique, h)
    else (None, History (h_rows h ++ [m]) None)
  end.

Definition ClearHistory (sessionID : string) (h : history) : option error * history :=
  match h_down h with
  | Some e => (Some e, h)
  | None => (None, History (filter (λ m, hm_SessionID m ≠ sessionID) (h_rows h)) None)
  end.

(** The in-place reversal [for i, j := 0, len-1; i < j; i, j = i+1, j-1]. *)
Fixpoint reverse_loop {A} (fuel i j : nat) (l : list A) : list A :=
  match fuel with
  | O => l
  | S fuel =>
    if (i <? j)%nat then
      match l !! i, l !! j with
      | Some x, Some y => reverse_loop fuel (S i) (j - 1) (<[j := x]> (<[i := y]> l))
      | _, _ => l
      end
    else l
  end.

Definition reverse_messages {A} (l : list A) : list A := reverse_loop (length l) 0 (length l - 1) l.

Section get.
(** ORDER BY created_at DESC. *)
Context (order_desc : list HistoryMessage → list HistoryMessage).

(** LIMIT: a negative one is no limit. *)
Definition sql_limit (limit : Z) (l : list HistoryMessage) : list HistoryMessage :=
  if limit <? 0 then l else take (Z.to_nat limit) l.

Definition GetHistory (sessionID : string) (limit : Z) (h : history) : result (list HistoryMessage) :=
  match h_down h with
  | Some e => Fail e
  | None =>
    Ok (reverse_messages (sql_limit limit (order_desc (filter (λ m, hm_SessionID m = sessionID) (h_rows h)))))
  end.
End get.

(** *** The reversal loop reverses *)

Lemma reverse_loop_lookup {A} fuel : ∀ i j (l : list A) k,
  (j < length l)%nat → (j - i ≤ fuel)%nat →
  reverse_loop fuel i j l !! k = if decide (i ≤ k ≤ j)%nat then l !! (i + j - k)%nat else l !! k.
Proof.
  induction fuel as [|fuel IH]; intros i j l k Hj Hf; cbn [reverse_loop].
  - case_decide; [|done]. f_equal. lia.
  - destruct (Nat.ltb_spec i j) as [Hij|Hij].
    2:{ case_decide; [|done]. f_equal. lia. }
    destruct (lookup_lt_is_Some_2 l i) as [x Hx]; [lia|]. destruct (lookup_lt_is_Some_2 l j) as [y Hy]; [lia|].
    rewrite Hx, Hy. rewrite IH by (rewrite ?length_insert; lia).
    assert (∀ n, <[j := x]> (<[i := y]> l) !! n = if decide (n = j) then Some x else if decide (n = i) then Some y else l !! n) as Hl.
    { intros n. repeat case_decide; subst.
      - rewrite list_lookup_insert_eq; [done|rewrite length_insert; lia].
      - rewrite list_lookup_insert_ne, list_lookup_insert_eq by lia. done.
      - by rewrite !list_lookup_insert_ne by done. }
    rewrite !Hl. repeat case_decide; subst; try lia; try done; try congruence.
    + f_equal. lia.
    + rewrite <-Hx. f_equal. lia.
    + rewrite <-Hy. f_equal. lia.
Qed.

Lemma reverse_messages_spec {A} (l : list A) : reverse_messages l = reverse l.
Proof.
  apply list_eq. intros k. unfold reverse_messages. destruct l as [|x l]; [done|].
  rewrite reverse_loop_lookup by (simpl; lia). case_decide as Hk.
  - rewrite reverse_lookup by (simpl in *; lia). f_equal. simpl. lia.
  - rewrite !lookup_ge_None_2; [done|rewrite length_reverse|]; simpl in *; lia.
Qed.

(** *** What GetHistory returns *)

Definition newer (a b : HistoryMessage) : Prop := hm_CreatedAt b ≤ hm_CreatedAt a.
Definition older (a b : HistoryMessage) : Prop := hm_CreatedAt a ≤ hm_CreatedAt b.

Lemma StronglySorted_app_inv {A} (R : A → A → Prop) l1 l2 :
  StronglySorted R (l1 ++ l2) → StronglySorted R l1 ∧ StronglySorted R l2 ∧ ∀ x y, x ∈ l1 → y ∈ l2 → R x y.
Proof.
  induction l1 as [|a l1 IH]; cbn.
  - intros H. split_and!; [constructor|done|]. intros x y Hx. by apply elem_of_nil in Hx.
  - intros H. apply StronglySorted_inv in H as [H Ha]. destruct (IH H) as (H1 & H2 & H3).
    rewrite Forall_app in Ha. destruct Ha as [Ha1 Ha2]. split_and!; [by constructor|done|].
    intros x y [->|Hx]%elem_of_cons Hy; [|auto]. rewrite Forall_forall in Ha2. auto.
Qed.

Lemma StronglySorted_reverse {A} (R : A → A → Prop) l :
  StronglySorted R l → StronglySorted (flip R) (reverse l).
Proof.
  induction 1 as [|a l Hl IH Ha]; [constructor|]. rewrite reverse_cons.
  apply StronglySorted_app_2; [|done|repeat constructor].
  intros x y Hx ->%list_elem_of_singleton. rewrite elem_of_reverse in Hx. rewrite Forall_forall in Ha. by apply Ha.
Qed.

(** GetHistory returns the latest messages of the session, at most [limit] of
    them, oldest first: together with the ones left out they are exactly the
    session's rows, and none left out is newer. *)
Theorem get_history_recent order_desc sessionID limit h l :
  (∀ l, order_desc l ≡ₚ l) → (∀ l, StronglySorted newer (order_desc l)) →
  GetHistory order_desc sessionID limit h = Ok l →
  ∃ rest, l ++ rest ≡ₚ filter (λ m, hm_SessionID m = sessionID) (h_rows h) ∧
    StronglySorted older l ∧ (∀ x y, x ∈ l → y ∈ rest → hm_CreatedAt y ≤ hm_CreatedAt x) ∧
    (0 ≤ limit → length l = Nat.min (Z.to_nat limit) (length (filter (λ m, hm_SessionID m = sessionID) (h_rows h)))).
Proof.
  intros Hperm Hsort. unfold GetHistory. destruct (h_down h); [done|]. intros [= <-]. rewrite reverse_messages_spec.
  set (rows := filter _ _). unfold sql_limit. pose proof (Hperm rows) as Hp. pose proof (Hsort rows) as Hs.
  destruct (limit <? 0) eqn:Hl.
  - exists []. rewrite app_nil_r. split_and!; [by rewrite reverse_Permutation|by apply StronglySorted_reverse| |lia].
    intros x y _ Hy. by apply elem_of_nil in Hy.
  - exists (drop (Z.to_nat limit) (order_desc rows)).
    rewrite <-(take_drop (Z.to_nat limit) (order_desc rows)) in Hs. apply StronglySorted_app_inv in Hs as (H1 & _ & H3).
    split_and!; [by rewrite reverse_Permutation, take_drop|by apply StronglySorted_reverse| |].
    + intros x y. rewrite elem_of_reverse. apply H3.
    + intros _. rewrite length_reverse, length_take. by rewrite (Permutation_length Hp).
Qed.

(** A concrete ORDER BY: a stable merge sort. *)
#[local] Instance newer_dec : RelDecision newer := λ a b, decide (hm_CreatedAt b ≤ hm_CreatedAt a).
#[local] Instance newer_total : Total newer.
Proof. intros a b. unfold newer. lia. Qed.
#[local] Instance newer_trans : Transitive newer.
Proof. intros a b c. unfold newer. lia. Qed.

Definition demo_order (l : list HistoryMessage) : list HistoryMessage := merge_sort newer l.
Definition demo_message (id session : string) (t : Z) : HistoryMessage := Build_HistoryMessage id session "user" id 0 t.
Definition demo_history : history :=
  History [demo_message "1" "s" 10; demo_message "2" "t" 20; demo_message "3" "s" 30; demo_message "4" "s" 40] None.

Lemma get_history_recent_witness :
  ∃ rest, [demo_message "3" "s" 30; demo_message "4" "s" 40] ++ rest ≡ₚ
      filter (λ m, hm_SessionID m = "s"%string) (h_rows demo_history) ∧
    StronglySorted older [demo_message "3" "s" 30; demo_message "4" "s" 40] ∧
    (∀ x y, x ∈ [demo_message "3" "s" 30; demo_message "4" "s" 40] → y ∈ rest → hm_CreatedAt y ≤ hm_CreatedAt x) ∧
    (0 ≤ 2 → length [demo_message "3" "s" 30; demo_message "4" "s" 40] =
      Nat.min (Z.to_nat 2) (length (filter (λ m, hm_SessionID m = "s"%string) (h_rows demo_history)))).
Proof.
  apply (get_history_recent demo_order "s" 2 demo_history).
  - intros l. apply merge_sort_Permutation.
  - intros l. apply StronglySorted_merge_sort; apply _.
  - vm_compute. reflexivity.
Defined.

(** ** Compaction *)

Record CompactorPolicy := { cp_MaxTokens : Z; cp_KeepRecent : Z }.

(** The older messages and the kept ones; [None] is the panic of a slice
    expression out of range, for a negative [KeepRecent] (the slices made here
    have no spare capacity). *)
Definition CompactHistory {A} (messages : list A) (policy : CompactorPolicy) : option (list A * list A) :=
  let len := Z.of_nat (length messages) in
  if len <=? cp_KeepRecent policy then Some ([], messages)
  else
    let splitIdx := len - cp_KeepRecent policy in
    if splitIdx <=? len then Some (take (Z.to_nat splitIdx) messages, drop (Z.to_nat splitIdx) messages) else None.

Definition FormatForSummary (messages : list HistoryMessage) : string :=
  foldl (λ sb m, sb ++ ("[" ++ hm_Role m ++ "]: " ++ hm_Content m ++ String "010" ""))%string ""%string messages.

(** CompactHistory splits the history in two: the older part and the last
    KeepRecent messages (all of them if there are no more), in order and
    without loss; it panics only for a negative KeepRecent. *)
Theorem compact_history_splits {A} (messages : list A) policy :
  match CompactHistory messages policy with
  | Some (toSummarize, kept) =>
    toSummarize ++ kept = messages ∧
    (Z.of_nat (length kept) = Z.min (Z.of_nat (length messages)) (cp_KeepRecent policy))
  | None => cp_KeepRecent policy < 0
  end.
Proof.
  unfold CompactHistory. destruct (Z.leb_spec (Z.of_nat (length messages)) (cp_KeepRecent policy)) as [H|H]; [split; [done|lia]|].
  destruct (Z.leb_spec (Z.of_nat (length messages) - cp_KeepRecent policy) (Z.of_nat (length messages))); [|lia].
  split; [apply take_drop|]. rewrite length_drop. lia.
Qed.
