(* ===== verification/Prompt.v ===== *)
(** * Building the prompt: internal/llm/context_guard.go and builder.go

    The messages of an inference request: system prompt, a summary of the
    older history when the provider gives one, the recent history, the new
    query; and the text of the system prompt.  The provider is a function on a
    world [W] of its own. *)
From Stdlib Require Import String Ascii.
From S2P Require Import Prelude GoStrings Strconv Contracts Session Runtime.
From stdpp Require Import list.

Local Open Scope Z_scope.

(** ** Context guard *)
Definition NewContextGuard (maxTokens : Z) : CompactorPolicy :=
  {| cp_MaxTokens := if maxTokens <=? 0 then 4096 else maxTokens; cp_KeepRecent := 6 |}.

Definition nl : string := String "010" "".

Definition plain_message (role content : string) : ChatMessage := Build_ChatMessage role content "" "" "".

Definition summary_prompt (msgs : list HistoryMessage) : string :=
  ("Summarize the following conversation history briefly while preserving key facts and decisions:" ++ nl ++ nl ++
   FormatForSummary msgs)%string.

(** The request of [summarize]: one user message, everything else zero. *)
Definition summary_request (msgs : list HistoryMessage) : InferenceRequest :=
  {| ir_TraceID := ""; ir_SessionID := ""; ir_TaskID := ""; ir_AgentType := "";
     ir_Messages := [plain_message "user" (summary_prompt msgs)]; ir_ModelAlias := ""; ir_MaxTurns := 0; ir_Stream := false;
     ir_Temperature := None; ir_Metadata := ∅; ir_OnApprovalReject := "" |}.

Section guard.
Context {W : Type}.

(** A provider, or nil. *)
Definition provider : Type := option (InferenceRequest → W → result string * W).

Definition history_message (h : HistoryMessage) : ChatMessage := plain_message (hm_Role h) (hm_Content h).

Definition summary_message (summary : string) : ChatMessage :=
  plain_message "system" ("[Previous Context Summary]: " ++ summary).

(** The summary message, if one is made. *)
Definition make_summary (p : provider) (toSum : list HistoryMessage) (w : W) : list ChatMessage * bool * W :=
  match toSum, p with
  | _ :: _, Some predict =>
    match predict (summary_request toSum) w with
    | (Ok summary, w') => ([summary_message summary], true, w')
    | (Fail _, w') => ([], false, w')
    end
  | _, _ => ([], false, w)
  end.

Definition SemanticCompact (policy : CompactorPolicy) (p : provider) (systemPrompt : string) (hist : list HistoryMessage)
    (newQuery : string) (w : W) : option (list ChatMessage * bool * W) :=
  '(toSum, kept) ← CompactHistory hist policy;
  let '(summary, usedSummary, w') := make_summary p toSum w in
  Some ([plain_message "system" systemPrompt] ++ summary ++ map history_message kept ++ [plain_message "user" newQuery],
        usedSummary, w').

Definition BuildMessages (maxTokens : Z) (p : provider) (systemPrompt : string) (hist : list HistoryMessage)
    (newQuery : string) (w : W) : option (list ChatMessage * W) :=
  '(messages, _, w') ← SemanticCompact (NewContextGuard maxTokens) p systemPrompt hist newQuery w;
  Some (messages, w').

(** BuildMessages never panics.  The prompt starts with the system prompt and
    ends with the last six messages of the history (all of them if fewer)
    followed by the query; between them there is a summary exactly when the
    history is longer than six, there is a provider and it answered, and then
    the summary was asked for the rest of the history. *)
Theorem build_messages_shape maxTokens (p : provider) systemPrompt hist newQuery w :
  ∃ old recent summary w',
    BuildMessages maxTokens p systemPrompt hist newQuery w =
      Some ([plain_message "system" systemPrompt] ++ summary ++ map history_message recent ++ [plain_message "user" newQuery], w') ∧
    hist = old ++ recent ∧ length recent = Nat.min (length hist) 6 ∧
    match p with
    | Some predict =>
      if (6 <? length hist)%nat then
        match predict (summary_request old) w with
        | (Ok text, w1) => summary = [summary_message text] ∧ w' = w1
        | (Fail _, w1) => summary = [] ∧ w' = w1
        end
      else summary = [] ∧ w' = w
    | None => summary = [] ∧ w' = w
    end.
Proof.
  unfold BuildMessages, SemanticCompact, CompactHistory. cbn [cp_KeepRecent NewContextGuard].
  destruct (Z.leb_spec (Z.of_nat (length hist)) 6) as [H|H].
  - exists [], hist, [], w. assert ((6 <? length hist)%nat = false) as -> by (apply Nat.ltb_ge; lia). cbn.
    split_and!; try done; [lia|by destruct p].
  - destruct (Z.leb_spec (Z.of_nat (length hist) - 6) (Z.of_nat (length hist))); [|lia].
    set (n := Z.to_nat (Z.of_nat (length hist) - 6)). exists (take n hist), (drop n hist).
    assert ((6 <? length hist)%nat = true) as -> by (apply Nat.ltb_lt; lia).
    assert (take n hist ≠ []) as Hne.
    { intros Hnil%(f_equal length). rewrite length_take in Hnil. simpl in Hnil. lia. }
    cbn [mbind option_bind]. unfold make_summary. destruct (take n hist) as [|m old] eqn:Ho; [done|].
    assert (hist = (m :: old) ++ drop n hist) as Hsplit by (by rewrite <-Ho, take_drop).
    assert (length (drop n hist) = Nat.min (length hist) 6) as Hlen by (rewrite length_drop; lia).
    destruct p as [predict|].
    + destruct (predict (summary_request (m :: old)) w) as [[text|e] w1]; do 2 eexists; split_and!; eauto.
    + exists [], w. split_and!; eauto.
Qed.
End guard.

(** ** System prompt *)
Record ToolInfo := { ti_Name : string; ti_Description : string; ti_Params : string }.
Record SystemPromptBuilder := { spb_role : string; spb_instructions : list string; spb_tools : list ToolInfo }.

Definition NewSystemPromptBuilder (role : string) : SystemPromptBuilder := Build_SystemPromptBuilder role [] [].
Definition AddInstruction (instr : string) (b : SystemPromptBuilder) : SystemPromptBuilder :=
  Build_SystemPromptBuilder (spb_role b) (spb_instructions b ++ [instr]) (spb_tools b).
Definition AddTool (tool : ToolInfo) (b : SystemPromptBuilder) : SystemPromptBuilder :=
  Build_SystemPromptBuilder (spb_role b) (spb_instructions b) (spb_tools b ++ [tool]).

(** The numbered lines, from number [i]. *)
Fixpoint instruction_lines (i : Z) (instrs : list string) : string :=
  match instrs with
  | [] => ""
  | instr :: instrs => (FormatInt i ++ (". " ++ (instr ++ (nl ++ instruction_lines (i + 1) instrs))))%string
  end.

Fixpoint tool_lines (tools : list ToolInfo) : string :=
  match tools with
  | [] => ""
  | t :: tools =>
    ("- " ++ (ti_Name t ++ (": " ++ (ti_Description t ++ (" (Params: " ++ (ti_Params t ++ (")" ++ (nl ++ tool_lines tools))))))))%string
  end.

Definition Build (b : SystemPromptBuilder) : string :=
  (("Role: " ++ (spb_role b ++ (nl ++ nl))) ++
   ((match spb_instructions b with
     | [] => ""
     | instrs => "Instructions:" ++ (nl ++ (instruction_lines 1 instrs ++ nl))
     end) ++
    ((match spb_tools b with
      | [] => ""
      | tools => "Available Tools:" ++ (nl ++ (tool_lines tools ++ nl))
      end) ++
     "You must strictly follow the response format required (JSON).")))%string.

Definition contains (s sub : string) : Prop := ∃ a b, s = (a ++ (sub ++ b))%string.

Lemma contains_app_l a s sub : contains s sub → contains (a ++ s) sub.
Proof. intros (x & y & ->). exists (a ++ x)%string, y. by rewrite sapp_assoc. Qed.
Lemma contains_app_r s a sub : contains s sub → contains (s ++ a) sub.
Proof. intros (x & y & ->). exists x, (y ++ a)%string. by rewrite !sapp_assoc. Qed.
Lemma contains_self s : contains s s.
Proof. exists ""%string, ""%string. cbn. by rewrite sapp_nil_r. Qed.

#[local] Hint Resolve contains_app_l contains_app_r contains_self : agentic.

Lemma instruction_lines_contain i instrs instr : instr ∈ instrs → contains (instruction_lines i instrs) instr.
Proof.
  intros Hin. revert i. induction Hin as [|instr x l Hin IH]; intros i; cbn [instruction_lines].
  - do 2 apply contains_app_l. apply contains_app_r, contains_self.
  - do 4 apply contains_app_l. apply IH.
Qed.

Lemma tool_lines_contain tools t : t ∈ tools → contains (tool_lines tools) (ti_Name t) ∧ contains (tool_lines tools) (ti_Params t).
Proof.
  induction 1 as [t l|t x l Hin [IH1 IH2]]; cbn [tool_lines]; split.
  - apply contains_app_l, contains_app_r, contains_self.
  - do 5 apply contains_app_l. apply contains_app_r, contains_self.
  - by do 8 apply contains_app_l.
  - by do 8 apply contains_app_l.
Qed.

(** The system prompt names the role, every instruction and every tool with its
    parameters, and ends by requiring the response format. *)
Theorem system_prompt_complete b :
  contains (Build b) (spb_role b) ∧
  (∀ instr, instr ∈ spb_instructions b → contains (Build b) instr) ∧
  (∀ t, t ∈ spb_tools b → contains (Build b) (ti_Name t) ∧ contains (Build b) (ti_Params t)) ∧
  HasSuffix (Build b) "You must strictly follow the response format required (JSON)." = true.
Proof.
  unfold Build. split_and!.
  - apply contains_app_r, contains_app_l, contains_app_r, contains_self.
  - intros instr Hin. apply contains_app_l, contains_app_r. destruct (spb_instructions b) as [|i l]; [by apply elem_of_nil in Hin|].
    do 2 apply contains_app_l. by apply contains_app_r, instruction_lines_contain.
  - intros t Hin. destruct (spb_tools b) as [|t' l]; [by apply elem_of_nil in Hin|].
    destruct (tool_lines_contain _ _ Hin) as [H1 H2].
    split; do 2 apply contains_app_l; apply contains_app_r; do 2 apply contains_app_l; by apply contains_app_r.
  - apply HasSuffix_spec. eexists. rewrite <-!sapp_assoc. reflexivity.
Qed.
