(* ===== verification/ChatRequest.v ===== *)
(** * The OpenAI-compatible surface: internal/llm/openai_compat.go, resolver.go, routes.go

    Strict validation of chat completion requests, the mapping of provider
    errors to HTTP, and the routing of model aliases to providers.

    A temperature is its decimal literal, mantissa and exponent of ten; the
    decoder rounds it to a float32, so the range checks compare the literal
    with the midpoints at which rounding crosses the bounds. *)
From Stdlib Require Import String Ascii.
From S2P Require Import Prelude GoStrings Strconv Contracts Bus.
From stdpp Require Import list.

Local Open Scope Z_scope.

(** ** Decimal literals *)
Record decimal := Decimal { d_mantissa : Z; d_exponent : Z }.

(** The value of a JSON number token. *)
Definition decimal_of (lit : string) : option decimal :=
  let '(m, s1) := scan_minus lit in
  '(i, s2) ← scan_int s1;
  '(f, s3) ← scan_frac s2;
  '(e, _) ← scan_exp s3;
  let frac := skip 1 f in
  digits ← digits_value 0 (i ++ frac);
  let exp := skip 1 e in
  let '(sg, ds) := scan_sign exp in
  ev ← digits_value 0 ds;
  Some (Decimal (if bool_decide (m = EmptyString) then digits else - digits)
         ((if bool_decide (sg = "-"%string) then - ev else ev) - Z.of_nat (String.length frac))).

(** Compare with [num / den], [den > 0]. *)
Definition decimal_gt (d : decimal) (num den : Z) : bool :=
  if 0 <=? d_exponent d then num <? d_mantissa d * 10 ^ d_exponent d * den
  else num * 10 ^ (- d_exponent d) <? d_mantissa d * den.
Definition decimal_lt (d : decimal) (num den : Z) : bool :=
  decimal_gt (Decimal (- d_mantissa d) (d_exponent d)) (- num) den.
Definition decimal_ge (d : decimal) (num den : Z) : bool := negb (decimal_lt d num den).

(** Rounded to float32: overflow is a decoding error; positive above 2 past the
    midpoint of 2 and its successor; negative below minus half the least
    positive value. *)
Definition float32_overflows (d : decimal) : bool :=
  decimal_ge d (2 ^ 128 - 2 ^ 103) 1 || negb (decimal_gt d (- (2 ^ 128 - 2 ^ 103)) 1).
Definition float32_above_two (d : decimal) : bool := decimal_gt d (2 ^ 24 + 1) (2 ^ 23).
Definition float32_negative (d : decimal) : bool := decimal_lt d (-1) (2 ^ 150).

(** ** Requests *)
Record ChatCompletionRequest := {
  cr_Model : string;
  cr_Messages : list ChatMessage;
  cr_Tools : string;
  cr_ToolChoice : string;
  cr_Temperature : option decimal;
  cr_Stream : bool
}.

Definition zero_request : ChatCompletionRequest := Build_ChatCompletionRequest "" [] "" "" None false.
Definition zero_chat_message : ChatMessage := Build_ChatMessage "" "" "" "" "".

Definition chat_message_fields : list (field ChatMessage) :=
  [ string_field "role" (λ v m, Build_ChatMessage v (cm_Content m) (cm_Name m) (cm_ToolCallID m) (cm_ToolCalls m));
    string_field "content" (λ v m, Build_ChatMessage (cm_Role m) v (cm_Name m) (cm_ToolCallID m) (cm_ToolCalls m));
    string_field "name" (λ v m, Build_ChatMessage (cm_Role m) (cm_Content m) v (cm_ToolCallID m) (cm_ToolCalls m));
    string_field "tool_call_id" (λ v m, Build_ChatMessage (cm_Role m) (cm_Content m) (cm_Name m) v (cm_ToolCalls m));
    raw_field "tool_calls" (λ v m, Build_ChatMessage (cm_Role m) (cm_Content m) (cm_Name m) (cm_ToolCallID m) v) ].

Definition set_Temperature (v : option decimal) (r : ChatCompletionRequest) : ChatCompletionRequest :=
  Build_ChatCompletionRequest (cr_Model r) (cr_Messages r) (cr_Tools r) (cr_ToolChoice r) v (cr_Stream r).

Definition temperature_field : field ChatCompletionRequest :=
  ("temperature"%string, λ t r,
    match parse t with
    | Some (JNum n) =>
      match decimal_of n with
      | Some d => if float32_overflows d then Fail (type_error "float32") else Ok (set_Temperature (Some d) r)
      | None => Fail (type_error "float32")
      end
    | Some JNull => Ok (set_Temperature None r)
    | _ => Fail (type_error "float32")
    end).

Definition messages_field : field ChatCompletionRequest :=
  ("messages"%string, λ t r,
    l ← slice_value true chat_message_fields zero_chat_message t (cr_Messages r);
    Ok (Build_ChatCompletionRequest (cr_Model r) l (cr_Tools r) (cr_ToolChoice r) (cr_Temperature r) (cr_Stream r))).

Definition request_fields : list (field ChatCompletionRequest) :=
  [ string_field "model" (λ v r, Build_ChatCompletionRequest v (cr_Messages r) (cr_Tools r) (cr_ToolChoice r) (cr_Temperature r) (cr_Stream r));
    messages_field;
    raw_field "tools" (λ v r, Build_ChatCompletionRequest (cr_Model r) (cr_Messages r) v (cr_ToolChoice r) (cr_Temperature r) (cr_Stream r));
    raw_field "tool_choice" (λ v r, Build_ChatCompletionRequest (cr_Model r) (cr_Messages r) (cr_Tools r) v (cr_Temperature r) (cr_Stream r));
    temperature_field;
    bool_field "stream" (λ v r, Build_ChatCompletionRequest (cr_Model r) (cr_Messages r) (cr_Tools r) (cr_ToolChoice r) (cr_Temperature r) v) ].

(** *** Tools *)
Record requestTool := { rt_Type : string; rt_FunctionName : string }.
Definition zero_tool : requestTool := Build_requestTool "" "".

(** The inner struct has the one field [name]. *)
Definition function_fields : list (field requestTool) :=
  [ string_field "name" (λ v t, Build_requestTool (rt_Type t) v) ].
Definition tool_fields : list (field requestTool) :=
  [ string_field "type" (λ v t, Build_requestTool v (rt_FunctionName t));
    ("function"%string, λ x t, struct_value true function_fields x t) ].

Definition invalid (msg : string) : error := new_error ("invalid_request_error: " ++ msg).

Fixpoint tool_names (tools : list requestTool) (names : gset string) : result (gset string) :=
  match tools with
  | [] => Ok names
  | t :: tools =>
    if negb (bool_decide (rt_Type t = "function"%string)) then Fail (invalid "tools only support function type")
    else if bool_decide (rt_FunctionName t = EmptyString) then Fail (invalid "tool function.name is required")
    else tool_names tools ({[rt_FunctionName t]} ∪ names)
  end.

Definition validateTools (raw : string) : result (gset string) :=
  if bool_decide (raw = EmptyString) then Ok ∅ else
  match decode_one raw with
  | None => Fail (invalid "invalid tools: invalid json")
  | Some (t, trailing) =>
    match slice_value true tool_fields zero_tool t [] with
    | Fail e => Fail (invalid ("invalid tools: " ++ err_msg e))
    | Ok tools => if trailing then Fail (invalid "invalid tools: trailing json data") else tool_names tools ∅
    end
  end.

(** [json.Unmarshal] into a string succeeds on a string and on [null]. *)
Definition string_choice (raw : string) : option string :=
  match parse raw with Some (JStr b) => Some (unquote b) | Some JNull => Some EmptyString | _ => None end.

Definition validateToolChoice (raw : string) (toolNames : gset string) : option error :=
  if bool_decide (raw = EmptyString) then None else
  match string_choice raw with
  | Some choice =>
    if bool_decide (choice ∈ ["auto"; "none"; "required"]%string) then
      if bool_decide (choice = "required"%string) && bool_decide (toolNames = ∅)
      then Some (invalid "tool_choice required needs tools") else None
    else Some (invalid "invalid tool_choice")
  | None =>
    match decode_one raw with
    | None => Some (invalid "invalid tool_choice: invalid json")
    | Some (t, trailing) =>
      match struct_value true tool_fields t zero_tool with
      | Fail e => Some (invalid ("invalid tool_choice: " ++ err_msg e))
      | Ok c =>
        if trailing then Some (invalid "invalid tool_choice: trailing json data")
        else if negb (bool_decide (rt_Type c = "function"%string)) then Some (invalid "tool_choice object must have type=function")
        else if bool_decide (rt_FunctionName c = EmptyString) then Some (invalid "tool_choice function.name is required")
        else if bool_decide (toolNames = ∅) then Some (invalid "tool_choice function requires tools")
        else if bool_decide (rt_FunctionName c ∈ toolNames) then None
        else Some (invalid "tool_choice function not found in tools")
      end
    end
  end.

(** *** The request *)
Definition validRoles : list string := ["system"; "user"; "assistant"; "tool"]%string.

Fixpoint first_bad_role (msgs : list ChatMessage) : option string :=
  match msgs with
  | [] => None
  | m :: msgs => if bool_decide (cm_Role m ∈ validRoles) then first_bad_role msgs else Some (cm_Role m)
  end.

Definition check_request (req : ChatCompletionRequest) : result ChatCompletionRequest :=
  if bool_decide (cr_Model req = EmptyString) then Fail (invalid "missing model")
  else if bool_decide (cr_Messages req = []) then Fail (invalid "messages cannot be empty")
  else match first_bad_role (cr_Messages req) with
  | Some r => Fail (invalid ("invalid message role: " ++ r))
  | None =>
    if match cr_Temperature req with Some t => float32_negative t || float32_above_two t | None => false end
    then Fail (invalid "temperature must be between 0 and 2")
    else
      names ← validateTools (cr_Tools req);
      match validateToolChoice (cr_ToolChoice req) names with
      | Some e => Fail e
      | None => Ok req
      end
  end.

Definition ValidateChatCompletionRequest (raw : string) : result ChatCompletionRequest :=
  match decode_one raw with
  | None => Fail (invalid "invalid json")
  | Some (t, trailing) =>
    match struct_value true request_fields t zero_request with
    | Fail e => Fail (invalid (err_msg e))
    | Ok req => if trailing then Fail (invalid "trailing json data") else check_request req
    end
  end.

Example validate_examples :
  map (λ s, is_ok (ValidateChatCompletionRequest (jtext s)))
    ["{'model':'m','messages':[{'role':'user','content':'hi'}],'temperature':2.00000001}";
     "{'model':'m','messages':[{'role':'user','content':'hi'}],'temperature':2.0000002}";
     "{'model':'m','messages':[{'role':'user','content':'hi'}],'tools':[{'type':'function','function':{'name':'f'}}],'tool_choice':{'type':'function','function':{'name':'f'}}}";
     "{'model':'m','messages':[{'role':'user','content':'hi'}],'tools':[{'type':'function','function':{'name':'f','parameters':{}}}]}";
     "{'model':'m','messages':[{'role':'user','content':'hi'}],'tool_choice':'required'}";
     "{'model':'m','messages':[],'stream':true}"; "{'model':'m','messages':[{'role':'bot'}]}"; ""]%string
  = [true; false; true; false; false; false; false; false].
Proof. vm_compute. reflexivity. Qed.

(** ** Provider errors as HTTP *)
Definition MapProviderError (err : option error) : Z * string * string :=
  match err with
  | None => (200, "", "")
  | Some e =>
    let errStr := err_msg e in
    let has := Contains errStr in
    if has "invalid_request_error" then (400, "invalid_request_error", errStr)
    else if has "approval rejected" then (403, "permission_error", errStr)
    else if has "401" || has "unauthorized" || has "invalid_api_key" then (401, "authentication_error", errStr)
    else if has "429" || has "rate_limit" then (429, "rate_limit_error", errStr)
    else if has "context deadline exceeded" || has "timeout" then (504, "timeout_error", errStr)
    else (502, "api_error", errStr)
  end%string.

(** ** Routing *)
Record StaticRoute := {
  sr_Alias : string;
  sr_Provider : string;
  sr_BaseURL : string;
  sr_APIKeyRef : string;
  sr_UpstreamModel : string;
  sr_TimeoutMs : Z
}.

Definition zero_route : StaticRoute := Build_StaticRoute "" "" "" "" "" 0.

(** [RouteTable]. *)
Abbreviation RouteTable := (gmap string StaticRoute).
Definition RouteTable_Register (r : StaticRoute) (t : RouteTable) : option error * RouteTable :=
  if bool_decide (sr_Alias r = EmptyString) then (Some (new_error "route alias cannot be empty"), t)
  else (None, <[sr_Alias r := r]> t).
Definition RouteTable_Get (alias : string) (t : RouteTable) : option StaticRoute := t !! alias.

Section resolver.
(** A provider: [Predict] and [PredictStream] over its world. *)
Context {W Req Stream : Type}.
Record Provider := { p_Predict : Req → W → result string * W; p_PredictStream : Req → W → result Stream * W }.

Record ModelResolver := { mr_providers : gmap string Provider; mr_routes : gmap string StaticRoute }.

Definition NewModelResolver : ModelResolver := Build_ModelResolver ∅ ∅.
Definition Register (name : string) (p : Provider) (r : ModelResolver) : ModelResolver :=
  Build_ModelResolver (<[name := p]> (mr_providers r)) (mr_routes r).
Definition RegisterRoute (route : StaticRoute) (r : ModelResolver) : ModelResolver :=
  Build_ModelResolver (mr_providers r) (<[sr_Alias route := route]> (mr_routes r)).
Definition GetProvider (name : string) (r : ModelResolver) : option Provider := mr_providers r !! name.

(** The provider (nil when there is an error), the route and the error. *)
Definition ResolveByAlias (alias : string) (r : ModelResolver) : option Provider * StaticRoute * option error :=
  match mr_routes r !! alias with
  | None => (None, zero_route, Some (invalid ("model alias " ++ alias ++ " not found")))
  | Some route =>
    match GetProvider (sr_Provider route) r with
    | None => (None, route, Some (invalid ("provider " ++ sr_Provider route ++ " (for alias " ++ alias ++ ") not found")))
    | Some p => (Some p, route, None)
    end
  end%string.

Definition Resolve (name : string) (r : ModelResolver) : result Provider :=
  match GetProvider name r with
  | Some p => Ok p
  | None => Fail (new_error ("llm provider " ++ name ++ " not found")%string)
  end.

Definition ResolverPredict (providerName : string) (req : Req) (r : ModelResolver) (w : W) : result string * W :=
  match Resolve providerName r with Fail e => (Fail e, w) | Ok p => p_Predict p req w end.
Definition ResolverPredictStream (providerName : string) (req : Req) (r : ModelResolver) (w : W) : result Stream * W :=
  match Resolve providerName r with Fail e => (Fail e, w) | Ok p => p_PredictStream p req w end.
End resolver.

(** ** Properties *)

Definition temperature_ok (t : option decimal) : Prop :=
  match t with Some d => float32_negative d = false ∧ float32_above_two d = false | None => True end.

Lemma first_bad_role_none msgs : first_bad_role msgs = None ↔ Forall (λ m, cm_Role m ∈ validRoles) msgs.
Proof.
  induction msgs as [|m msgs IH]; cbn; [split; [constructor|done]|]. rewrite Forall_cons.
  case_bool_decide; [rewrite IH; tauto|]. naive_solver.
Qed.

Lemma tool_names_sound tools : ∀ names names',
  tool_names tools names = Ok names' →
  Forall (λ t, rt_Type t = "function"%string ∧ rt_FunctionName t ≠ "") tools ∧
  names' = list_to_set (rt_FunctionName <$> tools) ∪ names.
Proof.
  induction tools as [|t tools IH]; intros names names'; cbn.
  - intros [= <-]. split; [constructor|]. set_solver.
  - case_bool_decide; [|done]. case_bool_decide; [done|]. cbn. intros [Hf ->]%IH. split; [by constructor|]. set_solver.
Qed.

(** A request that passes validation names a model, has at least one message,
    only known roles, a temperature that rounds into [0, 2], and a tool choice
    that its tools can honour: "required" needs a tool, a named function must be
    one of the tools, and every tool is a named function. *)
Theorem validated_request_sound raw req :
  ValidateChatCompletionRequest raw = Ok req →
  cr_Model req ≠ "" ∧ cr_Messages req ≠ [] ∧ Forall (λ m, cm_Role m ∈ validRoles) (cr_Messages req) ∧
  temperature_ok (cr_Temperature req) ∧
  ∃ names, validateTools (cr_Tools req) = Ok names ∧ ("" ∉ names) ∧
    (cr_ToolChoice req = "" ∨
     (∃ choice, string_choice (cr_ToolChoice req) = Some choice ∧ choice ∈ ["auto"; "none"; "required"]%string ∧
        (choice = "required"%string → names ≠ ∅)) ∨
     ∃ t c, decode_one (cr_ToolChoice req) = Some (t, false) ∧ struct_value true tool_fields t zero_tool = Ok c ∧
        rt_Type c = "function"%string ∧ rt_FunctionName c ∈ names).
Proof.
  unfold ValidateChatCompletionRequest. destruct (decode_one raw) as [[t trailing]|]; [|done].
  destruct (struct_value true request_fields t zero_request) as [req'|]; [|done]. destruct trailing; [done|].
  unfold check_request. case_bool_decide as H1; [done|]. case_bool_decide as H2; [done|].
  destruct (first_bad_role (cr_Messages req')) eqn:H3; [done|]. apply first_bad_role_none in H3.
  destruct (match cr_Temperature req' with Some t => _ | None => false end) eqn:H4; [done|].
  destruct (validateTools (cr_Tools req')) as [names|] eqn:H5; [|done]. cbn.
  destruct (validateToolChoice (cr_ToolChoice req') names) eqn:H6; [done|]. intros [= <-].
  split_and!; try done.
  { unfold temperature_ok. destruct (cr_Temperature req'); [|done]. by apply orb_false_iff in H4. }
  exists names. split; [done|]. split.
  { clear H6. unfold validateTools in H5. case_bool_decide; [simplify_eq; set_solver|].
    destruct (decode_one (cr_Tools req')) as [[tt [|]]|]; [by destruct (slice_value _ _ _ _ _)| |done].
    destruct (slice_value true tool_fields zero_tool tt []) as [tools|]; [|done].
    apply tool_names_sound in H5 as [Hf ->]. rewrite Forall_forall in Hf.
    rewrite elem_of_union, elem_of_list_to_set, list_elem_of_fmap. intros [(x & Hx & Hin)|?]; [|set_solver].
    by destruct (Hf x Hin). }
  unfold validateToolChoice in H6. case_bool_decide; [by left|right].
  destruct (string_choice (cr_ToolChoice req')) as [choice|] eqn:Hc.
  - left. exists choice. case_bool_decide; [|done]. split_and!; try done.
    intros ->. by destruct (bool_decide (names = ∅)) eqn:Hn; [|apply bool_decide_eq_false_1 in Hn].
  - right. destruct (decode_one (cr_ToolChoice req')) as [[tt trailing]|] eqn:Hd; [|done].
    destruct (struct_value true tool_fields tt zero_tool) as [c|] eqn:Hs; [|done]. destruct trailing; [done|].
    exists tt, c. split; [exact Hd|]. split; [exact Hs|]. repeat case_bool_decide; done.
Qed.

Definition demo_raw : string :=
  jtext "{'model':'m','messages':[{'role':'user','content':'hi'}],'temperature':1,'tools':[{'type':'function','function':{'name':'f'}}],'tool_choice':{'type':'function','function':{'name':'f'}}}".

Lemma validated_request_sound_witness :
  ∃ req, ValidateChatCompletionRequest demo_raw = Ok req ∧ (cr_Model req ≠ "" ∧ cr_Messages req ≠ [] ∧
  Forall (λ m, cm_Role m ∈ validRoles) (cr_Messages req) ∧ temperature_ok (cr_Temperature req) ∧
  ∃ names, validateTools (cr_Tools req) = Ok names ∧ ("" ∉ names) ∧
    (cr_ToolChoice req = "" ∨
     (∃ choice, string_choice (cr_ToolChoice req) = Some choice ∧ choice ∈ ["auto"; "none"; "required"]%string ∧
        (choice = "required"%string → names ≠ ∅)) ∨
     ∃ t c, decode_one (cr_ToolChoice req) = Some (t, false) ∧ struct_value true tool_fields t zero_tool = Ok c ∧
        rt_Type c = "function"%string ∧ rt_FunctionName c ∈ names)).
Proof.
  exists (Build_ChatCompletionRequest "m" [Build_ChatMessage "user" "hi" "" "" ""]
    (jtext "[{'type':'function','function':{'name':'f'}}]") (jtext "{'type':'function','function':{'name':'f'}}")
    (Some (Decimal 1 0)) false).
  split; [vm_compute; reflexivity|]. apply (validated_request_sound demo_raw). vm_compute. reflexivity.
Defined.

(** The resolver: an alias resolves to the provider registered under its
    route's provider name and to that route; without a route, or without that
    provider, the error is one that maps to a 400 response; later registrations
    under other names do not matter. *)
Theorem resolve_by_alias_exact {W Req Stream} alias (r : @ModelResolver W Req Stream) :
  let '(p, route, err) := ResolveByAlias alias r in
  match mr_routes r !! alias with
  | Some rt => route = rt ∧ p = mr_providers r !! sr_Provider rt ∧ (err = None ↔ is_Some p)
  | None => p = None ∧ is_Some err
  end ∧
  (is_Some err → (MapProviderError err).1.1 = 400) ∧
  (∀ rt q, sr_Alias rt = alias →
     ResolveByAlias alias (Register (sr_Provider rt) q (RegisterRoute rt r)) = (Some q, rt, None)).
Proof.
  assert (∀ msg, (MapProviderError (Some (invalid msg))).1.1 = 400) as H400.
  { intros msg. unfold MapProviderError, invalid. cbn [err_msg new_error].
    assert (Contains ("invalid_request_error: " ++ msg) "invalid_request_error" = true) as ->; [|done].
    apply Contains_spec. by exists ""%string, (": " ++ msg)%string. }
  unfold ResolveByAlias. destruct (mr_routes r !! alias) as [rt|] eqn:Hrt; [destruct (GetProvider (sr_Provider rt) r) as [p|] eqn:Hp|].
  all: unfold GetProvider in *; split_and!; try done; try (by intros [? ?]).
  all: try (intros rt' q <-; cbn; rewrite lookup_insert_eq; cbn; by rewrite lookup_insert_eq).
  all: intros _; apply H400.
Qed.

(** The errors the system itself produces keep their HTTP meaning: success is
    200, a rejected approval 403, a timed-out approval or an expired deadline
    504, running out of turns 502; and the message is passed on unchanged. *)
Theorem map_provider_error_known :
  MapProviderError None = (200, "", "") ∧
  MapProviderError (Some (new_error "approval rejected")) = (403, "permission_error", "approval rejected") ∧
  MapProviderError (Some (new_error "approval timeout")) = (504, "timeout_error", "approval timeout") ∧
  MapProviderError (Some err_deadline) = (504, "timeout_error", "context deadline exceeded") ∧
  MapProviderError (Some (new_error "exceeded max turns")) = (502, "api_error", "exceeded max turns") ∧
  (∀ e, (MapProviderError (Some e)).2 = err_msg e ∧ (MapProviderError (Some e)).1.1 ∈ [400; 401; 403; 429; 502; 504]).
Proof.
  split_and!; try (vm_compute; reflexivity). intros e. unfold MapProviderError.
  repeat match goal with |- context [if ?b then _ else _] => destruct b end; split; try done; set_solver.
Qed.
