(* ===== verification/Float64.v ===== *)
(** * Float64 numbers in JSON

    A number decoded into an interface value is a float64: the nearest one to
    the literal, ties to even.  Encoding writes the shortest decimal that reads
    back as it, in exponent form below 1e-6 and from 1e21 on
    (strconv.ParseFloat and the floatEncoder of encoding/json).  [read_float]
    and [float_text] compute both with exact integers. *)
From Stdlib Require Import String Ascii.
From S2P Require Export Json.
From stdpp Require Import list.

Local Open Scope Z_scope.

(** A literal's exact value: sign, mantissa and decimal exponent. *)
Definition exponent_value (e : string) : Z :=
  match e with
  | String _ r =>
    let '(sg, ds) := scan_sign r in
    let n := default 0 (digits_value 0 ds) in
    if bool_decide (sg = "-"%string) then - n else n
  | EmptyString => 0
  end.

Definition literal_value (lit : string) : bool * Z * Z :=
  let '(sg, s) := scan_minus lit in
  let neg := bool_decide (sg = "-"%string) in
  match scan_int s with
  | None => (neg, 0, 0)
  | Some (i, s1) =>
    match scan_frac s1 with
    | None => (neg, 0, 0)
    | Some (f, s2) =>
      let fd := match f with String _ d => d | EmptyString => EmptyString end in
      let e := match scan_exp s2 with Some (e, _) => exponent_value e | None => 0 end in
      (neg, default 0 (digits_value 0 (i ++ fd)), e - Z.of_nat (String.length fd))
    end
  end.

(** Half a unit above the largest float64: what rounds to infinity. *)
Definition float64_limit : Z := 2 ^ 1024 - 2 ^ 970.

(** Whether [strconv.ParseFloat] reports the literal out of range. *)
Definition float_overflows (lit : string) : bool :=
  let '(_, m, e) := literal_value lit in
  if e <? 0 then float64_limit * 10 ^ (- e) <=? m
  else negb (m =? 0) && ((400 <? e) || (float64_limit <=? m * 10 ^ e)).

Definition round_half_even (n d : Z) : Z :=
  let q := n / d in
  let r := n mod d in
  if 2 * r <? d then q else if d <? 2 * r then q + 1 else if Z.even q then q else q + 1.

(** The float64 nearest to [m * 10 ^ e], as mantissa and binary exponent. *)
Definition nearest_float (m e : Z) : Z * Z :=
  if m =? 0 then (0, 0) else
  let '(n, d) := if e <? 0 then (m, 10 ^ (- e)) else (m * 10 ^ e, 1) in
  let b0 := Z.log2 n - Z.log2 d - 52 in
  let scaled b := if b <? 0 then (n * 2 ^ (- b), d) else (n, d * 2 ^ b) in
  let b := if (let '(n', d') := scaled b0 in n' <? 2 ^ 52 * d') then b0 - 1 else b0 in
  let b := Z.max b (-1074) in
  let '(n', d') := scaled b in
  let f := round_half_even n' d' in
  if f =? 2 ^ 53 then (2 ^ 52, b + 1) else (f, b).

(** The decimal exponent of [f * 2 ^ b]: the [k] with [10^k <= x < 10^(k+1)]. *)
Definition ratio (f b : Z) : Z * Z := if b <? 0 then (f, 2 ^ (- b)) else (f * 2 ^ b, 1).

Definition at_least_pow10 (f b k : Z) : bool :=
  let '(n, d) := ratio f b in
  if k <? 0 then d <=? n * 10 ^ (- k) else d * 10 ^ k <=? n.

Fixpoint dec_exponent (fuel : nat) (f b k : Z) : Z :=
  match fuel with
  | O => k
  | S fuel => if at_least_pow10 f b k then (if at_least_pow10 f b (k + 1) then dec_exponent fuel f b (k + 1) else k)
              else dec_exponent fuel f b (k - 1)
  end.

(** [x / 10 ^ k], rounded down and to the nearest. *)
Definition scale10 (f b k : Z) : Z * Z :=
  let '(n, d) := ratio f b in
  let '(n, d) := if k <? 0 then (n * 10 ^ (- k), d) else (n, d * 10 ^ k) in
  (n / d, round_half_even n d).

(** The fewest digits that read back as the number: digits and the exponent of
    the last one. *)
Fixpoint shortest (fuel : nat) (f b k : Z) : Z * Z :=
  match fuel with
  | O => let '(_, near) := scale10 f b k in (near, k)
  | S fuel =>
    let '(low, near) := scale10 f b k in
    let other := if near =? low then low + 1 else low in
    if bool_decide (nearest_float near k = (f, b)) then (near, k)
    else if bool_decide (nearest_float other k = (f, b)) then (other, k)
    else shortest fuel f b (k - 1)
  end.

(** Digits without trailing zeros. *)
Fixpoint strip_zeros (fuel : nat) (d k : Z) : Z * Z :=
  match fuel with
  | O => (d, k)
  | S fuel => if (d mod 10 =? 0) && negb (d =? 0) then strip_zeros fuel (d / 10) (k + 1) else (d, k)
  end.

Fixpoint zeros (n : nat) : string := match n with O => EmptyString | S n => String "0" (zeros n) end.

Fixpoint split_at (n : nat) (s : string) : string * string :=
  match n, s with
  | S n, String c r => let '(a, b) := split_at n r in (String c a, b)
  | _, _ => (EmptyString, s)
  end.

(** The text of [d * 10 ^ k]. *)
Definition decimal_text (d k : Z) : string :=
  let s := FormatInt d in
  let n := Z.of_nat (String.length s) in
  let x := n + k - 1 in
  (if ((x <? -6) || (21 <=? x))%Z then
     let '(a, r) := split_at 1 s in
     let frac := match r with EmptyString => EmptyString | _ => "." ++ r end in
     a ++ frac ++ "e" ++ (if (x <? 0)%Z then "-" else "+") ++ FormatInt (Z.abs x)
   else if (0 <=? k)%Z then s ++ zeros (Z.to_nat k)
   else if (0 <=? x)%Z then let '(a, r) := split_at (Z.to_nat (x + 1)%Z) s in a ++ "." ++ r
   else "0." ++ zeros (Z.to_nat (- x - 1)%Z) ++ s)%string.

(** The text a decoded literal is encoded as. *)
Definition float_text (lit : string) : string :=
  let '(neg, m, e) := literal_value lit in
  let '(f, b) := nearest_float m e in
  let body := if f =? 0 then "0"%string else
    let k := dec_exponent 8 f b ((Z.log2 f + b) * 30103 / 100000) in
    let '(d, k') := shortest 17 f b k in
    let '(d, k') := strip_zeros 30 d k' in decimal_text d k' in
  if neg then ("-" ++ body)%string else body.

Example float_range :
  map float_overflows ["1e400"; "0e400"; "-1.7976931348623158e308"; "1.7976931348623159e308"; "0.1e309"; "1e-400"; "12.5"]%string
  = [true; false; false; true; false; false; false].
Proof. vm_compute. reflexivity. Qed.

Example float_texts :
  map float_text ["100"; "1.50"; "0.1"; "1e21"; "123456789012345678"; "1e-7"; "0.000001"; "-0.0"; "5e-324"; "9007199254740993"; "2.5E+3"; "1.7976931348623157e308"]%string
  = ["100"; "1.5"; "0.1"; "1e+21"; "123456789012345680"; "1e-7"; "0.000001"; "-0"; "5e-324"; "9007199254740992"; "2500"; "1.7976931348623157e+308"]%string.
Proof. vm_compute. reflexivity. Qed.
