(* ===== verification/GoValue.v ===== *)
(** * JSON decoded into interface values

    [json.Unmarshal] into an [interface{}] or a [map[string]interface{}]: a
    null, boolean, string, slice or map, and numbers as float64; [GInt] is a Go
    integer a program puts in such a map itself.  A number keeps
    its literal, which stands for the nearest float64; a literal beyond the
    range is the decoder's error.  Of several members of one name the last one
    wins.  [encode_value] is [json.Marshal] of such a value: map keys sorted,
    numbers in their shortest form. *)
From Stdlib Require Import String Ascii.
From S2P Require Export JsonDecode Float64.
From stdpp Require Import list.

Local Open Scope Z_scope.

Inductive gvalue :=
| GNil
| GBool (b : bool)
| GNum (lit : string)
| GInt (z : Z)
| GString (s : string)
| GSlice (l : list gvalue)
| GObj (ms : list (string * gvalue)).

(** ** Maps: association lists without duplicate keys *)

Fixpoint put (k : string) (v : gvalue) (l : list (string * gvalue)) : list (string * gvalue) :=
  match l with
  | [] => [(k, v)]
  | (k', v') :: l => if bool_decide (k = k') then (k, v) :: l else (k', v') :: put k v l
  end.

Definition put_all (l : list (string * gvalue)) : list (string * gvalue) :=
  foldl (λ acc kv, put kv.1 kv.2 acc) [] l.

Fixpoint get_key (k : string) (l : list (string * gvalue)) : option gvalue :=
  match l with
  | [] => None
  | (k', v) :: l => if bool_decide (k = k') then Some v else get_key k l
  end.

(** ** Decoding *)

Fixpoint decode_value (v : json) : gvalue :=
  match v with
  | JNull => GNil
  | JBool b => GBool b
  | JNum lit => GNum lit
  | JStr b => GString (unquote b)
  | JArr l => GSlice (map decode_value l)
  | JObj ms => GObj (put_all (map (λ m, (unquote m.1, decode_value m.2)) ms))
  end.

Fixpoint numbers_ok (v : json) : bool :=
  match v with
  | JNum lit => negb (float_overflows lit)
  | JArr l => forallb numbers_ok l
  | JObj ms => forallb (λ m, numbers_ok m.2) ms
  | _ => true
  end.

Definition UnmarshalAny (data : string) : result gvalue :=
  match parse data with
  | None => Fail (new_error "invalid json")
  | Some v => if numbers_ok v then Ok (decode_value v) else Fail (type_error "float64")
  end.

(** Into a [map[string]interface{}]; a nil map has no keys. *)
Definition UnmarshalMap (data : string) : result (list (string * gvalue)) :=
  match parse data with
  | None => Fail (new_error "invalid json")
  | Some (JObj ms as v) =>
    if numbers_ok v then
      match decode_value v with GObj l => Ok l | _ => Ok [] end
    else Fail (type_error "float64")
  | Some JNull => Ok []
  | Some _ => Fail (type_error "map[string]interface {}")
  end.

(** [json.Unmarshal(data, &a)] with the error ignored: a member that does not
    fit its field leaves it as it is, the others are stored. *)
Section lenient.
Context {A : Type} (fs : list (field A)).

Definition store_lenient (m : string * string) (a : A) : A :=
  match store_member false fs m a with Ok a => a | Fail _ => a end.

Definition UnmarshalLenient (zero : A) (data : string) : A :=
  match parse data with
  | Some (JObj _) =>
    match object_fields data with Some (ms, _) => foldl (λ a m, store_lenient m a) zero ms | None => zero end
  | _ => zero
  end.

Lemma store_members_lenient ms a b :
  store_members false fs ms a = Ok b → foldl (λ a m, store_lenient m a) a ms = b.
Proof.
  revert a. induction ms as [|m ms IH]; intros a; [by intros [= ->]|]. simpl. unfold store_lenient at 2.
  destruct (store_member false fs m a) as [a'|e]; [apply IH|done].
Qed.

(** A text that decodes without an error decodes to the same value. *)
Lemma UnmarshalLenient_ok zero data a : Unmarshal fs zero data = Ok a → UnmarshalLenient zero data = a.
Proof.
  unfold Unmarshal, UnmarshalLenient. destruct (parse data) as [[]|]; try done; [by intros [= ->]|].
  destruct (object_fields data) as [[ms' ?]|]; [|done]. apply store_members_lenient.
Qed.
End lenient.

(** ** Encoding *)
Fixpoint insert_key (m : string * json) (l : list (string * json)) : list (string * json) :=
  match l with
  | [] => [m]
  | m' :: l => if (m.1 <=? m'.1)%string then m :: m' :: l else m' :: insert_key m l
  end.

(** The members of a map, sorted by key. *)
Definition sort_keys (l : list (string * json)) : list (string * json) := foldr insert_key [] l.

Fixpoint encode_value (v : gvalue) : json :=
  match v with
  | GNil => JNull
  | GBool b => JBool b
  | GNum lit => JNum (float_text lit)
  | GInt z => jint z
  | GString s => jstring s
  | GSlice l => JArr (map encode_value l)
  | GObj ms => JObj (map (λ m, (quote m.1, m.2)) (sort_keys (map (λ m, (m.1, encode_value m.2)) ms)))
  end.

Example encode_sample :
  print (encode_value (GObj [("b", GNum "1.0"); ("a", GSlice [GString "<"; GNil])]%string)) = jtext "{'a':['\u003c',null],'b':1}".
Proof. vm_compute. reflexivity. Qed.

Example decode_any :
  UnmarshalAny (jtext "{'a':[1,'x',null],'b':{'c':true},'a':2}") =
  Ok (GObj [("a", GNum "2"); ("b", GObj [("c", GBool true)])])%string.
Proof. vm_compute. reflexivity. Qed.

(** ** Lemmas *)

Lemma get_key_put k v l k' : get_key k' (put k v l) = if bool_decide (k' = k) then Some v else get_key k' l.
Proof.
  induction l as [|[k1 v1] l IH]; simpl; [done|].
  destruct (decide (k = k1)) as [->|Hk].
  - rewrite bool_decide_eq_true_2 by done. simpl. by repeat case_bool_decide.
  - rewrite bool_decide_eq_false_2 by done. simpl. rewrite IH. by repeat case_bool_decide; simplify_eq.
Qed.

Lemma put_all_snoc l kv : put_all (l ++ [kv]) = put kv.1 kv.2 (put_all l).
Proof. unfold put_all. by rewrite foldl_snoc. Qed.

Lemma get_key_app k l1 l2 : get_key k (l1 ++ l2) = match get_key k l1 with Some v => Some v | None => get_key k l2 end.
Proof. induction l1 as [|[k1 v1] l1 IH]; simpl; [done|]. by case_bool_decide. Qed.

(** The last member of a name wins. *)
Lemma get_key_put_all k l v l' : get_key k l' = None → get_key k (put_all (l ++ (k, v) :: l')) = Some v.
Proof.
  induction l' as [|[k1 v1] l' IH] using rev_ind; intros Hn.
  - rewrite put_all_snoc, get_key_put, bool_decide_eq_true_2 by done. done.
  - rewrite get_key_app in Hn. destruct (get_key k l') eqn:Hl; [done|]. simpl in Hn. case_bool_decide as Hk; [done|].
    rewrite app_comm_cons, app_assoc, put_all_snoc, get_key_put, bool_decide_eq_false_2 by done. by apply IH.
Qed.

Lemma put_keys k v l : (put k v l).*1 = if bool_decide (k ∈ l.*1) then l.*1 else l.*1 ++ [k].
Proof.
  induction l as [|[k1 v1] l IH]; [done|]. cbn. destruct (decide (k = k1)) as [->|Hk].
  - rewrite !bool_decide_eq_true_2; [done|set_solver|done].
  - rewrite (bool_decide_eq_false_2 (k = k1)) by done. cbn. rewrite IH. repeat case_bool_decide; set_solver.
Qed.

Lemma NoDup_put_all l : NoDup (put_all l).*1.
Proof.
  induction l as [|kv l IH] using rev_ind; [constructor|]. rewrite put_all_snoc, put_keys.
  case_bool_decide; [done|]. apply NoDup_app. split_and!; [done|set_solver|apply NoDup_singleton].
Qed.

(** Induction on values, through the elements of slices and maps. *)
Section gvalue_ind.
Context (P : gvalue → Prop) (Hnil : P GNil) (Hb : ∀ b, P (GBool b)) (Hn : ∀ n, P (GNum n)) (Hi : ∀ z, P (GInt z)) (Hs : ∀ s, P (GString s))
  (Hl : ∀ l, Forall P l → P (GSlice l)) (Hm : ∀ ms, Forall (λ kv, P kv.2) ms → P (GObj ms)).

Fixpoint gvalue_nested_ind (v : gvalue) : P v :=
  match v with
  | GNil => Hnil
  | GBool b => Hb b
  | GNum n => Hn n
  | GInt z => Hi z
  | GString s => Hs s
  | GSlice l => Hl l ((fix go l : Forall P l := match l with [] => Forall_nil_2 P | v :: l => Forall_cons_2 P _ _ (gvalue_nested_ind v) (go l) end) l)
  | GObj ms => Hm ms ((fix go ms : Forall (λ kv, P kv.2) ms := match ms with
                                    | [] => Forall_nil_2 (λ kv, P kv.2)
                                    | kv :: ms => Forall_cons_2 (λ kv, P kv.2) _ _ (gvalue_nested_ind kv.2) (go ms)
                                    end) ms)
  end.
End gvalue_ind.
