(* ===== verification/Sprint.v ===== *)
(** * fmt.Sprint of interface values

    The text of a value that JSON decoding, or a program, puts into an
    [interface{}]: a float in the shortest form of the %g verb (an exponent
    below 1e-4 and from 1e6 on), maps sorted by key. *)
From Stdlib Require Import String Ascii.
From S2P Require Import Prelude GoStrings Strconv GoValue.
From stdpp Require Import list.

Local Open Scope Z_scope.

(** The text of [d * 10 ^ k] under %g with the shortest precision; an exponent
    has two digits at least. *)
Definition general_text (d k : Z) : string :=
  let s := FormatInt d in
  let n := Z.of_nat (String.length s) in
  let x := n + k - 1 in
  (if ((x <? -4) || (6 <=? x))%Z then
     let '(a, r) := split_at 1 s in
     let frac := match r with EmptyString => EmptyString | _ => "." ++ r end in
     let e := FormatInt (Z.abs x) in
     a ++ frac ++ "e" ++ (if (x <? 0)%Z then "-" else "+") ++ (if (Z.abs x <? 10)%Z then "0" ++ e else e)
   else if (0 <=? k)%Z then s ++ zeros (Z.to_nat k)
   else if (0 <=? x)%Z then let '(a, r) := split_at (Z.to_nat (x + 1)%Z) s in a ++ "." ++ r
   else "0." ++ zeros (Z.to_nat (- x - 1)%Z) ++ s)%string.

Definition sprint_float (lit : string) : string :=
  let '(neg, m, e) := literal_value lit in
  let '(f, b) := nearest_float m e in
  let body := if f =? 0 then "0"%string else
    let k := dec_exponent 8 f b ((Z.log2 f + b) * 30103 / 100000) in
    let '(d, k') := shortest 17 f b k in
    let '(d, k') := strip_zeros 30 d k' in general_text d k' in
  if neg then ("-" ++ body)%string else body.

Fixpoint insert_text (m : string * string) (l : list (string * string)) : list (string * string) :=
  match l with [] => [m] | m' :: l => if (m.1 <=? m'.1)%string then m :: m' :: l else m' :: insert_text m l end.

Fixpoint spaced (l : list string) : string :=
  match l with [] => EmptyString | [s] => s | s :: l => (s ++ " " ++ spaced l)%string end.

Fixpoint Sprint (v : gvalue) : string :=
  match v with
  | GNil => "<nil>"
  | GBool b => if b then "true" else "false"
  | GNum lit => sprint_float lit
  | GInt z => FormatInt z
  | GString s => s
  | GSlice l => "[" ++ spaced (map Sprint l) ++ "]"
  | GObj ms => "map[" ++ spaced (map (λ m, (m.1 ++ ":" ++ m.2)%string) (foldr insert_text [] (map (λ m, (m.1, Sprint m.2)) ms))) ++ "]"
  end%string.

Example sprint_texts :
  map Sprint [GNum "1"; GNum "100000"; GNum "1000000"; GNum "123456789"; GNum "0.0001"; GNum "0.00001"; GNum "-1.50"; GInt 123456789;
    GObj [("b", GSlice [GNil; GString "x y"]); ("a", GBool true)]; GObj []]%string =
  ["1"; "100000"; "1e+06"; "1.23456789e+08"; "0.0001"; "1e-05"; "-1.5"; "123456789"; "map[a:true b:[<nil> x y]]"; "map[]"]%string.
Proof. vm_compute. reflexivity. Qed.

(** The text of a map's member, when it is there and its text is not empty. *)
Definition sprint_member (k : string) (ms : option (list (string * gvalue))) : option string :=
  v ← get_key k (default [] ms); if bool_decide (Sprint v = EmptyString) then None else Some (Sprint v).
