(* ===== verification/RedisReceive.v ===== *)
(** * Receiving over Redis: the goroutines of internal/bus/redis_pubsub.go

    [Dequeue] and [Subscribe] start a goroutine that takes answers from Redis
    and puts the messages in them into a channel of capacity 100 until the
    context is done.  Both are one machine, over what they make of an answer;
    the answers, the reader of the channel and the cancellation come in any
    order. *)
From Stdlib Require Import String Ascii.
From S2P Require Import Prelude GoStrings Bus.
From stdpp Require Import list relations.

Local Open Scope Z_scope.

(** What the goroutine does with an answer. *)
Inductive reaction := Again | Stop | Deliver (m : Message).

(** An answer of the blocking pop: its values, none within its second
    ([redis.Nil]), another error. *)
Inductive popped := Values (l : list string) | NoValue | PopFailed.

Definition dequeue_react (done : bool) (answer : popped) : reaction :=
  match answer with
  | NoValue => Again
  | PopFailed => if done then Stop else Again
  | Values [_; data] => match ParseMessage data with Ok m => Deliver m | Fail _ => Again end
  | Values _ => Again
  end.

(** An answer of the subscription. *)
Definition subscribe_react (done : bool) (answer : result string) : reaction :=
  match answer with
  | Fail _ => Stop
  | Ok data => match ParseMessage data with Ok m => Deliver m | Fail _ => Again end
  end.

(** A topic with a star is subscribed to as a pattern. *)
Definition subscribes_pattern (topic : string) : bool := Contains topic "*".

(** ** The machine *)
Record receiver (A : Type) := MkReceiver {
  rc_left : list A;
  rc_seen : list A;
  rc_held : option Message;
  rc_buffer : list Message;
  rc_stopped : bool;
  rc_done : bool;
  rc_read : list Message;
  rc_lost : list Message
}.
Arguments MkReceiver {A} _ _ _ _ _ _ _ _.
Arguments rc_left {A} _.
Arguments rc_seen {A} _.
Arguments rc_held {A} _.
Arguments rc_buffer {A} _.
Arguments rc_stopped {A} _.
Arguments rc_done {A} _.
Arguments rc_read {A} _.
Arguments rc_lost {A} _.

Definition capacity : nat := 100.

Section receiver.
Context {A : Type}.
(** The reaction, given whether the context is done, and whether the loop looks
    at the context before it asks. *)
Variable react : bool → A → reaction.
Variable looks : bool.

(** [rc_left] and [rc_seen] are the answers to come and those taken, [rc_held]
    the message the goroutine is putting into the channel, [rc_buffer] what the
    channel holds, [rc_read] what its reader has, [rc_lost] a message dropped at
    the context's end. *)
Definition receiving (answers : list A) : receiver A := MkReceiver answers [] None [] false false [] [].

Inductive receive_step : receiver A → receiver A → Prop :=
| r_again a l seen buf done read lost : react done a = Again → looks && done = false →
    receive_step (MkReceiver (a :: l) seen None buf false done read lost) (MkReceiver l (seen ++ [a]) None buf false done read lost)
| r_stop a l seen buf done read lost : react done a = Stop → looks && done = false →
    receive_step (MkReceiver (a :: l) seen None buf false done read lost) (MkReceiver l (seen ++ [a]) None buf true done read lost)
| r_deliver a m l seen buf done read lost : react done a = Deliver m → looks && done = false →
    receive_step (MkReceiver (a :: l) seen None buf false done read lost) (MkReceiver l (seen ++ [a]) (Some m) buf false done read lost)
| r_top l seen buf read lost : looks = true →
    receive_step (MkReceiver l seen None buf false true read lost) (MkReceiver l seen None buf true true read lost)
| r_put m l seen buf done read lost : (length buf < capacity)%nat →
    receive_step (MkReceiver l seen (Some m) buf false done read lost) (MkReceiver l seen None (buf ++ [m]) false done read lost)
| r_drop m l seen buf read lost :
    receive_step (MkReceiver l seen (Some m) buf false true read lost) (MkReceiver l seen None buf true true read (lost ++ [m]))
| r_read m l seen held buf stopped done read lost :
    receive_step (MkReceiver l seen held (m :: buf) stopped done read lost) (MkReceiver l seen held buf stopped done (read ++ [m]) lost)
| r_cancel l seen held buf stopped read lost :
    receive_step (MkReceiver l seen held buf stopped false read lost) (MkReceiver l seen held buf stopped true read lost).

(** What an answer holds for the reader. *)
Variable message_in : A → option Message.
Hypothesis reacts : ∀ d a m, react d a = Deliver m ↔ message_in a = Some m.

(** *** The invariant *)
Definition received (answers : list A) (r : receiver A) : Prop :=
  answers = rc_seen r ++ rc_left r ∧
  omap message_in (rc_seen r) = rc_read r ++ rc_buffer r ++ option_list (rc_held r) ++ rc_lost r ∧
  (length (rc_buffer r) ≤ capacity)%nat ∧ (length (rc_lost r) ≤ 1)%nat ∧
  (rc_lost r ≠ [] → rc_stopped r = true ∧ rc_done r = true) ∧ (rc_stopped r = true → rc_held r = None).

Lemma received_start answers : received answers (receiving answers).
Proof. split_and!; cbn; (done || lia). Qed.

#[local] Ltac apps := try (first [done | lia | by rewrite ?app_nil_r, <-?app_assoc; cbn; rewrite ?app_nil_r]).

Lemma received_step answers r r' : received answers r → receive_step r r' → received answers r'.
Proof.
  assert (∀ d a, react d a = Again ∨ react d a = Stop → message_in a = None) as Hnone.
  { intros d a Hr. destruct (message_in a) as [m|] eqn:Hm; [|done]. apply (reacts d) in Hm. rewrite Hm in Hr. by destruct Hr. }
  intros (Hans & Hdel & Hbuf & Hlost & Hl & Hs) Hstep.
  inversion Hstep; subst; unfold received; cbn [rc_left rc_seen rc_held rc_buffer rc_stopped rc_done rc_read rc_lost option_list] in *;
    try (assert (lost = []) as -> by (destruct lost; [done|]; by destruct (Hl ltac:(done))));
    cbn [app] in Hdel; rewrite ?app_nil_r in *; rewrite ?omap_app, ?Hdel; cbn [omap list_omap].
  - rewrite (Hnone done a) by auto. split_and!; apps.
  - rewrite (Hnone done a) by auto. split_and!; apps.
  - match goal with H : react _ _ = Deliver _ |- _ => apply reacts in H; rewrite H end. split_and!; apps.
  - split_and!; apps.
  - rewrite length_app. cbn [length]. split_and!; apps.
  - split_and!; apps.
  - cbn [length] in Hbuf. split_and!; apps.
  - split_and!; apps.
Qed.

Lemma received_steps answers r : rtc receive_step (receiving answers) r → received answers r.
Proof. intros Hr. apply (rtc_ind_r (received answers)) with (1 := received_start answers) in Hr; [done|]. intros r1 r2 _ Hs Hi. by eapply received_step. Qed.
End receiver.

(** ** The two receivers *)
Definition popped_message (a : popped) : option Message :=
  match a with Values [_; data] => match ParseMessage data with Ok m => Some m | Fail _ => None end | _ => None end.
Definition pushed_message (a : result string) : option Message :=
  match a with Ok data => match ParseMessage data with Ok m => Some m | Fail _ => None end | Fail _ => None end.

Lemma dequeue_reacts d a m : dequeue_react d a = Deliver m ↔ popped_message a = Some m.
Proof. unfold dequeue_react, popped_message. destruct a as [[|k [|v [|w l]]]| |]; try done; [destruct (ParseMessage v)|by destruct d]; naive_solver. Qed.
Lemma subscribe_reacts d a m : subscribe_react d a = Deliver m ↔ pushed_message a = Some m.
Proof. unfold subscribe_react, pushed_message. destruct a as [v|e]; [destruct (ParseMessage v)|]; naive_solver. Qed.

Abbreviation dequeue_steps := (rtc (receive_step dequeue_react true)).
Abbreviation subscribe_steps := (rtc (receive_step subscribe_react false)).

(** The encodings of messages that were sent. *)
Definition sent_as (m : Message) (data : string) : Prop := Validate m = None ∧ wire_ok m ∧ MarshalMessage m = Ok data.

Lemma sent_pushed m data : sent_as m data → pushed_message (Ok data) = Some (wire_normal m).
Proof.
  intros (Hv & Hw & Hm). destruct (marshal_parse m Hv Hw) as (d & Hd & Hp & _). rewrite Hm in Hd. injection Hd as <-. cbn. by rewrite Hp.
Qed.

(** C26: A subscription hands on what was published: at any moment, whatever the
    order of arrivals, reads and cancellation, the messages of the publications
    received so far are those read, then those in the channel, then the one being
    put into it, in the order of their publication and with their contents; at
    most one more is lost, when the context ends. *)
Theorem redis_subscription_faithful msgs texts r :
  Forall2 sent_as msgs texts → subscribe_steps (receiving (map Ok texts)) r →
  ∃ n, rc_seen r = map Ok (take n texts) ∧
    map wire_normal (take n msgs) = rc_read r ++ rc_buffer r ++ option_list (rc_held r) ++ rc_lost r ∧
    (length (rc_buffer r) ≤ capacity)%nat ∧ (length (rc_lost r) ≤ 1)%nat ∧ (rc_lost r ≠ [] → rc_done r = true).
Proof.
  intros Hsent Hr. pose proof (received_steps _ _ _ subscribe_reacts _ _ Hr) as (Hans & Hdel & Hb & Hl & Hd & _).
  exists (length (rc_seen r)).
  assert (rc_seen r = map Ok (take (length (rc_seen r)) texts)) as Hseen by (rewrite <-firstn_map, Hans; symmetry; by apply take_app_length).
  split_and!; try done; [|intros Hne; by apply Hd]. rewrite <-Hdel. rewrite Hseen at 2. clear -Hsent.
  generalize (length (rc_seen r)). intros n. apply (Forall2_take _ _ _ n) in Hsent.
  induction Hsent as [|m t ms ts Hmt _ IH]; [done|]. cbn [map omap list_omap]. rewrite (sent_pushed m t Hmt). by f_equal.
Qed.

(** A queue's reader: everything popped is read, in the channel, in hand or lost
    at the context's end; what is not read is in Redis no more. *)
Lemma redis_dequeue_faithful answers r :
  dequeue_steps (receiving answers) r →
  omap popped_message (rc_seen r) = rc_read r ++ rc_buffer r ++ option_list (rc_held r) ++ rc_lost r ∧
  (length (rc_buffer r) ≤ capacity)%nat ∧ (length (rc_lost r) ≤ 1)%nat ∧ (rc_lost r ≠ [] → rc_done r = true).
Proof.
  intros Hr. pose proof (received_steps _ _ _ dequeue_reacts _ _ Hr) as (_ & Hdel & Hb & Hl & Hd & _).
  split_and!; try done. intros Hne. by apply Hd.
Qed.

(** ** Samples *)
Definition demo_publication (id : string) : Message :=
  {| MessageID := id; ParentTaskID := ""; SenderID := "s"; ReceiverID := "r"; TargetAgent := ""; Payload := "{}"; Timestamp := 1 |}.
Definition demo_text (id : string) : string := match MarshalMessage (demo_publication id) with Ok d => d | Fail _ => EmptyString end.

Lemma demo_sent id : id ∈ ["a"; "b"]%string → sent_as (demo_publication id) (demo_text id).
Proof.
  rewrite !elem_of_cons, elem_of_nil. intros [->|[->|[]]]; (split_and!; [reflexivity| |vm_compute; reflexivity]);
    (split; [reflexivity..|split; vm_compute; congruence|exists (JObj []); split; vm_compute; reflexivity]).
Qed.

(** The first of two publications is in the channel when the context ends with
    the second in hand. *)
Definition demo_received : receiver (result string) :=
  MkReceiver [] [Ok (demo_text "a"); Ok (demo_text "b")] None [demo_publication "a"] true true [] [demo_publication "b"].

Lemma redis_subscription_faithful_witness :
  ∃ n, rc_seen demo_received = map Ok (take n [demo_text "a"; demo_text "b"]) ∧
    map wire_normal (take n [demo_publication "a"; demo_publication "b"]) =
      rc_read demo_received ++ rc_buffer demo_received ++ option_list (rc_held demo_received) ++ rc_lost demo_received ∧
    (length (rc_buffer demo_received) ≤ capacity)%nat ∧ (length (rc_lost demo_received) ≤ 1)%nat ∧ (rc_lost demo_received ≠ [] → rc_done demo_received = true).
Proof.
  apply (redis_subscription_faithful [demo_publication "a"; demo_publication "b"] [demo_text "a"; demo_text "b"]).
  - apply Forall2_cons_2; [exact (demo_sent "a" ltac:(set_solver))|]. apply Forall2_cons_2; [exact (demo_sent "b" ltac:(set_solver))|]. apply Forall2_nil_2.
  - unfold receiving, demo_received. cbn [map].
    eapply rtc_l; [apply r_deliver with (m := demo_publication "a"); vm_compute; reflexivity|].
    eapply rtc_l; [apply r_put; cbn; unfold capacity; lia|].
    eapply rtc_l; [apply r_deliver with (m := demo_publication "b"); vm_compute; reflexivity|].
    eapply rtc_l; [apply r_cancel|]. eapply rtc_l; [apply r_drop|]. apply rtc_refl.
Defined.

(** A task taken from its queue when the context ends is in no one's hands. *)
Example task_lost :
  dequeue_steps (receiving [Values ["tasks"%string; demo_text "a"]])
    (MkReceiver [] [Values ["tasks"%string; demo_text "a"]] None [] true true [] [demo_publication "a"]).
Proof.
  eapply rtc_l; [apply r_deliver with (m := demo_publication "a"); vm_compute; reflexivity|].
  eapply rtc_l; [apply r_cancel|]. eapply rtc_l; [apply r_drop|]. apply rtc_refl.
Qed.
