(* ===== verification/Transport.v ===== *)
(** * The transport interface (internal/bus: TaskQueue and EventBus)

    What the agents promise each other about a transport: queues and topics
    accept valid messages only, and what they do with them.  [FakeTransport]
    and [RedisTransport] implement it; the clients (auditor, orchestrator,
    subagent, gateway) are proved against the interface. *)
From Stdlib Require Import String Ascii.
From S2P Require Export Bus.
From stdpp Require Import list.

Local Open Scope Z_scope.

Class Transport (T : Type) := {
  tq_Enqueue : ctx → string → Message → T → option error * T;
  eb_Publish : ctx → string → Message → T → option error * T;
  tq_valid c q m t : (tq_Enqueue c q m t).1 = None → Validate m = None;
  eb_valid c topic m t : (eb_Publish c topic m t).1 = None → Validate m = None;
  tq_refused c q m t e : Validate m = Some e → (tq_Enqueue c q m t).2 = t;
  eb_refused c topic m t e : Validate m = Some e → (eb_Publish c topic m t).2 = t
}.

#[export] Instance fake_transport (order : list nat → list nat) : Transport FakeTransport.
Proof.
  refine {| tq_Enqueue := Enqueue; eb_Publish := Publish order |}.
  - intros [e|] q m t; simpl; [done|]. by destruct (Validate m).
  - intros [e|] topic m t; simpl; [done|]. by destruct (Validate m).
  - intros [e'|] q m t e; simpl; [done|]. by intros ->.
  - intros [e'|] topic m t e; simpl; [done|]. by intros ->.
Defined.

#[export] Instance redis_transport {R} `{RedisServer R} : Transport R.
Proof.
  refine {| tq_Enqueue := λ _, RedisEnqueue; eb_Publish := λ _, RedisPublish |}; unfold RedisEnqueue, RedisPublish.
  - intros _ q m t. by destruct (Validate m).
  - intros _ topic m t. by destruct (Validate m).
  - intros _ q m t e. by intros ->.
  - intros _ topic m t e. by intros ->.
Defined.
