(* ===== verification/Calendar.v ===== *)
(** * Dates: what package time does for the layout 2006-01-02

    Days are counted from 1 January 1970 in the proleptic Gregorian calendar.
    [time.Date] and [AddDate] on whole days are arithmetic of such counts, in
    64-bit seconds. *)
From Stdlib Require Import String Ascii.
From S2P Require Import Prelude GoStrings Strconv Json JsonString.
From stdpp Require Import list.

Local Open Scope Z_scope.

(** ** Dates and days

    Eras of 400 years begin on 1 March of a year divisible by 400; a year is
    counted from March, so that the leap day is the last of it. *)
Definition era_days : Z := 146097.

(** The days before a year of the era. *)
Definition year_start (y : Z) : Z := 365 * y + y / 4 - y / 100 + y / 400.

Definition era_year (doe : Z) : Z := let y := doe / 365 in if year_start y <=? doe then y else y - 1.

(** The month, from March, and its day of a day of the year. *)
Definition month_of (doy : Z) : Z := (5 * doy + 2) / 153.
Definition month_start (mp : Z) : Z := (153 * mp + 2) / 5.

(** 1 March of the year 0 is day -719468. *)
Definition date_of (day : Z) : Z * Z * Z :=
  let n := day + 719468 in
  let era := n / era_days in
  let doe := n mod era_days in
  let yoe := era_year doe in
  let doy := doe - year_start yoe in
  let mp := month_of doy in
  let m := if mp <? 10 then mp + 3 else mp - 9 in
  ((if m <=? 2 then yoe + 1 else yoe) + 400 * era, m, doy - month_start mp + 1).

Definition day_of (y m d : Z) : Z :=
  let y := if m <=? 2 then y - 1 else y in
  let era := y / 400 in
  era * era_days + year_start (y - 400 * era) + month_start ((m + 9) mod 12) + d - 1 - 719468.

Definition leap (y : Z) : bool := (y mod 4 =? 0) && (negb (y mod 100 =? 0) || (y mod 400 =? 0)).
Definition days_in (y m : Z) : Z :=
  if m =? 2 then (if leap y then 29 else 28) else if existsb (Z.eqb m) [4; 6; 9; 11] then 30 else 31.

Example dates : map date_of [0; -1; 59; 11016; 20089; -719528; 2932896] =
  [(1970, 1, 1); (1969, 12, 31); (1970, 3, 1); (2000, 2, 29); (2025, 1, 1); (0, 1, 1); (9999, 12, 31)].
Proof. vm_compute. reflexivity. Qed.

(** *** Every day has its date *)
Fixpoint all_from (n : nat) (z : Z) (p : Z → bool) : bool :=
  match n with O => true | S n => p z && all_from n (z + 1) p end.

Lemma all_from_spec n z p : all_from n z p = true → ∀ x, z ≤ x < z + Z.of_nat n → p x = true.
Proof.
  revert z. induction n as [|n IH]; intros z; [intros _ x ?; lia|]. cbn [all_from]. intros [Hp Hr]%andb_true_iff x Hx.
  destruct (decide (x = z)) as [->|Hne]; [done|]. apply (IH _ Hr). lia.
Qed.

(** A day of a year is in one of twelve months; only the last day of a long year
    is a 29 February. *)
Definition doy_ok (doy : Z) : bool :=
  let mp := month_of doy in
  let m := if mp <? 10 then mp + 3 else mp - 9 in
  let d := doy - month_start mp + 1 in
  (0 <=? mp) && (mp <=? 11) && (1 <=? d) && (d <=? days_in (if doy =? 365 then 4 else 1) m) && ((m + 9) mod 12 =? mp) && (1 <=? m) && (m <=? 12).

Lemma doy_checked doy : 0 ≤ doy < 366 → doy_ok doy = true.
Proof. apply (all_from_spec 366 0 doy_ok). vm_compute. reflexivity. Qed.

Definition long_year_ok (y : Z) : bool := (year_start (y + 1) - year_start y =? 365) || ((year_start (y + 1) - year_start y =? 366) && leap (y + 1)).

Lemma long_year_checked y : 0 ≤ y < 400 → long_year_ok y = true.
Proof. apply (all_from_spec 400 0 long_year_ok). vm_compute. reflexivity. Qed.

Lemma era_year_spec doe :
  0 ≤ doe < era_days → 0 ≤ era_year doe < 400 ∧ year_start (era_year doe) ≤ doe < year_start (era_year doe + 1).
Proof.
  unfold era_days, era_year, year_start. intros H. destruct (Z.leb_spec (365 * (doe / 365) + doe / 365 / 4 - doe / 365 / 100 + doe / 365 / 400) doe);
    Z.to_euclidean_division_equations; lia.
Qed.

Lemma leap_era y k : leap (y + 400 * k) = leap y.
Proof.
  unfold leap. replace (y + 400 * k) with (y + (100 * k) * 4) by lia. rewrite Z_mod_plus_full.
  replace (y + 100 * k * 4) with (y + (4 * k) * 100) by lia. rewrite Z_mod_plus_full.
  replace (y + 4 * k * 100) with (y + k * 400) by lia. by rewrite Z_mod_plus_full.
Qed.

Lemma date_of_spec day :
  let '(y, m, d) := date_of day in 1 ≤ m ≤ 12 ∧ 1 ≤ d ≤ days_in y m ∧ day_of y m d = day.
Proof.
  unfold date_of, day_of. set (n := day + 719468). cbn zeta.
  pose proof (Z.mod_pos_bound n era_days eq_refl) as Hb. pose proof (Z.div_mod n era_days ltac:(done)) as Hdm.
  set (era := n / era_days) in *. set (doe := n mod era_days) in *.
  destruct (era_year_spec doe Hb) as [Hy Hs]. set (yoe := era_year doe) in *.
  pose proof (long_year_checked yoe Hy) as Hl. unfold long_year_ok in Hl.
  assert (0 ≤ doe - year_start yoe < 366) as Hdoy by (apply orb_true_iff in Hl as [Hl|[Hl _]%andb_true_iff]; lia).
  set (doy := doe - year_start yoe) in *.
  pose proof (doy_checked doy Hdoy) as Hd. unfold doy_ok in Hd. cbn zeta in Hd.
  set (mp := month_of doy) in *. set (m := if mp <? 10 then mp + 3 else mp - 9) in *.
  rewrite !andb_true_iff in Hd. destruct Hd as ((((((H1 & H2) & H3) & H4) & H5) & H6) & H7).
  split; [lia|]. split.
  - split; [lia|]. transitivity (days_in (if doy =? 365 then 4 else 1) m); [lia|]. unfold days_in. destruct (m =? 2) eqn:Hm; [|lia].
    assert ((m <=? 2) = true) as -> by lia. rewrite leap_era.
    destruct (doy =? 365) eqn:H365; [change (leap 4) with true|change (leap 1) with false; destruct (leap (yoe + 1)); lia].
    destruct (year_start (yoe + 1) - year_start yoe =? 365) eqn:Hsh; [lia|]. cbn [orb] in Hl. by apply andb_true_iff in Hl as [_ ->].
  - assert ((if m <=? 2 then (if m <=? 2 then yoe + 1 else yoe) + 400 * era - 1 else (if m <=? 2 then yoe + 1 else yoe) + 400 * era) = yoe + era * 400) as ->
      by (destruct (m <=? 2); lia).
    rewrite Z.div_add, (Z.div_small yoe 400) by lia. replace (yoe + era * 400 - 400 * (0 + era)) with yoe by lia.
    apply Z.eqb_eq in H5. rewrite H5. subst doy n. lia.
Qed.

(** ** The text of a date *)
Definition digit (n : Z) : string := String (chr (48 + n mod 10)) EmptyString.
Definition pad2 (n : Z) : string := (digit (n / 10) ++ digit n)%string.
Definition pad4 (n : Z) : string := (pad2 (n / 100) ++ pad2 (n mod 100))%string.

(** [Format("2006-01-02")] of a year of at most four digits. *)
Definition date_text (day : Z) : string :=
  let '(y, m, d) := date_of day in (pad4 y ++ "-" ++ pad2 m ++ "-" ++ pad2 d)%string.

Definition digits2 (a b : ascii) : option Z := if is_digit a && is_digit b then Some ((code a - 48) * 10 + (code b - 48)) else None.

(** [time.Parse("2006-01-02", s)]: four digits, two, two; a month and a day of
    that month. *)
Definition parse_date (s : string) : option Z :=
  match s with
  | String a (String b (String c (String d (String h1 (String e (String f (String h2 (String g (String h EmptyString))))))))) =>
    if bool_decide (h1 = "-"%char) && bool_decide (h2 = "-"%char) then
      hi ← digits2 a b; lo ← digits2 c d; m ← digits2 e f; day ← digits2 g h;
      let y := hi * 100 + lo in
      if (1 <=? m) && (m <=? 12) && (1 <=? day) && (day <=? days_in y m) then Some (day_of y m day) else None
    else None
  | _ => None
  end.

Lemma digits2_pad n : 0 ≤ n < 100 → digits2 (chr (48 + (n / 10) mod 10)) (chr (48 + n mod 10)) = Some n.
Proof.
  intros H. pose (p := λ n : Z, bool_decide (digits2 (chr (48 + (n / 10) mod 10)) (chr (48 + n mod 10)) = Some n)).
  assert (p n = true) as Hp by (apply (all_from_spec 100 0 p); [vm_compute; reflexivity|lia]). by apply bool_decide_eq_true in Hp.
Qed.

Definition four_digit_day (day : Z) : Prop := 0 ≤ (date_of day).1.1 ≤ 9999.

(** A date's text is read back. *)
Lemma parse_date_text day : four_digit_day day → parse_date (date_text day) = Some day.
Proof.
  unfold four_digit_day, date_text. pose proof (date_of_spec day) as Hs. destruct (date_of day) as [[y m] d]. cbn. intros Hy.
  destruct Hs as (Hm & Hd & <-). unfold pad4, pad2, digit. cbn [String.append parse_date].
  assert (days_in y m ≤ 31) as Hin by (unfold days_in; destruct (m =? 2); [destruct (leap y)|destruct (existsb _ _)]; lia).
  rewrite !bool_decide_eq_true_2 by done. cbn [andb].
  rewrite (digits2_pad (y / 100)), (digits2_pad (y mod 100)), (digits2_pad m), (digits2_pad d) by (Z.to_euclidean_division_equations; lia). cbn.
  replace (y / 100 * 100 + y mod 100) with y by (Z.to_euclidean_division_equations; lia).
  by repeat match goal with |- context [?a <=? ?b] => rewrite (Zle_imp_le_bool a b) by lia; cbn [andb] end.
Qed.

Example parsed_dates : map parse_date ["2024-02-29"; "2023-02-29"; "2024-13-01"; "2024-1-01"; "2024-01-01x"; "1970-01-02"]%string =
  [Some 19782; None; None; None; None; Some 1].
Proof. vm_compute. reflexivity. Qed.
