(* ===== verification/Logging.v ===== *)
(** * Logging: internal/logging (config.go, console_handler.go, daily_writer.go, manager.go)

    Log lines go to the console and to a file per day under a directory per
    day; directories that are too old are removed at every write.  A manager
    joins the handlers; the process has one current manager.

    File operations are parameters, each on a path given by its elements, as
    the code joins them; so are the texts log/slog's handlers make of a record.
    A clock reading is in seconds; dates have years of four digits. *)
From Stdlib Require Import String Ascii.
From S2P Require Import Prelude GoStrings Strconv Calendar.
From stdpp Require Import list.

Local Open Scope Z_scope.

(** ** config.go *)
Definition defaultLogDir : string := "logs".
Definition defaultRetentionDays : Z := 30.
Definition defaultServiceFileName : string := "agentic-core".

(** slog's levels. *)
Definition LevelDebug : Z := -4.
Definition LevelInfo : Z := 0.
Definition LevelWarn : Z := 4.
Definition LevelError : Z := 8.

Definition ParseLevel (raw : string) : Z :=
  let s := ToLower (TrimSpace raw) in
  if bool_decide (s = "debug"%string) then LevelDebug
  else if bool_decide (s ∈ ["warn"; "warning"]%string) then LevelWarn
  else if bool_decide (s = "error"%string) then LevelError
  else LevelInfo.

Definition serviceName (service : string) : string :=
  let s := TrimSpace service in if bool_decide (s = EmptyString) then defaultServiceFileName else s.

(** [Config] without the writer of the console and the clock. *)
Record LogConfig := MkLogConfig {
  lc_Service : string; lc_Dir : string; lc_Level : Z; lc_RetentionDays : Z; lc_ConsoleEnable : bool; lc_FileEnable : bool
}.

(** [getenv]: [os.Getenv]. *)
Definition DefaultConfig (getenv : string → string) (service : string) : LogConfig :=
  let retention :=
    match ParseInt (TrimSpace (getenv "LOG_RETENTION_DAYS"%string)) with
    | Some n => if 0 <? n then n else defaultRetentionDays
    | None => defaultRetentionDays
    end in
  let dir := TrimSpace (getenv "LOG_DIR"%string) in
  MkLogConfig service (if bool_decide (dir = EmptyString) then defaultLogDir else dir) (ParseLevel (getenv "LOG_LEVEL"%string)) retention true true.

(** ** daily_writer.go *)
Record DailyWriter (H : Type) := MkWriter {
  dw_dir : string; dw_service : string; dw_retention : Z; dw_currentDate : string; dw_file : option H
}.
Arguments MkWriter {H} _ _ _ _ _.
Arguments dw_dir {H} _.
Arguments dw_service {H} _.
Arguments dw_retention {H} _.
Arguments dw_currentDate {H} _.
Arguments dw_file {H} _.

Definition NewDailyWriter {H} (dir service : string) (retentionDays : Z) : DailyWriter H :=
  MkWriter dir (serviceName service) (if retentionDays <=? 0 then defaultRetentionDays else retentionDays) EmptyString None.

(** The file operations: a directory's entries with whether each is a
    directory, or [None] when it does not exist; removing and making a
    subdirectory; opening a file of one to append; writing; closing. *)
Record LogFS (W H : Type) := MkFS {
  fs_ReadDir : string → W → option (result (list (string * bool)));
  fs_RemoveAll : string → string → W → option error * W;
  fs_MkdirAll : string → string → W → option error * W;
  fs_OpenAppend : string → string → string → W → result H * W;
  fs_Write : H → string → W → (Z * option error) * W;
  fs_Close : H → W → option error * W
}.
Arguments MkFS {W H} _ _ _ _ _ _.
Arguments fs_ReadDir {W H} _ _ _.
Arguments fs_RemoveAll {W H} _ _ _ _.
Arguments fs_MkdirAll {W H} _ _ _ _.
Arguments fs_OpenAppend {W H} _ _ _ _ _.
Arguments fs_Write {W H} _ _ _ _.
Arguments fs_Close {W H} _ _ _.

(** A [time.Time] at the start of a day, in the seconds since the year 1 that it
    keeps, 64-bit; [AddDate] on days. *)
Definition date_seconds (day : Z) : Z := wrap64 (wrap64 (86400 * day) + 62135596800).
Definition cutoff_seconds (today retention : Z) : Z := date_seconds (today - (retention - 1)).

(** A directory named by a date before the cutoff. *)
Definition expired (today retention : Z) (name : string) : bool :=
  match parse_date name with Some d => date_seconds d <? cutoff_seconds today retention | None => false end.

Section writer.
Context {W H : Type}.
Variable fs : LogFS W H.

Fixpoint remove_expired (dir : string) (today retention : Z) (entries : list (string * bool)) (w : W) : option error * W :=
  match entries with
  | [] => (None, w)
  | (name, is_dir) :: entries =>
    if is_dir && expired today retention name then
      match fs_RemoveAll fs dir name w with
      | (Some e, w) => (Some e, w)
      | (None, w) => remove_expired dir today retention entries w
      end
    else remove_expired dir today retention entries w
  end.

Definition cleanupExpiredLocked (d : DailyWriter H) (today : Z) (w : W) : option error * W :=
  match fs_ReadDir fs (dw_dir d) w with
  | None => (None, w)
  | Some (Fail e) => (Some e, w)
  | Some (Ok entries) => remove_expired (dw_dir d) today (dw_retention d) entries w
  end.

Definition with_file (date : string) (file : option H) (d : DailyWriter H) : DailyWriter H :=
  MkWriter (dw_dir d) (dw_service d) (dw_retention d) date file.

Definition log_file (d : DailyWriter H) : string := (dw_service d ++ ".jsonl")%string.

(** Opening the day's file, when none is open. *)
Definition open_day (date : string) (d : DailyWriter H) (w : W) : option error * (DailyWriter H * W) :=
  match fs_MkdirAll fs (dw_dir d) date w with
  | (Some e, w) => (Some e, (d, w))
  | (None, w) =>
    match fs_OpenAppend fs (dw_dir d) date (log_file d) w with
    | (Fail e, w) => (Some e, (d, w))
    | (Ok file, w) => (None, (with_file date (Some file) d, w))
    end
  end.

(** [day_number]: the day of a clock reading. *)
Definition day_number (now : Z) : Z := now / 86400.

Definition rotateLocked (now : Z) (d : DailyWriter H) (w : W) : option error * (DailyWriter H * W) :=
  let today := day_number now in
  let date := date_text today in
  match cleanupExpiredLocked d today w with
  | (Some e, w) => (Some e, (d, w))
  | (None, w) =>
    match dw_file d with
    | None => open_day date d w
    | Some file =>
      if bool_decide (dw_currentDate d = date) then (None, (d, w))
      else match fs_Close fs file w with
      | (Some e, w) => (Some e, (d, w))
      | (None, w) => open_day date (with_file (dw_currentDate d) None d) w
      end
    end
  end.

(** [Write]; on success the file is open. *)
Definition WriteDaily (now : Z) (p : string) (d : DailyWriter H) (w : W) : (Z * option error) * (DailyWriter H * W) :=
  match rotateLocked now d w with
  | (Some e, (d, w)) => ((0, Some e), (d, w))
  | (None, (d, w)) =>
    match dw_file d with
    | Some file => let '(r, w) := fs_Write fs file p w in (r, (d, w))
    | None => ((0, None), (d, w))
    end
  end.

Definition CloseDaily (d : DailyWriter H) (w : W) : option error * (DailyWriter H * W) :=
  match dw_file d with
  | None => (None, (d, w))
  | Some file => let '(e, w) := fs_Close fs file w in (e, (with_file (dw_currentDate d) None d, w))
  end.

(** A rotation without an error leaves a file open, so [Write] never meets a nil
    file. *)
Lemma rotated_open now d w d' w' : rotateLocked now d w = (None, (d', w')) → dw_file d' ≠ None ∧ dw_currentDate d' = date_text (day_number now).
Proof.
  unfold rotateLocked. destruct (cleanupExpiredLocked _ _ _) as [[e|] w1]; [done|].
  assert (∀ d1 w2, open_day (date_text (day_number now)) d1 w2 = (None, (d', w')) → dw_file d' ≠ None ∧ dw_currentDate d' = date_text (day_number now)) as Ho.
  { intros d1 w2. unfold open_day. destruct (fs_MkdirAll _ _ _ _) as [[e|] w3]; [done|]. destruct (fs_OpenAppend _ _ _ _ _) as [[file|e] w4]; [|done].
    by intros [= <- <-]. }
  destruct (dw_file d) as [file|] eqn:Hf; [|apply Ho]. case_bool_decide as Hd; [intros [= <- <-]; by rewrite Hf|].
  destruct (fs_Close _ _ _) as [[e|] w2]; [done|apply Ho].
Qed.
End writer.

(** ** A disk: the log directory's subdirectories with their files' contents, and
    the plain files in it *)
Record disk := Disk { dk_exists : bool; dk_dirs : gmap string (gmap string string); dk_plain : gset string }.

Definition set_dirs (dirs : gmap string (gmap string string)) (k : disk) : disk := Disk (dk_exists k) dirs (dk_plain k).

Definition append_text (p : string) (o : option string) : option string := (λ s, s ++ p)%string <$> o.

Definition disk_fs : LogFS disk (string * string) := {|
  fs_ReadDir := λ _ k, if dk_exists k then
    Some (Ok (map (λ n, (n, true)) (elements (dom (dk_dirs k))) ++ map (λ n, (n, false)) (elements (dk_plain k)))) else None;
  fs_RemoveAll := λ _ name k, (None, set_dirs (delete name (dk_dirs k)) k);
  fs_MkdirAll := λ _ name k,
    if bool_decide (name ∈ dk_plain k) then (Some (new_error "not a directory"), k)
    else (None, Disk true (<[name := default ∅ (dk_dirs k !! name)]> (dk_dirs k)) (dk_plain k));
  fs_OpenAppend := λ _ date file k,
    match dk_dirs k !! date with
    | None => (Fail (new_error "no such directory"), k)
    | Some files => (Ok (date, file), set_dirs (<[date := <[file := default EmptyString (files !! file)]> files]> (dk_dirs k)) k)
    end;
  fs_Write := λ h p k, ((Z.of_nat (String.length p), None), set_dirs (alter (alter (λ s, s ++ p)%string h.2) h.1 (dk_dirs k)) k);
  fs_Close := λ _ k, (None, k) |}.

Abbreviation disk_writer := (DailyWriter (string * string)).

(** The directories a write leaves: those that are not expired. *)
Definition kept (today retention : Z) (dirs : gmap string (gmap string string)) : gmap string (gmap string string) :=
  filter (λ m, expired today retention m.1 = false) dirs.

(** Retentions for which the cutoff is computed without overflow: up to a hundred
    trillion days. *)
Definition retention_max : Z := 10 ^ 14.

Lemma four_digit_bound day : four_digit_day day → -800000 ≤ day ≤ 4000000.
Proof.
  unfold four_digit_day. pose proof (date_of_spec day) as Hs. destruct (date_of day) as [[y m] d]. cbn. destruct Hs as (Hm & Hd & <-).
  assert (days_in y m ≤ 31) as Hin by (unfold days_in; destruct (m =? 2); [destruct (leap y)|destruct (existsb _ _)]; lia).
  intros Hy. unfold day_of, year_start, month_start, era_days. destruct (m <=? 2); Z.to_euclidean_division_equations; lia.
Qed.

Lemma digits2_bound a b n : digits2 a b = Some n → 0 ≤ n < 100.
Proof.
  unfold digits2, is_digit. destruct (_ && _) eqn:H; [|done]. intros [= <-]. rewrite !andb_true_iff in H. lia.
Qed.

Lemma parse_date_bound s d : parse_date s = Some d → -800000 ≤ d ≤ 4000000.
Proof.
  unfold parse_date. intros H. do 10 (destruct s as [|? s]; [discriminate H|]). destruct s; [|discriminate H].
  destruct (_ && _) in H; [|discriminate H]. revert H.
  destruct (digits2 a a0) as [hi|] eqn:H1; [|done]. destruct (digits2 a1 a2) as [lo|] eqn:H2; [|done].
  destruct (digits2 a4 a5) as [m|] eqn:H3; [|done]. destruct (digits2 a7 a8) as [day|] eqn:H4; [|done].
  apply digits2_bound in H1, H2, H3, H4. cbn. destruct (_ && _) eqn:H; [|done]. intros [= <-].
  rewrite !andb_true_iff in H. unfold day_of, year_start, month_start, era_days. destruct (m <=? 2); Z.to_euclidean_division_equations; lia.
Qed.

Lemma date_seconds_exact d : - 10 ^ 14 - 800000 ≤ d ≤ 4000000 → date_seconds d = 86400 * d + 62135596800.
Proof.
  intros Hd. unfold date_seconds. rewrite (wrap64_id (86400 * d)) by (unfold in_int64, int64_min, int64_max; lia).
  apply wrap64_id. unfold in_int64, int64_min, int64_max. lia.
Qed.

(** Within the bound a directory is expired exactly when its date is the
    retention, or more, before today. *)
Lemma expired_exact today retention name :
  four_digit_day today → 1 ≤ retention ≤ retention_max →
  expired today retention name = true ↔ ∃ d, parse_date name = Some d ∧ d + retention ≤ today.
Proof.
  intros Ht%four_digit_bound Hr. unfold retention_max in Hr. unfold expired, cutoff_seconds. destruct (parse_date name) as [d|] eqn:Hd.
  - pose proof (parse_date_bound _ _ Hd). rewrite !date_seconds_exact by lia. rewrite Z.ltb_lt. split; [intros; exists d; split; [done|lia]|].
    intros (? & [= <-] & ?). lia.
  - split; [done|]. by intros (? & ? & _).
Qed.

Lemma today_kept today retention : four_digit_day today → 1 ≤ retention ≤ retention_max → expired today retention (date_text today) = false.
Proof.
  intros Ht Hr. apply not_true_is_false. rewrite expired_exact by done. rewrite parse_date_text by done. intros (d & [= <-] & ?). lia.
Qed.

Lemma remove_all dir today retention (names : list string) (plain : list string) (k : disk) :
  remove_expired disk_fs dir today retention (map (λ n, (n, true)) names ++ map (λ n, (n, false)) plain) k =
  (None, set_dirs (filter (λ m, ¬ (m.1 ∈ names ∧ expired today retention m.1 = true)) (dk_dirs k)) k).
Proof.
  revert k. induction names as [|n names IH]; intros k; cbn [map app remove_expired].
  - assert (remove_expired disk_fs dir today retention (map (λ n, (n, false)) plain) k = (None, k)) as ->.
    { induction plain as [|x l IHl]; [done|]. exact IHl. }
    destruct k as [e dirs pl]. unfold set_dirs. cbn. rewrite map_filter_id; [done|]. intros i x _ [Hi _]. by apply elem_of_nil in Hi.
  - destruct (expired today retention n) eqn:He; cbn [andb].
    + cbn [fs_RemoveAll disk_fs]. rewrite IH. unfold set_dirs. cbn [dk_exists dk_dirs dk_plain].
      f_equal. f_equal. apply map_eq. intros i. apply option_eq. intros files.
      rewrite !map_lookup_filter_Some, lookup_delete_Some. cbn. rewrite elem_of_cons. naive_solver congruence.
    + rewrite IH. unfold set_dirs. f_equal. f_equal. apply map_filter_ext. intros i files _. cbn. rewrite elem_of_cons. naive_solver congruence.
Qed.

Lemma cleaned (d : disk_writer) today k :
  (dk_exists k = false → dk_dirs k = ∅) →
  cleanupExpiredLocked disk_fs d today k = (None, set_dirs (kept today (dw_retention d) (dk_dirs k)) k).
Proof.
  intros He. unfold cleanupExpiredLocked, kept. cbn [fs_ReadDir disk_fs]. destruct (dk_exists k) eqn:Hx.
  - rewrite remove_all. unfold set_dirs. f_equal. f_equal. apply map_filter_ext. intros i files Hi. cbn.
    rewrite elem_of_elements. assert (i ∈ dom (dk_dirs k)) by (by eapply elem_of_dom_2). destruct (expired _ _ i); naive_solver.
  - rewrite He by done. rewrite map_filter_empty. destruct k as [e dirs pl]. cbn in *. unfold set_dirs. cbn. by rewrite He.
Qed.

(** A disk and a writer of it: an open file is there, in the directory of the
    writer's date, unless its directory was removed. *)
Definition disk_ok (k : disk) : Prop := dk_exists k = false → dk_dirs k = ∅.
Definition writer_on (d : disk_writer) (k : disk) : Prop :=
  match dw_file d with
  | None => True
  | Some h => h = (dw_currentDate d, log_file d) ∧ ∃ files, dk_dirs k !! dw_currentDate d = Some files ∧ is_Some (files !! log_file d)
  end.

(** What a write leaves: the directories that are not expired, and in today's
    the text at the end of the service's file. *)
Definition logged_dirs (today : Z) (d : disk_writer) (p : string) (dirs : gmap string (gmap string string)) : gmap string (gmap string string) :=
  let left := kept today (dw_retention d) dirs in
  let files := default ∅ (left !! date_text today) in
  <[date_text today := <[log_file d := (default EmptyString (files !! log_file d) ++ p)%string]> files]> left.

Lemma opened today (d : disk_writer) k :
  date_text today ∉ dk_plain k →
  let files := default ∅ (dk_dirs k !! date_text today) in
  open_day disk_fs (date_text today) d k =
  (None, (with_file (date_text today) (Some (date_text today, log_file d)) d,
    Disk true (<[date_text today := <[log_file d := default EmptyString (files !! log_file d)]> files]> (dk_dirs k)) (dk_plain k))).
Proof.
  intros Hp. unfold open_day. cbn [fs_MkdirAll disk_fs]. rewrite bool_decide_eq_false_2 by done. cbn [fs_OpenAppend disk_fs dk_dirs].
  rewrite lookup_insert, decide_True by done. unfold set_dirs. cbn. by rewrite insert_insert, decide_True by done.
Qed.

Lemma appended (today : Z) (name p s : string) files (dirs : gmap string (gmap string string)) :
  alter (alter (λ s, s ++ p)%string name) (date_text today) (<[date_text today := <[name := s]> files]> dirs) =
  <[date_text today := <[name := (s ++ p)%string]> files]> dirs.
Proof. by rewrite alter_insert, decide_True, alter_insert, decide_True by done. Qed.

(** C36: On a disk whose calls succeed and has no plain file in the way, a writer
    whose open file, if any, is still there, with a retention of at most a
    hundred trillion days and a clock in the years 0 to 9999, removes at each write exactly the directories named by
    a date that is the retention or more before today, appends the text to its
    service's file in today's directory, which is never removed, and changes
    nothing else. *)
Theorem daily_write_exact now p (d : disk_writer) k :
  let today := day_number now in
  four_digit_day today → 1 ≤ dw_retention d ≤ retention_max → disk_ok k → writer_on d k → date_text today ∉ dk_plain k →
  let '(r, (d', k')) := WriteDaily disk_fs now p d k in
  r = (Z.of_nat (String.length p), None) ∧
  dk_dirs k' = logged_dirs today d p (dk_dirs k) ∧ dk_plain k' = dk_plain k ∧ disk_ok k' ∧ writer_on d' k' ∧
  dw_dir d' = dw_dir d ∧ dw_service d' = dw_service d ∧ dw_retention d' = dw_retention d ∧
  ∀ name, name ∈ dom (dk_dirs k') ↔
    name = date_text today ∨ (name ∈ dom (dk_dirs k) ∧ ¬ ∃ day, parse_date name = Some day ∧ day + dw_retention d ≤ today).
Proof.
  cbn zeta. set (today := day_number now). intros Ht Hr Hk Hw Hp. unfold WriteDaily, rotateLocked. fold today.
  rewrite cleaned by done. set (left := kept today (dw_retention d) (dk_dirs k)).
  assert (∀ name, name ∈ dom (logged_dirs today d p (dk_dirs k)) ↔ name = date_text today ∨
    (name ∈ dom (dk_dirs k) ∧ ¬ ∃ day, parse_date name = Some day ∧ day + dw_retention d ≤ today)) as Hdom.
  { intros name. unfold logged_dirs. rewrite dom_insert, elem_of_union, elem_of_singleton. rewrite <-expired_exact by done.
    rewrite not_true_iff_false. apply or_iff_compat_l. unfold kept. rewrite elem_of_dom. split.
    - intros [files [Hf He]%map_lookup_filter_Some]. split; [by eapply elem_of_dom_2|done].
    - intros [[files Hf]%elem_of_dom He]. exists files. by apply map_lookup_filter_Some. }
  assert (date_text today ∉ dk_plain (set_dirs left k)) as Hp' by done.
  pose proof (λ d', opened today d' _ Hp') as Ho. cbn zeta in Ho. cbn [dk_dirs set_dirs] in Ho.
  destruct (dw_file d) as [h|] eqn:Hf.
  2:{ rewrite Ho. cbn [dw_file with_file fs_Write disk_fs]. cbn [set_dirs dk_dirs fst snd]. rewrite appended.
      split_and!; try done. unfold writer_on. cbn. split; [done|]. eexists. by rewrite lookup_insert, decide_True, lookup_insert, decide_True by done. }
  unfold writer_on in Hw. rewrite Hf in Hw. destruct Hw as [-> (files & Hfiles & s & Hs)]. case_bool_decide as Hd.
  - rewrite Hf. cbn [fs_Write disk_fs set_dirs dk_dirs fst snd]. rewrite Hd in *.
    assert (left !! date_text today = Some files) as Hl by (apply map_lookup_filter_Some; split; [done|by apply today_kept]).
    assert (alter (alter (λ s, s ++ p)%string (log_file d)) (date_text today) left = logged_dirs today d p (dk_dirs k)) as Ha.
    { unfold logged_dirs. fold left. rewrite Hl. cbn [default]. unfold default. cbn. rewrite Hs.
      rewrite <-(insert_id left (date_text today) files) at 1 by done. rewrite <-(insert_id files (log_file d) s) at 1 by done. apply appended. }
    rewrite Ha. split_and!; try done.
    + intros Hx. specialize (Hk Hx). rewrite Hk, lookup_empty in Hfiles. done.
    + unfold writer_on. rewrite Hf. split; [by rewrite Hd|]. unfold logged_dirs. fold left. rewrite Hd. cbn [dk_dirs set_dirs].
      eexists. by rewrite lookup_insert, decide_True, lookup_insert, decide_True by done.
  - cbn [fs_Close disk_fs]. rewrite Ho. cbn [dw_file with_file fs_Write disk_fs set_dirs dk_dirs fst snd]. rewrite appended.
    split_and!; try done. unfold writer_on. cbn. split; [done|]. eexists. by rewrite lookup_insert, decide_True, lookup_insert, decide_True by done.
Qed.

(** *** Samples *)
Definition demo_disk : disk :=
  Disk true {["2025-01-01" := {["svc.jsonl" := "old"]}; "2025-01-02" := {["svc.jsonl" := "a"]}; "backup" := ∅]} {["2020-01-01"]}%string.
Definition demo_writer : disk_writer := NewDailyWriter "logs" " svc " 2.

(** The third of January 2025, a bit after midnight. *)
Definition demo_clock : Z := 20091 * 86400 + 5.

Lemma daily_write_exact_witness :
  let '(r, (d', k')) := WriteDaily disk_fs demo_clock "line" demo_writer demo_disk in
  r = (4, None) ∧ elements (dom (dk_dirs k')) ≡ₚ ["2025-01-02"; "2025-01-03"; "backup"]%string ∧
  dk_dirs k' = logged_dirs 20091 demo_writer "line" (dk_dirs demo_disk).
Proof.
  pose proof (daily_write_exact demo_clock "line" demo_writer demo_disk) as Hx. cbn zeta in Hx.
  assert (day_number demo_clock = 20091) as Hday by (vm_compute; reflexivity). rewrite Hday in Hx.
  destruct (WriteDaily _ _ _ _ _) as [r [d' k']]. destruct Hx as (Hr & Hdirs & _).
  - unfold four_digit_day. vm_compute. split; discriminate.
  - vm_compute. split; discriminate.
  - intros H. discriminate H.
  - exact I.
  - apply (bool_decide_unpack _). vm_compute. exact I.
  - rewrite Hr, Hdirs. split_and!; [vm_compute; reflexivity| |reflexivity].
    assert (∃ l, elements (dom (logged_dirs 20091 demo_writer "line" (dk_dirs demo_disk))) = l ∧ l ≡ₚ ["2025-01-02"; "2025-01-03"; "backup"]%string) as (l & -> & Hl); [|exact Hl].
    eexists. split; [vm_compute; reflexivity|]. apply (bool_decide_unpack _). vm_compute. exact I.
Defined.

(** Beyond the bound the cutoff wraps around into the future: a retention of
    200000000000000 days, which the environment may ask for, removes every
    day's directory at every write, today's with its lines. *)
Example retention_wraps :
  let d : disk_writer := NewDailyWriter "logs" "svc" 200000000000000 in
  let k := Disk true {["2025-01-02" := {["svc.jsonl" := "a"]}; "2025-01-03" := {["svc.jsonl" := "b"]}]} ∅ in
  lc_RetentionDays (DefaultConfig (λ v, if bool_decide (v = "LOG_RETENTION_DAYS") then "200000000000000" else "") "svc") = 200000000000000 ∧
  map (λ m, (m.1, map_to_list m.2)) (map_to_list (dk_dirs (WriteDaily disk_fs demo_clock "line" d k).2.2)) =
    [("2025-01-03", [("svc.jsonl", "line")])]%string.
Proof. split; vm_compute; reflexivity. Qed.

(** ** console_handler.go *)

(** A value of a record's attribute: a time with its RFC 3339 text, or the text
    of another value. *)
Inductive logValue := LTime (rfc3339 text : string) | LText (text : string).

Definition value_text (v : logValue) : string := match v with LTime _ t => t | LText t => t end.

(** [ReplaceAttr]: it is asked for every attribute, so a program's own attribute
    named level is written in capitals too. *)
Definition console_attr (key : string) (v : logValue) : string * logValue :=
  if bool_decide (key = "time"%string) then ("ts"%string, match v with LTime r _ => LText r | v => v end)
  else if bool_decide (key = "level"%string) then (key, LText (ToUpper (value_text v)))
  else (key, v).

(** ** manager.go *)
Record LogRecord := MkRecord { lr_Level : Z; lr_Message : string; lr_Attrs : list (string * logValue) }.

Inductive attr_op := WithAttrs (attrs : list (string * string)) | WithGroup (name : string).

(** A handler: where its lines go, the least level, and what it was derived
    with. *)
Inductive sink := ConsoleSink | DiscardSink | FileSink (id : nat).
Record Handler := MkHandler { hd_sink : sink; hd_level : Z; hd_ops : list attr_op }.

Definition derive (op : attr_op) (h : Handler) : Handler := MkHandler (hd_sink h) (hd_level h) (hd_ops h ++ [op]).
Definition handler_enabled (level : Z) (h : Handler) : bool := hd_level h <=? level.

(** [teeHandler] *)
Definition tee_enabled (level : Z) (hs : list Handler) : bool := existsb (handler_enabled level) hs.
Definition tee_with (op : attr_op) (hs : list Handler) : list Handler := map (derive op) hs.

(** The world of the logs: the console's lines, the writers, the disk. *)
Record LogWorld (W H : Type) := MkWorld { lw_console : list string; lw_writers : list (DailyWriter H); lw_disk : W }.
Arguments MkWorld {W H} _ _ _.
Arguments lw_console {W H} _.
Arguments lw_writers {W H} _.
Arguments lw_disk {W H} _.

Record Manager := MkManager { mg_service : string; mg_root : list Handler; mg_closers : list nat }.

Section manager.
Context {W H : Type}.
Variable fs : LogFS W H.
(** The lines of the text and the JSON handler. *)
Variable text_line json_line : list attr_op → LogRecord → string.

Definition first_error (a b : option error) : option error := match a with Some e => Some e | None => b end.

Definition handle_one (now : Z) (r : LogRecord) (h : Handler) (w : LogWorld W H) : option error * LogWorld W H :=
  match hd_sink h with
  | ConsoleSink => (None, MkWorld (lw_console w ++ [text_line (hd_ops h) r]) (lw_writers w) (lw_disk w))
  | DiscardSink => (None, w)
  | FileSink id =>
    match lw_writers w !! id with
    | None => (None, w)
    | Some d =>
      let '((_, e), (d, k)) := WriteDaily fs now (json_line (hd_ops h) r) d (lw_disk w) in
      (e, MkWorld (lw_console w) (<[id := d]> (lw_writers w)) k)
    end
  end.

(** [teeHandler.Handle]: every enabled handler; the first error. *)
Definition tee_handle (now : Z) (r : LogRecord) (hs : list Handler) (w : LogWorld W H) : option error * LogWorld W H :=
  foldl (λ st h,
    if handler_enabled (lr_Level r) h then let '(e, w) := handle_one now r h st.2 in (first_error st.1 e, w) else st) (None, w) hs.

Definition NewManager (cfg : LogConfig) (w : LogWorld W H) : Manager * LogWorld W H :=
  let service := serviceName (lc_Service cfg) in
  let console := if lc_ConsoleEnable cfg then [MkHandler ConsoleSink (lc_Level cfg) []] else [] in
  let id := length (lw_writers w) in
  let dir := if bool_decide (lc_Dir cfg = EmptyString) then defaultLogDir else lc_Dir cfg in
  let retention := if lc_RetentionDays cfg <=? 0 then defaultRetentionDays else lc_RetentionDays cfg in
  let file := if lc_FileEnable cfg then [MkHandler (FileSink id) (lc_Level cfg) []] else [] in
  let handlers := match console ++ file with [] => [MkHandler DiscardSink (lc_Level cfg) []] | hs => hs end in
  (MkManager service (tee_with (WithAttrs [("service"%string, service)]) handlers) (if lc_FileEnable cfg then [id] else []),
   MkWorld (lw_console w) (lw_writers w ++ if lc_FileEnable cfg then [NewDailyWriter dir service retention] else []) (lw_disk w)).

(** [Manager.Component], of a manager that is not nil. *)
Definition manager_component (name : string) (m : Manager) : list Handler :=
  if bool_decide (name = EmptyString) then mg_root m else tee_with (WithAttrs [("component"%string, name)]) (mg_root m).

(** [Manager.Close]: every closer; the first error. *)
Definition CloseManager (m : Manager) (w : LogWorld W H) : option error * LogWorld W H :=
  foldl (λ st id,
    match lw_writers st.2 !! id with
    | None => st
    | Some d => let '(e, (d, k)) := CloseDaily fs d (lw_disk st.2) in
                (first_error st.1 e, MkWorld (lw_console st.2) (<[id := d]> (lw_writers st.2)) k)
    end) (None, w) (mg_closers m).

(** The process's manager, and slog's default logger. *)
Record LogState := MkLogState { ls_current : option Manager; ls_slog : option (list Handler); ls_world : LogWorld W H }.

Definition InitLog (cfg : LogConfig) (s : LogState) : Manager * LogState :=
  let '(m, w) := NewManager cfg (ls_world s) in
  let w := match ls_current s with Some old => (CloseManager old w).2 | None => w end in
  (m, MkLogState (Some m) (Some (manager_component "app" m)) w).

Definition fallback_config : LogConfig := MkLogConfig defaultServiceFileName EmptyString LevelInfo 0 true false.

(** [Default]: the current manager, or one for the console that becomes it. *)
Definition DefaultManager (s : LogState) : Manager * LogState :=
  match ls_current s with
  | Some m => (m, s)
  | None => let '(m, w) := NewManager fallback_config (ls_world s) in (m, MkLogState (Some m) (ls_slog s) w)
  end.

Definition Component (name : string) (s : LogState) : list Handler * LogState :=
  let '(m, s) := DefaultManager s in (manager_component name m, s).

(** A call of a logger: a record that is not enabled goes nowhere; the handlers'
    error is ignored. *)
Definition log_with (now : Z) (r : LogRecord) (logger : list Handler) (s : LogState) : LogState :=
  if tee_enabled (lr_Level r) logger then MkLogState (ls_current s) (ls_slog s) (tee_handle now r logger (ls_world s)).2 else s.

(** The default manager is stable: once there is one, every call gives it. *)
Lemma default_stable s : let '(m, s') := DefaultManager s in ls_current s' = Some m ∧ DefaultManager s' = (m, s').
Proof. unfold DefaultManager. by destruct (ls_current s) as [m|] eqn:Hc; cbn; rewrite ?Hc. Qed.

(** With both outputs, a component's record reaches both or neither, by its
    level: the console even if the file fails, the file through the manager's
    own writer. *)
Lemma component_record cfg name now r s s1 m :
  lc_ConsoleEnable cfg = true → lc_FileEnable cfg = true → name ≠ EmptyString → InitLog cfg s = (m, s1) →
  let logger := (Component name s1).1 in
  let ops := [WithAttrs [("service"%string, serviceName (lc_Service cfg))]; WithAttrs [("component"%string, name)]] in
  let id := length (lw_writers (ls_world s)) in
  let s2 := log_with now r logger s1 in
  if lc_Level cfg <=? lr_Level r then
    lw_console (ls_world s2) = lw_console (ls_world s1) ++ [text_line ops r] ∧
    ∀ d, lw_writers (ls_world s1) !! id = Some d →
      let '(_, (d', k')) := WriteDaily fs now (json_line ops r) d (lw_disk (ls_world s1)) in
      lw_writers (ls_world s2) = <[id := d']> (lw_writers (ls_world s1)) ∧ lw_disk (ls_world s2) = k'
  else s2 = s1.
Proof.
  intros Hc Hf Hn. unfold InitLog, NewManager. rewrite Hc, Hf. cbn [app]. intros [= <- <-].
  set (w1 := match ls_current s with Some _ => _ | None => _ end).
  unfold Component, DefaultManager, manager_component, tee_with. cbn [ls_current]. rewrite bool_decide_eq_false_2 by done.
  unfold log_with, tee_enabled, handler_enabled, derive. cbn [mg_root map hd_sink hd_level hd_ops app fst existsb].
  destruct (lc_Level cfg <=? lr_Level r) eqn:Hl; cbn [orb]; [|done].
  unfold tee_handle, handler_enabled. cbn [foldl hd_level fst snd]. rewrite Hl.
  cbn [handle_one hd_sink hd_ops fst snd ls_world lw_console lw_writers lw_disk].
  destruct (lw_writers w1 !! length (lw_writers (ls_world s))) as [d|] eqn:Hd.
  - destruct (WriteDaily _ _ _ _ _) as [[n e] [d' k']] eqn:Hw. cbn. split; [done|]. intros d2 [= <-]. by rewrite Hw.
  - cbn. split; [done|]. by intros d [=].
Qed.
End manager.

Example levels : map ParseLevel [" DEBUG "; "Warning"; "error"; ""; "trace"]%string = [-4; 4; 8; 0; 0].
Proof. vm_compute. reflexivity. Qed.
