(* ===== verification/AuditTrail.v ===== *)
(** * Agent processes and the audit trail: internal/process

    The auditor publishes an event on the bus and writes it to the log; the
    legacy audit action is logged with the values of sensitive keys removed;
    the registry knows the agents' profiles; the process manager starts
    subagent processes and kills only those it started.

    The log is the list of the lines written; the operating system's process
    calls are the operations of a world of its own. *)
From Stdlib Require Import String Ascii.
From S2P Require Import Prelude GoStrings Strconv GoValue Transport.
From stdpp Require Import list.

Local Open Scope Z_scope.

(** ** Log lines *)
Inductive log_level := LevelDebug | LevelInfo | LevelWarn | LevelError.
Record log_line := Line { ll_level : log_level; ll_msg : string; ll_attrs : list (string * gvalue) }.

Definition levelFromString (level : string) : log_level :=
  if bool_decide (level = "DEBUG") then LevelDebug
  else if bool_decide (level ∈ ["WARN"; "WARNING"]) then LevelWarn
  else if bool_decide (level = "ERROR") then LevelError
  else LevelInfo.

Definition decodeJSONValue (raw : string) : option gvalue :=
  if bool_decide (raw = EmptyString) || negb (Valid raw) then None
  else match UnmarshalAny raw with Ok v => Some v | Fail _ => None end.

(** ** Audit events *)
Record AuditEvent := {
  ae_TraceID : string;
  ae_SessionID : string;
  ae_TaskID : string;
  ae_ParentTaskID : string;
  ae_ToolCallID : string;
  ae_Event : string;
  ae_Actor : string;
  ae_Level : string;
  ae_Status : string;
  ae_Error : string;
  ae_Data : string;
  ae_TimestampMs : Z
}.

Definition opt_string (name s : string) : list (string * json) :=
  if bool_decide (s = EmptyString) then [] else [(name, jstring s)].

(** [json.Marshal(event)]; [None] is the encoder's error. *)
Definition audit_json (e : AuditEvent) : option json :=
  data ← (if bool_decide (ae_Data e = EmptyString) then Some []
          else p ← raw_json (ae_Data e); Some [("data"%string, p)]);
  Some (JObj (opt_string "trace_id" (ae_TraceID e) ++ opt_string "session_id" (ae_SessionID e) ++
    [("task_id"%string, jstring (ae_TaskID e))] ++ opt_string "parent_task_id" (ae_ParentTaskID e) ++
    opt_string "tool_call_id" (ae_ToolCallID e) ++
    [("event"%string, jstring (ae_Event e)); ("actor"%string, jstring (ae_Actor e))] ++
    opt_string "level" (ae_Level e) ++ opt_string "status" (ae_Status e) ++ opt_string "error" (ae_Error e) ++
    data ++ [("timestamp_ms"%string, jint (ae_TimestampMs e))])).

(** ** The auditor *)

(** [au_events] tells whether the auditor has a bus. *)
Record Auditor := { au_events : bool; au_senderID : string }.

(** The defaults for actor, level and time; [now] is [time.Now().UnixMilli()]. *)
Definition complete_event (senderID : string) (now : Z) (e : AuditEvent) : AuditEvent :=
  {| ae_TraceID := ae_TraceID e; ae_SessionID := ae_SessionID e; ae_TaskID := ae_TaskID e;
     ae_ParentTaskID := ae_ParentTaskID e; ae_ToolCallID := ae_ToolCallID e; ae_Event := ae_Event e;
     ae_Actor := if bool_decide (ae_Actor e = "") then senderID else ae_Actor e;
     ae_Level := if bool_decide (ae_Level e = "") then "INFO" else ae_Level e;
     ae_Status := ae_Status e; ae_Error := ae_Error e; ae_Data := ae_Data e;
     ae_TimestampMs := if ae_TimestampMs e =? 0 then now else ae_TimestampMs e |}.

Definition auditKey (taskID : string) : string := if bool_decide (taskID = "") then "global" else taskID.

Definition audit_topic (taskID : string) : string :=
  if bool_decide (taskID = "") then "audit" else ("audit." ++ taskID)%string.

Definition audit_message (senderID : string) (e : AuditEvent) (payload : string) : Message :=
  {| MessageID := ("audit." ++ auditKey (ae_TaskID e) ++ "." ++ ae_Event e ++ "." ++ FormatInt (ae_TimestampMs e))%string;
     ParentTaskID := ""; SenderID := senderID; ReceiverID := "audit"; TargetAgent := "";
     Payload := payload; Timestamp := ae_TimestampMs e |}.

Definition audit_line (senderID : string) (e : AuditEvent) : log_line :=
  Line (levelFromString (ae_Level e)) "audit event"
    ([("component"%string, GString "audit"); ("actor"%string, GString senderID);
      ("event"%string, GString (ae_Event e)); ("task_id"%string, GString (ae_TaskID e));
      ("parent_task_id"%string, GString (ae_ParentTaskID e)); ("tool_call_id"%string, GString (ae_ToolCallID e));
      ("status"%string, GString (ae_Status e)); ("error"%string, GString (ae_Error e))] ++
     (if bool_decide (ae_TraceID e = "") then [] else [("trace_id"%string, GString (ae_TraceID e))]) ++
     (if bool_decide (ae_SessionID e = "") then [] else [("session_id"%string, GString (ae_SessionID e))]) ++
     match decodeJSONValue (ae_Data e) with Some v => [("data"%string, v)] | None => [] end).

(** [Record]: what it returns, the bus afterwards, and the lines it logs. *)
Definition RecordEvent `{Transport T} (a : option Auditor) (now : Z) (c : ctx) (event : AuditEvent) (t : T)
    : option error * T * list log_line :=
  match a with
  | None => (None, t, [])
  | Some a =>
    let e := complete_event (au_senderID a) now event in
    match audit_json e with
    | None => (Some (new_error "json: error calling MarshalJSON for type json.RawMessage"), t, [])
    | Some payload =>
      let '(err, t') := if au_events a
                        then eb_Publish c (audit_topic (ae_TaskID e)) (audit_message (au_senderID a) e (print payload)) t
                        else (None, t) in
      match err with
      | Some err => (Some err, t', [])
      | None => (None, t', [audit_line (au_senderID a) e])
      end
    end
  end.

(** ** Redaction *)
Definition redactedValue : string := "[REDACTED]".

Fixpoint drop_chars (cs : list ascii) (s : string) : string :=
  match s with
  | EmptyString => EmptyString
  | String c r => if bool_decide (c ∈ cs) then drop_chars cs r else String c (drop_chars cs r)
  end.

Definition sensitiveFragments : list string :=
  ["apikey"; "token"; "secret"; "password"; "authorization"; "credential"].

Definition isSensitiveKey (key : string) : bool :=
  existsb (Contains (drop_chars ["_"; "-"; " "]%char (ToLower key))) sensitiveFragments.

Fixpoint redactValue (v : gvalue) : gvalue :=
  match v with
  | GObj ms => GObj (map (λ kv, (kv.1, if isSensitiveKey kv.1 then GString redactedValue else redactValue kv.2)) ms)
  | GSlice l => GSlice (map redactValue l)
  | _ => v
  end.

(** An unreadable text is answered as it is. *)
Definition redactJSON (raw : string) : string :=
  if bool_decide (raw = EmptyString) || negb (Valid raw) then raw
  else match UnmarshalAny raw with Fail _ => raw | Ok v => print (encode_value (redactValue v)) end.

Definition legacyStatus (level : string) : string :=
  let l := ToUpper level in
  if bool_decide (l = "ERROR") then "error"
  else if bool_decide (l ∈ ["WARN"; "WARNING"]) then "warning" else "ok".

(** [LogAction], [payload] being the text [mustJSON] makes of its argument. *)
Definition LogAction (agentID action level payload : string) : log_line :=
  Line (levelFromString level) "legacy audit action"
    ([("component"%string, GString "audit"); ("actor"%string, GString agentID);
      ("event"%string, GString action); ("stage"%string, GString action);
      ("task_id"%string, GString agentID); ("status"%string, GString (legacyStatus level))] ++
     match decodeJSONValue (redactJSON payload) with Some v => [("data"%string, v)] | None => [] end).

(** ** Agent profiles *)
Record AgentProfile := { ap_Name : string; ap_Description : string; ap_RolePrompt : string }.

#[export] Instance AgentProfile_eq_dec : EqDecision AgentProfile.
Proof. solve_decision. Defined.

Definition AgentRegistry : Type := gmap string AgentProfile.

Definition RegisterProfile (p : AgentProfile) (r : AgentRegistry) : AgentRegistry := <[ap_Name p := p]> r.

Definition registerDefaults (r : AgentRegistry) : AgentRegistry :=
  RegisterProfile {| ap_Name := "coder"; ap_Description := "Expert in writing and debugging Go, Python, and other languages.";
              ap_RolePrompt := "You are an Expert Coder. You write clean, efficient, and well-documented code." |}
    (RegisterProfile {| ap_Name := "researcher"; ap_Description := "Specializes in searching information and gathering data.";
                 ap_RolePrompt := "You are a Researcher. Your goal is to find accurate and up-to-date information on the given topic." |}
      (RegisterProfile {| ap_Name := "orchestrator"; ap_Description := "The team lead that manages workflows and delegates tasks.";
                   ap_RolePrompt := "You are the Orchestrator. Your job is to break down complex tasks and delegate them to specialized agents using @agent_name." |} r)).

Definition NewAgentRegistry : AgentRegistry := registerDefaults ∅.

Definition GetProfile (name : string) (r : AgentRegistry) : result AgentProfile :=
  match r !! name with Some p => Ok p | None => Fail (new_error ("agent not found: " ++ name)%string) end.

Definition ListAgents `{RangeOrder} (r : AgentRegistry) : list AgentProfile :=
  omap (λ k, r !! k) (range_set "ListAgents" (dom r)).

(** ** Processes *)

(** The calls of [os] and [os/exec]: start a program with arguments, find and
    kill a process. *)
Record OS (W : Type) := {
  os_Start : string → list string → W → result Z * W;
  os_FindProcess : Z → W → option error;
  os_Kill : Z → W → option error * W
}.
Arguments os_Start {W} _ _ _ _.
Arguments os_FindProcess {W} _ _ _.
Arguments os_Kill {W} _ _ _.

(** A manager and the operating system. *)
Record procs (W : Type) := Procs { pm_BinaryPath : string; pm_tracked : gset Z; pm_os : W }.
Arguments Procs {W} _ _ _.
Arguments pm_BinaryPath {W} _.
Arguments pm_tracked {W} _.
Arguments pm_os {W} _.

Section processes.
Context {W : Type} (O : OS W).

(** [exec.CommandContext]'s [Start] refuses a context that is done. *)
Definition SpawnAgent (c : ctx) (agentType taskID : string) (m : procs W) : result Z * procs W :=
  if bool_decide (pm_BinaryPath m = "") then (Fail (new_error "binary path is required"), m)
  else match c with
  | Some e => (Fail e, m)
  | None =>
    match os_Start O (pm_BinaryPath m) ["--agent-type"; agentType; "--task-id"; taskID]%string (pm_os m) with
    | (Fail e, w) => (Fail e, Procs (pm_BinaryPath m) (pm_tracked m) w)
    | (Ok pid, w) => (Ok pid, Procs (pm_BinaryPath m) ({[pid]} ∪ pm_tracked m) w)
    end
  end.

Definition KillAgent (pid : Z) (m : procs W) : option error * procs W :=
  if pid <=? 0 then (Some (new_error "invalid pid"), m)
  else if negb (bool_decide (pid ∈ pm_tracked m)) then (Some (new_error ("untracked pid: " ++ FormatInt pid)%string), m)
  else
    match os_FindProcess O pid (pm_os m) with
    | Some e => (Some e, m)
    | None =>
      match os_Kill O pid (pm_os m) with
      | (Some e, w) => (Some e, Procs (pm_BinaryPath m) (pm_tracked m) w)
      | (None, w) => (None, Procs (pm_BinaryPath m) (pm_tracked m ∖ {[pid]}) w)
      end
    end.
End processes.

Example redact_sample :
  redactJSON (jtext "{'user':'u','API-Key':'k1','nested':[{'access_token':{'a':1}},{'Author':2.0}]}") =
  jtext "{'API-Key':'[REDACTED]','nested':[{'access_token':'[REDACTED]'},{'Author':2}],'user':'u'}".
Proof. vm_compute. reflexivity. Qed.

(** ** What redaction leaves visible *)

Inductive path_step := Key (k : string) | Index (i : nat).

Definition step_into (s : path_step) (v : gvalue) : option gvalue :=
  match s, v with
  | Key k, GObj ms => get_key k ms
  | Index i, GSlice l => l !! i
  | _, _ => None
  end.

Definition at_path (p : list path_step) (v : gvalue) : option gvalue := foldl (λ o s, o ≫= step_into s) (Some v) p.

(** A key is secret when, in lower case and without underscores, dashes and
    blanks, it has one of six words in it. *)
Definition secret_key (k : string) : Prop :=
  ∃ before word after,
    word ∈ ["apikey"; "token"; "secret"; "password"; "authorization"; "credential"]%string ∧
    string_of_list_ascii (filter (λ c, c ∉ ["_"; "-"; " "]%char) (list_ascii_of_string (ToLower k))) = (before ++ word ++ after)%string.

Definition in_clear (s : path_step) : Prop := match s with Key k => ¬ secret_key k | Index _ => True end.

(** What a value is, its elements apart: a value without elements itself, the
    length of a slice, the keys of a map. *)
Inductive outline := Plain (v : gvalue) | Slice (length : nat) | Keys (l : list string).
Definition outline_of (v : gvalue) : outline :=
  match v with GSlice l => Slice (length l) | GObj ms => Keys (map fst ms) | _ => Plain v end.

Lemma drop_chars_filter cs s : drop_chars cs s = string_of_list_ascii (filter (λ c, c ∉ cs) (list_ascii_of_string s)).
Proof.
  induction s as [|c s IH]; [done|]. cbn [drop_chars list_ascii_of_string]. rewrite filter_cons.
  case_bool_decide as Hc; [by rewrite decide_False by auto|]. rewrite decide_True by done. cbn. by rewrite IH.
Qed.

Lemma sensitive_secret k : isSensitiveKey k = true ↔ secret_key k.
Proof.
  unfold isSensitiveKey, secret_key. rewrite existsb_exists, drop_chars_filter. split.
  - intros (w & Hw & (a & b & Heq)%Contains_spec). exists a, w, b. split; [by apply list_elem_of_In|done].
  - intros (a & w & b & Hw & Heq). exists w. split; [by apply list_elem_of_In|]. apply Contains_spec. by exists a, b.
Qed.

Lemma get_key_map (f : string → gvalue → gvalue) k ms :
  get_key k (map (λ kv, (kv.1, f kv.1 kv.2)) ms) = f k <$> get_key k ms.
Proof.
  induction ms as [|[k' v] ms IH]; [done|]. cbn. destruct (decide (k = k')) as [->|Hk].
  - by rewrite bool_decide_eq_true_2.
  - by rewrite bool_decide_eq_false_2.
Qed.

Lemma step_into_redacted s v :
  step_into s (redactValue v) =
  (λ x, match s with Key k => if isSensitiveKey k then GString redactedValue else redactValue x | Index _ => redactValue x end) <$> step_into s v.
Proof.
  destruct s as [k|i], v as [| | | | |l|ms]; try done; cbn [step_into redactValue].
  - rewrite (get_key_map (λ k v, if isSensitiveKey k then GString redactedValue else redactValue v)).
    by destruct (get_key k ms), (isSensitiveKey k).
  - apply list_lookup_fmap.
Qed.

Lemma at_path_snoc p s v : at_path (p ++ [s]) v = at_path p v ≫= step_into s.
Proof. unfold at_path. by rewrite foldl_snoc. Qed.

Lemma at_path_redacted p v : Forall in_clear p → at_path p (redactValue v) = redactValue <$> at_path p v.
Proof.
  induction p as [|s p IH] using rev_ind; [done|]. rewrite Forall_app, Forall_singleton. intros [Hp Hs].
  rewrite !at_path_snoc, IH by done. destruct (at_path p v) as [x|]; [|done]. cbn. rewrite step_into_redacted.
  destruct s as [k|i]; [|by destruct (step_into _ x)]. cbn in Hs. rewrite <-sensitive_secret in Hs.
  destruct (isSensitiveKey k); [done|]. by destruct (step_into _ x).
Qed.

Lemma outline_redacted v : outline_of (redactValue v) = outline_of v.
Proof.
  destruct v as [| | | | |l|ms]; try done; cbn; f_equal; [apply length_map|]. rewrite map_map. by apply map_ext.
Qed.

(** The text behind a logged value: readable exactly when it is decoded. *)
Lemma UnmarshalAny_Valid raw v : UnmarshalAny raw = Ok v → raw ≠ EmptyString ∧ Valid raw = true.
Proof.
  unfold UnmarshalAny. destruct (parse raw) as [j|] eqn:Hp; [|done]. intros _. split; [by intros ->|].
  apply Valid_parse. eauto.
Qed.

(** C37: The redacted text encodes a value with the shape of the payload: every
    value under a secret key, at any depth of maps and slices, is the marker;
    what is reached through keys that are not secret is as it was: the same
    null, boolean, number or text, a slice of the same length, a map with the
    same keys.  A payload that cannot be read is answered as it is, and no
    data is logged for it. *)
Theorem redaction_complete raw :
  match UnmarshalAny raw with
  | Fail _ => redactJSON raw = raw ∧ decodeJSONValue raw = None
  | Ok v =>
    ∃ v', redactJSON raw = print (encode_value v') ∧
      (∀ p, Forall in_clear p → outline_of <$> at_path p v' = outline_of <$> at_path p v) ∧
      (∀ p k, Forall in_clear p → secret_key k →
        at_path (p ++ [Key k]) v' = (λ _, GString "[REDACTED]") <$> at_path (p ++ [Key k]) v)
  end.
Proof.
  destruct (UnmarshalAny raw) as [v|e] eqn:Hu; unfold redactJSON, decodeJSONValue; rewrite Hu.
  - destruct (UnmarshalAny_Valid raw v Hu) as [Hne Hv]. rewrite bool_decide_eq_false_2, Hv by done.
    exists (redactValue v). split; [done|]. split.
    + intros p Hp. rewrite at_path_redacted by done. destruct (at_path p v); [|done]. cbn. by rewrite outline_redacted.
    + intros p k Hp Hk%sensitive_secret. rewrite !at_path_snoc, at_path_redacted by done.
      destruct (at_path p v) as [y|]; [|done]. cbn [fmap option_fmap option_map mbind option_bind].
      rewrite step_into_redacted, Hk. done.
  - by destruct (bool_decide _), (Valid raw).
Qed.

(** ** The process table *)
Section tracked.
Context {W : Type} (O : OS W).

Lemma KillAgent_untracked pid m : pid ∉ pm_tracked m → ∃ e, KillAgent O pid m = (Some e, m).
Proof.
  intros H. unfold KillAgent. destruct (pid <=? 0); [eauto|].
  rewrite bool_decide_eq_false_2 by done. simpl. eauto.
Qed.

Lemma KillAgent_tracked pid m :
  (KillAgent O pid m).1 = None → pid ∈ pm_tracked m ∧ pm_tracked (KillAgent O pid m).2 = pm_tracked m ∖ {[pid]}.
Proof.
  unfold KillAgent. destruct (pid <=? 0); [done|]. case_bool_decide; simpl; [|done].
  destruct (os_FindProcess O pid (pm_os m)); [done|]. by destruct (os_Kill O pid (pm_os m)) as [[e|] w].
Qed.
End tracked.
