(* ===== verification/Skills.v ===== *)
(** * Skills: internal/skill (skill.go, executor.go, builtin.go, wasm.go)

    A skill is what an agent can do: a name, a description, a parameter schema,
    whether it writes, and its execution on a world [W].  The registry finds a
    skill by name, the executor runs a tool call and reports it as a tool
    result.  The WebAssembly sandbox is a parameter. *)
From Stdlib Require Import String Ascii.
From S2P Require Import Prelude GoStrings Strconv Contracts Bus.
From stdpp Require Import list.

Local Open Scope Z_scope.

Section skills.
Context {W : Type}.

(** [time.Now]: the milliseconds of the monotonic clock, and the RFC 3339 text
    of the wall clock. *)
Context (clock_ms : W → Z) (clock_text : W → string).

Record Skill := {
  sk_Name : string;
  sk_Description : string;
  sk_Schema : string;
  sk_IsWriteOperation : bool;
  sk_Execute : string → W → result string * W
}.

(** ** The registry *)
Abbreviation Registry := (gmap string Skill).

Definition NewRegistry : Registry := ∅.
Definition RegisterSkill (s : Skill) (r : Registry) : Registry := <[sk_Name s := s]> r.
Definition GetSkill (name : string) (r : Registry) : option Skill := r !! name.
Definition ListSkills `{RangeOrder} (r : Registry) : list Skill := omap (λ k, r !! k) (range_set "List" (dom r)).

(** ** The executor *)
Definition ExecuteCall (r : Registry) (call : ToolCall) (w : W) : (ToolResult * option error) * W :=
  let start := clock_ms w in
  match GetSkill (tc_Name call) r with
  | None =>
    let err := new_error ("tool " ++ tc_Name call ++ " not found")%string in
    ((Build_ToolResult (tc_ID call) (tc_Name call) false "" (err_msg err) 0, Some err), w)
  | Some s =>
    let '(out, w') := sk_Execute s (tc_Arguments call) w in
    let d := clock_ms w' - start in
    match out with
    | Fail err => ((Build_ToolResult (tc_ID call) (tc_Name call) false "" (err_msg err) d, Some err), w')
    | Ok output => ((Build_ToolResult (tc_ID call) (tc_Name call) true output "" d, None), w')
    end
  end.

(** ** The built-in skills *)
Definition time_json (now : string) : json := JObj [("time"%string, jstring now)].

Definition CurrentTime_Execute (params : string) (w : W) : result string * W :=
  (Ok (print (time_json (clock_text w))), w).

Definition CurrentTimeSkill : Skill :=
  {| sk_Name := "get_current_time";
     sk_Description := "Returns the current server time.";
     sk_Schema := jtext "{'type': 'object', 'properties': {}}";
     sk_IsWriteOperation := false;
     sk_Execute := CurrentTime_Execute |}.

(** The parameters of [http_get]: the URL. *)
Definition url_fields : list (field string) := [string_field "url" (λ v _, v)].

(** The answer is made up: no request is sent. *)
Definition page_json (url : string) : json :=
  let mockResp := ("Mock response from " ++ url ++ ": <html>...</html>")%string in
  JObj [("body", jstring mockResp); ("status", jstring "200")]%string.

Definition HttpGet_Execute (params : string) (w : W) : result string * W :=
  match Unmarshal url_fields EmptyString params with
  | Fail e => (Fail (Err ("invalid params: " ++ err_msg e)%string (err_chain e)), w)
  | Ok url => (Ok (print (page_json url)), w)
  end.

(** The schema's text is indented in the source. *)
Definition nl_tab (n : nat) (s : string) : string :=
  (String "010" (Nat.iter n (String "009") EmptyString) ++ s)%string.

Definition HttpGetSkill : Skill :=
  {| sk_Name := "http_get";
     sk_Description := "Fetches the content of a given URL.";
     sk_Schema := jtext ("{" ++ nl_tab 2 "'type': 'object'," ++ nl_tab 2 "'properties': {" ++
       nl_tab 3 "'url': {'type': 'string', 'description': 'The URL to fetch'}" ++ nl_tab 2 "}," ++
       nl_tab 2 "'required': ['url']" ++ nl_tab 1 "}")%string;
     sk_IsWriteOperation := false;
     sk_Execute := HttpGet_Execute |}.

(** ** WebAssembly skills: the module runs in a sandbox *)
Context (ExecuteWasm : string → list string → W → result string * W).

Definition Wasm_Execute (wasmBytes params : string) (w : W) : result string * W :=
  match ExecuteWasm wasmBytes [params] w with
  | (Fail e, w') => (Fail (Err ("wasm execution failed: " ++ err_msg e)%string (err_chain e)), w')
  | (Ok stdout, w') => (Ok stdout, w')
  end.

Definition NewWasmSkill (name desc schema : string) (isWrite : bool) (wasmBytes : string) : Skill :=
  {| sk_Name := name; sk_Description := desc; sk_Schema := schema; sk_IsWriteOperation := isWrite;
     sk_Execute := Wasm_Execute wasmBytes |}.

(** ** Properties *)

(** What the executor answers a call with: the call's identifier and name, and
    success exactly when the skill is registered and answered. *)
Lemma ExecuteCall_spec r call w :
  let '((res, err), w') := ExecuteCall r call w in
  tr_ToolCallID res = tc_ID call ∧ tr_Name res = tc_Name call ∧
  (tr_Success res = true ↔ err = None) ∧
  match r !! tc_Name call with
  | None => err ≠ None ∧ w' = w
  | Some s => w' = (sk_Execute s (tc_Arguments call) w).2 ∧
              (if err then ∃ e, (sk_Execute s (tc_Arguments call) w).1 = Fail e ∧ err = Some e ∧ tr_Error res = err_msg e
               else (sk_Execute s (tc_Arguments call) w).1 = Ok (tr_Output res))
  end.
Proof.
  unfold ExecuteCall, GetSkill. destruct (r !! tc_Name call) as [s|]; [|done].
  destruct (sk_Execute s (tc_Arguments call) w) as [[out|e] w']; cbn; naive_solver.
Qed.

(** The built-in skills answer JSON, whatever the clock and the parameters. *)
Lemma builtin_output_valid s params w out :
  s ∈ [CurrentTimeSkill; HttpGetSkill] → (sk_Execute s params w).1 = Ok out → Valid out = true.
Proof.
  rewrite !elem_of_cons, elem_of_nil. intros [->|[->|[]]]; cbn [sk_Execute CurrentTimeSkill HttpGetSkill].
  - intros Ho. assert (out = print (time_json (clock_text w))) as -> by (change (Ok (print (time_json (clock_text w))) = Ok out) in Ho; congruence).
    apply Valid_print. change (members_ok 1 [("time"%string, jstring (clock_text w))] = true). by rewrite members_ok_string.
  - unfold HttpGet_Execute. destruct (Unmarshal _ _ _) as [url|e]; cbn [fst]; [|done]. intros Ho.
    assert (out = print (page_json url)) as -> by congruence. apply Valid_print.
    unfold page_json. eapply (members_ok_string 1 "body" _ [("status"%string, jstring "200")]). done.
Qed.
End skills.
