(* ===== verification/Sandbox.v ===== *)
(** * The WebAssembly sandbox: internal/sandbox/wazero_executor.go

    A module is run with its standard output and error collected from two
    pipes.  The WebAssembly runtime is a parameter: what a module writes, in
    order, and the error of its run. *)
From Stdlib Require Import String Ascii.
From S2P Require Import Prelude GoStrings Strconv Contracts Skills.
From stdpp Require Import list.

Local Open Scope Z_scope.

(** A write to one of the two streams. *)
Inductive stream := Stdout | Stderr.
#[export] Instance stream_eq_dec : EqDecision stream.
Proof. solve_decision. Defined.

Section sandbox.
Context {W : Type}.
(** [InstantiateWithConfig]: the writes, the error, and the module's state. *)
Variable instantiate : string → list string → W → (list (stream * string) * option error) * W.
(** [Module.Close]. *)
Variable close_module : W → W.

(** What a pipe's reader has read when the writer is closed. *)
Definition collected (s : stream) (writes : list (stream * string)) : string :=
  foldr (λ p t, if bool_decide (p.1 = s) then (p.2 ++ t)%string else t) EmptyString writes.

Definition ExecuteWasm (wasmBytes : string) (args : list string) (w : W) : (string * option error) * W :=
  let '((writes, err), w) := instantiate wasmBytes ("wasm_process"%string :: args) w in
  match err with
  | Some e => ((EmptyString, Some (Err ("failed to instantiate wasm module: " ++ err_msg e)%string (err_chain e))), w)
  | None =>
    let out := collected Stdout writes in
    let serr := collected Stderr writes in
    ((out, if bool_decide (serr = EmptyString) then None else Some (new_error ("wasm stderr: " ++ serr))), close_module w)
  end.

(** As a skill calls it: the output of a failed run is dropped. *)
Definition sandbox_result (wasmBytes : string) (args : list string) (w : W) : result string * W :=
  let '((out, err), w) := ExecuteWasm wasmBytes args w in (match err with Some e => Fail e | None => Ok out end, w).

(** The runtime's start: it is closed when the system interface is refused. *)
Definition NewWazeroExecutor (wasi : W → option error * W) (close_runtime : W → W) (w : W) : option error * W :=
  match wasi w with (Some e, w) => (Some e, close_runtime w) | (None, w) => (None, w) end.

(** A WebAssembly skill runs its module once, with the parameters as its only
    argument.  It answers what the module wrote to its standard output exactly
    when the run has no error and nothing was written to the standard error;
    otherwise the call fails, and its error tells the cause. *)
Theorem wasm_skill_exact name desc schema isWrite wasmBytes params w :
  let '((writes, err), w') := instantiate wasmBytes ["wasm_process"; params]%string w in
  let '(r, w'') := sk_Execute (NewWasmSkill sandbox_result name desc schema isWrite wasmBytes) params w in
  w'' = (match err with Some _ => w' | None => close_module w' end) ∧
  match r with
  | Ok out => err = None ∧ (∀ t, (Stderr, t) ∈ writes → t = EmptyString) ∧ out = collected Stdout writes
  | Fail e => (∃ e', err = Some e' ∧ err_msg e = ("wasm execution failed: failed to instantiate wasm module: " ++ err_msg e')%string) ∨
      (err = None ∧ (∃ t, (Stderr, t) ∈ writes ∧ t ≠ EmptyString) ∧ err_msg e = ("wasm execution failed: wasm stderr: " ++ collected Stderr writes)%string)
  end.
Proof.
  assert (∀ l, collected Stderr l = EmptyString ↔ ∀ t, (Stderr, t) ∈ l → t = EmptyString) as Hc.
  { induction l as [|[s t] l IH]; [by split; [intros _ t ?%not_elem_of_nil|]|]. cbn [collected foldr fst snd]. fold (collected Stderr l).
    case_bool_decide as Hs; [subst|].
    - split; [intros Ht u Hu%elem_of_cons|].
      { assert (t = EmptyString ∧ collected Stderr l = EmptyString) as [-> Hl] by (destruct t; [done|discriminate]).
        destruct Hu as [?|Hu]; [by simplify_eq|by apply IH]. }
      intros Hall. rewrite (Hall t) by left. apply IH. intros u Hu. apply Hall. by right.
    - rewrite IH. split; intros Hall u Hu; [apply elem_of_cons in Hu as [?|Hu]; [by simplify_eq|by apply Hall]|apply Hall; by right]. }
  cbn [sk_Execute NewWasmSkill]. unfold Wasm_Execute, sandbox_result, ExecuteWasm.
  destruct (instantiate _ _ w) as [[writes [e|]] w']; cbn; [split; [done|]; left; by exists e|].
  case_bool_decide as He; cbn; (split; [done|]); [by rewrite Hc in He|]. right. split_and!; [done| |done].
  destruct (list_find (λ p, p.1 = Stderr ∧ p.2 ≠ EmptyString) writes) as [[i [s t]]|] eqn:Hf.
  - apply list_find_Some in Hf as (Hi & [Hs Ht] & _). cbn in Hs, Ht. subst s. exists t. split; [by eapply list_elem_of_lookup_2|done].
  - destruct He. apply Hc. intros t Ht. apply list_find_None in Hf. rewrite Forall_forall in Hf. destruct (decide (t = EmptyString)) as [|Hn]; [done|].
    destruct (Hf _ Ht). by split.
Qed.
End sandbox.

Example runs :
  (sandbox_result (λ b a w, (([(Stdout, b); (Stderr, ""); (Stdout, "!")]%string, None), w)) S "hi" [] 0%nat, 
   fst (sandbox_result (λ b a w, (([(Stdout, b); (Stderr, "bad")]%string, None), w)) S "hi" [] 0%nat)) =
  ((Ok "hi!"%string, 1%nat), Fail (new_error "wasm stderr: bad")).
Proof. reflexivity. Qed.
