(* ===== verification/TaskResult.v ===== *)
(** * Task results (internal/bus/message.go)

    What a subagent reports to the orchestrator: its JSON encoding and its
    decoding, and that a result survives the journey whenever the encoder
    accepts it. *)
From Stdlib Require Import String Ascii.
From S2P Require Import Prelude GoStrings Strconv GoValue Bus.
From stdpp Require Import list.

Local Open Scope Z_scope.

Record TaskResult := {
  res_TaskID : string;
  res_ParentTaskID : string;
  res_AgentName : string;
  res_Status : string;
  res_Output : string;
  res_Error : string;
  res_Timestamp : Z
}.

Definition zero_result : TaskResult :=
  {| res_TaskID := ""; res_ParentTaskID := ""; res_AgentName := ""; res_Status := ""; res_Output := "";
     res_Error := ""; res_Timestamp := 0 |}.

Definition set_res_TaskID (v : string) (r : TaskResult) : TaskResult :=
  Build_TaskResult v (res_ParentTaskID r) (res_AgentName r) (res_Status r) (res_Output r) (res_Error r) (res_Timestamp r).
Definition set_res_ParentTaskID (v : string) (r : TaskResult) : TaskResult :=
  Build_TaskResult (res_TaskID r) v (res_AgentName r) (res_Status r) (res_Output r) (res_Error r) (res_Timestamp r).
Definition set_res_AgentName (v : string) (r : TaskResult) : TaskResult :=
  Build_TaskResult (res_TaskID r) (res_ParentTaskID r) v (res_Status r) (res_Output r) (res_Error r) (res_Timestamp r).
Definition set_res_Status (v : string) (r : TaskResult) : TaskResult :=
  Build_TaskResult (res_TaskID r) (res_ParentTaskID r) (res_AgentName r) v (res_Output r) (res_Error r) (res_Timestamp r).
Definition set_res_Output (v : string) (r : TaskResult) : TaskResult :=
  Build_TaskResult (res_TaskID r) (res_ParentTaskID r) (res_AgentName r) (res_Status r) v (res_Error r) (res_Timestamp r).
Definition set_res_Error (v : string) (r : TaskResult) : TaskResult :=
  Build_TaskResult (res_TaskID r) (res_ParentTaskID r) (res_AgentName r) (res_Status r) (res_Output r) v (res_Timestamp r).
Definition set_res_Timestamp (v : Z) (r : TaskResult) : TaskResult :=
  Build_TaskResult (res_TaskID r) (res_ParentTaskID r) (res_AgentName r) (res_Status r) (res_Output r) (res_Error r) v.

(** The struct tags. *)
Definition result_fields : list (field TaskResult) :=
  [ string_field "task_id" set_res_TaskID;
    string_field "parent_task_id" set_res_ParentTaskID;
    string_field "agent_name" set_res_AgentName;
    string_field "status" set_res_Status;
    raw_field "output" set_res_Output;
    string_field "error" set_res_Error;
    int64_field "timestamp" set_res_Timestamp ].

(** [json.Marshal(result)]; [None] is the encoder's error, for an output that
    is not JSON. *)
Definition result_json (r : TaskResult) : option json :=
  out ← raw_json (res_Output r);
  Some (JObj ([("task_id", jstring (res_TaskID r))]%string ++ omitempty "parent_task_id" (res_ParentTaskID r) ++
    [("agent_name", jstring (res_AgentName r)); ("status", jstring (res_Status r)); ("output", out)]%string ++
    omitempty "error" (res_Error r) ++ [("timestamp", jint (res_Timestamp r))]%string)).

(** [_ = json.Unmarshal(payload, &res)]. *)
Definition DecodeResult (payload : string) : TaskResult := UnmarshalLenient result_fields zero_result payload.

(** ** Round trip *)
Record result_ok (r : TaskResult) : Prop := {
  rok_task : valid_utf8 (res_TaskID r) = true;
  rok_parent : valid_utf8 (res_ParentTaskID r) = true;
  rok_agent : valid_utf8 (res_AgentName r) = true;
  rok_status : valid_utf8 (res_Status r) = true;
  rok_error : valid_utf8 (res_Error r) = true;
  rok_time : in_int64 (res_Timestamp r)
}.

Lemma store_optional {A} strict (fs : list (field A)) name (set : string → A → A) s l a :
  valid_utf8 s = true → find_field fs (unquote name) = Some (string_field name set) → set EmptyString a = a →
  store_members strict fs (map field_text (omitempty name s ++ l)) a = store_members strict fs (map field_text l) (set s a).
Proof.
  intros Hs Hf Ha. unfold omitempty. case_bool_decide as He; [by rewrite He, Ha|].
  cbn [app]. by rewrite (store_string strict fs name set).
Qed.

(** The text of a result decodes to it, its output compacted and escaped. *)
Lemma result_decodes r out :
  result_ok r → raw_json (res_Output r) = Some out → json_ok 1 out = true →
  ∃ v, result_json r = Some v ∧ json_ok 0 v = true ∧ Unmarshal result_fields zero_result (print v) = Ok (set_res_Output (print out) r).
Proof.
  intros [H1 H2 H3 H4 H5 H6] Hout Hok. unfold result_json. rewrite Hout. cbn [mbind option_bind]. eexists.
  split; [done|].
  match goal with |- json_ok 0 (JObj ?ms) = true ∧ _ => assert (json_ok 0 (JObj ms) = true) as Hall end.
  { match goal with |- json_ok 0 (JObj ?ms) = true => change (members_ok 1 ms = true) end.
    rewrite !members_ok_app, !members_ok_omitempty by done.
    rewrite !members_ok_string, members_ok_value, members_ok_int by done. done. }
  split; [exact Hall|]. unfold Unmarshal.
  rewrite parse_print by exact Hall.
  pose proof (object_fields_print _ EmptyString Hall) as Ho. rewrite sapp_nil_r in Ho. rewrite Ho.
  cbn [app].
  rewrite (store_string _ _ _ set_res_TaskID), (store_optional _ _ _ set_res_ParentTaskID),
    (store_string _ _ _ set_res_AgentName), (store_string _ _ _ set_res_Status), (store_raw _ _ _ set_res_Output),
    (store_optional _ _ _ set_res_Error), (store_int64 _ _ _ set_res_Timestamp) by done.
  by destruct r.
Qed.

Lemma result_roundtrip r out :
  result_ok r → raw_json (res_Output r) = Some out → json_ok 1 out = true →
  ∃ v, result_json r = Some v ∧ json_ok 0 v = true ∧ DecodeResult (print v) = set_res_Output (print out) r.
Proof.
  intros H1 H2 H3. destruct (result_decodes r out H1 H2 H3) as (v & Hv & Hok & Hd). exists v. split_and!; [done|done|].
  by apply UnmarshalLenient_ok.
Qed.
