(* ===== verification/Threads.v ===== *)
(** * Handlers that run concurrently

    A handler is a sequence of atomic actions on a shared state, each a
    critical section or one call of a shared component: it has returned, or it
    does an action and goes on with what the action's outcome says.  [run] is a
    handler on its own; [pool_step] is one action of one of several handlers,
    so its closure is every interleaving. *)
From S2P Require Import Prelude.

Section act.
Context {S : Type}.

Inductive act (A : Type) : Type :=
| Ret (a : A)
| Step (f : S → S) (k : S → act A).
Arguments Ret {A} _.
Arguments Step {A} _ _.

(** An action; what follows it is chosen by the state it found. *)
Definition atomic {A} (f : S → A * S) : act A := Step (λ s, (f s).2) (λ s, Ret (f s).1).

Fixpoint bind {A B} (k : A → act B) (m : act A) : act B :=
  match m with
  | Ret a => k a
  | Step f next => Step f (λ s, bind k (next s))
  end.

Fixpoint run {A} (m : act A) (s : S) : A * S :=
  match m with
  | Ret a => (a, s)
  | Step f next => run (next s) (f s)
  end.
End act.
Arguments act _ _ : clear implicits.
Arguments Ret {S A} _.
Arguments Step {S A} _ _.

#[export] Instance act_ret {S} : MRet (act S) := λ A a, Ret a.
#[export] Instance act_bind {S} : MBind (act S) := λ A B k m, bind k m.

(** ** One handler on its own *)
Section alone.
Context {S : Type}.

Lemma run_bind {A B} (m : act S A) (k : A → act S B) s :
  run (m ≫= k) s = let '(a, s') := run m s in run (k a) s'.
Proof.
  unfold mbind, act_bind. revert s. induction m as [a|f next IH]; intros s; [done|]. apply IH.
Qed.

Lemma run_atomic {A} (f : S → A * S) s : run (atomic f) s = f s.
Proof. simpl. by destruct (f s). Qed.

Definition wp {A} (m : act S A) (Q : A → S → Prop) (s : S) : Prop := Q (run m s).1 (run m s).2.

Lemma wp_elim {A} (m : act S A) (Q : A → S → Prop) s : wp m Q s → let '(a, s') := run m s in Q a s'.
Proof. unfold wp. by destruct (run m s). Qed.

Lemma act_wp_ret {A} (a : A) (Q : A → S → Prop) s : Q a s → wp (mret a) Q s.
Proof. done. Qed.

Lemma act_wp_bind {A B} (m : act S A) (k : A → act S B) Q s : wp m (λ a s', wp (k a) Q s') s → wp (m ≫= k) Q s.
Proof. unfold wp. rewrite run_bind. by destruct (run m s). Qed.

Lemma wp_atomic {A} (f : S → A * S) (Q : A → S → Prop) s : Q (f s).1 (f s).2 → wp (atomic f) Q s.
Proof. unfold wp. by rewrite run_atomic. Qed.

Lemma act_wp_mono {A} (m : act S A) (Q Q' : A → S → Prop) s : (∀ a s', Q a s' → Q' a s') → wp m Q s → wp m Q' s.
Proof. unfold wp. auto. Qed.
End alone.

(** ** Several handlers *)
Section pool.
Context {S A : Type}.

Inductive pool_step : S * list (act S A) → S * list (act S A) → Prop :=
| pool_action i f next s ps :
  ps !! i = Some (Step f next) → pool_step (s, ps) (f s, <[i := next s]> ps).

(** Every action of the handler keeps [I]. *)
Fixpoint keeps {B} (I : S → Prop) (m : act S B) : Prop :=
  match m with
  | Ret _ => True
  | Step f next => ∀ s, I s → I (f s) ∧ keeps I (next s)
  end.

Lemma keeps_ret {B} I (b : B) : keeps I (mret b).
Proof. done. Qed.

Lemma keeps_atomic {B} (I : S → Prop) (f : S → B * S) : (∀ s, I s → I (f s).2) → keeps I (atomic f).
Proof. intros H s Hs. by split; [apply H|]. Qed.

Lemma keeps_bind {B C} (I : S → Prop) (m : act S B) (k : B → act S C) :
  keeps I m → (∀ b, keeps I (k b)) → keeps I (m ≫= k).
Proof.
  unfold mbind, act_bind. intros Hm Hk. induction m as [b|f next IH]; [apply Hk|].
  intros s Hs. destruct (Hm s Hs) as [H1 H2]. split; [done|]. by apply IH.
Qed.

Lemma pool_step_keeps I x y : pool_step x y → I x.1 → Forall (keeps I) x.2 → I y.1 ∧ Forall (keeps I) y.2.
Proof.
  intros [i f next s ps Hi] Hs Hps. simpl in *. pose proof (Forall_lookup_1 _ _ _ _ Hps Hi s Hs) as [H1 H2].
  split; [done|]. by apply Forall_insert.
Qed.

(** An invariant of every action is one of every interleaving. *)
Lemma pool_invariant I x y : rtc pool_step x y → I x.1 → Forall (keeps I) x.2 → I y.1.
Proof.
  induction 1 as [|x y z Hs _ IH]; [done|]. intros H1 H2. destruct (pool_step_keeps I x y Hs H1 H2). auto.
Qed.

(** A handler left alone runs as [run] says. *)
Lemma pool_run i (m : act S A) s ps :
  ps !! i = Some m → rtc pool_step (s, ps) ((run m s).2, <[i := Ret (run m s).1]> ps).
Proof.
  revert s ps. induction m as [a|f next IH]; intros s ps Hi.
  - simpl. rewrite list_insert_id by done. done.
  - eapply rtc_l; [by eapply (pool_action i f)|].
    specialize (IH s (f s) (<[i := next s]> ps)).
    rewrite list_insert_insert_eq in IH. apply IH. apply list_lookup_insert_eq. by eapply lookup_lt_Some.
Qed.

(** A schedule, played: the handler of each number does its next action. *)
Fixpoint play (schedule : list nat) (x : S * list (act S A)) : S * list (act S A) :=
  match schedule with
  | [] => x
  | i :: schedule =>
    match x.2 !! i with
    | Some (Step f next) => play schedule (f x.1, <[i := next x.1]> x.2)
    | _ => play schedule x
    end
  end.

Lemma play_steps schedule : ∀ x, rtc pool_step x (play schedule x).
Proof.
  induction schedule as [|i schedule IH]; intros [s ps]; [done|]. simpl.
  destruct (ps !! i) as [[a|f next]|] eqn:Hi; [apply IH| |apply IH].
  eapply rtc_l; [by eapply pool_action|]. apply IH.
Qed.

Lemma play_pair schedule x y : play schedule x = y → rtc pool_step (x.1, x.2) (y.1, y.2).
Proof. intros <-. rewrite <-!surjective_pairing. apply play_steps. Qed.
End pool.
