(* ===== verification/Orchestrator.v ===== *)
(** * The orchestrator: cmd/orchestrator/main.go

    The orchestrator takes tasks from a queue, starts a workflow and a subagent
    process for each, stores the tasks' states, listens to the results, repeats
    what was unfinished when it restarts, and turns approval decisions received
    over HTTP into bus messages.

    Its handlers run in goroutines of their own over one shared state, so they
    are sequences of atomic actions ([act]): a critical section, or one call
    of the store, the bus, a workflow or the auditor.  The store, the bus and
    the operating system are interfaces.  A workflow is an object: the table
    holds pointers, and a handler keeps the pointer it made. *)
From Stdlib Require Import String Ascii.
From S2P Require Import Prelude GoStrings Strconv TaskStatus TaskStore Dag Workflow Contracts WebhookAuth GoValue Transport AuditTrail TaskResult Threads.
From stdpp Require Import list.

Local Open Scope Z_scope.

(** ** State *)

(** [ap_heap] holds the workflow objects, [ap_workflows] the pointers by task
    id, [ap_nonces] the store of webhook nonces, [ap_log] the lines logged. *)
Record App (S T W : Type) := MkApp {
  ap_store : S;
  ap_bus : T;
  ap_procs : procs W;
  ap_heap : list Workflow;
  ap_workflows : gmap string nat;
  ap_nonces : option InMemNonceStore;
  ap_log : list log_line
}.
Arguments MkApp {S T W} _ _ _ _ _ _ _.
Arguments ap_store {S T W} _.
Arguments ap_bus {S T W} _.
Arguments ap_procs {S T W} _.
Arguments ap_heap {S T W} _.
Arguments ap_workflows {S T W} _.
Arguments ap_nonces {S T W} _.
Arguments ap_log {S T W} _.

(** What a receive from a channel finds: a message, the channel closed, or the
    context done first. *)
Inductive arrival := Arrived (msg : Message) | ChannelClosed | Cancelled (e : error).

Section orchestrator.
Context `{RangeOrder} {S T W : Type} `{TaskStateStore S} `{Transport T}.

(** The operating system, the clock ([time.Now().UnixNano()]) and the
    registered agent profiles. *)
Context (O : OS W) (tick : W → Z * W) (profiles : AgentRegistry).

Abbreviation App := (App S T W).

Definition set_store (x : S) (s : App) : App := MkApp x (ap_bus s) (ap_procs s) (ap_heap s) (ap_workflows s) (ap_nonces s) (ap_log s).
Definition set_bus (x : T) (s : App) : App := MkApp (ap_store s) x (ap_procs s) (ap_heap s) (ap_workflows s) (ap_nonces s) (ap_log s).
Definition set_procs (x : procs W) (s : App) : App := MkApp (ap_store s) (ap_bus s) x (ap_heap s) (ap_workflows s) (ap_nonces s) (ap_log s).
Definition set_heap (x : list Workflow) (s : App) : App := MkApp (ap_store s) (ap_bus s) (ap_procs s) x (ap_workflows s) (ap_nonces s) (ap_log s).
Definition set_workflows (x : gmap string nat) (s : App) : App := MkApp (ap_store s) (ap_bus s) (ap_procs s) (ap_heap s) x (ap_nonces s) (ap_log s).
Definition set_nonces (x : option InMemNonceStore) (s : App) : App := MkApp (ap_store s) (ap_bus s) (ap_procs s) (ap_heap s) (ap_workflows s) x (ap_log s).
Definition set_log (x : list log_line) (s : App) : App := MkApp (ap_store s) (ap_bus s) (ap_procs s) (ap_heap s) (ap_workflows s) (ap_nonces s) x.

(** ** Actions *)
Definition set_world (w : W) (s : App) : App := set_procs (Procs (pm_BinaryPath (ap_procs s)) (pm_tracked (ap_procs s)) w) s.

Definition now_ns : act App Z := atomic (λ s, let '(t, w) := tick (pm_os (ap_procs s)) in (t, set_world w s)).
Definition now_ms : act App Z := t ← now_ns; mret (t / 1000000).
Definition now_s : act App Z := t ← now_ns; mret (t / 1000000000).

Definition save (c : ctx) (t : TaskState) : act App (option error) :=
  atomic (λ s, let '(err, x) := Save c t (ap_store s) in (err, set_store x s)).

Definition enqueue (c : ctx) (queue : string) (m : Message) : act App (option error) :=
  atomic (λ s, let '(err, x) := tq_Enqueue c queue m (ap_bus s) in (err, set_bus x s)).

Definition publish (c : ctx) (topic : string) (m : Message) : act App (option error) :=
  atomic (λ s, let '(err, x) := eb_Publish c topic m (ap_bus s) in (err, set_bus x s)).

Definition auditor : option Auditor := Some {| au_events := true; au_senderID := "orchestrator" |}.

Definition record (c : ctx) (e : AuditEvent) : act App (option error) := atomic (λ s,
  let '(now, w) := if ae_TimestampMs e =? 0 then let '(t, w) := tick (pm_os (ap_procs s)) in (t / 1000000, w)
                   else (0, pm_os (ap_procs s)) in
  let '(err, x, lines) := RecordEvent auditor now c e (ap_bus s) in
  (err, set_log (ap_log s ++ lines) (set_bus x (set_world w s)))).

Definition info_line (msg : string) (attrs : list (string * gvalue)) : log_line :=
  Line LevelInfo msg (("component"%string, GString "orchestrator") :: attrs).

Definition log_info (msg : string) (attrs : list (string * gvalue)) : act App unit :=
  atomic (λ s, (tt, set_log (ap_log s ++ [info_line msg attrs]) s)).

(** ** Workflows *)

(** The callback of every workflow, on the processes and the log. *)
Definition OnNodeReady (c : ctx) (agentType nodeID : string) (x : procs W * list log_line)
    : (procs W * list log_line) * option error :=
  let '(m, log) := x in
  let log := match GetProfile agentType profiles with
             | Ok p => log ++ [info_line "spawning agent profile"
                 [("agent_type", GString agentType); ("profile_name", GString (ap_Name p)); ("description", GString (ap_Description p))]%string]
             | Fail _ => log
             end in
  match SpawnAgent O c agentType nodeID m with
  | (Fail e, m) => ((m, log), Some e)
  | (Ok pid, m) =>
    ((m, log ++ [info_line "workflow node spawned"
        [("node_id", GString nodeID); ("agent_type", GString agentType); ("pid", GInt pid)]%string]), None)
  end.

(** A call on the workflow object behind a pointer. *)
Definition on_workflow (ptr : nat) (op : Workflow → procs W * list log_line → (Workflow * (procs W * list log_line)) * option error)
    : act App (option error) := atomic (λ s,
  match ap_heap s !! ptr with
  | None => (None, s)
  | Some wf =>
    let '((wf', (m, log)), err) := op wf (ap_procs s, ap_log s) in
    (err, set_log log (set_procs m (set_heap (<[ptr := wf']> (ap_heap s)) s)))
  end).

(** [workflow.NewWorkflow(a.OnNodeReady)], the first [AddTask] on it, and its
    registration: nobody else sees the object before it is in the table. *)
Definition register_workflow (id agentType : string) : act App nat := atomic (λ s,
  let ptr := length (ap_heap s) in
  (ptr, set_workflows (<[id := ptr]> (ap_workflows s)) (set_heap (ap_heap s ++ [(AddTask NewWorkflow id agentType []).1]) s))).

Definition find_workflow (id : string) : act App (option nat) := atomic (λ s, (ap_workflows s !! id, s)).

(** ** Starting a task *)
Definition event_of (taskID parent event status err data : string) (t : Z) : AuditEvent :=
  {| ae_TraceID := ""; ae_SessionID := ""; ae_TaskID := taskID; ae_ParentTaskID := parent; ae_ToolCallID := "";
     ae_Event := event; ae_Actor := "orchestrator"; ae_Level := ""; ae_Status := status; ae_Error := err;
     ae_Data := data; ae_TimestampMs := t |}.

Definition task_state (taskID parent agent status err : string) (t : Z) : TaskState :=
  {| ts_TaskID := taskID; ts_ParentTaskID := parent; ts_AgentName := agent; ts_Status := status;
     ts_UpdatedAtUnix := t; ts_ErrorMessage := err |}.

Definition task_agent (msg : Message) : string :=
  if bool_decide (TargetAgent msg = "") then "orchestrator" else TargetAgent msg.

Definition enqueueAndStartTask (c : ctx) (msg : Message) : act App (option error) :=
  let id := MessageID msg in
  let agentType := task_agent msg in
  wf ← register_workflow id agentType;
  err ← enqueue c ("task." ++ id)%string msg;
  match err with
  | Some e => mret (Some e)
  | None =>
    err ← on_workflow wf (WorkflowStart OnNodeReady "Start" c);
    match err with
    | Some e =>
      t ← now_s;
      _ ← save c (task_state id (ParentTaskID msg) agentType "failed" (err_msg e) t);
      mret (Some e)
    | None =>
      t ← now_s;
      err ← save c (task_state id (ParentTaskID msg) agentType "running" "" t);
      match err with
      | Some e => mret (Some e)
      | None =>
        t ← now_ms;
        _ ← record c (event_of id (ParentTaskID msg) "route" "running" "" (Payload msg) t);
        mret None
      end
    end
  end.

Definition ProcessOneTask (c : ctx) (a : arrival) : act App (option error) :=
  match a with
  | Cancelled e => mret (Some e)
  | ChannelClosed => mret (Some (new_error "tasks channel closed"))
  | Arrived msg => enqueueAndStartTask c msg
  end.

(** [ProcessLoop] for as many turns as there are arrivals; [None] is a loop
    that goes on.  [ctx_of] is what [ctx.Err()] says at the start of a turn. *)
Fixpoint ProcessLoop (turns : list (ctx * arrival)) : act App (option (option error)) :=
  match turns with
  | [] => mret None
  | (c, a) :: turns =>
    match c with
    | Some e => mret (Some (Some e))
    | None =>
      err ← ProcessOneTask c a;
      match err with
      | None => ProcessLoop turns
      | Some e => if errors_is e ErrNoMessage then ProcessLoop turns else mret (Some (Some e))
      end
    end
  end.

(** ** Results *)
(** The audit event and the log line of a result. *)
Definition report_result (c : ctx) (msg : Message) (res : TaskResult) : act App unit :=
  t ← (if Timestamp msg =? 0 then now_ms else mret (Timestamp msg));
  let actor := if bool_decide (SenderID msg = "") then res_AgentName res else SenderID msg in
  _ ← record c {| ae_TraceID := ""; ae_SessionID := ""; ae_TaskID := res_TaskID res;
                  ae_ParentTaskID := res_ParentTaskID res; ae_ToolCallID := ""; ae_Event := "task_result";
                  ae_Actor := actor; ae_Level := ""; ae_Status := res_Status res; ae_Error := res_Error res;
                  ae_Data := Payload msg; ae_TimestampMs := t |};
  if bool_decide (res_ParentTaskID res = "") then mret tt
  else log_info "subtask finished" [("task_id", GString (res_TaskID res)); ("parent_task_id", GString (res_ParentTaskID res));
         ("agent_name", GString (res_AgentName res)); ("status", GString (res_Status res))]%string.

(** [wf.MarkCompleted] or [wf.MarkFailed], by the status. *)
Definition mark_result (c : ctx) (wf : nat) (status : string) (res : TaskResult) : act App (option error) :=
  if IsSuccessfulTaskStatus status
  then on_workflow wf (MarkCompleted OnNodeReady "MarkCompleted" c (res_TaskID res))
  else on_workflow wf (MarkFailed c (res_TaskID res) (res_Error res)).

(** The body of the loop of [ListenResults]. *)
Definition handle_result (c : ctx) (msg : Message) : act App unit :=
  let res := DecodeResult (Payload msg) in
  let status := NormalizeTaskStatus (res_Status res) in
  t ← now_s;
  _ ← save c (task_state (res_TaskID res) (res_ParentTaskID res) (res_AgentName res) status (res_Error res) t);
  o ← find_workflow (res_TaskID res);
  _ ← match o with None => mret None | Some wf => mark_result c wf status res end;
  report_result c msg res.

(** The loop, over what its channel delivers; [None] is a loop that goes on. *)
Fixpoint ListenResults (c : ctx) (arrivals : list arrival) : act App (option (option error)) :=
  match arrivals with
  | [] => mret None
  | Cancelled e :: _ => mret (Some (Some e))
  | ChannelClosed :: _ => mret (Some None)
  | Arrived msg :: arrivals => _ ← handle_result c msg; ListenResults c arrivals
  end.

(** ** Recovery at startup *)
Definition recovery_json (ms : list (string * string)) : string :=
  print (JObj (map (λ m, (m.1, jstring m.2)) ms)).

Definition recovery_message (t : TaskState) (now : Z) : Message :=
  {| MessageID := ts_TaskID t; ParentTaskID := ts_ParentTaskID t; SenderID := "orchestrator"; ReceiverID := "orchestrator";
     TargetAgent := ts_AgentName t; Payload := jtext "{'recovery':true}"; Timestamp := now |}.

Definition recoverOneTask (c : ctx) (state : TaskState) : act App (option error) :=
  let id := ts_TaskID state in
  let parent := ts_ParentTaskID state in
  n ← now_ns;
  let attempt := ("recovery-" ++ id ++ "-" ++ FormatInt n)%string in
  t ← now_ms;
  _ ← record c (event_of id parent "task_recovery_started" (NormalizeTaskStatus (ts_Status state)) ""
        (recovery_json [("attempt_id", attempt); ("status", ts_Status state); ("task_id", id)]%string) t);
  t ← now_ms;
  err ← enqueueAndStartTask c (recovery_message state t);
  match err with
  | Some e =>
    t ← now_s;
    _ ← save c (task_state id parent (ts_AgentName state) TaskStatusPending
          ("recovery attempt " ++ attempt ++ " failed: " ++ err_msg e)%string t);
    t ← now_ms;
    _ ← record c (event_of id parent "task_recovery_failed" TaskStatusPending (err_msg e)
          (recovery_json [("attempt_id", attempt); ("cause", err_msg e); ("task_id", id)]%string) t);
    mret (Some e)
  | None =>
    t ← now_ms;
    _ ← record c (event_of id parent "task_recovery_enqueued" TaskStatusRunning ""
          (recovery_json [("attempt_id", attempt); ("task_id", id)]%string) t);
    mret None
  end.

(** The counts of [RecoverTasksOnStartup]. *)
Record counts := Counts { n_recovered : nat; n_skipped : nat; n_failed : nat }.

Fixpoint recover_loop (c : ctx) (states : list TaskState) (seen : gset string) (n : counts) : act App counts :=
  match states with
  | [] => mret n
  | t :: states =>
    if IsTerminalTaskStatus (ts_Status t) || bool_decide (ts_TaskID t ∈ seen)
    then recover_loop c states seen (Counts (n_recovered n) (1 + n_skipped n) (n_failed n))
    else
      err ← recoverOneTask c t;
      let seen := {[ts_TaskID t]} ∪ seen in
      match err with
      | Some _ => recover_loop c states seen (Counts (n_recovered n) (n_skipped n) (1 + n_failed n))
      | None => recover_loop c states seen (Counts (1 + n_recovered n) (n_skipped n) (n_failed n))
      end
  end.

Definition jnat (n : nat) : gvalue := GInt (Z.of_nat n).

Definition RecoverTasksOnStartup (c : ctx) : act App (option error) :=
  l ← atomic (λ s, (ListRecoverable c (ap_store s), s));
  match l with
  | Fail e => mret (Some e)
  | Ok recoverable =>
    n ← recover_loop c recoverable ∅ (Counts 0 0 0);
    _ ← log_info "startup recovery completed"
          [("total", jnat (length recoverable)); ("recovered", jnat (n_recovered n));
           ("skipped", jnat (n_skipped n)); ("failed", jnat (n_failed n))]%string;
    mret None
  end.

(** ** Health *)

(** [Run] up to its wait for the end of the context. *)
Definition health_message (now : Z) : Message :=
  {| MessageID := "orchestrator.health"; ParentTaskID := ""; SenderID := "orchestrator"; ReceiverID := "orchestrator";
     TargetAgent := ""; Payload := jtext "{'status':'running'}"; Timestamp := now |}.

(** ** The approval endpoint *)
Record request := Request { rq_Method : string; rq_Header : Header; rq_Body : result string }.
Record response := Response { rs_status : Z; rs_ContentType : string; rs_body : string }.

(** [http.Error]. *)
Definition http_error (msg : string) (status : Z) : response :=
  Response status "text/plain; charset=utf-8" (msg ++ String "010" "")%string.

Definition decision_json (d : ApprovalDecision) : json :=
  JObj [("trace_id", jstring (ad_TraceID d)); ("task_id", jstring (ad_TaskID d)); ("tool_call_id", jstring (ad_ToolCallID d));
        ("approved", JBool (ad_Approved d)); ("reviewer", jstring (ad_Reviewer d)); ("reason", jstring (ad_Reason d));
        ("decided_at_ms", jint (ad_DecidedAtMs d))]%string.

Definition set_DecidedAtMs (v : Z) (d : ApprovalDecision) : ApprovalDecision :=
  Build_ApprovalDecision (ad_TraceID d) (ad_TaskID d) (ad_ToolCallID d) (ad_Approved d) (ad_Reviewer d) (ad_Reason d) v.

(** One strict [Decode]; what follows the value is not looked at. *)
Definition decode_decision (body : string) : result ApprovalDecision :=
  match decode_one body with
  | None => Fail (new_error "invalid json")
  | Some (text, _) => struct_value true decision_fields text zero_decision
  end.

Definition decision_message (d : ApprovalDecision) (now : Z) : Message :=
  {| MessageID := ("approval." ++ ad_TaskID d ++ "." ++ ad_ToolCallID d)%string; ParentTaskID := "";
     SenderID := "orchestrator"; ReceiverID := ad_TaskID d; TargetAgent := ""; Payload := print (decision_json d);
     Timestamp := now |}.

Definition verify (h : Header) (body secret : string) : act App (option error) :=
  t ← now_ns; t' ← now_ns;
  atomic (λ s, let '(err, st) := VerifyWebhookSignature h body secret (ap_nonces s) t t' in (err, set_nonces st s)).

(** What follows a verified body. *)
Definition accept_decision (c : ctx) (body : string) : act App response :=
  match decode_decision body with
  | Fail _ => mret (http_error "Invalid body" 400)
  | Ok d =>
    d ← (if ad_DecidedAtMs d =? 0 then t ← now_ms; mret (set_DecidedAtMs t d) else mret d);
    match ApprovalDecision_Validate d with
    | Some e => mret (http_error (err_msg e) 400)
    | None =>
      t ← now_ms;
      _ ← publish c "approvals" (decision_message d t);
      _ ← record c {| ae_TraceID := ad_TraceID d; ae_SessionID := ""; ae_TaskID := ad_TaskID d; ae_ParentTaskID := "";
                      ae_ToolCallID := ad_ToolCallID d; ae_Event := "approval_decision"; ae_Actor := "orchestrator";
                      ae_Level := ""; ae_Status := if ad_Approved d then "approved" else "rejected"; ae_Error := "";
                      ae_Data := print (decision_json d); ae_TimestampMs := ad_DecidedAtMs d |};
      _ ← log_info "approval decision received" [("task_id", GString (ad_TaskID d)); ("tool_call_id", GString (ad_ToolCallID d));
            ("approved", GBool (ad_Approved d))]%string;
      mret (Response 200 "" "OK")
    end
  end.

Definition handleApproval (secret : string) (c : ctx) (r : request) : act App response :=
  if negb (bool_decide (rq_Method r = "POST")) then mret (http_error "Method not allowed" 405)
  else match rq_Body r with
  | Fail _ => mret (http_error "Invalid body" 400)
  | Ok body =>
    if bool_decide (secret = "") then accept_decision c body
    else
      err ← verify (rq_Header r) body secret;
      match err with
      | None => accept_decision c body
      | Some e =>
        let '(status, code) := if Contains (err_msg e) "missing security headers" then (400, "invalid_request")
                               else (401, "invalid_signature") in
        mret (Response status "application/json" (jtext ("{'error':'" ++ code ++ "'}")))
      end
  end.

(** ** Rules for the actions *)
Lemma wp_now_ns (Q : Z → App → Prop) (s : App) : (∀ t w, Q t (set_world w s)) → wp now_ns Q s.
Proof. intros HQ. apply wp_atomic. destruct (tick _) as [t w]. apply HQ. Qed.

Lemma wp_now_ms (Q : Z → App → Prop) (s : App) : (∀ t w, Q t (set_world w s)) → wp now_ms Q s.
Proof. intros HQ. apply act_wp_bind, wp_now_ns. intros t w. apply act_wp_ret, HQ. Qed.

Lemma wp_now_s (Q : Z → App → Prop) (s : App) : (∀ t w, Q t (set_world w s)) → wp now_s Q s.
Proof. intros HQ. apply act_wp_bind, wp_now_ns. intros t w. apply act_wp_ret, HQ. Qed.

Lemma wp_record c e (Q : option error → App → Prop) (s : App) :
  (∀ err x w lines, Q err (set_log (ap_log s ++ lines) (set_bus x (set_world w s)))) → wp (record c e) Q s.
Proof.
  intros HQ. apply wp_atomic. destruct (ae_TimestampMs e =? 0); [destruct (tick _) as [t w]|];
    destruct (RecordEvent _ _ _ _ _) as [[err x] lines]; apply HQ.
Qed.

(** ** What handlers do outside

    The calls of the store, the queue, the auditor and the process manager that
    an execution makes, in the order it makes them and with what they answer.
    The clock is read without a trace. *)
Inductive effect :=
| Enqueued (queue : string) (m : Message) (answer : option error)
| Audited (e : AuditEvent)
| Spawned (agent id : string) (answer : result Z)
| Saved (t : TaskState) (answer : option error).

Definition ticked (p : procs W) : procs W := Procs (pm_BinaryPath p) (pm_tracked p) (tick (pm_os p)).2.

Inductive did (c : ctx) : list effect → S * T * procs W → S * T * procs W → Prop :=
| did_nothing x : did c [] x x
| did_tick l st b p x : did c l (st, b, ticked p) x → did c l (st, b, p) x
| did_enqueue l st b p x q m err b1 :
    tq_Enqueue c q m b = (err, b1) → did c l (st, b1, p) x → did c (Enqueued q m err :: l) (st, b, p) x
| did_audit l st b p x e now err b1 lines :
    RecordEvent auditor now c e b = (err, b1, lines) → did c l (st, b1, p) x → did c (Audited e :: l) (st, b, p) x
| did_spawn l st b p x agent id r p1 :
    SpawnAgent O c agent id p = (r, p1) → did c l (st, b, p1) x → did c (Spawned agent id r :: l) (st, b, p) x
| did_save l st b p x t err st1 :
    Save c t st = (err, st1) → did c l (st1, b, p) x → did c (Saved t err :: l) (st, b, p) x.

Definition outside (s : App) : S * T * procs W := (ap_store s, ap_bus s, ap_procs s).

Lemma did_app c l1 l2 x y z : did c l1 x y → did c l2 y z → did c (l1 ++ l2) x z.
Proof.
  induction 1; intros Hz; cbn [app]; [done|apply did_tick; auto|eapply did_enqueue; eauto|eapply did_audit; eauto|eapply did_spawn; eauto|eapply did_save; eauto].
Qed.

Definition does {A} (c : ctx) (m : act App A) (Q : A → list effect → App → Prop) (s : App) : Prop :=
  wp m (λ a s', ∃ l, did c l (outside s) (outside s') ∧ Q a l s') s.

Lemma does_ret {A} c (a : A) (Q : A → list effect → App → Prop) s : Q a [] s → does c (mret a) Q s.
Proof. intros HQ. apply act_wp_ret. exists []. by split; [constructor|]. Qed.

Lemma does_bind {A B} c (m : act App A) (k : A → act App B) (Q : B → list effect → App → Prop) s :
  does c m (λ a l s1, does c (k a) (λ b l' s2, Q b (l ++ l') s2) s1) s → does c (m ≫= k) Q s.
Proof.
  intros Hm. apply act_wp_bind. revert Hm. apply act_wp_mono. intros a s1 (l & Hl & Hk).
  revert Hk. apply act_wp_mono. intros b s2 (l' & Hl' & HQ). exists (l ++ l'). split; [by eapply did_app|done].
Qed.

Lemma does_mono {A} c (m : act App A) (Q Q' : A → list effect → App → Prop) s :
  (∀ a l s', Q a l s' → Q' a l s') → does c m Q s → does c m Q' s.
Proof. intros HQ. apply act_wp_mono. intros a s' (l & Hl & Hq). eauto. Qed.

(** Nothing of the orchestrator's own state changes but its log, which grows. *)
Definition quiet (s s' : App) : Prop :=
  ap_store s' = ap_store s ∧ ap_heap s' = ap_heap s ∧ ap_workflows s' = ap_workflows s ∧ ap_nonces s' = ap_nonces s ∧
  ap_log s `prefix_of` ap_log s'.

Lemma quiet_trans s1 s2 s3 : quiet s1 s2 → quiet s2 s3 → quiet s1 s3.
Proof. intros (A1 & A2 & A3 & A4 & A5) (B1 & B2 & B3 & B4 & B5). split_and!; [congruence..|by etrans]. Qed.

(** An action without an effect but a reading of the clock. *)
Lemma does_ns c (Q : Z → list effect → App → Prop) s :
  (∀ t s', quiet s s' → Q t [] s') → does c now_ns Q s.
Proof.
  intros HQ. apply wp_atomic. destruct (tick (pm_os (ap_procs s))) as [t w] eqn:Ht. cbn [fst snd]. exists [].
  split; [|by apply HQ; split_and!]. unfold outside. cbn [ap_store ap_bus ap_procs set_world set_procs]. apply did_tick. unfold ticked. rewrite Ht. constructor.
Qed.

Lemma does_time c k (Q : Z → list effect → App → Prop) s :
  (∀ t s', quiet s s' → Q t [] s') → does c (t ← now_ns; mret (t / k)) Q s.
Proof. intros HQ. apply does_bind, does_ns. intros t s' Hs. by apply does_ret, HQ. Qed.

Lemma does_record c e (Q : option error → list effect → App → Prop) s :
  (∀ r s', quiet s s' → Q r [Audited e] s') → does c (record c e) Q s.
Proof.
  intros HQ. apply wp_atomic. destruct (ae_TimestampMs e =? 0).
  - destruct (tick (pm_os (ap_procs s))) as [t w] eqn:Ht. destruct (RecordEvent _ _ _ _ _) as [[err b] lines] eqn:Hr. cbn [fst snd].
    exists [Audited e]. split; [|apply HQ; split_and!; [done..|by eexists]]. unfold outside. cbn. apply did_tick. unfold ticked. rewrite Ht. by eapply did_audit; [|constructor].
  - destruct (RecordEvent _ _ _ _ _) as [[err b] lines] eqn:Hr. cbn [fst snd]. exists [Audited e]. split; [|apply HQ; split_and!; [done..|by eexists]].
    unfold outside. cbn. destruct (ap_procs s). by eapply did_audit; [|constructor].
Qed.

Lemma does_enqueue c q m (Q : option error → list effect → App → Prop) s :
  (∀ r b, Q r [Enqueued q m r] (set_bus b s)) → does c (enqueue c q m) Q s.
Proof.
  intros HQ. apply wp_atomic. destruct (tq_Enqueue c q m (ap_bus s)) as [r b] eqn:Hr. exists [Enqueued q m r].
  split; [|apply HQ]. by eapply did_enqueue; [|constructor].
Qed.

Lemma wp_log msg attrs (Q : unit → App → Prop) (s : App) : Q tt (set_log (ap_log s ++ [info_line msg attrs]) s) → wp (log_info msg attrs) Q s.
Proof. intros HQ. by apply wp_atomic. Qed.

(** The tasks as the store shows them: status and error text. *)
Definition task_status (s : App) (id : string) : option (string * string) :=
  (λ t, (ts_Status t, ts_ErrorMessage t)) <$> view (ap_store s) !! id.

Definition available (c : ctx) (s : App) : Prop := unavailable c (ap_store s) = None.

Lemma wp_save c t (Q : option error → App → Prop) (s : App) :
  available c s →
  (∀ x t', view x = <[ts_TaskID t := t']> (view (ap_store s)) → ts_Status t' = ts_Status t →
    ts_ErrorMessage t' = ts_ErrorMessage t → (∀ c', unavailable c' x = unavailable c' (ap_store s)) → Q None (set_store x s)) →
  wp (save c t) Q s.
Proof.
  intros Ha HQ. apply wp_atomic. destruct (Save_ok c t (ap_store s) Ha) as (t' & Hr & Hv & Hst & _ & Hem & _).
  pose proof (Save_available) as Hav. destruct (Save c t (ap_store s)) as [err x] eqn:Hs. simpl in *. subst err.
  apply (HQ x t'); try done. intros c'. specialize (Hav c' c t (ap_store s)). by rewrite Hs in Hav.
Qed.

Lemma task_status_saved (s : App) x t t' :
  view x = <[ts_TaskID t := t']> (view (ap_store s)) → ts_Status t' = ts_Status t → ts_ErrorMessage t' = ts_ErrorMessage t →
  ∀ id, (λ t, (ts_Status t, ts_ErrorMessage t)) <$> view x !! id =
        if decide (id = ts_TaskID t) then Some (ts_Status t, ts_ErrorMessage t) else task_status s id.
Proof.
  intros Hv Hst Hem id. rewrite Hv. case_decide as Hd; [subst; rewrite lookup_insert_eq; cbn; by rewrite Hst, Hem|].
  by rewrite lookup_insert_ne.
Qed.

Lemma does_save c t (Q : option error → list effect → App → Prop) (s : App) :
  available c s → (∀ s', available c s' → Q None [Saved t None] s') → does c (save c t) Q s.
Proof.
  intros Ha HQ. apply wp_atomic. destruct (Save_ok c t (ap_store s) Ha) as (t' & Hr & _).
  pose proof (Save_available c c t (ap_store s)) as Hav. destruct (Save c t (ap_store s)) as [err x] eqn:Hs. cbn in Hr, Hav. subst err. exists [Saved t None].
  split; [by eapply did_save; [|constructor]|]. apply HQ. unfold available. cbn. by rewrite Hav.
Qed.

(** *** The workflow of one task *)
Lemma range_singleton k x : range_set k {[x]} = [x].
Proof. unfold range_set. apply Permutation_singleton_r. rewrite range_perm_ok. by rewrite elements_singleton. Qed.

Lemma range_empty k : range_set k ∅ = [].
Proof. apply nil_length_inv. by rewrite length_range_set, size_empty. Qed.

Definition one_task (id agent : string) : Workflow := (AddTask NewWorkflow id agent []).1.

Lemma one_task_shape id agent :
  agent ≠ "" → one_task id agent = mkWorkflow (mkDAG {[id]} {[id := ∅]}) {[id := NodeStatePending]} {[id := agent]}.
Proof.
  intros Ha. unfold one_task, AddTask, AddNode, NewWorkflow, NewDAG, InitNode, NewNodeStateMachine. cbn [wdag nodes edges].
  rewrite decide_False by done. rewrite decide_False by set_solver. cbn. by rewrite union_empty_r_L.
Qed.

Definition started_task (id agent : string) : Workflow :=
  mkWorkflow (mkDAG {[id]} {[id := ∅]}) {[id := NodeStateRunning]} {[id := agent]}.

(** Starting it launches its one node, and reports what the callback did. *)
Lemma start_one_task {X} (cb : ctx → string → string → X → X * option error) k c id agent x :
  agent ≠ "" →
  WorkflowStart cb k c (one_task id agent) x = ((started_task id agent, (cb c agent id x).1), (cb c agent id x).2).
Proof.
  intros Ha. rewrite one_task_shape by done. unfold WorkflowStart, executor, Start, NewExecutor, SetAgentMapper. cbn [dag wdag nodes].
  rewrite range_singleton. cbn [start_loop dag wdag].
  assert (∀ k, Dependencies k (mkDAG {[id]} {[id := ∅]}) id = []) as Hdep.
  { intros k'. unfold Dependencies. cbn [edges]. rewrite dom_singleton_L, range_singleton. cbn.
    unfold out_edges. cbn [edges]. rewrite lookup_singleton_eq. cbn.
    by rewrite range_empty. }
  rewrite Hdep. unfold readyNode, Transition, agent_of. cbn [sm wsm getAgent].
  rewrite lookup_singleton_eq, decide_True by done.
  unfold GetAgentType. cbn [agentTypes]. rewrite lookup_singleton_eq. change (default _ (Some agent)) with agent.
  rewrite insert_singleton_eq. destruct (cb c agent id x) as [x' [e|]]. all: done.
Qed.

(** *** Starting a task *)
Lemma task_agent_nonempty msg : task_agent msg ≠ "".
Proof. unfold task_agent. by case_bool_decide. Qed.

Lemma wp_start_workflow ptr c id agent k (Q : option error → App → Prop) (s : App) :
  agent ≠ "" → ap_heap s !! ptr = Some (one_task id agent) →
  (∀ log m err, (SpawnAgent O c agent id (ap_procs s)).2 = m →
    err = match (SpawnAgent O c agent id (ap_procs s)).1 with Ok _ => None | Fail e => Some e end →
    Q err (set_log log (set_procs m (set_heap (<[ptr := started_task id agent]> (ap_heap s)) s)))) →
  wp (on_workflow ptr (WorkflowStart OnNodeReady k c)) Q s.
Proof.
  intros Ha Hp HQ. apply wp_atomic. rewrite Hp, start_one_task by done. unfold OnNodeReady.
  destruct (GetProfile agent profiles) as [p|pe]; destruct (SpawnAgent O c agent id (ap_procs s)) as [[pid|e] m] eqn:Hs; simpl in HQ;
    apply HQ; done.
Qed.

(** C30: Starting a task, on every outcome, when the store answers.  The task's
    workflow is a new object, registered under its id, and no other workflow
    changes.  If the queue refuses the message, the error is returned and no
    state is stored; if the subagent cannot be started, the task is stored as
    failed with that error; otherwise it is stored as running, and its node
    is running.  No other task's state changes. *)
Theorem start_task_exact c msg (s : App) :
  available c s →
  let id := MessageID msg in
  let '(err, s') := run (enqueueAndStartTask c msg) s in
  let spawned := (SpawnAgent O c (task_agent msg) id (ap_procs s)).1 in
  ap_workflows s' = <[id := length (ap_heap s)]> (ap_workflows s) ∧
  (∀ k, k ≠ id → task_status s' k = task_status s k) ∧
  match (tq_Enqueue c ("task." ++ id)%string msg (ap_bus s)).1 with
  | Some e => err = Some e ∧ task_status s' id = task_status s id ∧ ap_procs s' = ap_procs s ∧
              ap_heap s' = ap_heap s ++ [one_task id (task_agent msg)]
  | None =>
    ap_heap s' = ap_heap s ++ [started_task id (task_agent msg)] ∧
    match spawned with
    | Fail e => err = Some e ∧ task_status s' id = Some ("failed", err_msg e)%string
    | Ok pid => err = None ∧ task_status s' id = Some ("running", "")%string
    end
  end.
Proof.
  intros Hav. cbv zeta. assert (Ha : task_agent msg ≠ "") by apply task_agent_nonempty.
  apply wp_elim, act_wp_bind, wp_atomic. cbn [fst snd].
  apply act_wp_bind, wp_atomic. cbn [ap_bus set_heap set_workflows].
  change (AddTask NewWorkflow (MessageID msg) (task_agent msg) []).1 with (one_task (MessageID msg) (task_agent msg)).
  set (ptr := length (ap_heap s)).
  destruct (tq_Enqueue c ("task." ++ MessageID msg)%string msg (ap_bus s)) as [[e|] b]; cbn [fst snd].
  { apply act_wp_ret. by split_and!. }
  apply act_wp_bind, (wp_start_workflow ptr c (MessageID msg) (task_agent msg)).
  { done. }
  { cbn. by rewrite lookup_app_r, Nat.sub_diag by lia. }
  intros log m err Hm Herr. cbn in Hm, Herr. cbn [ap_heap set_bus set_workflows set_heap].
  assert (<[ptr := started_task (MessageID msg) (task_agent msg)]> (ap_heap s ++ [one_task (MessageID msg) (task_agent msg)]) = ap_heap s ++ [started_task (MessageID msg) (task_agent msg)]) as ->.
  { by rewrite insert_app_r_alt, Nat.sub_diag by lia. }
  destruct (SpawnAgent O c (task_agent msg) (MessageID msg) (ap_procs s)) as [[pid|e] m'] eqn:Hs; cbn in Herr; subst err; cbn [fst].
  - apply act_wp_bind, wp_now_s. intros t w. apply act_wp_bind, wp_save; [exact Hav|].
    intros x t' Hv Hst Hem _. apply act_wp_bind, wp_now_ms. intros t2 w2. apply act_wp_bind, wp_record. intros r x2 w3 lines.
    apply act_wp_ret. pose proof (task_status_saved s x _ t' Hv Hst Hem) as Hall. cbn in *. split_and!; try done.
    + intros k Hk. unfold task_status at 1. cbn. by rewrite Hall, decide_False.
    + unfold task_status. cbn. by rewrite Hall, decide_True.
  - apply act_wp_bind, wp_now_s. intros t w. apply act_wp_bind, wp_save; [exact Hav|].
    intros x t' Hv Hst Hem _. apply act_wp_ret.
    pose proof (task_status_saved s x _ t' Hv Hst Hem) as Hall. cbn in *. split_and!; try done.
    + intros k Hk. unfold task_status at 1. cbn. by rewrite Hall, decide_False.
    + unfold task_status. cbn. by rewrite Hall, decide_True.
Qed.

(** *** Recovery *)

(** [s'] keeps every task but [id] as it was, and the store goes on answering. *)
Definition touches_only (c : ctx) (ids : gset string) (s s' : App) : Prop :=
  (∀ k, k ∉ ids → view (ap_store s') !! k = view (ap_store s) !! k) ∧
  (available c s → available c s') ∧ (store_wf (ap_store s) → store_wf (ap_store s')).

Lemma touches_refl c ids s s' : ap_store s' = ap_store s → touches_only c ids s s'.
Proof. unfold touches_only, available. intros ->. by split_and!. Qed.

Lemma touches_trans c i1 i2 s1 s2 s3 :
  touches_only c i1 s1 s2 → touches_only c i2 s2 s3 → touches_only c (i1 ∪ i2) s1 s3.
Proof.
  intros (A1 & A2 & A3) (B1 & B2 & B3). split_and!; [|auto..]. intros k Hk. rewrite B1, A1 by set_solver. done.
Qed.

Lemma wp_save_touches c t (Q : option error → App → Prop) (s : App) :
  available c s →
  (∀ x t', touches_only c {[ts_TaskID t]} s (set_store x s) → view x !! ts_TaskID t = Some t' →
    ts_Status t' = ts_Status t → Q None (set_store x s)) → wp (save c t) Q s.
Proof.
  intros Ha HQ. apply wp_atomic. destruct (Save_ok c t (ap_store s) Ha) as (t' & Hr & Hv & Hst & _).
  pose proof (Save_available c c t (ap_store s)) as Hav. pose proof (Save_wf c t (ap_store s)) as Hwf.
  destruct (Save c t (ap_store s)) as [err x]. simpl in *. subst err. apply (HQ x t'); [|by rewrite Hv, lookup_insert_eq|done].
  split_and!; cbn; [|unfold available; cbn; congruence|done]. intros k Hk. rewrite Hv, lookup_insert_ne by set_solver. done.
Qed.

(** The task is stored with a status that the next restart will recover. *)
Definition will_recover (s : App) (id : string) : Prop :=
  ∃ t, view (ap_store s) !! id = Some t ∧ recoverable t = true.

(** Starting a task touches no other task, and leaves it running if it
    returns no error. *)
Lemma wp_start_touches c msg (Q : option error → App → Prop) (s : App) :
  available c s →
  (∀ err s', touches_only c {[MessageID msg]} s s' → (err = None → will_recover s' (MessageID msg)) →
    is_Some (ap_workflows s' !! MessageID msg) → (∀ k, is_Some (ap_workflows s !! k) → is_Some (ap_workflows s' !! k)) →
    Q err s') → wp (enqueueAndStartTask c msg) Q s.
Proof.
  intros Hav HQ.
  assert (∀ (m : gmap string nat) n, is_Some (<[MessageID msg := n]> m !! MessageID msg)) as Hw1.
  { intros m n. rewrite lookup_insert_eq. eauto. }
  assert (∀ (m : gmap string nat) n k, is_Some (m !! k) → is_Some (<[MessageID msg := n]> m !! k)) as Hw2.
  { intros m n k Hk. apply lookup_insert_is_Some'. auto. }
  apply act_wp_bind, wp_atomic, act_wp_bind, wp_atomic. cbn [ap_bus set_heap set_workflows fst snd].
  change (AddTask NewWorkflow (MessageID msg) (task_agent msg) []).1 with (one_task (MessageID msg) (task_agent msg)).
  destruct (tq_Enqueue c ("task." ++ MessageID msg)%string msg (ap_bus s)) as [[e|] b]; cbn [fst snd].
  { apply act_wp_ret, HQ; [by apply touches_refl|done|apply Hw1|apply Hw2]. }
  apply act_wp_bind, (wp_start_workflow (length (ap_heap s)) c (MessageID msg) (task_agent msg)).
  { apply task_agent_nonempty. }
  { cbn. by rewrite lookup_app_r, Nat.sub_diag by lia. }
  intros log m err _ _. destruct err as [e|].
  - apply act_wp_bind, wp_now_s. intros t w. apply act_wp_bind, wp_save_touches; [exact Hav|]. intros x t' Hx Hv Hst.
    apply act_wp_ret, HQ; [exact Hx|done|apply Hw1|apply Hw2].
  - apply act_wp_bind, wp_now_s. intros t w. apply act_wp_bind, wp_save_touches; [exact Hav|]. intros x t' Hx Hv Hst.
    apply act_wp_bind, wp_now_ms. intros t2 w2. apply act_wp_bind, wp_record. intros r x2 w3 lines.
    apply act_wp_ret, HQ; [exact Hx| |apply Hw1|apply Hw2]. intros _. exists t'. split; [done|].
    unfold recoverable. rewrite Hst. apply orb_true_iff. right. by apply bool_decide_eq_true.
Qed.

(** One attempt leaves the task recoverable, whether or not it succeeds. *)
Lemma wp_recover_one c t (Q : option error → App → Prop) (s : App) :
  available c s →
  (∀ err s', touches_only c {[ts_TaskID t]} s s' → will_recover s' (ts_TaskID t) →
    is_Some (ap_workflows s' !! ts_TaskID t) → (∀ k, is_Some (ap_workflows s !! k) → is_Some (ap_workflows s' !! k)) →
    Q err s') → wp (recoverOneTask c t) Q s.
Proof.
  intros Hav HQ. apply act_wp_bind, wp_now_ns. intros n w. apply act_wp_bind, wp_now_ms. intros t1 w1.
  apply act_wp_bind, wp_record. intros r x w2 lines. apply act_wp_bind, wp_now_ms. intros t2 w3.
  apply act_wp_bind, wp_start_touches; [exact Hav|]. intros [e|] s' Hs' Hrec Hw1 Hw2.
  - apply act_wp_bind, wp_now_s. intros t3 w4. apply act_wp_bind, wp_save_touches; [by apply Hs'|]. intros x' t' Hx Hv Hst.
    apply act_wp_bind, wp_now_ms. intros t4 w5. apply act_wp_bind, wp_record. intros r2 x2 w6 lines2.
    apply act_wp_ret, HQ; [|..|exact Hw1|exact Hw2].
    + replace {[ts_TaskID t]} with ({[ts_TaskID t]} ∪ {[ts_TaskID t]} : gset string) by set_solver.
      eapply touches_trans; [exact Hs'|exact Hx].
    + exists t'. split; [exact Hv|]. unfold recoverable. rewrite Hst. done.
  - apply act_wp_bind, wp_now_ms. intros t3 w4. apply act_wp_bind, wp_record. intros r2 x2 w6 lines2.
    apply act_wp_ret, HQ; [exact Hs'|by apply Hrec|exact Hw1|exact Hw2].
Qed.

Lemma recoverable_not_terminal t : recoverable t = true → IsTerminalTaskStatus (ts_Status t) = false.
Proof.
  unfold recoverable. rewrite orb_true_iff, !bool_decide_eq_true. intros [-> | ->]; vm_compute; reflexivity.
Qed.

Lemma wp_recover_loop c l : ∀ seen n (Q : counts → App → Prop) (s : App),
  available c s → NoDup (ts_TaskID <$> l) → (∀ t, t ∈ l → recoverable t = true ∧ ts_TaskID t ∉ seen) →
  (∀ n' s', touches_only c (list_to_set (ts_TaskID <$> l)) s s' →
    (∀ t, t ∈ l → will_recover s' (ts_TaskID t) ∧ is_Some (ap_workflows s' !! ts_TaskID t)) →
    (∀ k, is_Some (ap_workflows s !! k) → is_Some (ap_workflows s' !! k)) → Q n' s') →
  wp (recover_loop c l seen n) Q s.
Proof.
  induction l as [|t l IH]; intros seen n Q s Hav Hnd Hl HQ.
  { apply act_wp_ret, HQ; [by apply touches_refl| |done]. intros t Ht. by apply not_elem_of_nil in Ht. }
  cbn in Hnd. apply NoDup_cons in Hnd as [Hnt Hnd]. destruct (Hl t) as [Hrec Hseen]; [left|]. cbn [recover_loop].
  rewrite (recoverable_not_terminal t Hrec), bool_decide_eq_false_2 by done. cbn [orb].
  apply act_wp_bind, wp_recover_one; [done|]. intros err s' Hs' Hr Hw1 Hw2.
  assert (∀ n, wp (recover_loop c l ({[ts_TaskID t]} ∪ seen) n) Q s') as Hgo; [|by destruct err].
  intros n'. apply IH; [by apply Hs'|done| |].
  - intros t' Ht'. destruct (Hl t') as [H1' H2']; [by right|]. split; [done|].
    intros [Heq%elem_of_singleton|]%elem_of_union; [|done]. apply Hnt. rewrite <-Heq. by apply list_elem_of_fmap_2.
  - intros n'' s'' Hs'' Hall Hw. apply HQ; [by eapply touches_trans| |eauto].
    intros t' [->|Ht']%elem_of_cons; [|by apply Hall]. split; [|auto]. destruct Hr as (u & Hu & Hur). exists u.
    split; [|done]. destruct Hs'' as [Hs'' _]. rewrite Hs''; [done|]. by rewrite elem_of_list_to_set.
Qed.

(** *** What starting a task does outside *)
Lemma does_start_workflow ptr c id agent k (Q : option error → list effect → App → Prop) (s : App) :
  agent ≠ "" → ap_heap s !! ptr = Some (one_task id agent) →
  (∀ r s', ap_store s' = ap_store s → Q (match r with Ok _ => None | Fail e => Some e end) [Spawned agent id r] s') →
  does c (on_workflow ptr (WorkflowStart OnNodeReady k c)) Q s.
Proof.
  intros Ha Hp HQ. apply (wp_start_workflow ptr c id agent k _ s Ha Hp). intros log m err Hm ->.
  destruct (SpawnAgent O c agent id (ap_procs s)) as [r m'] eqn:Hs. cbn in Hm. subst m'. exists [Spawned agent id r].
  split; [eapply did_spawn; [exact Hs|constructor]|by apply HQ].
Qed.

Lemma does_ms c (Q : Z → list effect → App → Prop) s : (∀ t s', quiet s s' → Q t [] s') → does c now_ms Q s.
Proof. apply does_time. Qed.

Lemma does_s c (Q : Z → list effect → App → Prop) s : (∀ t s', quiet s s' → Q t [] s') → does c now_s Q s.
Proof. apply does_time. Qed.

(** The three ways a start goes: the queue refuses the message, the subagent
    does not start, or the task is running. *)
Inductive started (msg : Message) : option error → list effect → Prop :=
| start_refused e : started msg (Some e) [Enqueued ("task." ++ MessageID msg) msg (Some e)]
| start_unspawned e t :
    started msg (Some e)
      [Enqueued ("task." ++ MessageID msg) msg None; Spawned (task_agent msg) (MessageID msg) (Fail e);
       Saved (task_state (MessageID msg) (ParentTaskID msg) (task_agent msg) "failed" (err_msg e) t) None]
| start_running pid t ev :
    started msg None
      [Enqueued ("task." ++ MessageID msg) msg None; Spawned (task_agent msg) (MessageID msg) (Ok pid);
       Saved (task_state (MessageID msg) (ParentTaskID msg) (task_agent msg) "running" "" t) None; Audited ev].

Lemma same_available c (s s' : App) : quiet s s' → available c s → available c s'.
Proof. unfold available. by intros (-> & _). Qed.

Lemma does_start c msg (Q : option error → list effect → App → Prop) (s : App) :
  available c s → (∀ err l s', available c s' → started msg err l → Q err l s') → does c (enqueueAndStartTask c msg) Q s.
Proof.
  intros Hav HQ. apply act_wp_bind, wp_atomic. cbn [fst snd].
  change (AddTask NewWorkflow (MessageID msg) (task_agent msg) []).1 with (one_task (MessageID msg) (task_agent msg)).
  set (ptr := length (ap_heap s)). set (s1 := set_workflows _ _).
  assert (outside s1 = outside s) as Ho by done. rewrite <-Ho.
  apply does_bind, does_enqueue. intros [e|] b.
  { apply does_ret, HQ; [exact Hav|apply start_refused]. }
  apply does_bind, (does_start_workflow ptr c (MessageID msg) (task_agent msg)).
  { apply task_agent_nonempty. }
  { cbn. by rewrite lookup_app_r, Nat.sub_diag by lia. }
  intros [pid|e] s2 Hs2; (apply does_bind, does_s; intros t s3 Hs3; apply does_bind, does_save; [eapply same_available; [exact Hs3|]; unfold available; rewrite Hs2; exact Hav|]; intros s4 Hs4).
  - apply does_bind, does_ms. intros t2 s5 Hs5. apply does_bind, does_record. intros r s6 Hs6.
    apply does_ret, HQ; [eapply same_available; [exact Hs6|]; by eapply same_available|apply start_running].
  - apply does_ret, HQ; [done|apply start_unspawned].
Qed.

(** *** What recovering a task is *)
Definition runs_as (t : TaskState) : string := if decide (ts_AgentName t = "") then "orchestrator" else ts_AgentName t.

(** The task is asked for again under its own name, parent and agent. *)
Definition retry_of (t : TaskState) (m : Message) : Prop :=
  MessageID m = ts_TaskID t ∧ ParentTaskID m = ts_ParentTaskID t ∧ TargetAgent m = ts_AgentName t ∧
  Payload m = jtext "{'recovery':true}".

Definition event_about (t : TaskState) (name : string) (e : AuditEvent) : Prop := ae_Event e = name ∧ ae_TaskID e = ts_TaskID t.

(** The task is stored with a status and a text. *)
Definition stored_as (t : TaskState) (status : string) (is_text : string → Prop) (t' : TaskState) : Prop :=
  ts_TaskID t' = ts_TaskID t ∧ ts_ParentTaskID t' = ts_ParentTaskID t ∧ ts_Status t' = status ∧ is_text (ts_ErrorMessage t').

Definition failed_by (e : error) (text : string) : Prop := ∃ name, text = ("recovery attempt " ++ name ++ " failed: " ++ err_msg e)%string.

(** An attempt at a task: its message is put on the task's own queue, its
    subagent started, and the task stored as running; or it is stored as
    pending with what went wrong. *)
Inductive attempt (t : TaskState) : list effect → Prop :=
| attempt_refused e0 m e t1 e1 :
    event_about t "task_recovery_started" e0 → retry_of t m → stored_as t "pending" (failed_by e) t1 → event_about t "task_recovery_failed" e1 →
    attempt t [Audited e0; Enqueued ("task." ++ ts_TaskID t) m (Some e); Saved t1 None; Audited e1]
| attempt_unspawned e0 m e t0 t1 e1 :
    event_about t "task_recovery_started" e0 → retry_of t m → stored_as t "failed" (eq (err_msg e)) t0 →
    stored_as t "pending" (failed_by e) t1 → event_about t "task_recovery_failed" e1 →
    attempt t [Audited e0; Enqueued ("task." ++ ts_TaskID t) m None; Spawned (runs_as t) (ts_TaskID t) (Fail e);
               Saved t0 None; Saved t1 None; Audited e1]
| attempt_running e0 m pid t1 e1 e2 :
    event_about t "task_recovery_started" e0 → retry_of t m → stored_as t "running" (eq ""%string) t1 → event_about t "task_recovery_enqueued" e2 →
    attempt t [Audited e0; Enqueued ("task." ++ ts_TaskID t) m None; Spawned (runs_as t) (ts_TaskID t) (Ok pid);
               Saved t1 None; Audited e1; Audited e2].

Lemma does_recover_one c t (Q : option error → list effect → App → Prop) (s : App) :
  available c s → (∀ err l s', available c s' → attempt t l → Q err l s') → does c (recoverOneTask c t) Q s.
Proof.
  intros Hav HQ. apply does_bind, does_ns. intros n s1 E1. apply does_bind, does_ms. intros t1 s2 E2.
  apply does_bind, does_record. intros r s3 E3. apply does_bind, does_ms. intros now s4 E4.
  apply does_bind, does_start; [do 4 (eapply same_available; [eassumption|]); done|]. intros err l s5 E5 Hstart.
  assert (retry_of t (recovery_message t now)) as Hretry by done.
  assert (task_agent (recovery_message t now) = runs_as t) as Hagent.
  { unfold task_agent, runs_as. cbn [TargetAgent recovery_message]. by case_bool_decide; case_decide. }
  destruct err as [e|].
  - apply does_bind, does_s. intros t3 s6 E6. apply does_bind, does_save; [by eapply same_available|]. intros s7 E7.
    apply does_bind, does_ms. intros t4 s8 E8. apply does_bind, does_record. intros r2 s9 E9.
    apply does_ret, HQ; [do 2 (eapply same_available; [eassumption|]); done|].
    inversion Hstart; subst; rewrite ?Hagent; cbn [app]; [eapply (attempt_refused _ _ _ e)|eapply (attempt_unspawned _ _ _ e)]; try done; (split_and!; [done..|]); by eexists.
  - apply does_bind, does_ms. intros t4 s8 E8. apply does_bind, does_record. intros r2 s9 E9.
    apply does_ret, HQ; [do 2 (eapply same_available; [eassumption|]); done|].
    inversion Hstart; subst; rewrite !Hagent; cbn [app]. by apply attempt_running.
Qed.

Lemma does_recover_loop c l : ∀ seen n (Q : counts → list effect → App → Prop) (s : App),
  available c s → NoDup (ts_TaskID <$> l) → (∀ t, t ∈ l → recoverable t = true ∧ ts_TaskID t ∉ seen) →
  (∀ n' ls s', Forall2 attempt l ls → Q n' (concat ls) s') → does c (recover_loop c l seen n) Q s.
Proof.
  induction l as [|t l IH]; intros seen n Q s Hav Hnd Hl HQ.
  { apply does_ret, (HQ _ []). constructor. }
  cbn in Hnd. apply NoDup_cons in Hnd as [Hnt Hnd]. destruct (Hl t) as [Hrec Hseen]; [left|]. cbn [recover_loop].
  rewrite (recoverable_not_terminal t Hrec), bool_decide_eq_false_2 by done. cbn [orb].
  apply does_bind, does_recover_one; [done|]. intros err log s' Hs' Hlog.
  assert (∀ n, does c (recover_loop c l ({[ts_TaskID t]} ∪ seen) n) (λ b log' s'', Q b (log ++ log') s'') s') as Hgo; [|by destruct err].
  intros n'. apply IH; [done|done| |].
  - intros t' Ht'. destruct (Hl t') as [H1' H2']; [by right|]. split; [done|].
    intros [Heq%elem_of_singleton|]%elem_of_union; [|done]. apply Hnt. rewrite <-Heq. by apply list_elem_of_fmap_2.
  - intros n'' ls s'' Hls. apply (HQ n'' (log :: ls)). by constructor.
Qed.

(** Whether or not its attempt succeeds, a task stays recoverable. *)
Lemma recovery_keeps_states c (s : App) l :
  available c s → store_wf (ap_store s) → ListRecoverable c (ap_store s) = Ok l → NoDup (ts_TaskID <$> l) →
  (∀ t, t ∈ l ↔ view (ap_store s) !! ts_TaskID t = Some t ∧ recoverable t = true) →
  wp (RecoverTasksOnStartup c) (λ err s', err = None ∧
    ∀ k, match view (ap_store s) !! k with
         | Some t => if recoverable t then will_recover s' k ∧ is_Some (ap_workflows s' !! k) else view (ap_store s') !! k = Some t
         | None => view (ap_store s') !! k = None
         end) s.
Proof.
  intros Hav Hwf Hl Hnd Hin. apply act_wp_bind, wp_atomic. cbn [fst snd]. rewrite Hl.
  apply act_wp_bind, wp_recover_loop; [done|done| |].
  { intros t Ht. split; [by destruct (proj1 (Hin t) Ht)|]. apply not_elem_of_empty. }
  intros n s' (Hsame & _ & _) Hall _. apply act_wp_bind, wp_log, act_wp_ret. split; [done|]. intros k.
  assert (∀ t, view (ap_store s) !! k = Some t → recoverable t = true → t ∈ l ∧ ts_TaskID t = k) as Hmem.
  { intros t Ht Hr. pose proof (view_key (ap_store s) k t Hwf Ht) as <-. split; [|done]. by apply Hin. }
  assert (k ∉ ts_TaskID <$> l → view (ap_store s') !! k = view (ap_store s) !! k) as Hout.
  { intros Hk. apply Hsame. by rewrite elem_of_list_to_set. }
  destruct (view (ap_store s) !! k) as [t|] eqn:Ht.
  - destruct (recoverable t) eqn:Hr.
    + destruct (Hmem t eq_refl Hr) as [Htl <-]. by apply Hall.
    + apply Hout. intros (t' & -> & Ht')%list_elem_of_fmap. apply Hin in Ht' as [Hv Hr']. congruence.
  - apply Hout. intros (t' & -> & Ht')%list_elem_of_fmap. apply Hin in Ht' as [Hv Hr']. congruence.
Qed.

(** C1: A restart keeps every unfinished task recoverable and tries it again.
    When the store answers, what RecoverTasksOnStartup does outside is one
    attempt for each task that is stored as pending or running, and nothing
    else: the task is put on its own queue under its own name, parent and
    agent, its subagent is started, and it is stored as running; or, where the
    queue or the operating system refuses, it is stored as pending with what
    went wrong.  Whether or not an attempt succeeds the task is stored as
    pending or running afterwards, so that another restart finds it again, and
    it has a workflow; every other task is left as it is.  The message that is
    enqueued says that it is a recovery: it is not the one the interrupted task
    had. *)
Theorem recovery_keeps_work c (s : App) :
  available c s → store_wf (ap_store s) →
  let '(err, s') := run (RecoverTasksOnStartup c) s in
  err = None ∧
  (∃ tasks attempts,
     NoDup (ts_TaskID <$> tasks) ∧ (∀ t, t ∈ tasks ↔ view (ap_store s) !! ts_TaskID t = Some t ∧ recoverable t = true) ∧
     Forall2 attempt tasks attempts ∧ did c (concat attempts) (outside s) (outside s')) ∧
  ∀ k, match view (ap_store s) !! k with
       | Some t => if recoverable t then will_recover s' k ∧ is_Some (ap_workflows s' !! k)
                   else view (ap_store s') !! k = Some t
       | None => view (ap_store s') !! k = None
       end.
Proof.
  intros Hav Hwf. apply wp_elim.
  pose proof (ListRecoverable_answers c (ap_store s) Hav) as Ha.
  destruct (ListRecoverable c (ap_store s)) as [l|e] eqn:Hl; [|done].
  destruct (ListRecoverable_ok c (ap_store s) l Hwf Hl) as [Hnd Hin].
  assert (wp (RecoverTasksOnStartup c) (λ _ s', ∃ log, did c log (outside s) (outside s') ∧ ∃ ls, log = concat ls ∧ Forall2 attempt l ls) s) as (log & Hdid & ls & -> & Hls).
  { apply act_wp_bind, wp_atomic. cbn [fst snd]. rewrite Hl. apply does_bind, does_recover_loop; [done|done| |].
    { intros t Ht. split; [by destruct (proj1 (Hin t) Ht)|]. apply not_elem_of_empty. }
    intros n ls s' Hls. apply act_wp_bind, wp_log, act_wp_ret. exists []. split; [constructor|]. exists ls. by rewrite app_nil_r. }
  assert (wp (RecoverTasksOnStartup c) (λ err s', err = None ∧ ∀ k, match view (ap_store s) !! k with
       | Some t => if recoverable t then will_recover s' k ∧ is_Some (ap_workflows s' !! k) else view (ap_store s') !! k = Some t
       | None => view (ap_store s') !! k = None end) s) as [Herr Hall].
  { by apply (recovery_keeps_states c s l). }
  split_and!; [exact Herr| |exact Hall]. by exists l, ls.
Qed.

(** *** Results *)

(** What a result does to the state of the task's node. *)
Definition node_after (success : bool) (o : option NodeState) : option NodeState :=
  match o with
  | Some NodeStateRunning => Some (if success then NodeStateCompleted else NodeStateFailed)
  | _ => o
  end.

Lemma completed_stays {X} (cb : ctx → string → string → X → X * option error) ew ew' id :
  rtc (sched_step cb) ew ew' → sm ew.1 !! id = Some NodeStateCompleted → sm ew'.1 !! id = Some NodeStateCompleted.
Proof.
  induction 1 as [|x y z Hs _ IH]; [done|]. intros Hc. apply IH. destruct Hs as [cx e w n Hn _|e w n t Hn _]; cbn in *;
    (rewrite lookup_insert_ne; [done|congruence]).
Qed.

Lemma mark_completed_node {X} (cb : ctx → string → string → X → X * option error) k c id w x :
  NodeStateOf (MarkCompleted cb k c id w x).1.1 id = node_after true (NodeStateOf w id).
Proof.
  unfold MarkCompleted, NodeStateOf, State, MarkNodeCompleted. cbn [executor sm SetAgentMapper NewExecutor].
  pose proof (Transition_eq (wsm w) id NodeStateCompleted) as Ht.
  change (sm (executor w)) with (wsm w).
  destruct (wsm w !! id) as [cur|] eqn:Hc; rewrite Ht; [|cbn; by rewrite Hc].
  destruct (legal cur NodeStateCompleted) eqn:Hl; [|cbn; rewrite Hc; by destruct cur].
  assert (cur = NodeStateRunning) as -> by (by destruct cur). rewrite complete_loop_launch.
  pose proof (launch_loop_refines cb (complete_ready k) c (Dependents k (dag (executor w)) id)
    (set_sm (executor w) (<[id := NodeStateCompleted]> (wsm w))) x (complete_ready_deps k)) as Hr.
  apply (completed_stays cb _ _ id) in Hr; [|cbn; apply lookup_insert_eq].
  by destruct (launch_loop _ _ _ _ _ _) as [[e y] err].
Qed.

Lemma mark_failed_node {X} c id msg w (x : X) :
  NodeStateOf (MarkFailed c id msg w x).1.1 id = node_after false (NodeStateOf w id).
Proof.
  unfold MarkFailed, NodeStateOf, State, MarkNodeFailed. cbn [executor sm SetAgentMapper NewExecutor].
  rewrite Transition_eq. change (sm (executor w)) with (wsm w). destruct (wsm w !! id) as [cur|] eqn:Hc; [|cbn; by rewrite Hc].
  destruct cur; cbn; rewrite ?Hc; try done. apply lookup_insert_eq.
Qed.

Lemma wp_on_workflow ptr op (Q : option error → App → Prop) (s : App) wf :
  ap_heap s !! ptr = Some wf →
  (∀ m log err, Q err (set_log log (set_procs m (set_heap (<[ptr := (op wf (ap_procs s, ap_log s)).1.1]> (ap_heap s)) s)))) →
  wp (on_workflow ptr op) Q s.
Proof.
  intros Hp HQ. apply wp_atomic. rewrite Hp. destruct (op wf (ap_procs s, ap_log s)) as [[wf' [m log]] err]. apply HQ.
Qed.

(** The state of a node in the workflow registered under an id. *)
Definition task_node (s : App) (id : string) : option NodeState :=
  ptr ← ap_workflows s !! id; wf ← ap_heap s !! ptr; NodeStateOf wf id.

(** The pointers of the table lead to objects. *)
Definition heap_ok (s : App) : Prop := ∀ id ptr, ap_workflows s !! id = Some ptr → (ptr < length (ap_heap s))%nat.

Lemma wp_report c msg res (Q : unit → App → Prop) (s : App) :
  (∀ s', ap_store s' = ap_store s → ap_heap s' = ap_heap s → ap_workflows s' = ap_workflows s → Q tt s') →
  wp (report_result c msg res) Q s.
Proof.
  intros HQ. apply act_wp_bind.
  assert (∀ t (s' : App), ap_store s' = ap_store s → ap_heap s' = ap_heap s → ap_workflows s' = ap_workflows s →
    wp (let actor := if bool_decide (SenderID msg = "") then res_AgentName res else SenderID msg in
        _ ← record c (Build_AuditEvent "" "" (res_TaskID res) (res_ParentTaskID res) "" "task_result" actor "" (res_Status res)
                        (res_Error res) (Payload msg) t);
        if bool_decide (res_ParentTaskID res = "") then mret tt
        else log_info "subtask finished" [("task_id", GString (res_TaskID res)); ("parent_task_id", GString (res_ParentTaskID res));
               ("agent_name", GString (res_AgentName res)); ("status", GString (res_Status res))]%string) Q s') as Hgo.
  { intros t s' E1 E2 E3. apply act_wp_bind, wp_record. intros r x w lines.
    case_bool_decide; [by apply act_wp_ret, HQ|by apply wp_log, HQ]. }
  destruct (Timestamp msg =? 0); [apply wp_now_ms; intros t w|apply act_wp_ret]; by apply Hgo.
Qed.

Lemma wp_mark c ptr wf status res (Q : option error → App → Prop) (s : App) :
  ap_heap s !! ptr = Some wf →
  (∀ err s' wf', ap_store s' = ap_store s → ap_workflows s' = ap_workflows s → ap_heap s' = <[ptr := wf']> (ap_heap s) →
    NodeStateOf wf' (res_TaskID res) = node_after (IsSuccessfulTaskStatus status) (NodeStateOf wf (res_TaskID res)) → Q err s') →
  wp (mark_result c ptr status res) Q s.
Proof.
  intros Hp HQ. unfold mark_result. destruct (IsSuccessfulTaskStatus status); apply (wp_on_workflow ptr _ _ _ wf Hp); intros m log err;
    (eapply HQ; [reflexivity..|]); [apply mark_completed_node|apply mark_failed_node].
Qed.

(** *** What a result does outside *)

(** The calls of a workflow's callback, with the agent and the node. *)
Inductive called {X} (cb : ctx → string → string → X → X * option error) (c : ctx) : list (string * string) → X → X → Prop :=
| called_not x : called cb c [] x x
| called_for agent n l x y : called cb c l (cb c agent n x).1 y → called cb c ((agent, n) :: l) x y.

Lemma launch_loop_called {X} (cb : ctx → string → string → X → X * option error) ready c ids : ∀ e x,
  ∃ l, called cb c l x (launch_loop cb ready c ids e x).1.2 ∧
    Forall (λ a, a.1 = agent_of e a.2 ∧ a.2 ∈ ids ∧ sm e !! a.2 = Some NodeStatePending) l.
Proof.
  induction ids as [|n ids IH]; intros e x; cbn [launch_loop]; [exists []; by split; constructor|].
  destruct (ready e n).
  2:{ destruct (IH e x) as (l & Hl & Hall). exists l. split; [done|]. eapply Forall_impl; [exact Hall|]. intros a (A1 & A2 & A3). split_and!; [done|by right|done]. }
  unfold readyNode. rewrite Transition_eq. destruct (sm e !! n) as [cur|] eqn:Hn; [|exists []; by split; constructor].
  destruct (legal cur NodeStateRunning) eqn:Hl; [|exists []; by split; constructor]. assert (cur = NodeStatePending) as -> by (by destruct cur).
  destruct (cb c (agent_of e n) n x) as [y r] eqn:Hcb. assert (y = (cb c (agent_of e n) n x).1) as Hy by (by rewrite Hcb).
  destruct r as [err|].
  - exists [(agent_of e n, n)]. split; [apply called_for; rewrite <-Hy; constructor|]. constructor; [|constructor]. split_and!; [done|left|done].
  - destruct (IH (set_sm e (<[n := NodeStateRunning]> (sm e))) y) as (l & Hl' & Hall). exists ((agent_of e n, n) :: l).
    split; [apply called_for; by rewrite <-Hy|]. constructor; [split_and!; [done|left|done]|].
    eapply Forall_impl; [exact Hall|]. intros a (A1 & A2 & A3). split_and!; [exact A1|by right|].
    cbn in A3. apply lookup_insert_Some in A3 as [[_ A3]|[_ A3]]; done.
Qed.

(** A result launches nodes that wait for the task, and only when the task's
    node was running. *)
Definition waits_for (id : string) (w : Workflow) (a : string * string) : Prop :=
  a.1 = GetAgentType w a.2 ∧ edge (wdag w) id a.2 ∧ NodeStateOf w a.2 = Some NodeStatePending.

Lemma mark_completed_called {X} (cb : ctx → string → string → X → X * option error) k c id w x :
  ∃ l, called cb c l x (MarkCompleted cb k c id w x).1.2 ∧ Forall (waits_for id w) l ∧ (NodeStateOf w id ≠ Some NodeStateRunning → l = []).
Proof.
  unfold MarkCompleted, MarkNodeCompleted. rewrite Transition_eq. change (sm (executor w)) with (wsm w). unfold NodeStateOf at 1. unfold State.
  destruct (wsm w !! id) as [cur|] eqn:Hc; [|exists []; by split_and!; constructor].
  destruct (legal cur NodeStateCompleted) eqn:Hl; [|exists []; by split_and!; constructor].
  assert (cur = NodeStateRunning) as -> by (by destruct cur). rewrite complete_loop_launch.
  destruct (launch_loop_called cb (complete_ready k) c (Dependents k (dag (executor w)) id) (set_sm (executor w) (<[id := NodeStateCompleted]> (wsm w))) x)
    as (l & Hl' & Hall).
  exists l. split_and!; [|eapply Forall_impl; [exact Hall|]|done].
  - by destruct (launch_loop _ _ _ _ _ _) as [[e y] err].
  - intros a (A1 & A2 & A3). apply elem_of_Dependents in A2. split_and!; [exact A1|exact A2|].
    cbn in A3. apply lookup_insert_Some in A3 as [[_ A3]|[_ A3]]; done.
Qed.

(** The callback starts a process for each, and only adds to the log. *)
Lemma called_did c l x y st b :
  called OnNodeReady c l x y → ∃ effs, did c effs (st, b, x.1) (st, b, y.1) ∧ Forall2 (λ a e, ∃ r, e = Spawned a.1 a.2 r) l effs ∧ x.2 `prefix_of` y.2.
Proof.
  induction 1 as [x|agent n l [m log] y _ (effs & Hd & Hf & Hp)]; [exists []; split_and!; [constructor..|done]|].
  unfold OnNodeReady in Hd, Hp.
  destruct (GetProfile agent profiles) as [pr|pe]; destruct (SpawnAgent O c agent n m) as [r m'] eqn:Hs;
    exists (Spawned agent n r :: effs); (split_and!; [eapply did_spawn; [exact Hs|]; by destruct r|constructor; [by exists r|done]|]);
    destruct r; cbn in Hp; rewrite <-?app_assoc in Hp; cbn; first [exact Hp|by eapply prefix_app_l].
Qed.

(** What is audited of a result. *)
Definition result_event (msg : Message) (res : TaskResult) (e : AuditEvent) : Prop :=
  ae_Event e = "task_result"%string ∧ ae_TaskID e = res_TaskID res ∧ ae_ParentTaskID e = res_ParentTaskID res ∧
  ae_Status e = res_Status res ∧ ae_Error e = res_Error res ∧ ae_Data e = Payload msg ∧
  (Timestamp msg ≠ 0 → ae_TimestampMs e = Timestamp msg).

Lemma does_report c msg res (Q : unit → list effect → App → Prop) (s : App) :
  (∀ e s', quiet s s' → result_event msg res e → Q tt [Audited e] s') → does c (report_result c msg res) Q s.
Proof.
  intros HQ. apply does_bind.
  assert (∀ t (s1 : App), quiet s s1 → (Timestamp msg ≠ 0 → t = Timestamp msg) →
    does c (let actor := if bool_decide (SenderID msg = "") then res_AgentName res else SenderID msg in
        _ ← record c (Build_AuditEvent "" "" (res_TaskID res) (res_ParentTaskID res) "" "task_result" actor "" (res_Status res)
                        (res_Error res) (Payload msg) t);
        if bool_decide (res_ParentTaskID res = "") then mret tt
        else log_info "subtask finished" [("task_id", GString (res_TaskID res)); ("parent_task_id", GString (res_ParentTaskID res));
               ("agent_name", GString (res_AgentName res)); ("status", GString (res_Status res))]%string) (λ b l, Q b ([] ++ l)) s1) as Hgo.
  { intros t s1 Hs1 Ht. apply does_bind, does_record. intros r s2 Hs2. pose proof (quiet_trans _ _ _ Hs1 Hs2) as Hs3.
    case_bool_decide; [by apply does_ret, HQ|]. apply wp_atomic. exists []. split; [constructor|]. apply HQ; [|done].
    eapply quiet_trans; [exact Hs3|]. split_and!; [done..|by eexists]. }
  destruct (Timestamp msg =? 0) eqn:Ht.
  - apply does_ms. intros t s1 Hs1. apply Hgo; [done|]. apply Z.eqb_eq in Ht. lia.
  - apply does_ret, Hgo; [by split_and!|done].
Qed.

(** What the workflow of a result does: nothing but starting, when the result
    is a success of a running node, nodes that wait for it. *)
Lemma does_mark c ptr wf status res (Q : option error → list effect → App → Prop) (s : App) :
  ap_heap s !! ptr = Some wf →
  (∀ r l launched s', ap_store s' = ap_store s → ap_workflows s' = ap_workflows s → ap_nonces s' = ap_nonces s →
    (∀ p, p ≠ ptr → ap_heap s' !! p = ap_heap s !! p) → ap_log s `prefix_of` ap_log s' →
    Forall2 (λ a e, ∃ r, e = Spawned a.1 a.2 r) launched l → Forall (waits_for (res_TaskID res) wf) launched →
    (NodeStateOf wf (res_TaskID res) = Some NodeStateRunning ∧ IsSuccessfulTaskStatus status = true ∨ launched = []) → Q r l s') →
  does c (mark_result c ptr status res) Q s.
Proof.
  intros Hp HQ. unfold mark_result. destruct (IsSuccessfulTaskStatus status); apply wp_atomic; rewrite Hp.
  - destruct (mark_completed_called OnNodeReady "MarkCompleted" c (res_TaskID res) wf (ap_procs s, ap_log s)) as (l & Hl & Hwait & Hrun).
    destruct (MarkCompleted _ _ _ _ _ _) as [[wf' [m log]] err]. cbn [fst snd] in *.
    destruct (called_did c l _ _ (ap_store s) (ap_bus s) Hl) as (effs & Hd & Hf & Hpre). exists effs. split; [exact Hd|].
    apply (HQ _ effs l); try done; [intros p Hne; cbn; by rewrite list_lookup_insert_ne|].
    destruct (decide (NodeStateOf wf (res_TaskID res) = Some NodeStateRunning)); [by left|right; auto].
  - unfold MarkFailed. destruct (MarkNodeFailed _ _ _ _ _) as [[e [m log]] err] eqn:Hm. cbn [lift_executor fst snd].
    assert ((m, log) = (ap_procs s, ap_log s)) as [= -> ->].
    { unfold MarkNodeFailed in Hm. destruct (Transition _ _ _). congruence. }
    exists []. split; [constructor|]. apply (HQ _ [] []); try done; [intros p Hne; cbn; by rewrite list_lookup_insert_ne|by right].
Qed.

(** Everything a result does besides the task's own state. *)
Lemma does_handle c msg (s : App) :
  available c s → heap_ok s →
  let res := DecodeResult (Payload msg) in
  let id := res_TaskID res in
  let status := NormalizeTaskStatus (res_Status res) in
  does c (handle_result c msg) (λ _ effects s',
    (∃ t launched spawns e,
       effects = Saved (task_state id (res_ParentTaskID res) (res_AgentName res) status (res_Error res) t) None :: spawns ++ [Audited e] ∧
       Forall2 (λ a x, ∃ r, x = Spawned a.1 a.2 r) launched spawns ∧ result_event msg res e ∧
       (launched = [] ∨ IsSuccessfulTaskStatus status = true ∧ task_node s id = Some NodeStateRunning ∧
         ∃ ptr wf, ap_workflows s !! id = Some ptr ∧ ap_heap s !! ptr = Some wf ∧ Forall (waits_for id wf) launched)) ∧
    (∀ p, ap_workflows s !! id ≠ Some p → ap_heap s' !! p = ap_heap s !! p) ∧
    ap_workflows s' = ap_workflows s ∧ ap_nonces s' = ap_nonces s ∧ ap_log s `prefix_of` ap_log s') s.
Proof.
  intros Hav Hheap. cbv zeta. apply does_bind, does_s. intros t s1 Hs1. apply does_bind.
  apply wp_atomic. destruct (Save_ok c (task_state (res_TaskID (DecodeResult (Payload msg))) (res_ParentTaskID (DecodeResult (Payload msg)))
    (res_AgentName (DecodeResult (Payload msg))) (NormalizeTaskStatus (res_Status (DecodeResult (Payload msg)))) (res_Error (DecodeResult (Payload msg))) t)
    (ap_store s1) (same_available c s s1 Hs1 Hav)) as (_ & Hr & _).
  destruct (Save _ _ _) as [err x] eqn:Hsave. cbn in Hr. subst err. eexists. split; [eapply did_save; [exact Hsave|constructor]|]. cbn [fst snd].
  destruct Hs1 as (_ & Eh & Ew & En & El). apply does_bind, wp_atomic. exists []. split; [constructor|].
  cbn [fst snd ap_workflows set_store]. rewrite Ew. unfold task_node.
  destruct (ap_workflows s !! res_TaskID (DecodeResult (Payload msg))) as [ptr|] eqn:Hptr.
  - destruct (lookup_lt_is_Some_2 _ _ (Hheap _ _ Hptr)) as [wf Hwf].
    apply does_bind, (does_mark c ptr wf); [cbn; by rewrite Eh|].
    intros r l launched s2 F1 F2 F3 F4 F5 Hf Hwait Hrun. apply does_report. intros e s3 (G1 & G2 & G3 & G4 & G5) He. split_and!.
    + exists t, launched, l, e. split_and!; [done|done|done|]. destruct Hrun as [[Hrun Hok]|]; [|by left]. right. split_and!; [done|cbn; by rewrite Hwf|].
      exists ptr, wf. by split_and!.
    + intros p Hne. rewrite G2, F4 by congruence. cbn. by rewrite Eh.
    + by rewrite G3, F2.
    + by rewrite G4, F3.
    + etrans; [exact El|]. etrans; [exact F5|exact G5].
  - apply does_bind, does_ret, does_report. intros e s3 (G1 & G2 & G3 & G4 & G5) He. split_and!.
    + exists t, [], [], e. split_and!; [done|constructor|done|by left].
    + intros p Hne. rewrite G2. cbn. by rewrite Eh.
    + by rewrite G3.
    + by rewrite G4.
    + etrans; [exact El|exact G5].
Qed.

(** The task's own state after a result. *)
Lemma handle_result_states c msg (s : App) :
  available c s → heap_ok s →
  let res := DecodeResult (Payload msg) in
  let id := res_TaskID res in
  let status := NormalizeTaskStatus (res_Status res) in
  wp (handle_result c msg) (λ _ s',
    task_status s' id = Some (status, res_Error res) ∧
    (∀ k, k ≠ id → task_status s' k = task_status s k) ∧
    task_node s' id = node_after (IsSuccessfulTaskStatus status) (task_node s id)) s.
Proof.
  intros Hav Hheap. cbv zeta. apply act_wp_bind, wp_now_s. intros t w. apply act_wp_bind, wp_save; [exact Hav|].
  intros x t' Hv Hst Hem _. pose proof (task_status_saved s x _ t' Hv Hst Hem) as Hall.
  cbn [ts_TaskID ts_Status ts_ErrorMessage task_state] in Hall. set (res := DecodeResult (Payload msg)) in *.
  assert (∀ s' : App, ap_store s' = x → task_status s' (res_TaskID res) = Some (NormalizeTaskStatus (res_Status res), res_Error res) ∧
    ∀ k, k ≠ res_TaskID res → task_status s' k = task_status s k) as Hstore.
  { intros s' Hs'. unfold task_status at 1 2. rewrite Hs'. split; [by rewrite Hall, decide_True|].
    intros k Hk. by rewrite Hall, decide_False. }
  apply act_wp_bind, wp_atomic. cbn [fst snd ap_workflows set_store set_world set_procs].
  unfold task_node. destruct (ap_workflows s !! res_TaskID res) as [ptr|] eqn:Hptr.
  - destruct (lookup_lt_is_Some_2 _ _ (Hheap _ _ Hptr)) as [wf Hwf].
    apply act_wp_bind, (wp_mark c ptr wf); [exact Hwf|]. intros err s1 wf' E1 E2 E3 Hnode.
    apply wp_report. intros s2 F1 F2 F3. destruct (Hstore s2) as [G1 G2]; [rewrite F1, ?E1; reflexivity|].
    rewrite F3, E2, F2, E3. cbn [ap_workflows ap_heap set_store set_world set_procs]. rewrite Hptr. cbn [mbind option_bind].
    rewrite Hwf, list_lookup_insert_eq by (by eapply lookup_lt_Some). cbn [mbind option_bind]. done.
  - apply act_wp_bind, act_wp_ret, wp_report. intros s2 F1 F2 F3. destruct (Hstore s2) as [G1 G2]; [rewrite F1, ?E1; reflexivity|].
    rewrite F3. cbn. rewrite Hptr. done.
Qed.

(** C29: A result, when the store answers: the task is stored with the
    normalised status and the error of the result, and the node of its
    workflow, if it is running, completes or fails with it; a node that is not
    running keeps its state, and no other task's status changes.  What else it
    does is this: it starts subagents for nodes of that workflow that wait for
    the task, only when the result is a success of a running node; it audits
    the result; and it logs.  No other workflow changes, nor does the table of
    workflows. *)
Theorem handle_result_exact c msg (s : App) :
  available c s → heap_ok s →
  let res := DecodeResult (Payload msg) in
  let id := res_TaskID res in
  let status := NormalizeTaskStatus (res_Status res) in
  let '(_, s') := run (handle_result c msg) s in
  task_status s' id = Some (status, res_Error res) ∧
  (∀ k, k ≠ id → task_status s' k = task_status s k) ∧
  task_node s' id = node_after (IsSuccessfulTaskStatus status) (task_node s id) ∧
  (∃ t launched spawns e,
     did c (Saved (task_state id (res_ParentTaskID res) (res_AgentName res) status (res_Error res) t) None :: spawns ++ [Audited e])
       (outside s) (outside s') ∧
     Forall2 (λ a x, ∃ r, x = Spawned a.1 a.2 r) launched spawns ∧ result_event msg res e ∧
     (launched = [] ∨ IsSuccessfulTaskStatus status = true ∧ task_node s id = Some NodeStateRunning ∧
       ∃ ptr wf, ap_workflows s !! id = Some ptr ∧ ap_heap s !! ptr = Some wf ∧ Forall (waits_for id wf) launched)) ∧
  (∀ p, ap_workflows s !! id ≠ Some p → ap_heap s' !! p = ap_heap s !! p) ∧
  ap_workflows s' = ap_workflows s ∧ ap_nonces s' = ap_nonces s ∧ ap_log s `prefix_of` ap_log s'.
Proof.
  intros Hav Hheap. cbv zeta. apply wp_elim.
  destruct (handle_result_states c msg s Hav Hheap) as (S1 & S2 & S3).
  destruct (does_handle c msg s Hav Hheap) as (l & Hdid & (t & launched & spawns & e & -> & Hf & He & Hl) & D2 & D3 & D4 & D5).
  split_and!; [exact S1|exact S2|exact S3| |exact D2|exact D3|exact D4|exact D5]. by exists t, launched, spawns, e.
Qed.

(** *** All handlers together *)

(** A handler in a goroutine of its own, its answer dropped. *)
Definition go {A} (m : act App A) : act App unit := _ ← m; mret tt.

Inductive handler : act App unit → Prop :=
| h_process c a : handler (go (ProcessOneTask c a))
| h_loop turns : handler (go (ProcessLoop turns))
| h_results c arrivals : handler (go (ListenResults c arrivals))
| h_recover c : handler (go (RecoverTasksOnStartup c))
| h_approval secret c r : handler (go (handleApproval secret c r)).

Definition statuses_known (s : App) : Prop := ∀ k t, view (ap_store s) !! k = Some t → ts_Status t ∈ known_statuses.

Definition app_ok (s : App) : Prop := statuses_known s ∧ heap_ok s.

(** An action that leaves the store, the table and the number of objects. *)
Definition calm {A} (f : App → A * App) : Prop := ∀ s,
  ap_store (f s).2 = ap_store s ∧ ap_workflows (f s).2 = ap_workflows s ∧ length (ap_heap (f s).2) = length (ap_heap s).

Lemma keeps_calm {A} (f : App → A * App) : calm f → keeps app_ok (atomic f).
Proof.
  intros Hf. apply keeps_atomic. intros s [H1' H2']. destruct (Hf s) as (E1 & E2 & E3).
  unfold app_ok, statuses_known, heap_ok. by rewrite E1, E2, E3.
Qed.

Lemma keeps_now_ns : keeps app_ok now_ns.
Proof. apply keeps_calm. intros s. by destruct (tick _). Qed.
Lemma keeps_now_ms : keeps app_ok now_ms.
Proof. apply keeps_bind; [apply keeps_now_ns|done]. Qed.
Lemma keeps_now_s : keeps app_ok now_s.
Proof. apply keeps_bind; [apply keeps_now_ns|done]. Qed.
Lemma keeps_enqueue c q m : keeps app_ok (enqueue c q m).
Proof. apply keeps_calm. intros s. by destruct (tq_Enqueue _ _ _ _). Qed.
Lemma keeps_publish c q m : keeps app_ok (publish c q m).
Proof. apply keeps_calm. intros s. by destruct (eb_Publish _ _ _ _). Qed.
Lemma keeps_log msg attrs : keeps app_ok (log_info msg attrs).
Proof. by apply keeps_calm. Qed.
Lemma keeps_find id : keeps app_ok (find_workflow id).
Proof. by apply keeps_calm. Qed.
Lemma keeps_record c e : keeps app_ok (record c e).
Proof.
  apply keeps_calm. intros s. destruct (ae_TimestampMs e =? 0); [destruct (tick _) as [t w]|];
    by destruct (RecordEvent _ _ _ _ _) as [[? ?] ?].
Qed.
Lemma keeps_verify h body secret : keeps app_ok (verify h body secret).
Proof.
  apply keeps_bind; [apply keeps_now_ns|]. intros t. apply keeps_bind; [apply keeps_now_ns|]. intros t'.
  apply keeps_calm. intros s. by destruct (VerifyWebhookSignature _ _ _ _ _ _).
Qed.

Lemma keeps_save c t : ts_Status t ∈ known_statuses → keeps app_ok (save c t).
Proof.
  intros Hk. apply keeps_atomic. intros s [Hs Hh]. destruct (unavailable c (ap_store s)) as [e|] eqn:Ha.
  - rewrite (Save_fail c t (ap_store s) e Ha). by split.
  - destruct (Save_ok c t (ap_store s) Ha) as (t' & _ & Hv & Hst & _). destruct (Save c t (ap_store s)) as [err x].
    split; [|exact Hh]. intros k u. cbn in Hv |- *. rewrite Hv, lookup_insert. case_decide; [|apply Hs].
    intros [= <-]. by rewrite Hst.
Qed.

Lemma keeps_on_workflow ptr op : keeps app_ok (on_workflow ptr op).
Proof.
  apply keeps_calm. intros s. destruct (ap_heap s !! ptr) as [wf|]; [|done].
  destruct (op _ _) as [[wf' [m log]] err]. split_and!; [done|done|]. apply length_insert.
Qed.

Lemma keeps_register id agent : keeps app_ok (register_workflow id agent).
Proof.
  apply keeps_atomic. intros s [H1' H2']. split; [exact H1'|]. intros id' ptr. cbn. rewrite lookup_insert, length_app. cbn.
  case_decide; [intros [= <-]; lia|]. intros Hp. specialize (H2' id' ptr Hp). lia.
Qed.
End orchestrator.

Create HintDb handlers.
#[export] Hint Resolve keeps_ret keeps_now_ns keeps_now_ms keeps_now_s keeps_enqueue keeps_publish keeps_log keeps_find
  keeps_record keeps_verify keeps_on_workflow keeps_register : handlers.
Ltac known_status := first [apply normalize_known | apply (bool_decide_unpack _); by vm_compute].
Ltac keep := repeat first
  [ match goal with |- keeps _ (_ ≫= _) => apply keeps_bind; [|intros ?] end
  | match goal with |- keeps _ (match ?x with _ => _ end) => destruct x end
  | match goal with |- keeps _ (save _ _) => apply keeps_save; known_status end
  | by eauto with handlers ].

Section interleaving.
Context `{RangeOrder} {S T W : Type} `{TaskStateStore S} `{Transport T} (O : OS W) (tick : W → Z * W) (profiles : AgentRegistry).

Lemma keeps_start c msg : keeps app_ok (enqueueAndStartTask (S:=S) (T:=T) O tick profiles c msg).
Proof. unfold enqueueAndStartTask. keep. Qed.

Lemma keeps_handle c msg : keeps app_ok (handle_result (S:=S) (T:=T) O tick profiles c msg).
Proof. unfold handle_result, mark_result, report_result. keep. Qed.

Lemma keeps_recover_one c t : keeps app_ok (recoverOneTask (S:=S) (T:=T) O tick profiles c t).
Proof. unfold recoverOneTask. pose proof keeps_start. keep. Qed.

Lemma keeps_accept c body : keeps app_ok (accept_decision (S:=S) (T:=T) (W:=W) tick c body).
Proof. unfold accept_decision. keep. Qed.

Lemma keeps_recover_loop c l : ∀ seen n, keeps app_ok (recover_loop (S:=S) (T:=T) O tick profiles c l seen n).
Proof. induction l as [|t l IH]; intros seen n; cbn [recover_loop]; pose proof keeps_recover_one; keep. Qed.

Lemma keeps_process c a : keeps app_ok (ProcessOneTask (S:=S) (T:=T) O tick profiles c a).
Proof. pose proof keeps_start. unfold ProcessOneTask. keep. Qed.

Lemma keeps_loop turns : keeps app_ok (ProcessLoop (S:=S) (T:=T) O tick profiles turns).
Proof. induction turns as [|[c a] turns IH]; cbn [ProcessLoop]; pose proof keeps_process; keep. Qed.

Lemma keeps_listen c arrivals : keeps app_ok (ListenResults (S:=S) (T:=T) O tick profiles c arrivals).
Proof. induction arrivals as [|[] arrivals IH]; cbn [ListenResults]; pose proof keeps_handle; keep. Qed.

Lemma keeps_recover c : keeps app_ok (RecoverTasksOnStartup (S:=S) (T:=T) O tick profiles c).
Proof. unfold RecoverTasksOnStartup. pose proof keeps_recover_loop. keep. Qed.

Lemma handler_keeps h : handler (S:=S) (T:=T) O tick profiles h → keeps app_ok h.
Proof.
  pose proof keeps_process. pose proof keeps_loop. pose proof keeps_listen. pose proof keeps_recover. pose proof keeps_accept.
  intros []; unfold go, handleApproval; keep.
Qed.

(** C28: In every interleaving of any number of task intakes, task loops,
    result listeners, restarts and approval requests, every status in the
    store is one of the seven statuses and every registered pointer leads to a
    workflow. *)
Theorem statuses_normalised s hs s' hs' :
  Forall (handler (S:=S) (T:=T) O tick profiles) hs → rtc pool_step (s, hs) (s', hs') → app_ok s → app_ok s'.
Proof.
  intros Hh Hr Hs. apply (pool_invariant app_ok _ _ Hr Hs). cbn. apply (Forall_impl _ _ _ Hh), handler_keeps.
Qed.
End interleaving.

(** ** A concrete orchestrator: in-memory store and bus, processes that always
    start, a clock that ticks. *)
Definition demo_os : OS Z :=
  {| os_Start := λ _ _ w, (Ok 4242, w); os_FindProcess := λ _ _, None; os_Kill := λ _ w, (None, w) |}.
Definition demo_tick (w : Z) : Z * Z := (w, w + 1000000000).

Definition demo_app : App states FakeTransport Z :=
  MkApp ∅ NewFakeTransport (Procs "./subagent" ∅ 1700000000000000000) [] ∅ (Some ∅) [].

Definition demo_task : Message :=
  {| MessageID := "t1"; ParentTaskID := ""; SenderID := "gateway"; ReceiverID := "orchestrator"; TargetAgent := "coder";
     Payload := jtext "{'task':'x'}"; Timestamp := 1700000000000 |}.

Definition demo_result : Message :=
  {| MessageID := "t1.result"; ParentTaskID := ""; SenderID := "t1"; ReceiverID := "orchestrator"; TargetAgent := "";
     Payload := jtext "{'task_id':'t1','agent_name':'coder','status':'success','output':{'result':'ok'},'timestamp':1700000001}";
     Timestamp := 1700000001000 |}.

Section demo.
#[local] Existing Instance range_ascending.
#[local] Instance demo_bus : Transport FakeTransport := fake_transport (λ l, l).
#[local] Existing Instance InMemoryTaskStateStore.

Abbreviation demo_start := (enqueueAndStartTask demo_os demo_tick NewAgentRegistry background demo_task).
Abbreviation demo_handle := (handle_result demo_os demo_tick NewAgentRegistry background demo_result).

Lemma start_task_exact_witness :
  available background demo_app ∧
  let '(err, s') := run demo_start demo_app in err = None ∧ task_status s' "t1" = Some ("running", "")%string.
Proof.
  split; [reflexivity|].
  generalize (start_task_exact demo_os demo_tick NewAgentRegistry background demo_task demo_app eq_refl).
  destruct (run _ _) as [err s']. intros (_ & _ & Hx). exact (proj2 Hx).
Defined.

Definition demo_restart : App states FakeTransport Z :=
  set_store {["t0" := task_state "t0" "" "coder" "pending" "" 5]} demo_app.

Lemma recovery_keeps_work_witness :
  available background demo_restart ∧
  let '(err, s') := run (RecoverTasksOnStartup demo_os demo_tick NewAgentRegistry background) demo_restart in
  err = None ∧ will_recover s' "t0".
Proof.
  split; [reflexivity|].
  assert (store_wf (ap_store demo_restart)) as Hwf.
  { intros k t. unfold demo_restart. cbn. rewrite lookup_singleton. case_decide; [|done]. intros [= <-]. done. }
  generalize (recovery_keeps_work demo_os demo_tick NewAgentRegistry background demo_restart eq_refl Hwf).
  destruct (run _ _) as [err s']. intros (He & _ & Hx). split; [exact He|]. exact (proj1 (Hx "t0"%string)).
Defined.

Lemma handle_result_exact_witness :
  available background demo_app ∧
  let '(_, s') := run demo_handle demo_app in task_status s' "t1" = Some ("success", "")%string.
Proof.
  split; [reflexivity|].
  assert (heap_ok demo_app) as Hh by done.
  generalize (handle_result_exact demo_os demo_tick NewAgentRegistry background demo_result demo_app eq_refl Hh).
  destruct (run _ _) as [[] s']. intros (Hx & _). exact Hx.
Defined.

Definition demo_pool : list (act (App states FakeTransport Z) unit) :=
  [go (ProcessOneTask demo_os demo_tick NewAgentRegistry background (Arrived demo_task));
   go (ListenResults demo_os demo_tick NewAgentRegistry background [Arrived demo_result])].

Lemma statuses_normalised_witness :
  ∃ s' hs', rtc pool_step (demo_app, demo_pool) (s', hs') ∧ app_ok s'.
Proof.
  assert (Hr := play_pair [0; 0; 1; 1; 0; 1]%nat (demo_app, demo_pool) _ eq_refl).
  eexists _, _. split; [exact Hr|].
  refine (statuses_normalised demo_os demo_tick NewAgentRegistry _ _ _ _ _ Hr _).
  - repeat constructor.
  - split; [|done]. intros k t Hk. done.
Defined.

Definition demo_mid := play [0; 0; 0; 1; 1]%nat (demo_app, [go demo_start; go demo_handle]).
Definition demo_end := play (replicate 20 1 ++ replicate 20 0)%nat demo_mid.

(** The result of a task that finishes before its intake has stored it is
    lost: in some interleaving of the intake of a task with the handling of
    its successful result, the workflow's node is completed and the success was
    stored, yet the task ends up stored as running, so that the next restart
    runs it again. *)
Theorem early_result_overwritten :
  ∃ s1 s2 hs,
    rtc pool_step (demo_app, [go demo_start; go demo_handle]) (s1, hs) ∧
    rtc pool_step (s1, hs) (s2, [Ret tt; Ret tt]) ∧
    task_status s1 "t1" = Some ("success", "")%string ∧
    task_status s2 "t1" = Some ("running", "")%string ∧
    task_node s2 "t1" = Some NodeStateCompleted ∧
    will_recover s2 "t1".
Proof.
  exists demo_mid.1, demo_end.1, demo_mid.2. split_and!.
  - exact (play_pair [0; 0; 0; 1; 1]%nat (demo_app, [go demo_start; go demo_handle]) demo_mid eq_refl).
  - assert ([Ret tt; Ret tt] = demo_end.2) as -> by (vm_compute; reflexivity).
    exact (play_pair _ demo_mid demo_end eq_refl).
  - vm_compute. reflexivity.
  - vm_compute. reflexivity.
  - vm_compute. reflexivity.
  - eexists. split; vm_compute; reflexivity.
Qed.
End demo.

