(* ===== verification/Chunk.v ===== *)
(** * Stream chunks on the wire (internal/llm/contracts.go: StreamChunk)

    The JSON text of a chunk, its decoding, and that decoding the text of a
    chunk gives the chunk back. *)
From Stdlib Require Import String Ascii.
From S2P Require Import Prelude GoStrings Strconv Contracts Runtime Bus TaskResult.
From stdpp Require Import list.

Local Open Scope Z_scope.

(** [json.Marshal(chunk)]; [None] is the encoder's error, for data that is not
    JSON. *)
Definition chunk_data (c : StreamChunk) : option (list (string * json)) :=
  if bool_decide (sc_Data c = EmptyString) then Some []
  else p ← raw_json (sc_Data c); Some [("data"%string, p)].

Definition chunk_members (c : StreamChunk) (data : list (string * json)) : list (string * json) :=
  [("trace_id", jstring (sc_TraceID c)); ("session_id", jstring (sc_SessionID c)); ("task_id", jstring (sc_TaskID c));
   ("sequence", jint (sc_Sequence c)); ("event", jstring (sc_Event c))]%string ++
  omitempty "delta" (sc_Delta c) ++ omitempty "role" (sc_Role c) ++ omitempty "tool_name" (sc_ToolName c) ++
  [("done", JBool (sc_Done c))]%string ++ omitempty "error" (sc_Error c) ++ data ++
  [("timestamp_ms", jint (sc_TimestampMs c))]%string.

Definition chunk_json (c : StreamChunk) : option json := data ← chunk_data c; Some (JObj (chunk_members c data)).

(** Setters, one per field. *)
Definition set_sc_TraceID v c := Build_StreamChunk v (sc_SessionID c) (sc_TaskID c) (sc_Sequence c) (sc_Event c) (sc_Delta c) (sc_Role c) (sc_ToolName c) (sc_Done c) (sc_Error c) (sc_Data c) (sc_TimestampMs c).
Definition set_sc_SessionID v c := Build_StreamChunk (sc_TraceID c) v (sc_TaskID c) (sc_Sequence c) (sc_Event c) (sc_Delta c) (sc_Role c) (sc_ToolName c) (sc_Done c) (sc_Error c) (sc_Data c) (sc_TimestampMs c).
Definition set_sc_TaskID v c := Build_StreamChunk (sc_TraceID c) (sc_SessionID c) v (sc_Sequence c) (sc_Event c) (sc_Delta c) (sc_Role c) (sc_ToolName c) (sc_Done c) (sc_Error c) (sc_Data c) (sc_TimestampMs c).
Definition set_sc_Sequence v c := Build_StreamChunk (sc_TraceID c) (sc_SessionID c) (sc_TaskID c) v (sc_Event c) (sc_Delta c) (sc_Role c) (sc_ToolName c) (sc_Done c) (sc_Error c) (sc_Data c) (sc_TimestampMs c).
Definition set_sc_Event v c := Build_StreamChunk (sc_TraceID c) (sc_SessionID c) (sc_TaskID c) (sc_Sequence c) v (sc_Delta c) (sc_Role c) (sc_ToolName c) (sc_Done c) (sc_Error c) (sc_Data c) (sc_TimestampMs c).
Definition set_sc_Delta v c := Build_StreamChunk (sc_TraceID c) (sc_SessionID c) (sc_TaskID c) (sc_Sequence c) (sc_Event c) v (sc_Role c) (sc_ToolName c) (sc_Done c) (sc_Error c) (sc_Data c) (sc_TimestampMs c).
Definition set_sc_Role v c := Build_StreamChunk (sc_TraceID c) (sc_SessionID c) (sc_TaskID c) (sc_Sequence c) (sc_Event c) (sc_Delta c) v (sc_ToolName c) (sc_Done c) (sc_Error c) (sc_Data c) (sc_TimestampMs c).
Definition set_sc_ToolName v c := Build_StreamChunk (sc_TraceID c) (sc_SessionID c) (sc_TaskID c) (sc_Sequence c) (sc_Event c) (sc_Delta c) (sc_Role c) v (sc_Done c) (sc_Error c) (sc_Data c) (sc_TimestampMs c).
Definition set_sc_Done v c := Build_StreamChunk (sc_TraceID c) (sc_SessionID c) (sc_TaskID c) (sc_Sequence c) (sc_Event c) (sc_Delta c) (sc_Role c) (sc_ToolName c) v (sc_Error c) (sc_Data c) (sc_TimestampMs c).
Definition set_sc_Error v c := Build_StreamChunk (sc_TraceID c) (sc_SessionID c) (sc_TaskID c) (sc_Sequence c) (sc_Event c) (sc_Delta c) (sc_Role c) (sc_ToolName c) (sc_Done c) v (sc_Data c) (sc_TimestampMs c).
Definition set_sc_Data v c := Build_StreamChunk (sc_TraceID c) (sc_SessionID c) (sc_TaskID c) (sc_Sequence c) (sc_Event c) (sc_Delta c) (sc_Role c) (sc_ToolName c) (sc_Done c) (sc_Error c) v (sc_TimestampMs c).
Definition set_sc_TimestampMs v c := Build_StreamChunk (sc_TraceID c) (sc_SessionID c) (sc_TaskID c) (sc_Sequence c) (sc_Event c) (sc_Delta c) (sc_Role c) (sc_ToolName c) (sc_Done c) (sc_Error c) (sc_Data c) v.

Definition zero_chunk : StreamChunk := Build_StreamChunk "" "" "" 0 "" "" "" "" false "" "" 0.

Definition chunk_fields : list (field StreamChunk) :=
  [ string_field "trace_id" set_sc_TraceID; string_field "session_id" set_sc_SessionID;
    string_field "task_id" set_sc_TaskID; int64_field "sequence" set_sc_Sequence; string_field "event" set_sc_Event;
    string_field "delta" set_sc_Delta; string_field "role" set_sc_Role; string_field "tool_name" set_sc_ToolName;
    bool_field "done" set_sc_Done; string_field "error" set_sc_Error; raw_field "data" set_sc_Data;
    int64_field "timestamp_ms" set_sc_TimestampMs ].

Definition DecodeChunk (payload : string) : result StreamChunk := Unmarshal chunk_fields zero_chunk payload.

(** ** Round trip *)
Record chunk_ok (c : StreamChunk) : Prop := {
  cok_trace : valid_utf8 (sc_TraceID c) = true;
  cok_session : valid_utf8 (sc_SessionID c) = true;
  cok_task : valid_utf8 (sc_TaskID c) = true;
  cok_seq : in_int64 (sc_Sequence c);
  cok_event : valid_utf8 (sc_Event c) = true;
  cok_delta : valid_utf8 (sc_Delta c) = true;
  cok_role : valid_utf8 (sc_Role c) = true;
  cok_tool : valid_utf8 (sc_ToolName c) = true;
  cok_error : valid_utf8 (sc_Error c) = true;
  cok_time : in_int64 (sc_TimestampMs c);
  cok_data : sc_Data c = EmptyString ∨ ∃ p, raw_json (sc_Data c) = Some p ∧ json_ok 1 p = true
}.

(** The chunk as it arrives: its data compacted and escaped. *)
Definition chunk_normal (c : StreamChunk) : StreamChunk :=
  if bool_decide (sc_Data c = EmptyString) then c
  else match raw_json (sc_Data c) with Some p => set_sc_Data (print p) c | None => c end.

Lemma store_bool {A} strict (fs : list (field A)) name (set : bool → A → A) b l a :
  find_field fs (unquote name) = Some (bool_field name set) →
  store_members strict fs (map field_text ((name, JBool b) :: l)) a = store_members strict fs (map field_text l) (set b a).
Proof. intros Hf. cbn [map store_members]. unfold store_member, field_text. cbn [fst snd]. rewrite Hf. by destruct b. Qed.

Lemma members_ok_bool d name b l : token_str name = true → members_ok d ((name, JBool b) :: l) = members_ok d l.
Proof. intros H. by rewrite members_ok_value. Qed.

Lemma chunk_data_ok c :
  chunk_ok c → ∃ data, chunk_data c = Some data ∧ (∀ l, members_ok 1 (data ++ l) = members_ok 1 l) ∧
    ∀ l a, sc_Data a = EmptyString → store_members false chunk_fields (map field_text (data ++ l)) a =
             store_members false chunk_fields (map field_text l) (set_sc_Data (sc_Data (chunk_normal c)) a).
Proof.
  intros Hc. unfold chunk_data, chunk_normal. case_bool_decide as He.
  - exists []. split_and!; [done|done|]. intros l a Ha. rewrite He. cbn [app]. f_equal. destruct a. cbn in Ha. by rewrite Ha.
  - destruct (cok_data c Hc) as [|(p & Hp & Hok)]; [done|]. rewrite Hp. exists [("data"%string, p)]. split_and!; [done|..].
    + intros l. cbn [app]. by rewrite members_ok_value.
    + intros l a _. cbn [app]. by rewrite (store_raw _ _ _ set_sc_Data).
Qed.

Lemma chunk_roundtrip c :
  chunk_ok c → ∃ v, chunk_json c = Some v ∧ json_ok 0 v = true ∧ DecodeChunk (print v) = Ok (chunk_normal c).
Proof.
  intros Hc. destruct (chunk_data_ok c Hc) as (data & Hd & Hm & Hst). destruct Hc as [H1 H2 H3 H4 H5 H6 H7 H8 H9 H10 _].
  unfold chunk_json. rewrite Hd. cbn [mbind option_bind]. eexists. split; [done|].
  assert (json_ok 0 (JObj (chunk_members c data)) = true) as Hall.
  { change (members_ok 1 (chunk_members c data) = true). unfold chunk_members. cbn [app].
    rewrite !members_ok_string, members_ok_int, members_ok_string by done.
    rewrite !members_ok_app, !members_ok_omitempty by done. cbn [andb].
    rewrite members_ok_bool, members_ok_app, members_ok_omitempty by done. cbn [andb].
    by rewrite Hm, members_ok_int. }
  split; [exact Hall|]. unfold DecodeChunk, Unmarshal. rewrite parse_print by exact Hall.
  pose proof (object_fields_print _ EmptyString Hall) as Ho. rewrite sapp_nil_r in Ho. rewrite Ho.
  unfold chunk_members. cbn [app].
  rewrite (store_string _ _ _ set_sc_TraceID), (store_string _ _ _ set_sc_SessionID), (store_string _ _ _ set_sc_TaskID),
    (store_int64 _ _ _ set_sc_Sequence), (store_string _ _ _ set_sc_Event), (store_optional _ _ _ set_sc_Delta),
    (store_optional _ _ _ set_sc_Role), (store_optional _ _ _ set_sc_ToolName) by done.
  rewrite (store_bool _ _ _ set_sc_Done), (store_optional _ _ _ set_sc_Error) by done.
  rewrite Hst, (store_int64 _ _ _ set_sc_TimestampMs) by done.
  unfold chunk_normal. destruct c; cbn. case_bool_decide; [done|]. by destruct (raw_json _).
Qed.
