(* ===== verification/Subagent.v ===== *)
(** * The subagent: cmd/subagent/main.go

    A subagent takes the messages of its task's queue one by one, runs the
    inference loop on each with the session's history, streams the chunks of
    the run over the bus, and reports one result per message to the
    orchestrator's queue.

    The model provider, the tool executor and the approval gate act on a world
    [W]; the bus is a [Transport].  The inference loop runs on the subagent's
    whole state, since its chunk publisher is the subagent's. *)
From Stdlib Require Import String Ascii.
From S2P Require Import Prelude GoStrings Strconv TaskStatus Contracts Session Runtime Prompt GoValue Transport AuditTrail TaskResult Chunk.
From stdpp Require Import list.

Local Open Scope Z_scope.

Record Sub (T W : Type) := MkSub { sb_bus : T; sb_history : option history; sb_world : W; sb_log : list log_line }.
Arguments MkSub {T W} _ _ _ _.
Arguments sb_bus {T W} _.
Arguments sb_history {T W} _.
Arguments sb_world {T W} _.
Arguments sb_log {T W} _.

Definition runtimeTaskResultStatus (runtimeStatus : string) (err : option error) : string :=
  let normalized := NormalizeTaskStatus runtimeStatus in
  if negb (bool_decide (runtimeStatus = "")) then normalized
  else match err with Some _ => TaskStatusFailed | None => TaskStatusSuccess end.

Section subagent.
Context {T W : Type} `{Transport T}.

(** The configuration: agent type, task id, model provider. *)
Context (AgentType TaskID LLMProvider : string).

(** The provider, the executor, the gate, the clock in nanoseconds, and the
    order SQL gives to rows of equal time. *)
Context (predict : InferenceRequest → W → result string * W)
  (execute : ToolCall → W → (ToolResult * option error) * W)
  (wait : ApprovalRequest → Z → W → (ApprovalDecision * option error) * W)
  (tick : W → Z * W) (order_desc : list HistoryMessage → list HistoryMessage).

Abbreviation Sub := (Sub T W).

Definition set_sb_bus (x : T) (s : Sub) : Sub := MkSub x (sb_history s) (sb_world s) (sb_log s).
Definition set_sb_history (x : option history) (s : Sub) : Sub := MkSub (sb_bus s) x (sb_world s) (sb_log s).
Definition set_sb_world (x : W) (s : Sub) : Sub := MkSub (sb_bus s) (sb_history s) x (sb_log s).
Definition add_log (l : list log_line) (s : Sub) : Sub := MkSub (sb_bus s) (sb_history s) (sb_world s) (sb_log s ++ l).

Definition on_world {A} (op : W → A * W) (s : Sub) : A * Sub := let '(a, w) := op (sb_world s) in (a, set_sb_world w s).

Definition clock_ns (s : Sub) : Z * Sub := on_world tick s.
Definition clock_ms (s : Sub) : Z * Sub := let '(t, s) := clock_ns s in (t / 1000000, s).
Definition clock_s (s : Sub) : Z * Sub := let '(t, s) := clock_ns s in (t / 1000000000, s).

Definition sub_auditor : option Auditor := Some {| au_events := true; au_senderID := TaskID |}.

(** ** Streaming *)
Definition publishChunk (c : ctx) (chunk : StreamChunk) (s : Sub) : option error * Sub :=
  let chunk := if bool_decide (sc_TaskID chunk = "") then set_sc_TaskID TaskID chunk else chunk in
  match chunk_json chunk with
  | None => (Some marshal_error, s)
  | Some payload =>
    let '(t, s) := clock_ms s in
    let '(err, b) := eb_Publish c ("chunks." ++ sc_TaskID chunk)%string
      {| MessageID := ("chunk." ++ sc_TaskID chunk ++ "." ++ FormatInt (sc_Sequence chunk))%string; ParentTaskID := "";
         SenderID := TaskID; ReceiverID := "sender"; TargetAgent := ""; Payload := print payload; Timestamp := t |} (sb_bus s) in
    let s := set_sb_bus b s in
    match err with
    | Some e => (Some e, s)
    | None =>
      let '(now, s) := if sc_TimestampMs chunk =? 0 then clock_ms s else (0, s) in
      let '(err, b, lines) := RecordEvent sub_auditor now c
        {| ae_TraceID := sc_TraceID chunk; ae_SessionID := sc_SessionID chunk; ae_TaskID := sc_TaskID chunk;
           ae_ParentTaskID := ""; ae_ToolCallID := ""; ae_Event := sc_Event chunk; ae_Actor := TaskID; ae_Level := "";
           ae_Status := ""; ae_Error := sc_Error chunk; ae_Data := sc_Data chunk; ae_TimestampMs := sc_TimestampMs chunk |}
        (sb_bus s) in
      (err, add_log lines (set_sb_bus b s))
    end
  end.

(** ** The result message *)
Definition result_output (output : string) : string := (jtext "{'result':'" ++ (output ++ jtext "'}"))%string.

Definition task_result (msg : Message) (status output err : string) (t : Z) : TaskResult :=
  {| res_TaskID := MessageID msg; res_ParentTaskID := ParentTaskID msg; res_AgentName := AgentType; res_Status := status;
     res_Output := result_output output; res_Error := err; res_Timestamp := t |}.

(** The encoder's error is ignored: the payload is then empty. *)
Definition sendResult (msg : Message) (status output err : string) (s : Sub) : Sub :=
  let '(t, s) := clock_s s in
  let resPayload := match result_json (task_result msg status output err t) with Some v => print v | None => EmptyString end in
  let '(t, s) := clock_ms s in
  let '(_, b) := tq_Enqueue background "task_results"
    {| MessageID := (MessageID msg ++ ".result")%string; ParentTaskID := ""; SenderID := TaskID; ReceiverID := "orchestrator";
       TargetAgent := ""; Payload := resPayload; Timestamp := t |} (sb_bus s) in
  set_sb_bus b s.

(** ** One message *)

(** The session and the task text of a payload. *)
Definition parse_task (payload : string) : string * string :=
  match UnmarshalMap payload with
  | Fail _ => (EmptyString, payload)
  | Ok m =>
    (match get_key "session_id" m with Some (GString sid) => sid | _ => EmptyString end,
     match get_key "task" m with Some (GString text) => text | _ => payload end)
  end.

Definition session_history (sessionID : string) (s : Sub) : list HistoryMessage :=
  match sb_history s with
  | Some h => if bool_decide (sessionID = "") then []
              else match GetHistory order_desc sessionID 10 h with Ok l => l | Fail _ => [] end
  | None => []
  end.

Definition system_prompt : string :=
  Build (AddInstruction "Your response MUST be a valid JSON object matching the requested schema."
    (AddInstruction "Analyze the user request and use tools if needed." (NewSystemPromptBuilder AgentType))).

Definition history_entry (id sessionID role content : string) : HistoryMessage :=
  {| hm_ID := id; hm_SessionID := sessionID; hm_Role := role; hm_Content := content; hm_Tokens := 0; hm_CreatedAt := 0 |}.

(** [AddMessage] with a fresh identifier, its error ignored. *)
Definition remember (suffix role sessionID content : string) (s : Sub) : Sub :=
  let '(n, s) := clock_ns s in
  let '(now, s) := clock_ms s in
  match sb_history s with
  | Some h => set_sb_history (Some (AddMessage now (history_entry ("msg_" ++ FormatInt n ++ suffix)%string sessionID role content) h).2) s
  | None => s
  end.

Definition runtime_env (c : ctx) : env Sub :=
  {| Predict := λ req s, on_world (predict req) s;
     Execute := λ call s, on_world (execute call) s;
     Wait := Some (λ req timeout s, on_world (wait req timeout) s);
     publisher := Some (publishChunk c);
     UnixMilli := clock_ms |}.

Definition inference_request (traceID sessionID : string) (messages : list ChatMessage) : InferenceRequest :=
  {| ir_TraceID := traceID; ir_SessionID := sessionID; ir_TaskID := TaskID; ir_AgentType := ""; ir_Messages := messages;
     ir_ModelAlias := LLMProvider; ir_MaxTurns := 0; ir_Stream := false; ir_Temperature := None; ir_Metadata := ∅;
     ir_OnApprovalReject := "" |}.

Definition exec_line (payload : string) : log_line :=
  Line LevelInfo "executing task" [("component", GString "subagent"); ("agent_type", GString AgentType);
    ("task_id", GString TaskID); ("payload", GString payload)]%string.

(** The run of one message, up to its outcome; [None] is a slice panic of the
    prompt builder. *)
Definition run_message (c : ctx) (payload : string) (s : Sub) : option (outcome * Sub) :=
  let '(sessionID, actualTask) := parse_task payload in
  '(messages, s) ← BuildMessages 4096 (Some (λ req s, on_world (predict req) s)) system_prompt
                     (session_history sessionID s) actualTask s;
  let '(n, s) := clock_ns s in
  let traceID := ("tr_" ++ FormatInt n)%string in
  let '(out, r) := Run (runtime_env c) default_max_turns (inference_request traceID sessionID messages)
                     (RState s (Some (NewFanout traceID sessionID TaskID)) []) in
  Some (out, r_world r).

(** The error line of a failed run: [LogAction] on a map with one string. *)
Definition error_line (err : error) : log_line :=
  LogAction TaskID "run" "ERROR" (print (JObj [("error"%string, jstring (err_msg err))])).

(** What is kept and reported of an outcome. *)
Definition finish_message (msg : Message) (out : outcome) (s : Sub) : Sub :=
  let '(sessionID, actualTask) := parse_task (Payload msg) in
  match out with
  | (res, Some err) =>
    sendResult msg (runtimeTaskResultStatus (fr_Status res) (Some err)) "" (err_msg err) (add_log [error_line err] s)
  | (res, None) =>
    let s := if bool_decide (is_Some (sb_history s)) && negb (bool_decide (sessionID = ""))
             then remember "_assistant" "assistant" sessionID (fr_Content res) (remember "_user" "user" sessionID actualTask s)
             else s in
    sendResult msg TaskStatusSuccess (fr_Content res) "" s
  end.

Definition handle_message (c : ctx) (msg : Message) (s : Sub) : option Sub :=
  '(out, s) ← run_message c (Payload msg) (add_log [exec_line (Payload msg)] s);
  Some (finish_message msg out s).

(** [Subagent.Run] on the messages its queue delivers until it is closed. *)
Fixpoint RunMessages (c : ctx) (msgs : list Message) (s : Sub) : option (option error * Sub) :=
  match msgs with
  | [] => Some (c, s)
  | msg :: msgs => s ← handle_message c msg s; RunMessages c msgs s
  end.

(** ** What is reported *)
Lemma result_output_print output : result_output output = print (JObj [("result"%string, JStr output)]).
Proof. unfold result_output. cbn. by rewrite !sapp_assoc. Qed.

Lemma result_output_ok output : token_str output = true → json_ok 1 (JObj [("result"%string, JStr output)]) = true.
Proof. intros H1. cbn. by rewrite H1. Qed.

Lemma result_output_json output :
  token_str output = true → raw_json (result_output output) = Some (JObj [("result"%string, JStr (html_escape output))]).
Proof.
  intros Ht. unfold raw_json. rewrite result_output_print, parse_print by (by apply (json_ok_depth _ 1), result_output_ok).
  done.
Qed.

Lemma raw_json_invalid t : t ≠ EmptyString → Valid t = false → raw_json t = None.
Proof.
  intros Hne Hv. unfold raw_json, Valid in *. apply bool_decide_eq_false_1 in Hv. destruct t; [done|].
  destruct (parse _); [|done]. by destruct Hv.
Qed.

(** C33: The result a subagent sends.  When the model's answer is the body of a
    JSON string, one valid message is enqueued whose payload decodes to the
    task's identifiers, the status, the error and that answer; when splicing
    the answer into the output makes no valid JSON, the message sent is
    refused by every transport, and nothing is reported. *)
Theorem send_result_exact msg status output err (s : Sub) :
  TaskID ≠ "" → (∀ w, 1000000 ≤ (tick w).1 < 2 ^ 63) →
  (∀ t, in_int64 t → result_ok (task_result msg status output err t)) →
  ∃ m s1, sendResult msg status output err s = set_sb_bus (tq_Enqueue background "task_results" m (sb_bus s)).2 s1 ∧
    sb_bus s1 = sb_bus s ∧
    if token_str output
    then Validate m = None ∧ ∃ t, DecodeResult (Payload m) = task_result msg status (html_escape output) err t
    else Valid (result_output output) = false → Validate m ≠ None ∧ sb_bus (sendResult msg status output err s) = sb_bus s.
Proof.
  intros Htask Hclock Hok. unfold sendResult, clock_s, clock_ms, clock_ns, on_world.
  pose proof (Hclock (sb_world s)) as Hc1. destruct (tick (sb_world s)) as [t1 w1] eqn:E1. cbn [fst snd] in *.
  set (ts := t1 / 1000000000). assert (in_int64 ts) as Hts.
  { unfold in_int64, int64_min, int64_max, ts. pose proof (Z.div_pos t1 1000000000). pose proof (Z.div_le_upper_bound t1 1000000000 (2 ^ 63 - 1)). lia. }
  cbn [sb_world set_sb_world]. pose proof (Hclock w1) as Hc2. destruct (tick w1) as [t2 w2] eqn:E2. cbn [fst snd] in *.
  set (payload := match result_json _ with Some v => print v | None => EmptyString end).
  set (m := Build_Message _ _ _ _ _ _ _). destruct (tq_Enqueue background "task_results" m _) as [e b] eqn:Eb.
  exists m, (set_sb_world w2 (set_sb_world w1 s)). cbn in Eb |- *. rewrite Eb. split_and!; [done|done|].
  destruct (token_str output) eqn:Ht.
  - pose proof (result_output_json output Ht) as Hraw.
    pose proof (token_html_escape output Ht) as Ht'.
    destruct (result_roundtrip (task_result msg status output err ts) _ (Hok ts Hts) Hraw (result_output_ok _ Ht')) as (v & Hv & Hvok & Hdec).
    assert (payload = print v) as Hp by (unfold payload; by rewrite Hv).
    split.
    + apply Validate_spec. cbn. split_and!; [|done|done| |].
      * destruct (MessageID msg); done.
      * pose proof (Z.div_le_lower_bound t2 1000000 1). lia.
      * rewrite Hp. by apply Valid_print.
    + exists ts. change (Payload m) with payload. rewrite Hp, Hdec. unfold task_result. by rewrite (result_output_print (html_escape output)).
  - intros Hv. assert (payload = EmptyString) as Hp.
    { unfold payload, result_json. cbn [res_Output task_result]. by rewrite raw_json_invalid. }
    assert (Validate m ≠ None) as Hm. { rewrite Validate_spec. cbn. rewrite Hp. intros (_ & _ & _ & _ & Hx). done. }
    split; [done|]. destruct (Validate m) as [e'|] eqn:Hvm; [|done].
    pose proof (tq_refused background "task_results" m (sb_bus s) e' Hvm) as Hr. rewrite Eb in Hr. exact Hr.
Qed.
End subagent.

(** A concrete subagent on the in-memory bus. *)
Definition sub_demo : Sub FakeTransport Z := MkSub NewFakeTransport None 1700000000000000000 [].
Definition sub_demo_tick (w : Z) : Z * Z := (1700000000000000000, w).
Definition sub_demo_message : Message :=
  {| MessageID := "t1"; ParentTaskID := ""; SenderID := "gateway"; ReceiverID := "orchestrator"; TargetAgent := "";
     Payload := jtext "{'task':'x','session_id':'s1'}"; Timestamp := 1 |}.

Example parse_task_sample :
  parse_task (Payload sub_demo_message) = ("s1", "x")%string ∧ parse_task (jtext "['task']") = (EmptyString, jtext "['task']").
Proof. split; vm_compute; reflexivity. Qed.

(** An answer with a quote, and one that adds a member of its own. *)
Example spliced_output :
  Valid (result_output (jtext "say 'hi'")) = false ∧
  parse (result_output (jtext "x','message':{},'y':'z")) =
    Some (JObj [("result", JStr "x"); ("message", JObj []); ("y", JStr "z")])%string.
Proof. split; vm_compute; reflexivity. Qed.

Lemma send_result_exact_witness :
  token_str "done" = true ∧
  ∃ m, Validate m = None ∧ ∃ t, DecodeResult (Payload m) = task_result "coder" sub_demo_message "success" "done" "" t.
Proof.
  split; [reflexivity|].
  destruct (send_result_exact (H := fake_transport (λ l, l)) "coder" "t1" sub_demo_tick sub_demo_message "success" "done" "" sub_demo)
    as (m & s1 & _ & _ & Hv & Hd); [done| |by constructor|by exists m].
  intros w. cbn. lia.
Defined.
