(* ===== verification/GatewayTypes.v ===== *)
(** * Channel messages: internal/gateway/types.go

    The message every chat platform's adapter speaks, its decoding from JSON,
    strict or not, and its encoding. *)
From Stdlib Require Import String Ascii.
From S2P Require Import Prelude GoStrings Strconv GoValue Bus.
From stdpp Require Import list.

Local Open Scope Z_scope.

(** ** Kinds and formats *)
Definition MessageTypes : list string :=
  ["unknown"; "text"; "markdown"; "image"; "audio"; "video"; "file"; "news"; "event"; "link"; "location"]%string.
Definition MessageTypeText : string := "text".
Definition FormatPlainText : string := "plain_text".
Definition FormatMarkdown : string := "markdown".
Definition MediaKinds : list string := ["image"; "audio"; "video"; "file"]%string.

(** A [map[string]interface{}]; [None] is nil. *)
Abbreviation gmembers := (option (list (string * gvalue))).

(** ** Data *)
Record MediaItem := MkMediaItem {
  mi_Kind : string;
  mi_MediaID : string;
  mi_FileName : string;
  mi_Path : string;
  mi_DataBase64 : string;
  mi_URL : string;
  mi_MIMEType : string;
  mi_Title : string;
  mi_Description : string;
  mi_ThumbnailMediaID : string;
  mi_Size : Z;
  mi_Metadata : gmembers
}.

Definition set_mi_Kind (v : string) (m : MediaItem) : MediaItem :=
  MkMediaItem v (mi_MediaID m) (mi_FileName m) (mi_Path m) (mi_DataBase64 m) (mi_URL m) (mi_MIMEType m) (mi_Title m) (mi_Description m) (mi_ThumbnailMediaID m) (mi_Size m) (mi_Metadata m).
Definition set_mi_MediaID (v : string) (m : MediaItem) : MediaItem :=
  MkMediaItem (mi_Kind m) v (mi_FileName m) (mi_Path m) (mi_DataBase64 m) (mi_URL m) (mi_MIMEType m) (mi_Title m) (mi_Description m) (mi_ThumbnailMediaID m) (mi_Size m) (mi_Metadata m).
Definition set_mi_FileName (v : string) (m : MediaItem) : MediaItem :=
  MkMediaItem (mi_Kind m) (mi_MediaID m) v (mi_Path m) (mi_DataBase64 m) (mi_URL m) (mi_MIMEType m) (mi_Title m) (mi_Description m) (mi_ThumbnailMediaID m) (mi_Size m) (mi_Metadata m).
Definition set_mi_Path (v : string) (m : MediaItem) : MediaItem :=
  MkMediaItem (mi_Kind m) (mi_MediaID m) (mi_FileName m) v (mi_DataBase64 m) (mi_URL m) (mi_MIMEType m) (mi_Title m) (mi_Description m) (mi_ThumbnailMediaID m) (mi_Size m) (mi_Metadata m).
Definition set_mi_DataBase64 (v : string) (m : MediaItem) : MediaItem :=
  MkMediaItem (mi_Kind m) (mi_MediaID m) (mi_FileName m) (mi_Path m) v (mi_URL m) (mi_MIMEType m) (mi_Title m) (mi_Description m) (mi_ThumbnailMediaID m) (mi_Size m) (mi_Metadata m).
Definition set_mi_URL (v : string) (m : MediaItem) : MediaItem :=
  MkMediaItem (mi_Kind m) (mi_MediaID m) (mi_FileName m) (mi_Path m) (mi_DataBase64 m) v (mi_MIMEType m) (mi_Title m) (mi_Description m) (mi_ThumbnailMediaID m) (mi_Size m) (mi_Metadata m).
Definition set_mi_MIMEType (v : string) (m : MediaItem) : MediaItem :=
  MkMediaItem (mi_Kind m) (mi_MediaID m) (mi_FileName m) (mi_Path m) (mi_DataBase64 m) (mi_URL m) v (mi_Title m) (mi_Description m) (mi_ThumbnailMediaID m) (mi_Size m) (mi_Metadata m).
Definition set_mi_Title (v : string) (m : MediaItem) : MediaItem :=
  MkMediaItem (mi_Kind m) (mi_MediaID m) (mi_FileName m) (mi_Path m) (mi_DataBase64 m) (mi_URL m) (mi_MIMEType m) v (mi_Description m) (mi_ThumbnailMediaID m) (mi_Size m) (mi_Metadata m).
Definition set_mi_Description (v : string) (m : MediaItem) : MediaItem :=
  MkMediaItem (mi_Kind m) (mi_MediaID m) (mi_FileName m) (mi_Path m) (mi_DataBase64 m) (mi_URL m) (mi_MIMEType m) (mi_Title m) v (mi_ThumbnailMediaID m) (mi_Size m) (mi_Metadata m).
Definition set_mi_ThumbnailMediaID (v : string) (m : MediaItem) : MediaItem :=
  MkMediaItem (mi_Kind m) (mi_MediaID m) (mi_FileName m) (mi_Path m) (mi_DataBase64 m) (mi_URL m) (mi_MIMEType m) (mi_Title m) (mi_Description m) v (mi_Size m) (mi_Metadata m).
Definition set_mi_Size (v : Z) (m : MediaItem) : MediaItem :=
  MkMediaItem (mi_Kind m) (mi_MediaID m) (mi_FileName m) (mi_Path m) (mi_DataBase64 m) (mi_URL m) (mi_MIMEType m) (mi_Title m) (mi_Description m) (mi_ThumbnailMediaID m) v (mi_Metadata m).
Definition set_mi_Metadata (v : gmembers) (m : MediaItem) : MediaItem :=
  MkMediaItem (mi_Kind m) (mi_MediaID m) (mi_FileName m) (mi_Path m) (mi_DataBase64 m) (mi_URL m) (mi_MIMEType m) (mi_Title m) (mi_Description m) (mi_ThumbnailMediaID m) (mi_Size m) v.

Record Article := MkArticle {
  ar_Title : string;
  ar_Description : string;
  ar_URL : string;
  ar_PicURL : string
}.

Definition set_ar_Title (v : string) (m : Article) : Article :=
  MkArticle v (ar_Description m) (ar_URL m) (ar_PicURL m).
Definition set_ar_Description (v : string) (m : Article) : Article :=
  MkArticle (ar_Title m) v (ar_URL m) (ar_PicURL m).
Definition set_ar_URL (v : string) (m : Article) : Article :=
  MkArticle (ar_Title m) (ar_Description m) v (ar_PicURL m).
Definition set_ar_PicURL (v : string) (m : Article) : Article :=
  MkArticle (ar_Title m) (ar_Description m) (ar_URL m) v.

Record StandardMessage := MkStandardMessage {
  sm_SessionID : string;
  sm_ChannelName : string;
  sm_MessageID : string;
  sm_ParentMessageID : string;
  sm_SenderID : string;
  sm_SenderName : string;
  sm_ReceiverID : string;
  sm_Text : string;
  sm_MessageType : string;
  sm_Format : string;
  sm_Media : option (list MediaItem);
  sm_Articles : option (list Article);
  sm_Card : gmembers;
  sm_RawContent : string;
  sm_Metadata : gmembers
}.

Definition set_sm_SessionID (v : string) (m : StandardMessage) : StandardMessage :=
  MkStandardMessage v (sm_ChannelName m) (sm_MessageID m) (sm_ParentMessageID m) (sm_SenderID m) (sm_SenderName m) (sm_ReceiverID m) (sm_Text m) (sm_MessageType m) (sm_Format m) (sm_Media m) (sm_Articles m) (sm_Card m) (sm_RawContent m) (sm_Metadata m).
Definition set_sm_ChannelName (v : string) (m : StandardMessage) : StandardMessage :=
  MkStandardMessage (sm_SessionID m) v (sm_MessageID m) (sm_ParentMessageID m) (sm_SenderID m) (sm_SenderName m) (sm_ReceiverID m) (sm_Text m) (sm_MessageType m) (sm_Format m) (sm_Media m) (sm_Articles m) (sm_Card m) (sm_RawContent m) (sm_Metadata m).
Definition set_sm_MessageID (v : string) (m : StandardMessage) : StandardMessage :=
  MkStandardMessage (sm_SessionID m) (sm_ChannelName m) v (sm_ParentMessageID m) (sm_SenderID m) (sm_SenderName m) (sm_ReceiverID m) (sm_Text m) (sm_MessageType m) (sm_Format m) (sm_Media m) (sm_Articles m) (sm_Card m) (sm_RawContent m) (sm_Metadata m).
Definition set_sm_ParentMessageID (v : string) (m : StandardMessage) : StandardMessage :=
  MkStandardMessage (sm_SessionID m) (sm_ChannelName m) (sm_MessageID m) v (sm_SenderID m) (sm_SenderName m) (sm_ReceiverID m) (sm_Text m) (sm_MessageType m) (sm_Format m) (sm_Media m) (sm_Articles m) (sm_Card m) (sm_RawContent m) (sm_Metadata m).
Definition set_sm_SenderID (v : string) (m : StandardMessage) : StandardMessage :=
  MkStandardMessage (sm_SessionID m) (sm_ChannelName m) (sm_MessageID m) (sm_ParentMessageID m) v (sm_SenderName m) (sm_ReceiverID m) (sm_Text m) (sm_MessageType m) (sm_Format m) (sm_Media m) (sm_Articles m) (sm_Card m) (sm_RawContent m) (sm_Metadata m).
Definition set_sm_SenderName (v : string) (m : StandardMessage) : StandardMessage :=
  MkStandardMessage (sm_SessionID m) (sm_ChannelName m) (sm_MessageID m) (sm_ParentMessageID m) (sm_SenderID m) v (sm_ReceiverID m) (sm_Text m) (sm_MessageType m) (sm_Format m) (sm_Media m) (sm_Articles m) (sm_Card m) (sm_RawContent m) (sm_Metadata m).
Definition set_sm_ReceiverID (v : string) (m : StandardMessage) : StandardMessage :=
  MkStandardMessage (sm_SessionID m) (sm_ChannelName m) (sm_MessageID m) (sm_ParentMessageID m) (sm_SenderID m) (sm_SenderName m) v (sm_Text m) (sm_MessageType m) (sm_Format m) (sm_Media m) (sm_Articles m) (sm_Card m) (sm_RawContent m) (sm_Metadata m).
Definition set_sm_Text (v : string) (m : StandardMessage) : StandardMessage :=
  MkStandardMessage (sm_SessionID m) (sm_ChannelName m) (sm_MessageID m) (sm_ParentMessageID m) (sm_SenderID m) (sm_SenderName m) (sm_ReceiverID m) v (sm_MessageType m) (sm_Format m) (sm_Media m) (sm_Articles m) (sm_Card m) (sm_RawContent m) (sm_Metadata m).
Definition set_sm_MessageType (v : string) (m : StandardMessage) : StandardMessage :=
  MkStandardMessage (sm_SessionID m) (sm_ChannelName m) (sm_MessageID m) (sm_ParentMessageID m) (sm_SenderID m) (sm_SenderName m) (sm_ReceiverID m) (sm_Text m) v (sm_Format m) (sm_Media m) (sm_Articles m) (sm_Card m) (sm_RawContent m) (sm_Metadata m).
Definition set_sm_Format (v : string) (m : StandardMessage) : StandardMessage :=
  MkStandardMessage (sm_SessionID m) (sm_ChannelName m) (sm_MessageID m) (sm_ParentMessageID m) (sm_SenderID m) (sm_SenderName m) (sm_ReceiverID m) (sm_Text m) (sm_MessageType m) v (sm_Media m) (sm_Articles m) (sm_Card m) (sm_RawContent m) (sm_Metadata m).
Definition set_sm_Media (v : option (list MediaItem)) (m : StandardMessage) : StandardMessage :=
  MkStandardMessage (sm_SessionID m) (sm_ChannelName m) (sm_MessageID m) (sm_ParentMessageID m) (sm_SenderID m) (sm_SenderName m) (sm_ReceiverID m) (sm_Text m) (sm_MessageType m) (sm_Format m) v (sm_Articles m) (sm_Card m) (sm_RawContent m) (sm_Metadata m).
Definition set_sm_Articles (v : option (list Article)) (m : StandardMessage) : StandardMessage :=
  MkStandardMessage (sm_SessionID m) (sm_ChannelName m) (sm_MessageID m) (sm_ParentMessageID m) (sm_SenderID m) (sm_SenderName m) (sm_ReceiverID m) (sm_Text m) (sm_MessageType m) (sm_Format m) (sm_Media m) v (sm_Card m) (sm_RawContent m) (sm_Metadata m).
Definition set_sm_Card (v : gmembers) (m : StandardMessage) : StandardMessage :=
  MkStandardMessage (sm_SessionID m) (sm_ChannelName m) (sm_MessageID m) (sm_ParentMessageID m) (sm_SenderID m) (sm_SenderName m) (sm_ReceiverID m) (sm_Text m) (sm_MessageType m) (sm_Format m) (sm_Media m) (sm_Articles m) v (sm_RawContent m) (sm_Metadata m).
Definition set_sm_RawContent (v : string) (m : StandardMessage) : StandardMessage :=
  MkStandardMessage (sm_SessionID m) (sm_ChannelName m) (sm_MessageID m) (sm_ParentMessageID m) (sm_SenderID m) (sm_SenderName m) (sm_ReceiverID m) (sm_Text m) (sm_MessageType m) (sm_Format m) (sm_Media m) (sm_Articles m) (sm_Card m) v (sm_Metadata m).
Definition set_sm_Metadata (v : gmembers) (m : StandardMessage) : StandardMessage :=
  MkStandardMessage (sm_SessionID m) (sm_ChannelName m) (sm_MessageID m) (sm_ParentMessageID m) (sm_SenderID m) (sm_SenderName m) (sm_ReceiverID m) (sm_Text m) (sm_MessageType m) (sm_Format m) (sm_Media m) (sm_Articles m) (sm_Card m) (sm_RawContent m) v.

Definition zero_media : MediaItem := MkMediaItem "" "" "" "" "" "" "" "" "" "" 0 None.
Definition zero_article : Article := MkArticle "" "" "" "".
Definition zero_standard : StandardMessage := MkStandardMessage "" "" "" "" "" "" "" "" "" "" None None None "" None.

(** ** Decoding *)

(** A field of map type: the members are added to what the map has. *)
Definition map_field {A} (name : string) (get : A → gmembers) (set : gmembers → A → A) : field A :=
  (name, λ t a, match parse t with
                | Some (JObj _ as v) =>
                  if numbers_ok v then
                    match decode_value v with
                    | GObj ms => Ok (set (Some (foldl (λ acc kv, put kv.1 kv.2 acc) (default [] (get a)) ms)) a)
                    | _ => Ok a
                    end
                  else Fail (type_error "float64")
                | Some JNull => Ok (set None a)
                | _ => Fail (type_error "map[string]interface {}")
                end).

Definition slice_field {A B} (strict : bool) (name : string) (fs : list (field B)) (zero : B) (get : A → option (list B))
    (set : option (list B) → A → A) : field A :=
  (name, λ t a, match parse t with
                | Some JNull => Ok (set None a)
                | _ => l ← slice_value strict fs zero t (default [] (get a)); Ok (set (Some l) a)
                end).

Definition media_fields (strict : bool) : list (field MediaItem) :=
  [ string_field "kind" set_mi_Kind;
    string_field "media_id" set_mi_MediaID;
    string_field "file_name" set_mi_FileName;
    string_field "path" set_mi_Path;
    string_field "data_base64" set_mi_DataBase64;
    string_field "url" set_mi_URL;
    string_field "mime_type" set_mi_MIMEType;
    string_field "title" set_mi_Title;
    string_field "description" set_mi_Description;
    string_field "thumbnail_media_id" set_mi_ThumbnailMediaID;
    int64_field "size" set_mi_Size;
    map_field "metadata" mi_Metadata set_mi_Metadata ].

Definition article_fields : list (field Article) :=
  [ string_field "title" set_ar_Title;
    string_field "description" set_ar_Description;
    string_field "url" set_ar_URL;
    string_field "pic_url" set_ar_PicURL ].

Definition standard_fields (strict : bool) : list (field StandardMessage) :=
  [ string_field "session_id" set_sm_SessionID;
    string_field "channel_name" set_sm_ChannelName;
    string_field "message_id" set_sm_MessageID;
    string_field "parent_message_id" set_sm_ParentMessageID;
    string_field "sender_id" set_sm_SenderID;
    string_field "sender_name" set_sm_SenderName;
    string_field "receiver_id" set_sm_ReceiverID;
    string_field "text" set_sm_Text;
    string_field "message_type" set_sm_MessageType;
    string_field "format" set_sm_Format;
    slice_field strict "media" (media_fields strict) zero_media sm_Media set_sm_Media;
    slice_field strict "articles" article_fields zero_article sm_Articles set_sm_Articles;
    map_field "card" sm_Card set_sm_Card;
    raw_field "raw_content" set_sm_RawContent;
    map_field "metadata" sm_Metadata set_sm_Metadata ].

(** ** Encoding *)
Definition opt_map (name : string) (ms : gmembers) : list (string * json) :=
  match ms with None | Some [] => [] | Some l => [(name, encode_value (GObj l))] end.

Definition opt_int (name : string) (z : Z) : list (string * json) := if z =? 0 then [] else [(name, jint z)].

Definition media_json (m : MediaItem) : json :=
  JObj ([("kind", jstring (mi_Kind m))]%string ++ omitempty "media_id" (mi_MediaID m) ++ omitempty "file_name" (mi_FileName m) ++
    omitempty "path" (mi_Path m) ++ omitempty "data_base64" (mi_DataBase64 m) ++ omitempty "url" (mi_URL m) ++
    omitempty "mime_type" (mi_MIMEType m) ++ omitempty "title" (mi_Title m) ++ omitempty "description" (mi_Description m) ++
    omitempty "thumbnail_media_id" (mi_ThumbnailMediaID m) ++ opt_int "size" (mi_Size m) ++ opt_map "metadata" (mi_Metadata m)).

Definition article_json (a : Article) : json :=
  JObj ([("title", jstring (ar_Title a))]%string ++ omitempty "description" (ar_Description a) ++
    [("url", jstring (ar_URL a))]%string ++ omitempty "pic_url" (ar_PicURL a)).

(** A nil slice or map is [null]. *)
Definition jslice {A} (f : A → json) (l : option (list A)) : json := match l with None => JNull | Some l => JArr (map f l) end.
Definition jmap (ms : gmembers) : json := match ms with None => JNull | Some l => encode_value (GObj l) end.
