(* ===== verification/Router.v ===== *)
(** * The session router: internal/gateway/router.go

    The gateway turns a channel message into a task for the orchestrator and
    remembers where it came from; when the task's result arrives, the answer is
    sent back through that channel's adapter to that session.

    What adapters do is the list of the messages given to them. *)
From Stdlib Require Import String Ascii.
From S2P Require Import Prelude GoStrings Strconv GoValue Transport TaskResult GatewayTypes.
From stdpp Require Import list.

Local Open Scope Z_scope.

Record routeBinding := Binding { rb_SessionID : string; rb_ChannelName : string; rb_Metadata : gmembers }.

(** ** Metadata *)
Definition mlen (m : gmembers) : nat := length (default [] m).

Definition cloneMetadata (src : gmembers) : gmembers := if bool_decide (mlen src = 0%nat) then None else src.

Definition mergeMetadata (base override : gmembers) : gmembers :=
  if bool_decide (mlen base = 0%nat) && bool_decide (mlen override = 0%nat) then None
  else Some (foldl (λ acc kv, put kv.1 kv.2 acc) (default [] (cloneMetadata base)) (default [] override)).

(** ** The answer of a task *)
Record gatewayResultEnvelope := Envelope { ge_Result : string; ge_Message : option StandardMessage }.

Definition envelope_fields : list (field gatewayResultEnvelope) :=
  [ string_field "result" (λ v e, Envelope v (ge_Message e));
    ("message"%string, λ t e, match parse t with
                              | Some JNull => Ok (Envelope (ge_Result e) None)
                              | _ => m ← struct_value false (standard_fields false) t (default zero_standard (ge_Message e));
                                     Ok (Envelope (ge_Result e) (Some m))
                              end) ].

Definition text_response (text : string) : StandardMessage :=
  set_sm_Text text (set_sm_Format FormatPlainText (set_sm_MessageType MessageTypeText zero_standard)).

Definition decodeGatewayResponse (output : string) : option StandardMessage :=
  match Unmarshal envelope_fields (Envelope EmptyString None) output with
  | Fail _ => None
  | Ok e =>
    match ge_Message e with
    | Some m => Some m
    | None => if negb (bool_decide (ge_Result e = EmptyString)) then Some (text_response (ge_Result e)) else None
    end
  end.

(** ** Adapters: whether one takes rich messages, and what one was given *)
Inductive delivery :=
| SendRich (adapter : string) (m : StandardMessage)
| SendText (adapter session text : string).

Record SessionRouter (T : Type) := Router {
  ro_queue : T;
  ro_adapters : gmap string bool;
  ro_routes : gmap string routeBinding;
  ro_sent : list delivery
}.
Arguments Router {T} _ _ _ _.
Arguments ro_queue {T} _.
Arguments ro_adapters {T} _.
Arguments ro_routes {T} _.
Arguments ro_sent {T} _.

Definition NewSessionRouter {T} (queue : T) : SessionRouter T := Router queue ∅ ∅ [].

Section router.
Context {T : Type} `{Transport T}.
Abbreviation SessionRouter := (SessionRouter T).

Definition RegisterAdapter (name : string) (rich : bool) (r : SessionRouter) : SessionRouter :=
  Router (ro_queue r) (<[name := rich]> (ro_adapters r)) (ro_routes r) (ro_sent r).

Definition with_routes (x : gmap string routeBinding) (r : SessionRouter) : SessionRouter :=
  Router (ro_queue r) (ro_adapters r) x (ro_sent r).

Definition rememberRoute (taskID : string) (req : StandardMessage) (r : SessionRouter) : SessionRouter :=
  with_routes (<[taskID := Binding (sm_SessionID req) (sm_ChannelName req) (cloneMetadata (sm_Metadata req))]> (ro_routes r)) r.

Definition routeForTask (taskID : string) (r : SessionRouter) : option routeBinding := ro_routes r !! taskID.

Definition deleteRoute (taskID : string) (r : SessionRouter) : SessionRouter := with_routes (delete taskID (ro_routes r)) r.

(** ** Incoming messages *)

(** The payload's map, in the key order of the encoder; [None] is its error,
    for raw content that is not JSON. *)
Definition dispatch_json (req : StandardMessage) : option json :=
  raw ← raw_json (sm_RawContent req);
  Some (JObj
    [("articles", jslice article_json (sm_Articles req)); ("card", jmap (sm_Card req)); ("channel", jstring (sm_ChannelName req));
     ("format", jstring (sm_Format req)); ("media", jslice media_json (sm_Media req)); ("message_id", jstring (sm_MessageID req));
     ("message_type", jstring (sm_MessageType req)); ("metadata", jmap (sm_Metadata req));
     ("parent_msg_id", jstring (sm_ParentMessageID req)); ("raw_content", raw); ("receiver_id", jstring (sm_ReceiverID req));
     ("require_chat", JBool true); ("sender_id", jstring (sm_SenderID req)); ("sender_name", jstring (sm_SenderName req));
     ("session_id", jstring (sm_SessionID req)); ("task", jstring (sm_Text req))]%string).

Definition dispatch_message (taskID : string) (req : StandardMessage) (t : Z) : Message :=
  {| MessageID := taskID; ParentTaskID := ""; SenderID := ("gateway." ++ sm_ChannelName req)%string; ReceiverID := "orchestrator";
     TargetAgent := "orchestrator"; Payload := match dispatch_json req with Some v => print v | None => EmptyString end;
     Timestamp := t |}.

Definition task_id (now_ns : Z) : string := ("session_" ++ FormatInt now_ns)%string.

Arguments task_id : simpl never.

(** [now_ns] and [t] are the two readings of the clock; the answer is the task
    id, or the queue's error. *)
Definition DispatchIncoming (c : ctx) (req : StandardMessage) (now_ns t : Z) (r : SessionRouter) : result string * SessionRouter :=
  let taskID := task_id now_ns in
  let msg := dispatch_message taskID req t in
  let r := rememberRoute taskID req r in
  let '(err, q) := tq_Enqueue c "tasks" msg (ro_queue r) in
  let r := Router q (ro_adapters r) (ro_routes r) (ro_sent r) in
  match err with Some e => (Fail e, r) | None => (Ok taskID, r) end.

Definition HandleIncoming (c : ctx) (req : StandardMessage) (now_ns t : Z) (r : SessionRouter) : option error * SessionRouter :=
  match DispatchIncoming c req now_ns t r with (Ok _, r) => (None, r) | (Fail e, r) => (Some e, r) end.

(** ** Results *)

(** The answer with what its task's route adds. *)
Definition bind_response (binding : option routeBinding) (resp : StandardMessage) : StandardMessage :=
  match binding with
  | None => resp
  | Some b =>
    let resp := if bool_decide (sm_SessionID resp = "") then set_sm_SessionID (rb_SessionID b) resp else resp in
    let resp := if bool_decide (sm_ChannelName resp = "") then set_sm_ChannelName (rb_ChannelName b) resp else resp in
    set_sm_Metadata (mergeMetadata (rb_Metadata b) (sm_Metadata resp)) resp
  end.

Definition deliver (resp : StandardMessage) (r : SessionRouter) : SessionRouter :=
  match (ro_adapters r !! sm_ChannelName resp : option bool) with
  | Some rich =>
    let d := if rich then SendRich (sm_ChannelName resp) resp else SendText (sm_ChannelName resp) (sm_SessionID resp) (sm_Text resp) in
    Router (ro_queue r) (ro_adapters r) (ro_routes r) (ro_sent r ++ [d])
  | None => r
  end.

(** The body of the loop of [StartStreamListener]. *)
Definition handle_task_result (payload : string) (r : SessionRouter) : SessionRouter :=
  match Unmarshal result_fields zero_result payload with
  | Fail _ => r
  | Ok result =>
    match decodeGatewayResponse (res_Output result) with
    | None => r
    | Some resp =>
      let binding := routeForTask (res_TaskID result) r in
      let forget := λ r : SessionRouter, match binding with Some _ => deleteRoute (res_TaskID result) r | None => r end in
      let resp := bind_response binding resp in
      if bool_decide (sm_ChannelName resp = "") then forget r else forget (deliver resp r)
    end
  end.

Definition StreamListener (payloads : list string) (r : SessionRouter) : SessionRouter :=
  foldl (λ (r : SessionRouter) p, handle_task_result p r) r payloads.

(** ** Where answers go *)

(** A result text that carries a plain answer for a task. *)
Definition plain_result (payload id text : string) : Prop :=
  ∃ res e, Unmarshal result_fields zero_result payload = Ok res ∧ res_TaskID res = id ∧
    Unmarshal envelope_fields (Envelope EmptyString None) (res_Output res) = Ok e ∧
    ge_Message e = None ∧ ge_Result e = text ∧ text ≠ "".

Lemma handle_plain payload id text r :
  plain_result payload id text →
  handle_task_result payload r =
  let resp := bind_response (routeForTask id r) (text_response text) in
  let forget (r : SessionRouter) := match routeForTask id r with Some _ => deleteRoute id r | None => r end in
  if bool_decide (sm_ChannelName resp = "") then forget r
  else match routeForTask id r with Some _ => deleteRoute id (deliver resp r) | None => deliver resp r end.
Proof.
  intros (res & e & Hres & <- & He & Hm & <- & Ht). unfold handle_task_result, decodeGatewayResponse.
  rewrite Hres, He, Hm, bool_decide_eq_false_2 by done. cbn [negb].
  destruct (routeForTask (res_TaskID res) r); by case_bool_decide.
Qed.

(** The answer as the adapter gets it. *)
Definition reply (rich : bool) (req : StandardMessage) (text : string) : delivery :=
  if rich then
    SendRich (sm_ChannelName req)
      (set_sm_Metadata (mergeMetadata (cloneMetadata (sm_Metadata req)) None)
        (set_sm_ChannelName (sm_ChannelName req) (set_sm_SessionID (sm_SessionID req) (text_response text))))
  else SendText (sm_ChannelName req) (sm_SessionID req) text.

Lemma bind_text b text :
  bind_response (Some b) (text_response text) =
  set_sm_Metadata (mergeMetadata (rb_Metadata b) None)
    (set_sm_ChannelName (rb_ChannelName b) (set_sm_SessionID (rb_SessionID b) (text_response text))).
Proof.
  unfold bind_response. cbv zeta. by rewrite !bool_decide_eq_true_2 by done.
Qed.

(** C13: The answer to a dispatched message goes back to the session it came
    from, through its channel's adapter, once: other results in between, for
    other tasks, do not change that, and a second plain answer for the same
    task is sent nowhere. *)
Theorem reply_goes_home c req now_ns t r id r1 others again payload text rich :
  sm_ChannelName req ≠ "" →
  DispatchIncoming c req now_ns t r = (Ok id, r1) →
  ro_adapters r !! sm_ChannelName req = Some rich →
  (∀ p, p ∈ others → ∃ res, Unmarshal result_fields zero_result p = Ok res ∧ res_TaskID res ≠ id) →
  plain_result payload id text → plain_result again id text →
  let r2 := StreamListener others r1 in
  let r3 := handle_task_result payload r2 in
  ro_sent r3 = ro_sent r2 ++ [reply rich req text] ∧ routeForTask id r3 = None ∧
  handle_task_result again r3 = r3.
Proof.
  intros Hchan Hd Had Hothers Hp Hagain. cbv zeta.
  assert (∀ p (r : SessionRouter), (∃ res, Unmarshal result_fields zero_result p = Ok res ∧ res_TaskID res ≠ id) →
    ro_routes (handle_task_result p r) !! id = ro_routes r !! id ∧ ro_adapters (handle_task_result p r) = ro_adapters r) as Hstep.
  { intros p r0 (res & Hres & Hne). unfold handle_task_result, deliver, deleteRoute, with_routes. rewrite Hres.
    destruct (decodeGatewayResponse (res_Output res)) as [resp|]; [|done].
    repeat case_match; cbn; rewrite ?lookup_delete_ne by done; done. }
  assert (∀ (r : SessionRouter), (∀ p, p ∈ others → ∃ res, Unmarshal result_fields zero_result p = Ok res ∧ res_TaskID res ≠ id) →
    ro_routes (StreamListener others r) !! id = ro_routes r !! id ∧ ro_adapters (StreamListener others r) = ro_adapters r) as Hkeep.
  { clear Hothers. induction others as [|p others IH]; intros r0 Ho; [done|].
    change (StreamListener (p :: others) r0) with (StreamListener others (handle_task_result p r0)).
    destruct (IH (handle_task_result p r0)) as [E1 E2]; [intros; apply Ho; by right|].
    destruct (Hstep p r0) as [F1 F2]; [apply Ho; by left|]. by rewrite E1, E2, F1, F2. }
  destruct (Hkeep r1 Hothers) as [Hr Ha]. clear Hkeep Hstep.
  unfold DispatchIncoming in Hd. destruct (tq_Enqueue c "tasks" _ _) as [[e|] q]; [done|].
  injection Hd as <- <-. cbn in Hr, Ha. rewrite lookup_insert_eq in Hr.
  set (r2 := StreamListener others _) in *. rewrite (handle_plain payload _ text) by done.
  cbv zeta. assert (Hroute := Hr). change (routeForTask (task_id now_ns) r2 = Some (Binding (sm_SessionID req) (sm_ChannelName req) (cloneMetadata (sm_Metadata req)))) in Hroute.
  rewrite !Hroute, bind_text. cbn [rb_SessionID rb_ChannelName rb_Metadata].
  set (resp := set_sm_Metadata _ _). assert (sm_ChannelName resp = sm_ChannelName req) as Hc by done.
  rewrite Hc, bool_decide_eq_false_2 by done. unfold deliver. rewrite Hc, Ha, Had.
  split_and!.
  - unfold reply. by destruct rich.
  - unfold routeForTask, deleteRoute, with_routes. cbn. apply lookup_delete_eq.
  - rewrite (handle_plain again _ text) by done. unfold routeForTask. cbn. rewrite lookup_delete_eq. done.
Qed.
End router.

(** A concrete router: one plain adapter, on the in-memory bus. *)
Definition router_demo : SessionRouter FakeTransport := RegisterAdapter "wecom" false (NewSessionRouter NewFakeTransport).
Definition router_request : StandardMessage :=
  set_sm_SessionID "wecom:u1" (set_sm_ChannelName "wecom" (set_sm_Text "hello" zero_standard)).
Definition router_answer : string :=
  jtext "{'task_id':'session_5','agent_name':'orchestrator','status':'success','output':{'result':'hi'},'timestamp':7}".

(** An answer that carries a message of its own chooses its channel and
    session. *)
Example redirected_answer :
  ro_sent (handle_task_result (jtext "{'task_id':'session_5','output':{'result':'x','message':{'session_id':'other','channel_name':'wecom','text':'t'}}}")
    (DispatchIncoming (H := fake_transport (λ l, l)) background router_request 5 7 router_demo).2) =
  [SendText "wecom" "other" "t"].
Proof. vm_compute. reflexivity. Qed.

Lemma reply_goes_home_witness :
  let r1 := (DispatchIncoming (H := fake_transport (λ l, l)) background router_request 5 7 router_demo).2 in
  ro_sent (handle_task_result router_answer r1) = [SendText "wecom" "wecom:u1" "hi"].
Proof.
  assert (plain_result router_answer "session_5" "hi") as Hp.
  { eexists _, _. split_and!; [vm_compute; reflexivity..|done]. }
  destruct (reply_goes_home (H := fake_transport (λ l, l)) background router_request 5 7 router_demo "session_5"
    (DispatchIncoming (H := fake_transport (λ l, l)) background router_request 5 7 router_demo).2 [] router_answer router_answer
    "hi" false) as [Hs _]; [done|vm_compute; reflexivity|vm_compute; reflexivity| |exact Hp|exact Hp|].
  - intros p Hp'. by apply elem_of_nil in Hp'.
  - exact Hs.
Defined.
