(* ===== verification/Sender.v ===== *)
(** * The stream sender: internal/gateway/sender.go and sse_handler.go

    The gateway's sender receives the chunks of every task from the bus and
    writes each to the sink registered for its task, as a server-sent event;
    after the last chunk of a task it closes the sink, and a sink that cannot
    be written to is dropped.

    Sinks are objects: the table holds pointers to them, and what reaches a
    sink's response is a list of texts.  Registration runs concurrently with
    the receiving loop, so the operations are atomic actions ([act]). *)
From Stdlib Require Import String Ascii.
From S2P Require Import Prelude GoStrings Strconv Contracts Runtime GoValue Transport AuditTrail Threads Chunk.
From stdpp Require Import list.

Local Open Scope Z_scope.

(** ** Server-sent events *)
Definition SSEHeaders : list (string * string) :=
  [("Content-Type", "text/event-stream"); ("Cache-Control", "no-cache"); ("Connection", "keep-alive");
   ("Access-Control-Allow-Origin", "*")]%string.

Definition newline : string := String "010" EmptyString.

(** A writer takes a text and answers an error, if any, on a world of its own. *)
Definition writer (W : Type) : Type := string → W → option error * W.

Definition WriteSSEFrame {W} (write : writer W) (event data : string) (w : W) : option error * W :=
  let '(err, w) := if negb (bool_decide (event = EmptyString)) then write ("event: " ++ event ++ newline)%string w else (None, w) in
  match err with
  | Some e => (Some e, w)
  | None => write ("data: " ++ data ++ newline ++ newline)%string w
  end.

Definition WriteDoneFrame {W} (write : writer W) (w : W) : option error * W := WriteSSEFrame write "done" "[DONE]" w.

(** [SSEStreamSink.WriteChunk]; the encoder's error is ignored. *)
Definition WriteChunk {W} (write : writer W) (chunk : StreamChunk) (w : W) : option error * W :=
  WriteSSEFrame write (sc_Event chunk) (match chunk_json chunk with Some v => print v | None => EmptyString end) w.

(** ** Sinks

    A [StreamSink] is given the chunks of a task and closed after the last. *)
Record StreamSink (W : Type) := MkStreamSink {
  ss_WriteChunk : StreamChunk → W → option error * W;
  ss_Close : W → option error * W
}.
Arguments MkStreamSink {W} _ _.
Arguments ss_WriteChunk {W} _ _ _.
Arguments ss_Close {W} _ _.

Definition SSEStreamSink {W} (write : writer W) : StreamSink W := MkStreamSink (WriteChunk write) (WriteDoneFrame write).

(** ** The sender *)

(** A call of a sink. *)
Inductive sink_call := Wrote (chunk : StreamChunk) | Closed.

(** [sn_sinks] points from task ids to sinks; [sn_world] is the world the
    sinks' writers act on; [sn_calls] records the calls of the sinks, in the
    order they were made. *)
Record Sender (T W : Type) := MkSender {
  sn_sinks : gmap string nat;
  sn_bus : T;
  sn_world : W;
  sn_calls : list (nat * sink_call);
  sn_log : list log_line
}.
Arguments MkSender {T W} _ _ _ _ _.
Arguments sn_sinks {T W} _.
Arguments sn_bus {T W} _.
Arguments sn_world {T W} _.
Arguments sn_calls {T W} _.
Arguments sn_log {T W} _.

Section sender.
Context {T W : Type} `{Transport T}.

(** The sinks, and the clock in nanoseconds. *)
Context (sinks : nat → StreamSink W) (tick : W → Z * W).

Abbreviation Sender := (Sender T W).

Definition set_sinks (x : gmap string nat) (s : Sender) : Sender := MkSender x (sn_bus s) (sn_world s) (sn_calls s) (sn_log s).
Definition set_sn_bus (x : T) (s : Sender) : Sender := MkSender (sn_sinks s) x (sn_world s) (sn_calls s) (sn_log s).
Definition set_sn_world (x : W) (s : Sender) : Sender := MkSender (sn_sinks s) (sn_bus s) x (sn_calls s) (sn_log s).
Definition add_lines (l : list log_line) (s : Sender) : Sender := MkSender (sn_sinks s) (sn_bus s) (sn_world s) (sn_calls s) (sn_log s ++ l).
Definition add_call (x : nat * sink_call) (s : Sender) : Sender := MkSender (sn_sinks s) (sn_bus s) (sn_world s) (sn_calls s ++ [x]) (sn_log s).

(** *** The table of sinks *)
Definition RegisterSink (taskID : string) (sink : nat) : act Sender unit :=
  atomic (λ s, (tt, set_sinks (<[taskID := sink]> (sn_sinks s)) s)).
Definition UnregisterSink (taskID : string) : act Sender unit :=
  atomic (λ s, (tt, set_sinks (delete taskID (sn_sinks s)) s)).
Definition HasSink (taskID : string) : act Sender bool := atomic (λ s, (bool_decide (is_Some (sn_sinks s !! taskID)), s)).
Definition find_sink (taskID : string) : act Sender (option nat) := atomic (λ s, (sn_sinks s !! taskID, s)).

(** *** Calls of the sink, the clock and the auditor *)
Definition sink_write (sink : nat) (chunk : StreamChunk) : act Sender (option error) := atomic (λ s,
  let '(err, w) := ss_WriteChunk (sinks sink) chunk (sn_world s) in (err, add_call (sink, Wrote chunk) (set_sn_world w s))).

Definition sink_close (sink : nat) : act Sender (option error) := atomic (λ s,
  let '(err, w) := ss_Close (sinks sink) (sn_world s) in (err, add_call (sink, Closed) (set_sn_world w s))).

Definition sender_now : act Sender Z := atomic (λ s, let '(t, w) := tick (sn_world s) in (t / 1000000, set_sn_world w s)).

Definition sender_auditor : option Auditor := Some {| au_events := true; au_senderID := "gateway.sender" |}.

Definition sender_record (now : Z) (c : ctx) (e : AuditEvent) : act Sender (option error) := atomic (λ s,
  let '(err, b, lines) := RecordEvent sender_auditor now c e (sn_bus s) in (err, add_lines lines (set_sn_bus b s))).

(** *** Publishing *)
Definition chunk_event (chunk : StreamChunk) (t : Z) : AuditEvent :=
  {| ae_TraceID := sc_TraceID chunk; ae_SessionID := sc_SessionID chunk; ae_TaskID := sc_TaskID chunk; ae_ParentTaskID := "";
     ae_ToolCallID := ""; ae_Event := sc_Event chunk; ae_Actor := "gateway.sender"; ae_Level := ""; ae_Status := "";
     ae_Error := sc_Error chunk; ae_Data := sc_Data chunk; ae_TimestampMs := t |}.

Definition PublishChunk (c : ctx) (chunk : StreamChunk) : act Sender (option error) :=
  if bool_decide (sc_TaskID chunk = "") then mret (Some (new_error "task_id is required"))
  else
    chunk ← (if sc_TimestampMs chunk =? 0 then t ← sender_now; mret (set_sc_TimestampMs t chunk) else mret chunk);
    match chunk_json chunk with
    | None => mret (Some marshal_error)
    | Some payload =>
      err ← atomic (λ s, let '(err, b) := eb_Publish c ("chunks." ++ sc_TaskID chunk)%string
               {| MessageID := ("chunk." ++ sc_TaskID chunk ++ "." ++ FormatInt (sc_Sequence chunk))%string; ParentTaskID := "";
                  SenderID := "gateway.sender"; ReceiverID := "sender"; TargetAgent := ""; Payload := print payload;
                  Timestamp := sc_TimestampMs chunk |} (sn_bus s) in (err, set_sn_bus b s));
      match err with
      | Some e => mret (Some e)
      | None => sender_record 0 c (chunk_event chunk (sc_TimestampMs chunk))
      end
    end.

(** *** Receiving *)

(** The members in key order. *)
Definition aborted_data (chunk : StreamChunk) (cause : error) : string :=
  print (JObj [("done", JBool (sc_Done chunk)); ("sequence", jint (sc_Sequence chunk)); ("sink_error", jstring (err_msg cause));
               ("stream_event", jstring (sc_Event chunk))]%string).

Definition recordAbortedStream (c : ctx) (chunk : StreamChunk) (cause : error) : act Sender unit :=
  t ← sender_now;
  _ ← sender_record 0 c
    {| ae_TraceID := sc_TraceID chunk; ae_SessionID := sc_SessionID chunk; ae_TaskID := sc_TaskID chunk; ae_ParentTaskID := "";
       ae_ToolCallID := ""; ae_Event := "aborted_stream"; ae_Actor := "gateway.sender"; ae_Level := "";
       ae_Status := if sc_Done chunk then "done" else "aborted"; ae_Error := err_msg cause;
       ae_Data := aborted_data chunk cause; ae_TimestampMs := t |};
  mret tt.

(** The body of the loop of [Start]. *)
Definition handle_chunk (c : ctx) (payload : string) : act Sender unit :=
  match DecodeChunk payload with
  | Fail _ => mret tt
  | Ok chunk =>
    o ← find_sink (sc_TaskID chunk);
    match o with
    | None => mret tt
    | Some sink =>
      err ← sink_write sink chunk;
      match err with
      | Some e => _ ← UnregisterSink (sc_TaskID chunk); recordAbortedStream c chunk e
      | None =>
        if sc_Done chunk then _ ← UnregisterSink (sc_TaskID chunk); _ ← sink_close sink; mret tt else mret tt
      end
    end
  end.

(** The loop over the payloads the subscription delivers. *)
Fixpoint sender_loop (c : ctx) (payloads : list string) : act Sender unit :=
  match payloads with
  | [] => mret tt
  | p :: payloads => _ ← handle_chunk c p; sender_loop c payloads
  end.

Definition NewSender (events : T) (w : W) : Sender := MkSender ∅ events w [] [].

(** [Start]: the subscription to every task's chunks, its error, or the loop. *)
Definition StartSender (subscribe : string → T → option error * T) (c : ctx) (payloads : list string) : act Sender (option error) :=
  err ← atomic (λ s, let '(err, b) := subscribe "chunks.*"%string (sn_bus s) in (err, set_sn_bus b s));
  match err with
  | Some e => mret (Some e)
  | None => _ ← sender_loop c payloads; mret None
  end.

(** The topic a task's chunks are published on is one of those subscribed to. *)
Lemma chunks_subscribed taskID : matchTopic "chunks.*" ("chunks." ++ taskID) = true.
Proof. change (matchTopic "chunks.*" ("chunks." ++ taskID)) with (HasPrefix ("chunks." ++ taskID) "chunks."). apply HasPrefix_app. Qed.

(** ** What a sink receives *)

(** The chunks of a task that a sink is given: those of the task up to the
    first that is the last one or that could not be written. *)
Definition payload_chunk (p : string) : option StreamChunk := match DecodeChunk p with Ok c => Some c | Fail _ => None end.

Definition of_task_id (taskID : string) (c : StreamChunk) : bool := bool_decide (sc_TaskID c = taskID).

Fixpoint until_done (cs : list StreamChunk) : list StreamChunk :=
  match cs with
  | [] => []
  | c :: cs => c :: if sc_Done c then [] else until_done cs
  end.

Definition stream_of (taskID : string) (payloads : list string) : list StreamChunk :=
  until_done (filter (λ c, of_task_id taskID c = true) (omap payload_chunk payloads)).

(** The calls of a sink so far, in order. *)
Definition calls (sink : nat) (s : Sender) : list sink_call := (filter (λ x, x.1 = sink) (sn_calls s)).*2.

(** No two tasks share a sink. *)
Definition own_sinks (s : Sender) : Prop := ∀ t1 t2 k, sn_sinks s !! t1 = Some k → sn_sinks s !! t2 = Some k → t1 = t2.

(** No task has the sink. *)
Definition untabled (k : nat) (s : Sender) : Prop := ∀ t, sn_sinks s !! t ≠ Some k.

(** One chunk, when writing it to its sink succeeds. *)
Lemma act_wp_record now c e (Q : option error → Sender → Prop) s :
  (∀ err b lines, Q err (add_lines lines (set_sn_bus b s))) → wp (sender_record now c e) Q s.
Proof.
  intros HQ. apply wp_atomic. destruct (RecordEvent _ _ _ _ _) as [[err b] lines]. apply HQ.
Qed.

Definition writes_ok : Prop := ∀ sink chunk w, (ss_WriteChunk (sinks sink) chunk w).1 = None.

Lemma calls_add k k' x (s : Sender) : calls k (add_call (k', x) s) = calls k s ++ if decide (k' = k) then [x] else [].
Proof.
  unfold calls. cbn [sn_calls add_call]. rewrite filter_app, fmap_app. f_equal. rewrite filter_cons. cbn. by case_decide.
Qed.

(** What one payload does to the sink of a task: its chunk is written if it
    is the task's; the sink leaves the table and is then closed if it is the last. *)
Lemma wp_handle_chunk c p (Q : unit → Sender → Prop) s t k :
  writes_ok → own_sinks s → sn_sinks s !! t = Some k →
  (∀ s', own_sinks s' →
    match payload_chunk p with
    | Some x => if of_task_id t x
                then if sc_Done x then untabled k s' ∧ calls k s' = calls k s ++ [Wrote x; Closed]
                     else sn_sinks s' !! t = Some k ∧ calls k s' = calls k s ++ [Wrote x]
                else calls k s' = calls k s ∧ sn_sinks s' !! t = Some k
    | None => s' = s
    end → Q tt s') → wp (handle_chunk c p) Q s.
Proof.
  intros Hw Hown Hk HQ. unfold handle_chunk, payload_chunk in *. destruct (DecodeChunk p) as [x|e].
  2:{ apply act_wp_ret, HQ; done. }
  apply act_wp_bind, wp_atomic. cbn [fst snd]. unfold of_task_id in HQ.
  destruct (sn_sinks s !! sc_TaskID x) as [k'|] eqn:Hx.
  2:{ apply act_wp_ret, HQ; [done|]. rewrite bool_decide_eq_false_2; [done|]. intros Heq. congruence. }
  apply act_wp_bind, wp_atomic. pose proof (Hw k' x (sn_world s)) as Hok.
  destruct (ss_WriteChunk _ _ _) as [err w]. simpl in Hok. subst err. cbn [fst snd].
  assert (sc_TaskID x = t ↔ k' = k) as Htk.
  { split; [intros <-; congruence|]. intros ->. by eapply Hown. }
  pose proof (calls_add k k' (Wrote x) (set_sn_world w s)) as Hg. change (calls k (set_sn_world w s)) with (calls k s) in Hg.
  destruct (sc_Done x) eqn:Hdone.
  - apply act_wp_bind, wp_atomic. cbn [fst snd]. apply act_wp_bind, wp_atomic. destruct (ss_Close _ _) as [err w2]. apply act_wp_ret, HQ.
    { intros t1 t2 k0. cbn. rewrite !lookup_delete. intros A B. destruct (decide (sc_TaskID x = t1)); [done|]. destruct (decide (sc_TaskID x = t2)); [done|]. by eapply Hown. }
    cbn [snd]. rewrite calls_add.
    match goal with |- context [calls k (set_sn_world w2 ?u)] => change (calls k (set_sn_world w2 u)) with (calls k (add_call (k', Wrote x) (set_sn_world w s))) end.
    rewrite Hg. case_bool_decide as Ht.
    + destruct Htk as [Htk _]. specialize (Htk Ht). subst k'. rewrite !decide_True by done.
      split; [|by rewrite <-app_assoc]. intros t'. cbn. rewrite Ht, lookup_delete. destruct (decide (t = t')) as [|Hne]; [done|].
      intros Hk'. by apply Hne, (Hown t t' k).
    + assert (k' ≠ k) as Hne by (by rewrite <-Htk). rewrite !decide_False by done. rewrite !app_nil_r.
      split; [done|]. cbn. by rewrite lookup_delete_ne.
  - apply act_wp_ret, HQ; [exact Hown|]. case_bool_decide as Ht.
    + destruct Htk as [Htk _]. specialize (Htk Ht). subst k'. rewrite decide_True in Hg by done. by split_and!.
    + assert (k' ≠ k) as Hne by (by rewrite <-Htk). rewrite decide_False in Hg by done. rewrite app_nil_r in Hg. by split_and!.
Qed.

(** A sink that is not in the table is left alone, whatever the writers do. *)
Definition at_rest (k : nat) (s s' : Sender) : Prop := untabled k s' ∧ calls k s' = calls k s.

Lemma untabled_delete k (t : string) (m : gmap string nat) : (∀ t', m !! t' ≠ Some k) → ∀ t', delete t m !! t' ≠ Some k.
Proof. intros H0 t'. rewrite lookup_delete. by case_decide. Qed.

Lemma wp_handle_untabled c p (Q : unit → Sender → Prop) s k :
  untabled k s → (∀ s', at_rest k s s' → Q tt s') → wp (handle_chunk c p) Q s.
Proof.
  intros Hk HQ. unfold handle_chunk. destruct (DecodeChunk p) as [x|e]; [|apply act_wp_ret, HQ; by split].
  apply act_wp_bind, wp_atomic. cbn [fst snd].
  destruct (sn_sinks s !! sc_TaskID x) as [k'|] eqn:Hx; [|apply act_wp_ret, HQ; by split].
  assert (k' ≠ k) as Hne by (intros ->; by eapply Hk).
  apply act_wp_bind, wp_atomic. destruct (ss_WriteChunk _ _ _) as [err w]. cbn [fst snd].
  assert (∀ y (s0 : Sender), calls k (add_call (k', y) s0) = calls k s0) as Hg.
  { intros y s0. by rewrite calls_add, decide_False, app_nil_r. }
  destruct err as [e|].
  - apply act_wp_bind, wp_atomic. cbn [fst snd]. apply act_wp_bind, wp_atomic. destruct (tick _) as [n w2]. cbn [fst snd].
    apply act_wp_bind, act_wp_record. intros err b lines. apply act_wp_ret, HQ. split; [|exact (Hg (Wrote x) (set_sn_world w s))].
    intros t'. by apply untabled_delete.
  - destruct (sc_Done x); [|apply act_wp_ret, HQ; split; [exact Hk|exact (Hg (Wrote x) (set_sn_world w s))]].
    apply act_wp_bind, wp_atomic. cbn [fst snd]. apply act_wp_bind, wp_atomic. destruct (ss_Close _ _) as [err w2].
    apply act_wp_ret, HQ. split; [intros t'; by apply untabled_delete|]. cbn [snd]. rewrite Hg.
    exact (Hg (Wrote x) (set_sn_world w s)).
Qed.

Lemma wp_loop_untabled c payloads k : ∀ (Q : unit → Sender → Prop) s,
  untabled k s → (∀ s', at_rest k s s' → Q tt s') → wp (sender_loop c payloads) Q s.
Proof.
  induction payloads as [|p payloads IH]; intros Q s Hk HQ; [apply act_wp_ret, HQ; by split|].
  apply act_wp_bind, (wp_handle_untabled c p _ s k Hk). intros s' (Hk' & Hg). apply IH; [done|].
  intros s'' (Hk'' & Hg'). apply HQ. split; [done|congruence].
Qed.

(** Whether the stream of a task has reached its last chunk. *)
Definition ended (cs : list StreamChunk) : bool := existsb sc_Done cs.

(** C24: While writes succeed and no two tasks share a sink, the calls the
    receiving loop makes of the sink registered for a task are, in this order:
    a write for each chunk of that task, as they arrive, up to and including
    the first that is the last one; and then, when that last one has arrived,
    one close.  The task keeps its sink until then, and has none afterwards. *)
Theorem sender_delivers c payloads s t k :
  writes_ok → own_sinks s → sn_sinks s !! t = Some k →
  let '(_, s') := run (sender_loop c payloads) s in
  let cs := stream_of t payloads in
  calls k s' = calls k s ++ map Wrote cs ++ (if ended cs then [Closed] else []) ∧
  (ended cs = false → sn_sinks s' !! t = Some k) ∧ (ended cs = true → untabled k s').
Proof.
  intros Hw Hown Hk. apply wp_elim. revert s Hown Hk. induction payloads as [|p payloads IH]; intros s Hown Hk.
  { apply act_wp_ret. cbn. by rewrite app_nil_r. }
  apply act_wp_bind, (wp_handle_chunk c p _ s t k Hw Hown Hk). intros s1 Hown1 H1. unfold stream_of. cbn [omap list_omap].
  destruct (payload_chunk p) as [x|] eqn:Hp; [|subst s1; by apply IH].
  rewrite filter_cons. destruct (of_task_id t x) eqn:Hx.
  - rewrite decide_True by done. cbn [until_done]. destruct (sc_Done x) eqn:Hd.
    + destruct H1 as [Hun Hc]. apply (wp_loop_untabled c payloads k); [done|]. intros s2 (Hun2 & Hg2).
      unfold ended. cbn [existsb]. rewrite Hd. cbn [orb]. rewrite Hg2, Hc. by split_and!.
    + destruct H1 as [Hk1 Hc]. eapply act_wp_mono, (IH s1 Hown1 Hk1). intros [] s2 (G1 & G2 & G3).
      unfold ended in *. cbn [existsb]. rewrite Hd. cbn [orb]. rewrite G1, Hc, <-app_assoc. by split_and!.
  - rewrite decide_False by done. destruct H1 as (Hc & Hk1).
    eapply act_wp_mono, (IH s1 Hown1 Hk1). intros [] s2 (G1 & G2 & G3). rewrite G1, Hc. by split_and!.
Qed.
End sender.

(** A sender with two sinks on the in-memory bus, whose writers succeed. *)
Definition sender_demo : Sender FakeTransport unit := MkSender (<["a" := 0%nat]> (<["b" := 1%nat]> ∅))%string NewFakeTransport tt [] [].
Definition sender_payloads : list string := map jtext
  ["{'task_id':'a','sequence':1,'delta':'x'}"; "{'task_id':'b','sequence':1}"; "not json"; "{'task_id':'a','sequence':2,'done':true}";
   "{'task_id':'a','sequence':3}"]%string.

Lemma sender_delivers_witness :
  let s := (run (sender_loop (H := fake_transport (λ l, l)) (λ _, SSEStreamSink (λ _ w, (None, w))) (λ w, (0, w)) background sender_payloads) sender_demo).2 in
  map (λ x, match x with Wrote ch => Some (sc_Sequence ch) | Closed => None end) (calls 0 s) = [Some 1; Some 2; None].
Proof.
  pose proof (sender_delivers (H := fake_transport (λ l, l)) (λ _, SSEStreamSink (λ _ w, (None, w))) (λ w, (0, w)) background sender_payloads
    sender_demo "a" 0%nat) as Hs.
  destruct (run _ _) as [u s]. cbn [snd]. destruct Hs as (Hg & _).
  - intros sink chunk w. cbn. unfold WriteChunk, WriteSSEFrame. by destruct (negb _).
  - intros t1 t2 k. unfold sender_demo. cbn. rewrite !lookup_insert_Some, lookup_empty. naive_solver.
  - vm_compute. reflexivity.
  - rewrite Hg. vm_compute. reflexivity.
Defined.
