(* ===== verification/Ingress.v ===== *)
(** * The channel ingress handler: internal/gateway/ingress_handler.go

    The HTTP endpoint that takes a channel message: it checks the method, the
    signature when a secret is configured, and the message, and gives it to the
    session router.  Its state is the router's and the nonce store's; the
    clocks' readings come with the request. *)
From Stdlib Require Import String Ascii.
From S2P Require Import Prelude GoStrings Strconv GoValue WebhookAuth Transport GatewayTypes Router.
From stdpp Require Import list.

Local Open Scope Z_scope.

(** ** Responses *)
Record Response := MkResponse { rs_status : Z; rs_headers : list (string * string); rs_body : string }.

Definition eol : string := String "010" EmptyString.

(** [http.Error] *)
Definition http_error (text : string) (status : Z) : Response :=
  MkResponse status [("Content-Type", "text/plain; charset=utf-8"); ("X-Content-Type-Options", "nosniff")]%string (text ++ eol)%string.

(** [ingressResponse] as the encoder writes it. *)
Definition accepted (taskID : string) : Response :=
  MkResponse 202 [("Content-Type", "application/json")]%string
    (print (JObj ([("status", jstring "accepted")]%string ++ omitempty "task_id" taskID)) ++ eol)%string.

(** ** The handler *)

(** [IngressHandlerConfig] without its clock; [None] is a nil store. *)
Record IngressHandlerConfig := IngressConfig { ic_Secret : string; ic_NonceStore : option InMemNonceStore }.

Definition NewIngressHandler (cfg : list IngressHandlerConfig) : IngressHandlerConfig :=
  let options := match cfg with c :: _ => c | [] => IngressConfig "" None end in
  if negb (bool_decide (ic_Secret options = "")) && bool_decide (ic_NonceStore options = None)
  then IngressConfig (ic_Secret options) (Some NewInMemNonceStore) else options.

(** A request: its method, headers, body or the error of reading it. *)
Record HttpRequest := MkRequest { rq_Method : string; rq_Header : Header; rq_Body : result string }.

(** The clocks: the handler's [Now], the nonce store's, and the router's two
    readings. *)
Record Clocks := MkClocks { ck_now : Z; ck_store : Z; ck_task_ns : Z; ck_message_ms : Z }.

(** [json.Decoder.Decode] with unknown fields disallowed: the first value of
    the body; what follows is not looked at. *)
Definition decode_request (body : string) : result StandardMessage :=
  match decode_one body with
  | None => Fail (new_error "invalid json")
  | Some (t, _) => struct_value true (standard_fields true) t zero_standard
  end.

Section ingress.
Context {T : Type} `{Transport T}.

Definition ServeIngress (r : HttpRequest) (c : ctx) (k : Clocks) (st : IngressHandlerConfig * SessionRouter T) :
    Response * (IngressHandlerConfig * SessionRouter T) :=
  let '(cfg, ro) := st in
  if negb (bool_decide (rq_Method r = "POST")) then (http_error "method not allowed" 405, st)
  else match rq_Body r with
  | Fail _ => (http_error "invalid body" 400, st)
  | Ok body =>
    let '(err, store) :=
      if negb (bool_decide (ic_Secret cfg = ""))
      then VerifyWebhookSignature (rq_Header r) body (ic_Secret cfg) (ic_NonceStore cfg) (ck_now k) (ck_store k)
      else (None, ic_NonceStore cfg) in
    let cfg := IngressConfig (ic_Secret cfg) store in
    match err with
    | Some _ => (http_error "invalid signature" 401, (cfg, ro))
    | None =>
      match decode_request body with
      | Fail _ => (http_error "invalid body" 400, (cfg, ro))
      | Ok req =>
        if bool_decide (sm_SessionID req = "") || bool_decide (sm_ChannelName req = "")
        then (http_error "session_id and channel_name are required" 400, (cfg, ro))
        else match DispatchIncoming c req (ck_task_ns k) (ck_message_ms k) ro with
             | (Fail _, ro) => (http_error "enqueue failed" 502, (cfg, ro))
             | (Ok taskID, ro) => (accepted taskID, (cfg, ro))
             end
      end
    end
  end.

(** ** What is let in *)

(** The request's message may be dispatched. *)
Definition passes (secret : string) (store : option InMemNonceStore) (r : HttpRequest) (k : Clocks) (req : StandardMessage) : Prop :=
  ∃ body, rq_Method r = "POST"%string ∧ rq_Body r = Ok body ∧
    (secret ≠ ""%string → (VerifyWebhookSignature (rq_Header r) body secret store (ck_now k) (ck_store k)).1 = None) ∧
    decode_request body = Ok req ∧ sm_SessionID req ≠ ""%string ∧ sm_ChannelName req ≠ ""%string.

Lemma not_required (a b : string) : a ≠ ""%string → b ≠ ""%string → bool_decide (a = ""%string) || bool_decide (b = ""%string) = false.
Proof. intros. by rewrite !bool_decide_eq_false_2. Qed.

Lemma serve_passing r c k secret store ro req :
  passes secret store r k req →
  let d := DispatchIncoming c req (ck_task_ns k) (ck_message_ms k) ro in
  ∃ store', ServeIngress r c k (IngressConfig secret store, ro) =
    (match d.1 with Ok taskID => accepted taskID | Fail _ => http_error "enqueue failed" 502 end, (IngressConfig secret store', d.2)).
Proof.
  intros (body & Hm & Hb & Hsig & Hd & Hs & Hc). cbv zeta. unfold ServeIngress. rewrite bool_decide_eq_true_2 by done. cbn [negb].
  rewrite Hb. cbn [ic_Secret ic_NonceStore]. case_bool_decide as He; cbn [negb].
  - exists store. rewrite Hd, not_required by done. by destruct (DispatchIncoming _ _ _ _ _) as [[|] ?].
  - specialize (Hsig He). destruct (VerifyWebhookSignature _ _ _ _ _ _) as [err store']. simpl in Hsig. subst err.
    exists store'. rewrite Hd, not_required by done. by destruct (DispatchIncoming _ _ _ _ _) as [[|] ?].
Qed.

Lemma serve_passing_dispatched r c k secret store ro req :
  passes secret store r k req → rs_status (ServeIngress r c k (IngressConfig secret store, ro)).1 ∈ [202; 502].
Proof.
  intros Hp. destruct (serve_passing r c k secret store ro req Hp) as [store' ->].
  destruct (DispatchIncoming _ _ _ _ _).1; set_solver.
Qed.

Lemma serve_refused r c k secret store ro :
  (∃ req, passes secret store r k req) ∨
  (¬ ∃ req, passes secret store r k req) ∧
  ∃ resp store', ServeIngress r c k (IngressConfig secret store, ro) = (resp, (IngressConfig secret store', ro)) ∧
    rs_status resp ∈ [400; 401; 405].
Proof.
  destruct (decide (rq_Method r = "POST"%string)) as [Hm|Hm].
  2:{ right. split; [intros (req & body & ? & _); done|]. unfold ServeIngress. rewrite bool_decide_eq_false_2 by done.
      eexists _, _. split; [done|set_solver]. }
  destruct (rq_Body r) as [body|e] eqn:Hb.
  2:{ right. split; [intros (req & body & _ & ? & _); congruence|]. unfold ServeIngress. rewrite bool_decide_eq_true_2, Hb by done.
      eexists _, _. split; [done|set_solver]. }
  unfold ServeIngress. rewrite bool_decide_eq_true_2, Hb by done. cbn [negb ic_Secret ic_NonceStore].
  set (v := VerifyWebhookSignature (rq_Header r) body secret store (ck_now k) (ck_store k)).
  destruct (if negb (bool_decide (secret = ""%string)) then v else (None, store)) as [err store'] eqn:Hv.
  assert (err = None ↔ (secret ≠ ""%string → v.1 = None)) as Hsig.
  { case_bool_decide; cbn in Hv; [naive_solver|]. rewrite Hv. naive_solver. }
  destruct err as [e|].
  { right. split; [|eexists _, _; split; [done|set_solver]]. intros (req & body' & _ & Hb' & Hs & _).
    rewrite Hb in Hb'. injection Hb' as <-. by apply Hsig in Hs. }
  destruct (decode_request body) as [req|e] eqn:Hd.
  2:{ right. split; [|eexists _, _; split; [done|set_solver]]. intros (req & body' & _ & Hb' & _ & Hd' & _). congruence. }
  destruct (decide (sm_SessionID req = ""%string ∨ sm_ChannelName req = ""%string)) as [Hr|Hr].
  - right. split.
    + intros (req' & body' & _ & Hb' & _ & Hd' & H1 & H2). assert (req' = req) as -> by congruence. by destruct Hr.
    + replace (_ || _) with true; [eexists _, _; split; [done|set_solver]|]. symmetry. apply orb_true_iff.
      by rewrite !bool_decide_eq_true.
  - left. exists req, body. split_and!; try done; [by apply Hsig|naive_solver..].
Qed.

(** A request is dispatched exactly when it is a POST whose body can be
    read, whose signature is accepted if a secret is configured, and whose body
    begins with a message that has known members only, a session and a channel;
    the answer is then 202 with the task's id, or 502 when the queue refuses it.
    Every other request is answered 400, 401 or 405 and leaves queue and routes
    as they are. *)
Theorem ingress_exact r c k secret store ro :
  let '(resp, (cfg, ro')) := ServeIngress r c k (IngressConfig secret store, ro) in
  ic_Secret cfg = secret ∧
  ((∃ req, passes secret store r k req ∧
      let d := DispatchIncoming c req (ck_task_ns k) (ck_message_ms k) ro in
      ro' = d.2 ∧ resp = match d.1 with Ok taskID => accepted taskID | Fail _ => http_error "enqueue failed" 502 end) ∨
   ((¬ ∃ req, passes secret store r k req) ∧ ro' = ro ∧ rs_status resp ∈ [400; 401; 405])).
Proof.
  destruct (serve_refused r c k secret store ro) as [[req Hp]|(Hno & resp & store' & Hs & Hst)].
  - destruct (serve_passing r c k secret store ro req Hp) as [store' Hs]. rewrite Hs. split; [done|]. left. by exists req.
  - rewrite Hs. split; [done|]. by right.
Qed.

(** ** Replays *)
Definition serve_all (rs : list (HttpRequest * ctx * Clocks)) (st : IngressHandlerConfig * SessionRouter T) :
    IngressHandlerConfig * SessionRouter T :=
  foldl (λ st r, (ServeIngress r.1.1 r.1.2 r.2 st).2) st rs.

Definition dispatched (resp : Response) : Prop := rs_status resp ∈ [202; 502].

Definition holds_nonce (secret nonce : string) (until : Z) (cfg : IngressHandlerConfig) : Prop :=
  ic_Secret cfg = secret ∧ ∃ st, ic_NonceStore cfg = Some st ∧ st !! nonce = Some until.

Lemma serve_holds secret nonce until r c k cfg ro :
  holds_nonce secret nonce until cfg → ck_store k ≤ until → holds_nonce secret nonce until (ServeIngress r c k (cfg, ro)).2.1.
Proof.
  destruct cfg as [secret' store]. intros (Hsec & st & Hst & Hn) Hk. simpl in Hsec, Hst. subst secret' store.
  unfold ServeIngress. destruct (negb (bool_decide (rq_Method r = "POST"%string))); [split; [done|]; by exists st|].
  destruct (rq_Body r) as [body|]; [|split; [done|]; by exists st]. cbn [ic_Secret ic_NonceStore].
  pose proof (verify_step_keeps (rq_Header r, body, secret, ck_now k, ck_store k) st nonce until Hn Hk) as Hkeep.
  assert (∃ err st', (if negb (bool_decide (secret = ""%string))
      then VerifyWebhookSignature (rq_Header r) body secret (Some st) (ck_now k) (ck_store k) else (None, Some st)) = (err, Some st') ∧
      st' !! nonce = Some until) as (err & st' & -> & Hst').
  { destruct (negb (bool_decide (secret = ""%string))); [|eauto]. unfold verify_step in Hkeep.
    destruct (VerifyWebhookSignature _ _ _ _ _ _) as [err [st'|]] eqn:Hv; [eauto|].
    exfalso. unfold VerifyWebhookSignature in Hv. repeat (case_match; try done). }
  assert (holds_nonce secret nonce until (IngressConfig secret (Some st'))) as Hh by (split; [done|by exists st']).
  destruct err; [exact Hh|]. destruct (decode_request body); [|exact Hh]. destruct (_ || _); [exact Hh|].
  by destruct (DispatchIncoming _ _ _ _ _) as [[|] ?].
Qed.

Lemma serve_all_holds secret nonce until rs : ∀ st,
  holds_nonce secret nonce until st.1 → Forall (λ r, ck_store r.2 ≤ until) rs → holds_nonce secret nonce until (serve_all rs st).1.
Proof.
  induction rs as [|[[r c] k] rs IH]; intros [cfg ro] Hh Hf; [done|]. apply Forall_cons in Hf as [Hk Hf].
  apply IH; [|done]. by apply serve_holds.
Qed.

Lemma serve_dispatched_holds r c k secret store ro :
  secret ≠ ""%string → dispatched (ServeIngress r c k (IngressConfig secret store, ro)).1 →
  holds_nonce secret (HeaderGet (rq_Header r) HeaderNonce) (ck_store k + nonceTTL)
    (ServeIngress r c k (IngressConfig secret store, ro)).2.1.
Proof.
  intros Hsec. unfold ServeIngress. destruct (negb (bool_decide (rq_Method r = "POST"%string))); [intros; set_solver|].
  destruct (rq_Body r) as [body|]; [|intros; set_solver]. cbn [ic_Secret ic_NonceStore].
  rewrite bool_decide_eq_false_2 by done. cbn [negb].
  destruct (VerifyWebhookSignature _ _ _ _ _ _) as [[e|] store'] eqn:Hv; [intros; set_solver|].
  apply accepted_recorded in Hv as (st' & -> & Hn).
  assert (holds_nonce secret (HeaderGet (rq_Header r) HeaderNonce) (ck_store k + nonceTTL) (IngressConfig secret (Some st'))) as Hh
    by (split; [done|by exists st']).
  intros _. destruct (decode_request body); [|exact Hh]. destruct (_ || _); [exact Hh|].
  by destruct (DispatchIncoming _ _ _ _ _) as [[|] ?].
Qed.

(** C14: With a secret configured, after a request has been dispatched no request
    with its nonce is dispatched for the next 300 seconds of the store's clock,
    whatever requests come between: it is answered 400, 401 or 405, and queue
    and routes stay as they are. *)
Theorem ingress_no_replay secret store ro r c k between r2 c2 k2 :
  secret ≠ ""%string →
  dispatched (ServeIngress r c k (IngressConfig secret store, ro)).1 →
  Forall (λ x, ck_store x.2 ≤ ck_store k + nonceTTL) between → ck_store k2 ≤ ck_store k + nonceTTL →
  HeaderGet (rq_Header r2) HeaderNonce = HeaderGet (rq_Header r) HeaderNonce →
  let st := serve_all between (ServeIngress r c k (IngressConfig secret store, ro)).2 in
  let '(resp, st') := ServeIngress r2 c2 k2 st in
  rs_status resp ∈ [400; 401; 405] ∧ st'.2 = st.2.
Proof.
  intros Hsec Hd Hbt Hk2 Hnonce. pose proof (serve_dispatched_holds _ _ _ _ _ _ Hsec Hd) as Hh.
  cbv zeta. apply (serve_all_holds _ _ _ between) in Hh; [|done].
  destruct (serve_all between _) as [[secret' store'] ro']. destruct Hh as (Hs & st & Hst & Hn). cbn in Hs, Hst. cbn [fst snd]. subst secret' store'.
  destruct (serve_refused r2 c2 k2 secret (Some st) ro') as [[req (body & _ & _ & Hv & _)]|(_ & resp & store' & -> & Hr)]; [|done].
  exfalso. revert Hv. intros Hv. specialize (Hv Hsec). revert Hv. apply live_rejected. rewrite Hnonce. by eexists.
Qed.
End ingress.

(** A signed message, dispatched once. *)
Definition ingress_body : string := jtext "{'session_id':'s1','channel_name':'web','text':'hi'}".
Definition ingress_request : HttpRequest :=
  MkRequest "POST" (signed_headers "key" 1700000100 "n-1" ingress_body) (Ok ingress_body).
Definition ingress_clocks : Clocks := MkClocks demo_now demo_now 5 7.

Lemma ingress_no_replay_witness :
  let serve := ServeIngress (H := fake_transport (λ l, l)) ingress_request background ingress_clocks in
  let st := (serve (NewIngressHandler [IngressConfig "key" None], router_demo)).2 in
  rs_status (serve st).1 ∈ [400; 401; 405] ∧ (serve st).2.2 = st.2.
Proof.
  pose proof (ingress_no_replay (H := fake_transport (λ l, l)) "key" (Some NewInMemNonceStore) router_demo ingress_request background
    ingress_clocks [] ingress_request background ingress_clocks) as Hr.
  cbv zeta. change (NewIngressHandler [IngressConfig "key" None]) with (IngressConfig "key" (Some NewInMemNonceStore)).
  cbn [serve_all foldl] in Hr. destruct (ServeIngress (H := fake_transport (λ l, l)) ingress_request background ingress_clocks
    (ServeIngress (H := fake_transport (λ l, l)) ingress_request background ingress_clocks (IngressConfig "key" (Some NewInMemNonceStore), router_demo)).2) as [resp st'].
  apply Hr; [done| |constructor| |done].
  - apply (serve_passing_dispatched _ _ _ _ _ _ (set_sm_Text "hi" (set_sm_ChannelName "web" (set_sm_SessionID "s1" zero_standard)))).
    exists ingress_body. split_and!; [done|done| |vm_compute; reflexivity|done|done]. intros _.
    destruct (generated_accepted "key" 1700000100 "n-1" ingress_body NewInMemNonceStore demo_now demo_now) as (st1 & Hv & _);
      [vm_compute; split; congruence|done|vm_compute; reflexivity| |].
    + intros (e & He & _). vm_compute in He. discriminate He.
    + change (rq_Header ingress_request) with (signed_headers "key" 1700000100 "n-1" ingress_body).
      change (ck_now ingress_clocks) with demo_now. change (ck_store ingress_clocks) with demo_now. by rewrite Hv.
  - vm_compute. congruence.
Defined.
