(* ===== verification/Dingtalk.v ===== *)
(** * The DingTalk callback codec: dingtalk/config.go and app_support.go

    The configuration, and how a callback is signed, encrypted and decrypted.

    A panic is an absent result ([None]); in a handler the HTTP server recovers
    it and the request has no response.  The texts of the standard library's
    own errors are not modelled. *)
From Stdlib Require Import String Ascii.
From S2P Require Import Prelude GoStrings Strconv GoValue Sha256 Cipher Callback Transport GatewayTypes Router WebhookAuth Ingress.
From stdpp Require Import list.

Local Open Scope Z_scope.

Definition blank (s : string) : bool := bool_decide (TrimSpace s = ""%string).

(** ** config.go *)
Record AppConfig := MkAppConfig {
  ac_ClientID : string;
  ac_ClientSecret : string;
  ac_AgentID : Z;
  ac_EventCallbackPath : string;
  ac_CardCallbackPath : string;
  ac_APIBaseURL : string;
  ac_OAPIBaseURL : string;
  ac_Token : string;
  ac_AESKey : string;
  ac_MediaDir : string;
  ac_CardTemplateID : string;
  ac_CardCallbackRouteKey : string;
  ac_HTTPTimeout : Z
}.

Record RobotConfig := MkRobotConfig { rc_WebhookURL : string; rc_Secret : string; rc_HTTPTimeout : Z }.

Definition appAdapterName : string := "dingtalk_app".
Definition defaultTimeout : Z := 10 * 1000000000.

Definition normalize_app (c : AppConfig) : AppConfig :=
  MkAppConfig (ac_ClientID c) (ac_ClientSecret c) (ac_AgentID c) (ac_EventCallbackPath c) (ac_CardCallbackPath c) (ac_APIBaseURL c)
    (ac_OAPIBaseURL c) (ac_Token c) (ac_AESKey c) (ac_MediaDir c) (ac_CardTemplateID c) (ac_CardCallbackRouteKey c)
    (if ac_HTTPTimeout c <=? 0 then defaultTimeout else ac_HTTPTimeout c).

Definition ValidateApp (c : AppConfig) : option error :=
  if blank (ac_ClientID c) then Some (new_error "dingtalk app client id is required")
  else if blank (ac_ClientSecret c) then Some (new_error "dingtalk app client secret is required")
  else if ac_AgentID c <=? 0 then Some (new_error "dingtalk app agent id must be positive")
  else if blank (ac_Token c) then Some (new_error "dingtalk app token is required")
  else if blank (ac_AESKey c) then Some (new_error "dingtalk app aes key is required")
  else None.

Definition normalize_robot (c : RobotConfig) : RobotConfig :=
  MkRobotConfig (rc_WebhookURL c) (rc_Secret c) (if rc_HTTPTimeout c <=? 0 then defaultTimeout else rc_HTTPTimeout c).

Definition ValidateRobot (c : RobotConfig) : option error :=
  if blank (rc_WebhookURL c) then Some (new_error "dingtalk robot webhook url is required") else None.

(** ** app_support.go *)
Fixpoint firstNonEmpty (values : list string) : string :=
  match values with [] => EmptyString | v :: values => if negb (bool_decide (v = EmptyString)) then v else firstNonEmpty values end.

Definition requiredString (name value : string) : option error :=
  if bool_decide (value = EmptyString) then Some (new_error (name ++ " is required")) else None.

Definition callbackSignature (token timestamp nonce encrypt : string) : string := callback_digest token timestamp nonce encrypt.

Definition pkcs7Unpad (data : list Z) (blockSize : nat) : result (list Z) :=
  unpad "invalid pkcs7 data length" "invalid pkcs7 padding" "invalid pkcs7 padding bytes" data blockSize.

Definition err_base64 : error := new_error "illegal base64 data".

(** The message of a deciphered text; the receiver must be this one. *)
Definition open_body (receiveKey : string) (plain : list Z) : result (list Z) :=
  if (length plain <? 20)%nat then Fail (new_error "dingtalk callback body too short")
  else
    let msgLen := be_value (take 4 (drop 16 plain)) in
    let end_ := 20 + msgLen in
    if Z.of_nat (length plain) <? end_ then Fail (new_error "dingtalk callback body length is invalid")
    else if negb (bool_decide (string_of_bytes (drop (Z.to_nat end_) plain) = receiveKey))
    then Fail (new_error "dingtalk callback receive key mismatch")
    else Ok (take (Z.to_nat end_ - 20) (drop 20 plain)).

(** A ciphertext that is no whole number of blocks panics; no test precedes
    the deciphering. *)
Definition decryptCallbackBody (aesKey receiveKey encrypt : string) : option (result (list Z)) :=
  match base64_decode (aesKey ++ "=") with
  | None => Some (Fail err_base64)
  | Some key =>
    match base64_decode encrypt with
    | None => Some (Fail err_base64)
    | Some cipherText =>
      match NewCipher key with
      | Fail e => Some (Fail e)
      | Ok block =>
        match crypt_blocks (cbc_decrypt block (take 16 key)) cipherText with
        | None => None
        | Some plain => Some (plain ← pkcs7Unpad plain 32; open_body receiveKey plain)
        end
      end
    end
  end.

Definition frame_head : list Z := bytes_of "0123456789abcdef".

Definition encryptCallbackBody (aesKey receiveKey : string) (body : list Z) : option (result string) :=
  match base64_decode (aesKey ++ "=") with
  | None => Some (Fail err_base64)
  | Some key =>
    let padded := pkcs7Pad (frame frame_head body receiveKey) 32 in
    match NewCipher key with
    | Fail e => Some (Fail e)
    | Ok block => (λ e, Ok (base64_encode e)) <$> crypt_blocks (cbc_encrypt block (take 16 key)) padded
    end
  end.

Definition challenge_fields : list (field string) := [ string_field "challenge" (λ v _, v) ].
Definition extractChallenge (body : string) : result string := Unmarshal challenge_fields EmptyString body.

Definition envelope_fields : list (field string) := [ string_field "encrypt" (λ v _, v) ].

(** ** What is accepted *)
Lemma open_body_exact id text msg :
  Forall byte text →
  open_body id text = Ok msg ↔ ∃ head, length head = 16%nat ∧ text = frame head msg id ∧ Z.of_nat (length msg) < 2 ^ 32.
Proof.
  intros Hb. split.
  - unfold open_body. destruct (Nat.ltb_spec (length text) 20) as [|Hl]; [done|].
    set (n := be_value (take 4 (drop 16 text))). pose proof (declared_range text Hb Hl) as Hn. fold n in Hn.
    destruct (Z.ltb_spec (Z.of_nat (length text)) (20 + n)) as [|Hle]; [done|].
    replace (Z.to_nat (20 + n)) with (20 + Z.to_nat n)%nat in * by lia. replace (20 + Z.to_nat n - 20)%nat with (Z.to_nat n) by lia.
    case_bool_decide as Hid; [|done]. intros [= <-]. exists (take 16 text). split_and!.
    + rewrite length_take. lia.
    + rewrite <-Hid. apply frame_intro; [done|fold n; lia|lia].
    + rewrite length_take, length_drop. lia.
  - intros (head & Hh & -> & Hlen). unfold open_body. rewrite frame_length by done.
    destruct (Nat.ltb_spec (20 + length msg + String.length id) 20) as [|_]; [lia|].
    rewrite frame_size by (done || lia).
    destruct (Z.ltb_spec (Z.of_nat (20 + length msg + String.length id)) (20 + Z.of_nat (length msg))) as [|_]; [lia|].
    replace (Z.to_nat (20 + Z.of_nat (length msg))) with (20 + length msg)%nat by lia.
    replace (20 + length msg - 20)%nat with (length msg) by lia. rewrite frame_message, frame_receiver by done.
    by rewrite bool_decide_eq_true_2.
Qed.

(** The key of a configuration. *)
Definition app_key (aesKey : string) (key : list Z) : Prop :=
  base64_decode (aesKey ++ "=") = Some key ∧ length key ∈ [16; 24; 32]%nat.

Lemma app_key_ok aesKey key : app_key aesKey key → key_ok key ∧ NewCipher key = Ok (round_keys key).
Proof. intros [Hd Hl]. assert (key_ok key) as Hk by (split; [by eapply base64_decode_byte|done]). split; [done|by apply NewCipher_ok]. Qed.

Lemma dingtalk_decrypted aesKey key receiveKey encrypt msg :
  app_key aesKey key →
  decryptCallbackBody aesKey receiveKey encrypt = Some (Ok msg) ↔
    ∃ head, length head = 16%nat ∧ carries key encrypt (frame head msg receiveKey) ∧ Z.of_nat (length msg) < 2 ^ 32.
Proof.
  intros Hkey. destruct (app_key_ok _ _ Hkey) as [Hk Hnc]. destruct Hkey as [Hd _]. unfold decryptCallbackBody. rewrite Hd, Hnc.
  destruct (base64_decode encrypt) as [ct|] eqn:Hb; [|split; [done|intros (? & _ & (? & ? & _) & _); congruence]].
  destruct (decide (length ct mod 16 = 0)%nat) as [Hl|Hl].
  2:{ unfold crypt_blocks at 1. apply Nat.eqb_neq in Hl. rewrite Hl. split; [done|].
      intros (head & _ & (ct' & Hb' & _ & Hp) & _). rewrite Hb in Hb'. injection Hb' as <-. unfold crypt_blocks in Hp. by rewrite Hl in Hp. }
  unfold pkcs7Unpad. destruct (deciphered_carries "invalid pkcs7 data length" "invalid pkcs7 padding" "invalid pkcs7 padding bytes" _ _ _ Hk Hb Hl)
    as (p & -> & [(text & -> & Hcar & Htb)|[[e ->] Hno]]).
  - cbn. transitivity (open_body receiveKey text = Ok msg); [split; [by intros [= ->]|by intros ->]|]. rewrite open_body_exact by done. split.
    + intros (head & H1 & -> & H2). eauto.
    + intros (head & H1 & H2 & H3). exists head. by rewrite (carries_unique _ _ _ _ Hcar H2).
  - cbn. split; [done|]. intros (head & _ & H2 & _). destruct Hno. by eexists.
Qed.

(** Under a usable key, a body decrypts to a message exactly when it carries
    the frame of that message for this receiver; it panics exactly when its
    ciphertext is no whole number of blocks; and what is encrypted decrypts. *)
Theorem callback_codec aesKey key receiveKey :
  app_key aesKey key →
  (∀ encrypt msg, decryptCallbackBody aesKey receiveKey encrypt = Some (Ok msg) ↔
     ∃ head, length head = 16%nat ∧ carries key encrypt (frame head msg receiveKey) ∧ Z.of_nat (length msg) < 2 ^ 32) ∧
  (∀ encrypt, decryptCallbackBody aesKey receiveKey encrypt = None ↔
     ∃ cipherText, base64_decode encrypt = Some cipherText ∧ (length cipherText mod 16 ≠ 0)%nat) ∧
  (∀ body, Forall byte body → Z.of_nat (length body) < 2 ^ 32 →
     ∃ e, encryptCallbackBody aesKey receiveKey body = Some (Ok e) ∧ decryptCallbackBody aesKey receiveKey e = Some (Ok body)).
Proof.
  intros Hkey. split_and!; [intros; by apply dingtalk_decrypted| |].
  - intros encrypt. destruct (app_key_ok _ _ Hkey) as [Hk Hnc]. destruct Hkey as [Hd _]. unfold decryptCallbackBody. rewrite Hd, Hnc.
    destruct (base64_decode encrypt) as [ct|]; [|split; [done|intros (? & ? & _); congruence]].
    unfold crypt_blocks. destruct (Nat.eqb_spec (length ct mod 16) 0) as [Hl|Hl]; split; try done; [intros (? & [= <-] & ?); done|eauto].
  - intros body Hb Hlen. assert (Forall byte (frame frame_head body receiveKey)) as Hfb by (apply frame_byte; [apply bytes_of_ok|done]).
    destruct (app_key_ok _ _ Hkey) as [Hk Hnc]. destruct (encrypted_carried _ _ Hk Hfb) as (e & He & Hcar).
    exists (base64_encode e). split; [|apply (dingtalk_decrypted _ key); [done|]; by exists frame_head].
    unfold encryptCallbackBody. destruct Hkey as [Hd _]. by rewrite Hd, Hnc, He.
Qed.

Definition demo_aes_key : string := "MDEyMzQ1Njc4OWFiY2RlZjAxMjM0NTY3ODlhYmNkZWY".

Lemma callback_codec_witness :
  (∃ e, encryptCallbackBody demo_aes_key "client" (bytes_of "success") = Some (Ok e) ∧
    decryptCallbackBody demo_aes_key "client" e = Some (Ok (bytes_of "success"))) ∧
  decryptCallbackBody demo_aes_key "client" "AAAA" = None.
Proof.
  pose proof (callback_codec demo_aes_key (bytes_of "0123456789abcdef0123456789abcdef") "client") as H.
  assert (app_key demo_aes_key (bytes_of "0123456789abcdef0123456789abcdef")) as Hk.
  { split; [vm_compute; reflexivity|]. change (length (bytes_of _)) with 32%nat. set_solver. }
  destruct (H Hk) as (_ & H2 & H3). split.
  - apply H3; [apply bytes_of_ok|vm_compute; reflexivity].
  - apply H2. exists [0; 0; 0]. split; [vm_compute; reflexivity|done].
Defined.
