(* ===== verification/DingtalkApp.v ===== *)
(** * The DingTalk callback handler: dingtalk/app_mapper.go and app_adapter.go

    The two callbacks' data and their mapping to channel messages, and the
    handler that authenticates a callback, decrypts it, maps it and gives it to
    the session router. *)
From Stdlib Require Import String Ascii.
From S2P Require Import Prelude GoStrings Strconv GoValue Sha256 Cipher Callback Transport GatewayTypes Router WebhookAuth Ingress Dingtalk.
From stdpp Require Import list.

Local Open Scope Z_scope.

(** ** Data: callback_types.go *)

(** [textPayload] is its one member. *)
Record mediaPayload := MkMediaPayload { mp_MediaID : string; mp_FileName : string }.

Record eventCallback := MkEvent {
  ec_Challenge : string;
  ec_ConversationID : string;
  ec_MsgID : string;
  ec_ChatbotUserID : string;
  ec_SenderStaffID : string;
  ec_SenderNick : string;
  ec_MsgType : string;
  ec_EventType : string;
  ec_Text : string;
  ec_Image : mediaPayload;
  ec_Audio : mediaPayload;
  ec_Video : mediaPayload;
  ec_File : mediaPayload
}.

Definition set_ec_Challenge (v : string) (c : eventCallback) : eventCallback :=
  MkEvent v (ec_ConversationID c) (ec_MsgID c) (ec_ChatbotUserID c) (ec_SenderStaffID c) (ec_SenderNick c) (ec_MsgType c) (ec_EventType c) (ec_Text c) (ec_Image c) (ec_Audio c) (ec_Video c) (ec_File c).
Definition set_ec_ConversationID (v : string) (c : eventCallback) : eventCallback :=
  MkEvent (ec_Challenge c) v (ec_MsgID c) (ec_ChatbotUserID c) (ec_SenderStaffID c) (ec_SenderNick c) (ec_MsgType c) (ec_EventType c) (ec_Text c) (ec_Image c) (ec_Audio c) (ec_Video c) (ec_File c).
Definition set_ec_MsgID (v : string) (c : eventCallback) : eventCallback :=
  MkEvent (ec_Challenge c) (ec_ConversationID c) v (ec_ChatbotUserID c) (ec_SenderStaffID c) (ec_SenderNick c) (ec_MsgType c) (ec_EventType c) (ec_Text c) (ec_Image c) (ec_Audio c) (ec_Video c) (ec_File c).
Definition set_ec_ChatbotUserID (v : string) (c : eventCallback) : eventCallback :=
  MkEvent (ec_Challenge c) (ec_ConversationID c) (ec_MsgID c) v (ec_SenderStaffID c) (ec_SenderNick c) (ec_MsgType c) (ec_EventType c) (ec_Text c) (ec_Image c) (ec_Audio c) (ec_Video c) (ec_File c).
Definition set_ec_SenderStaffID (v : string) (c : eventCallback) : eventCallback :=
  MkEvent (ec_Challenge c) (ec_ConversationID c) (ec_MsgID c) (ec_ChatbotUserID c) v (ec_SenderNick c) (ec_MsgType c) (ec_EventType c) (ec_Text c) (ec_Image c) (ec_Audio c) (ec_Video c) (ec_File c).
Definition set_ec_SenderNick (v : string) (c : eventCallback) : eventCallback :=
  MkEvent (ec_Challenge c) (ec_ConversationID c) (ec_MsgID c) (ec_ChatbotUserID c) (ec_SenderStaffID c) v (ec_MsgType c) (ec_EventType c) (ec_Text c) (ec_Image c) (ec_Audio c) (ec_Video c) (ec_File c).
Definition set_ec_MsgType (v : string) (c : eventCallback) : eventCallback :=
  MkEvent (ec_Challenge c) (ec_ConversationID c) (ec_MsgID c) (ec_ChatbotUserID c) (ec_SenderStaffID c) (ec_SenderNick c) v (ec_EventType c) (ec_Text c) (ec_Image c) (ec_Audio c) (ec_Video c) (ec_File c).
Definition set_ec_EventType (v : string) (c : eventCallback) : eventCallback :=
  MkEvent (ec_Challenge c) (ec_ConversationID c) (ec_MsgID c) (ec_ChatbotUserID c) (ec_SenderStaffID c) (ec_SenderNick c) (ec_MsgType c) v (ec_Text c) (ec_Image c) (ec_Audio c) (ec_Video c) (ec_File c).
Definition set_ec_Text (v : string) (c : eventCallback) : eventCallback :=
  MkEvent (ec_Challenge c) (ec_ConversationID c) (ec_MsgID c) (ec_ChatbotUserID c) (ec_SenderStaffID c) (ec_SenderNick c) (ec_MsgType c) (ec_EventType c) v (ec_Image c) (ec_Audio c) (ec_Video c) (ec_File c).
Definition set_ec_Image (v : mediaPayload) (c : eventCallback) : eventCallback :=
  MkEvent (ec_Challenge c) (ec_ConversationID c) (ec_MsgID c) (ec_ChatbotUserID c) (ec_SenderStaffID c) (ec_SenderNick c) (ec_MsgType c) (ec_EventType c) (ec_Text c) v (ec_Audio c) (ec_Video c) (ec_File c).
Definition set_ec_Audio (v : mediaPayload) (c : eventCallback) : eventCallback :=
  MkEvent (ec_Challenge c) (ec_ConversationID c) (ec_MsgID c) (ec_ChatbotUserID c) (ec_SenderStaffID c) (ec_SenderNick c) (ec_MsgType c) (ec_EventType c) (ec_Text c) (ec_Image c) v (ec_Video c) (ec_File c).
Definition set_ec_Video (v : mediaPayload) (c : eventCallback) : eventCallback :=
  MkEvent (ec_Challenge c) (ec_ConversationID c) (ec_MsgID c) (ec_ChatbotUserID c) (ec_SenderStaffID c) (ec_SenderNick c) (ec_MsgType c) (ec_EventType c) (ec_Text c) (ec_Image c) (ec_Audio c) v (ec_File c).
Definition set_ec_File (v : mediaPayload) (c : eventCallback) : eventCallback :=
  MkEvent (ec_Challenge c) (ec_ConversationID c) (ec_MsgID c) (ec_ChatbotUserID c) (ec_SenderStaffID c) (ec_SenderNick c) (ec_MsgType c) (ec_EventType c) (ec_Text c) (ec_Image c) (ec_Audio c) (ec_Video c) v.

Record cardCallback := MkCard {
  cc_Challenge : string;
  cc_CardCallbackID : string;
  cc_ConversationID : string;
  cc_MsgID : string;
  cc_ChatbotUserID : string;
  cc_SenderStaffID : string;
  cc_Value : gmembers;
  cc_CardData : gmembers
}.

Definition set_cc_Challenge (v : string) (c : cardCallback) : cardCallback :=
  MkCard v (cc_CardCallbackID c) (cc_ConversationID c) (cc_MsgID c) (cc_ChatbotUserID c) (cc_SenderStaffID c) (cc_Value c) (cc_CardData c).
Definition set_cc_CardCallbackID (v : string) (c : cardCallback) : cardCallback :=
  MkCard (cc_Challenge c) v (cc_ConversationID c) (cc_MsgID c) (cc_ChatbotUserID c) (cc_SenderStaffID c) (cc_Value c) (cc_CardData c).
Definition set_cc_ConversationID (v : string) (c : cardCallback) : cardCallback :=
  MkCard (cc_Challenge c) (cc_CardCallbackID c) v (cc_MsgID c) (cc_ChatbotUserID c) (cc_SenderStaffID c) (cc_Value c) (cc_CardData c).
Definition set_cc_MsgID (v : string) (c : cardCallback) : cardCallback :=
  MkCard (cc_Challenge c) (cc_CardCallbackID c) (cc_ConversationID c) v (cc_ChatbotUserID c) (cc_SenderStaffID c) (cc_Value c) (cc_CardData c).
Definition set_cc_ChatbotUserID (v : string) (c : cardCallback) : cardCallback :=
  MkCard (cc_Challenge c) (cc_CardCallbackID c) (cc_ConversationID c) (cc_MsgID c) v (cc_SenderStaffID c) (cc_Value c) (cc_CardData c).
Definition set_cc_SenderStaffID (v : string) (c : cardCallback) : cardCallback :=
  MkCard (cc_Challenge c) (cc_CardCallbackID c) (cc_ConversationID c) (cc_MsgID c) (cc_ChatbotUserID c) v (cc_Value c) (cc_CardData c).
Definition set_cc_Value (v : gmembers) (c : cardCallback) : cardCallback :=
  MkCard (cc_Challenge c) (cc_CardCallbackID c) (cc_ConversationID c) (cc_MsgID c) (cc_ChatbotUserID c) (cc_SenderStaffID c) v (cc_CardData c).
Definition set_cc_CardData (v : gmembers) (c : cardCallback) : cardCallback :=
  MkCard (cc_Challenge c) (cc_CardCallbackID c) (cc_ConversationID c) (cc_MsgID c) (cc_ChatbotUserID c) (cc_SenderStaffID c) (cc_Value c) v.

Definition zero_payload : mediaPayload := MkMediaPayload EmptyString EmptyString.
Definition zero_event : eventCallback :=
  MkEvent EmptyString EmptyString EmptyString EmptyString EmptyString EmptyString EmptyString EmptyString EmptyString
    zero_payload zero_payload zero_payload zero_payload.
Definition zero_card : cardCallback :=
  MkCard EmptyString EmptyString EmptyString EmptyString EmptyString EmptyString None None.

(** A field of struct type is decoded over what it holds. *)
Definition nested_field {A B} (name : string) (fs : list (field B)) (get : A → B) (set : B → A → A) : field A :=
  (name, λ t a, b ← struct_value false fs t (get a); Ok (set b a)).

Definition payload_fields : list (field mediaPayload) :=
  [ string_field "mediaId" (λ v p, MkMediaPayload v (mp_FileName p));
    string_field "fileName" (λ v p, MkMediaPayload (mp_MediaID p) v) ].

Definition event_fields : list (field eventCallback) :=
  [ string_field "challenge" set_ec_Challenge;
    string_field "conversationId" set_ec_ConversationID;
    string_field "msgId" set_ec_MsgID;
    string_field "chatbotUserId" set_ec_ChatbotUserID;
    string_field "senderStaffId" set_ec_SenderStaffID;
    string_field "senderNick" set_ec_SenderNick;
    string_field "msgtype" set_ec_MsgType;
    string_field "eventType" set_ec_EventType;
    nested_field "text" [ string_field "content" (λ v _, v) ] ec_Text set_ec_Text;
    nested_field "image" payload_fields ec_Image set_ec_Image;
    nested_field "audio" payload_fields ec_Audio set_ec_Audio;
    nested_field "video" payload_fields ec_Video set_ec_Video;
    nested_field "file" payload_fields ec_File set_ec_File ].

Definition card_fields : list (field cardCallback) :=
  [ string_field "challenge" set_cc_Challenge;
    string_field "cardCallbackId" set_cc_CardCallbackID;
    string_field "conversationId" set_cc_ConversationID;
    string_field "msgId" set_cc_MsgID;
    string_field "chatbotUserId" set_cc_ChatbotUserID;
    string_field "senderStaffId" set_cc_SenderStaffID;
    map_field "value" cc_Value set_cc_Value;
    map_field "cardData" cc_CardData set_cc_CardData ].

(** ** app_mapper.go *)
Definition media_message (kind : string) (p : mediaPayload) (req : StandardMessage) : StandardMessage :=
  set_sm_Media (Some [set_mi_FileName (mp_FileName p) (set_mi_MediaID (mp_MediaID p) (set_mi_Kind kind zero_media))])
    (set_sm_Text ("[" ++ kind ++ "]")%string (set_sm_MessageType kind req)).

Definition event_metadata (c : eventCallback) : list (string * gvalue) :=
  [("conversationId", GString (ec_ConversationID c)); ("chatbotUserId", GString (ec_ChatbotUserID c));
   ("senderStaffId", GString (ec_SenderStaffID c)); ("senderNick", GString (ec_SenderNick c)); ("msgId", GString (ec_MsgID c));
   ("eventType", GString (ec_EventType c)); ("msgtype", GString (ec_MsgType c))]%string.

Definition event_base (c : eventCallback) (body : string) : StandardMessage :=
  set_sm_SessionID (firstNonEmpty [ec_ConversationID c; ec_ChatbotUserID c]) (set_sm_ChannelName appAdapterName
    (set_sm_MessageID (ec_MsgID c) (set_sm_SenderID (ec_SenderStaffID c) (set_sm_SenderName (ec_SenderNick c)
      (set_sm_Metadata (Some (event_metadata c)) (set_sm_RawContent body zero_standard)))))).

(** Only a file's name is taken over. *)
Definition no_name (p : mediaPayload) : mediaPayload := MkMediaPayload (mp_MediaID p) EmptyString.

Definition mapEventCallback (body : string) : result StandardMessage :=
  match Unmarshal event_fields zero_event body with
  | Fail e => Fail e
  | Ok c =>
    match requiredString "conversationId" (firstNonEmpty [ec_ConversationID c; ec_ChatbotUserID c]) with
    | Some e => Fail e
    | None =>
      let req := event_base c body in
      if bool_decide (ec_MsgType c = "text") then
        Ok (set_sm_Text (ec_Text c) (set_sm_Format FormatPlainText (set_sm_MessageType MessageTypeText req)))
      else if bool_decide (ec_MsgType c = "image") then Ok (media_message "image" (no_name (ec_Image c)) req)
      else if bool_decide (ec_MsgType c = "audio") then Ok (media_message "audio" (no_name (ec_Audio c)) req)
      else if bool_decide (ec_MsgType c = "video") then Ok (media_message "video" (no_name (ec_Video c)) req)
      else if bool_decide (ec_MsgType c = "file") then Ok (media_message "file" (ec_File c) req)
      else if negb (bool_decide (ec_EventType c = EmptyString)) then
        Ok (set_sm_Text (ec_EventType c) (set_sm_MessageType "event" req))
      else Fail (new_error ("unsupported dingtalk event message type: " ++ ec_MsgType c))
    end
  end.

(** A nil map in an interface value. *)
Definition gmap_value (m : gmembers) : gvalue := match m with Some l => GObj l | None => GNil end.

Definition mapCardCallback (body : string) : result StandardMessage :=
  match Unmarshal card_fields zero_card body with
  | Fail e => Fail e
  | Ok c =>
    match requiredString "conversationId" (firstNonEmpty [cc_ConversationID c; cc_ChatbotUserID c]) with
    | Some e => Fail e
    | None =>
      Ok (set_sm_SessionID (firstNonEmpty [cc_ConversationID c; cc_ChatbotUserID c]) (set_sm_ChannelName appAdapterName
        (set_sm_MessageID (firstNonEmpty [cc_MsgID c; cc_CardCallbackID c]) (set_sm_SenderID (cc_SenderStaffID c)
        (set_sm_Text "card_action" (set_sm_MessageType "event"
        (set_sm_Card (Some [("value", gmap_value (cc_Value c)); ("cardData", gmap_value (cc_CardData c))]%string)
        (set_sm_RawContent body
        (set_sm_Metadata (Some
          [("cardCallbackId", GString (cc_CardCallbackID c)); ("conversationId", GString (cc_ConversationID c));
           ("chatbotUserId", GString (cc_ChatbotUserID c)); ("senderStaffId", GString (cc_SenderStaffID c));
           ("msgId", GString (cc_MsgID c))]%string) zero_standard)))))))))
    end
  end.

(** ** app_adapter.go *)

(** A callback request: its query's values by name, and its body or the error
    of reading it. *)
Record CallbackRequest := MkCallback { cr_Query : string → string; cr_Body : result string }.

(** What [parseCallbackBody] returns: the text and the challenge, with whether
    the body was encrypted, or an error, with whether the request is
    unauthorised. *)
Inductive parsed :=
| Parsed (plain challenge : string) (encrypted : bool)
| Refused (unauthorized : bool).

Definition parseCallbackBody (cfg : AppConfig) (query : string → string) (body : string) : option parsed :=
  match extractChallenge body with
  | Ok (String _ _ as challenge) => Some (Parsed body challenge false)
  | _ =>
    match Unmarshal envelope_fields EmptyString body with
    | Fail _ => Some (Refused false)
    | Ok EmptyString => Some (Parsed body EmptyString false)
    | Ok encrypt =>
      let signature := firstNonEmpty [query "signature"; query "msg_signature"] in
      if bool_decide (signature = EmptyString) ||
         negb (bool_decide (signature = callbackSignature (ac_Token cfg) (query "timestamp") (query "nonce") encrypt))
      then Some (Refused true)
      else
        match decryptCallbackBody (ac_AESKey cfg) (ac_ClientID cfg) encrypt with
        | None => None
        | Some (Fail _) => Some (Refused false)
        | Some (Ok msg) =>
          let plain := string_of_bytes msg in
          match extractChallenge plain with
          | Ok challenge => Some (Parsed plain challenge true)
          | Fail _ => Some (Parsed plain EmptyString true)
          end
        end
    end
  end%string.

Definition json_response (ms : list (string * gvalue)) : Response :=
  MkResponse 200 [("Content-Type", "application/json")]%string (print (encode_value (GObj ms)) ++ eol)%string.

(** [writeEncryptedResponse]: the response, or its error. *)
Definition encryptedResponse (cfg : AppConfig) (query : string → string) (body : string) : option (result Response) :=
  let timestamp := firstNonEmpty [query "timestamp"; "0"]%string in
  let nonce := firstNonEmpty [query "nonce"; "nonce"]%string in
  match encryptCallbackBody (ac_AESKey cfg) (ac_ClientID cfg) (bytes_of body) with
  | None => None
  | Some (Fail e) => Some (Fail e)
  | Some (Ok encrypted) =>
    Some (Ok (json_response
      [("msg_signature", GString (callbackSignature (ac_Token cfg) timestamp nonce encrypted)); ("encrypt", GString encrypted);
       ("timeStamp", GString timestamp); ("nonce", GString nonce)]%string))
  end.

(** The encrypted answer as the handler's last step. *)
Definition answer (cfg : AppConfig) (query : string → string) (body : string) : option Response :=
  match encryptedResponse cfg query body with
  | None => None
  | Some (Ok resp) => Some resp
  | Some (Fail _) => Some (http_error "invalid body" 400)
  end.

Section handler.
Context {T : Type} `{Transport T}.

Definition handleCallback (mapper : string → result StandardMessage) (cfg : AppConfig) (r : CallbackRequest) (c : ctx)
    (now_ns t : Z) (ro : SessionRouter T) : option Response * SessionRouter T :=
  match cr_Body r with
  | Fail _ => (Some (http_error "invalid body" 400), ro)
  | Ok body =>
    match parseCallbackBody cfg (cr_Query r) body with
    | None => (None, ro)
    | Some (Refused true) => (Some (http_error "invalid signature" 401), ro)
    | Some (Refused false) => (Some (http_error "invalid body" 400), ro)
    | Some (Parsed plain challenge encrypted) =>
      if negb (bool_decide (challenge = EmptyString)) then
        (if encrypted then answer cfg (cr_Query r) challenge
         else Some (json_response [("challenge", GString challenge)]%string), ro)
      else match mapper plain with
      | Fail _ => (Some (http_error "invalid callback" 400), ro)
      | Ok req =>
        match HandleIncoming c req now_ns t ro with
        | (Some _, ro) => (Some (http_error "enqueue failed" 502), ro)
        | (None, ro) =>
          (if encrypted then answer cfg (cr_Query r) "success" else Some (MkResponse 200 [] EmptyString), ro)
        end
      end
    end
  end.
End handler.

(** ** What is let in *)
Definition has_challenge (body : string) : Prop := ∃ c, extractChallenge body = Ok c ∧ c ≠ EmptyString.

(** [plain] is the text of a callback that the handler gives to its mapper:
    the body itself when it names no encrypted text, otherwise what its
    encrypted text carries, under the signature of the token. *)
Definition let_in (cfg : AppConfig) (key : list Z) (query : string → string) (body plain : string) (encrypted : bool) : Prop :=
  ¬ has_challenge body ∧
  if encrypted then
    ∃ encrypt head msg, Unmarshal envelope_fields EmptyString body = Ok encrypt ∧ encrypt ≠ EmptyString ∧
      let signature := firstNonEmpty [query "signature"; query "msg_signature"]%string in
      signature ≠ EmptyString ∧
      signature = callbackSignature (ac_Token cfg) (query "timestamp"%string) (query "nonce"%string) encrypt ∧
      length head = 16%nat ∧ carries key encrypt (frame head msg (ac_ClientID cfg)) ∧ Z.of_nat (length msg) < 2 ^ 32 ∧
      plain = string_of_bytes msg ∧ ¬ has_challenge plain
  else Unmarshal envelope_fields EmptyString body = Ok EmptyString ∧ plain = body.

Lemma parse_let_in cfg key query body plain encrypted :
  app_key (ac_AESKey cfg) key →
  parseCallbackBody cfg query body = Some (Parsed plain EmptyString encrypted) ↔ let_in cfg key query body plain encrypted.
Proof.
  intros Hkey. unfold parseCallbackBody, let_in.
  assert (has_challenge body ↔ ∃ a s, extractChallenge body = Ok (String a s)) as Hch.
  { split; [intros ([|a s] & H & ?); [done|eauto]|intros (a & s & H); by exists (String a s)]. }
  assert ((match extractChallenge body with Ok (String _ _ as ch) => Some (Parsed body ch false) | _ => None end = None ∧ ¬ has_challenge body) ∨
    ∃ a s, extractChallenge body = Ok (String a s)) as [[Hm Hno]|(a & s & He)].
  { rewrite Hch. destruct (extractChallenge body) as [[|a s]|]; [left; split; [done|naive_solver]|right; eauto|left; split; [done|naive_solver]]. }
  2:{ rewrite He. split; [done|]. intros [Hn _]. destruct Hn. apply Hch. eauto. }
  set (rest := match Unmarshal _ _ _ with Fail _ => _ | Ok _ => _ end).
  transitivity (rest = Some (Parsed plain EmptyString encrypted)).
  { destruct (extractChallenge body) as [[|a s]|]; done. }
  clear Hm Hch. subst rest. destruct (Unmarshal envelope_fields EmptyString body) as [encrypt|e]; [|destruct encrypted; naive_solver].
  destruct encrypt as [|x y].
  { destruct encrypted; [split; [done|naive_solver]|]. split; [by intros [= <-]|]. by intros (_ & _ & ->). }
  set (encrypt := String x y). cbn zeta.
  set (sig := firstNonEmpty _). destruct (_ || _) eqn:Hs.
  { split; [done|]. destruct encrypted; [|naive_solver]. intros [_ (e & h & m & [= <-] & _ & H1 & H2 & _)]. exfalso.
    apply orb_true_iff in Hs as [Hs%bool_decide_eq_true|Hs%negb_true_iff%bool_decide_eq_false]; done. }
  apply orb_false_iff in Hs as [Hs1%bool_decide_eq_false Hs2%negb_false_iff%bool_decide_eq_true].
  assert (∀ msg, decryptCallbackBody (ac_AESKey cfg) (ac_ClientID cfg) encrypt = Some (Ok msg) ↔
    ∃ head, length head = 16%nat ∧ carries key encrypt (frame head msg (ac_ClientID cfg)) ∧ Z.of_nat (length msg) < 2 ^ 32) as Hdec
    by (intros; by apply dingtalk_decrypted).
  assert (encrypted = true → ∀ e h m, Ok (A := string) encrypt = Ok e → length h = 16%nat → carries key e (frame h m (ac_ClientID cfg)) →
    Z.of_nat (length m) < 2 ^ 32 → decryptCallbackBody (ac_AESKey cfg) (ac_ClientID cfg) encrypt = Some (Ok m)) as Hback.
  { intros _ e h m [= <-] H1 H2 H3. apply Hdec. eauto. }
  destruct (decryptCallbackBody _ _ encrypt) as [[msg|e]|] eqn:Hd.
  - transitivity (plain = string_of_bytes msg ∧ encrypted = true ∧ ¬ has_challenge plain).
    { destruct (extractChallenge (string_of_bytes msg)) as [[|a s]|] eqn:Hp; split; try done.
      - intros [= <- <-]. split_and!; try done. intros (c & Hc & Hne). rewrite Hp in Hc. by injection Hc as <-.
      - by intros (-> & -> & _).
      - intros (-> & _ & Hn). destruct Hn. by exists (String a s).
      - intros [= <- <-]. split_and!; try done. intros (c & Hc & _). by rewrite Hp in Hc.
      - by intros (-> & -> & _). }
    split.
    + intros (-> & -> & Hnc). split; [done|]. destruct (proj1 (Hdec msg) eq_refl) as (head & H1 & H2 & H3).
      exists encrypt, head, msg. by split_and!.
    + intros [_ H]. destruct encrypted; [|naive_solver]. destruct H as (e & h & m & H1 & _ & _ & _ & H2 & H3 & H4 & -> & H5).
      specialize (Hback eq_refl e h m H1 H2 H3 H4) as [= ->]. done.
  - split; [done|]. intros [_ H]. destruct encrypted; [|naive_solver]. destruct H as (e' & h & m & H1 & _ & _ & _ & H2 & H3 & H4 & _).
    by specialize (Hback eq_refl e' h m H1 H2 H3 H4).
  - split; [done|]. intros [_ H]. destruct encrypted; [|naive_solver]. destruct H as (e' & h & m & H1 & _ & _ & _ & H2 & H3 & H4 & _).
    by specialize (Hback eq_refl e' h m H1 H2 H3 H4).
Qed.

Section exactness.
Context {T : Type} `{Transport T}.

(** C15: For a configured key that can be used: a callback is dispatched exactly
    when its text is let in and its mapper makes a message of it; the response
    is then 502 if the queue refuses it, and 200 otherwise, encrypted if the
    callback was.  Any other callback leaves queue and routes as they are.  A
    text is let in when neither the body nor what it carries holds a challenge
    - a challenge is answered, never dispatched - and the body names either an
    encrypted text, signed with the token and framed for this client, or none
    at all; in the latter case no signature is looked at. *)
Theorem callback_exact mapper cfg key r c now_ns t (ro : SessionRouter T) :
  app_key (ac_AESKey cfg) key →
  let '(resp, ro') := handleCallback mapper cfg r c now_ns t ro in
  (∃ body plain encrypted req, cr_Body r = Ok body ∧ let_in cfg key (cr_Query r) body plain encrypted ∧ mapper plain = Ok req ∧
     let '(err, ro1) := HandleIncoming c req now_ns t ro in
     ro' = ro1 ∧
     resp = match err with
            | Some _ => Some (http_error "enqueue failed" 502)
            | None => if encrypted then answer cfg (cr_Query r) "success" else Some (MkResponse 200 [] EmptyString)
            end) ∨
  (¬ ∃ body plain encrypted req, cr_Body r = Ok body ∧ let_in cfg key (cr_Query r) body plain encrypted ∧ mapper plain = Ok req) ∧ ro' = ro.
Proof.
  intros Hkey. unfold handleCallback. destruct (cr_Body r) as [body|e]; [|right; split; [naive_solver|done]].
  pose proof (parse_let_in cfg key (cr_Query r) body) as Hparse.
  assert (∀ p, parseCallbackBody cfg (cr_Query r) body = p → (∀ plain enc, p ≠ Some (Parsed plain EmptyString enc)) →
    ¬ ∃ body' plain encrypted req, Ok body = Ok body' ∧ let_in cfg key (cr_Query r) body' plain encrypted ∧ mapper plain = Ok req) as Hout.
  { intros p Hp Hne (body' & plain & enc & req & [= <-] & Hl & _). apply (Hparse plain enc Hkey) in Hl. rewrite Hp in Hl. by apply (Hne plain enc). }
  destruct (parseCallbackBody cfg (cr_Query r) body) as [[plain challenge enc|[|]]|] eqn:Hp;
    [|right; split; [by apply (Hout _ eq_refl)|done]..]. destruct challenge as [|x y]; cbn [bool_decide].
  2:{ rewrite bool_decide_eq_false_2 by done. right. split; [by apply (Hout _ eq_refl)|done]. }
  rewrite bool_decide_eq_true_2 by done. cbn [negb].
  assert (let_in cfg key (cr_Query r) body plain enc) as Hl by (by apply Hparse).
  destruct (mapper plain) as [req|e] eqn:Hm.
  - destruct (HandleIncoming c req now_ns t ro) as [err ro1] eqn:Hd.
    assert (match HandleIncoming c req now_ns t ro with (err, ro1') => ro1 = ro1' end) as _ by (by rewrite Hd).
    destruct err; left; exists body, plain, enc, req; rewrite Hd; by split_and!.
  - right. split; [|done]. intros (body' & plain' & enc' & req & [= <-] & Hl' & Hm').
    apply (Hparse plain' enc' Hkey) in Hl'. congruence.
Qed.

(** A body without an encrypted text and without a challenge is dispatched to
    the orchestrator as soon as its mapper accepts it, whatever the query says
    and whatever the token and key are. *)
Theorem unsigned_dispatched mapper cfg query body req c now_ns t (ro : SessionRouter T) :
  ¬ has_challenge body → Unmarshal envelope_fields EmptyString body = Ok EmptyString → mapper body = Ok req →
  handleCallback mapper cfg (MkCallback query (Ok body)) c now_ns t ro =
    match HandleIncoming c req now_ns t ro with
    | (Some _, ro) => (Some (http_error "enqueue failed" 502), ro)
    | (None, ro) => (Some (MkResponse 200 [] EmptyString), ro)
    end.
Proof.
  intros Hch Henv Hm. unfold handleCallback, parseCallbackBody. cbn [cr_Body]. rewrite Henv.
  destruct (extractChallenge body) as [[|a s]|] eqn:Hc; [|destruct Hch; by exists (String a s)|]; by rewrite bool_decide_eq_true_2, Hm by done.
Qed.
End exactness.

(** A message in the name of anyone, with no signature at all. *)
Definition demo_app : AppConfig :=
  MkAppConfig "client" "secret" 1 "/events" "/cards" "" "" "token" demo_aes_key "" "" "" 0.
Definition forged_body : string :=
  jtext "{'conversationId':'cid1','senderStaffId':'boss','msgtype':'text','text':{'content':'pay them'}}".
Definition no_query : string → string := λ _, EmptyString.

Example forged_text :
  match mapEventCallback forged_body with Ok req => sm_Text req = "pay them"%string | Fail _ => False end.
Proof. vm_compute. reflexivity. Qed.

Lemma forged_unchallenged : ¬ has_challenge forged_body.
Proof. intros (c & Hc & Hne). vm_compute in Hc. injection Hc as <-. done. Qed.

Definition forged_message : StandardMessage :=
  match mapEventCallback forged_body with Ok req => req | Fail _ => zero_standard end.

Lemma unsigned_dispatched_witness :
  handleCallback (H := fake_transport (λ l, l)) mapEventCallback demo_app (MkCallback no_query (Ok forged_body)) background 5 7 router_demo =
    match HandleIncoming (H := fake_transport (λ l, l)) background forged_message 5 7 router_demo with
    | (Some _, ro) => (Some (http_error "enqueue failed" 502), ro)
    | (None, ro) => (Some (MkResponse 200 [] EmptyString), ro)
    end.
Proof.
  apply (unsigned_dispatched (H := fake_transport (λ l, l)) mapEventCallback demo_app no_query forged_body forged_message background 5 7 router_demo).
  - exact forged_unchallenged.
  - vm_compute. reflexivity.
  - vm_compute. reflexivity.
Defined.

Lemma callback_exact_witness :
  (∃ body plain encrypted req, Ok forged_body = Ok body ∧ let_in demo_app (bytes_of "0123456789abcdef0123456789abcdef") no_query body plain encrypted ∧
    mapEventCallback plain = Ok req) ∨
  (handleCallback (H := fake_transport (λ l, l)) mapEventCallback demo_app (MkCallback no_query (Ok forged_body)) background 5 7 router_demo).2 = router_demo.
Proof.
  pose proof (callback_exact (H := fake_transport (λ l, l)) mapEventCallback demo_app (bytes_of "0123456789abcdef0123456789abcdef")
    (MkCallback no_query (Ok forged_body)) background 5 7 router_demo) as Hx.
  destruct (handleCallback _ _ _ _ _ _ _) as [resp ro'].
  destruct Hx as [(body & plain & enc & req & H1 & H2 & H3 & _)|[_ ->]]; [|left; by exists body, plain, enc, req|by right].
  split; [vm_compute; reflexivity|]. change (length (bytes_of _)) with 32%nat. set_solver.
Defined.
