(* ===== verification/WecomClient.v ===== *)
(** * The WeCom API client: internal/gateway/wecom/client.go

    Sending a channel message: the access token, the payload for each kind of
    message, the upload of media.  The HTTP exchange is a parameter, a function
    of the request and of a world of its own that gives the response's body or
    an error; so is reading a file.  Responses are decoded as the code does,
    without a look at their status.  The download of media is in
    WecomMedia. *)
From Stdlib Require Import String Ascii.
From S2P Require Import Prelude GoStrings Strconv GoValue Sha256 Cipher Url Callback GatewayTypes Wecom TokenCache.
From stdpp Require Import list.

Local Open Scope Z_scope.

(** ** Requests *)
Inductive body_sent :=
| NoBody
| JsonBody (text : string)
| FormFile (field fileName : string) (content : list Z).

Record OutRequest := MkOut { or_Method : string; or_URL : string; or_Body : body_sent }.

Fixpoint drop_slashes (s : string) : string :=
  match s with String c r => if bool_decide (c = "/"%char) then drop_slashes r else s | EmptyString => EmptyString end.

(** [strings.TrimRight(s, "/")] *)
Definition trim_right_slash (s : string) : string := srev (drop_slashes (srev s)).

Definition newRequest (cfg : Config) (method path token : string) (body : body_sent) (query : Values) : OutRequest :=
  let base := trim_right_slash (wc_APIBaseURL cfg) in
  let values := if negb (bool_decide (token = ""%string)) then set_value "access_token" token query else query in
  let encoded := encode_values values in
  let endpoint := (base ++ path)%string in
  MkOut method (if negb (bool_decide (encoded = ""%string)) then (endpoint ++ "?" ++ encoded)%string else endpoint) body.

(** ** Responses *)
Record apiResponse := MkApi {
  ar_ErrCode : Z;
  ar_ErrMsg : string;
  ar_AccessToken : string;
  ar_ExpiresIn : Z;
  ar_MediaID : string;
  ar_Type : string;
  ar_InvalidUser : string
}.

Definition zero_api : apiResponse := MkApi 0 "" "" 0 "" "" "".

Definition api_fields : list (field apiResponse) :=
  [ int64_field "errcode" (λ v a, MkApi v (ar_ErrMsg a) (ar_AccessToken a) (ar_ExpiresIn a) (ar_MediaID a) (ar_Type a) (ar_InvalidUser a));
    string_field "errmsg" (λ v a, MkApi (ar_ErrCode a) v (ar_AccessToken a) (ar_ExpiresIn a) (ar_MediaID a) (ar_Type a) (ar_InvalidUser a));
    string_field "access_token" (λ v a, MkApi (ar_ErrCode a) (ar_ErrMsg a) v (ar_ExpiresIn a) (ar_MediaID a) (ar_Type a) (ar_InvalidUser a));
    int64_field "expires_in" (λ v a, MkApi (ar_ErrCode a) (ar_ErrMsg a) (ar_AccessToken a) v (ar_MediaID a) (ar_Type a) (ar_InvalidUser a));
    string_field "media_id" (λ v a, MkApi (ar_ErrCode a) (ar_ErrMsg a) (ar_AccessToken a) (ar_ExpiresIn a) v (ar_Type a) (ar_InvalidUser a));
    string_field "type" (λ v a, MkApi (ar_ErrCode a) (ar_ErrMsg a) (ar_AccessToken a) (ar_ExpiresIn a) (ar_MediaID a) v (ar_InvalidUser a));
    string_field "invaliduser" (λ v a, MkApi (ar_ErrCode a) (ar_ErrMsg a) (ar_AccessToken a) (ar_ExpiresIn a) (ar_MediaID a) (ar_Type a) v) ].

(** [json.Decoder.Decode] of a response's body. *)
Definition decode_api (body : string) : result apiResponse :=
  match decode_one body with
  | None => Fail (new_error "invalid json")
  | Some (t, _) => struct_value false api_fields t zero_api
  end.

Definition api_error (what : string) (r : apiResponse) : error :=
  new_error (what ++ " failed: " ++ ar_ErrMsg r ++ " (" ++ FormatInt (ar_ErrCode r) ++ ")").

(** ** What kind of message is sent *)
Definition effectiveMessageType (msg : StandardMessage) : string :=
  let kind := sm_MessageType msg in
  let by_content :=
    if bool_decide (sm_Format msg = FormatMarkdown) then "markdown"%string
    else match sm_Media msg with
    | Some (m :: _) =>
      if bool_decide (mi_Kind m = "image"%string) then "image"%string
      else if bool_decide (mi_Kind m = "audio"%string) then "voice"%string
      else if bool_decide (mi_Kind m = "video"%string) then "video"%string
      else if bool_decide (mi_Kind m = "file"%string) then "file"%string
      else match sm_Articles msg with Some (_ :: _) => "news"%string | _ => "text"%string end
    | _ => match sm_Articles msg with Some (_ :: _) => "news"%string | _ => "text"%string end
    end in
  if bool_decide (kind = "markdown"%string) then "markdown"%string
  else if bool_decide (kind = "text"%string) then (if bool_decide (sm_Format msg = FormatMarkdown) then "markdown"%string else "text"%string)
  else if bool_decide (kind = "image"%string) then "image"%string
  else if bool_decide (kind = "audio"%string) then "voice"%string
  else if bool_decide (kind = "video"%string) then "video"%string
  else if bool_decide (kind = "file"%string) then "file"%string
  else if bool_decide (kind = "news"%string) then "news"%string
  else by_content.

(** [value != nil && fmt.Sprint(value) != ""] for a value of the metadata. *)
Definition present (v : option gvalue) : option gvalue :=
  match v with Some GNil | Some (GString EmptyString) | None => None | Some v => Some v end.

Definition recipient_keys : list (string * string) :=
  [("wecom_touser", "touser"); ("wecom_toparty", "toparty"); ("wecom_totag", "totag"); ("wecom_chatid", "chatid")]%string.

Definition recipientFields (msg : StandardMessage) : list (string * gvalue) :=
  omap (λ k, pair k.2 <$> present (get_key k.1 (default [] (sm_Metadata msg)))) recipient_keys.

Definition article_value (a : Article) : gvalue :=
  GObj [("title", GString (ar_Title a)); ("description", GString (ar_Description a)); ("url", GString (GatewayTypes.ar_URL a));
        ("picurl", GString (ar_PicURL a))]%string.

(** [filepath.Base] *)
Fixpoint after_slash (s : string) (last : string) : string :=
  match s with EmptyString => last | String c r => if bool_decide (c = "/"%char) then after_slash r r else after_slash r last end.
Definition path_base (p : string) : string :=
  if bool_decide (p = ""%string) then "."%string
  else let t := trim_right_slash p in if bool_decide (t = ""%string) then "/"%string else after_slash t t.

Section client.
Context {W : Type}.
(** The HTTP exchange, and the reading of a file. *)
Variable do : ctx → OutRequest → W → result string * W.
Variable read_file : string → W → result (list Z).

Definition doJSON (cfg : Config) (c : ctx) (method path token : string) (body : body_sent) (query : Values) (w : W) : result apiResponse * W :=
  match do c (newRequest cfg method path token body query) w with
  | (Fail e, w) => (Fail e, w)
  | (Ok text, w) =>
    (parsed ← decode_api text;
     if negb (ar_ErrCode parsed =? 0) then Fail (api_error "wecom api" parsed) else Ok parsed, w)
  end.

(** ** The access token *)
Definition fetchToken (cfg : Config) (c : ctx) (w : W) : result apiResponse * W :=
  doJSON cfg c "GET" "/cgi-bin/gettoken" "" NoBody [("corpid", wc_CorpID cfg); ("corpsecret", wc_CorpSecret cfg)]%string w.

Definition grantToken (r : apiResponse) : result string :=
  if bool_decide (ar_AccessToken r = ""%string) then Fail (new_error "wecom access token is empty") else Ok (ar_AccessToken r).

(** Seconds as a [time.Duration], 64-bit. *)
Definition token_lifetime (r : apiResponse) : Z := wrap64 (wrap64 (ar_ExpiresIn r - 60) * second).

Definition GetToken (cfg : Config) : token_call → token_cache * W → result string * (token_cache * W) :=
  getAccessToken (fetchToken cfg) grantToken token_lifetime.

(** ** Media *)
Definition materializeMedia (m : MediaItem) (w : W) : result (list Z * string) :=
  if negb (blank (mi_Path m)) then
    content ← read_file (mi_Path m) w;
    Ok (content, if blank (mi_FileName m) then path_base (mi_Path m) else mi_FileName m)
  else if negb (blank (mi_DataBase64 m)) then
    match base64_decode (mi_DataBase64 m) with
    | None => Fail err_base64
    | Some content => Ok (content, if blank (mi_FileName m) then "upload.bin"%string else mi_FileName m)
    end
  else Fail (new_error "wecom media requires media_id, path or data_base64").

Definition uploadMedia (cfg : Config) (c : ctx) (token msgType : string) (m : MediaItem) (w : W) : result string * W :=
  match materializeMedia m w with
  | Fail e => (Fail e, w)
  | Ok (content, fileName) =>
    match do c (newRequest cfg "POST" "/cgi-bin/media/upload" token (FormFile "media" fileName content) [("type", msgType)]%string) w with
    | (Fail e, w) => (Fail e, w)
    | (Ok text, w) =>
      (parsed ← decode_api text;
       if negb (ar_ErrCode parsed =? 0) then Fail (api_error "wecom media/upload" parsed)
       else if bool_decide (ar_MediaID parsed = ""%string) then Fail (new_error "wecom media/upload returned empty media id")
       else Ok (ar_MediaID parsed), w)
    end
  end.

Definition resolveMediaID (cfg : Config) (k : token_call) (msgType : string) (m : MediaItem) (st : token_cache * W) :
    result string * (token_cache * W) :=
  if negb (blank (mi_MediaID m)) then (Ok (mi_MediaID m), st)
  else match GetToken cfg k st with
  | (Fail e, st) => (Fail e, st)
  | (Ok token, (s, w)) => let '(r, w) := uploadMedia cfg (tk_ctx k) token msgType m w in (r, (s, w))
  end.

(** ** The payload *)

(** [map[string]any] as its members. *)
Definition obj (l : list (string * gvalue)) : gvalue := GObj l.

Definition payload_base (cfg : Config) (msgType : string) (msg : StandardMessage) : list (string * gvalue) :=
  let recipients := recipientFields msg in
  [("agentid", GInt (wc_AgentID cfg)); ("msgtype", GString msgType)]%string ++ recipients ++
  if bool_decide (recipients = []) && negb (bool_decide (sm_SessionID msg = ""%string)) then [("touser", GString (sm_SessionID msg))]%string else [].

Definition media_payload (msgType mediaID : string) (m : MediaItem) : string * gvalue :=
  (msgType, obj (("media_id", GString mediaID) ::
     if bool_decide (msgType = "video"%string) then [("title", GString (mi_Title m)); ("description", GString (mi_Description m))] else []))%string.

(** [k]: the clock around a token's fetch for an upload. *)
Definition buildPayload (cfg : Config) (k : token_call) (msg : StandardMessage) (st : token_cache * W) : result gvalue * (token_cache * W) :=
  let msgType := effectiveMessageType msg in
  let payload m := Ok (obj (payload_base cfg msgType msg ++ [m])) in
  if bool_decide (msgType = "markdown"%string) then (payload ("markdown", obj [("content", GString (sm_Text msg))])%string, st)
  else if bool_decide (msgType = "text"%string) then (payload ("text", obj [("content", GString (sm_Text msg))])%string, st)
  else if bool_decide (msgType ∈ ["image"; "voice"; "video"; "file"]%string) then
    match sm_Media msg with
    | Some (m :: _) =>
      match resolveMediaID cfg k msgType m st with
      | (Fail e, st) => (Fail e, st)
      | (Ok mediaID, st) => (payload (media_payload msgType mediaID m), st)
      end
    | _ => (Fail (new_error ("wecom " ++ msgType ++ " message requires media")), st)
    end
  else if bool_decide (msgType = "news"%string) then
    (payload ("news", obj [("articles", GSlice (map article_value (default [] (sm_Articles msg))))])%string, st)
  else (Fail (new_error ("unsupported wecom message type: " ++ msgType)), st).

(** ** Send: [k1] is the clock for the token, [k2] for an upload's. *)
Definition Send (cfg : Config) (k1 k2 : token_call) (msg : StandardMessage) (st : token_cache * W) : option error * (token_cache * W) :=
  match GetToken cfg k1 st with
  | (Fail e, st) => (Some e, st)
  | (Ok token, st) =>
    match buildPayload cfg k2 msg st with
    | (Fail e, st) => (Some e, st)
    | (Ok payload, (s, w)) =>
      match doJSON cfg (tk_ctx k1) "POST" "/cgi-bin/message/send" token (JsonBody (print (encode_value payload))) [] w with
      | (Fail e, w) => (Some e, (s, w))
      | (Ok resp, w) =>
        (if negb (bool_decide (ar_InvalidUser resp = ""%string)) then Some (new_error ("wecom invalid user: " ++ ar_InvalidUser resp))
         else None, (s, w))
      end
    end
  end.

(** [Adapter.SendMessage]: a text for a session. *)
Definition text_to (sessionID text : string) : StandardMessage :=
  set_sm_SessionID sessionID (set_sm_ChannelName "wecom" (set_sm_MessageType MessageTypeText (set_sm_Format FormatPlainText
    (set_sm_Text text zero_standard)))).
Definition SendMessage (cfg : Config) (k1 k2 : token_call) (sessionID text : string) (st : token_cache * W) : option error * (token_cache * W) :=
  Send cfg k1 k2 (text_to sessionID text) st.
End client.

(** [NewAdapter]: the normalised configuration and its codec. *)
Definition NewAdapter (temp : string) (cfg : Config) : result (Config * Codec) :=
  let cfg := normalize_config temp cfg in
  match Validate cfg with Some e => Fail e | None => codec ← NewCodec cfg; Ok (cfg, codec) end.

(** ** The token's life *)
Section token_life.
Context {W : Type}.
Variable do : ctx → OutRequest → W → result string * W.
Variable cfg : Config.

Definition wecom_calls : list token_call → token_cache * W → token_cache * W :=
  token_calls (fetchToken do cfg) grantToken token_lifetime.

Lemma lifetime_exact r : 60 ≤ ar_ExpiresIn r ≤ 9000000000 → token_lifetime r = (ar_ExpiresIn r - 60) * second.
Proof.
  intros Hr. unfold token_lifetime, second. assert (wrap64 (ar_ExpiresIn r - 60) = ar_ExpiresIn r - 60) as ->.
  { apply wrap64_id. unfold in_int64, int64_min, int64_max. lia. }
  apply wrap64_id. unfold in_int64, int64_min, int64_max. lia.
Qed.

(** C17: When the calls are made one after the other, in any sequence, a token that a call returns was answered to a
    request of this call, or to one of an earlier call whose lifetime, less a
    minute, is not over when this call begins; the lifetime is exact up to nine
    billion seconds. *)
Theorem token_fresh ks k w token :
  (GetToken do cfg k (wecom_calls ks (no_token, w))).1 = Ok token →
  (∃ r, (fetchToken do cfg (tk_ctx k) (wecom_calls ks (no_token, w)).2).1 = Ok r ∧ ar_AccessToken r = token) ∨
  ∃ before k' after r, ks = before ++ k' :: after ∧
    (fetchToken do cfg (tk_ctx k') (wecom_calls before (no_token, w)).2).1 = Ok r ∧ ar_AccessToken r = token ∧
    tk_before k < tk_after k' + token_lifetime r ∧
    (60 ≤ ar_ExpiresIn r ≤ 9000000000 → tk_before k < tk_after k' + (ar_ExpiresIn r - 60) * second).
Proof.
  assert (∀ r t, grantToken r = Ok t → ar_AccessToken r = t) as Hg.
  { intros r t. unfold grantToken. case_bool_decide; [done|]. by intros [= <-]. }
  intros [(until & _ & r & Hf & Ht & _)|(until & (b & k' & a & -> & _ & r & Hf & Ht & ->) & Hlt)]%token_served.
  - left. exists r. auto.
  - right. exists b, k', a, r. split_and!; auto. intros Hr. by rewrite <-lifetime_exact.
Qed.
End token_life.

(** ** What a payload has to say *)

(** The metadata names a recipient: a value that is neither null nor empty. *)
Definition names (msg : StandardMessage) (key : string) (v : gvalue) : Prop :=
  get_key key (default [] (sm_Metadata msg)) = Some v ∧ v ≠ GNil ∧ v ≠ GString "".

Definition names_nobody (msg : StandardMessage) : Prop :=
  ∀ key v, key ∈ ["wecom_touser"; "wecom_toparty"; "wecom_totag"; "wecom_chatid"]%string → ¬ names msg key v.

(** The kind a message is sent as: the one it says, an audio as a voice, a text
    in markdown as markdown; when it says none that is known, markdown by its
    format, else the kind of its first media, else news when it has articles,
    else text. *)
Definition media_kinds : list (string * string) :=
  [("image", "image"); ("audio", "voice"); ("video", "video"); ("file", "file")]%string.

Inductive kind_of (msg : StandardMessage) : string → Prop :=
| kind_markdown : sm_MessageType msg = "markdown"%string → kind_of msg "markdown"
| kind_text_markdown : sm_MessageType msg = "text"%string → sm_Format msg = "markdown"%string → kind_of msg "markdown"
| kind_text : sm_MessageType msg = "text"%string → sm_Format msg ≠ "markdown"%string → kind_of msg "text"
| kind_named k : (sm_MessageType msg, k) ∈ media_kinds → kind_of msg k
| kind_news : sm_MessageType msg = "news"%string → kind_of msg "news"
| kind_unsaid k :
    sm_MessageType msg ∉ ["markdown"; "text"; "image"; "audio"; "video"; "file"; "news"]%string → unsaid msg k → kind_of msg k
with unsaid (msg : StandardMessage) : string → Prop :=
| unsaid_markdown : sm_Format msg = "markdown"%string → unsaid msg "markdown"
| unsaid_media m k :
    sm_Format msg ≠ "markdown"%string → head (default [] (sm_Media msg)) = Some m → (mi_Kind m, k) ∈ media_kinds → unsaid msg k
| unsaid_other :
    sm_Format msg ≠ "markdown"%string →
    (∀ m, head (default [] (sm_Media msg)) = Some m → mi_Kind m ∉ ["image"; "audio"; "video"; "file"]%string) →
    unsaid msg (if decide (default [] (sm_Articles msg) = []) then "text" else "news").

Section payloads.
Context {W : Type}.
Variable do : ctx → OutRequest → W → result string * W.
Variable read_file : string → W → result (list Z).
Variable cfg : Config.

(** The identifier of a media: its own, or else what the API answered when its
    content was uploaded as that kind, with the client's token. *)
Definition media_known (k : token_call) (st : token_cache * W) (kind : string) (m : MediaItem) (id : string) : Prop :=
  if decide (TrimSpace (mi_MediaID m) = ""%string) then
    ∃ token st' content name answer r,
      GetToken do cfg k st = (Ok token, st') ∧ materializeMedia read_file m st'.2 = Ok (content, name) ∧
      (do (tk_ctx k) (newRequest cfg "POST" "/cgi-bin/media/upload" token (FormFile "media" name content) [("type", kind)]%string) st'.2).1 = Ok answer ∧
      decode_api answer = Ok r ∧ ar_ErrCode r = 0 ∧ ar_MediaID r = id ∧ id ≠ ""%string
  else id = mi_MediaID m.

(** What is sent under the kind. *)
Inductive content_of (k : token_call) (st : token_cache * W) (msg : StandardMessage) : string → gvalue → Prop :=
| content_text kind : kind ∈ ["markdown"; "text"]%string → content_of k st msg kind (GObj [("content", GString (sm_Text msg))]%string)
| content_media kind m id :
    kind ∈ ["image"; "voice"; "file"]%string → head (default [] (sm_Media msg)) = Some m → media_known k st kind m id →
    content_of k st msg kind (GObj [("media_id", GString id)]%string)
| content_video m id :
    head (default [] (sm_Media msg)) = Some m → media_known k st "video" m id →
    content_of k st msg "video" (GObj [("media_id", GString id); ("title", GString (mi_Title m)); ("description", GString (mi_Description m))]%string)
| content_news :
    content_of k st msg "news" (GObj [("articles", GSlice (map (λ a,
      GObj [("title", GString (ar_Title a)); ("description", GString (ar_Description a)); ("url", GString (GatewayTypes.ar_URL a));
            ("picurl", GString (ar_PicURL a))]) (default [] (sm_Articles msg))))]%string).

(** The whole payload, key by key. *)
Record says (k : token_call) (st : token_cache * W) (msg : StandardMessage) (kind : string) (ms : list (string * gvalue)) : Prop := Says {
  says_keys : NoDup ms.*1;
  says_agent : get_key "agentid" ms = Some (GInt (wc_AgentID cfg));
  says_kind : get_key "msgtype" ms = Some (GString kind);
  says_content : ∃ v, get_key kind ms = Some v ∧ content_of k st msg kind v;
  says_user v : get_key "touser" ms = Some v ↔
    names msg "wecom_touser" v ∨ (names_nobody msg ∧ sm_SessionID msg ≠ ""%string ∧ v = GString (sm_SessionID msg));
  says_party v : get_key "toparty" ms = Some v ↔ names msg "wecom_toparty" v;
  says_tag v : get_key "totag" ms = Some v ↔ names msg "wecom_totag" v;
  says_chat v : get_key "chatid" ms = Some v ↔ names msg "wecom_chatid" v;
  says_no_more x : is_Some (get_key x ms) → x ∈ ["agentid"; "msgtype"; "touser"; "toparty"; "totag"; "chatid"; kind]%string
}.

(** *** The kind *)
Definition sent_types : list string := ["markdown"; "text"; "image"; "voice"; "video"; "file"; "news"]%string.

Lemma effective_type msg : effectiveMessageType msg ∈ sent_types.
Proof. unfold effectiveMessageType, sent_types. repeat case_match; set_solver. Qed.

Lemma elem_of_apart (l l' : list string) x : Forall (λ y, y ∉ l') l → x ∈ l → x ∉ l'.
Proof. intros Hl. exact (proj1 (Forall_forall _ _) Hl x). Qed.

Ltac listed := match goal with H : ?a = _ |- (?a, _) ∈ _ => rewrite H end; apply (bool_decide_unpack _); vm_compute; exact I.

Ltac at_test :=
  match goal with |- _ _ (if bool_decide ?P then _ else _) => destruct (bool_decide_reflect P) end.

Lemma other_kind msg :
  sm_Format msg ≠ "markdown"%string →
  (∀ m, head (default [] (sm_Media msg)) = Some m → mi_Kind m ∉ ["image"; "audio"; "video"; "file"]%string) →
  unsaid msg (match sm_Articles msg with Some (_ :: _) => "news" | _ => "text" end)%string.
Proof.
  intros Hf Hm. pose proof (unsaid_other msg Hf Hm) as Hu. by destruct (sm_Articles msg) as [[]|].
Qed.

Lemma effective_kind msg : kind_of msg (effectiveMessageType msg).
Proof.
  unfold effectiveMessageType. cbv zeta.
  repeat match goal with |- kind_of _ (if bool_decide (sm_MessageType _ = _) then _ else _) => at_test end.
  - by apply kind_markdown.
  - at_test; [by apply kind_text_markdown|by apply kind_text].
  - apply kind_named. listed.
  - apply kind_named. listed.
  - apply kind_named. listed.
  - apply kind_named. listed.
  - by apply kind_news.
  - apply kind_unsaid; [set_solver|]. at_test; [by apply unsaid_markdown|].
    destruct (sm_Media msg) as [[|m l]|] eqn:Hm; [by apply other_kind; rewrite ?Hm| |by apply other_kind; rewrite ?Hm].
    repeat match goal with |- unsaid _ (if bool_decide (mi_Kind _ = _) then _ else _) => at_test end.
    1-4: apply (unsaid_media _ m); [done|by rewrite Hm|listed].
    apply other_kind; [done|]. rewrite Hm. intros m' [= <-]. set_solver.
Qed.

(** *** The recipients *)
Definition opt_member (k : string) (o : option gvalue) : list (string * gvalue) := match o with Some v => [(k, v)] | None => [] end.

Definition pick (msg : StandardMessage) (key : string) : option gvalue := present (get_key key (default [] (sm_Metadata msg))).

Lemma pick_names msg key v : pick msg key = Some v ↔ names msg key v.
Proof.
  unfold pick, names. destruct (get_key _ _) as [x|]; [|split; [done|by intros []]]. cbn.
  destruct x as [| | | |[]| |]; cbn; split; naive_solver.
Qed.

Lemma recipients_eq msg :
  recipientFields msg = opt_member "touser" (pick msg "wecom_touser") ++ opt_member "toparty" (pick msg "wecom_toparty") ++
    opt_member "totag" (pick msg "wecom_totag") ++ opt_member "chatid" (pick msg "wecom_chatid").
Proof. unfold recipientFields, recipient_keys, pick. cbn [omap list_omap fst snd]. by repeat (destruct (present _)). Qed.

Lemma nobody_picked msg : names_nobody msg ↔ recipientFields msg = [].
Proof.
  rewrite recipients_eq. split.
  - intros Hn. assert (∀ key, key ∈ ["wecom_touser"; "wecom_toparty"; "wecom_totag"; "wecom_chatid"]%string → pick msg key = None) as Hp.
    { intros key Hk. destruct (pick msg key) as [v|] eqn:Hv; [|done]. apply pick_names in Hv. by destruct (Hn key v Hk). }
    by rewrite !Hp by set_solver.
  - intros (H1 & (H2 & (H3 & H4)%app_nil)%app_nil)%app_nil key v Hk Hv%pick_names.
    repeat (apply elem_of_cons in Hk as [->|Hk]; [by rewrite Hv in *|]). by apply not_elem_of_nil in Hk.
Qed.

(** *** The members *)
Definition fixed_keys : list string := ["agentid"; "msgtype"; "touser"; "toparty"; "totag"; "chatid"]%string.

Lemma get_key_one k k' v : get_key k [(k', v)] = if decide (k = k') then Some v else None.
Proof. cbn. by case_bool_decide; case_decide. Qed.

Lemma get_key_opt k k' o : get_key k (opt_member k' o) = if decide (k = k') then o else None.
Proof. destruct o; cbn; [case_bool_decide|]; by case_decide. Qed.

Lemma option_or_none {A} (o : option A) : match o with Some v => Some v | None => None end = o.
Proof. by destruct o. Qed.

Lemma recipients_NoDup msg : NoDup (recipientFields msg).*1.
Proof.
  rewrite recipients_eq. destruct (pick msg "wecom_touser"), (pick msg "wecom_toparty"), (pick msg "wecom_totag"), (pick msg "wecom_chatid");
    apply (bool_decide_unpack _); vm_compute; exact I.
Qed.

Lemma recipient_keys_of msg x : x ∈ (recipientFields msg).*1 → x ∈ ["touser"; "toparty"; "totag"; "chatid"]%string.
Proof.
  rewrite recipients_eq. destruct (pick msg "wecom_touser"), (pick msg "wecom_toparty"), (pick msg "wecom_totag"), (pick msg "wecom_chatid");
    cbn; set_solver.
Qed.

Lemma payload_NoDup msg kind content : kind ∉ fixed_keys → NoDup (payload_base cfg kind msg ++ [(kind, content)]).*1.
Proof.
  intros Hk. pose proof (recipient_keys_of msg) as Hr. unfold payload_base. cbn [app]. rewrite !fmap_cons, fmap_app.
  assert (∀ x, x ∈ (recipientFields msg ++ if bool_decide (recipientFields msg = []) && negb (bool_decide (sm_SessionID msg = ""%string))
    then [("touser"%string, GString (sm_SessionID msg))] else []).*1 → x ∈ ["touser"; "toparty"; "totag"; "chatid"]%string) as Hin.
  { intros x. rewrite fmap_app, elem_of_app. intros [H|H]; [auto|]. destruct (_ && _); [|by apply not_elem_of_nil in H].
    apply list_elem_of_singleton in H as ->. by apply (bool_decide_unpack _). }
  assert (∀ k, k ∉ ["touser"; "toparty"; "totag"; "chatid"]%string → k ≠ kind → k ∉ (recipientFields msg ++ if bool_decide (recipientFields msg = [])
    && negb (bool_decide (sm_SessionID msg = ""%string)) then [("touser"%string, GString (sm_SessionID msg))] else []).*1 ++ [(kind, content)].*1) as Hout.
  { intros k H1 H2 [H3|H3]%elem_of_app; [by apply H1, Hin|]. by apply list_elem_of_singleton in H3. }
  apply NoDup_cons. split.
  { rewrite not_elem_of_cons. split; [done|]. apply Hout; [by apply (bool_decide_unpack _)|]. intros Heq. subst kind. by apply Hk, (bool_decide_unpack _). }
  apply NoDup_cons. split; [apply Hout; [by apply (bool_decide_unpack _)|]; cbn [fst]; intros Heq; subst kind; by apply Hk, (bool_decide_unpack _)|].
  apply NoDup_app. split_and!; [| |apply NoDup_singleton].
  - rewrite fmap_app. apply NoDup_app. split_and!; [apply recipients_NoDup| |destruct (_ && _); [apply NoDup_singleton|constructor]].
    intros x Hx. case_bool_decide as He; [rewrite He in Hx; by apply not_elem_of_nil in Hx|apply not_elem_of_nil].
  - intros x Hx%Hin H%list_elem_of_singleton. apply Hk. cbn in H. subst x. revert Hx. unfold fixed_keys. rewrite !elem_of_cons. tauto.
Qed.

Lemma payload_says k st msg kind content :
  kind ∉ fixed_keys → content_of k st msg kind content → says k st msg kind (payload_base cfg kind msg ++ [(kind, content)]).
Proof.
  intros Hk Hc. set (session := if bool_decide (recipientFields msg = []) && negb (bool_decide (sm_SessionID msg = ""%string))
    then Some (GString (sm_SessionID msg)) else None).
  assert (payload_base cfg kind msg ++ [(kind, content)] = [("agentid", GInt (wc_AgentID cfg)); ("msgtype", GString kind)]%string ++
    recipientFields msg ++ opt_member "touser" session ++ [(kind, content)]) as Hms.
  { unfold payload_base, session. rewrite <-!app_assoc. by destruct (_ && _). }
  rewrite Hms. set (ms := [_; _] ++ recipientFields msg ++ _) in *.
  assert (∀ x, get_key x ms = if decide (x = "agentid"%string) then Some (GInt (wc_AgentID cfg)) else if decide (x = "msgtype"%string) then Some (GString kind)
    else match get_key x (recipientFields msg) with Some v => Some v | None =>
      match (if decide (x = "touser"%string) then session else None) with Some v => Some v | None => if decide (x = kind) then Some content else None end end) as Hget.
  { intros x. unfold ms. cbn [app get_key]. case_bool_decide; [by case_decide|]. case_decide; [done|].
    case_bool_decide; [by case_decide|]. case_decide; [done|]. rewrite !get_key_app, get_key_opt, get_key_one. done. }
  assert (∀ x, get_key x (recipientFields msg) = if decide (x = "touser"%string) then pick msg "wecom_touser" else if decide (x = "toparty"%string)
    then pick msg "wecom_toparty" else if decide (x = "totag"%string) then pick msg "wecom_totag" else if decide (x = "chatid"%string)
    then pick msg "wecom_chatid" else None) as Hrec.
  { intros x. rewrite recipients_eq, !get_key_app, !get_key_opt. repeat case_decide; subst; try done; by rewrite ?option_or_none. }
  assert (∀ x, x ∈ fixed_keys → x ≠ kind) as Hne by (intros x Hx ->; done).
  assert (∀ x key v, x ∈ fixed_keys → x ≠ "touser"%string → get_key x (recipientFields msg) = pick msg key → x ≠ "agentid"%string → x ≠ "msgtype"%string →
    get_key x ms = Some v ↔ names msg key v) as Hplain.
  { intros x key v Hx Ht Hp Ha Hm. rewrite Hget, Hp, !decide_False by auto. rewrite <-pick_names. by destruct (pick msg key). }
  constructor.
  - rewrite <-Hms. by apply payload_NoDup.
  - by rewrite Hget.
  - by rewrite Hget.
  - exists content. split; [|done]. assert (get_key kind (recipientFields msg) = None) as Hnone.
    { rewrite Hrec. by repeat (rewrite decide_False; [|intros ->; by apply Hk, (bool_decide_unpack _)]). }
    rewrite Hget, Hnone.
    repeat (rewrite decide_False; [|intros ->; by apply Hk, (bool_decide_unpack _)]). by rewrite decide_True.
  - intros v. rewrite <-pick_names, nobody_picked. pose proof (Hget "touser"%string) as Hu. rewrite (Hrec "touser"%string) in Hu.
    change (get_key "touser"%string ms = match pick msg "wecom_touser" with Some v => Some v | None =>
      match session with Some v => Some v | None => if decide ("touser"%string = kind) then Some content else None end end) in Hu.
    rewrite decide_False in Hu by (apply Hne, (bool_decide_unpack _); done). rewrite Hu. clear Hu. unfold session.
    destruct (pick msg "wecom_touser") as [u|] eqn:Hu.
    + split; [naive_solver|]. intros [H|(H & _)]; [done|]. rewrite recipients_eq, Hu in H. done.
    + do 2 case_bool_decide; cbn; naive_solver.
  - intros v. apply Hplain; [by apply (bool_decide_unpack _)|done|by rewrite Hrec|done|done].
  - intros v. apply Hplain; [by apply (bool_decide_unpack _)|done|by rewrite Hrec|done|done].
  - intros v. apply Hplain; [by apply (bool_decide_unpack _)|done|by rewrite Hrec|done|done].
  - intros x [v Hx]. change (x ∈ fixed_keys ++ [kind]). destruct (decide (x ∈ fixed_keys ++ [kind])) as [|Hn]; [done|].
    rewrite Hget, Hrec in Hx. apply not_elem_of_app in Hn as [Hn Hnk]. rewrite list_elem_of_singleton in Hnk.
    repeat (rewrite decide_False in Hx; [|intros ->; by apply Hn, (bool_decide_unpack _)]).
    done.
Qed.

(** A media's identifier is resolved as it has to be. *)
Lemma resolve_known k st kind m id :
  (resolveMediaID do read_file cfg k kind m st).1 = Ok id ↔ media_known k st kind m id.
Proof.
  unfold resolveMediaID, media_known, blank. case_decide as Hb.
  2:{ rewrite bool_decide_eq_false_2 by done. cbn. split; [by intros [= <-]|by intros ->]. }
  rewrite bool_decide_eq_true_2 by done. cbn [negb]. split.
  - destruct (GetToken do cfg k st) as [[token|e] [c w]]; [|done].
    unfold uploadMedia. destruct (materializeMedia read_file m w) as [[content name]|e] eqn:Hm; [|done].
    set (r := newRequest _ _ _ _ _ _). destruct (do (tk_ctx k) r w) as [[answer|e] w'] eqn:Hd; [|done]. cbn [fst].
    destruct (decode_api answer) as [a|e] eqn:Ha; [|done]. cbn [mbind result_bind].
    destruct (ar_ErrCode a =? 0) eqn:He; [|done]. cbn [negb]. case_bool_decide as Hid; [done|]. intros [= <-].
    exists token, (c, w), content, name, answer, a. cbn [snd]. unfold r in Hd. rewrite Hd. apply Z.eqb_eq in He. by split_and!.
  - intros (token & [c w] & content & name & answer & r & -> & Hm & Hd & Ha & He & <- & Hne). cbn [snd] in *. unfold uploadMedia. rewrite Hm.
    destruct (do _ _ _) as [x w']. cbn [fst] in Hd. subst x. cbn [fst]. rewrite Ha. cbn [mbind result_bind]. rewrite He. cbn.
    by rewrite bool_decide_eq_false_2.
Qed.
End payloads.

(** C40: A payload that is built says, key by key, whom it is for and what it
    is: the agent, the kind of the message, under that kind the content (the
    text, the articles, or the first media by its own identifier or the one
    its upload was answered with); the recipients the metadata names under
    their keys, the session as the user when the metadata names nobody; and
    nothing else.  None is built only when the kind is one of media and there
    is no media, or no identifier for it. *)
Theorem payload_typed {W} (do : ctx → OutRequest → W → result string * W) read_file cfg k msg st :
  ∃ kind, kind_of msg kind ∧
    match (buildPayload do read_file cfg k msg st).1 with
    | Ok payload => ∃ ms, payload = GObj ms ∧ says do read_file cfg k st msg kind ms
    | Fail _ => kind ∈ ["image"; "voice"; "video"; "file"]%string ∧
                ∀ m id, head (default [] (sm_Media msg)) = Some m → ¬ media_known do read_file cfg k st kind m id
    end.
Proof.
  pose proof (effective_type msg) as Hs. pose proof (effective_kind msg) as Hk. unfold buildPayload.
  set (kind := effectiveMessageType msg) in *. clearbody kind. exists kind. split; [done|].
  assert (kind ∉ fixed_keys) as Hnew by (apply (elem_of_apart sent_types); [by apply (bool_decide_unpack _)|done]).
  assert (∀ content, content_of do read_file cfg k st msg kind content →
    ∃ ms, obj (payload_base cfg kind msg ++ [(kind, content)]) = GObj ms ∧ says do read_file cfg k st msg kind ms) as Hgo.
  { intros content Hc. eexists. split; [done|]. by apply payload_says. }
  case_bool_decide as H1; [subst kind; by apply Hgo, content_text, (bool_decide_unpack _)|].
  case_bool_decide as H2; [subst kind; by apply Hgo, content_text, (bool_decide_unpack _)|].
  case_bool_decide as H3.
  - destruct (sm_Media msg) as [[|m l]|] eqn:Hm; [split; [done|by intros]| |split; [done|by intros]].
    pose proof (resolve_known do read_file cfg k st kind m) as Hr.
    destruct (resolveMediaID _ _ _ _ _ _ _) as [[mediaID|e] st']; cbn [fst] in *.
    2:{ split; [done|]. intros m' id [= <-] Hid. by apply Hr in Hid. }
    apply Hgo. case_bool_decide as Hv.
    + rewrite Hv in *. apply content_video; [by rewrite Hm|by apply Hr].
    + apply (content_media _ _ _ _ _ _ _ m); [|by rewrite Hm|by apply Hr].
      revert H3. rewrite !elem_of_cons. clear -Hv. naive_solver.
  - case_bool_decide as H4; [subst kind; apply Hgo, content_news|]. exfalso. revert Hs H1 H2 H3 H4. unfold sent_types. rewrite !elem_of_cons. naive_solver.
Qed.

(** Responses given one after the other. *)
Definition demo_http (c : ctx) (r : OutRequest) (w : list string) : result string * list string :=
  match w with x :: w => (Ok x, w) | [] => (Fail (new_error "no response"), []) end.
Definition token_answer : string := jtext "{'errcode':0,'access_token':'t1','expires_in':7200}".

Lemma token_fresh_witness :
  let k1 := TokenCall background 0 5 in
  let k2 := TokenCall background (100 * second) (101 * second) in
  (∃ r, (fetchToken demo_http demo_config background (wecom_calls demo_http demo_config [k1] (no_token, [token_answer])).2).1 = Ok r ∧
     ar_AccessToken r = "t1"%string) ∨
  ∃ before k' after r, [k1] = before ++ k' :: after ∧
    (fetchToken demo_http demo_config (tk_ctx k') (wecom_calls demo_http demo_config before (no_token, [token_answer])).2).1 = Ok r ∧
    ar_AccessToken r = "t1"%string ∧ tk_before k2 < tk_after k' + token_lifetime r ∧
    (60 ≤ ar_ExpiresIn r ≤ 9000000000 → tk_before k2 < tk_after k' + (ar_ExpiresIn r - 60) * second).
Proof.
  intros k1 k2. apply (token_fresh demo_http demo_config [k1] k2 [token_answer] "t1"). vm_compute. reflexivity.
Defined.

Definition demo_text : StandardMessage :=
  set_sm_Text "hi" (set_sm_SessionID "u1" (set_sm_MessageType MessageTypeText zero_standard)).
Definition demo_payload : gvalue :=
  obj [("agentid", GInt 7); ("msgtype", GString "text"); ("touser", GString "u1"); ("text", obj [("content", GString "hi")])]%string.

Lemma payload_typed_witness :
  ∃ kind ms, demo_payload = GObj ms ∧ kind_of demo_text kind ∧
    says demo_http (λ _ _, Fail (new_error "no file")) demo_config (TokenCall background 0 0) (no_token, []) demo_text kind ms.
Proof.
  destruct (payload_typed demo_http (λ _ _, Fail (new_error "no file")) demo_config (TokenCall background 0 0) demo_text (no_token, [])) as (kind & Hk & Hp).
  assert ((buildPayload demo_http (λ _ _, Fail (new_error "no file")) demo_config (TokenCall background 0 0) demo_text (no_token, [])).1 = Ok demo_payload) as Hb.
  { vm_compute. reflexivity. }
  rewrite Hb in Hp. destruct Hp as (ms & Heq & Hs). exists kind, ms. split; [exact Heq|]. split; [exact Hk|exact Hs].
Defined.

Example wecom_sends :
  (Send demo_http (λ _ _, Fail (new_error "no file")) demo_config (TokenCall background 0 0) (TokenCall background 1 1) demo_text
    (no_token, [token_answer; jtext "{'errcode':0,'invaliduser':'u1'}"])).1 = Some (new_error "wecom invalid user: u1").
Proof. vm_compute. reflexivity. Qed.

Example wecom_url :
  newRequest demo_config "GET" "/cgi-bin/gettoken" "" NoBody [("corpid", "corp"); ("corpsecret", "secret")]%string =
  MkOut "GET" "/cgi-bin/gettoken?corpid=corp&corpsecret=secret" NoBody.
Proof. vm_compute. reflexivity. Qed.
