(* ===== verification/WecomRobot.v ===== *)
(** * The WeCom robot: internal/gateway/wecomrobot/adapter.go

    A robot posts messages to a webhook, its own or the one a message's metadata
    names; a file is uploaded first, to an address made from the webhook's.  The
    HTTP exchange and the reading of a file are parameters. *)
From Stdlib Require Import String Ascii.
From S2P Require Import Prelude GoStrings Strconv GoValue Sprint Sha256 Cipher Url Md5 Callback GatewayTypes Wecom WecomClient.
From stdpp Require Import list.

Local Open Scope Z_scope.

Definition robotName : string := "wecom_robot".

Record RobotAdapterConfig := MkRobotAdapter { wr_WebhookURL : string; wr_HTTPTimeout : Z }.

(** [NewAdapter]: ten seconds when no timeout is given. *)
Definition NewRobotAdapter (cfg : RobotAdapterConfig) : RobotAdapterConfig :=
  MkRobotAdapter (wr_WebhookURL cfg) (if wr_HTTPTimeout cfg <=? 0 then 10 * 1000000000 else wr_HTTPTimeout cfg).

(** ** What is sent, and where *)
Definition effectiveType (msg : StandardMessage) : string :=
  let kind := sm_MessageType msg in
  if bool_decide (kind = "markdown"%string) then "markdown"%string
  else if bool_decide (kind = "image"%string) then "image"%string
  else if bool_decide (kind = "file"%string) then "file"%string
  else if bool_decide (kind = "news"%string) then "news"%string
  else if bool_decide (kind = "text"%string) then "text"%string
  else if bool_decide (sm_Format msg = FormatMarkdown) then "markdown"%string
  else
    let rest := match default [] (sm_Articles msg) with _ :: _ => "news"%string | [] => "text"%string end in
    match default [] (sm_Media msg) with
    | m :: _ =>
      if bool_decide (mi_Kind m = "image"%string) then "image"%string
      else if bool_decide (mi_Kind m = "file"%string) then "file"%string
      else rest
    | [] => rest
    end.

Definition resolveWebhookURL (cfg : RobotAdapterConfig) (msg : StandardMessage) : string :=
  match get_key "wecom_robot_webhook_url" (default [] (sm_Metadata msg)) with
  | Some value => let raw := TrimSpace (Sprint value) in
    if bool_decide (raw = EmptyString) then TrimSpace (wr_WebhookURL cfg) else raw
  | None => TrimSpace (wr_WebhookURL cfg)
  end.

Definition payload_of (kind : string) (content : gvalue) : gvalue := GObj [("msgtype"%string, GString kind); (kind, content)].

Definition text_content (msg : StandardMessage) : gvalue :=
  let mention k := match get_key k (default [] (sm_Metadata msg)) with Some v => [(k, v)] | None => [] end in
  GObj ([("content"%string, GString (sm_Text msg))] ++ mention "mentioned_list"%string ++ mention "mentioned_mobile_list"%string).

(** ** Answers *)
Record uploadAnswer := UploadAnswer { ua_ErrCode : Z; ua_ErrMsg : string; ua_MediaID : string }.
Definition upload_fields : list (field uploadAnswer) :=
  [ int64_field "errcode" (λ v a, UploadAnswer v (ua_ErrMsg a) (ua_MediaID a));
    string_field "errmsg" (λ v a, UploadAnswer (ua_ErrCode a) v (ua_MediaID a));
    string_field "media_id" (λ v a, UploadAnswer (ua_ErrCode a) (ua_ErrMsg a) v) ].

(** [json.NewDecoder(body).Decode] into a struct. *)
Definition decode_body {A} (fs : list (field A)) (zero : A) (body : string) : result A :=
  match decode_one body with
  | None => Fail (new_error "invalid json")
  | Some (t, _) => struct_value false fs t zero
  end.

Definition refused (what : string) (a : uploadAnswer) : error :=
  new_error (what ++ " failed: " ++ ua_ErrMsg a ++ " (" ++ FormatInt (ua_ErrCode a) ++ ")").

(** The answer to a message has no media. *)
Definition send_fields : list (field uploadAnswer) := take 2 upload_fields.

Section robot.
Context {W : Type}.
Variable ip_host : string → option string.
Variable do : ctx → OutRequest → W → result string * W.
Variable read_file : string → W → result (list Z).

(** ** Media *)
Definition imageBase64 (m : MediaItem) (w : W) : result string :=
  if negb (blank (mi_DataBase64 m)) then Ok (mi_DataBase64 m)
  else if negb (blank (mi_Path m)) then raw ← read_file (mi_Path m) w; Ok (base64_encode raw)
  else Fail (new_error "wecom robot image requires path or data_base64").

Definition robotMediaBytes (m : MediaItem) (w : W) : result (list Z * string) :=
  let name fallback := if blank (mi_FileName m) then fallback else mi_FileName m in
  if negb (blank (mi_Path m)) then raw ← read_file (mi_Path m) w; Ok (raw, name (path_base (mi_Path m)))
  else if negb (blank (mi_DataBase64 m)) then
    match base64_decode (mi_DataBase64 m) with
    | None => Fail err_base64
    | Some raw => Ok (raw, name "upload.bin"%string)
    end
  else Fail (new_error "wecom robot file requires path or data_base64").

Definition upload_path : string := "/cgi-bin/webhook/upload_media".

Definition webhookUploadURL (webhookURL : string) : result string :=
  parsed ← Parse ip_host webhookURL;
  let key := get_value "key" (ParseQuery (u_RawQuery parsed)) in
  if bool_decide (key = EmptyString) then Fail (new_error "wecom robot webhook url missing key")
  else Ok (url_text (set_query (encode_values [("key"%string, key)]) (set_path upload_path parsed))).

Definition uploadFile (c : ctx) (webhookURL : string) (m : MediaItem) (w : W) : result string * W :=
  match (url ← webhookUploadURL webhookURL; '(content, name) ← robotMediaBytes m w; Ok (url, content, name)) with
  | Fail e => (Fail e, w)
  | Ok (url, content, name) =>
    match do c (MkOut "POST" url (FormFile "media" name content)) w with
    | (Fail e, w) => (Fail e, w)
    | (Ok body, w) =>
      (parsed ← decode_body upload_fields (UploadAnswer 0 "" "") body;
       if negb (ua_ErrCode parsed =? 0) then Fail (refused "wecom robot upload_media" parsed)
       else if bool_decide (ua_MediaID parsed = EmptyString) then Fail (new_error "wecom robot upload_media returned empty media_id")
       else Ok (ua_MediaID parsed), w)
    end
  end.

(** ** Payloads *)
Definition image_content (m : MediaItem) (w : W) : result gvalue :=
  content ← imageBase64 m w;
  match base64_decode content with
  | None => Fail err_base64
  | Some raw => Ok (GObj [("base64", GString content); ("md5", GString (md5_hex raw))]%string)
  end.

Definition robotPayload (c : ctx) (webhookURL : string) (msg : StandardMessage) (w : W) : result gvalue * W :=
  let kind := effectiveType msg in
  if bool_decide (kind = "text"%string) then (Ok (payload_of kind (text_content msg)), w)
  else if bool_decide (kind = "markdown"%string) then (Ok (payload_of kind (GObj [("content"%string, GString (sm_Text msg))])), w)
  else if bool_decide (kind = "image"%string) then
    match default [] (sm_Media msg) with
    | [] => (Fail (new_error "wecom robot image message requires media"), w)
    | m :: _ => (v ← image_content m w; Ok (payload_of kind v), w)
    end
  else if bool_decide (kind = "file"%string) then
    match default [] (sm_Media msg) with
    | [] => (Fail (new_error "wecom robot file message requires media"), w)
    | m :: _ =>
      let '(r, w) := uploadFile c webhookURL m w in
      (id ← r; Ok (payload_of kind (GObj [("media_id"%string, GString id)])), w)
    end
  else if bool_decide (kind = "news"%string) then
    (Ok (payload_of kind (GObj [("articles"%string, GSlice (map article_value (default [] (sm_Articles msg))))])), w)
  else (Fail (new_error "unsupported wecom robot message type"), w).

Definition postJSON (c : ctx) (endpoint : string) (payload : gvalue) (w : W) : option error * W :=
  match do c (MkOut "POST" endpoint (JsonBody (print (encode_value payload)))) w with
  | (Fail e, w) => (Some e, w)
  | (Ok body, w) =>
    (match decode_body send_fields (UploadAnswer 0 "" "") body with
     | Fail e => Some e
     | Ok a => if negb (ua_ErrCode a =? 0) then Some (refused "wecom robot send" a) else None
     end, w)
  end.

Definition SendRobotMessage (cfg : RobotAdapterConfig) (c : ctx) (msg : StandardMessage) (w : W) : option error * W :=
  let webhookURL := resolveWebhookURL cfg msg in
  if bool_decide (webhookURL = EmptyString) then (Some (new_error "wecom robot webhook url is required"), w)
  else
    match robotPayload c webhookURL msg w with
    | (Fail e, w) => (Some e, w)
    | (Ok payload, w) => postJSON c webhookURL payload w
    end.

(** [SendMessage]: a text for a session. *)
Definition robot_text (sessionID text : string) : StandardMessage :=
  set_sm_SessionID sessionID (set_sm_ChannelName robotName (set_sm_MessageType MessageTypeText (set_sm_Format FormatPlainText
    (set_sm_Text text zero_standard)))).
Definition SendRobotText (cfg : RobotAdapterConfig) (c : ctx) (sessionID text : string) (w : W) : option error * W :=
  SendRobotMessage cfg c (robot_text sessionID text) w.
End robot.

(** ** Uploads stay at the webhook's host, with its key *)
Lemma upload_url_exact ip_host webhookURL s :
  webhookUploadURL ip_host webhookURL = Ok s →
  ∃ u u', Parse ip_host webhookURL = Ok u ∧ s = url_text u' ∧
    u_Scheme u' = u_Scheme u ∧ u_User u' = u_User u ∧ u_Host u' = u_Host u ∧ u_Path u' = upload_path ∧
    get_value "key" (ParseQuery (u_RawQuery u)) ≠ EmptyString ∧
    ParseQuery (u_RawQuery u') = [("key"%string, get_value "key" (ParseQuery (u_RawQuery u)))].
Proof.
  unfold webhookUploadURL. destruct (Parse ip_host webhookURL) as [u|] eqn:Hp; [|done]. cbn. case_bool_decide as Hk; [done|].
  intros [= <-]. eexists u, _. split_and!; [done|reflexivity|done..|]. by apply (ParseQuery_encode [("key"%string, _)]).
Qed.

(** An image goes out with the digest of the very bytes its base64 stands for. *)
Lemma image_digest {W} (read_file : string → W → result (list Z)) m w v :
  image_content read_file m w = Ok v →
  ∃ content raw, base64_decode content = Some raw ∧
    v = GObj [("base64", GString content); ("md5", GString (md5_hex raw))]%string.
Proof.
  unfold image_content. destruct (imageBase64 read_file m w) as [content|]; [|done]. cbn.
  destruct (base64_decode content) as [raw|] eqn:Hd; [|done]. intros [= <-]. eauto.
Qed.

(** ** Every request of a send *)

(** The exchange that also writes down its requests. *)
Definition logged {W} (do : ctx → OutRequest → W → result string * W) (c : ctx) (r : OutRequest) (st : W * list OutRequest) :
    result string * (W * list OutRequest) :=
  let '(a, w) := do c r st.1 in (a, (w, st.2 ++ [r])).

(** What a kind of message has as its content. *)
Definition content_of (kind : string) (msg : StandardMessage) (v : gvalue) : Prop :=
  (kind = "text"%string ∧ v = text_content msg) ∨
  (kind = "markdown"%string ∧ v = GObj [("content"%string, GString (sm_Text msg))]) ∨
  (kind = "image"%string ∧ ∃ content raw, base64_decode content = Some raw ∧
     v = GObj [("base64", GString content); ("md5", GString (md5_hex raw))]%string) ∨
  (kind = "file"%string ∧ ∃ id, id ≠ EmptyString ∧ v = GObj [("media_id"%string, GString id)]) ∨
  (kind = "news"%string ∧ v = GObj [("articles"%string, GSlice (map article_value (default [] (sm_Articles msg))))]).

Definition robot_kinds : list string := ["text"; "markdown"; "image"; "file"; "news"]%string.

Lemma effective_robot_kind msg : effectiveType msg ∈ robot_kinds.
Proof. unfold effectiveType, robot_kinds. repeat case_match; set_solver. Qed.

Section requests.
Context {W : Type}.
Variable ip_host : string → option string.
Variable do : ctx → OutRequest → W → result string * W.
Variable read_file : string → W * list OutRequest → result (list Z).

(** An upload: a form with the file, at the address made from the webhook's. *)
Definition is_upload (webhookURL : string) (r : OutRequest) : Prop :=
  or_Method r = "POST"%string ∧ webhookUploadURL ip_host webhookURL = Ok (or_URL r) ∧ ∃ name content, or_Body r = FormFile "media" name content.

Lemma upload_requests c url m w log r w' log' :
  uploadFile ip_host (logged do) read_file c url m (w, log) = (r, (w', log')) →
  (∃ ups, log' = log ++ ups ∧ (length ups ≤ 1)%nat ∧ Forall (is_upload url) ups) ∧
  (∀ id, r = Ok id → id ≠ EmptyString ∧ ∃ up, log' = log ++ [up] ∧ is_upload url up).
Proof.
  unfold uploadFile. destruct (webhookUploadURL ip_host url) as [u|] eqn:Hu; cbn;
    [|intros [= <- <- <-]; split; [exists []; rewrite app_nil_r; auto|done]].
  destruct (robotMediaBytes read_file m (w, log)) as [[content name]|]; cbn;
    [|intros [= <- <- <-]; split; [exists []; rewrite app_nil_r; auto|done]].
  set (up := MkOut _ _ _). assert (is_upload url up) as Hup by (split_and!; eauto).
  unfold logged. cbn. destruct (do c up w) as [[body|e] w1]; intros [= <- <- <-].
  - split; [exists [up]; split_and!; [done|cbn; lia|by constructor]|].
    intros id. destruct (decode_body _ _ _) as [a|]; [|done]. cbn. destruct (negb _); [done|]. case_bool_decide; [done|].
    intros [= <-]. eauto.
  - split; [exists [up]; split_and!; [done|cbn; lia|by constructor]|done].
Qed.

Lemma payload_requests c url msg w log r w' log' :
  robotPayload ip_host (logged do) read_file c url msg (w, log) = (r, (w', log')) →
  (∃ ups, log' = log ++ ups ∧ (length ups ≤ if bool_decide (effectiveType msg = "file"%string) then 1 else 0)%nat ∧ Forall (is_upload url) ups) ∧
  (∀ p, r = Ok p → ∃ v, p = payload_of (effectiveType msg) v ∧ content_of (effectiveType msg) msg v).
Proof.
  unfold robotPayload, content_of. pose proof (effective_robot_kind msg) as Hk. revert Hk. generalize (effectiveType msg). intros kind Hk.
  assert (∀ n : nat, ∃ ups, log = log ++ ups ∧ (length ups ≤ n)%nat ∧ Forall (is_upload url) ups) as Hnone
    by (intros n; exists []; rewrite app_nil_r; split_and!; [done|cbn; lia|done]).
  unfold robot_kinds in Hk. rewrite !elem_of_cons in Hk. destruct Hk as [->|[->|[->|[->|[->|[]%elem_of_nil]]]]]; cbn -[uploadFile].
  - intros [= <- <- <-]. split; [by apply Hnone|]. intros p [= <-]. eauto.
  - intros [= <- <- <-]. split; [by apply Hnone|]. intros p [= <-]. eauto 10.
  - destruct (default [] (sm_Media msg)) as [|m ms]; intros [= <- <- <-]; (split; [by apply Hnone|]); [done|].
    intros p. destruct (image_content _ _ _) as [v|] eqn:Hv; [|done]. cbn. intros [= <-]. eexists. split; [reflexivity|].
    apply image_digest in Hv. auto.
  - destruct (default [] (sm_Media msg)) as [|m ms]; [intros [= <- <- <-]; split; [by apply Hnone|done]|].
    destruct (uploadFile _ _ _ _ _ _ _) as [r1 [w1 log1]] eqn:Hup. intros [= <- <- <-]. apply upload_requests in Hup as [Hlog Hid].
    split; [exact Hlog|]. intros p. destruct r1 as [id|]; [|done]. cbn. intros [= <-]. eexists. split; [reflexivity|].
    destruct (Hid id eq_refl) as [Hne _]. do 3 right. left. eauto.
  - intros [= <- <- <-]. split; [by apply Hnone|]. intros p [= <-]. eexists. split; [reflexivity|]. by repeat right.
Qed.

(** Whatever the robot's HTTP exchange does, a send makes no request without an
    address, uploads at most once and only for a file, to the address made from
    the resolved webhook's, and posts at most once, last, to the resolved
    webhook a message of one of the five kinds with the content of that kind:
    an image with the digest of the bytes its base64 stands for, a file with
    a media identifier that is not empty.  Success means that the message was
    posted. *)
Theorem robot_requests cfg c msg w err w' log :
  SendRobotMessage ip_host (logged do) read_file cfg c msg (w, []) = (err, (w', log)) →
  let url := resolveWebhookURL cfg msg in
  let kind := effectiveType msg in
  ∃ ups, Forall (is_upload url) ups ∧ (length ups ≤ if bool_decide (kind = "file"%string) then 1 else 0)%nat ∧
    (url = EmptyString → log = [] ∧ err ≠ None) ∧
    ((log = ups ∧ err ≠ None) ∨
     ∃ v, content_of kind msg v ∧ log = ups ++ [MkOut "POST" url (JsonBody (print (encode_value (payload_of kind v))))]).
Proof.
  unfold SendRobotMessage. intros H. cbn zeta. revert H. case_bool_decide as Hu.
  { intros [= <- <- <-]. exists []. split_and!; [done|cbn; lia|done|auto]. }
  destruct (robotPayload _ _ _ _ _ _ _) as [[p|e] [w1 log1]] eqn:Hp; apply payload_requests in Hp as [(ups & -> & Hlen & Hups) Hok].
  - destruct (Hok p eq_refl) as (v & -> & Hv). unfold postJSON, logged. cbn -[payload_of]. destruct (do c _ w1) as [[body|e] w2];
      intros [= <- <- <-]; exists ups; (split_and!; [done|done|done|right; eauto]).
  - intros [= <- <- <-]. exists ups. split_and!; [done|done|done|left; done].
Qed.
End requests.

Definition robot_answers (c : ctx) (r : OutRequest) (w : list string) : result string * list string :=
  match w with x :: w => (Ok x, w) | [] => (Fail (new_error "no response"), []) end.

Definition demo_robot : RobotAdapterConfig := MkRobotAdapter " https://qyapi/cgi-bin/webhook/send?key=k%201&x=2 " 0.
Definition demo_file : StandardMessage :=
  set_sm_MessageType "file" (set_sm_Media (Some [set_mi_DataBase64 "aGk=" (set_mi_Kind "file" zero_media)]) zero_standard).
Definition demo_file_log : list OutRequest :=
  [MkOut "POST" "https://qyapi/cgi-bin/webhook/upload_media?key=k+1" (FormFile "media" "upload.bin" [104; 105]);
   MkOut "POST" "https://qyapi/cgi-bin/webhook/send?key=k%201&x=2" (JsonBody (jtext "{'file':{'media_id':'m1'},'msgtype':'file'}"))].

Example robot_uploads :
  SendRobotMessage no_ip (logged robot_answers) (λ _ _, Fail (new_error "no file")) demo_robot background demo_file
    ([jtext "{'media_id':'m1'}"; jtext "{'errcode':0}"], []) = (None, ([], demo_file_log)).
Proof. vm_compute. reflexivity. Qed.

Example robot_image :
  SendRobotMessage no_ip robot_answers (λ _ _, Ok [104; 105]) demo_robot background
    (set_sm_Media (Some [set_mi_Path "/tmp/x.png" (set_mi_Kind "image" zero_media)]) zero_standard) [jtext "{'errcode':93000,'errmsg':'bad'}"] =
  (Some (new_error "wecom robot send failed: bad (93000)"), []).
Proof. vm_compute. reflexivity. Qed.

Lemma robot_requests_witness :
  let url := resolveWebhookURL demo_robot demo_file in
  ∃ ups, Forall (is_upload no_ip url) ups ∧ (length ups ≤ 1)%nat ∧ (url = EmptyString → demo_file_log = [] ∧ (None : option error) ≠ None) ∧
    ((demo_file_log = ups ∧ (None : option error) ≠ None) ∨
     ∃ v, content_of "file" demo_file v ∧
       demo_file_log = ups ++ [MkOut "POST" url (JsonBody (print (encode_value (payload_of "file" v))))]).
Proof.
  apply (robot_requests no_ip robot_answers (λ _ _, Fail (new_error "no file")) demo_robot background demo_file
    [jtext "{'media_id':'m1'}"; jtext "{'errcode':0}"] None [] demo_file_log).
  vm_compute. reflexivity.
Defined.
