(* ===== verification/WecomHandler.v ===== *)
(** * The WeCom callback handler: internal/gateway/wecom/handler.go

    The URL verification, and the callback that decrypts a message, maps it to
    a channel message, fetches its media and dispatches it.  The bodies are read
    by the decoder of Xml.v; the tables of letters above ASCII it takes and the
    download of media are parameters. *)
From Stdlib Require Import String Ascii.
From S2P Require Import Prelude GoStrings Strconv Xml GoValue Sha256 Cipher Callback Wecom Transport GatewayTypes Router WebhookAuth Ingress.
From stdpp Require Import list.

Local Open Scope Z_scope.

(** ** The XML: internal/gateway/wecom/xml_types.go

    The element's own name, which both types keep and nothing reads, is checked
    to be [xml]. *)
Record callbackEnvelope := MkEnvelope { ce_Encrypt : string; ce_AgentID : Z }.

Definition envelope_elements : list (xml_field callbackEnvelope) :=
  [string_member "Encrypt" (λ v e, MkEnvelope v (ce_AgentID e)); int64_member "AgentID" (λ v e, MkEnvelope (ce_Encrypt e) v)].
Definition xml_envelope (letter : bool → Z → bool) (s : string) : option callbackEnvelope :=
  UnmarshalXML letter "xml" envelope_elements (MkEnvelope EmptyString 0) s.

Record callbackMessage := MkMsg {
  cm_ToUserName : string;
  cm_FromUserName : string;
  cm_CreateTime : Z;
  cm_MsgType : string;
  cm_Content : string;
  cm_MsgID : string;
  cm_AgentID : Z;
  cm_Event : string;
  cm_ChangeType : string;
  cm_PicURL : string;
  cm_MediaID : string;
  cm_ThumbMediaID : string;
  cm_Format : string;
  cm_Title : string;
  cm_Description : string;
  cm_URL : string;
  cm_LocationX : string;
  cm_LocationY : string;
  cm_Scale : string;
  cm_Label : string;
  cm_Recognition : string;
  cm_ThumbURL : string;
  cm_SelectedItems : string;
  cm_SelectedTicket : string
}.

Definition zero_callback : callbackMessage := MkMsg EmptyString EmptyString 0 EmptyString EmptyString EmptyString 0 EmptyString EmptyString EmptyString EmptyString EmptyString EmptyString EmptyString EmptyString EmptyString EmptyString EmptyString EmptyString EmptyString EmptyString EmptyString EmptyString EmptyString.

Definition set_cm_ToUserName (v : string) (m : callbackMessage) : callbackMessage :=
  MkMsg v (cm_FromUserName m) (cm_CreateTime m) (cm_MsgType m) (cm_Content m) (cm_MsgID m) (cm_AgentID m) (cm_Event m) (cm_ChangeType m) (cm_PicURL m) (cm_MediaID m) (cm_ThumbMediaID m) (cm_Format m) (cm_Title m) (cm_Description m) (cm_URL m) (cm_LocationX m) (cm_LocationY m) (cm_Scale m) (cm_Label m) (cm_Recognition m) (cm_ThumbURL m) (cm_SelectedItems m) (cm_SelectedTicket m).
Definition set_cm_FromUserName (v : string) (m : callbackMessage) : callbackMessage :=
  MkMsg (cm_ToUserName m) v (cm_CreateTime m) (cm_MsgType m) (cm_Content m) (cm_MsgID m) (cm_AgentID m) (cm_Event m) (cm_ChangeType m) (cm_PicURL m) (cm_MediaID m) (cm_ThumbMediaID m) (cm_Format m) (cm_Title m) (cm_Description m) (cm_URL m) (cm_LocationX m) (cm_LocationY m) (cm_Scale m) (cm_Label m) (cm_Recognition m) (cm_ThumbURL m) (cm_SelectedItems m) (cm_SelectedTicket m).
Definition set_cm_CreateTime (v : Z) (m : callbackMessage) : callbackMessage :=
  MkMsg (cm_ToUserName m) (cm_FromUserName m) v (cm_MsgType m) (cm_Content m) (cm_MsgID m) (cm_AgentID m) (cm_Event m) (cm_ChangeType m) (cm_PicURL m) (cm_MediaID m) (cm_ThumbMediaID m) (cm_Format m) (cm_Title m) (cm_Description m) (cm_URL m) (cm_LocationX m) (cm_LocationY m) (cm_Scale m) (cm_Label m) (cm_Recognition m) (cm_ThumbURL m) (cm_SelectedItems m) (cm_SelectedTicket m).
Definition set_cm_MsgType (v : string) (m : callbackMessage) : callbackMessage :=
  MkMsg (cm_ToUserName m) (cm_FromUserName m) (cm_CreateTime m) v (cm_Content m) (cm_MsgID m) (cm_AgentID m) (cm_Event m) (cm_ChangeType m) (cm_PicURL m) (cm_MediaID m) (cm_ThumbMediaID m) (cm_Format m) (cm_Title m) (cm_Description m) (cm_URL m) (cm_LocationX m) (cm_LocationY m) (cm_Scale m) (cm_Label m) (cm_Recognition m) (cm_ThumbURL m) (cm_SelectedItems m) (cm_SelectedTicket m).
Definition set_cm_Content (v : string) (m : callbackMessage) : callbackMessage :=
  MkMsg (cm_ToUserName m) (cm_FromUserName m) (cm_CreateTime m) (cm_MsgType m) v (cm_MsgID m) (cm_AgentID m) (cm_Event m) (cm_ChangeType m) (cm_PicURL m) (cm_MediaID m) (cm_ThumbMediaID m) (cm_Format m) (cm_Title m) (cm_Description m) (cm_URL m) (cm_LocationX m) (cm_LocationY m) (cm_Scale m) (cm_Label m) (cm_Recognition m) (cm_ThumbURL m) (cm_SelectedItems m) (cm_SelectedTicket m).
Definition set_cm_MsgID (v : string) (m : callbackMessage) : callbackMessage :=
  MkMsg (cm_ToUserName m) (cm_FromUserName m) (cm_CreateTime m) (cm_MsgType m) (cm_Content m) v (cm_AgentID m) (cm_Event m) (cm_ChangeType m) (cm_PicURL m) (cm_MediaID m) (cm_ThumbMediaID m) (cm_Format m) (cm_Title m) (cm_Description m) (cm_URL m) (cm_LocationX m) (cm_LocationY m) (cm_Scale m) (cm_Label m) (cm_Recognition m) (cm_ThumbURL m) (cm_SelectedItems m) (cm_SelectedTicket m).
Definition set_cm_AgentID (v : Z) (m : callbackMessage) : callbackMessage :=
  MkMsg (cm_ToUserName m) (cm_FromUserName m) (cm_CreateTime m) (cm_MsgType m) (cm_Content m) (cm_MsgID m) v (cm_Event m) (cm_ChangeType m) (cm_PicURL m) (cm_MediaID m) (cm_ThumbMediaID m) (cm_Format m) (cm_Title m) (cm_Description m) (cm_URL m) (cm_LocationX m) (cm_LocationY m) (cm_Scale m) (cm_Label m) (cm_Recognition m) (cm_ThumbURL m) (cm_SelectedItems m) (cm_SelectedTicket m).
Definition set_cm_Event (v : string) (m : callbackMessage) : callbackMessage :=
  MkMsg (cm_ToUserName m) (cm_FromUserName m) (cm_CreateTime m) (cm_MsgType m) (cm_Content m) (cm_MsgID m) (cm_AgentID m) v (cm_ChangeType m) (cm_PicURL m) (cm_MediaID m) (cm_ThumbMediaID m) (cm_Format m) (cm_Title m) (cm_Description m) (cm_URL m) (cm_LocationX m) (cm_LocationY m) (cm_Scale m) (cm_Label m) (cm_Recognition m) (cm_ThumbURL m) (cm_SelectedItems m) (cm_SelectedTicket m).
Definition set_cm_ChangeType (v : string) (m : callbackMessage) : callbackMessage :=
  MkMsg (cm_ToUserName m) (cm_FromUserName m) (cm_CreateTime m) (cm_MsgType m) (cm_Content m) (cm_MsgID m) (cm_AgentID m) (cm_Event m) v (cm_PicURL m) (cm_MediaID m) (cm_ThumbMediaID m) (cm_Format m) (cm_Title m) (cm_Description m) (cm_URL m) (cm_LocationX m) (cm_LocationY m) (cm_Scale m) (cm_Label m) (cm_Recognition m) (cm_ThumbURL m) (cm_SelectedItems m) (cm_SelectedTicket m).
Definition set_cm_PicURL (v : string) (m : callbackMessage) : callbackMessage :=
  MkMsg (cm_ToUserName m) (cm_FromUserName m) (cm_CreateTime m) (cm_MsgType m) (cm_Content m) (cm_MsgID m) (cm_AgentID m) (cm_Event m) (cm_ChangeType m) v (cm_MediaID m) (cm_ThumbMediaID m) (cm_Format m) (cm_Title m) (cm_Description m) (cm_URL m) (cm_LocationX m) (cm_LocationY m) (cm_Scale m) (cm_Label m) (cm_Recognition m) (cm_ThumbURL m) (cm_SelectedItems m) (cm_SelectedTicket m).
Definition set_cm_MediaID (v : string) (m : callbackMessage) : callbackMessage :=
  MkMsg (cm_ToUserName m) (cm_FromUserName m) (cm_CreateTime m) (cm_MsgType m) (cm_Content m) (cm_MsgID m) (cm_AgentID m) (cm_Event m) (cm_ChangeType m) (cm_PicURL m) v (cm_ThumbMediaID m) (cm_Format m) (cm_Title m) (cm_Description m) (cm_URL m) (cm_LocationX m) (cm_LocationY m) (cm_Scale m) (cm_Label m) (cm_Recognition m) (cm_ThumbURL m) (cm_SelectedItems m) (cm_SelectedTicket m).
Definition set_cm_ThumbMediaID (v : string) (m : callbackMessage) : callbackMessage :=
  MkMsg (cm_ToUserName m) (cm_FromUserName m) (cm_CreateTime m) (cm_MsgType m) (cm_Content m) (cm_MsgID m) (cm_AgentID m) (cm_Event m) (cm_ChangeType m) (cm_PicURL m) (cm_MediaID m) v (cm_Format m) (cm_Title m) (cm_Description m) (cm_URL m) (cm_LocationX m) (cm_LocationY m) (cm_Scale m) (cm_Label m) (cm_Recognition m) (cm_ThumbURL m) (cm_SelectedItems m) (cm_SelectedTicket m).
Definition set_cm_Format (v : string) (m : callbackMessage) : callbackMessage :=
  MkMsg (cm_ToUserName m) (cm_FromUserName m) (cm_CreateTime m) (cm_MsgType m) (cm_Content m) (cm_MsgID m) (cm_AgentID m) (cm_Event m) (cm_ChangeType m) (cm_PicURL m) (cm_MediaID m) (cm_ThumbMediaID m) v (cm_Title m) (cm_Description m) (cm_URL m) (cm_LocationX m) (cm_LocationY m) (cm_Scale m) (cm_Label m) (cm_Recognition m) (cm_ThumbURL m) (cm_SelectedItems m) (cm_SelectedTicket m).
Definition set_cm_Title (v : string) (m : callbackMessage) : callbackMessage :=
  MkMsg (cm_ToUserName m) (cm_FromUserName m) (cm_CreateTime m) (cm_MsgType m) (cm_Content m) (cm_MsgID m) (cm_AgentID m) (cm_Event m) (cm_ChangeType m) (cm_PicURL m) (cm_MediaID m) (cm_ThumbMediaID m) (cm_Format m) v (cm_Description m) (cm_URL m) (cm_LocationX m) (cm_LocationY m) (cm_Scale m) (cm_Label m) (cm_Recognition m) (cm_ThumbURL m) (cm_SelectedItems m) (cm_SelectedTicket m).
Definition set_cm_Description (v : string) (m : callbackMessage) : callbackMessage :=
  MkMsg (cm_ToUserName m) (cm_FromUserName m) (cm_CreateTime m) (cm_MsgType m) (cm_Content m) (cm_MsgID m) (cm_AgentID m) (cm_Event m) (cm_ChangeType m) (cm_PicURL m) (cm_MediaID m) (cm_ThumbMediaID m) (cm_Format m) (cm_Title m) v (cm_URL m) (cm_LocationX m) (cm_LocationY m) (cm_Scale m) (cm_Label m) (cm_Recognition m) (cm_ThumbURL m) (cm_SelectedItems m) (cm_SelectedTicket m).
Definition set_cm_URL (v : string) (m : callbackMessage) : callbackMessage :=
  MkMsg (cm_ToUserName m) (cm_FromUserName m) (cm_CreateTime m) (cm_MsgType m) (cm_Content m) (cm_MsgID m) (cm_AgentID m) (cm_Event m) (cm_ChangeType m) (cm_PicURL m) (cm_MediaID m) (cm_ThumbMediaID m) (cm_Format m) (cm_Title m) (cm_Description m) v (cm_LocationX m) (cm_LocationY m) (cm_Scale m) (cm_Label m) (cm_Recognition m) (cm_ThumbURL m) (cm_SelectedItems m) (cm_SelectedTicket m).
Definition set_cm_LocationX (v : string) (m : callbackMessage) : callbackMessage :=
  MkMsg (cm_ToUserName m) (cm_FromUserName m) (cm_CreateTime m) (cm_MsgType m) (cm_Content m) (cm_MsgID m) (cm_AgentID m) (cm_Event m) (cm_ChangeType m) (cm_PicURL m) (cm_MediaID m) (cm_ThumbMediaID m) (cm_Format m) (cm_Title m) (cm_Description m) (cm_URL m) v (cm_LocationY m) (cm_Scale m) (cm_Label m) (cm_Recognition m) (cm_ThumbURL m) (cm_SelectedItems m) (cm_SelectedTicket m).
Definition set_cm_LocationY (v : string) (m : callbackMessage) : callbackMessage :=
  MkMsg (cm_ToUserName m) (cm_FromUserName m) (cm_CreateTime m) (cm_MsgType m) (cm_Content m) (cm_MsgID m) (cm_AgentID m) (cm_Event m) (cm_ChangeType m) (cm_PicURL m) (cm_MediaID m) (cm_ThumbMediaID m) (cm_Format m) (cm_Title m) (cm_Description m) (cm_URL m) (cm_LocationX m) v (cm_Scale m) (cm_Label m) (cm_Recognition m) (cm_ThumbURL m) (cm_SelectedItems m) (cm_SelectedTicket m).
Definition set_cm_Scale (v : string) (m : callbackMessage) : callbackMessage :=
  MkMsg (cm_ToUserName m) (cm_FromUserName m) (cm_CreateTime m) (cm_MsgType m) (cm_Content m) (cm_MsgID m) (cm_AgentID m) (cm_Event m) (cm_ChangeType m) (cm_PicURL m) (cm_MediaID m) (cm_ThumbMediaID m) (cm_Format m) (cm_Title m) (cm_Description m) (cm_URL m) (cm_LocationX m) (cm_LocationY m) v (cm_Label m) (cm_Recognition m) (cm_ThumbURL m) (cm_SelectedItems m) (cm_SelectedTicket m).
Definition set_cm_Label (v : string) (m : callbackMessage) : callbackMessage :=
  MkMsg (cm_ToUserName m) (cm_FromUserName m) (cm_CreateTime m) (cm_MsgType m) (cm_Content m) (cm_MsgID m) (cm_AgentID m) (cm_Event m) (cm_ChangeType m) (cm_PicURL m) (cm_MediaID m) (cm_ThumbMediaID m) (cm_Format m) (cm_Title m) (cm_Description m) (cm_URL m) (cm_LocationX m) (cm_LocationY m) (cm_Scale m) v (cm_Recognition m) (cm_ThumbURL m) (cm_SelectedItems m) (cm_SelectedTicket m).
Definition set_cm_Recognition (v : string) (m : callbackMessage) : callbackMessage :=
  MkMsg (cm_ToUserName m) (cm_FromUserName m) (cm_CreateTime m) (cm_MsgType m) (cm_Content m) (cm_MsgID m) (cm_AgentID m) (cm_Event m) (cm_ChangeType m) (cm_PicURL m) (cm_MediaID m) (cm_ThumbMediaID m) (cm_Format m) (cm_Title m) (cm_Description m) (cm_URL m) (cm_LocationX m) (cm_LocationY m) (cm_Scale m) (cm_Label m) v (cm_ThumbURL m) (cm_SelectedItems m) (cm_SelectedTicket m).
Definition set_cm_ThumbURL (v : string) (m : callbackMessage) : callbackMessage :=
  MkMsg (cm_ToUserName m) (cm_FromUserName m) (cm_CreateTime m) (cm_MsgType m) (cm_Content m) (cm_MsgID m) (cm_AgentID m) (cm_Event m) (cm_ChangeType m) (cm_PicURL m) (cm_MediaID m) (cm_ThumbMediaID m) (cm_Format m) (cm_Title m) (cm_Description m) (cm_URL m) (cm_LocationX m) (cm_LocationY m) (cm_Scale m) (cm_Label m) (cm_Recognition m) v (cm_SelectedItems m) (cm_SelectedTicket m).
Definition set_cm_SelectedItems (v : string) (m : callbackMessage) : callbackMessage :=
  MkMsg (cm_ToUserName m) (cm_FromUserName m) (cm_CreateTime m) (cm_MsgType m) (cm_Content m) (cm_MsgID m) (cm_AgentID m) (cm_Event m) (cm_ChangeType m) (cm_PicURL m) (cm_MediaID m) (cm_ThumbMediaID m) (cm_Format m) (cm_Title m) (cm_Description m) (cm_URL m) (cm_LocationX m) (cm_LocationY m) (cm_Scale m) (cm_Label m) (cm_Recognition m) (cm_ThumbURL m) v (cm_SelectedTicket m).
Definition set_cm_SelectedTicket (v : string) (m : callbackMessage) : callbackMessage :=
  MkMsg (cm_ToUserName m) (cm_FromUserName m) (cm_CreateTime m) (cm_MsgType m) (cm_Content m) (cm_MsgID m) (cm_AgentID m) (cm_Event m) (cm_ChangeType m) (cm_PicURL m) (cm_MediaID m) (cm_ThumbMediaID m) (cm_Format m) (cm_Title m) (cm_Description m) (cm_URL m) (cm_LocationX m) (cm_LocationY m) (cm_Scale m) (cm_Label m) (cm_Recognition m) (cm_ThumbURL m) (cm_SelectedItems m) v.

Definition message_elements : list (xml_field callbackMessage) :=
  [ string_member "ToUserName" set_cm_ToUserName;
    string_member "FromUserName" set_cm_FromUserName;
    int64_member "CreateTime" set_cm_CreateTime;
    string_member "MsgType" set_cm_MsgType;
    string_member "Content" set_cm_Content;
    string_member "MsgId" set_cm_MsgID;
    int64_member "AgentID" set_cm_AgentID;
    string_member "Event" set_cm_Event;
    string_member "ChangeType" set_cm_ChangeType;
    string_member "PicUrl" set_cm_PicURL;
    string_member "MediaId" set_cm_MediaID;
    string_member "ThumbMediaId" set_cm_ThumbMediaID;
    string_member "Format" set_cm_Format;
    string_member "Title" set_cm_Title;
    string_member "Description" set_cm_Description;
    string_member "Url" set_cm_URL;
    string_member "Location_X" set_cm_LocationX;
    string_member "Location_Y" set_cm_LocationY;
    string_member "Scale" set_cm_Scale;
    string_member "Label" set_cm_Label;
    string_member "Recognition" set_cm_Recognition;
    string_member "ThumbUrl" set_cm_ThumbURL;
    string_member "SelectedItems" set_cm_SelectedItems;
    string_member "SelectedTicket" set_cm_SelectedTicket ].
Definition xml_message (letter : bool → Z → bool) (s : string) : option callbackMessage :=
  UnmarshalXML letter "xml" message_elements zero_callback s.

(** ** The channel message *)
Definition wecom_metadata (msg : callbackMessage) : list (string * gvalue) :=
  [("wecom_msg_type", GString (cm_MsgType msg)); ("wecom_agent_id", GInt (cm_AgentID msg));
   ("wecom_to_user", GString (cm_ToUserName msg)); ("wecom_from_user", GString (cm_FromUserName msg));
   ("wecom_create_time", GInt (cm_CreateTime msg))]%string.

Definition base_message (msg : callbackMessage) : StandardMessage :=
  set_sm_SessionID (cm_FromUserName msg) (set_sm_ChannelName "wecom" (set_sm_MessageID (cm_MsgID msg)
    (set_sm_SenderID (cm_FromUserName msg) (set_sm_SenderName (cm_FromUserName msg) (set_sm_ReceiverID (cm_ToUserName msg)
      (set_sm_Metadata (Some (wecom_metadata msg)) zero_standard)))))).

(** A message of one kind: its text, its media, what it adds to the metadata. *)
Definition shaped (kind text : string) (media : option (list MediaItem)) (extra : list (string * gvalue)) (req : StandardMessage) : StandardMessage :=
  set_sm_MessageType kind (set_sm_Text text (set_sm_Media media
    (set_sm_Metadata (Some (foldl (λ m kv, put kv.1 kv.2 m) (default [] (sm_Metadata req)) extra)) req))).

Definition media_item (kind mediaID : string) : MediaItem := set_mi_MediaID mediaID (set_mi_Kind kind zero_media).

Definition newline : string := String "010" EmptyString.

Definition toStandardMessage (msg : callbackMessage) : StandardMessage :=
  let req := base_message msg in
  let kind := ToLower (TrimSpace (cm_MsgType msg)) in
  let req :=
    if bool_decide (kind = "text"%string) then set_sm_Format FormatPlainText (shaped "text" (cm_Content msg) None [] req)
    else if bool_decide (kind = "image"%string) then
      shaped "image" "[image]" (Some [set_mi_URL (cm_PicURL msg) (media_item "image" (cm_MediaID msg))]) [] req
    else if bool_decide (kind = "voice"%string) then
      shaped "audio" "[audio]"
        (Some [set_mi_Metadata (Some [("format"%string, GString (cm_Format msg))]) (media_item "audio" (cm_MediaID msg))]) [] req
    else if bool_decide (kind = "video"%string) then
      shaped "video" "[video]" (Some [set_mi_ThumbnailMediaID (cm_ThumbMediaID msg) (media_item "video" (cm_MediaID msg))]) [] req
    else if bool_decide (kind = "file"%string) then shaped "file" "[file]" (Some [media_item "file" (cm_MediaID msg)]) [] req
    else if bool_decide (kind = "link"%string) then
      shaped "link" (TrimSpace (cm_Title msg ++ newline ++ cm_Description msg ++ newline ++ cm_URL msg)) None
        [("title", GString (cm_Title msg)); ("description", GString (cm_Description msg)); ("url", GString (cm_URL msg))]%string req
    else if bool_decide (kind = "location"%string) then
      shaped "location" (cm_Label msg) None
        [("location_x", GString (cm_LocationX msg)); ("location_y", GString (cm_LocationY msg)); ("scale", GString (cm_Scale msg))]%string req
    else if bool_decide (kind = "event"%string) then
      shaped "event" (cm_Event msg) None [("event", GString (cm_Event msg)); ("change_type", GString (cm_ChangeType msg))]%string req
    else shaped "unknown" (cm_Content msg) None [] req in
  if bool_decide (sm_MessageID req = EmptyString)
  then set_sm_MessageID (sm_MessageType req ++ "-" ++ FormatInt (cm_CreateTime msg)) req else req.

(** ** Media *)
Record DownloadedMedia := MkDownload { dm_Path : string; dm_FileName : string; dm_MIMEType : string; dm_Size : Z }.

Section handler.
Context {T : Type} `{Transport T} {W : Type}.
Variable letter : bool → Z → bool.
(** [Client.DownloadMedia], over the client's own state. *)
Variable DownloadMedia : ctx → string → W → result DownloadedMedia * W.

Definition enrich_one (c : ctx) (m : MediaItem) (w : W) : MediaItem * W :=
  if blank (mi_MediaID m) || negb (blank (mi_Path m)) then (m, w)
  else match DownloadMedia c (mi_MediaID m) w with
  | (Fail e, w) => (set_mi_Metadata (Some (put "download_error" (GString (err_msg e)) (default [] (mi_Metadata m)))) m, w)
  | (Ok d, w) => (set_mi_Size (dm_Size d) (set_mi_MIMEType (dm_MIMEType d) (set_mi_FileName (dm_FileName d) (set_mi_Path (dm_Path d) m))), w)
  end.

Fixpoint enrich_all (c : ctx) (ms : list MediaItem) (w : W) : list MediaItem * W :=
  match ms with
  | [] => ([], w)
  | m :: ms => let '(m, w) := enrich_one c m w in let '(ms, w) := enrich_all c ms w in (m :: ms, w)
  end.

Definition enrichInboundMedia (c : ctx) (msg : StandardMessage) (w : W) : StandardMessage * W :=
  match sm_Media msg with
  | None | Some [] => (msg, w)
  | Some ms => let '(ms, w) := enrich_all c ms w in (set_sm_Media (Some ms) msg, w)
  end.

(** A request: its method, its query's values by name, its body. *)
Record CallbackRequest := MkCallback { cr_Method : string; cr_Query : string → string; cr_Body : result string }.

Definition handleVerifyURL (codec : Codec) (query : string → string) : option Response :=
  match VerifyURL codec (query "msg_signature") (query "timestamp") (query "nonce") (query "echostr") with
  | None => None
  | Some (Fail _) => Some (http_error "invalid signature" 401)
  | Some (Ok plain) => Some (MkResponse 200 [] plain)
  end%string.

(** [now_ns] and [t]: the router's two readings of the clock. *)
Definition handleCallback (codec : Codec) (r : CallbackRequest) (c : ctx) (now_ns t : Z) (st : SessionRouter T * W) :
    option Response * (SessionRouter T * W) :=
  let '(ro, w) := st in
  match cr_Body r with
  | Fail _ => (Some (http_error "invalid body" 400), st)
  | Ok body =>
    match xml_envelope letter body with
    | None => (Some (http_error "invalid xml" 400), st)
    | Some envelope =>
      match Decrypt codec (cr_Query r "msg_signature") (cr_Query r "timestamp") (cr_Query r "nonce") (ce_Encrypt envelope) with
      | None => (None, st)
      | Some (Fail _) => (Some (http_error "invalid signature" 401), st)
      | Some (Ok plain) =>
        match xml_message letter (string_of_bytes plain) with
        | None => (Some (http_error "invalid callback xml" 400), st)
        | Some msg =>
          let '(standard, w) := enrichInboundMedia c (toStandardMessage msg) w in
          match HandleIncoming c standard now_ns t ro with
          | (Some _, ro) => (Some (http_error "enqueue failed" 502), (ro, w))
          | (None, ro) => (Some (MkResponse 200 [] EmptyString), (ro, w))
          end
        end
      end
    end
  end%string.

Definition CallbackHandler (codec : Codec) (r : CallbackRequest) (c : ctx) (now_ns t : Z) (st : SessionRouter T * W) :
    option Response * (SessionRouter T * W) :=
  if bool_decide (cr_Method r = "GET"%string) then (handleVerifyURL codec (cr_Query r), st)
  else if bool_decide (cr_Method r = "POST"%string) then handleCallback codec r c now_ns t st
  else (Some (http_error "method not allowed" 405), st).
End handler.

(** ** What is let in *)

Lemma enriched_identity {W} (dl : ctx → string → W → result DownloadedMedia * W) c msg w :
  let msg' := (enrichInboundMedia dl c msg w).1 in
  sm_SessionID msg' = sm_SessionID msg ∧ sm_MessageID msg' = sm_MessageID msg ∧ sm_Text msg' = sm_Text msg ∧
  sm_MessageType msg' = sm_MessageType msg ∧ sm_Metadata msg' = sm_Metadata msg ∧
  mi_MediaID <$> default [] (sm_Media msg') = mi_MediaID <$> default [] (sm_Media msg).
Proof.
  assert (∀ ms w, mi_MediaID <$> (enrich_all dl c ms w).1 = mi_MediaID <$> ms) as Hall.
  { induction ms as [|m ms IH]; intros w'; [done|]. cbn. destruct (enrich_one dl c m w') as [m' w1] eqn:Hm.
    assert (mi_MediaID m' = mi_MediaID m) as Hid.
    { unfold enrich_one in Hm. destruct (_ || _); [by injection Hm as <- _|]. destruct (dl _ _ _) as [[d|e] w2]; by injection Hm as <- _. }
    specialize (IH w1). destruct (enrich_all dl c ms w1) as [ms' w2]. cbn in *. by rewrite Hid, IH. }
  cbv zeta. unfold enrichInboundMedia. destruct (sm_Media msg) as [[|m ms]|] eqn:Hm; [cbn; by rewrite Hm| |cbn; by rewrite Hm].
  specialize (Hall (m :: ms) w). destruct (enrich_all dl c (m :: ms) w) as [ms' w']. by split_and!.
Qed.

(** Every message has its sender's session and an id. *)
Lemma standard_identified msg :
  let m := toStandardMessage msg in
  sm_SessionID m = cm_FromUserName msg ∧ sm_ChannelName m = "wecom"%string ∧ sm_MessageID m ≠ EmptyString ∧
  (cm_MsgID msg ≠ EmptyString → sm_MessageID m = cm_MsgID msg).
Proof.
  cbv zeta. unfold toStandardMessage. set (req := if bool_decide (_ = "text"%string) then _ else _).
  assert (sm_SessionID req = cm_FromUserName msg ∧ sm_ChannelName req = "wecom"%string ∧ sm_MessageID req = cm_MsgID msg) as (H1 & H2 & H3)
    by (unfold req; repeat case_bool_decide; done).
  case_bool_decide as He; split_and!; try done.
  - cbn. by destruct (sm_MessageType req).
  - congruence.
Qed.

Section exactness.
Context {T : Type} `{Transport T} {W : Type}.
Variable letter : bool → Z → bool.
Variable DownloadMedia : ctx → string → W → result DownloadedMedia * W.

(** The request is a callback whose signed and encrypted text is this message. *)
Definition let_in (codec : Codec) (r : CallbackRequest) (msg : callbackMessage) : Prop :=
  cr_Method r = "POST"%string ∧
  ∃ body envelope plain, cr_Body r = Ok body ∧ xml_envelope letter body = Some envelope ∧
    delivers codec (cr_Query r "msg_signature"%string) (cr_Query r "timestamp"%string) (cr_Query r "nonce"%string) (ce_Encrypt envelope) plain ∧
    xml_message letter (string_of_bytes plain) = Some msg.

(** C22: A request is dispatched exactly when it is a POST whose signed and
    encrypted text is a message: as that message, with its sender's session and
    an id, enriched with its media; every other request leaves the queue, the
    routes and the client as they are. *)
Theorem wecom_callback_exact cfg codec r c now_ns t (ro : SessionRouter T) (w : W) :
  NewCodec cfg = Ok codec →
  let '(resp, (ro', w')) := CallbackHandler letter DownloadMedia codec r c now_ns t (ro, w) in
  (∃ msg, let_in codec r msg ∧
     let '(standard, w1) := enrichInboundMedia DownloadMedia c (toStandardMessage msg) w in
     let '(err, ro1) := HandleIncoming c standard now_ns t ro in
     sm_SessionID standard = cm_FromUserName msg ∧ sm_MessageID standard ≠ EmptyString ∧ w' = w1 ∧ ro' = ro1 ∧
     resp = Some (match err with Some _ => http_error "enqueue failed" 502 | None => MkResponse 200 [] EmptyString end)) ∨
  (¬ ∃ msg, let_in codec r msg) ∧ ro' = ro ∧ w' = w.
Proof.
  intros Hc. unfold CallbackHandler, let_in. case_bool_decide as Hget.
  { right. split; [|done]. rewrite Hget. by intros (? & ? & _). }
  case_bool_decide as Hpost; [|right; split; [naive_solver|done]].
  unfold handleCallback. destruct (cr_Body r) as [body|e]; [|right; split; [naive_solver|done]].
  destruct (xml_envelope letter body) as [envelope|] eqn:Henv; [|right; split; [naive_solver congruence|done]].
  assert (∀ plain, Decrypt codec (cr_Query r "msg_signature"%string) (cr_Query r "timestamp"%string) (cr_Query r "nonce"%string) (ce_Encrypt envelope) = Some (Ok plain) ↔
    delivers codec (cr_Query r "msg_signature"%string) (cr_Query r "timestamp"%string) (cr_Query r "nonce"%string) (ce_Encrypt envelope) plain) as Hdec
    by (intros; by eapply wecom_decrypted).
  destruct (Decrypt _ _ _ _ _) as [[plain|e]|].
  2-3: right; split; [|done]; intros (msg & _ & body' & envelope' & plain & [= <-] & He & Hd & _); rewrite Henv in He; injection He as <-; by apply Hdec in Hd.
  destruct (xml_message letter (string_of_bytes plain)) as [msg|] eqn:Hmsg.
  2:{ right. split; [|done]. intros (msg & _ & body' & envelope' & plain' & [= <-] & He & Hd & Hm). rewrite Henv in He. injection He as <-.
      apply Hdec in Hd as [= <-]. congruence. }
  destruct (standard_identified msg) as (S1 & _ & S2 & _). pose proof (enriched_identity DownloadMedia c (toStandardMessage msg) w) as (E1 & E2 & _).
  destruct (enrichInboundMedia DownloadMedia c (toStandardMessage msg) w) as [standard w1] eqn:Hen. cbn [fst] in E1, E2.
  destruct (HandleIncoming c standard now_ns t ro) as [err ro1] eqn:Hhi.
  assert (∀ resp : option Response, resp = Some (match err with Some _ => http_error "enqueue failed" 502 | None => MkResponse 200 [] EmptyString end) →
    ∃ msg', (cr_Method r = "POST"%string ∧ ∃ body' envelope' plain', Ok body = Ok body' ∧ xml_envelope letter body' = Some envelope' ∧
      delivers codec (cr_Query r "msg_signature"%string) (cr_Query r "timestamp"%string) (cr_Query r "nonce"%string) (ce_Encrypt envelope') plain' ∧
      xml_message letter (string_of_bytes plain') = Some msg') ∧
     let '(standard', w1') := enrichInboundMedia DownloadMedia c (toStandardMessage msg') w in
     let '(err', ro1') := HandleIncoming c standard' now_ns t ro in
     sm_SessionID standard' = cm_FromUserName msg' ∧ sm_MessageID standard' ≠ EmptyString ∧ w1 = w1' ∧ ro1 = ro1' ∧
     resp = Some (match err' with Some _ => http_error "enqueue failed" 502 | None => MkResponse 200 [] EmptyString end)) as Hin.
  { intros resp ->. exists msg. split; [split; [done|]; exists body, envelope, plain; by split_and!; [| |apply Hdec|]|].
    rewrite Hen, Hhi. split_and!; congruence. }
  destruct err; left; by apply Hin.
Qed.
End exactness.

(** A callback's text, and the message it is. *)
Definition demo_message : callbackMessage :=
  set_cm_ToUserName "corp" (set_cm_FromUserName "u1" (set_cm_CreateTime 1700000000 (set_cm_MsgType "text" (set_cm_Content "hi" (set_cm_MsgID "m1" (set_cm_AgentID 7 zero_callback)))))).
Definition demo_inner : string :=
  render "xml" [("ToUserName", Cdata "corp"); ("FromUserName", Cdata "u1"); ("CreateTime", Bare "1700000000"); ("MsgType", Cdata "text");
                ("Content", Cdata "hi"); ("MsgId", Bare "m1"); ("AgentID", Bare "7")]%string.
Definition no_media (c : ctx) (id : string) (w : unit) : result DownloadedMedia * unit := (Fail (new_error "no media"), w).

Example message_read : xml_message no_letter demo_inner = Some demo_message.
Proof. vm_compute. reflexivity. Qed.

(** The callback of that message, and its signed query. *)
Definition demo_encrypted : string :=
  match Encrypt demo_codec (Ok (bytes_of "fedcba9876543210")) (bytes_of demo_inner) with Some (Ok e) => e | _ => EmptyString end.
Definition demo_callback : CallbackRequest :=
  MkCallback "POST" (λ k, if bool_decide (k = "msg_signature"%string) then Signature demo_codec "1700000000" "n1" demo_encrypted
    else if bool_decide (k = "timestamp"%string) then "1700000000"%string else if bool_decide (k = "nonce"%string) then "n1"%string else EmptyString)
    (Ok (render "xml" [("AgentID", Cdata "7"); ("Encrypt", Cdata demo_encrypted)]%string)).

Lemma wecom_callback_exact_witness :
  (∃ msg, let_in no_letter demo_codec demo_callback msg) ∧
  (CallbackHandler (H := fake_transport (λ l, l)) no_letter no_media demo_codec demo_callback background 5 7 (router_demo, tt)).1 =
    Some (MkResponse 200 [] EmptyString).
Proof.
  assert ((CallbackHandler (H := fake_transport (λ l, l)) no_letter no_media demo_codec demo_callback background 5 7 (router_demo, tt)).1 =
    Some (MkResponse 200 [] EmptyString)) as Hresp by (vm_compute; reflexivity).
  assert (size (ro_routes (CallbackHandler (H := fake_transport (λ l, l)) no_letter no_media demo_codec demo_callback background 5 7 (router_demo, tt)).2.1) ≠
    size (ro_routes router_demo)) as Hsent by (vm_compute; discriminate).
  split; [|exact Hresp]. clear Hresp.
  pose proof (wecom_callback_exact (H := fake_transport (λ l, l)) no_letter no_media demo_config demo_codec demo_callback background 5 7 router_demo tt) as Hx.
  destruct (CallbackHandler _ _ _ _ _ _ _ _) as [resp [ro' w']].
  destruct Hx as [(msg & Hin & _)|(_ & -> & ->)]; [vm_compute; reflexivity|by exists msg|done].
Defined.

Example wecom_text :
  sm_MessageID (toStandardMessage (set_cm_CreateTime 1700000000 (set_cm_MsgType " Event " (set_cm_Event "subscribe" zero_callback)))) =
  "event-1700000000"%string.
Proof. vm_compute. reflexivity. Qed.
