(* ===== verification/WecomMedia.v ===== *)
(** * The download of media: internal/gateway/wecom/client.go

    A message's media is fetched from the API into a file of the media
    directory.  The HTTP exchange, the file operations and package mime are
    parameters; paths are those of path/filepath. *)
From Stdlib Require Import String Ascii.
From S2P Require Import Prelude GoStrings Strconv GoValue Sha256 Url Filepath Callback GatewayTypes Wecom TokenCache WecomClient WecomHandler.
From stdpp Require Import list.

Local Open Scope Z_scope.

(** A response: its [Header.Get], what its body gives, and how reading it ends. *)
Record MediaResponse := MkMedia { mr_Header : string → string; mr_Body : string; mr_End : option error }.

Section download.
Context {W : Type}.
Variable do : ctx → OutRequest → W → result MediaResponse * W.
(** [os.MkdirAll]; [os.Create] and writing to the file, by its path. *)
Variable MkdirAll : string → W → option error * W.
Variable Create : string → W → option error * W.
Variable write_file : string → string → W → option error * W.
(** [mime.ParseMediaType] and [mime.ExtensionsByType], [None] for an error. *)
Variable ParseMediaType : string → option (string * list (string * string)).
Variable ExtensionsByType : string → option (list string).

Definition filenameFromHeader (contentDisposition : string) : string :=
  if blank contentDisposition then EmptyString
  else match ParseMediaType contentDisposition with
  | None => EmptyString
  | Some (_, params) => path_base (get_value "filename" params)
  end.

Definition extensionFromContentType (contentType : string) : string :=
  match ParseMediaType contentType with
  | None => ".bin"%string
  | Some (mediaType, _) => match ExtensionsByType mediaType with Some (ext :: _) => ext | _ => ".bin"%string end
  end.

Definition media_name (mediaID : string) (header : string → string) : string :=
  let name := filenameFromHeader (header "Content-Disposition"%string) in
  if bool_decide (name = EmptyString) then (mediaID ++ extensionFromContentType (header "Content-Type"%string))%string else name.

Definition is_json (header : string → string) : bool := Contains (ToLower (header "Content-Type"%string)) "application/json".

(** The API's answer in place of a file. *)
Definition json_answer (r : MediaResponse) : error :=
  match decode_api (mr_Body r) with
  | Fail e => e
  | Ok parsed => if negb (ar_ErrCode parsed =? 0) then api_error "wecom media/get" parsed else new_error "wecom media/get returned json without file body"
  end.

(** The exchange as the token's fetch sees it. *)
Definition do_text (c : ctx) (r : OutRequest) (w : W) : result string * W :=
  match do c r w with (Ok m, w) => (Ok (mr_Body m), w) | (Fail e, w) => (Fail e, w) end.

(** [os.Create] and [io.Copy]. *)
Definition store (path : string) (r : MediaResponse) (w : W) : result Z * W :=
  match Create path w with
  | (Some e, w) => (Fail e, w)
  | (None, w) =>
    match write_file path (mr_Body r) w with
    | (Some e, w) => (Fail e, w)
    | (None, w) => (match mr_End r with Some e => Fail e | None => Ok (Z.of_nat (String.length (mr_Body r))) end, w)
    end
  end.

Definition media_request (cfg : Config) (token mediaID : string) : OutRequest :=
  newRequest cfg "GET" "/cgi-bin/media/get" token NoBody [("media_id", mediaID)]%string.

(** [stamp]: the clock's reading for the file's name. *)
Definition target_path (cfg : Config) (stamp : Z) (name : string) : string := Filepath.Join (wc_MediaDir cfg) (FormatInt stamp ++ "_" ++ name).

Definition fetch_media (cfg : Config) (c : ctx) (stamp : Z) (token mediaID : string) (w : W) : result DownloadedMedia * W :=
  match do c (media_request cfg token mediaID) w with
  | (Fail e, w) => (Fail e, w)
  | (Ok r, w) =>
    if is_json (mr_Header r) then (Fail (json_answer r), w)
    else match MkdirAll (wc_MediaDir cfg) w with
    | (Some e, w) => (Fail e, w)
    | (None, w) =>
      let name := media_name mediaID (mr_Header r) in
      let path := target_path cfg stamp name in
      let '(size, w) := store path r w in
      (size ← size; Ok (MkDownload path name (mr_Header r "Content-Type"%string) size), w)
    end
  end.

Definition DownloadMedia (cfg : Config) (k : token_call) (stamp : Z) (mediaID : string) (st : token_cache * W) :
    result DownloadedMedia * (token_cache * W) :=
  match GetToken do_text cfg k st with
  | (Fail e, st) => (Fail e, st)
  | (Ok token, (s, w)) => let '(r, w) := fetch_media cfg (tk_ctx k) stamp token mediaID w in (r, (s, w))
  end.
End download.

(** ** Where a download ends up *)
Lemma no_slash_app a b : no_slash (a ++ b) ↔ no_slash a ∧ no_slash b.
Proof. unfold no_slash. rewrite chars_app. tauto. Qed.

Lemma after_slash_plain s pre : no_slash pre → no_slash (after_slash s (pre ++ s)).
Proof.
  revert pre. induction s as [|c s IH]; intros pre Hp; [cbn; by rewrite sapp_nil_r|]. cbn [after_slash].
  case_bool_decide as Hc; [apply (IH EmptyString), not_elem_of_nil|].
  replace (pre ++ String c s)%string with ((pre ++ String c EmptyString) ++ s)%string by (by rewrite sapp_assoc).
  apply IH. apply no_slash_app. split; [done|]. unfold no_slash. rewrite in_chars. cbn. intros [H|H]; [by symmetry in H|by apply elem_of_nil in H].
Qed.

(** The base of a path is a slash or holds none. *)
Lemma path_base_plain p : path_base p = "/"%string ∨ no_slash (path_base p).
Proof.
  unfold path_base. case_bool_decide; [right; unfold no_slash; cbn; set_solver|]. cbv zeta. case_bool_decide; [by left|].
  right. apply (after_slash_plain _ EmptyString), not_elem_of_nil.
Qed.

Lemma digits_no_slash s : Strconv.all_digits s = true → no_slash s.
Proof.
  unfold no_slash. induction s as [|c s IH]; [intros _; apply not_elem_of_nil|]. cbn [Strconv.all_digits]. intros [Hc Hs]%andb_prop.
  rewrite in_chars. intros [<-|?]; [done|by apply IH].
Qed.

Lemma FormatInt_no_slash z : no_slash (FormatInt z).
Proof.
  assert (∀ x : N, no_slash (pretty x)) as Hn.
  { intros x. destruct (pretty_N_shape x) as (c & t & -> & Hc & Ht & _). apply digits_no_slash. cbn. by rewrite Hc, Ht. }
  destruct (FormatInt_cases z) as [(x & _ & ->)|(x & _ & _ & ->)]; [done|]. unfold no_slash. rewrite in_chars. intros [H|H]; [done|by apply (Hn x)].
Qed.

Lemma stamped_entry stamp name : no_slash name → entry_name (FormatInt stamp ++ "_" ++ name).
Proof.
  intros Hn. split.
  - rewrite !no_slash_app. split_and!; [apply FormatInt_no_slash|unfold no_slash; cbn; set_solver|done].
  - assert ("_"%char ∈ list_ascii_of_string (FormatInt stamp ++ "_" ++ name)) as Hu by (rewrite !chars_app; right; left; cbn; set_solver).
    intros Hin. repeat (apply elem_of_cons in Hin as [He|Hin]; [rewrite He in Hu; revert Hu; cbn; set_solver|]). by apply elem_of_nil in Hin.
Qed.

(** A slash at the end of a name makes no difference. *)
Lemma Join_slash dir name : dir ≠ EmptyString → Filepath.Join dir (name ++ "/") = Filepath.Join dir name.
Proof.
  intros Hd. unfold Filepath.Join. rewrite !bool_decide_eq_false_2 by done. unfold Clean, kept_parts.
  assert (∀ t, rooted (dir ++ "/" ++ t) = rooted dir) as Hr by (intros t; destruct dir as [|c [|d dir]]; by cbn). rewrite !Hr.
  rewrite !path_parts_app. replace (name ++ "/")%string with (name ++ "/" ++ EmptyString)%string by done. rewrite path_parts_app.
  by rewrite !foldl_app.
Qed.

Section downloads.
Context {W : Type}.
Variable do : ctx → OutRequest → W → result MediaResponse * W.
Variable MkdirAll Create : string → W → option error * W.
Variable write_file : string → string → W → option error * W.
Variable ParseMediaType : string → option (string * list (string * string)).
Variable ExtensionsByType : string → option (list string).

(** The operations on files, noted. *)
Inductive file_op := Created (path : string) | Wrote (path text : string).
Definition op_path (o : file_op) : string := match o with Created p | Wrote p _ => p end.
Abbreviation noted := (W * list file_op)%type.

Definition do' (c : ctx) (r : OutRequest) (w : noted) : result MediaResponse * noted := let '(x, w1) := do c r w.1 in (x, (w1, w.2)).
Definition MkdirAll' (p : string) (w : noted) : option error * noted := let '(x, w1) := MkdirAll p w.1 in (x, (w1, w.2)).
Definition Create' (p : string) (w : noted) : option error * noted := let '(x, w1) := Create p w.1 in (x, (w1, w.2 ++ [Created p])).
Definition write' (p text : string) (w : noted) : option error * noted := let '(x, w1) := write_file p text w.1 in (x, (w1, w.2 ++ [Wrote p text])).

(** Neither the media's identifier nor the extensions package mime knows hold a
    slash. *)
Definition plain_names (mediaID : string) : Prop :=
  no_slash mediaID ∧ ∀ t es e, ExtensionsByType t = Some es → e ∈ es → no_slash e.

Lemma target_entry cfg stamp mediaID header :
  wc_MediaDir cfg ≠ EmptyString → plain_names mediaID →
  ∃ base, entry_name base ∧ target_path cfg stamp (media_name ParseMediaType ExtensionsByType mediaID header) = entry (Clean (wc_MediaDir cfg)) base.
Proof.
  intros Hd [Hm He]. unfold target_path, media_name.
  assert (∀ name, no_slash name → ∃ base, entry_name base ∧ Filepath.Join (wc_MediaDir cfg) (FormatInt stamp ++ "_" ++ name) = entry (Clean (wc_MediaDir cfg)) base) as Hplain.
  { intros name Hn. eexists. split; [by apply (stamped_entry stamp name)|]. apply Join_entry; [done|by apply stamped_entry]. }
  case_bool_decide as Hf.
  - apply Hplain, no_slash_app. split; [done|]. unfold extensionFromContentType.
    destruct (ParseMediaType _) as [[t ps]|]; [|unfold no_slash; cbn; set_solver].
    destruct (ExtensionsByType t) as [[|e es]|] eqn:Hx; [unfold no_slash; cbn; set_solver|eapply He; [done|set_solver]|unfold no_slash; cbn; set_solver].
  - unfold filenameFromHeader in *. case_match; [done|]. destruct (ParseMediaType _) as [[t ps]|]; [|done].
    destruct (path_base_plain (get_value "filename" ps)) as [->|Hn]; [|by apply Hplain].
    destruct (Hplain EmptyString) as (base & Hb & Hj); [unfold no_slash; cbn; set_solver|]. exists base. split; [done|]. rewrite <-Hj.
    replace (FormatInt stamp ++ "_" ++ "/")%string with ((FormatInt stamp ++ "_") ++ "/")%string by (by rewrite sapp_assoc).
    by apply Join_slash.
Qed.

Lemma token_unnoted cfg k s w log :
  let '(r, (s', w')) := GetToken (do_text do) cfg k (s, w) in GetToken (do_text do') cfg k (s, (w, log)) = (r, (s', (w', log))).
Proof.
  unfold GetToken, getAccessToken. destruct (usable _ s); [done|]. unfold fetchToken, doJSON, do_text, do'. cbn [fst snd].
  destruct (do _ _ w) as [[m|e] w1]; [|done]. destruct (parsed ← decode_api (mr_Body m); _) as [a|e]; [|done]. by destruct (grantToken a).
Qed.

(** C35: Whatever the server answers, a download creates and writes at most one file,
    an entry of the media directory itself, as long as the media's identifier
    and the extensions package mime knows hold no slash; on success it is the
    file the result names, with the whole body of a response to the request for
    this media, made with the client's token, and of that size. *)
Theorem download_stays cfg k stamp mediaID s w res s' w' ops :
  DownloadMedia do' MkdirAll' Create' write' ParseMediaType ExtensionsByType cfg k stamp mediaID (s, (w, [])) = (res, (s', (w', ops))) →
  wc_MediaDir cfg ≠ EmptyString → plain_names mediaID →
  (ops = [] ∨ ∃ base, entry_name base ∧ (length ops ≤ 2)%nat ∧ Forall (λ o, op_path o = entry (Clean (wc_MediaDir cfg)) base) ops) ∧
  ∀ d, res = Ok d →
    ∃ token w1 r w2, GetToken (do_text do) cfg k (s, w) = (Ok token, (s', w1)) ∧ do (tk_ctx k) (media_request cfg token mediaID) w1 = (Ok r, w2) ∧
      is_json (mr_Header r) = false ∧ mr_End r = None ∧ ops = [Created (dm_Path d); Wrote (dm_Path d) (mr_Body r)] ∧
      d = MkDownload (target_path cfg stamp (dm_FileName d)) (media_name ParseMediaType ExtensionsByType mediaID (mr_Header r))
            (mr_Header r "Content-Type"%string) (Z.of_nat (String.length (mr_Body r))).
Proof.
  intros Hdl Hd Hp. unfold DownloadMedia in Hdl. pose proof (token_unnoted cfg k s w []) as Ht.
  destruct (GetToken (do_text do) cfg k (s, w)) as [tok [s1 w1]]. rewrite Ht in Hdl.
  destruct tok as [token|e]; [|injection Hdl as <- <- <- <-; split; [by left|done]].
  unfold fetch_media, do' at 1 in Hdl. cbn [fst snd] in Hdl.
  destruct (do _ _ w1) as [[r|e] w2] eqn:Hdo; [|injection Hdl as <- <- <- <-; split; [by left|done]].
  destruct (is_json (mr_Header r)) eqn:Hj; [injection Hdl as <- <- <- <-; split; [by left|done]|].
  unfold MkdirAll' in Hdl. cbn [fst snd] in Hdl. destruct (MkdirAll _ w2) as [[e|] w3]; [injection Hdl as <- <- <- <-; split; [by left|done]|].
  destruct (target_entry cfg stamp mediaID (mr_Header r) Hd Hp) as (base & Hb & Hpath). set (path := target_path _ _ _) in *.
  unfold store, Create' in Hdl. cbn [fst snd] in Hdl. destruct (Create path w3) as [[e|] w4].
  { injection Hdl as <- <- <- <-. split; [|done]. right. exists base. split_and!; [done|cbn; lia|]. by repeat constructor. }
  unfold write' in Hdl. cbn [fst snd] in Hdl. destruct (write_file path _ w4) as [[e|] w5].
  { injection Hdl as <- <- <- <-. split; [|done]. right. exists base. split_and!; [done|cbn; lia|]. by repeat constructor. }
  destruct (mr_End r) as [e|] eqn:Hend; injection Hdl as <- <- <- <-.
  all: split; [right; exists base; split_and!; [done|cbn; lia|by repeat constructor]|].
  - done.
  - intros d [= <-]. by exists token, w1, r, w2.
Qed.
End downloads.

(** A server with one picture, and a disk on which everything works. *)
Definition picture_server (disposition : string) (c : ctx) (r : OutRequest) (w : unit) : result MediaResponse * unit :=
  (Ok (MkMedia (λ k, if bool_decide (k = "Content-Type"%string) then "image/png"%string else if bool_decide (k = "Content-Disposition"%string) then disposition else EmptyString)
         "PNG" None), w).
Definition done_one (_ : string) (w : unit) : option error * unit := (None, w).
Definition done_two (_ _ : string) (w : unit) : option error * unit := (None, w).
(** Package mime, on what the examples use. *)
Definition demo_media_type (s : string) : option (string * list (string * string)) :=
  if bool_decide (s = "attachment; filename=a/b.png"%string) then Some ("attachment", [("filename", "a/b.png")])%string
  else if bool_decide (s = "inline"%string) then Some ("inline"%string, []) else Some (s, []).
Definition demo_extensions (t : string) : option (list string) := if bool_decide (t = "image/png"%string) then Some [".png"%string] else None.
Definition media_config : Config := MkConfig "corp" 7 "secret" "token" "key" "" "https://qyapi" 0 "/var/media/".
Definition demo_download (disposition mediaID : string) :=
  DownloadMedia (do' (picture_server disposition)) (MkdirAll' done_one) (Create' done_one) (write' done_two) demo_media_type demo_extensions
    media_config (TokenCall background 5 6) 77 mediaID (TokenCache "tok" 1000, (tt, [])).

Lemma download_stays_witness :
  demo_download "attachment; filename=a/b.png" "m1" =
    (Ok (MkDownload "/var/media/77_b.png" "b.png" "image/png" 3),
     (TokenCache "tok" 1000, (tt, [Created "/var/media/77_b.png"; Wrote "/var/media/77_b.png" "PNG"]))) ∧
  ∃ base, entry_name base ∧ (2 ≤ 2)%nat ∧ Forall (λ o, op_path o = entry "/var/media" base) [Created "/var/media/77_b.png"; Wrote "/var/media/77_b.png" "PNG"].
Proof.
  assert (demo_download "attachment; filename=a/b.png" "m1" =
    (Ok (MkDownload "/var/media/77_b.png" "b.png" "image/png" 3),
     (TokenCache "tok" 1000, (tt, [Created "/var/media/77_b.png"; Wrote "/var/media/77_b.png" "PNG"])))) as Hd by (vm_compute; reflexivity).
  split; [exact Hd|].
  assert (plain_names demo_extensions "m1") as Hp.
  { split; [unfold no_slash; cbn; set_solver|]. intros t es e. unfold demo_extensions. case_bool_decide; [|discriminate].
    intros [= <-] He. apply list_elem_of_singleton in He as ->. unfold no_slash. cbn. set_solver. }
  assert (wc_MediaDir media_config ≠ EmptyString) as Hne by discriminate.
  destruct (proj1 (download_stays (picture_server "attachment; filename=a/b.png") done_one done_one done_two demo_media_type demo_extensions media_config
    (TokenCall background 5 6) 77 "m1" (TokenCache "tok" 1000) tt _ _ _ _ Hd Hne Hp)) as [Hnil|Hin]; [discriminate Hnil|exact Hin].
Defined.

(** A header without a file name makes the name a dot; an identifier with
    slashes and dots leaves the directory. *)
Example dot_name : dm_FileName <$> (match (demo_download "inline" "m1").1 with Ok d => Some d | Fail _ => None end) = Some "."%string.
Proof. vm_compute. reflexivity. Qed.
Example media_escapes :
  dm_Path <$> (match (demo_download "" "x/../../../etc/cron.d/y").1 with Ok d => Some d | Fail _ => None end) = Some "/etc/cron.d/y.png"%string.
Proof. vm_compute. reflexivity. Qed.
