(* ===== verification/FeishuBot.v ===== *)
(** * The Feishu bot: internal/gateway/feishu/config.go, bot_payload.go, bot_client.go, bot_adapter.go

    A bot posts messages to its webhook, with a time stamp and a signature when
    it has a secret.  The HTTP exchange is a parameter. *)
From Stdlib Require Import String Ascii.
From S2P Require Import Prelude GoStrings Strconv GoValue Sha256 Cipher GatewayTypes Callback Wecom WecomClient WecomRobot.
From stdpp Require Import list.

Local Open Scope Z_scope.

(** ** config.go *)
Definition defaultHTTPTimeout : Z := 10 * 1000000000.

Record BotConfig := MkBotConfig { bc_WebhookURL : string; bc_Secret : string; bc_HTTPTimeout : Z }.

Record FeishuConfig := MkFeishuConfig {
  fc_AppID : string;
  fc_AppSecret : string;
  fc_VerificationToken : string;
  fc_EncryptKey : string;
  fc_EventCallbackPath : string;
  fc_CardCallbackPath : string;
  fc_APIBaseURL : string;
  fc_HTTPTimeout : Z
}.

Definition timeout_or_default (t : Z) : Z := if t <=? 0 then defaultHTTPTimeout else t.

Definition normalize_bot (c : BotConfig) : BotConfig := MkBotConfig (bc_WebhookURL c) (bc_Secret c) (timeout_or_default (bc_HTTPTimeout c)).

Definition ValidateBot (c : BotConfig) : option error :=
  if blank (bc_WebhookURL c) then Some (new_error "feishu bot webhook url is required") else None.

Definition normalize_feishu (c : FeishuConfig) : FeishuConfig :=
  MkFeishuConfig (fc_AppID c) (fc_AppSecret c) (fc_VerificationToken c) (fc_EncryptKey c) (fc_EventCallbackPath c) (fc_CardCallbackPath c)
    (fc_APIBaseURL c) (timeout_or_default (fc_HTTPTimeout c)).

Definition ValidateFeishu (c : FeishuConfig) : option error :=
  if blank (fc_AppID c) then Some (new_error "feishu app id is required")
  else if blank (fc_AppSecret c) then Some (new_error "feishu app secret is required")
  else if blank (fc_VerificationToken c) then Some (new_error "feishu app verification token is required")
  else None.

(** ** bot_payload.go *)

(** The HMAC of nothing under the time stamp, a newline and the secret. *)
Definition botSign (timestamp secret : string) : string :=
  base64_encode (bytes_of (hmac_sha256 (timestamp ++ String "010" secret) EmptyString)).

(** A post with one line of text. *)
Definition zh_post (text : string) : gvalue :=
  GObj [("zh_cn"%string, GObj [("title", GString EmptyString);
    ("content", GSlice [GSlice [GObj [("tag", GString "text"); ("text", GString text)]]])]%string)].

Definition is_markdown (msg : StandardMessage) : bool :=
  bool_decide (sm_MessageType msg = "markdown"%string) || bool_decide (sm_Format msg = FormatMarkdown).

Definition bot_content (msg : StandardMessage) : list (string * gvalue) :=
  match sm_Card msg with
  | Some card => [("msg_type", GString "interactive"); ("card", GObj card)]
  | None =>
    if is_markdown msg then [("msg_type", GString "post"); ("content", GObj [("post", zh_post (sm_Text msg))])]
    else [("msg_type", GString "text"); ("content", GObj [("text", GString (sm_Text msg))])]
  end%string.

(** [now]: the clock in seconds. *)
Definition bot_stamp (now : Z) (secret : string) : list (string * gvalue) :=
  if bool_decide (secret = EmptyString) then []
  else [("timestamp", GString (FormatInt now)); ("sign", GString (botSign (FormatInt now) secret))]%string.

Definition buildBotPayload (msg : StandardMessage) (now : Z) (secret : string) : gvalue := GObj (bot_stamp now secret ++ bot_content msg).

(** ** bot_client.go, bot_adapter.go *)
Record botAnswer := BotAnswer { ba_Code : Z; ba_Msg : string }.
Definition bot_fields : list (field botAnswer) :=
  [ int64_field "code" (λ v a, BotAnswer v (ba_Msg a)); string_field "msg" (λ v a, BotAnswer (ba_Code a) v) ].

Definition botAdapterName : string := "feishu_bot".

Section bot.
Context {W : Type}.
Variable do : ctx → OutRequest → W → result string * W.

Definition SendBot (cfg : BotConfig) (c : ctx) (now : Z) (msg : StandardMessage) (w : W) : option error * W :=
  match ValidateBot cfg with
  | Some e => (Some e, w)
  | None =>
    match do c (MkOut "POST" (bc_WebhookURL cfg) (JsonBody (print (encode_value (buildBotPayload msg now (bc_Secret cfg)))))) w with
    | (Fail e, w) => (Some e, w)
    | (Ok body, w) =>
      (match decode_body bot_fields (BotAnswer 0 "") body with
       | Fail e => Some e
       | Ok a => if negb (ba_Code a =? 0) then Some (new_error ("feishu bot send failed: " ++ ba_Msg a ++ " (" ++ FormatInt (ba_Code a) ++ ")")) else None
       end, w)
    end
  end.

(** The adapter names itself in a message that has no channel. *)
Definition named (name : string) (msg : StandardMessage) : StandardMessage :=
  if bool_decide (sm_ChannelName msg = EmptyString) then set_sm_ChannelName name msg else msg.

Definition BotAdapterSend (cfg : BotConfig) (c : ctx) (now : Z) (msg : StandardMessage) (w : W) : option error * W :=
  SendBot cfg c now (named botAdapterName msg) w.

Definition newBotClient (cfg : BotConfig) : BotConfig := normalize_bot cfg.
Definition NewBotAdapter (cfg : BotConfig) : BotConfig := newBotClient cfg.

Definition plain_text_to (name sessionID text : string) : StandardMessage :=
  set_sm_SessionID sessionID (set_sm_ChannelName name (set_sm_MessageType MessageTypeText (set_sm_Format FormatPlainText
    (set_sm_Text text zero_standard)))).

Definition BotAdapterSendMessage (cfg : BotConfig) (c : ctx) (now : Z) (sessionID text : string) (w : W) : option error * W :=
  BotAdapterSend cfg c now (plain_text_to botAdapterName sessionID text) w.
End bot.

(** ** What a bot's webhook is given *)

(** With a secret a payload is signed with the time of sending, and it always
    has its type and, for each type, its content. *)
Lemma bot_payload_signed msg now secret :
  let p := buildBotPayload msg now secret in
  ∃ ms, p = GObj ms ∧ NoDup ms.*1 ∧
    (secret ≠ EmptyString → get_key "timestamp" ms = Some (GString (FormatInt now)) ∧
       get_key "sign" ms = Some (GString (botSign (FormatInt now) secret))) ∧
    (secret = EmptyString → get_key "timestamp" ms = None ∧ get_key "sign" ms = None) ∧
    match sm_Card msg with
    | Some card => get_key "msg_type" ms = Some (GString "interactive") ∧ get_key "card" ms = Some (GObj card)
    | None =>
      if is_markdown msg then get_key "msg_type" ms = Some (GString "post") ∧ get_key "content" ms = Some (GObj [("post"%string, zh_post (sm_Text msg))])
      else get_key "msg_type" ms = Some (GString "text") ∧ get_key "content" ms = Some (GObj [("text"%string, GString (sm_Text msg))])
    end.
Proof.
  cbn zeta. eexists. split; [reflexivity|]. unfold bot_stamp, bot_content.
  case_bool_decide as Hs; (destruct (sm_Card msg) as [card|]; [|destruct (is_markdown msg)]);
    (split; [apply (bool_decide_unpack _); vm_compute; done|]); split_and!; try done; by split_and!.
Qed.

(** Every send makes one request, to the webhook, unless there is none. *)
Lemma bot_sends {W} (do : ctx → OutRequest → W → result string * W) cfg c now msg w :
  let '(err, (_, log)) := BotAdapterSend (logged do) cfg c now msg (w, []) in
  if blank (bc_WebhookURL cfg) then log = [] ∧ err ≠ None
  else log = [MkOut "POST" (bc_WebhookURL cfg) (JsonBody (print (encode_value (buildBotPayload msg now (bc_Secret cfg)))))].
Proof.
  unfold BotAdapterSend, SendBot, ValidateBot. destruct (blank _); [done|]. unfold logged. cbn [fst snd].
  assert (buildBotPayload (named botAdapterName msg) now (bc_Secret cfg) = buildBotPayload msg now (bc_Secret cfg)) as ->
    by (unfold named; by case_bool_decide).
  by destruct (do c _ w) as [[body|e] w'].
Qed.

Example bot_text :
  SendBot robot_answers (MkBotConfig "https://hook" "k" 0) background 1700000000 (plain_text_to "x" "s" "hi") [jtext "{'code':19021,'msg':'sign match fail'}"] =
  (Some (new_error "feishu bot send failed: sign match fail (19021)"), []).
Proof. vm_compute. reflexivity. Qed.
