(* ===== verification/FeishuClient.v ===== *)
(** * The Feishu application client: internal/gateway/feishu/app_client.go

    A message becomes a type and a JSON text, after an upload if it has media
    that has no key yet, and is created through an API.  That API ([appAPI], an
    interface of the code) is implemented over the vendor's client, whose
    operations are parameters, each a function of the request it is given. *)
From Stdlib Require Import String Ascii.
From S2P Require Import Prelude GoStrings Strconv GoValue Sprint Sha256 Cipher GatewayTypes Callback Wecom WecomClient FeishuBot.
From stdpp Require Import list.

Local Open Scope Z_scope.

(** ** The API and its implementation over the vendor's client *)
Record createMessage := CreateMessage { cm_ReceiveIDType : string; cm_ReceiveID : string; cm_MsgType : string; cm_Content : string; cm_UUID : string }.

Record feishuAPI (W : Type) := FeishuAPI {
  fapi_CreateMessage : ctx → createMessage → W → option error * W;
  fapi_UploadImage : ctx → string → list Z → W → result string * W;
  fapi_UploadFile : ctx → string → list Z → W → result string * W
}.
Arguments FeishuAPI {W} _ _ _.
Arguments fapi_CreateMessage {W} _ _ _ _.
Arguments fapi_UploadImage {W} _ _ _ _ _.
Arguments fapi_UploadFile {W} _ _ _ _ _.

(** A response of the vendor's client: [Success()], Msg, Code, and the key its
    data point to, when they do. *)
Record larkResponse := LarkResponse { lk_Success : bool; lk_Msg : string; lk_Code : Z; lk_Key : option (option string) }.

(** The vendor's client: creating a message, an image of a type, a file of a type. *)
Record larkClient (W : Type) := LarkClient {
  lark_Message_Create : ctx → createMessage → W → result larkResponse * W;
  lark_Image_Create : ctx → string → list Z → W → result larkResponse * W;
  lark_File_Create : ctx → string → string → list Z → W → result larkResponse * W;
  lark_ImageTypeMessage : string;
  lark_FileTypeStream : string
}.
Arguments LarkClient {W} _ _ _ _ _.
Arguments lark_Message_Create {W} _ _ _ _.
Arguments lark_Image_Create {W} _ _ _ _ _.
Arguments lark_File_Create {W} _ _ _ _ _ _.
Arguments lark_ImageTypeMessage {W} _.
Arguments lark_FileTypeStream {W} _.

Definition lark_failed (what : string) (r : larkResponse) : error :=
  new_error ("feishu app " ++ what ++ " failed: " ++ lk_Msg r ++ " (" ++ FormatInt (lk_Code r) ++ ")").

Section sdk.
Context {W : Type}.
Variable lark : larkClient W.

Definition sdkCreateMessage (c : ctx) (m : createMessage) (w : W) : option error * W :=
  match lark_Message_Create lark c m w with
  | (Fail e, w) => (Some e, w)
  | (Ok resp, w) => (if negb (lk_Success resp) then Some (lark_failed "create message" resp) else None, w)
  end.

(** The key of an upload's response, which must be there and not empty. *)
Definition uploaded_key (what : string) (r : result larkResponse * W) : result string * W :=
  match r with
  | (Fail e, w) => (Fail e, w)
  | (Ok resp, w) =>
    (match lk_Success resp, lk_Key resp with
     | true, Some (Some (String _ _ as key)) => Ok key
     | _, _ => Fail (lark_failed what resp)
     end, w)
  end.

(** The name of an image is not sent. *)
Definition sdkUploadImage (c : ctx) (fileName : string) (content : list Z) (w : W) : result string * W :=
  uploaded_key "upload image" (lark_Image_Create lark c (lark_ImageTypeMessage lark) content w).

Definition sdkUploadFile (c : ctx) (fileName : string) (content : list Z) (w : W) : result string * W :=
  uploaded_key "upload file" (lark_File_Create lark c (lark_FileTypeStream lark) fileName content w).

Definition sdkAppAPI : feishuAPI W := FeishuAPI sdkCreateMessage sdkUploadImage sdkUploadFile.
End sdk.

(** ** The client *)
Definition json_text (ms : list (string * gvalue)) : string := print (encode_value (GObj ms)).

Definition first_media (kind : string) (msg : StandardMessage) : bool :=
  match default [] (sm_Media msg) with m :: _ => bool_decide (mi_Kind m = kind) | [] => false end.

Section client.
Context {W : Type}.
Variable api : feishuAPI W.
Variable read_file : string → W → result (list Z).

Definition feishuMediaBytes (m : MediaItem) (w : W) : result (list Z * string) :=
  let name fallback := if bool_decide (mi_FileName m = EmptyString) then fallback else mi_FileName m in
  if negb (bool_decide (mi_Path m = EmptyString)) then raw ← read_file (mi_Path m) w; Ok (raw, name (path_base (mi_Path m)))
  else if negb (bool_decide (mi_DataBase64 m = EmptyString)) then
    match base64_decode (mi_DataBase64 m) with
    | None => Fail err_base64
    | Some raw => Ok (raw, name "upload.bin"%string)
    end
  else Fail (new_error "media requires path or data_base64").

(** [resolveImageKey] and [resolveFileKey], by the upload they use. *)
Definition resolve_key (upload : ctx → string → list Z → W → result string * W) (c : ctx) (m : MediaItem) (w : W) : result string * W :=
  if negb (bool_decide (mi_MediaID m = EmptyString)) then (Ok (mi_MediaID m), w)
  else match feishuMediaBytes m w with
  | Fail e => (Fail e, w)
  | Ok (content, fileName) => upload c fileName content w
  end.
Definition resolveImageKey : ctx → MediaItem → W → result string * W := resolve_key (fapi_UploadImage api).
Definition resolveFileKey : ctx → MediaItem → W → result string * W := resolve_key (fapi_UploadFile api).

(** A message of media: its first item's key under a name. *)
Definition keyed (kind key_name : string) (resolve : ctx → MediaItem → W → result string * W) (c : ctx) (msg : StandardMessage) (w : W) :
    result (string * string) * W :=
  match default [] (sm_Media msg) with
  | [] => (Fail (new_error ("feishu " ++ kind ++ " message requires media")), w)
  | m :: _ => let '(r, w) := resolve c m w in (key ← r; Ok (kind, json_text [(key_name, GString key)]), w)
  end.

Definition buildMessage (c : ctx) (msg : StandardMessage) (w : W) : result (string * string) * W :=
  match sm_Card msg with
  | Some card => (Ok ("interactive"%string, json_text card), w)
  | None =>
    if is_markdown msg then (Ok ("post"%string, print (encode_value (zh_post (sm_Text msg)))), w)
    else if bool_decide (sm_MessageType msg = "image"%string) || first_media "image" msg then keyed "image" "image_key" resolveImageKey c msg w
    else if bool_decide (sm_MessageType msg = "file"%string) || first_media "file" msg then keyed "file" "file_key" resolveFileKey c msg w
    else (Ok ("text"%string, json_text [("text"%string, GString (sm_Text msg))]), w)
  end.

Definition receive_id_type (msg : StandardMessage) : string := default "chat_id"%string (sprint_member "receive_id_type" (sm_Metadata msg)).
Definition receive_id (msg : StandardMessage) : string :=
  if bool_decide (sm_SessionID msg = EmptyString) then sm_ReceiverID msg else sm_SessionID msg.

(** [uuid]: the identifier the client makes from the clock. *)
Definition SendFeishu (c : ctx) (uuid : string) (msg : StandardMessage) (w : W) : option error * W :=
  let receiveID := receive_id msg in
  if bool_decide (receiveID = EmptyString) then (Some (new_error "feishu app receive id is required"), w)
  else match buildMessage c msg w with
  | (Fail e, w) => (Some e, w)
  | (Ok (msgType, content), w) => fapi_CreateMessage api c (CreateMessage (receive_id_type msg) receiveID msgType content uuid) w
  end.
End client.

(** [newAppClient]: the options the vendor's client is made with, and the client:
    its configuration and API. *)
Inductive lark_option := WithReqTimeout (t : Z) | WithOpenBaseUrl (url : string).
Definition lark_options (cfg : FeishuConfig) : list lark_option :=
  WithReqTimeout (fc_HTTPTimeout cfg) :: if bool_decide (fc_APIBaseURL cfg = EmptyString) then [] else [WithOpenBaseUrl (fc_APIBaseURL cfg)].

Definition newFeishuClient {W} (lark_NewClient : string → string → list lark_option → larkClient W) (cfg : FeishuConfig) : FeishuConfig * feishuAPI W :=
  let cfg := normalize_feishu cfg in (cfg, sdkAppAPI (lark_NewClient (fc_AppID cfg) (fc_AppSecret cfg) (lark_options cfg))).

(** A message's identifier, at a time in nanoseconds. *)
Definition feishu_uuid (now_ns : Z) : string := ("feishu-" ++ FormatInt now_ns)%string.

(** Every request has a time limit. *)
Lemma requests_limited cfg : ∃ t opts, lark_options (normalize_feishu cfg) = WithReqTimeout t :: opts ∧ 0 < t.
Proof.
  eexists _, _. split; [reflexivity|]. cbn. unfold timeout_or_default. destruct (Z.leb_spec (fc_HTTPTimeout cfg) 0); [reflexivity|lia].
Qed.

(** A key the vendor's client uploaded is never empty. *)
Lemma uploaded_key_present {W} what (r : result larkResponse * W) key : (uploaded_key what r).1 = Ok key → key ≠ EmptyString.
Proof. destruct r as [[[ok m co k]|e] st]; [|done]. cbn. destruct ok, k as [[[|a s]|]|]; try done. by intros [= <-]. Qed.

(** ** What is asked of the API *)
Inductive feishu_call :=
| FCreate (m : createMessage)
| FUploadImage (fileName : string) (content : list Z)
| FUploadFile (fileName : string) (content : list Z).

(** An API that also writes down its calls. *)
Definition noted {W} (a : feishuAPI W) : feishuAPI (W * list feishu_call) :=
  FeishuAPI
    (λ c m st, let '(e, w) := fapi_CreateMessage a c m st.1 in (e, (w, st.2 ++ [FCreate m])))
    (λ c n b st, let '(r, w) := fapi_UploadImage a c n b st.1 in (r, (w, st.2 ++ [FUploadImage n b])))
    (λ c n b st, let '(r, w) := fapi_UploadFile a c n b st.1 in (r, (w, st.2 ++ [FUploadFile n b]))).

(** The type and content a message is sent with, after the calls [ups]: media
    with a key is sent under that key without a call; other media under a key
    after one upload. *)
Definition keyed_content (upload : string → list Z → feishu_call) (key_name : string) (msg : StandardMessage) (content : string) (ups : list feishu_call) : Prop :=
  ∃ m ms key, sm_Media msg = Some (m :: ms) ∧ content = json_text [(key_name, GString key)] ∧
    ((mi_MediaID m = key ∧ key ≠ EmptyString ∧ ups = []) ∨ (mi_MediaID m = EmptyString ∧ ∃ name bytes, ups = [upload name bytes])).

Definition sent_as (msg : StandardMessage) (t content : string) (ups : list feishu_call) : Prop :=
  match sm_Card msg with
  | Some card => t = "interactive"%string ∧ content = json_text card ∧ ups = []
  | None =>
    if is_markdown msg then t = "post"%string ∧ content = print (encode_value (zh_post (sm_Text msg))) ∧ ups = []
    else if bool_decide (sm_MessageType msg = "image"%string) || first_media "image" msg then
      t = "image"%string ∧ keyed_content FUploadImage "image_key" msg content ups
    else if bool_decide (sm_MessageType msg = "file"%string) || first_media "file" msg then
      t = "file"%string ∧ keyed_content FUploadFile "file_key" msg content ups
    else t = "text"%string ∧ content = json_text [("text"%string, GString (sm_Text msg))] ∧ ups = []
  end.

Definition is_call_upload (x : feishu_call) : Prop := match x with FCreate _ => False | _ => True end.

Section calls.
Context {W : Type}.
Variable a : feishuAPI W.
Variable read_file : string → W * list feishu_call → result (list Z).

Lemma keyed_calls kind key_name upload call c msg w log r w' log' :
  (∀ n b st, (upload c n b st).2.2 = st.2 ++ [call n b]) → (∀ n b, is_call_upload (call n b)) →
  keyed kind key_name (resolve_key read_file upload) c msg (w, log) = (r, (w', log')) →
  ∃ ups, log' = log ++ ups ∧ (length ups ≤ 1)%nat ∧ Forall is_call_upload ups ∧
    ∀ t content, r = Ok (t, content) → t = kind ∧ keyed_content call key_name msg content ups.
Proof.
  intros Hlog Hcall. unfold keyed, keyed_content.
  assert (∀ ups, ups = [] → log = log ++ ups ∧ (length ups ≤ 1)%nat ∧ Forall is_call_upload ups) as Hnone
    by (intros ? ->; rewrite app_nil_r; auto).
  destruct (default [] (sm_Media msg)) as [|m ms] eqn:Hm.
  { intros [= <- <- <-]. exists []. destruct (Hnone [] eq_refl) as (? & ? & ?). by split_and!. }
  assert (sm_Media msg = Some (m :: ms)) as -> by (destruct (sm_Media msg); cbn in Hm; by simplify_eq).
  unfold resolve_key. case_bool_decide as Hid; cbn [negb].
  - destruct (feishuMediaBytes _ _ _) as [[content name]|e].
    + destruct (upload c name content (w, log)) as [r1 [w1 log1]] eqn:Hu. specialize (Hlog name content (w, log)). rewrite Hu in Hlog. cbn in Hlog.
      intros [= <- <- <-]. exists [call name content]. split_and!; [done|cbn; lia|by constructor|].
      intros t text. destruct r1 as [key|]; [|done]. cbn. intros [= <- <-]. split; [done|]. exists m, ms, key. split_and!; [done..|]. right. eauto.
    + intros [= <- <- <-]. exists []. destruct (Hnone [] eq_refl) as (? & ? & ?). by split_and!.
  - intros [= <- <- <-]. exists []. destruct (Hnone [] eq_refl) as (? & ? & ?). split_and!; [done..|].
    intros t text [= <- <-]. split; [done|]. exists m, ms, (mi_MediaID m). split_and!; [done..|]. auto.
Qed.

Lemma build_calls c msg w log r w' log' :
  buildMessage (noted a) read_file c msg (w, log) = (r, (w', log')) →
  ∃ ups, log' = log ++ ups ∧ (length ups ≤ 1)%nat ∧ Forall is_call_upload ups ∧ ∀ t content, r = Ok (t, content) → sent_as msg t content ups.
Proof.
  unfold buildMessage, sent_as.
  assert (∀ P : list feishu_call → Prop, P [] → ∃ ups, log = log ++ ups ∧ (length ups ≤ 1)%nat ∧ Forall is_call_upload ups ∧ P ups) as Hnone
    by (intros P HP; exists []; rewrite app_nil_r; split_and!; auto).
  destruct (sm_Card msg) as [card|]; [intros [= <- <- <-]; apply Hnone; by intros t content [= <- <-]|].
  destruct (is_markdown msg); [intros [= <- <- <-]; apply Hnone; by intros t content [= <- <-]|].
  destruct (_ || first_media "image" msg).
  { apply (keyed_calls _ _ _ FUploadImage); [|done]. intros n b [w0 l0]. cbn. by destruct (fapi_UploadImage a c n b w0). }
  destruct (_ || first_media "file" msg).
  { apply (keyed_calls _ _ _ FUploadFile); [|done]. intros n b [w0 l0]. cbn. by destruct (fapi_UploadFile a c n b w0). }
  intros [= <- <- <-]. apply Hnone. by intros t content [= <- <-].
Qed.

(** Whatever the API does, a message without a receiver asks nothing of it; any
    other one is created at most once, last, for the session (or else the
    receiver), with the type and content of the message: a card, a post, a
    text, or media under its own key, or under a key after its only upload.
    Without that call the send is an error; with it, the call's. *)
Theorem feishu_send_exact c uuid msg w err w' log :
  SendFeishu (noted a) read_file c uuid msg (w, []) = (err, (w', log)) →
  (receive_id msg = EmptyString → log = [] ∧ err ≠ None) ∧
  ∃ ups, (length ups ≤ 1)%nat ∧ Forall is_call_upload ups ∧
    ((log = ups ∧ err ≠ None) ∨
     ∃ t content w1, sent_as msg t content ups ∧
       let m := CreateMessage (receive_id_type msg) (receive_id msg) t content uuid in
       log = ups ++ [FCreate m] ∧ fapi_CreateMessage a c m w1 = (err, w')).
Proof.
  unfold SendFeishu. case_bool_decide as Hr.
  { intros [= <- <- <-]. split; [done|]. exists []. split_and!; [cbn; lia|done|by left]. }
  destruct (buildMessage _ _ _ _ _) as [r [w1 log1]] eqn:Hb. apply build_calls in Hb as (ups & -> & Hlen & Hups & Hok). cbn [app] in *.
  destruct r as [[t content]|e].
  - cbn. destruct (fapi_CreateMessage a c _ w1) as [e2 w2] eqn:Hc. intros [= <- <- <-]. split; [done|]. exists ups. split_and!; [done..|].
    right. exists t, content, w1. split_and!; auto.
  - intros [= <- <- <-]. split; [done|]. exists ups. split_and!; [done..|by left].
Qed.
End calls.

(** A client that answers with one response to everything. *)
Definition lark_says (r : larkResponse) : larkClient unit :=
  LarkClient (λ _ _ w, (Ok r, w)) (λ _ _ _ w, (Ok r, w)) (λ _ _ _ _ w, (Ok r, w)) "message" "stream".
Definition demo_image : StandardMessage :=
  set_sm_SessionID "oc_1" (set_sm_Media (Some [set_mi_DataBase64 "aGk=" (set_mi_Kind "image" zero_media)]) zero_standard).
Definition demo_image_log : list feishu_call :=
  [FUploadImage "upload.bin" [104; 105]; FCreate (CreateMessage "chat_id" "oc_1" "image" (jtext "{'image_key':'img_1'}") "u1")].

Lemma feishu_send_exact_witness :
  (receive_id demo_image = EmptyString → demo_image_log = [] ∧ (None : option error) ≠ None) ∧
  ∃ ups, (length ups ≤ 1)%nat ∧ Forall is_call_upload ups ∧
    ((demo_image_log = ups ∧ (None : option error) ≠ None) ∨
     ∃ t content w1, sent_as demo_image t content ups ∧
       let m := CreateMessage (receive_id_type demo_image) (receive_id demo_image) t content "u1" in
       demo_image_log = ups ++ [FCreate m] ∧
       fapi_CreateMessage (sdkAppAPI (lark_says (LarkResponse true "" 0 (Some (Some "img_1"%string))))) background m w1 = (None, tt)).
Proof.
  apply (feishu_send_exact (sdkAppAPI (lark_says (LarkResponse true "" 0 (Some (Some "img_1"%string))))) (λ _ _, Fail (new_error "no file"))
    background "u1" demo_image tt None tt demo_image_log).
  vm_compute. reflexivity.
Defined.

Example feishu_refused :
  SendFeishu (sdkAppAPI (lark_says (LarkResponse false "no" 230002 None))) (λ _ _, Fail (new_error "no file")) background "u"
    (plain_text_to "x" "oc_1" "hi") tt = (Some (new_error "feishu app create message failed: no (230002)"), tt).
Proof. vm_compute. reflexivity. Qed.
