(* ===== verification/FeishuApp.v ===== *)
(** * The Feishu callbacks: internal/gateway/feishu/app_support.go, app_mapper.go, app_handler.go

    Events and card actions come to two addresses; a callback is decrypted,
    answered if it is a challenge, authenticated, mapped to a channel message
    and given to the session router.

    What comes from the vendor's packages is the class [LarkCallbacks]:
    decryption, signatures, the names of headers, and the decoding of the two
    callback types, here with the members the code reads; a pointer is an
    option.  A panic is an absent result. *)
From Stdlib Require Import String Ascii.
From S2P Require Import Prelude GoStrings Strconv GoValue Transport GatewayTypes Router WebhookAuth Ingress FeishuBot FeishuClient.
From stdpp Require Import list.

Local Open Scope Z_scope.

Definition appAdapterName : string := "feishu_app".

(** ** The vendor's types *)
Record UserId := MkUserId { id_OpenId : option string; id_UserId : option string; id_UnionId : option string }.
Record EventSender := MkSender { es_SenderId : option UserId; es_TenantKey : option string }.
Record EventMessage := MkEventMessage {
  em_MessageId : option string; em_ChatId : option string; em_ThreadId : option string; em_ChatType : option string;
  em_MessageType : option string; em_Content : option string
}.
Record EventData := MkEventData { ed_Sender : option EventSender; ed_Message : option EventMessage }.

(** [p2_EventID]: the identifier of the header, when there is one;
    [p2_TenantKey]: what the method TenantKey returns, [None] for a panic. *)
Record MessageReceive := MkReceive { p2_EventID : option string; p2_TenantKey : option string; p2_Event : option EventData }.

Record CardActionItem := MkActionItem { ai_Tag : string; ai_Value : gvalue }.
Record CardAction := MkCardAction {
  ca_OpenID : string; ca_UserID : string; ca_OpenMessageID : string; ca_OpenChatId : string; ca_TenantKey : string;
  ca_Action : option CardActionItem
}.

Class LarkCallbacks := {
  lc_EventDecrypt : string → string → result string;
  (** Of a time stamp, a nonce, a key and a body. *)
  lc_EventSignature : string → string → string → string → string;
  lc_CardSignature : string → string → string → string → string;
  lc_RequestTimestamp : string;
  lc_RequestNonce : string;
  lc_SignatureHeader : string;
  lc_ReceiveIdTypeChatId : string;
  lc_decode_event : string → result MessageReceive;
  lc_decode_card : string → result CardAction;
  lc_encode_card : CardAction → result string;
  (** What JSON makes of an action. *)
  lc_action : option CardActionItem → gvalue
}.

(** ** app_support.go *)
Definition encrypt_field : list (field string) := [ string_field "encrypt" (λ v _, v) ].

Section app.
Context `{LarkCallbacks}.

Definition decryptEventBody (body encryptKey : string) : result string :=
  match Unmarshal encrypt_field EmptyString body with
  | Fail e => Fail e
  | Ok encrypt =>
    if bool_decide (encrypt = EmptyString) then Ok body
    else if bool_decide (encryptKey = EmptyString) then Fail (new_error "encrypt_key not found")
    else lc_EventDecrypt encrypt encryptKey
  end.

(** ** app_mapper.go *)
Definition strValue (v : option string) : string := default EmptyString v.

Fixpoint firstNonEmpty (values : list string) : string :=
  match values with
  | [] => EmptyString
  | v :: values => if negb (bool_decide (TrimSpace v = EmptyString)) then v else firstNonEmpty values
  end.

Definition sender_id (get : UserId → option string) (sender : option EventSender) : string :=
  match sender with Some s => match es_SenderId s with Some i => strValue (get i) | None => EmptyString end | None => EmptyString end.
Definition senderOpenID : option EventSender → string := sender_id id_OpenId.
Definition senderUserID : option EventSender → string := sender_id id_UserId.
Definition senderUnionID : option EventSender → string := sender_id id_UnionId.
Definition senderTenantKey (sender : option EventSender) : string :=
  match sender with Some s => strValue (es_TenantKey s) | None => EmptyString end.

(** One media item in place of a text. *)
Definition media_of (kind mediaID fileName : string) (req : StandardMessage) : StandardMessage :=
  set_sm_Media (Some [set_mi_FileName fileName (set_mi_MediaID mediaID (set_mi_Kind kind zero_media))])
    (set_sm_Text ("[" ++ kind ++ "]")%string (set_sm_MessageType kind req)).

Definition file_fields : list (field (string * string)) :=
  [ string_field "file_key" (λ v p, (v, p.2)); string_field "file_name" (λ v p, (p.1, v)) ].

Definition event_metadata (tenant : string) (eventID : option string) (sender : option EventSender) (m : EventMessage) : list (string * gvalue) :=
  [("event_id", GString (strValue eventID)); ("tenant_key", GString (firstNonEmpty [tenant; senderTenantKey sender]));
   ("chat_id", GString (strValue (em_ChatId m))); ("thread_id", GString (strValue (em_ThreadId m)));
   ("chat_type", GString (strValue (em_ChatType m))); ("open_id", GString (senderOpenID sender)); ("user_id", GString (senderUserID sender));
   ("union_id", GString (senderUnionID sender)); ("receive_id_type", GString lc_ReceiveIdTypeChatId)]%string.

Definition event_base (tenant : string) (eventID : option string) (sender : option EventSender) (m : EventMessage) : StandardMessage :=
  let open := senderOpenID sender in
  let user := senderUserID sender in
  let from := firstNonEmpty [open; user; senderUnionID sender] in
  let session := firstNonEmpty [strValue (em_ChatId m); open; user] in
  set_sm_SessionID (if bool_decide (session = EmptyString) then from else session) (set_sm_ChannelName appAdapterName
    (set_sm_MessageID (strValue (em_MessageId m)) (set_sm_SenderID from (set_sm_SenderName from
      (set_sm_Metadata (Some (event_metadata tenant eventID sender m)) (set_sm_RawContent (strValue (em_Content m)) zero_standard)))))).

(** The message by its type. *)
Definition event_content (m : EventMessage) (req : StandardMessage) : result StandardMessage :=
  let content := strValue (em_Content m) in
  let kind := TrimSpace (strValue (em_MessageType m)) in
  if bool_decide (kind = "text"%string) then
    text ← Unmarshal [ string_field "text" (λ v _, v) ] EmptyString content;
    Ok (set_sm_Text text (set_sm_Format FormatPlainText (set_sm_MessageType MessageTypeText req)))
  else if bool_decide (kind = "image"%string) then
    key ← Unmarshal [ string_field "image_key" (λ v _, v) ] EmptyString content; Ok (media_of "image" key EmptyString req)
  else if bool_decide (kind = "file"%string) then
    f ← Unmarshal file_fields (EmptyString, EmptyString) content; Ok (media_of "file" f.1 f.2 req)
  else Ok (set_sm_Text content (set_sm_MessageType "unknown" req)).

Definition mapMessageEvent (event : MessageReceive) : option (result StandardMessage) :=
  match p2_Event event with
  | Some (MkEventData sender (Some message)) =>
    tenant ← p2_TenantKey event;
    Some (event_content message (event_base tenant (p2_EventID event) sender message))
  | _ => Some (Fail (new_error "feishu message event is empty"))
  end.

Definition action_members (a : CardAction) : list (string * gvalue) :=
  [("open_message_id", GString (ca_OpenMessageID a)); ("open_chat_id", GString (ca_OpenChatId a)); ("open_id", GString (ca_OpenID a));
   ("user_id", GString (ca_UserID a)); ("tenant_key", GString (ca_TenantKey a))]%string.

Definition action_metadata (a : CardAction) : list (string * gvalue) :=
  action_members a ++
  match ca_Action a with
  | Some i => [("action_tag", GString (ai_Tag i)); ("action_value", ai_Value i)]%string
  | None => [("action_tag"%string, GString EmptyString)]
  end ++ [("receive_id_type"%string, GString lc_ReceiveIdTypeChatId)].

Definition mapCardAction (a : CardAction) : result StandardMessage :=
  body ← lc_encode_card a;
  let from := firstNonEmpty [ca_OpenID a; ca_UserID a] in
  Ok (set_sm_SessionID (firstNonEmpty [ca_OpenChatId a; ca_OpenID a; ca_UserID a]) (set_sm_ChannelName appAdapterName
    (set_sm_MessageID (ca_OpenMessageID a) (set_sm_SenderID from (set_sm_SenderName from (set_sm_Text "card_action" (set_sm_MessageType "event"
      (set_sm_Card (Some (action_members a ++ [("action"%string, lc_action (ca_Action a))])) (set_sm_RawContent body
        (set_sm_Metadata (Some (action_metadata a)) zero_standard)))))))))).

(** ** app_handler.go *)

(** [NewAppAdapter], without its client. *)
Definition NewFeishuAdapter (cfg : FeishuConfig) : result FeishuConfig :=
  let cfg := normalize_feishu cfg in match ValidateFeishu cfg with Some e => Fail e | None => Ok cfg end.

(** [Send] and [SendMessage] over the adapter's client. *)
Definition AppAdapterSend {W} (api : feishuAPI W) (read_file : string → W → result (list Z)) (c : ctx) (uuid : string) (msg : StandardMessage) (w : W) :
    option error * W := SendFeishu api read_file c uuid (named appAdapterName msg) w.
Definition AppAdapterSendMessage {W} (api : feishuAPI W) (read_file : string → W → result (list Z)) (c : ctx) (uuid sessionID text : string) (w : W) :
    option error * W := AppAdapterSend api read_file c uuid (plain_text_to appAdapterName sessionID text) w.

Record challengeBody := MkChallenge { cb_Type : string; cb_Token : string; cb_Challenge : string }.
Definition challenge_fields : list (field challengeBody) :=
  [ string_field "type" (λ v b, MkChallenge v (cb_Token b) (cb_Challenge b));
    string_field "token" (λ v b, MkChallenge (cb_Type b) v (cb_Challenge b));
    string_field "challenge" (λ v b, MkChallenge (cb_Type b) (cb_Token b) v) ].
Definition zero_challenge : challengeBody := MkChallenge EmptyString EmptyString EmptyString.

(** The header's token, when there is a header. *)
Definition header_field : list (field (option string)) :=
  [ ("header"%string, λ t a, match parse t with
                             | Some JNull => Ok None
                             | _ => v ← struct_value false [ string_field "token" (λ v _, v) ] t (default EmptyString a); Ok (Some v)
                             end) ].

(** What a callback's body is: a text, a challenge to answer, or refused, with
    whether it is for its signature or token. *)
Inductive feishuParsed :=
| Plain (plain : string)
| Challenge (challenge : string)
| Rejected (unauthorized : bool).

(** [header]: the request's [Header.Get]. *)
Definition signed_by (sign : string → string → string → string → string) (header : string → string) (key body : string) : bool :=
  bool_decide (sign (header lc_RequestTimestamp) (header lc_RequestNonce) key body = header lc_SignatureHeader).

Definition token_known (cfg : FeishuConfig) (plain : string) : feishuParsed :=
  match Unmarshal header_field None plain with
  | Fail _ => Rejected false
  | Ok (Some token) =>
    if negb (bool_decide (token = EmptyString)) && negb (bool_decide (token = fc_VerificationToken cfg)) then Rejected true else Plain plain
  | Ok None => Plain plain
  end.

(** The common start of both parsers; [rest] is what follows when there is no
    challenge. *)
Definition parse_challenge (cfg : FeishuConfig) (body : string) (rest : string → feishuParsed) : feishuParsed :=
  match decryptEventBody body (fc_EncryptKey cfg) with
  | Fail _ => Rejected false
  | Ok plain =>
    match Unmarshal challenge_fields zero_challenge plain with
    | Fail _ => Rejected false
    | Ok ch =>
      if negb (bool_decide (cb_Challenge ch = EmptyString)) then
        if negb (bool_decide (cb_Token ch = fc_VerificationToken cfg)) then Rejected true else Challenge (cb_Challenge ch)
      else rest plain
    end
  end.

Definition parseEventBody (cfg : FeishuConfig) (header : string → string) (body : string) : feishuParsed :=
  parse_challenge cfg body (λ plain,
    if negb (bool_decide (fc_EncryptKey cfg = EmptyString)) && negb (signed_by lc_EventSignature header (fc_EncryptKey cfg) body)
    then Rejected true else token_known cfg plain).

Definition parseCardBody (cfg : FeishuConfig) (header : string → string) (body : string) : feishuParsed :=
  parse_challenge cfg body (λ plain,
    if negb (bool_decide (fc_VerificationToken cfg = EmptyString)) && negb (signed_by lc_CardSignature header (fc_VerificationToken cfg) body)
    then Rejected true else Plain plain).

Definition event_request (plain : string) : option (result StandardMessage) :=
  match lc_decode_event plain with Fail e => Some (Fail e) | Ok event => mapMessageEvent event end.
Definition card_request (plain : string) : option (result StandardMessage) :=
  Some (a ← lc_decode_card plain; mapCardAction a).

Definition challenge_response (challenge : string) : Response :=
  MkResponse 200 [("Content-Type", "application/json")]%string (print (encode_value (GObj [("challenge"%string, GString challenge)])) ++ eol)%string.

Context {T : Type} `{Transport T}.

(** Both handlers, over a parser and a mapping; no response is a panic. *)
Definition handle_callback (parse : string → feishuParsed) (mapper : string → option (result StandardMessage)) (body : result string)
    (c : ctx) (now_ns t : Z) (ro : SessionRouter T) : option Response * SessionRouter T :=
  match body with
  | Fail _ => (Some (http_error "invalid body" 400), ro)
  | Ok body =>
    match parse body with
    | Rejected true => (Some (http_error "invalid signature" 401), ro)
    | Rejected false => (Some (http_error "invalid callback" 400), ro)
    | Challenge challenge => (Some (challenge_response challenge), ro)
    | Plain plain =>
      match mapper plain with
      | None => (None, ro)
      | Some (Fail _) => (Some (http_error "invalid callback" 400), ro)
      | Some (Ok req) =>
        match DispatchIncoming c req now_ns t ro with
        | (Fail _, ro) => (Some (http_error "enqueue failed" 502), ro)
        | (Ok _, ro) => (Some (MkResponse 200 [] EmptyString), ro)
        end
      end
    end
  end.

Definition EventHandler (cfg : FeishuConfig) (header : string → string) : result string → ctx → Z → Z → SessionRouter T → option Response * SessionRouter T :=
  handle_callback (parseEventBody cfg header) event_request.
Definition CardHandler (cfg : FeishuConfig) (header : string → string) : result string → ctx → Z → Z → SessionRouter T → option Response * SessionRouter T :=
  handle_callback (parseCardBody cfg header) card_request.
End app.

(** ** What is let in *)
Section exactness.
Context `{LarkCallbacks}.

Definition unchallenged (cfg : FeishuConfig) (body plain : string) : Prop :=
  decryptEventBody body (fc_EncryptKey cfg) = Ok plain ∧
  ∃ ch, Unmarshal challenge_fields zero_challenge plain = Ok ch ∧ cb_Challenge ch = EmptyString.

(** An event: signed with the encryption key if there is one, and with the
    verification token in its header if that has a token. *)
Definition event_let_in (cfg : FeishuConfig) (header : string → string) (body plain : string) : Prop :=
  unchallenged cfg body plain ∧
  (fc_EncryptKey cfg ≠ EmptyString → signed_by lc_EventSignature header (fc_EncryptKey cfg) body = true) ∧
  ∃ token, Unmarshal header_field None plain = Ok token ∧ (default EmptyString token ≠ EmptyString → token = Some (fc_VerificationToken cfg)).

(** A card action: signed with the verification token if there is one. *)
Definition card_let_in (cfg : FeishuConfig) (header : string → string) (body plain : string) : Prop :=
  unchallenged cfg body plain ∧
  (fc_VerificationToken cfg ≠ EmptyString → signed_by lc_CardSignature header (fc_VerificationToken cfg) body = true).

Lemma parse_challenge_plain cfg body rest plain :
  parse_challenge cfg body rest = Plain plain ↔ ∃ p, unchallenged cfg body p ∧ rest p = Plain plain.
Proof.
  unfold parse_challenge, unchallenged. destruct (decryptEventBody body _) as [p|e]; [|naive_solver].
  destruct (Unmarshal challenge_fields _ p) as [ch|e] eqn:Hc; [|split; [done|intros (? & ([= <-] & ? & ? & _) & _); congruence]].
  case_bool_decide as Hch; cbn [negb].
  - split; [intros Hr; eauto 10|]. by intros (? & ([= <-] & _) & Hr).
  - split; [by case_bool_decide|]. intros (? & ([= <-] & ch' & Hc' & Hno) & _). congruence.
Qed.

Lemma event_parsed cfg header body plain : parseEventBody cfg header body = Plain plain ↔ event_let_in cfg header body plain.
Proof.
  unfold parseEventBody, event_let_in. rewrite parse_challenge_plain. split.
  - intros (p & Hp & Hr). destruct (_ && _) eqn:Hs in Hr; [done|]. unfold token_known in Hr.
    destruct (Unmarshal header_field None p) as [token|] eqn:Ht; [|done].
    assert (p = plain ∧ (default EmptyString token ≠ EmptyString → token = Some (fc_VerificationToken cfg))) as [-> Hok].
    { destruct token as [token|]; [|by injection Hr]. repeat case_bool_decide; cbn in Hr; simplify_eq; by split. }
    split_and!; [done| |eauto]. intros Hk. rewrite bool_decide_eq_false_2 in Hs by done. by apply negb_false_iff in Hs.
  - intros (Hp & Hs & token & Ht & Hok). exists plain. split; [done|].
    assert (negb (bool_decide (fc_EncryptKey cfg = EmptyString)) && negb (signed_by lc_EventSignature header (fc_EncryptKey cfg) body) = false) as ->.
    { case_bool_decide as Hk; [done|]. by rewrite (Hs Hk). }
    unfold token_known. rewrite Ht. destruct token as [token|]; [|done]. case_bool_decide as He; [done|]. cbn.
    injection (Hok He) as ->. by rewrite bool_decide_eq_true_2.
Qed.

Lemma card_parsed cfg header body plain : parseCardBody cfg header body = Plain plain ↔ card_let_in cfg header body plain.
Proof.
  unfold parseCardBody, card_let_in. rewrite parse_challenge_plain. split.
  - intros (p & Hp & Hr). destruct (_ && _) eqn:Hs in Hr; [done|]. injection Hr as ->. split; [done|]. intros Hk.
    rewrite bool_decide_eq_false_2 in Hs by done. by apply negb_false_iff in Hs.
  - intros (Hp & Hs). exists plain. split; [done|]. case_bool_decide as Hk; [done|]. cbn. by rewrite (Hs Hk).
Qed.

Context {T : Type} `{Transport T}.

(** A handler dispatches what its parser lets in and its mapper maps, and
    nothing else. *)
Lemma handled parse mapper body c now_ns t (ro : SessionRouter T) (P : string → string → Prop) :
  (∀ b p, parse b = Plain p ↔ P b p) →
  let '(resp, ro') := handle_callback parse mapper body c now_ns t ro in
  (∃ b plain req, body = Ok b ∧ P b plain ∧ mapper plain = Some (Ok req) ∧
     ro' = (DispatchIncoming c req now_ns t ro).2 ∧
     resp = Some (if is_ok (DispatchIncoming c req now_ns t ro).1 then MkResponse 200 [] EmptyString else http_error "enqueue failed" 502)) ∨
  ((¬ ∃ b plain req, body = Ok b ∧ P b plain ∧ mapper plain = Some (Ok req)) ∧ ro' = ro).
Proof.
  intros HP. unfold handle_callback. destruct body as [b|e]; [|right; naive_solver].
  destruct (parse b) as [plain|ch|u] eqn:Hp.
  - destruct (mapper plain) as [[req|e]|] eqn:Hm.
    + destruct (DispatchIncoming c req now_ns t ro) as [[id|e] ro1] eqn:Hd; left; exists b, plain, req;
        rewrite Hd; split_and!; try done; by apply HP.
    + right. split; [|done]. intros (b' & p & req & [= <-] & Hl%HP & Hm'). congruence.
    + right. split; [|done]. intros (b' & p & req & [= <-] & Hl%HP & Hm'). congruence.
  - right. split; [|done]. intros (b' & p & req & [= <-] & Hl%HP & Hm'). congruence.
  - destruct u; right; (split; [|done]); intros (b' & p & req & [= <-] & Hl%HP & Hm'); congruence.
Qed.

(** C19: An event, or a card action, is dispatched exactly when it decrypts to a text
    that is no challenge, is let in, and is mapped to a message; the message is
    given to the router and the response is 502 if its queue refuses it and 200
    otherwise.  Every other callback leaves the router as it is.  With an
    encryption key every event is signed with it; a card action is always
    signed once there is a verification token; but without an encryption key
    an event whose header names no token is let in by anyone. *)
Theorem feishu_callback_exact (event : bool) cfg header body c now_ns t (ro : SessionRouter T) :
  let handler := if event then EventHandler cfg header else CardHandler cfg header in
  let let_in := if event then event_let_in cfg header else card_let_in cfg header in
  let mapper := if event then event_request else card_request in
  let '(resp, ro') := handler body c now_ns t ro in
  (∃ b plain req, body = Ok b ∧ let_in b plain ∧ mapper plain = Some (Ok req) ∧
     ro' = (DispatchIncoming c req now_ns t ro).2 ∧
     resp = Some (if is_ok (DispatchIncoming c req now_ns t ro).1 then MkResponse 200 [] EmptyString else http_error "enqueue failed" 502)) ∨
  ((¬ ∃ b plain req, body = Ok b ∧ let_in b plain ∧ mapper plain = Some (Ok req)) ∧ ro' = ro).
Proof. destruct event; apply handled; intros; [apply event_parsed|apply card_parsed]. Qed.

(** A challenge is answered only to who knows the verification token. *)
Lemma challenge_token cfg header body ch :
  parseEventBody cfg header body = Challenge ch ∨ parseCardBody cfg header body = Challenge ch →
  ∃ plain c, decryptEventBody body (fc_EncryptKey cfg) = Ok plain ∧ Unmarshal challenge_fields zero_challenge plain = Ok c ∧
    cb_Token c = fc_VerificationToken cfg ∧ cb_Challenge c = ch.
Proof.
  unfold parseEventBody, parseCardBody, parse_challenge. destruct (decryptEventBody body _) as [p|e]; [|naive_solver].
  destruct (Unmarshal challenge_fields _ p) as [c|e] eqn:Hc; [|naive_solver]. case_bool_decide; cbn [negb].
  - unfold token_known. intros [Hx|Hx]; destruct (_ && _) in Hx; try done. destruct (Unmarshal header_field _ _) as [[tok|]|]; try done.
    by destruct (_ && _) in Hx.
  - case_bool_decide as Ht; cbn [negb]; [|naive_solver]. intros Hx. exists p, c. split_and!; [done..|]. naive_solver.
Qed.
End exactness.

(** ** A sample: the vendor's package as it reads one event *)
Definition demo_receive (content : string) : MessageReceive :=
  MkReceive (Some "evt-1"%string) (Some EmptyString)
    (Some (MkEventData (Some (MkSender (Some (MkUserId (Some "ou_1"%string) None None)) None))
      (Some (MkEventMessage (Some "om_1"%string) (Some "oc_1"%string) None None (Some " text "%string) (Some content))))).

Definition demo_lark : LarkCallbacks := {|
  lc_EventDecrypt := λ s _, Ok s;
  lc_EventSignature := λ t n k b, (t ++ n ++ k ++ b)%string;
  lc_CardSignature := λ t n k b, (t ++ n ++ k ++ b)%string;
  lc_RequestTimestamp := "T"; lc_RequestNonce := "N"; lc_SignatureHeader := "S"; lc_ReceiveIdTypeChatId := "chat_id";
  lc_decode_event := λ _, Ok (demo_receive (jtext "{'text':'pay them'}"));
  lc_decode_card := λ _, Fail (new_error "no card");
  lc_encode_card := λ _, Fail (new_error "no card");
  lc_action := λ _, GNil |}.

Definition demo_feishu : FeishuConfig := MkFeishuConfig "cli" "secret" "verify-token" "" "" "" "" 0.
Definition no_header : string → string := λ _, EmptyString.

(** An event with no token in its header passes, although a verification token
    is configured and required. *)
Example event_without_token :
  (EventHandler (H := demo_lark) (H0 := fake_transport (λ l, l)) demo_feishu no_header (Ok (jtext "{'header':{},'event':{}}")) background 5 7 router_demo).1 =
  Some (MkResponse 200 [] EmptyString).
Proof. vm_compute. reflexivity. Qed.

Example event_with_wrong_token :
  (EventHandler (H := demo_lark) (H0 := fake_transport (λ l, l)) demo_feishu no_header (Ok (jtext "{'header':{'token':'x'},'event':{}}")) background 5 7 router_demo).1 =
  Some (http_error "invalid signature" 401).
Proof. vm_compute. reflexivity. Qed.

Example event_challenged :
  (EventHandler (H := demo_lark) (H0 := fake_transport (λ l, l)) demo_feishu no_header
     (Ok (jtext "{'challenge':'c','token':'verify-token','type':'url_verification'}")) background 5 7 router_demo).1 =
  Some (challenge_response "c").
Proof. vm_compute. reflexivity. Qed.

Example event_mapped :
  ∃ req, event_request (H := demo_lark) EmptyString = Some (Ok req) ∧ sm_Text req = "pay them"%string ∧ sm_SessionID req = "oc_1"%string ∧
    sm_SenderID req = "ou_1"%string ∧ sm_MessageType req = "text"%string.
Proof. eexists. split_and!; vm_compute; reflexivity. Qed.
