(* ===== verification/DingtalkClient.v ===== *)
(** * The DingTalk application client: internal/gateway/dingtalk/app_client.go

    Where a message is sent (a conversation, or a work notice to users), as what
    (an interactive card, a card of the older kind, text, Markdown, media), with
    which token.  The API behind it ([appAPI], an interface of the code) acts on
    a world of its own; so does reading a file.  The implementation of that
    interface over the vendor's SDK is not modelled.

    The conversion of a float that is out of the integer's range is the
    implementation's choice in Go, so it is a parameter. *)
From Stdlib Require Import String Ascii.
From S2P Require Import Prelude GoStrings Strconv GoValue Sprint Sha256 Cipher GatewayTypes Callback Dingtalk TokenCache WecomClient.
From stdpp Require Import list.

Local Open Scope Z_scope.

Abbreviation blank := Dingtalk.blank.

(** ** Values of the metadata *)

(** A member of a map, nil when it is missing or the map is. *)
Definition member (k : string) (ms : gmembers) : gvalue := default GNil (get_key k (default [] ms)).

Definition stringValue (v : gvalue) : string :=
  match v with
  | GNil => EmptyString
  | GString s => TrimSpace s
  | v => TrimSpace (Sprint v)
  end.

Definition boolValue (v : gvalue) : bool :=
  match v with
  | GBool b => b
  | GString s => default false (ParseBool (TrimSpace s))
  | _ => false
  end.

(** [strings.Split(s, ",")] *)
Fixpoint split_comma (s : string) : list string :=
  match s with
  | EmptyString => [EmptyString]
  | String c r =>
    if bool_decide (c = ","%char) then EmptyString :: split_comma r
    else match split_comma r with a :: l => String c a :: l | [] => [String c EmptyString] end
  end.

Definition non_empty (s : string) : bool := negb (bool_decide (s = EmptyString)).
Definition keep_non_empty (l : list string) : list string := filter (λ s, s ≠ EmptyString) l.

Definition stringListValue (v : gvalue) : list string :=
  match v with
  | GNil => []
  | GString s => keep_non_empty (map TrimSpace (split_comma s))
  | GSlice l => keep_non_empty (map stringValue l)
  | v => keep_non_empty [stringValue v]
  end.

(** A float truncated towards zero. *)
Definition float_trunc (lit : string) : Z :=
  let '(neg, m, e) := literal_value lit in
  let '(f, b) := nearest_float m e in
  let z := if b <? 0 then f / 2 ^ (- b) else f * 2 ^ b in
  if neg then - z else z.

Definition in_int32 (z : Z) : bool := (- 2 ^ 31 <=? z) && (z <=? 2 ^ 31 - 1).
(** [int32(z)] of a 64-bit integer. *)
Definition wrap32 (z : Z) : Z := (z + 2 ^ 31) mod 2 ^ 32 - 2 ^ 31.

Definition uniqueStrings (values : list string) : list string :=
  (foldl (λ st v, if bool_decide (v ∈ st.1) then st else ({[v]} ∪ st.1, st.2 ++ [v])) ((∅ : gset string), []) values).2.
Definition uniqueInt64s (values : list Z) : list Z :=
  (foldl (λ st v, if bool_decide (v ∈ st.1) then st else ({[v]} ∪ st.1, st.2 ++ [v])) ((∅ : gset Z), []) values).2.

Definition isConversationID (value : string) : bool := HasPrefix (TrimSpace value) "cid".

(** [mapValue] with [cloneAnyMap]: the clone of an empty map is nil. *)
Definition cloneAnyMap (l : list (string * gvalue)) : gvalue := match l with [] => GNil | _ => GObj l end.
Definition mapValue (v : gvalue) : option gvalue := match v with GObj l => Some (cloneAnyMap l) | _ => None end.

(** The Go type of a value, as %T writes it. *)
Definition type_name (v : gvalue) : string :=
  match v with
  | GNil => "<nil>" | GBool _ => "bool" | GNum _ => "float64" | GInt _ => "int64" | GString _ => "string"
  | GSlice _ => "[]interface {}" | GObj _ => "map[string]interface {}"
  end.

(** A [map[string]string], nil or not. *)
Definition toStringMap (v : gvalue) : result (option (list (string * string))) :=
  match v with
  | GNil => Ok None
  | GObj l => Ok (Some (map (λ m, (m.1, stringValue m.2)) l))
  | v => Fail (new_error ("expected map value, got " ++ type_name v))
  end.

(** ** Targets *)
Record dingTalkTarget := Target {
  dt_ConversationID : string;
  dt_ConversationSender : string;
  dt_UserIDs : list string;
  dt_DeptIDs : list Z;
  dt_ToAllUser : bool
}.

Definition hasConversation (t : dingTalkTarget) : bool := negb (blank (dt_ConversationID t)) && negb (blank (dt_ConversationSender t)).
Definition hasWorkNotice (t : dingTalkTarget) : bool :=
  dt_ToAllUser t || negb (bool_decide (dt_UserIDs t = [])) || negb (bool_decide (dt_DeptIDs t = [])).

Section target.
(** [int64(f)] and [int32(f)] for a float out of range. *)
Variable convert64 convert32 : Z → Z.

Definition float_int64 (lit : string) : Z := let z := float_trunc lit in if in_range64 z then z else convert64 z.
Definition float_int32 (lit : string) : Z := let z := float_trunc lit in if in_int32 z then z else convert32 z.

Definition int64_item (v : gvalue) : option Z :=
  match v with
  | GInt z => Some z
  | GNum lit => Some (float_int64 lit)
  | GString s => ParseInt (TrimSpace s)
  | _ => None
  end.

Definition int64ListValue (v : gvalue) : list Z :=
  match v with
  | GInt z => [z]
  | GNum lit => [float_int64 lit]
  | GString s => omap (λ p, ParseInt (TrimSpace p)) (split_comma s)
  | GSlice l => omap int64_item l
  | _ => []
  end.

(** [strconv.ParseInt(s, 10, 32)] *)
Definition parse_int32 (s : string) : option Z := z ← ParseInt s; if in_int32 z then Some z else None.

Definition int32Value (v : gvalue) : option Z :=
  match v with
  | GInt z => Some (wrap32 z)
  | GNum lit => Some (float_int32 lit)
  | GString s => parse_int32 (TrimSpace s)
  | _ => None
  end.

(** The first list that is not empty. *)
Fixpoint first_list (ls : list (list string)) : list string :=
  match ls with [] => [] | [] :: ls => first_list ls | l :: _ => l end.

Definition as_user (id : string) : list string := if negb (blank id) && negb (isConversationID id) then [TrimSpace id] else [].

Definition resolveDingTalkTarget (msg : StandardMessage) : dingTalkTarget :=
  let md k := member k (sm_Metadata msg) in
  Target
    (TrimSpace (firstNonEmpty [stringValue (md "conversationId"); stringValue (md "cid"); sm_SessionID msg]))
    (TrimSpace (firstNonEmpty [stringValue (md "chatbotUserId"); stringValue (md "chatBotId"); stringValue (md "sender")]))
    (uniqueStrings (first_list [stringListValue (md "dingtalk_userid_list"); stringListValue (md "userid_list");
       stringListValue (md "receiverUserIdList"); stringListValue (md "senderStaffId"); as_user (sm_ReceiverID msg); as_user (sm_SessionID msg)]))
    (uniqueInt64s (int64ListValue (md "dingtalk_dept_id_list")))
    (boolValue (md "dingtalk_to_all_user")).

(** ** Interactive cards *)
Record appInteractiveCardRequest := CardRequest {
  ir_OpenConversationID : string;
  ir_ConversationType : Z;
  ir_CardTemplateID : string;
  ir_OutTrackID : string;
  ir_CallbackRouteKey : string;
  ir_ChatBotID : string;
  ir_CardParamMap : option (list (string * string));
  ir_CardMediaIDParamMap : option (list (string * string));
  ir_SupportForward : bool
}.

Definition positive (v : option Z) : option Z := z ← v; if 0 <? z then Some z else None.

(** [id]: the client's generated identifier; [None] is no card. *)
Definition buildInteractiveCardRequest (cfg : AppConfig) (id : string) (msg : StandardMessage) (target : dingTalkTarget) :
    result (option appInteractiveCardRequest) :=
  let card k := member k (sm_Card msg) in
  let cardTemplateID := TrimSpace (firstNonEmpty [stringValue (card "cardTemplateId"); stringValue (card "card_template_id"); ac_CardTemplateID cfg]) in
  if bool_decide (cardTemplateID = EmptyString) then Ok None
  else if negb (hasConversation target) then Fail (new_error "dingtalk interactive card requires conversation target")
  else
    cardParamMap ← toStringMap (card "cardParamMap");
    cardMediaIDParamMap ← toStringMap (card "cardMediaIdParamMap");
    let conversationType :=
      match positive (int32Value (card "conversationType")) with
      | Some z => z
      | None => default 2 (positive (int32Value (member "conversationType" (sm_Metadata msg))))
      end in
    let supportForward :=
      boolValue (card "supportForward") ||
      match card "cardOptions" with GObj options => boolValue (member "supportForward" (Some options)) | _ => false end in
    Ok (Some (CardRequest (dt_ConversationID target) conversationType cardTemplateID
      (TrimSpace (firstNonEmpty [stringValue (card "outTrackId"); id]))
      (TrimSpace (firstNonEmpty [stringValue (card "callbackRouteKey"); ac_CardCallbackRouteKey cfg]))
      (dt_ConversationSender target) cardParamMap cardMediaIDParamMap supportForward)).
End target.

(** ** Older messages *)
Definition effectiveDingTalkMessageType (msg : StandardMessage) : string :=
  let by_content :=
    if bool_decide (sm_Format msg = FormatMarkdown) then "markdown"%string
    else match sm_Media msg with
    | Some (m :: _) =>
      if bool_decide (mi_Kind m = "image"%string) then "image"%string
      else if bool_decide (mi_Kind m = "audio"%string) then "voice"%string
      else if bool_decide (mi_Kind m = "video"%string) then "video"%string
      else if bool_decide (mi_Kind m = "file"%string) then "file"%string
      else "text"%string
    | _ => "text"%string
    end in
  let kind := sm_MessageType msg in
  if bool_decide (kind = "markdown"%string) then "markdown"%string
  else if bool_decide (kind = "image"%string) then "image"%string
  else if bool_decide (kind = "audio"%string) then "voice"%string
  else if bool_decide (kind = "video"%string) then "video"%string
  else if bool_decide (kind = "file"%string) then "file"%string
  else if bool_decide (kind = "text"%string) then (if bool_decide (sm_Format msg = FormatMarkdown) then "markdown"%string else "text"%string)
  else by_content.

Definition normalizeLegacyMsgType (value : string) : string :=
  let t := TrimSpace (ToLower value) in
  if bool_decide (t ∈ ["actioncard"; "action_card"]%string) then "action_card"%string
  else if bool_decide (t ∈ ["text"; "markdown"; "image"; "voice"; "video"; "file"; "link"; "oa"]%string) then t
  else EmptyString.

Definition typed_payload (t : string) (payload : gvalue) : gvalue := GObj [("msgtype"%string, GString t); (t, payload)].

Definition remove_key (k : string) (l : list (string * gvalue)) : list (string * gvalue) := filter (λ m, m.1 ≠ k) l.

Definition buildLegacyCardPayload (c : gmembers) : option gvalue :=
  match c with
  | None | Some [] => None
  | Some card =>
    let at_ k := mapValue (default GNil (get_key k card)) in
    match at_ "action_card"%string, at_ "actionCard"%string, at_ "link"%string, at_ "oa"%string with
    | Some p, _, _, _ | None, Some p, _, _ => Some (typed_payload "action_card" p)
    | None, None, Some p, _ => Some (typed_payload "link" p)
    | None, None, None, Some p => Some (typed_payload "oa" p)
    | None, None, None, None =>
      let rawType := normalizeLegacyMsgType (stringValue (default GNil (get_key "msgtype" card))) in
      if bool_decide (rawType = EmptyString) then None
      else
        let payload := put "msgtype" (GString rawType) card in
        Some (GObj (if bool_decide (rawType = "action_card"%string) then
                      match get_key "actionCard" payload with
                      | Some v => remove_key "actionCard" (put "action_card" v payload)
                      | None => payload
                      end
                    else payload))
    end
  end.

(** ** The client *)
Record appUploadMediaRequest := UploadRequest { up_MediaType : string; up_FileName : string; up_Content : list Z }.
Record appConversationRequest := ConversationRequest { cq_Sender : string; cq_CID : string; cq_Msg : gvalue }.
Record appWorkNoticeRequest := WorkNoticeRequest {
  wq_AgentID : Z; wq_UserIDList : list string; wq_DeptIDList : list Z; wq_ToAllUser : bool; wq_Msg : gvalue
}.

(** [appAPI] *)
Record appAPI (W : Type) := AppAPI {
  api_GetAccessToken : ctx → W → result (string * Z) * W;
  api_SendConversation : ctx → string → appConversationRequest → W → option error * W;
  api_SendInteractiveCard : ctx → string → appInteractiveCardRequest → W → option error * W;
  api_SendWorkNotice : ctx → string → appWorkNoticeRequest → W → option error * W;
  api_UploadMedia : ctx → string → appUploadMediaRequest → W → result string * W
}.
Arguments AppAPI {W} _ _ _ _ _.
Arguments api_GetAccessToken {W} _ _ _.
Arguments api_SendConversation {W} _ _ _ _ _.
Arguments api_SendInteractiveCard {W} _ _ _ _ _.
Arguments api_SendWorkNotice {W} _ _ _ _ _.
Arguments api_UploadMedia {W} _ _ _ _ _.

Definition grant_token (r : string * Z) : result string :=
  if blank r.1 then Fail (new_error "dingtalk app access token is empty") else Ok r.1.

(** Five minutes when the answer has no lifetime; otherwise its seconds less a
    minute, or all of them when that leaves none. *)
Definition grant_lifetime (r : string * Z) : Z :=
  if 0 <? r.2 then
    let safeSeconds := wrap64 (r.2 - 60) in
    wrap64 ((if safeSeconds <=? 0 then r.2 else safeSeconds) * second)
  else 300 * second.

Section client.
Context {W : Type}.
Variable api : appAPI W.
Variable read_file : string → W → result (list Z).
Variable convert64 convert32 : Z → Z.
Variable cfg : AppConfig.

Definition AppToken : token_call → token_cache * W → result string * (token_cache * W) :=
  getAccessToken (api_GetAccessToken api) grant_token grant_lifetime.

Definition mediaBytes (m : MediaItem) (w : W) : result (list Z * string) :=
  let name fallback := let n := TrimSpace (mi_FileName m) in if bool_decide (n = EmptyString) then fallback else n in
  if negb (blank (mi_Path m)) then
    content ← read_file (mi_Path m) w; Ok (content, name (path_base (mi_Path m)))
  else if negb (blank (mi_DataBase64 m)) then
    match base64_decode (mi_DataBase64 m) with
    | None => Fail Dingtalk.err_base64
    | Some content => Ok (content, name "upload.bin"%string)
    end
  else Fail (new_error "dingtalk media requires media_id, path or data_base64").

Definition resolveMedia (c : ctx) (token msgType : string) (m : MediaItem) (w : W) : result string * W :=
  if negb (blank (mi_MediaID m)) then (Ok (mi_MediaID m), w)
  else match mediaBytes m w with
  | Fail e => (Fail e, w)
  | Ok (content, fileName) => api_UploadMedia api c token (UploadRequest msgType fileName content) w
  end.

Definition video_extra (m : MediaItem) : list (string * gvalue) :=
  (if non_empty (mi_ThumbnailMediaID m) then [("thumb_media_id", GString (mi_ThumbnailMediaID m))] else []) ++
  (if non_empty (mi_Title m) then [("title", GString (mi_Title m))] else []) ++
  (if non_empty (mi_Description m) then [("message", GString (mi_Description m))] else []).

Definition buildLegacyMessage (c : ctx) (token : string) (msg : StandardMessage) (w : W) : result gvalue * W :=
  match buildLegacyCardPayload (sm_Card msg) with
  | Some payload => (Ok payload, w)
  | None =>
    let msgType := effectiveDingTalkMessageType msg in
    if bool_decide (msgType = "markdown"%string) then
      (Ok (typed_payload "markdown" (GObj [("title", GString (TrimSpace (stringValue (member "title" (sm_Metadata msg)))));
                                           ("text", GString (sm_Text msg))]%string)), w)
    else if bool_decide (msgType = "text"%string) then (Ok (typed_payload "text" (GObj [("content"%string, GString (sm_Text msg))])), w)
    else match sm_Media msg with
    | Some (m :: _) =>
      match resolveMedia c token msgType m w with
      | (Fail e, w) => (Fail e, w)
      | (Ok mediaID, w) =>
        (Ok (typed_payload msgType (GObj (("media_id"%string, GString mediaID) ::
               if bool_decide (msgType = "video"%string) then video_extra m else []))), w)
      end
    | _ => (Fail (new_error ("dingtalk " ++ msgType ++ " message requires media")), w)
    end
  end.

(** [id]: the generated identifier of a card. *)
Definition SendApp (k : token_call) (id : string) (msg : StandardMessage) (st : token_cache * W) : option error * (token_cache * W) :=
  let target := resolveDingTalkTarget convert64 msg in
  match buildInteractiveCardRequest convert32 cfg id msg target with
  | Fail e => (Some e, st)
  | Ok card =>
    if bool_decide (card = None) && negb (hasConversation target) && negb (hasWorkNotice target)
    then (Some (new_error "dingtalk app receive target is required"), st)
    else match AppToken k st with
    | (Fail e, st) => (Some e, st)
    | (Ok token, (s, w)) =>
      match card with
      | Some req => let '(err, w) := api_SendInteractiveCard api (tk_ctx k) token req w in (err, (s, w))
      | None =>
        match buildLegacyMessage (tk_ctx k) token msg w with
        | (Fail e, w) => (Some e, (s, w))
        | (Ok payload, w) =>
          if hasConversation target then
            let '(err, w) := api_SendConversation api (tk_ctx k) token
              (ConversationRequest (dt_ConversationSender target) (dt_ConversationID target) payload) w in (err, (s, w))
          else if ac_AgentID cfg <=? 0 then (Some (new_error "dingtalk app agent id must be positive"), (s, w))
          else
            let '(err, w) := api_SendWorkNotice api (tk_ctx k) token
              (WorkNoticeRequest (ac_AgentID cfg) (dt_UserIDs target) (dt_DeptIDs target) (dt_ToAllUser target) payload) w in (err, (s, w))
        end
      end
    end
  end.
End client.

(** ** What is asked of the API *)
Inductive api_call :=
| CallToken
| CallUpload (token : string) (req : appUploadMediaRequest)
| CallConversation (token : string) (req : appConversationRequest)
| CallCard (token : string) (req : appInteractiveCardRequest)
| CallNotice (token : string) (req : appWorkNoticeRequest).

(** An API that also writes down its calls. *)
Definition recorded {W} (a : appAPI W) : appAPI (W * list api_call) :=
  AppAPI
    (λ c st, let '(r, w) := api_GetAccessToken a c st.1 in (r, (w, st.2 ++ [CallToken])))
    (λ c t req st, let '(e, w) := api_SendConversation a c t req st.1 in (e, (w, st.2 ++ [CallConversation t req])))
    (λ c t req st, let '(e, w) := api_SendInteractiveCard a c t req st.1 in (e, (w, st.2 ++ [CallCard t req])))
    (λ c t req st, let '(e, w) := api_SendWorkNotice a c t req st.1 in (e, (w, st.2 ++ [CallNotice t req])))
    (λ c t req st, let '(r, w) := api_UploadMedia a c t req st.1 in (r, (w, st.2 ++ [CallUpload t req]))).

(** A call that sends the message, and to whom it does. *)
Definition sends_to (target : dingTalkTarget) (x : api_call) : Prop :=
  match x with
  | CallConversation _ req => hasConversation target = true ∧ cq_CID req = dt_ConversationID target ∧ cq_Sender req = dt_ConversationSender target
  | CallCard _ req => hasConversation target = true ∧ ir_OpenConversationID req = dt_ConversationID target
  | CallNotice _ req => hasConversation target = false ∧ hasWorkNotice target = true ∧ 0 < wq_AgentID req ∧
      wq_UserIDList req = dt_UserIDs target ∧ wq_DeptIDList req = dt_DeptIDs target ∧ wq_ToAllUser req = dt_ToAllUser target
  | _ => False
  end.

Definition is_preparation (x : api_call) : Prop := match x with CallToken | CallUpload _ _ => True | _ => False end.

Lemma card_addressed convert32 cfg id msg target req :
  buildInteractiveCardRequest convert32 cfg id msg target = Ok (Some req) →
  hasConversation target = true ∧ ir_OpenConversationID req = dt_ConversationID target.
Proof.
  unfold buildInteractiveCardRequest. case_bool_decide; [done|]. destruct (hasConversation target); [|done]. cbn [negb].
  destruct (toStringMap (member "cardParamMap" _)) as [m1|]; [|done]. destruct (toStringMap (member "cardMediaIdParamMap" _)) as [m2|]; [|done].
  by intros [= <-].
Qed.

Section calls.
Context {W : Type}.
Variable a : appAPI W.
Variable read_file : string → W * list api_call → result (list Z).
Variable cfg : AppConfig.

Lemma token_calls_made k s w log :
  let '(_, (_, (_, log'))) := AppToken (recorded a) k (s, (w, log)) in
  ∃ pre, log' = log ++ pre ∧ Forall is_preparation pre.
Proof.
  unfold AppToken, getAccessToken. destruct (usable _ _); [exists []; by rewrite app_nil_r|]. cbn.
  destruct (api_GetAccessToken a (tk_ctx k) w) as [[r|e] w']; [destruct (grant_token r)|]; exists [CallToken]; split; by repeat constructor.
Qed.

Lemma legacy_calls_made c token msg w log :
  let '(_, (_, log')) := buildLegacyMessage (recorded a) read_file c token msg (w, log) in
  ∃ pre, log' = log ++ pre ∧ Forall is_preparation pre.
Proof.
  assert (∃ pre, log = log ++ pre ∧ Forall is_preparation pre) as Hnil by (exists []; by rewrite app_nil_r).
  unfold buildLegacyMessage. destruct (buildLegacyCardPayload _); [done|]. case_bool_decide; [done|]. case_bool_decide; [done|].
  destruct (sm_Media msg) as [[|m l]|]; [done| |done]. unfold resolveMedia. destruct (negb _); [done|].
  destruct (mediaBytes read_file m (w, log)) as [[content name]|e]; [|done]. cbn.
  destruct (api_UploadMedia a c token _ w) as [[r|e] w']; exists [CallUpload token (UploadRequest (effectiveDingTalkMessageType msg) name content)];
    split; by repeat constructor.
Qed.

(** C18: Sending makes at most one call that sends, the last one, to the message's
    target; before it only a token is fetched and media uploaded.  When sending
    succeeds that call was made; without a target nothing is called. *)
Theorem send_once convert64 convert32 k id msg s w log :
  let target := resolveDingTalkTarget convert64 msg in
  let '(err, (_, (_, log'))) := SendApp (recorded a) read_file convert64 convert32 cfg k id msg (s, (w, log)) in
  ∃ pre sent, log' = log ++ pre ++ sent ∧ Forall is_preparation pre ∧
    (sent = [] ∧ err ≠ None ∨ ∃ x, sent = [x] ∧ sends_to target x) ∧
    (hasConversation target = false → hasWorkNotice target = false → log' = log ∧ err ≠ None).
Proof.
  cbv zeta. unfold SendApp. set (target := resolveDingTalkTarget convert64 msg).
  assert (∀ e : error, ∃ pre sent, log = log ++ pre ++ sent ∧ Forall is_preparation pre ∧
    (sent = [] ∧ Some e ≠ None ∨ ∃ x, sent = [x] ∧ sends_to target x) ∧
    (hasConversation target = false → hasWorkNotice target = false → log = log ∧ Some e ≠ None)) as Hnone.
  { intros e. exists [], []. rewrite !app_nil_r. split_and!; try done. by left. }
  destruct (buildInteractiveCardRequest convert32 cfg id msg target) as [card|e] eqn:Hcard; [|apply Hnone].
  destruct (bool_decide (card = None) && _ && _) eqn:Hno; [apply Hnone|].
  assert (hasConversation target = false → hasWorkNotice target = false → False) as Htarget.
  { intros Hc Hw. rewrite Hc, Hw in Hno. destruct card as [req|]; [|done]. apply card_addressed in Hcard as [H _]. congruence. }
  pose proof (token_calls_made k s w log) as Htok. destruct (AppToken (recorded a) k (s, (w, log))) as [[token|e] [s' [w1 log1]]].
  2:{ destruct Htok as (pre & -> & Hpre). exists pre, []. rewrite app_nil_r. split_and!; try done; [by left|]. intros; exfalso; auto. }
  destruct Htok as (pre & -> & Hpre). destruct card as [req|].
  { cbn. apply card_addressed in Hcard as [H1 H2]. destruct (api_SendInteractiveCard a _ _ _ w1) as [err w2].
    exists pre, [CallCard token req]. rewrite <-(assoc_L (++)). split_and!; try done; [right; by eexists|]. intros; exfalso; auto. }
  pose proof (legacy_calls_made (tk_ctx k) token msg w1 (log ++ pre)) as Hleg.
  destruct (buildLegacyMessage _ _ _ _ _ _) as [[payload|e] [w2 log2]].
  2:{ destruct Hleg as (pre2 & -> & Hpre2). exists (pre ++ pre2), []. rewrite app_nil_r, <-(assoc_L (++)).
      split_and!; try done; [by apply Forall_app|by left|]. intros; exfalso; auto. }
  destruct Hleg as (pre2 & -> & Hpre2). destruct (hasConversation target) eqn:Hconv.
  { cbn. destruct (api_SendConversation a _ _ _ w2) as [err w3]. exists (pre ++ pre2). eexists [_]. rewrite <-!(assoc_L (++)).
    split_and!; try done; [by apply Forall_app|right; by eexists]. }
  destruct (Z.leb_spec (ac_AgentID cfg) 0) as [Hle|Hgt].
  { exists (pre ++ pre2), []. rewrite app_nil_r, <-(assoc_L (++)). split_and!; try done; [by apply Forall_app|by left|].
    intros _ H. by destruct (Htarget eq_refl H). }
  cbn. destruct (api_SendWorkNotice a _ _ _ w2) as [err w3]. exists (pre ++ pre2). eexists [_]. rewrite <-!(assoc_L (++)).
  split_and!; try done; [by apply Forall_app| |intros _ H; by destruct (Htarget eq_refl H)].
  right. eexists. split; [done|]. cbn. split_and!; try done. by destruct (hasWorkNotice target) eqn:Hw; [|destruct (Htarget eq_refl eq_refl)].
Qed.
End calls.

(** ** Users *)
Lemma uniqueStrings_spec l : NoDup (uniqueStrings l) ∧ ∀ x, x ∈ uniqueStrings l ↔ x ∈ l.
Proof.
  unfold uniqueStrings. assert (∀ l (s : gset string) acc, NoDup acc → (∀ x, x ∈ s ↔ x ∈ acc) →
    let r := (foldl (λ st v, if bool_decide (v ∈ st.1) then st else ({[v]} ∪ st.1, st.2 ++ [v])) (s, acc) l).2 in
    NoDup r ∧ ∀ x, x ∈ r ↔ x ∈ acc ∨ x ∈ l) as Hgen.
  { clear l. induction l as [|v l IH]; intros s acc Hnd Hs; cbn; [split; [done|set_solver]|]. case_bool_decide as Hv.
    - destruct (IH s acc Hnd Hs) as [H1 H2]. split; [done|]. intros x. rewrite H2. apply Hs in Hv. set_solver.
    - destruct (IH ({[v]} ∪ s) (acc ++ [v])) as [H1 H2].
      + apply NoDup_app. split_and!; [done| |apply NoDup_singleton]. rewrite Hs in Hv. set_solver.
      + set_solver.
      + split; [done|]. intros x. rewrite H2. set_solver. }
  destruct (Hgen l ∅ []) as [H1 H2]; [constructor|set_solver|]. split; [done|]. intros x. rewrite H2. set_solver.
Qed.

(** A user's number in the metadata, read from JSON, is no longer the number's
    text from a million on. *)
Definition numbered (n : string) : StandardMessage :=
  set_sm_Metadata (Some [("userid_list"%string, GSlice [GNum n])]) zero_standard.
Example numeric_users :
  dt_UserIDs (resolveDingTalkTarget (λ z, z) (numbered "99999")) = ["99999"%string] ∧
  dt_UserIDs (resolveDingTalkTarget (λ z, z) (numbered "123456789")) = ["1.23456789e+08"%string].
Proof. vm_compute. done. Qed.

(** A conversation's message goes to the conversation, a user's as a notice. *)
Definition quiet_api : appAPI unit :=
  AppAPI (λ _ w, (Ok ("t1"%string, 7200), w)) (λ _ _ _ w, (None, w)) (λ _ _ _ w, (None, w)) (λ _ _ _ w, (None, w)) (λ _ _ _ w, (Ok "m1"%string, w)).
Definition client_cfg : AppConfig := MkAppConfig "client" "secret" 9 "/e" "/c" "" "" "token" "key" "" "" "" 0.
Definition sent_by (msg : StandardMessage) : list api_call :=
  (SendApp (recorded quiet_api) (λ _ _, Fail (new_error "no file")) (λ z, z) (λ z, z) client_cfg (TokenCall background 0 1) "id1" msg
    (no_token, (tt, []))).2.2.2.
Definition to_conversation : StandardMessage :=
  set_sm_Text "hi" (set_sm_MessageType MessageTypeText (set_sm_SessionID "cid1"
    (set_sm_Metadata (Some [("chatbotUserId"%string, GString "bot")]) zero_standard))).
Example sent_calls :
  sent_by to_conversation =
    [CallToken; CallConversation "t1" (ConversationRequest "bot" "cid1" (typed_payload "text" (GObj [("content"%string, GString "hi")])))] ∧
  sent_by (set_sm_Text "hi" (set_sm_SessionID "u7" zero_standard)) =
    [CallToken; CallNotice "t1" (WorkNoticeRequest 9 ["u7"%string] [] false (typed_payload "text" (GObj [("content"%string, GString "hi")])))] ∧
  sent_by (set_sm_SessionID "cid1" zero_standard) = [].
Proof. vm_compute. done. Qed.
