(* ===== verification/DingtalkSdk.v ===== *)
(** * The DingTalk API over HTTP and the vendor's clients: dingtalk/app_client.go, [sdkAppAPI]

    The implementation of [appAPI] (DingtalkClient).  Tokens and interactive
    cards go through the vendor's clients, which are parameters; conversations,
    work notices and uploads are HTTP requests of the code's own, to addresses
    it makes from the base address. *)
From Stdlib Require Import String Ascii.
From S2P Require Import Prelude GoStrings Strconv GoValue Sha256 Cipher Url GatewayTypes Callback Dingtalk TokenCache WecomClient WecomRobot FeishuBot.
From S2P Require Import DingtalkClient.
From stdpp Require Import list.

Local Open Scope Z_scope.

Definition defaultDingTalkOAPIBaseURL : string := "https://oapi.dingtalk.com".
Definition dingTalkConversationSendPath : string := "/message/send_to_conversation".
Definition dingTalkWorkNoticeSendPath : string := "/topapi/message/corpconversation/asyncsend_v2".
Definition dingTalkMediaUploadPath : string := "/media/upload".

(** ** The vendor's clients *)

(** The endpoint and protocol of their configuration, when they are set. *)
Record openAPIConfig := OpenAPI { oa_Endpoint : option string; oa_Protocol : option string }.

Definition not_empty (s : string) : option string := match s with EmptyString => None | _ => Some s end.

Definition newOpenAPIConfig (ip_host : string → option string) (baseURL : string) : openAPIConfig :=
  let raw := TrimSpace baseURL in
  if bool_decide (raw = EmptyString) then OpenAPI None None
  else match Parse ip_host raw with
  | Fail _ => OpenAPI None None
  | Ok parsed => OpenAPI (not_empty (u_Host parsed)) (ToUpper <$> not_empty (u_Scheme parsed))
  end.

(** A card as the vendor's request has it: members that are not set are absent. *)
Record interactiveCard := InteractiveCard {
  ic_CardTemplateId : string;
  ic_ConversationType : Z;
  ic_OpenConversationId : string;
  ic_OutTrackId : string;
  ic_CallbackRouteKey : option string;
  ic_ChatBotId : option string;
  ic_CardParamMap : option (list (string * string));
  ic_CardMediaIdParamMap : option (list (string * string));
  ic_SupportForward : option bool
}.

(** What the clients answer, as the vendor's accessors read it: a token with its
    lifetime, or whether a card was sent; [None] is a missing response or
    body. *)
Record vendorClients (W : Type) := VendorClients {
  vc_GetAccessToken : string → string → W → result (option (string * Z)) * W;
  vc_SendInteractiveCard : interactiveCard → string → W → result (option bool) * W
}.
Arguments VendorClients {W} _ _.
Arguments vc_GetAccessToken {W} _ _ _ _.
Arguments vc_SendInteractiveCard {W} _ _ _ _.

(** [stringPtrMap]: an empty map is nil. *)
Definition stringPtrMap (m : option (list (string * string))) : option (list (string * string)) :=
  match m with None | Some [] => None | _ => m end.

Definition card_request (req : appInteractiveCardRequest) : interactiveCard :=
  InteractiveCard (ir_CardTemplateID req) (ir_ConversationType req) (ir_OpenConversationID req) (ir_OutTrackID req)
    (not_empty (ir_CallbackRouteKey req)) (not_empty (ir_ChatBotID req)) (stringPtrMap (ir_CardParamMap req))
    (stringPtrMap (ir_CardMediaIDParamMap req)) (if ir_SupportForward req then Some true else None).

Definition joinInt64s (values : list Z) : string := join_with "," (map FormatInt values).

Section sdk.
Context {W : Type}.
Variable ip_host : string → option string.
Variable vendor : vendorClients W.
Variable do : ctx → OutRequest → W → result string * W.
Variable cfg : AppConfig.

(** The base address [newSDKAppAPI] keeps. *)
Definition oapiBaseURL : string := firstNonEmpty [TrimSpace (ac_OAPIBaseURL cfg); defaultDingTalkOAPIBaseURL].

(** [newRequest]: the path, which the code gives as a constant, resolved against
    the base, with the token and [query] as its query. *)
Definition newOAPIRequest (path token : string) (query : Values) (body : body_sent) : result OutRequest :=
  base ← Parse ip_host (trim_right_slash oapiBaseURL);
  match resolve_path base path with
  | None => Fail err_url
  | Some target =>
    let values := foldl (λ l m, add_value m.1 m.2 l) (set_value "access_token" token (ParseQuery (u_RawQuery target))) query in
    Ok (MkOut "POST" (url_text (set_query (encode_values values) target)) body)
  end.

Definition oapi_failed (action : string) (a : uploadAnswer) : error :=
  new_error (action ++ " failed: " ++ ua_ErrMsg a ++ " (" ++ FormatInt (ua_ErrCode a) ++ ")").

(** [newJSONRequest] and [doAPIRequest] *)
Definition doAPIRequest (c : ctx) (path token : string) (body : gvalue) (action : string) (w : W) : option error * W :=
  match newOAPIRequest path token [] (JsonBody (print (encode_value body))) with
  | Fail e => (Some e, w)
  | Ok req =>
    match do c req w with
    | (Fail e, w) => (Some e, w)
    | (Ok text, w) =>
      (match decode_body upload_fields (UploadAnswer 0 "" "") text with
       | Fail e => Some e
       | Ok a => if negb (ua_ErrCode a =? 0) then Some (oapi_failed action a) else None
       end, w)
    end
  end.

Definition sdkGetAccessToken (c : ctx) (w : W) : result (string * Z) * W :=
  match vc_GetAccessToken vendor (ac_ClientID cfg) (ac_ClientSecret cfg) w with
  | (Fail e, w) => (Fail e, w)
  | (Ok (Some (String _ _ as token, expire)), w) => (Ok (token, expire), w)
  | (Ok _, w) => (Fail (new_error "dingtalk app get access token returned empty token"), w)
  end.

Definition sdkSendInteractiveCard (c : ctx) (token : string) (req : appInteractiveCardRequest) (w : W) : option error * W :=
  match vc_SendInteractiveCard vendor (card_request req) token w with
  | (Fail e, w) => (Some e, w)
  | (Ok (Some true), w) => (None, w)
  | (Ok _, w) => (Some (new_error "dingtalk interactive card send failed"), w)
  end.

Definition conversation_body (req : appConversationRequest) : gvalue :=
  GObj [("sender", GString (cq_Sender req)); ("cid", GString (cq_CID req)); ("msg", cq_Msg req)]%string.

Definition sdkSendConversation (c : ctx) (token : string) (req : appConversationRequest) (w : W) : option error * W :=
  doAPIRequest c dingTalkConversationSendPath token (conversation_body req) "dingtalk conversation send" w.

Definition notice_body (req : appWorkNoticeRequest) : gvalue :=
  GObj [("agent_id", GInt (wq_AgentID req)); ("userid_list", GString (join_with "," (wq_UserIDList req)));
        ("dept_id_list", GString (joinInt64s (wq_DeptIDList req))); ("to_all_user", GBool (wq_ToAllUser req)); ("msg", wq_Msg req)]%string.

Definition sdkSendWorkNotice (c : ctx) (token : string) (req : appWorkNoticeRequest) (w : W) : option error * W :=
  doAPIRequest c dingTalkWorkNoticeSendPath token (notice_body req) "dingtalk work notice send" w.

Definition sdkUploadMedia (c : ctx) (token : string) (req : appUploadMediaRequest) (w : W) : result string * W :=
  match newOAPIRequest dingTalkMediaUploadPath token [("type"%string, up_MediaType req)] (FormFile "media" (up_FileName req) (up_Content req)) with
  | Fail e => (Fail e, w)
  | Ok r =>
    match do c r w with
    | (Fail e, w) => (Fail e, w)
    | (Ok text, w) =>
      (a ← decode_body upload_fields (UploadAnswer 0 "" "") text;
       if negb (ua_ErrCode a =? 0) then Fail (oapi_failed "dingtalk media upload" a)
       else if Dingtalk.blank (ua_MediaID a) then Fail (new_error "dingtalk media upload returned empty media id")
       else Ok (ua_MediaID a), w)
    end
  end.

Definition sdkAppAPI : appAPI W := AppAPI sdkGetAccessToken sdkSendConversation sdkSendInteractiveCard sdkSendWorkNotice sdkUploadMedia.

(** ** The requests *)

(** The values an API request's query decodes to. *)
Definition oapi_query (token : string) (query : Values) : Values := sort_values (("access_token"%string, token) :: query).

(** A request goes to the base address's host, at its path, and its query is
    the token and what the operation adds. *)
Lemma oapi_request path token query body r :
  newOAPIRequest path token query body = Ok r →
  or_Method r = "POST"%string ∧ or_Body r = body ∧
  ∃ base u, Parse ip_host (trim_right_slash oapiBaseURL) = Ok base ∧ or_URL r = url_text u ∧
    u_Scheme u = u_Scheme base ∧ u_Host u = u_Host base ∧ u_User u = u_User base ∧
    unescape encodePath path = Some (u_Path u) ∧ ParseQuery (u_RawQuery u) = oapi_query token query.
Proof.
  unfold newOAPIRequest. destruct (Parse _ _) as [base|e]; [|done]. cbn. unfold resolve_path, setPath.
  destruct (unescape encodePath path) as [p|]; [|done]. cbn. intros [= <-]. split_and!; [done..|]. eexists base, _. split_and!; [done|reflexivity|done..|].
  cbn [u_RawQuery set_query]. rewrite ParseQuery_encode. unfold oapi_query. f_equal. cbn.
  assert (∀ l acc, foldl (λ l m, add_value m.1 m.2 l) acc l = acc ++ l) as Hf.
  { intros l. induction l as [|[k v] l IH]; intros acc; cbn; [by rewrite app_nil_r|]. rewrite IH. unfold add_value. by rewrite <-app_assoc. }
  by rewrite Hf.
Qed.
End sdk.

Definition no_vendor : vendorClients (list string * list OutRequest) :=
  VendorClients (λ _ _ w, (Ok (Some ("tok"%string, 7200)), w)) (λ _ _ w, (Ok None, w)).

Definition demo_dingtalk (oapi : string) : AppConfig := MkAppConfig "id" "secret" 7 "" "" "" oapi "" "" "" "" "" 0.

(** A text to users: a token, then one work notice with the token in its query. *)
Example work_notice :
  SendApp (sdkAppAPI no_ip no_vendor (logged robot_answers) (demo_dingtalk "https://oapi/x/ ")) (λ _ _, Fail (new_error "no file")) (λ z, z) (λ z, z)
    (demo_dingtalk "https://oapi/x/ ") (TokenCall background 0 0) "card" (set_sm_Text "hi" (set_sm_ReceiverID "u1" zero_standard))
    (no_token, ([jtext "{'errcode':0}"], [])) =
  (None, (let '(_, (s, _)) := AppToken (sdkAppAPI no_ip no_vendor (logged robot_answers) (demo_dingtalk "")) (TokenCall background 0 0) (no_token, ([], [])) in s,
    ([], [MkOut "POST" "https://oapi/topapi/message/corpconversation/asyncsend_v2?access_token=tok"
      (JsonBody (jtext "{'agent_id':7,'dept_id_list':'','msg':{'msgtype':'text','text':{'content':'hi'}},'to_all_user':false,'userid_list':'u1'}"))]))).
Proof. vm_compute. reflexivity. Qed.
