(* ===== verification/DingtalkRobot.v ===== *)
(** * The DingTalk robot: dingtalk/robot_client.go, robot_payload.go

    A robot posts messages to a webhook, with a signature in its address when a
    secret is known; a message's metadata may bring its own webhook and secret.
    The HTTP exchange is a parameter. *)
From Stdlib Require Import String Ascii.
From S2P Require Import Prelude GoStrings Strconv GoValue Sprint Sha256 Cipher Url GatewayTypes Callback Dingtalk TokenCache WecomClient DingtalkClient.
From stdpp Require Import list.

Local Open Scope Z_scope.

(** ** Payloads *)
Definition effectiveRobotMessageType (msg : StandardMessage) : string :=
  let kind := sm_MessageType msg in
  let text := if bool_decide (sm_Format msg = FormatMarkdown) then "markdown"%string else "text"%string in
  if bool_decide (kind = "markdown"%string) then "markdown"%string
  else if bool_decide (kind = "text"%string) then text
  else if bool_decide (kind ∈ ["image"; "audio"; "video"; "file"]%string) then kind
  else text.

Definition buildRobotPayload (msg : StandardMessage) : result gvalue :=
  match sm_Card msg with
  | Some ((_ :: _) as card) =>
    match get_key "msgtype" card with
    | Some _ => Ok (GObj card)
    | None => Fail (new_error "dingtalk robot card payload requires msgtype")
    end
  | _ =>
    let msgType := effectiveRobotMessageType msg in
    if bool_decide (msgType = "text"%string) then Ok (typed_payload "text" (GObj [("content"%string, GString (sm_Text msg))]))
    else if bool_decide (msgType = "markdown"%string) then
      Ok (typed_payload "markdown"
        (GObj [("title", GString (default "Agentic-Core" (sprint_member "title" (sm_Metadata msg)))); ("text", GString (sm_Text msg))]%string))
    else Fail (new_error ("unsupported dingtalk robot message type: " ++ msgType))
  end.

(** ** Sending *)
Record robotAnswer := RobotAnswer { ra_ErrCode : Z; ra_ErrMsg : string }.
Definition answer_fields : list (field robotAnswer) :=
  [ int64_field "errcode" (λ v a, RobotAnswer v (ra_ErrMsg a)); string_field "errmsg" (λ v a, RobotAnswer (ra_ErrCode a) v) ].

Definition decode_answer (body : string) : result robotAnswer :=
  match decode_one body with
  | None => Fail (new_error "invalid json")
  | Some (t, _) => struct_value false answer_fields t (RobotAnswer 0 EmptyString)
  end.

(** The signature of a time stamp in milliseconds. *)
Definition robot_sign (timestamp secret : string) : string :=
  base64_encode (bytes_of (hmac_sha256 secret (timestamp ++ String "010" secret))).

Section robot.
Context {W : Type}.
(** Hosts in brackets. *)
Variable ip_host : string → option string.
Variable do : ctx → OutRequest → W → result string * W.

Definition signWebhookURL (rawURL secret : string) (now_milli : Z) : result string :=
  parsed ← Parse ip_host rawURL;
  let timestamp := FormatInt now_milli in
  let query := set_value "sign" (robot_sign timestamp secret) (set_value "timestamp" timestamp (ParseQuery (u_RawQuery parsed))) in
  Ok (url_text (set_query (encode_values query) parsed)).

Definition robot_url (cfg : RobotConfig) (msg : StandardMessage) : string :=
  match sprint_member "dingtalk_robot_webhook_url" (sm_Metadata msg) with
  | Some v => TrimSpace v
  | None => TrimSpace (rc_WebhookURL cfg)
  end.
Definition robot_secret (cfg : RobotConfig) (msg : StandardMessage) : string :=
  match sprint_member "dingtalk_robot_secret" (sm_Metadata msg) with
  | Some v => TrimSpace v
  | None => TrimSpace (rc_Secret cfg)
  end.

Definition SendRobot (cfg : RobotConfig) (c : ctx) (now_milli : Z) (msg : StandardMessage) (w : W) : option error * W :=
  match buildRobotPayload msg with
  | Fail e => (Some e, w)
  | Ok payload =>
    let webhookURL := robot_url cfg msg in
    if bool_decide (webhookURL = EmptyString) then (Some (new_error "dingtalk robot webhook url is required"), w)
    else
      let secret := robot_secret cfg msg in
      match (if bool_decide (secret = EmptyString) then Ok webhookURL else signWebhookURL webhookURL secret now_milli) with
      | Fail e => (Some e, w)
      | Ok url =>
        match do c (MkOut "POST" url (JsonBody (print (encode_value payload)))) w with
        | (Fail e, w) => (Some e, w)
        | (Ok body, w) =>
          match decode_answer body with
          | Fail e => (Some e, w)
          | Ok a =>
            (if negb (ra_ErrCode a =? 0)
             then Some (new_error ("dingtalk robot send failed: " ++ ra_ErrMsg a ++ " (" ++ FormatInt (ra_ErrCode a) ++ ")")) else None, w)
          end
        end
      end
  end.
End robot.

(** A message that says where it goes decides, and takes the configured robot's
    signature there: the configured secret signs the foreign address unless the
    message brings a secret of its own. *)
Lemma robot_destination cfg msg url :
  get_key "dingtalk_robot_webhook_url" (default [] (sm_Metadata msg)) = Some (GString url) → TrimSpace url ≠ EmptyString → url ≠ EmptyString →
  robot_url cfg msg = TrimSpace url ∧
  (get_key "dingtalk_robot_secret" (default [] (sm_Metadata msg)) = None → robot_secret cfg msg = TrimSpace (rc_Secret cfg)).
Proof.
  intros Hk Ht Hu. unfold robot_url, robot_secret, sprint_member. rewrite Hk. cbn. rewrite bool_decide_eq_false_2 by done.
  split; [done|]. by intros ->.
Qed.

Example robot_sends :
  SendRobot no_ip (λ _ r w, (Ok (jtext "{'errcode':0}"), w ++ [or_URL r]))
    (MkRobotConfig " https://robot/send?access_token=t " "k" 0) background 5 (set_sm_Text "hi" (set_sm_MessageType "text" zero_standard)) [] =
  (None, [("https://robot/send?access_token=t&sign=" ++ QueryEscape (robot_sign "5" "k") ++ "&timestamp=5")%string]).
Proof. vm_compute. reflexivity. Qed.
