(* ===== verification/DingtalkAdapter.v ===== *)
(** * The DingTalk adapters: dingtalk/app_adapter.go, robot_adapter.go, app_client.go

    The two channel adapters over their clients: how they are made, what they
    send for a text, and the handlers of the application's callbacks.  The
    constructors of the vendor's two clients are parameters. *)
From Stdlib Require Import String Ascii.
From S2P Require Import Prelude GoStrings Strconv GoValue Url GatewayTypes Callback Transport Router Ingress Dingtalk TokenCache WecomClient FeishuBot.
From S2P Require Import DingtalkApp DingtalkClient DingtalkSdk DingtalkRobot.
From stdpp Require Import list.

Local Open Scope Z_scope.

(** ** The application *)

(** [DingtalkAppAdapter]: its configuration and its client's API. *)
Record DingtalkAppAdapter (W : Type) := MkDingtalkApp { dt_cfg : AppConfig; dt_api : appAPI W }.
Arguments MkDingtalkApp {W} _ _.
Arguments dt_cfg {W} _.
Arguments dt_api {W} _.

Section app.
Context {W : Type}.
Variable ip_host : string → option string.
(** [oauthsdk.NewClient] and [imsdk.NewClient]: what the new client does. *)
Variable oauth_NewClient : openAPIConfig → result (string → string → W → result (option (string * Z)) * W).
Variable im_NewClient : openAPIConfig → result (interactiveCard → string → W → result (option bool) * W).
Variable do : ctx → OutRequest → W → result string * W.
Variable read_file : string → W → result (list Z).
Variable convert64 convert32 : Z → Z.

Definition newSDKAppAPI (cfg : AppConfig) : result (appAPI W) :=
  let cfg := normalize_app cfg in
  oauth ← oauth_NewClient (newOpenAPIConfig ip_host (ac_APIBaseURL cfg));
  im ← im_NewClient (newOpenAPIConfig ip_host (ac_APIBaseURL cfg));
  Ok (sdkAppAPI ip_host (VendorClients oauth im) do cfg).

(** The client is its configuration and API, with no token yet. *)
Definition newDingtalkClient (cfg : AppConfig) : result (DingtalkAppAdapter W) := api ← newSDKAppAPI cfg; Ok (MkDingtalkApp cfg api).

(** The identifier of a card, at a time in nanoseconds. *)
Definition card_id (now_ns : Z) : string := ("dingtalk-" ++ FormatInt now_ns)%string.

Definition NewDingtalkAppAdapter (cfg : AppConfig) : result (DingtalkAppAdapter W) :=
  let cfg := normalize_app cfg in
  match ValidateApp cfg with Some e => Fail e | None => newDingtalkClient cfg end.

Definition DingtalkSend (a : DingtalkAppAdapter W) (k : token_call) (now_ns : Z) (msg : StandardMessage) (st : token_cache * W) : option error * (token_cache * W) :=
  SendApp (dt_api a) read_file convert64 convert32 (dt_cfg a) k (card_id now_ns) (named appAdapterName msg) st.

Definition DingtalkSendMessage (a : DingtalkAppAdapter W) (k : token_call) (now_ns : Z) (sessionID text : string) (st : token_cache * W) :
    option error * (token_cache * W) :=
  DingtalkSend a k now_ns (plain_text_to appAdapterName sessionID text) st.

(** An adapter exists exactly for a complete configuration whose vendor's
    clients can be made, and keeps the normalised configuration. *)
Lemma adapter_made cfg a :
  NewDingtalkAppAdapter cfg = Ok a ↔
    ValidateApp (normalize_app cfg) = None ∧
    ∃ oauth im, oauth_NewClient (newOpenAPIConfig ip_host (ac_APIBaseURL cfg)) = Ok oauth ∧ im_NewClient (newOpenAPIConfig ip_host (ac_APIBaseURL cfg)) = Ok im ∧
      a = MkDingtalkApp (normalize_app cfg) (sdkAppAPI ip_host (VendorClients oauth im) do (normalize_app (normalize_app cfg))).
Proof.
  unfold NewDingtalkAppAdapter, newDingtalkClient, newSDKAppAPI. destruct (ValidateApp _); [split; [done|by intros [? _]]|].
  cbn [normalize_app ac_APIBaseURL]. destruct (oauth_NewClient _) as [oauth|e]; [|split; [done|naive_solver]].
  cbn [mbind result_bind]. destruct (im_NewClient _) as [im|e]; [|split; [done|naive_solver]].
  cbn [mbind result_bind]. split; [intros [= <-]; split; [done|]; by exists oauth, im|]. intros (_ & o & i & [= <-] & [= <-] & ->). done.
Qed.

(** Where a text for a session goes. *)
Lemma text_target sessionID text :
  resolveDingTalkTarget convert64 (plain_text_to appAdapterName sessionID text) =
    Target (TrimSpace (firstNonEmpty [sessionID])) EmptyString (uniqueStrings (as_user sessionID)) [] false.
Proof. unfold resolveDingTalkTarget. cbn. by destruct (as_user sessionID). Qed.

(** A text cannot be sent to a conversation's session: the conversation's sender
    is not known, and a conversation is no user. *)
Lemma conversation_text_refused a k now_ns sessionID text st :
  isConversationID sessionID = true → ∃ e, DingtalkSendMessage a k now_ns sessionID text st = (Some e, st).
Proof.
  intros Hc. unfold DingtalkSendMessage, DingtalkSend, named. cbn [plain_text_to sm_ChannelName]. case_bool_decide; [done|].
  unfold SendApp. rewrite text_target. unfold as_user. rewrite Hc, andb_false_r. set (target := Target _ _ _ _ _).
  assert (hasConversation target = false) as Hcv by (unfold hasConversation; cbn; apply andb_false_r).
  assert (hasWorkNotice target = false) as Hwn by done.
  destruct (buildInteractiveCardRequest _ _ _ _ _) as [[req|]|e] eqn:Hcard; [|rewrite Hcv, Hwn; cbn; by eexists|by eexists].
  apply card_addressed in Hcard as [Hx _]. congruence.
Qed.

(** A text for a user's session is one work notice to that user, when a token is
    there and no card is configured. *)
Lemma user_text_noticed a k now_ns sessionID text st token s w :
  blank sessionID = false → isConversationID sessionID = false → TrimSpace (ac_CardTemplateID (dt_cfg a)) = EmptyString → 0 < ac_AgentID (dt_cfg a) →
  AppToken (dt_api a) k st = (Ok token, (s, w)) →
  DingtalkSendMessage a k now_ns sessionID text st =
    let '(err, w) := api_SendWorkNotice (dt_api a) (tk_ctx k) token
      (WorkNoticeRequest (ac_AgentID (dt_cfg a)) [TrimSpace sessionID] [] false
        (typed_payload "text" (GObj [("content"%string, GString text)]))) w in (err, (s, w)).
Proof.
  intros Hb Hc Ht Ha Htok. unfold DingtalkSendMessage, DingtalkSend, named. cbn [plain_text_to sm_ChannelName]. case_bool_decide; [done|].
  unfold SendApp. rewrite text_target. unfold as_user. rewrite Hb, Hc. cbn [negb andb].
  assert (∀ t, TrimSpace t = EmptyString → TrimSpace (firstNonEmpty [EmptyString; EmptyString; t]) = EmptyString) as Hf.
  { intros t Hx. cbn [firstNonEmpty]. repeat case_bool_decide; cbn [negb]; done. }
  assert (uniqueStrings [TrimSpace sessionID] = [TrimSpace sessionID]) as -> by (unfold uniqueStrings; cbn [foldl]; by rewrite bool_decide_eq_false_2 by set_solver).
  set (target := Target _ _ _ _ _).
  assert (hasConversation target = false) as -> by (unfold hasConversation; cbn [dt_ConversationSender target]; apply andb_false_r).
  unfold buildInteractiveCardRequest. rewrite bool_decide_eq_true_2 by (by apply Hf). change (hasWorkNotice target) with true. rewrite andb_false_r, Htok.
  unfold buildLegacyMessage. assert (effectiveDingTalkMessageType (plain_text_to appAdapterName sessionID text) = "text"%string) as -> by done.
  cbn [buildLegacyCardPayload plain_text_to sm_Card]. rewrite bool_decide_eq_false_2, bool_decide_eq_true_2 by done.
  destruct (ac_AgentID (dt_cfg a) <=? 0) eqn:Hle; [lia|]. done.
Qed.
End app.

(** The handlers of the application's two callback paths. *)
Section handlers.
Context {T : Type} `{Transport T}.
Definition DingtalkEventHandler (cfg : AppConfig) := handleCallback mapEventCallback cfg.
Definition DingtalkCardHandler (cfg : AppConfig) := handleCallback mapCardCallback cfg.
End handlers.

(** ** The robot *)
Definition robotAdapterName : string := "dingtalk_robot".
Definition newDingtalkRobotClient (cfg : RobotConfig) : RobotConfig := normalize_robot cfg.
Definition NewDingtalkRobotAdapter (cfg : RobotConfig) : RobotConfig := newDingtalkRobotClient cfg.

Section robot.
Context {W : Type}.
Variable ip_host : string → option string.
Variable do : ctx → OutRequest → W → result string * W.

Definition DingtalkRobotSend (cfg : RobotConfig) (c : ctx) (now_milli : Z) (msg : StandardMessage) (w : W) : option error * W :=
  SendRobot ip_host do cfg c now_milli (named robotAdapterName msg) w.
Definition DingtalkRobotSendMessage (cfg : RobotConfig) (c : ctx) (now_milli : Z) (sessionID text : string) (w : W) : option error * W :=
  DingtalkRobotSend cfg c now_milli (plain_text_to robotAdapterName sessionID text) w.

(** The channel's name plays no part in what a robot sends. *)
Lemma robot_named cfg c now_milli msg w : DingtalkRobotSend cfg c now_milli msg w = SendRobot ip_host do cfg c now_milli msg w.
Proof. unfold DingtalkRobotSend, named. by case_bool_decide. Qed.

(** A text goes to the webhook of the configuration, whatever the session. *)
Lemma robot_text cfg c now_milli s1 s2 text w : DingtalkRobotSendMessage cfg c now_milli s1 text w = DingtalkRobotSendMessage cfg c now_milli s2 text w.
Proof. done. Qed.
End robot.

(** A text for a user over the vendor's quiet clients, and one for a
    conversation. *)
Definition quiet_adapter : DingtalkAppAdapter (unit * list api_call) := MkDingtalkApp client_cfg (recorded quiet_api).
Example texts_sent :
  let send sessionID := DingtalkSendMessage (λ _ _, Ok []) (λ z, z) (λ z, z) quiet_adapter (TokenCall background 0 0) 5 sessionID "hi" (no_token, (tt, [])) in
  (send " u1 ").2.2.2 = [CallToken; CallNotice "t1" (WorkNoticeRequest 9 ["u1"%string] [] false (typed_payload "text" (GObj [("content", GString "hi")]%string)))] ∧
  (send "cid7").2.2.2 = [].
Proof. vm_compute. done. Qed.
