(* ===== verification/MockAdapter.v ===== *)
(** * The mock adapter and the tracer: internal/gateway/mock_adapter.go, pkg/telemetry/otel.go

    An adapter that writes what it is given to the log, and the set-up of
    tracing, whose library is a parameter. *)
From Stdlib Require Import String Ascii.
From S2P Require Import Prelude GoStrings Strconv GoValue AuditTrail GatewayTypes Transport Router.
From stdpp Require Import list.

Local Open Scope Z_scope.

(** ** The mock adapter *)
Record MockAdapter := NewMockAdapter { channelName : string }.
Definition MockName (m : MockAdapter) : string := channelName m.

Definition MockSendMessage (m : MockAdapter) (sessionID text : string) (log : list log_line) : option error * list log_line :=
  (None, log ++ [Line LevelInfo "sending mock adapter message"
    [("component", GString "gateway.mock_adapter"); ("channel_name", GString (channelName m)); ("session_id", GString sessionID);
     ("text", GString text)]%string]).

(** What the deliveries of a router to such adapters, each under its own name,
    leave in the log. *)
Definition mock_deliveries (sent : list delivery) (log : list log_line) : list log_line :=
  foldl (λ log d, match d with
    | SendText name session text => (MockSendMessage (NewMockAdapter name) session text log).2
    | SendRich _ _ => log
    end) log sent.

(** The texts a log shows, with their channels and sessions. *)
Definition logged_text (l : log_line) : option delivery :=
  match l with
  | Line _ _ attrs =>
    match get_key "channel_name" attrs, get_key "session_id" attrs, get_key "text" attrs with
    | Some (GString name), Some (GString session), Some (GString text) => Some (SendText name session text)
    | _, _, _ => None
    end
  end.

Definition is_text (d : delivery) : bool := match d with SendText _ _ _ => true | SendRich _ _ => false end.

(** A log shows every text that was delivered, in order. *)
Lemma mock_log_exact sent log :
  omap logged_text (mock_deliveries sent log) = omap logged_text log ++ filter (λ d, is_text d = true) sent.
Proof.
  revert log. induction sent as [|d sent IH]; intros log; [by rewrite app_nil_r|]. unfold mock_deliveries. cbn [foldl].
  change (foldl _ ?x sent) with (mock_deliveries sent x). rewrite IH. destruct d as [name m|name session text].
  - by rewrite filter_cons_False by done.
  - rewrite filter_cons_True by done. cbn [MockSendMessage snd]. rewrite omap_app. cbn. by rewrite <-app_assoc.
Qed.

(** ** Tracing *)
Section tracing.
Context {Exporter Tracer W : Type}.
(** [stdouttrace.New] with pretty printing, [sdktrace.NewTracerProvider] with that
    exporter in batches and the service's name, [otel.SetTracerProvider], and a
    tracer's shutdown. *)
Variable stdouttrace_New : W → result Exporter * W.
Variable NewTracerProvider : Exporter → string → Tracer.
Variable SetTracerProvider : Tracer → W → W.
Variable Shutdown : ctx → Tracer → W → W.

Definition InitTracer (serviceName : string) (w : W) : result Tracer * W :=
  match stdouttrace_New w with
  | (Fail e, w) => (Fail (Err ("failed to create stdout exporter: " ++ err_msg e) (err_chain e)), w)
  | (Ok exporter, w) => let tp := NewTracerProvider exporter serviceName in (Ok tp, SetTracerProvider tp w)
  end.

Definition ShutdownTracer (c : ctx) (tp : option Tracer) (w : W) : W := match tp with Some tp => Shutdown c tp w | None => w end.
End tracing.

(** Texts to two mock channels. *)
Example mock_logs :
  omap logged_text (mock_deliveries [SendText "a" "s1" "hi"; SendText "b" "s2" "there"] []) = [SendText "a" "s1" "hi"; SendText "b" "s2" "there"].
Proof. reflexivity. Qed.
