(* ===== verification/GatewayConfig.v ===== *)
(** * The gateway's configuration: internal/gateway/config.go

    The environment and the command line give the configuration, which is then
    validated.  The standard library's flag parser and boolean and integer
    parsers are definitions (their errors' texts are abridged); the environment is
    a function. *)
From Stdlib Require Import String Ascii.
From S2P Require Import Prelude GoStrings Strconv Wecom Dingtalk.
From stdpp Require Import list.

Local Open Scope Z_scope.

Abbreviation blank := Wecom.blank.

(** ** strconv *)

(** The value of a digit or letter. *)
Definition digit_of (c : ascii) : option Z :=
  let n := code c in
  if is_digit c then Some (n - 48)
  else if (97 <=? n) && (n <=? 122) then Some (n - 87)
  else if (65 <=? n) && (n <=? 90) then Some (n - 55)
  else None.

(** Digits of a base, underscores skipped; whether there were any. *)
Fixpoint digits_in (base acc : Z) (under : bool) (s : string) : option (Z * bool) :=
  match s with
  | EmptyString => Some (acc, under)
  | String c s =>
    if code c =? 95 then digits_in base acc true s
    else match digit_of c with
         | Some d => if d <? base then digits_in base (acc * base + d) under s else None
         | None => None
         end
  end.

(** Underscores stand between digits only, a base prefix counting as one.
    [last]: 0 for the beginning, 1 for a digit, 2 for an underscore, 3 for
    anything else. *)
Fixpoint underscores_ok (hex : bool) (last : nat) (s : string) : bool :=
  match s with
  | EmptyString => negb (last =? 2)%nat
  | String c s =>
    let n := code c in
    if is_digit c || (hex && (((97 <=? n) && (n <=? 102)) || ((65 <=? n) && (n <=? 70)))) then underscores_ok hex 1 s
    else if n =? 95 then if (last =? 1)%nat then underscores_ok hex 2 s else false
    else if (last =? 2)%nat then false else underscores_ok hex 3 s
  end.

(** An unsigned number with an optional base prefix. *)
Definition parse_based (s : string) : option Z :=
  let finish base hex last digits :=
    '(v, under) ← digits_in base 0 false digits;
    if under && negb (underscores_ok hex last (match last with O => s | _ => digits end)) then None else Some v in
  match s with
  | EmptyString => None
  | String z r =>
    if code z =? 48 then
      match r with
      | String x (String _ _ as digits) =>
        let x := code (lower_ascii x) in
        if x =? 98 then finish 2 false 1%nat (skip 1 r)
        else if x =? 111 then finish 8 false 1%nat (skip 1 r)
        else if x =? 120 then finish 16 true 1%nat (skip 1 r)
        else finish 8 false 0%nat r
      | _ => finish 8 false 0%nat r
      end
    else finish 10 false 0%nat s
  end.

(** [strconv.ParseInt(s, 0, 64)] *)
Definition ParseIntBase0 (s : string) : option Z :=
  z ← match s with
      | String c r =>
        if bool_decide (c = "-"%char) then Z.opp <$> parse_based r
        else if bool_decide (c = "+"%char) then parse_based r
        else parse_based s
      | EmptyString => None
      end;
  if in_range64 z then Some z else None.

Example based_numbers :
  map ParseIntBase0 ["7"; "-0x1F"; "0b101"; "017"; "0o17"; "1_000"; "0x_1"; "1__0"; "_1"; "0"; "0_7"; "08"; ""; "0x"; "9223372036854775808"]%string =
  [Some 7; Some (-31); Some 5; Some 15; Some 15; Some 1000; Some 1; None; None; Some 0; Some 7; None; None; None; None].
Proof. vm_compute. reflexivity. Qed.

(** ** Data *)
Record WeComConfig := MkWeCom {
  wx_CorpID : string;
  wx_AgentID : Z;
  wx_CorpSecret : string;
  wx_Token : string;
  wx_EncodingAESKey : string;
  wx_CallbackPath : string;
  wx_APIBaseURL : string;
  wx_MediaDir : string;
  wx_MediaRetentionDays : Z
}.

Record WeComRobotConfig := MkWeComRobot {
  wr_WebhookURL : string
}.

Record FeishuAppConfig := MkFeishuApp {
  fa_Enabled : bool;
  fa_AppID : string;
  fa_AppSecret : string;
  fa_VerificationToken : string;
  fa_EncryptKey : string;
  fa_EventCallbackPath : string;
  fa_CardCallbackPath : string;
  fa_APIBaseURL : string
}.

Record FeishuBotConfig := MkFeishuBot {
  fb_Enabled : bool;
  fb_WebhookURL : string;
  fb_Secret : string
}.

Record DingTalkAppConfig := MkDingTalkApp {
  da_Enabled : bool;
  da_ClientID : string;
  da_ClientSecret : string;
  da_AgentID : Z;
  da_EventCallbackPath : string;
  da_CardCallbackPath : string;
  da_APIBaseURL : string;
  da_OAPIBaseURL : string;
  da_Token : string;
  da_AESKey : string;
  da_MediaDir : string;
  da_CardTemplateID : string;
  da_CardCallbackRouteKey : string
}.

Record DingTalkRobotConfig := MkDingTalkRobot {
  dr_Enabled : bool;
  dr_WebhookURL : string;
  dr_Secret : string
}.

Record GatewayConfig := MkGateway {
  gc_HTTPPort : string;
  gc_RedisAddr : string;
  gc_IngressSecret : string;
  gc_WeCom : WeComConfig;
  gc_WeComRobot : WeComRobotConfig;
  gc_FeishuApp : FeishuAppConfig;
  gc_FeishuBot : FeishuBotConfig;
  gc_DingTalkApp : DingTalkAppConfig;
  gc_DingTalkRobot : DingTalkRobotConfig
}.

Definition set_wx_CorpID (v : string) (c : WeComConfig) : WeComConfig := MkWeCom v (wx_AgentID c) (wx_CorpSecret c) (wx_Token c) (wx_EncodingAESKey c) (wx_CallbackPath c) (wx_APIBaseURL c) (wx_MediaDir c) (wx_MediaRetentionDays c).
Definition set_wx_AgentID (v : Z) (c : WeComConfig) : WeComConfig := MkWeCom (wx_CorpID c) v (wx_CorpSecret c) (wx_Token c) (wx_EncodingAESKey c) (wx_CallbackPath c) (wx_APIBaseURL c) (wx_MediaDir c) (wx_MediaRetentionDays c).
Definition set_wx_CorpSecret (v : string) (c : WeComConfig) : WeComConfig := MkWeCom (wx_CorpID c) (wx_AgentID c) v (wx_Token c) (wx_EncodingAESKey c) (wx_CallbackPath c) (wx_APIBaseURL c) (wx_MediaDir c) (wx_MediaRetentionDays c).
Definition set_wx_Token (v : string) (c : WeComConfig) : WeComConfig := MkWeCom (wx_CorpID c) (wx_AgentID c) (wx_CorpSecret c) v (wx_EncodingAESKey c) (wx_CallbackPath c) (wx_APIBaseURL c) (wx_MediaDir c) (wx_MediaRetentionDays c).
Definition set_wx_EncodingAESKey (v : string) (c : WeComConfig) : WeComConfig := MkWeCom (wx_CorpID c) (wx_AgentID c) (wx_CorpSecret c) (wx_Token c) v (wx_CallbackPath c) (wx_APIBaseURL c) (wx_MediaDir c) (wx_MediaRetentionDays c).
Definition set_wx_CallbackPath (v : string) (c : WeComConfig) : WeComConfig := MkWeCom (wx_CorpID c) (wx_AgentID c) (wx_CorpSecret c) (wx_Token c) (wx_EncodingAESKey c) v (wx_APIBaseURL c) (wx_MediaDir c) (wx_MediaRetentionDays c).
Definition set_wx_APIBaseURL (v : string) (c : WeComConfig) : WeComConfig := MkWeCom (wx_CorpID c) (wx_AgentID c) (wx_CorpSecret c) (wx_Token c) (wx_EncodingAESKey c) (wx_CallbackPath c) v (wx_MediaDir c) (wx_MediaRetentionDays c).
Definition set_wx_MediaDir (v : string) (c : WeComConfig) : WeComConfig := MkWeCom (wx_CorpID c) (wx_AgentID c) (wx_CorpSecret c) (wx_Token c) (wx_EncodingAESKey c) (wx_CallbackPath c) (wx_APIBaseURL c) v (wx_MediaRetentionDays c).
Definition set_wx_MediaRetentionDays (v : Z) (c : WeComConfig) : WeComConfig := MkWeCom (wx_CorpID c) (wx_AgentID c) (wx_CorpSecret c) (wx_Token c) (wx_EncodingAESKey c) (wx_CallbackPath c) (wx_APIBaseURL c) (wx_MediaDir c) v.

Definition set_wr_WebhookURL (v : string) (c : WeComRobotConfig) : WeComRobotConfig := MkWeComRobot v.

Definition set_fa_Enabled (v : bool) (c : FeishuAppConfig) : FeishuAppConfig := MkFeishuApp v (fa_AppID c) (fa_AppSecret c) (fa_VerificationToken c) (fa_EncryptKey c) (fa_EventCallbackPath c) (fa_CardCallbackPath c) (fa_APIBaseURL c).
Definition set_fa_AppID (v : string) (c : FeishuAppConfig) : FeishuAppConfig := MkFeishuApp (fa_Enabled c) v (fa_AppSecret c) (fa_VerificationToken c) (fa_EncryptKey c) (fa_EventCallbackPath c) (fa_CardCallbackPath c) (fa_APIBaseURL c).
Definition set_fa_AppSecret (v : string) (c : FeishuAppConfig) : FeishuAppConfig := MkFeishuApp (fa_Enabled c) (fa_AppID c) v (fa_VerificationToken c) (fa_EncryptKey c) (fa_EventCallbackPath c) (fa_CardCallbackPath c) (fa_APIBaseURL c).
Definition set_fa_VerificationToken (v : string) (c : FeishuAppConfig) : FeishuAppConfig := MkFeishuApp (fa_Enabled c) (fa_AppID c) (fa_AppSecret c) v (fa_EncryptKey c) (fa_EventCallbackPath c) (fa_CardCallbackPath c) (fa_APIBaseURL c).
Definition set_fa_EncryptKey (v : string) (c : FeishuAppConfig) : FeishuAppConfig := MkFeishuApp (fa_Enabled c) (fa_AppID c) (fa_AppSecret c) (fa_VerificationToken c) v (fa_EventCallbackPath c) (fa_CardCallbackPath c) (fa_APIBaseURL c).
Definition set_fa_EventCallbackPath (v : string) (c : FeishuAppConfig) : FeishuAppConfig := MkFeishuApp (fa_Enabled c) (fa_AppID c) (fa_AppSecret c) (fa_VerificationToken c) (fa_EncryptKey c) v (fa_CardCallbackPath c) (fa_APIBaseURL c).
Definition set_fa_CardCallbackPath (v : string) (c : FeishuAppConfig) : FeishuAppConfig := MkFeishuApp (fa_Enabled c) (fa_AppID c) (fa_AppSecret c) (fa_VerificationToken c) (fa_EncryptKey c) (fa_EventCallbackPath c) v (fa_APIBaseURL c).
Definition set_fa_APIBaseURL (v : string) (c : FeishuAppConfig) : FeishuAppConfig := MkFeishuApp (fa_Enabled c) (fa_AppID c) (fa_AppSecret c) (fa_VerificationToken c) (fa_EncryptKey c) (fa_EventCallbackPath c) (fa_CardCallbackPath c) v.

Definition set_fb_Enabled (v : bool) (c : FeishuBotConfig) : FeishuBotConfig := MkFeishuBot v (fb_WebhookURL c) (fb_Secret c).
Definition set_fb_WebhookURL (v : string) (c : FeishuBotConfig) : FeishuBotConfig := MkFeishuBot (fb_Enabled c) v (fb_Secret c).
Definition set_fb_Secret (v : string) (c : FeishuBotConfig) : FeishuBotConfig := MkFeishuBot (fb_Enabled c) (fb_WebhookURL c) v.

Definition set_da_Enabled (v : bool) (c : DingTalkAppConfig) : DingTalkAppConfig := MkDingTalkApp v (da_ClientID c) (da_ClientSecret c) (da_AgentID c) (da_EventCallbackPath c) (da_CardCallbackPath c) (da_APIBaseURL c) (da_OAPIBaseURL c) (da_Token c) (da_AESKey c) (da_MediaDir c) (da_CardTemplateID c) (da_CardCallbackRouteKey c).
Definition set_da_ClientID (v : string) (c : DingTalkAppConfig) : DingTalkAppConfig := MkDingTalkApp (da_Enabled c) v (da_ClientSecret c) (da_AgentID c) (da_EventCallbackPath c) (da_CardCallbackPath c) (da_APIBaseURL c) (da_OAPIBaseURL c) (da_Token c) (da_AESKey c) (da_MediaDir c) (da_CardTemplateID c) (da_CardCallbackRouteKey c).
Definition set_da_ClientSecret (v : string) (c : DingTalkAppConfig) : DingTalkAppConfig := MkDingTalkApp (da_Enabled c) (da_ClientID c) v (da_AgentID c) (da_EventCallbackPath c) (da_CardCallbackPath c) (da_APIBaseURL c) (da_OAPIBaseURL c) (da_Token c) (da_AESKey c) (da_MediaDir c) (da_CardTemplateID c) (da_CardCallbackRouteKey c).
Definition set_da_AgentID (v : Z) (c : DingTalkAppConfig) : DingTalkAppConfig := MkDingTalkApp (da_Enabled c) (da_ClientID c) (da_ClientSecret c) v (da_EventCallbackPath c) (da_CardCallbackPath c) (da_APIBaseURL c) (da_OAPIBaseURL c) (da_Token c) (da_AESKey c) (da_MediaDir c) (da_CardTemplateID c) (da_CardCallbackRouteKey c).
Definition set_da_EventCallbackPath (v : string) (c : DingTalkAppConfig) : DingTalkAppConfig := MkDingTalkApp (da_Enabled c) (da_ClientID c) (da_ClientSecret c) (da_AgentID c) v (da_CardCallbackPath c) (da_APIBaseURL c) (da_OAPIBaseURL c) (da_Token c) (da_AESKey c) (da_MediaDir c) (da_CardTemplateID c) (da_CardCallbackRouteKey c).
Definition set_da_CardCallbackPath (v : string) (c : DingTalkAppConfig) : DingTalkAppConfig := MkDingTalkApp (da_Enabled c) (da_ClientID c) (da_ClientSecret c) (da_AgentID c) (da_EventCallbackPath c) v (da_APIBaseURL c) (da_OAPIBaseURL c) (da_Token c) (da_AESKey c) (da_MediaDir c) (da_CardTemplateID c) (da_CardCallbackRouteKey c).
Definition set_da_APIBaseURL (v : string) (c : DingTalkAppConfig) : DingTalkAppConfig := MkDingTalkApp (da_Enabled c) (da_ClientID c) (da_ClientSecret c) (da_AgentID c) (da_EventCallbackPath c) (da_CardCallbackPath c) v (da_OAPIBaseURL c) (da_Token c) (da_AESKey c) (da_MediaDir c) (da_CardTemplateID c) (da_CardCallbackRouteKey c).
Definition set_da_OAPIBaseURL (v : string) (c : DingTalkAppConfig) : DingTalkAppConfig := MkDingTalkApp (da_Enabled c) (da_ClientID c) (da_ClientSecret c) (da_AgentID c) (da_EventCallbackPath c) (da_CardCallbackPath c) (da_APIBaseURL c) v (da_Token c) (da_AESKey c) (da_MediaDir c) (da_CardTemplateID c) (da_CardCallbackRouteKey c).
Definition set_da_Token (v : string) (c : DingTalkAppConfig) : DingTalkAppConfig := MkDingTalkApp (da_Enabled c) (da_ClientID c) (da_ClientSecret c) (da_AgentID c) (da_EventCallbackPath c) (da_CardCallbackPath c) (da_APIBaseURL c) (da_OAPIBaseURL c) v (da_AESKey c) (da_MediaDir c) (da_CardTemplateID c) (da_CardCallbackRouteKey c).
Definition set_da_AESKey (v : string) (c : DingTalkAppConfig) : DingTalkAppConfig := MkDingTalkApp (da_Enabled c) (da_ClientID c) (da_ClientSecret c) (da_AgentID c) (da_EventCallbackPath c) (da_CardCallbackPath c) (da_APIBaseURL c) (da_OAPIBaseURL c) (da_Token c) v (da_MediaDir c) (da_CardTemplateID c) (da_CardCallbackRouteKey c).
Definition set_da_MediaDir (v : string) (c : DingTalkAppConfig) : DingTalkAppConfig := MkDingTalkApp (da_Enabled c) (da_ClientID c) (da_ClientSecret c) (da_AgentID c) (da_EventCallbackPath c) (da_CardCallbackPath c) (da_APIBaseURL c) (da_OAPIBaseURL c) (da_Token c) (da_AESKey c) v (da_CardTemplateID c) (da_CardCallbackRouteKey c).
Definition set_da_CardTemplateID (v : string) (c : DingTalkAppConfig) : DingTalkAppConfig := MkDingTalkApp (da_Enabled c) (da_ClientID c) (da_ClientSecret c) (da_AgentID c) (da_EventCallbackPath c) (da_CardCallbackPath c) (da_APIBaseURL c) (da_OAPIBaseURL c) (da_Token c) (da_AESKey c) (da_MediaDir c) v (da_CardCallbackRouteKey c).
Definition set_da_CardCallbackRouteKey (v : string) (c : DingTalkAppConfig) : DingTalkAppConfig := MkDingTalkApp (da_Enabled c) (da_ClientID c) (da_ClientSecret c) (da_AgentID c) (da_EventCallbackPath c) (da_CardCallbackPath c) (da_APIBaseURL c) (da_OAPIBaseURL c) (da_Token c) (da_AESKey c) (da_MediaDir c) (da_CardTemplateID c) v.

Definition set_dr_Enabled (v : bool) (c : DingTalkRobotConfig) : DingTalkRobotConfig := MkDingTalkRobot v (dr_WebhookURL c) (dr_Secret c).
Definition set_dr_WebhookURL (v : string) (c : DingTalkRobotConfig) : DingTalkRobotConfig := MkDingTalkRobot (dr_Enabled c) v (dr_Secret c).
Definition set_dr_Secret (v : string) (c : DingTalkRobotConfig) : DingTalkRobotConfig := MkDingTalkRobot (dr_Enabled c) (dr_WebhookURL c) v.

Definition set_gc_HTTPPort (v : string) (c : GatewayConfig) : GatewayConfig := MkGateway v (gc_RedisAddr c) (gc_IngressSecret c) (gc_WeCom c) (gc_WeComRobot c) (gc_FeishuApp c) (gc_FeishuBot c) (gc_DingTalkApp c) (gc_DingTalkRobot c).
Definition set_gc_RedisAddr (v : string) (c : GatewayConfig) : GatewayConfig := MkGateway (gc_HTTPPort c) v (gc_IngressSecret c) (gc_WeCom c) (gc_WeComRobot c) (gc_FeishuApp c) (gc_FeishuBot c) (gc_DingTalkApp c) (gc_DingTalkRobot c).
Definition set_gc_IngressSecret (v : string) (c : GatewayConfig) : GatewayConfig := MkGateway (gc_HTTPPort c) (gc_RedisAddr c) v (gc_WeCom c) (gc_WeComRobot c) (gc_FeishuApp c) (gc_FeishuBot c) (gc_DingTalkApp c) (gc_DingTalkRobot c).
Definition set_gc_WeCom (v : WeComConfig) (c : GatewayConfig) : GatewayConfig := MkGateway (gc_HTTPPort c) (gc_RedisAddr c) (gc_IngressSecret c) v (gc_WeComRobot c) (gc_FeishuApp c) (gc_FeishuBot c) (gc_DingTalkApp c) (gc_DingTalkRobot c).
Definition set_gc_WeComRobot (v : WeComRobotConfig) (c : GatewayConfig) : GatewayConfig := MkGateway (gc_HTTPPort c) (gc_RedisAddr c) (gc_IngressSecret c) (gc_WeCom c) v (gc_FeishuApp c) (gc_FeishuBot c) (gc_DingTalkApp c) (gc_DingTalkRobot c).
Definition set_gc_FeishuApp (v : FeishuAppConfig) (c : GatewayConfig) : GatewayConfig := MkGateway (gc_HTTPPort c) (gc_RedisAddr c) (gc_IngressSecret c) (gc_WeCom c) (gc_WeComRobot c) v (gc_FeishuBot c) (gc_DingTalkApp c) (gc_DingTalkRobot c).
Definition set_gc_FeishuBot (v : FeishuBotConfig) (c : GatewayConfig) : GatewayConfig := MkGateway (gc_HTTPPort c) (gc_RedisAddr c) (gc_IngressSecret c) (gc_WeCom c) (gc_WeComRobot c) (gc_FeishuApp c) v (gc_DingTalkApp c) (gc_DingTalkRobot c).
Definition set_gc_DingTalkApp (v : DingTalkAppConfig) (c : GatewayConfig) : GatewayConfig := MkGateway (gc_HTTPPort c) (gc_RedisAddr c) (gc_IngressSecret c) (gc_WeCom c) (gc_WeComRobot c) (gc_FeishuApp c) (gc_FeishuBot c) v (gc_DingTalkRobot c).
Definition set_gc_DingTalkRobot (v : DingTalkRobotConfig) (c : GatewayConfig) : GatewayConfig := MkGateway (gc_HTTPPort c) (gc_RedisAddr c) (gc_IngressSecret c) (gc_WeCom c) (gc_WeComRobot c) (gc_FeishuApp c) (gc_FeishuBot c) (gc_DingTalkApp c) v.

(** ** The environment *)
Section environment.
Variable getenv : string → string.

Definition getenvOrDefault (key fallback : string) : string :=
  let value := TrimSpace (getenv key) in if bool_decide (value = ""%string) then fallback else value.
Definition getenvInt64 (key : string) : Z :=
  let raw := TrimSpace (getenv key) in if bool_decide (raw = ""%string) then 0 else default 0 (ParseInt raw).
Definition getenvInt (key : string) : Z :=
  let raw := TrimSpace (getenv key) in if bool_decide (raw = ""%string) then 0 else default 0 (ParseInt raw).
Definition getenvBool (key : string) : bool :=
  let raw := TrimSpace (getenv key) in if bool_decide (raw = ""%string) then false else default false (ParseBool raw).
Definition trimmed (key : string) : string := TrimSpace (getenv key).

(** [media]: [defaultWeComMediaDir], under the system's temporary directory. *)
Definition env_config (media : string) : GatewayConfig :=
  MkGateway (getenvOrDefault "GATEWAY_HTTP_PORT" ":8081") (getenvOrDefault "GATEWAY_REDIS_ADDR" "localhost:16379")
    (trimmed "GATEWAY_INGRESS_SECRET")
    (MkWeCom (trimmed "WECOM_CORP_ID") (getenvInt64 "WECOM_AGENT_ID") (trimmed "WECOM_CORP_SECRET") (trimmed "WECOM_TOKEN")
       (trimmed "WECOM_ENCODING_AES_KEY") (getenvOrDefault "WECOM_CALLBACK_PATH" "/callbacks/wecom") (trimmed "WECOM_API_BASE_URL")
       (getenvOrDefault "WECOM_MEDIA_DIR" media) (getenvInt "WECOM_MEDIA_RETENTION_DAYS"))
    (MkWeComRobot (trimmed "WECOM_ROBOT_WEBHOOK_URL"))
    (MkFeishuApp (getenvBool "FEISHU_APP_ENABLED") (trimmed "FEISHU_APP_ID") (trimmed "FEISHU_APP_SECRET")
       (trimmed "FEISHU_APP_VERIFICATION_TOKEN") (trimmed "FEISHU_APP_ENCRYPT_KEY")
       (getenvOrDefault "FEISHU_APP_EVENT_CALLBACK_PATH" "/callbacks/feishu/events")
       (getenvOrDefault "FEISHU_APP_CARD_CALLBACK_PATH" "/callbacks/feishu/cards") (trimmed "FEISHU_APP_API_BASE_URL"))
    (MkFeishuBot (getenvBool "FEISHU_BOT_ENABLED") (trimmed "FEISHU_BOT_WEBHOOK_URL") (trimmed "FEISHU_BOT_SECRET"))
    (MkDingTalkApp (getenvBool "DINGTALK_APP_ENABLED") (trimmed "DINGTALK_APP_CLIENT_ID") (trimmed "DINGTALK_APP_CLIENT_SECRET")
       (getenvInt64 "DINGTALK_APP_AGENT_ID") (getenvOrDefault "DINGTALK_APP_EVENT_CALLBACK_PATH" "/callbacks/dingtalk/events")
       (getenvOrDefault "DINGTALK_APP_CARD_CALLBACK_PATH" "/callbacks/dingtalk/cards") (trimmed "DINGTALK_APP_API_BASE_URL")
       (trimmed "DINGTALK_APP_OAPI_BASE_URL") (trimmed "DINGTALK_APP_TOKEN") (trimmed "DINGTALK_APP_AES_KEY") (trimmed "DINGTALK_APP_MEDIA_DIR")
       (trimmed "DINGTALK_APP_CARD_TEMPLATE_ID") (trimmed "DINGTALK_APP_CARD_CALLBACK_ROUTE_KEY"))
    (MkDingTalkRobot (getenvBool "DINGTALK_ROBOT_ENABLED") (trimmed "DINGTALK_ROBOT_WEBHOOK_URL") (trimmed "DINGTALK_ROBOT_SECRET")).
End environment.

(** ** The flags *)
Inductive flag_var (A : Type) :=
| FString (set : string → A → A)
| FInt (set : Z → A → A)
| FBool (set : bool → A → A).
Arguments FString {A} _.
Arguments FInt {A} _.
Arguments FBool {A} _.

Definition flag_table : list (string * flag_var GatewayConfig) :=
  [
   ("http-port", FString set_gc_HTTPPort);
   ("redis-addr", FString set_gc_RedisAddr);
   ("ingress-secret", FString set_gc_IngressSecret);
   ("wecom-corp-id", FString (λ v c, set_gc_WeCom (set_wx_CorpID v (gc_WeCom c)) c));
   ("wecom-agent-id", FInt (λ v c, set_gc_WeCom (set_wx_AgentID v (gc_WeCom c)) c));
   ("wecom-corp-secret", FString (λ v c, set_gc_WeCom (set_wx_CorpSecret v (gc_WeCom c)) c));
   ("wecom-token", FString (λ v c, set_gc_WeCom (set_wx_Token v (gc_WeCom c)) c));
   ("wecom-encoding-aes-key", FString (λ v c, set_gc_WeCom (set_wx_EncodingAESKey v (gc_WeCom c)) c));
   ("wecom-callback-path", FString (λ v c, set_gc_WeCom (set_wx_CallbackPath v (gc_WeCom c)) c));
   ("wecom-api-base-url", FString (λ v c, set_gc_WeCom (set_wx_APIBaseURL v (gc_WeCom c)) c));
   ("wecom-media-dir", FString (λ v c, set_gc_WeCom (set_wx_MediaDir v (gc_WeCom c)) c));
   ("wecom-media-retention-days", FInt (λ v c, set_gc_WeCom (set_wx_MediaRetentionDays v (gc_WeCom c)) c));
   ("wecom-robot-webhook-url", FString (λ v c, set_gc_WeComRobot (set_wr_WebhookURL v (gc_WeComRobot c)) c));
   ("feishu-app-enabled", FBool (λ v c, set_gc_FeishuApp (set_fa_Enabled v (gc_FeishuApp c)) c));
   ("feishu-app-id", FString (λ v c, set_gc_FeishuApp (set_fa_AppID v (gc_FeishuApp c)) c));
   ("feishu-app-secret", FString (λ v c, set_gc_FeishuApp (set_fa_AppSecret v (gc_FeishuApp c)) c));
   ("feishu-app-verification-token", FString (λ v c, set_gc_FeishuApp (set_fa_VerificationToken v (gc_FeishuApp c)) c));
   ("feishu-app-encrypt-key", FString (λ v c, set_gc_FeishuApp (set_fa_EncryptKey v (gc_FeishuApp c)) c));
   ("feishu-app-event-callback-path", FString (λ v c, set_gc_FeishuApp (set_fa_EventCallbackPath v (gc_FeishuApp c)) c));
   ("feishu-app-card-callback-path", FString (λ v c, set_gc_FeishuApp (set_fa_CardCallbackPath v (gc_FeishuApp c)) c));
   ("feishu-app-api-base-url", FString (λ v c, set_gc_FeishuApp (set_fa_APIBaseURL v (gc_FeishuApp c)) c));
   ("feishu-bot-enabled", FBool (λ v c, set_gc_FeishuBot (set_fb_Enabled v (gc_FeishuBot c)) c));
   ("feishu-bot-webhook-url", FString (λ v c, set_gc_FeishuBot (set_fb_WebhookURL v (gc_FeishuBot c)) c));
   ("feishu-bot-secret", FString (λ v c, set_gc_FeishuBot (set_fb_Secret v (gc_FeishuBot c)) c));
   ("dingtalk-app-enabled", FBool (λ v c, set_gc_DingTalkApp (set_da_Enabled v (gc_DingTalkApp c)) c));
   ("dingtalk-app-client-id", FString (λ v c, set_gc_DingTalkApp (set_da_ClientID v (gc_DingTalkApp c)) c));
   ("dingtalk-app-client-secret", FString (λ v c, set_gc_DingTalkApp (set_da_ClientSecret v (gc_DingTalkApp c)) c));
   ("dingtalk-app-agent-id", FInt (λ v c, set_gc_DingTalkApp (set_da_AgentID v (gc_DingTalkApp c)) c));
   ("dingtalk-app-event-callback-path", FString (λ v c, set_gc_DingTalkApp (set_da_EventCallbackPath v (gc_DingTalkApp c)) c));
   ("dingtalk-app-card-callback-path", FString (λ v c, set_gc_DingTalkApp (set_da_CardCallbackPath v (gc_DingTalkApp c)) c));
   ("dingtalk-app-api-base-url", FString (λ v c, set_gc_DingTalkApp (set_da_APIBaseURL v (gc_DingTalkApp c)) c));
   ("dingtalk-app-oapi-base-url", FString (λ v c, set_gc_DingTalkApp (set_da_OAPIBaseURL v (gc_DingTalkApp c)) c));
   ("dingtalk-app-token", FString (λ v c, set_gc_DingTalkApp (set_da_Token v (gc_DingTalkApp c)) c));
   ("dingtalk-app-aes-key", FString (λ v c, set_gc_DingTalkApp (set_da_AESKey v (gc_DingTalkApp c)) c));
   ("dingtalk-app-media-dir", FString (λ v c, set_gc_DingTalkApp (set_da_MediaDir v (gc_DingTalkApp c)) c));
   ("dingtalk-app-card-template-id", FString (λ v c, set_gc_DingTalkApp (set_da_CardTemplateID v (gc_DingTalkApp c)) c));
   ("dingtalk-app-card-callback-route-key", FString (λ v c, set_gc_DingTalkApp (set_da_CardCallbackRouteKey v (gc_DingTalkApp c)) c));
   ("dingtalk-robot-enabled", FBool (λ v c, set_gc_DingTalkRobot (set_dr_Enabled v (gc_DingTalkRobot c)) c));
   ("dingtalk-robot-webhook-url", FString (λ v c, set_gc_DingTalkRobot (set_dr_WebhookURL v (gc_DingTalkRobot c)) c));
   ("dingtalk-robot-secret", FString (λ v c, set_gc_DingTalkRobot (set_dr_Secret v (gc_DingTalkRobot c)) c))
  ]%string.

(** [flag.Value.Set]; [None] is its error. *)
Definition set_flag {A} (f : flag_var A) (value : string) (a : A) : option A :=
  match f with
  | FString set => Some (set value a)
  | FInt set => z ← ParseIntBase0 value; Some (set z a)
  | FBool set => b ← ParseBool value; Some (set b a)
  end.

Definition lookup_flag {A} (table : list (string * flag_var A)) (name : string) : option (flag_var A) :=
  snd <$> head (filter (λ f, f.1 = name) table).

(** A flag's text after its dashes, split at the first [=] that is not its
    first character. *)
Fixpoint split_eq (s : string) : string * option string :=
  match s with
  | EmptyString => (EmptyString, None)
  | String c r => if bool_decide (c = "="%char) then (EmptyString, Some r) else let '(n, v) := split_eq r in (String c n, v)
  end.

(** What an argument is: the end of the flags, or the text of a flag. *)
Definition flag_text (s : string) : option string :=
  match s with
  | String d (String x r) =>
    if bool_decide (d = "-"%char) then
      if bool_decide (x = "-"%char) then match r with EmptyString => None | _ => Some r end else Some (String x r)
    else None
  | _ => None
  end.

Definition bad_syntax (name : string) : bool :=
  match name with EmptyString => true | String c _ => bool_decide (c = "-"%char) || bool_decide (c = "="%char) end.

(** [FlagSet.Parse] with [ContinueOnError]. *)
Fixpoint parse_flags {A} (table : list (string * flag_var A)) (args : list string) (a : A) : result A :=
  match args with
  | [] => Ok a
  | s :: args =>
    match flag_text s with
    | None => Ok a
    | Some text =>
      if bad_syntax text then Fail (new_error ("bad flag syntax: " ++ s))
      else
        let '(name, value) := split_eq text in
        match lookup_flag table name with
        | None =>
          if bool_decide (name = "help"%string) || bool_decide (name = "h"%string) then Fail (new_error "flag: help requested")
          else Fail (new_error ("flag provided but not defined: -" ++ name))
        | Some f =>
          let invalid v := new_error ("invalid value " ++ v ++ " for flag -" ++ name) in
          match f, value, args with
          | _, Some v, _ => match set_flag f v a with Some a => parse_flags table args a | None => Fail (invalid v) end
          | FBool set, None, _ => parse_flags table args (set true a)
          | _, None, v :: args => match set_flag f v a with Some a => parse_flags table args a | None => Fail (invalid v) end
          | _, None, [] => Fail (new_error ("flag needs an argument: -" ++ name))
          end
        end
    end
  end.

(** ** Validation *)
Definition wecom_enabled (c : WeComConfig) : bool :=
  negb (blank (wx_CorpID c)) || (0 <? wx_AgentID c) || negb (blank (wx_CorpSecret c)) || negb (blank (wx_Token c)) ||
  negb (blank (wx_EncodingAESKey c)).
Definition validate_wecom (c : WeComConfig) : option error :=
  if blank (wx_CorpID c) then Some (new_error "wecom corp id is required")
  else if wx_AgentID c <=? 0 then Some (new_error "wecom agent id must be positive")
  else if blank (wx_CorpSecret c) then Some (new_error "wecom corp secret is required")
  else if blank (wx_Token c) then Some (new_error "wecom token is required")
  else if blank (wx_EncodingAESKey c) then Some (new_error "wecom encoding aes key is required")
  else if blank (wx_CallbackPath c) then Some (new_error "wecom callback path is required")
  else if wx_MediaRetentionDays c <? 0 then Some (new_error "wecom media retention days must be non-negative")
  else None.

Definition wecom_robot_enabled (c : WeComRobotConfig) : bool := negb (blank (wr_WebhookURL c)).

Definition feishu_app_enabled (c : FeishuAppConfig) : bool :=
  fa_Enabled c || negb (blank (fa_AppID c)) || negb (blank (fa_AppSecret c)) || negb (blank (fa_VerificationToken c)) ||
  negb (blank (fa_EncryptKey c)).
Definition validate_feishu_app (c : FeishuAppConfig) : option error :=
  if blank (fa_AppID c) then Some (new_error "feishu app id is required")
  else if blank (fa_AppSecret c) then Some (new_error "feishu app secret is required")
  else if blank (fa_VerificationToken c) then Some (new_error "feishu app verification token is required")
  else if blank (fa_EncryptKey c) then Some (new_error "feishu app encrypt key is required")
  else if blank (fa_EventCallbackPath c) then Some (new_error "feishu app event callback path is required")
  else if blank (fa_CardCallbackPath c) then Some (new_error "feishu app card callback path is required")
  else None.

Definition feishu_bot_enabled (c : FeishuBotConfig) : bool := fb_Enabled c || negb (blank (fb_WebhookURL c)).
Definition validate_feishu_bot (c : FeishuBotConfig) : option error :=
  if blank (fb_WebhookURL c) then Some (new_error "feishu bot webhook url is required") else None.

Definition dingtalk_app_enabled (c : DingTalkAppConfig) : bool :=
  da_Enabled c || negb (blank (da_ClientID c)) || negb (blank (da_ClientSecret c)) || (0 <? da_AgentID c) ||
  negb (blank (da_Token c)) || negb (blank (da_AESKey c)).
Definition validate_dingtalk_app (c : DingTalkAppConfig) : option error :=
  if blank (da_ClientID c) then Some (new_error "dingtalk app client id is required")
  else if blank (da_ClientSecret c) then Some (new_error "dingtalk app client secret is required")
  else if da_AgentID c <=? 0 then Some (new_error "dingtalk app agent id must be positive")
  else if blank (da_Token c) then Some (new_error "dingtalk app token is required")
  else if blank (da_AESKey c) then Some (new_error "dingtalk app aes key is required")
  else if blank (da_EventCallbackPath c) then Some (new_error "dingtalk app event callback path is required")
  else if blank (da_CardCallbackPath c) then Some (new_error "dingtalk app card callback path is required")
  else None.

Definition dingtalk_robot_enabled (c : DingTalkRobotConfig) : bool := dr_Enabled c || negb (blank (dr_WebhookURL c)).
Definition validate_dingtalk_robot (c : DingTalkRobotConfig) : option error :=
  if blank (dr_WebhookURL c) then Some (new_error "dingtalk robot webhook url is required") else None.

(** The first error of a list of checks. *)
Fixpoint first_error (l : list (option error)) : option error :=
  match l with [] => None | Some e :: _ => Some e | None :: l => first_error l end.

Definition if_enabled (on : bool) (v : option error) : option error := if on then v else None.

Definition ValidateGateway (c : GatewayConfig) : option error :=
  if blank (gc_HTTPPort c) then Some (new_error "gateway http port is required")
  else if blank (gc_RedisAddr c) then Some (new_error "gateway redis addr is required")
  else
    let hasApp := wecom_enabled (gc_WeCom c) in
    let hasRobot := wecom_robot_enabled (gc_WeComRobot c) in
    let hasFeishuApp := feishu_app_enabled (gc_FeishuApp c) in
    let hasFeishuBot := feishu_bot_enabled (gc_FeishuBot c) in
    let hasDingTalkApp := dingtalk_app_enabled (gc_DingTalkApp c) in
    let hasDingTalkRobot := dingtalk_robot_enabled (gc_DingTalkRobot c) in
    if negb hasApp && negb hasRobot && negb hasFeishuApp && negb hasFeishuBot && negb hasDingTalkApp && negb hasDingTalkRobot
    then Some (new_error "at least one gateway channel must be configured")
    else first_error
      [ if_enabled hasApp (validate_wecom (gc_WeCom c)); if_enabled hasFeishuApp (validate_feishu_app (gc_FeishuApp c));
        if_enabled hasFeishuBot (validate_feishu_bot (gc_FeishuBot c)); if_enabled hasDingTalkApp (validate_dingtalk_app (gc_DingTalkApp c));
        if_enabled hasDingTalkRobot (validate_dingtalk_robot (gc_DingTalkRobot c)) ].

Definition ParseConfig (getenv : string → string) (media : string) (args : list string) : result GatewayConfig :=
  cfg ← parse_flags flag_table args (env_config getenv media);
  match ValidateGateway cfg with Some e => Fail e | None => Ok cfg end.

(** ** What the gateway's main gives to the adapters (cmd/gateway/main.go) *)
Definition wecom_adapter_config (c : WeComConfig) : Config :=
  MkConfig (wx_CorpID c) (wx_AgentID c) (wx_CorpSecret c) (wx_Token c) (wx_EncodingAESKey c) (wx_CallbackPath c) (wx_APIBaseURL c) 0 (wx_MediaDir c).
Definition dingtalk_adapter_config (c : DingTalkAppConfig) : AppConfig :=
  MkAppConfig (da_ClientID c) (da_ClientSecret c) (da_AgentID c) (da_EventCallbackPath c) (da_CardCallbackPath c) (da_APIBaseURL c)
    (da_OAPIBaseURL c) (da_Token c) (da_AESKey c) (da_MediaDir c) (da_CardTemplateID c) (da_CardCallbackRouteKey c) 0.
Definition dingtalk_robot_config (c : DingTalkRobotConfig) : RobotConfig := MkRobotConfig (dr_WebhookURL c) (dr_Secret c) 0.

(** ** Validation is complete *)
Lemma first_error_None l : first_error l = None ↔ ∀ v, v ∈ l → v = None.
Proof. induction l as [|[e|] l IH]; cbn; [set_solver|split; [done|intros H; by specialize (H (Some e) ltac:(left))]|rewrite IH; set_solver]. Qed.

Lemma if_enabled_None on v : if_enabled on v = None ↔ (on = true → v = None).
Proof. destruct on; cbn; naive_solver. Qed.

Definition some_channel (c : GatewayConfig) : bool :=
  wecom_enabled (gc_WeCom c) || wecom_robot_enabled (gc_WeComRobot c) || feishu_app_enabled (gc_FeishuApp c) ||
  feishu_bot_enabled (gc_FeishuBot c) || dingtalk_app_enabled (gc_DingTalkApp c) || dingtalk_robot_enabled (gc_DingTalkRobot c).

(** A configuration is valid exactly when its port and its Redis address are
    set, a channel is enabled, and every enabled channel is valid. *)
Lemma validate_gateway c :
  ValidateGateway c = None ↔
  blank (gc_HTTPPort c) = false ∧ blank (gc_RedisAddr c) = false ∧ some_channel c = true ∧
  (wecom_enabled (gc_WeCom c) = true → validate_wecom (gc_WeCom c) = None) ∧
  (feishu_app_enabled (gc_FeishuApp c) = true → validate_feishu_app (gc_FeishuApp c) = None) ∧
  (feishu_bot_enabled (gc_FeishuBot c) = true → validate_feishu_bot (gc_FeishuBot c) = None) ∧
  (dingtalk_app_enabled (gc_DingTalkApp c) = true → validate_dingtalk_app (gc_DingTalkApp c) = None) ∧
  (dingtalk_robot_enabled (gc_DingTalkRobot c) = true → validate_dingtalk_robot (gc_DingTalkRobot c) = None).
Proof.
  unfold ValidateGateway, some_channel. destruct (blank (gc_HTTPPort c)); [naive_solver|]. destruct (blank (gc_RedisAddr c)); [naive_solver|].
  set (a := wecom_enabled _). set (b := wecom_robot_enabled _). set (f := feishu_app_enabled _). set (g := feishu_bot_enabled _).
  set (d := dingtalk_app_enabled _). set (r := dingtalk_robot_enabled _).
  replace (negb a && negb b && negb f && negb g && negb d && negb r) with (negb (a || b || f || g || d || r))
    by (destruct a, b, f, g, d, r; reflexivity).
  destruct (a || b || f || g || d || r); cbn [negb]; [|naive_solver].
  rewrite first_error_None. rewrite <-!if_enabled_None. split.
  - intros H. split_and!; try done; apply H; set_solver.
  - intros (_ & _ & _ & H1 & H2 & H3 & H4 & H5) v Hv. repeat (apply elem_of_cons in Hv as [->|Hv]; [done|]). by apply elem_of_nil in Hv.
Qed.

(** A configuration that is accepted, from whatever environment and command
    line, has a port, a Redis address and a channel, and every adapter the
    gateway then makes finds its own configuration valid. *)
Theorem config_accepted getenv media args c temp :
  ParseConfig getenv media args = Ok c →
  blank (gc_HTTPPort c) = false ∧ blank (gc_RedisAddr c) = false ∧ some_channel c = true ∧
  (wecom_enabled (gc_WeCom c) = true →
     Wecom.Validate (normalize_config temp (wecom_adapter_config (gc_WeCom c))) = None ∧ blank (wx_CallbackPath (gc_WeCom c)) = false ∧
     0 ≤ wx_MediaRetentionDays (gc_WeCom c)) ∧
  (feishu_app_enabled (gc_FeishuApp c) = true → blank (fa_EncryptKey (gc_FeishuApp c)) = false) ∧
  (dingtalk_app_enabled (gc_DingTalkApp c) = true →
     ValidateApp (normalize_app (dingtalk_adapter_config (gc_DingTalkApp c))) = None ∧
     blank (da_EventCallbackPath (gc_DingTalkApp c)) = false ∧ blank (da_CardCallbackPath (gc_DingTalkApp c)) = false) ∧
  (dingtalk_robot_enabled (gc_DingTalkRobot c) = true →
     ValidateRobot (normalize_robot (dingtalk_robot_config (gc_DingTalkRobot c))) = None).
Proof.
  unfold ParseConfig. destruct (parse_flags _ _ _) as [cfg|e]; [|done]. cbn.
  destruct (ValidateGateway cfg) eqn:Hv; [done|]. intros [= <-]. apply validate_gateway in Hv as (H1 & H2 & H3 & Hw & Hf & _ & Hd & Hr).
  split_and!; try done.
  - intros Hon. specialize (Hw Hon). unfold validate_wecom in Hw. repeat (case_match; try done). unfold Wecom.Validate, normalize_config.
    cbn [wecom_adapter_config wc_CorpID wc_AgentID wc_CorpSecret wc_Token wc_EncodingAESKey]. split_and!; [|done|lia].
    repeat match goal with H : ?b = false |- _ => rewrite H end. done.
  - intros Hon. specialize (Hf Hon). unfold validate_feishu_app in Hf. by repeat (case_match; try done).
  - intros Hon. specialize (Hd Hon). unfold validate_dingtalk_app in Hd. repeat (case_match; try done).
    unfold ValidateApp, normalize_app. cbn [dingtalk_adapter_config ac_ClientID ac_ClientSecret ac_AgentID ac_Token ac_AESKey].
    split_and!; [|done..]. unfold Dingtalk.blank, Wecom.blank in *. repeat match goal with H : ?b = false |- _ => rewrite H end. done.
Qed.

(** An environment with a robot's webhook, and a flag that moves the port. *)
Definition demo_env (k : string) : string := if bool_decide (k = "DINGTALK_ROBOT_WEBHOOK_URL"%string) then " https://robot " else "".
Definition demo_cfg : GatewayConfig := set_gc_HTTPPort ":9000" (env_config demo_env "/tmp/media").

Lemma config_accepted_witness :
  blank (gc_HTTPPort demo_cfg) = false ∧ some_channel demo_cfg = true ∧
  ValidateRobot (normalize_robot (dingtalk_robot_config (gc_DingTalkRobot demo_cfg))) = None.
Proof.
  pose proof (config_accepted demo_env "/tmp/media" ["--http-port"; ":9000"; "rest"]%string demo_cfg "/tmp") as H.
  destruct H as (H1 & _ & H3 & _ & _ & _ & H7); [vm_compute; reflexivity|]. split_and!; [exact H1|exact H3|apply H7; vm_compute; reflexivity].
Defined.

(** The command line comes after the environment, the last of several flags
    wins, and a mistake anywhere refuses the whole. *)
Example flags_in_order :
  match parse_flags flag_table ["-http-port=:1"; "--http-port"; ":2"; "-feishu-app-enabled"; "-dingtalk-app-agent-id=0x10"]%string demo_cfg with
  | Ok c => gc_HTTPPort c = ":2"%string ∧ fa_Enabled (gc_FeishuApp c) = true ∧ da_AgentID (gc_DingTalkApp c) = 16
  | Fail _ => False
  end ∧
  is_ok (parse_flags flag_table ["-http-port"]%string demo_cfg) = false ∧ is_ok (parse_flags flag_table ["-nope=1"]%string demo_cfg) = false.
Proof. vm_compute. done. Qed.
