(* ===== verification/MediaRetention.v ===== *)
(** * The retention of downloaded media: internal/gateway/wecom/media_retention.go

    One sweep over the media directory, and the sweeps of the background task.
    Reading the directory, the time of a file and removing one are the
    operating system's, over a world of its own; a ticker's ticks are given. *)
From S2P Require Import Prelude.
From stdpp Require Import list.

Local Open Scope Z_scope.

(** An entry of the directory: whether it is a directory, and the time of its
    last change or the error of asking for it. *)
Record dir_entry := Entry { en_Name : string; en_IsDir : bool; en_Info : result Z }.

(** [os.ReadDir]: the entries, or an error, with whether the directory does not
    exist. *)
Inductive listing := Listing (l : list dir_entry) | NotExist | ReadError (e : error).

Section retention.
Context {W : Type}.
Variable read_dir : string → W → listing.
Variable remove : string → string → W → option error * W.

Fixpoint sweep (mediaDir : string) (cutoff : Z) (entries : list dir_entry) (removed : nat) (w : W) : nat * option error * W :=
  match entries with
  | [] => (removed, None, w)
  | entry :: entries =>
    if en_IsDir entry then sweep mediaDir cutoff entries removed w
    else match en_Info entry with
    | Fail e => (removed, Some e, w)
    | Ok modTime =>
      if cutoff <? modTime then sweep mediaDir cutoff entries removed w
      else match remove mediaDir (en_Name entry) w with
      | (Some e, w) => (removed, Some e, w)
      | (None, w) => sweep mediaDir cutoff entries (S removed) w
      end
    end
  end.

Definition CleanupExpiredMediaFiles (mediaDir : string) (retention now : Z) (w : W) : nat * option error * W :=
  if (retention <=? 0) || bool_decide (mediaDir = ""%string) then (0%nat, None, w)
  else match read_dir mediaDir w with
  | NotExist => (0%nat, None, w)
  | ReadError e => (0%nat, Some e, w)
  | Listing entries => sweep mediaDir (now - retention) entries 0 w
  end.

(** The task: a sweep at once, then one at each tick until the context is done;
    the sweeps' results are dropped.  [ticks]: the clock's readings. *)
Definition StartMediaRetention (mediaDir : string) (retention : Z) (start : Z) (ticks : list Z) (w : W) : W :=
  if (retention <=? 0) || bool_decide (mediaDir = ""%string) then w
  else foldl (λ w now, (CleanupExpiredMediaFiles mediaDir retention now w).2) w (start :: ticks).
End retention.

(** The configuration; its clock is the readings above. *)
Record MediaRetentionConfig := MkRetention { mr_MediaDir : string; mr_Retention : Z; mr_SweepInterval : Z }.
Definition defaultMediaSweepInterval : Z := 3600 * 1000000000.
Definition normalize_retention (c : MediaRetentionConfig) : MediaRetentionConfig :=
  MkRetention (mr_MediaDir c) (mr_Retention c) (if mr_SweepInterval c <=? 0 then defaultMediaSweepInterval else mr_SweepInterval c).

(** The readings of the first ticks of a ticker, which wants a positive
    interval: it panics otherwise. *)
Definition tick_times (interval start : Z) (n : nat) : option (list Z) :=
  if interval <=? 0 then None else Some (map (λ i, start + interval * Z.of_nat (S i)) (seq 0 n)).

Lemma retention_ticks c start n : is_Some (tick_times (mr_SweepInterval (normalize_retention c)) start n).
Proof.
  unfold normalize_retention, tick_times. cbn. destruct (Z.leb_spec (mr_SweepInterval c) 0) as [Hle|Hgt]; [by eexists|].
  destruct (Z.leb_spec (mr_SweepInterval c) 0); [lia|by eexists].
Qed.

(** The configured retention, in days of nanoseconds, 64-bit (cmd/gateway/main.go). *)
Definition retention_of_days (days : Z) : Z := wrap64 (days * (24 * 3600 * 1000000000)).

(** ** A directory that can be read and changed *)
Abbreviation directory := (list dir_entry).

Definition readable (d : directory) : Prop := NoDup (en_Name <$> d) ∧ Forall (λ e, is_ok (en_Info e) = true) d.

Definition dir_read (_ : string) (d : directory) : listing := Listing d.
Definition dir_remove (_ name : string) (d : directory) : option error * directory := (None, filter (λ e, en_Name e ≠ name) d).

(** A file whose last change is not after the cutoff. *)
Definition expired (cutoff : Z) (e : dir_entry) : bool :=
  negb (en_IsDir e) && match en_Info e with Ok t => t <=? cutoff | Fail _ => false end.

Lemma filter_ext_in {A} (P Q : A → Prop) `{!∀ x, Decision (P x), !∀ x, Decision (Q x)} (l : list A) :
  (∀ x, x ∈ l → P x ↔ Q x) → filter P l = filter Q l.
Proof.
  induction l as [|x l IH]; intros Hpq; [done|]. rewrite !filter_cons. rewrite IH by (intros; apply Hpq; by right).
  specialize (Hpq x ltac:(left)). repeat case_decide; naive_solver.
Qed.

Lemma filter_all {A} (P : A → Prop) `{!∀ x, Decision (P x)} (l : list A) : (∀ x, P x) → filter P l = l.
Proof. intros Hp. induction l as [|x l IH]; [done|]. rewrite filter_cons, decide_True by auto. by rewrite IH. Qed.

Lemma sweep_exact cutoff dir entries : ∀ removed d,
  Forall (λ e, is_ok (en_Info e) = true) entries →
  sweep dir_remove dir cutoff entries removed d =
    ((removed + length (filter (λ e, expired cutoff e = true) entries))%nat, None,
     filter (λ e, en_Name e ∉ en_Name <$> filter (λ e, expired cutoff e = true) entries) d).
Proof.
  induction entries as [|e entries IH]; intros removed d Hok.
  - cbn. rewrite Nat.add_0_r. f_equal. symmetry. apply filter_all. intros. apply not_elem_of_nil.
  - apply Forall_cons in Hok as [He Hok]. cbn [sweep]. destruct (en_Info e) as [t|] eqn:Hi; [|done].
    assert (filter (λ e, expired cutoff e = true) (e :: entries) =
      if negb (en_IsDir e) && (t <=? cutoff) then e :: filter (λ e, expired cutoff e = true) entries else filter (λ e, expired cutoff e = true) entries) as ->.
    { rewrite filter_cons. assert (expired cutoff e = negb (en_IsDir e) && (t <=? cutoff)) as Hx by (unfold expired; by rewrite Hi).
      rewrite <-Hx. by destruct (expired cutoff e); case_decide. }
    destruct (en_IsDir e); cbn [negb andb]; [by apply IH|].
    destruct (Z.ltb_spec cutoff t) as [Hlt|Hle].
    + replace (t <=? cutoff) with false by lia. by apply IH.
    + replace (t <=? cutoff) with true by lia. cbn [dir_remove]. rewrite IH by done. cbn [length]. f_equal; [f_equal; lia|].
      rewrite list_filter_filter. apply list_filter_iff. intros x. rewrite fmap_cons, not_elem_of_cons. tauto.
Qed.

Lemma filter_by_name (d : directory) (p : dir_entry → bool) :
  NoDup (en_Name <$> d) → filter (λ e, en_Name e ∉ en_Name <$> filter (λ e, p e = true) d) d = filter (λ e, p e = false) d.
Proof.
  intros Hnd. apply filter_ext_in. intros e He. split.
  - intros Hn. destruct (p e) eqn:Hp; [|done]. destruct Hn. apply (list_elem_of_fmap_2 en_Name). by apply list_elem_of_filter.
  - intros Hp (e' & Heq & [Hp' He']%list_elem_of_filter)%list_elem_of_fmap.
    apply list_elem_of_lookup in He as [i Hi]. apply list_elem_of_lookup in He' as [j Hj].
    assert (i = j) as ->; [|congruence]. eapply (NoDup_lookup (en_Name <$> d)); [done| |]; rewrite list_lookup_fmap; [by rewrite Hi|by rewrite Hj, Heq].
Qed.

(** On a directory that can be read, a sweep removes exactly the files whose
    last change is at least the retention ago, counts them, and leaves
    directories and younger files, in their order. *)
Theorem cleanup_exact mediaDir retention now d :
  0 < retention → mediaDir ≠ ""%string → readable d →
  CleanupExpiredMediaFiles dir_read dir_remove mediaDir retention now d =
    (length (filter (λ e, expired (now - retention) e = true) d), None, filter (λ e, expired (now - retention) e = false) d).
Proof.
  intros Hr Hd [Hnd Hok]. unfold CleanupExpiredMediaFiles. replace (retention <=? 0) with false by lia.
  rewrite bool_decide_eq_false_2 by done. cbn [orb dir_read]. rewrite sweep_exact by done. by rewrite filter_by_name.
Qed.

Definition demo_dir : directory := [Entry "a" false (Ok 5); Entry "b" true (Ok 1); Entry "c" false (Ok 11)].

Lemma cleanup_exact_witness :
  CleanupExpiredMediaFiles dir_read dir_remove "/media" 10 20 demo_dir = (1%nat, None, [Entry "b" true (Ok 1); Entry "c" false (Ok 11)]).
Proof.
  rewrite (cleanup_exact "/media" 10 20 demo_dir); [vm_compute; reflexivity|lia|done|].
  split; [apply (bool_decide_unpack _); vm_compute; done|by repeat constructor].
Defined.

(** A configured retention of 106,752 days is negative nanoseconds, and nothing
    is ever removed. *)
Example retention_overflows : retention_of_days 106752 < 0.
Proof. vm_compute. done. Qed.
