(* ===== verification/GatewayMain.v ===== *)
(** * The gateway's start: cmd/gateway/main.go

    From the configuration to the adapters, the routes of the HTTP server and
    the media sweep.  [http.ServeMux]'s choice of acceptable patterns is a
    parameter: given the patterns it has, whether it takes one more or panics;
    so is what creating the vendor's DingTalk clients answers. *)
From Stdlib Require Import String Ascii.
From S2P Require Import Prelude GoStrings Strconv GoValue Transport GatewayTypes Router WebhookAuth Ingress Wecom WecomClient WecomRobot FeishuBot FeishuApp.
From S2P Require Import Dingtalk DingtalkClient DingtalkSdk DingtalkRobot DingtalkAdapter GatewayConfig MediaRetention.
From stdpp Require Import list.

Local Open Scope Z_scope.

(** What answers at a path. *)
Inductive endpoint := Healthz | ChannelsIncoming (cfg : IngressHandlerConfig) | WecomCallbacks | FeishuEvents | FeishuCards | DingtalkEvents | DingtalkCards.
Abbreviation mux := (list (string * endpoint)).

(** The adapters a gateway has, each with its own configuration. *)
Record Adapters := MkAdapters {
  ad_wecom : option (Config * Codec);
  ad_wecom_robot : option RobotAdapterConfig;
  ad_feishu_app : option FeishuConfig;
  ad_feishu_bot : option BotConfig;
  ad_dingtalk_app : option AppConfig;
  ad_dingtalk_robot : option RobotConfig
}.

(** The names the enabled channels' adapters register under. *)
Definition channel_names (c : GatewayConfig) : list string :=
  let on (b : bool) (n : string) := if b then [n] else [] in
  on (wecom_enabled (gc_WeCom c)) "wecom" ++ on (wecom_robot_enabled (gc_WeComRobot c)) "wecom_robot" ++
  on (feishu_app_enabled (gc_FeishuApp c)) "feishu_app" ++ on (feishu_bot_enabled (gc_FeishuBot c)) "feishu_bot" ++
  on (dingtalk_app_enabled (gc_DingTalkApp c)) "dingtalk_app" ++ on (dingtalk_robot_enabled (gc_DingTalkRobot c)) "dingtalk_robot".

(** What main gives to the adapters. *)
Definition feishu_adapter_config (c : FeishuAppConfig) : FeishuConfig :=
  MkFeishuConfig (fa_AppID c) (fa_AppSecret c) (fa_VerificationToken c) (fa_EncryptKey c) (fa_EventCallbackPath c) (fa_CardCallbackPath c)
    (fa_APIBaseURL c) 0.
Definition feishu_bot_config (c : FeishuBotConfig) : BotConfig := MkBotConfig (fb_WebhookURL c) (fb_Secret c) 0.

Section start.
Context {T : Type}.
Variable accepts : list string → string → bool.
(** The system's temporary media directory, and the error of creating the
    vendor's clients. *)
Variable temp : string.
Variable vendor_error : AppConfig → option error.

(** A step of building: no result is a panic. *)
Definition built (A : Type) : Type := option (result A).

Definition mux_Handle (p : string) (e : endpoint) (m : mux) : built mux := if accepts (map fst m) p then Some (Ok (m ++ [(p, e)])) else None.

Definition then_ {A B} (x : built A) (f : A → built B) : built B :=
  match x with None => None | Some (Fail e) => Some (Fail e) | Some (Ok a) => f a end.

(** [dingtalk.NewAppAdapter], up to its client. *)
Definition NewDingtalkAdapter (cfg : AppConfig) : result AppConfig :=
  let cfg := normalize_app cfg in
  match ValidateApp cfg with
  | Some e => Fail e
  | None => match vendor_error cfg with Some e => Fail e | None => Ok cfg end
  end.

(** What has been built so far. *)
Abbreviation parts := (mux * SessionRouter T * Adapters)%type.

Definition register (name : string) (p : parts) : parts := (p.1.1, RegisterAdapter name true p.1.2, p.2).
Definition with_adapters (f : Adapters → Adapters) (p : parts) : parts := (p.1.1, p.1.2, f p.2).
Definition handle (path : string) (e : endpoint) (p : parts) : built parts :=
  then_ (mux_Handle path e p.1.1) (λ m, Some (Ok (m, p.1.2, p.2))).

(** A channel that is not enabled changes nothing. *)
Definition when (on : bool) (f : parts → built parts) (p : parts) : built parts := if on then f p else Some (Ok p).

Definition add_wecom (c : WeComConfig) (p : parts) : built parts :=
  match WecomClient.NewAdapter temp (wecom_adapter_config c) with
  | Fail e => Some (Fail e)
  | Ok a => handle (wx_CallbackPath c) WecomCallbacks
      (register "wecom" (with_adapters (λ s, MkAdapters (Some a) (ad_wecom_robot s) (ad_feishu_app s) (ad_feishu_bot s) (ad_dingtalk_app s) (ad_dingtalk_robot s)) p))
  end.

Definition add_wecom_robot (c : WeComRobotConfig) (p : parts) : built parts :=
  let a := NewRobotAdapter (MkRobotAdapter (GatewayConfig.wr_WebhookURL c) 0) in
  Some (Ok (register "wecom_robot" (with_adapters (λ s, MkAdapters (ad_wecom s) (Some a) (ad_feishu_app s) (ad_feishu_bot s) (ad_dingtalk_app s) (ad_dingtalk_robot s)) p))).

Definition add_feishu_app (c : FeishuAppConfig) (p : parts) : built parts :=
  match NewFeishuAdapter (feishu_adapter_config c) with
  | Fail e => Some (Fail e)
  | Ok a =>
    then_ (handle (fa_EventCallbackPath c) FeishuEvents
      (register "feishu_app" (with_adapters (λ s, MkAdapters (ad_wecom s) (ad_wecom_robot s) (Some a) (ad_feishu_bot s) (ad_dingtalk_app s) (ad_dingtalk_robot s)) p)))
      (handle (fa_CardCallbackPath c) FeishuCards)
  end.

Definition add_feishu_bot (c : FeishuBotConfig) (p : parts) : built parts :=
  let a := normalize_bot (feishu_bot_config c) in
  Some (Ok (register "feishu_bot" (with_adapters (λ s, MkAdapters (ad_wecom s) (ad_wecom_robot s) (ad_feishu_app s) (Some a) (ad_dingtalk_app s) (ad_dingtalk_robot s)) p))).

Definition add_dingtalk_app (c : DingTalkAppConfig) (p : parts) : built parts :=
  match NewDingtalkAdapter (dingtalk_adapter_config c) with
  | Fail e => Some (Fail e)
  | Ok a =>
    then_ (handle (da_EventCallbackPath c) DingtalkEvents
      (register "dingtalk_app" (with_adapters (λ s, MkAdapters (ad_wecom s) (ad_wecom_robot s) (ad_feishu_app s) (ad_feishu_bot s) (Some a) (ad_dingtalk_robot s)) p)))
      (handle (da_CardCallbackPath c) DingtalkCards)
  end.

Definition add_dingtalk_robot (c : DingTalkRobotConfig) (p : parts) : built parts :=
  let a := normalize_robot (dingtalk_robot_config c) in
  Some (Ok (register "dingtalk_robot" (with_adapters (λ s, MkAdapters (ad_wecom s) (ad_wecom_robot s) (ad_feishu_app s) (ad_feishu_bot s) (ad_dingtalk_app s) (Some a)) p))).

Definition no_adapters : Adapters := MkAdapters None None None None None None.

Definition buildGatewayMux (c : GatewayConfig) (router : SessionRouter T) : built parts :=
  then_ (handle "/healthz" Healthz ([], router, no_adapters)) (λ p,
  then_ (handle "/v1/channels/incoming" (ChannelsIncoming (NewIngressHandler [IngressConfig (gc_IngressSecret c) None])) p) (λ p,
  then_ (when (wecom_enabled (gc_WeCom c)) (add_wecom (gc_WeCom c)) p) (λ p,
  then_ (when (wecom_robot_enabled (gc_WeComRobot c)) (add_wecom_robot (gc_WeComRobot c)) p) (λ p,
  then_ (when (feishu_app_enabled (gc_FeishuApp c)) (add_feishu_app (gc_FeishuApp c)) p) (λ p,
  then_ (when (feishu_bot_enabled (gc_FeishuBot c)) (add_feishu_bot (gc_FeishuBot c)) p) (λ p,
  then_ (when (dingtalk_app_enabled (gc_DingTalkApp c)) (add_dingtalk_app (gc_DingTalkApp c)) p) (λ p,
  when (dingtalk_robot_enabled (gc_DingTalkRobot c)) (add_dingtalk_robot (gc_DingTalkRobot c)) p))))))).

(** The media sweep that is started: its directory and its retention. *)
Definition media_sweep (c : GatewayConfig) : option (string * Z) :=
  if wecom_enabled (gc_WeCom c) && (0 <? wx_MediaRetentionDays (gc_WeCom c))
  then Some (wx_MediaDir (gc_WeCom c), retention_of_days (wx_MediaRetentionDays (gc_WeCom c))) else None.

(** [run] up to the server: [ping] is Redis's answer, [listen] the listener's
    error; on success what is served, the adapters, and the sweep. *)
Definition run (getenv : string → string) (media : string) (args : list string) (ping : option error) (new_router : SessionRouter T) (listen : option error) :
    built (parts * option (string * Z))%type :=
  match ParseConfig getenv media args with
  | Fail e => Some (Fail e)
  | Ok c =>
    if bool_decide (gc_RedisAddr c = "skip"%string) then Some (Fail (new_error "gateway requires redis transport in runtime"))
    else match ping with
    | Some e => Some (Fail (Err ("redis connection failed: " ++ err_msg e) (err_chain e)))
    | None =>
      then_ (buildGatewayMux c new_router) (λ p,
        match listen with Some e => Some (Fail e) | None => Some (Ok (p, media_sweep c)) end)
    end
  end.
End start.

(** ** What is started *)

(** The routes of the server, in the order of their registration. *)
Definition gateway_routes (c : GatewayConfig) : mux :=
  [("/healthz", Healthz); ("/v1/channels/incoming", ChannelsIncoming (NewIngressHandler [IngressConfig (gc_IngressSecret c) None]))]%string ++
  (if wecom_enabled (gc_WeCom c) then [(wx_CallbackPath (gc_WeCom c), WecomCallbacks)] else []) ++
  (if feishu_app_enabled (gc_FeishuApp c)
   then [(fa_EventCallbackPath (gc_FeishuApp c), FeishuEvents); (fa_CardCallbackPath (gc_FeishuApp c), FeishuCards)] else []) ++
  (if dingtalk_app_enabled (gc_DingTalkApp c)
   then [(da_EventCallbackPath (gc_DingTalkApp c), DingtalkEvents); (da_CardCallbackPath (gc_DingTalkApp c), DingtalkCards)] else []).

(** The router with adapters registered under names. *)
Definition registered {T} (names : list string) (r : SessionRouter T) : SessionRouter T := foldl (λ r n, RegisterAdapter n true r) r names.

Section starts.
Context {T : Type}.
Variable accepts : list string → string → bool.
Variable temp : string.
Variable vendor_error : AppConfig → option error.
Variable c : GatewayConfig.

Abbreviation parts := (mux * SessionRouter T * Adapters)%type.

(** The adapter of an enabled channel. *)
Definition got {A} (on : bool) (x : result A) : option A := if on then match x with Ok a => Some a | Fail _ => None end else None.

Definition adapters_of : Adapters := MkAdapters
  (got (wecom_enabled (gc_WeCom c)) (WecomClient.NewAdapter temp (wecom_adapter_config (gc_WeCom c))))
  (got (wecom_robot_enabled (gc_WeComRobot c)) (Ok (NewRobotAdapter (MkRobotAdapter (GatewayConfig.wr_WebhookURL (gc_WeComRobot c)) 0))))
  (got (feishu_app_enabled (gc_FeishuApp c)) (NewFeishuAdapter (feishu_adapter_config (gc_FeishuApp c))))
  (got (feishu_bot_enabled (gc_FeishuBot c)) (Ok (normalize_bot (feishu_bot_config (gc_FeishuBot c)))))
  (got (dingtalk_app_enabled (gc_DingTalkApp c)) (NewDingtalkAdapter vendor_error (dingtalk_adapter_config (gc_DingTalkApp c))))
  (got (dingtalk_robot_enabled (gc_DingTalkRobot c)) (Ok (normalize_robot (dingtalk_robot_config (gc_DingTalkRobot c))))).

(** The errors of building: the WeCom codec's, for its key, and the vendor's. *)
Definition start_error (e : error) : Prop :=
  (wecom_enabled (gc_WeCom c) = true ∧ NewCodec (normalize_config temp (wecom_adapter_config (gc_WeCom c))) = Fail e) ∨
  (dingtalk_app_enabled (gc_DingTalkApp c) = true ∧ vendor_error (normalize_app (dingtalk_adapter_config (gc_DingTalkApp c))) = Some e).

(** A path is refused after those before it have been registered. *)
Definition path_refused : Prop :=
  ∃ before p after, map fst (gateway_routes c) = before ++ p :: after ∧ accepts before p = false.

Definition outcome (P : parts → Prop) (x : built parts) : Prop :=
  match x with None => path_refused | Some (Fail e) => start_error e | Some (Ok p) => P p end.

Lemma outcome_then (q : parts) Q x f : outcome (eq q) x → outcome Q (f q) → outcome Q (then_ x f).
Proof. destruct x as [[p|e]|]; cbn; [by intros ->|done..]. Qed.

Lemma path_handled path e routes after r A :
  gateway_routes c = routes ++ (path, e) :: after → outcome (eq (routes ++ [(path, e)], r, A)) (handle accepts path e (routes, r, A)).
Proof.
  intros Hr. unfold handle, mux_Handle. cbn [fst snd]. destruct (accepts (map fst routes) path) eqn:Ha; [done|].
  exists (map fst routes), path, (map fst after). split; [|exact Ha]. by rewrite Hr, map_app.
Qed.

Definition register_if (on : bool) (name : string) (r : SessionRouter T) : SessionRouter T := if on then RegisterAdapter name true r else r.

Hypothesis valid : ValidateGateway c = None.

Lemma wecom_added routes after r b1 b2 b3 b4 b5 :
  let on := wecom_enabled (gc_WeCom c) in
  let mine := if on then [(wx_CallbackPath (gc_WeCom c), WecomCallbacks)] else [] in
  gateway_routes c = routes ++ mine ++ after →
  outcome (eq (routes ++ mine, register_if on "wecom" r, MkAdapters (ad_wecom adapters_of) b1 b2 b3 b4 b5))
    (when on (add_wecom accepts temp (gc_WeCom c)) (routes, r, MkAdapters None b1 b2 b3 b4 b5)).
Proof.
  unfold adapters_of, got, when. cbn [ad_wecom]. destruct (wecom_enabled _) eqn:Hon; cbn -[gateway_routes]; [|by rewrite app_nil_r]. intros Hr.
  apply validate_gateway in valid as (_ & _ & _ & Hw & _). specialize (Hw Hon).
  unfold add_wecom, WecomClient.NewAdapter. set (cfg := normalize_config temp (wecom_adapter_config (gc_WeCom c))).
  assert (Wecom.Validate cfg = None) as ->.
  { unfold validate_wecom in Hw. repeat (case_match; try done). unfold Wecom.Validate, cfg, normalize_config.
    cbn [wecom_adapter_config wc_CorpID wc_AgentID wc_CorpSecret wc_Token wc_EncodingAESKey].
    repeat match goal with H : ?b = false |- _ => rewrite H end. done. }
  destruct (NewCodec cfg) as [codec|e] eqn:Hc; [|left; done]. by apply (path_handled _ _ _ after).
Qed.

Lemma feishu_valid :
  feishu_app_enabled (gc_FeishuApp c) = true →
  let cfg := normalize_feishu (feishu_adapter_config (gc_FeishuApp c)) in ValidateFeishu cfg = None ∧ blank (fc_EncryptKey cfg) = false.
Proof.
  intros Hon cfg. apply validate_gateway in valid as (_ & _ & _ & _ & Hf & _). specialize (Hf Hon).
  unfold validate_feishu_app in Hf. repeat (case_match; try done). unfold ValidateFeishu, cfg, normalize_feishu.
  cbn [feishu_adapter_config fc_AppID fc_AppSecret fc_VerificationToken fc_EncryptKey].
  repeat match goal with H : ?b = false |- _ => rewrite H end. done.
Qed.

Lemma feishu_keyed f : ad_feishu_app adapters_of = Some f → blank (fc_EncryptKey f) = false.
Proof.
  unfold adapters_of, got. cbn [ad_feishu_app]. destruct (feishu_app_enabled _) eqn:Hon; [|done].
  destruct (feishu_valid Hon) as [Hv Hkey]. unfold NewFeishuAdapter. rewrite Hv. by intros [= <-].
Qed.

Lemma feishu_added routes after r b1 b2 b3 b4 b5 :
  let on := feishu_app_enabled (gc_FeishuApp c) in
  let mine := if on then [(fa_EventCallbackPath (gc_FeishuApp c), FeishuEvents); (fa_CardCallbackPath (gc_FeishuApp c), FeishuCards)] else [] in
  gateway_routes c = routes ++ mine ++ after →
  outcome (eq (routes ++ mine, register_if on "feishu_app" r, MkAdapters b1 b2 (ad_feishu_app adapters_of) b3 b4 b5))
    (when on (add_feishu_app accepts (gc_FeishuApp c)) (routes, r, MkAdapters b1 b2 None b3 b4 b5)).
Proof.
  unfold adapters_of, got, when. cbn [ad_feishu_app]. destruct (feishu_app_enabled _) eqn:Hon; cbn -[gateway_routes]; [|by rewrite app_nil_r]. intros Hr.
  unfold add_feishu_app, NewFeishuAdapter. rewrite (proj1 (feishu_valid Hon)).
  eapply outcome_then; [by apply (path_handled _ _ _ ((fa_CardCallbackPath (gc_FeishuApp c), FeishuCards) :: after))|].
  change [?x; ?y] with ([x] ++ [y]). rewrite app_assoc. apply (path_handled _ _ _ after). by rewrite <-app_assoc.
Qed.

Lemma dingtalk_added routes after r b1 b2 b3 b4 b5 :
  let on := dingtalk_app_enabled (gc_DingTalkApp c) in
  let mine := if on then [(da_EventCallbackPath (gc_DingTalkApp c), DingtalkEvents); (da_CardCallbackPath (gc_DingTalkApp c), DingtalkCards)] else [] in
  gateway_routes c = routes ++ mine ++ after →
  outcome (eq (routes ++ mine, register_if on "dingtalk_app" r, MkAdapters b1 b2 b3 b4 (ad_dingtalk_app adapters_of) b5))
    (when on (add_dingtalk_app accepts vendor_error (gc_DingTalkApp c)) (routes, r, MkAdapters b1 b2 b3 b4 None b5)).
Proof.
  unfold adapters_of, got, when. cbn [ad_dingtalk_app]. destruct (dingtalk_app_enabled _) eqn:Hon; cbn -[gateway_routes]; [|by rewrite app_nil_r]. intros Hr.
  apply validate_gateway in valid as (_ & _ & _ & _ & _ & _ & Hd & _). specialize (Hd Hon).
  unfold add_dingtalk_app, NewDingtalkAdapter. set (cfg := normalize_app (dingtalk_adapter_config (gc_DingTalkApp c))).
  assert (ValidateApp cfg = None) as ->.
  { unfold validate_dingtalk_app in Hd. repeat (case_match; try done). unfold ValidateApp, cfg, normalize_app.
    cbn [dingtalk_adapter_config ac_ClientID ac_ClientSecret ac_AgentID ac_Token ac_AESKey]. unfold Dingtalk.blank, Wecom.blank in *.
    repeat match goal with H : ?b = false |- _ => rewrite H end. done. }
  destruct (vendor_error cfg) as [e|] eqn:Hv; [by right|].
  eapply outcome_then; [by apply (path_handled _ _ _ ((da_CardCallbackPath (gc_DingTalkApp c), DingtalkCards) :: after))|].
  change [?x; ?y] with ([x] ++ [y]). rewrite app_assoc. apply (path_handled _ _ _ after). by rewrite <-app_assoc.
Qed.

(** Robots and bots need nothing to be added. *)
Lemma robot_added (on : bool) name f routes r A A' :
  (if on then f A else A) = A' →
  outcome (eq (routes, register_if on name r, A')) (when on (λ p, Some (Ok (register name (with_adapters f p)))) (routes, r, A)).
Proof. intros <-. by destruct on. Qed.

Lemma built_gateway router :
  outcome (eq (gateway_routes c, registered (channel_names c) router, adapters_of)) (buildGatewayMux accepts temp vendor_error c router).
Proof.
  unfold buildGatewayMux.
  set (r2 := if wecom_enabled (gc_WeCom c) then [(wx_CallbackPath (gc_WeCom c), WecomCallbacks)] else []).
  set (r3 := if feishu_app_enabled (gc_FeishuApp c)
   then [(fa_EventCallbackPath (gc_FeishuApp c), FeishuEvents); (fa_CardCallbackPath (gc_FeishuApp c), FeishuCards)] else []).
  set (r4 := if dingtalk_app_enabled (gc_DingTalkApp c)
   then [(da_EventCallbackPath (gc_DingTalkApp c), DingtalkEvents); (da_CardCallbackPath (gc_DingTalkApp c), DingtalkCards)] else []).
  set (r1 := [("/healthz", Healthz); ("/v1/channels/incoming", ChannelsIncoming (NewIngressHandler [IngressConfig (gc_IngressSecret c) None]))]%string : mux).
  assert (gateway_routes c = r1 ++ r2 ++ r3 ++ r4) as Hroutes by done.
  eapply outcome_then; [by eapply (path_handled _ _ [])|]. eapply outcome_then; [by eapply (path_handled _ _ [_])|]. cbn [app]. fold r1.
  eapply outcome_then; [apply (wecom_added r1 (r3 ++ r4)); exact Hroutes|]. fold r2.
  eapply outcome_then.
  { apply (robot_added _ _ _ _ _ _ (MkAdapters (ad_wecom adapters_of) (ad_wecom_robot adapters_of) None None None None)).
    unfold adapters_of at 3, got. cbn. by destruct (wecom_robot_enabled _). }
  eapply outcome_then; [apply (feishu_added (r1 ++ r2) r4); by rewrite Hroutes, <-app_assoc|]. fold r3.
  eapply outcome_then.
  { apply (robot_added _ _ _ _ _ _ (MkAdapters (ad_wecom adapters_of) (ad_wecom_robot adapters_of) (ad_feishu_app adapters_of) (ad_feishu_bot adapters_of) None None)).
    unfold adapters_of at 5, got. cbn. by destruct (feishu_bot_enabled _). }
  eapply outcome_then; [apply (dingtalk_added ((r1 ++ r2) ++ r3) []); by rewrite Hroutes, app_nil_r, <-!app_assoc|]. fold r4.
  assert ((gateway_routes c, registered (channel_names c) router, adapters_of) = (((r1 ++ r2) ++ r3) ++ r4,
    register_if (dingtalk_robot_enabled (gc_DingTalkRobot c)) "dingtalk_robot" (register_if (dingtalk_app_enabled (gc_DingTalkApp c)) "dingtalk_app"
      (register_if (feishu_bot_enabled (gc_FeishuBot c)) "feishu_bot" (register_if (feishu_app_enabled (gc_FeishuApp c)) "feishu_app"
        (register_if (wecom_robot_enabled (gc_WeComRobot c)) "wecom_robot" (register_if (wecom_enabled (gc_WeCom c)) "wecom" router))))), adapters_of)) as ->.
  { f_equal. f_equal; [by rewrite Hroutes, <-!app_assoc|]. unfold channel_names, registered, register_if. rewrite !foldl_app.
    by destruct (wecom_enabled _), (wecom_robot_enabled _), (feishu_app_enabled _), (feishu_bot_enabled _), (dingtalk_app_enabled _), (dingtalk_robot_enabled _). }
  apply robot_added. unfold adapters_of, got. cbn. by destruct (dingtalk_robot_enabled _).
Qed.
End starts.

(** C20: The gateway, for every environment and command line and whatever Redis,
    the vendor's client, the server's mux and the listener answer, comes up with
    exactly its enabled channels or says why not.  When it comes up, each path
    has its own handler: the health check, the channel endpoint, and those of
    the enabled applications; each enabled channel has one adapter, made from
    its own configuration and registered under its own name; and the media
    sweep runs when WeCom is enabled with a retention.  It fails when the
    configuration is refused, names no Redis, or Redis does not answer, for a
    WeCom key the codec refuses, for an error of the vendor's client, or for
    the listener's error; and it panics when the mux refuses a path after those
    before it.  A Feishu application that is started always has an encryption
    key, so that every event it dispatches is signed with it. *)
Theorem gateway_starts {T} accepts temp vendor_error getenv media args ping (router : SessionRouter T) listen :
  match run accepts temp vendor_error getenv media args ping router listen with
  | None => ∃ c, ParseConfig getenv media args = Ok c ∧ gc_RedisAddr c ≠ "skip"%string ∧ ping = None ∧ path_refused accepts c
  | Some (Fail e) =>
    ParseConfig getenv media args = Fail e ∨
    ∃ c, ParseConfig getenv media args = Ok c ∧
      (gc_RedisAddr c = "skip"%string ∧ e = new_error "gateway requires redis transport in runtime" ∨
       gc_RedisAddr c ≠ "skip"%string ∧
       ((∃ cause, ping = Some cause ∧ e = Err ("redis connection failed: " ++ err_msg cause) (err_chain cause)) ∨
        ping = None ∧ (start_error temp vendor_error c e ∨ listen = Some e)))
  | Some (Ok (m, r, a, sweep)) =>
    ∃ c, ParseConfig getenv media args = Ok c ∧ gc_RedisAddr c ≠ "skip"%string ∧ ping = None ∧ listen = None ∧
    m = gateway_routes c ∧ r = registered (channel_names c) router ∧ a = adapters_of temp vendor_error c ∧
    (sweep = if decide (wecom_enabled (gc_WeCom c) = true ∧ 0 < wx_MediaRetentionDays (gc_WeCom c))
             then Some (wx_MediaDir (gc_WeCom c), retention_of_days (wx_MediaRetentionDays (gc_WeCom c))) else None) ∧
    ∀ f, ad_feishu_app a = Some f →
      ∀ `{LarkCallbacks} header body plain, parseEventBody f header body = Plain plain →
        signed_by lc_EventSignature header (fc_EncryptKey f) body = true
  end.
Proof.
  unfold run. destruct (ParseConfig getenv media args) as [c|e] eqn:Hparse; [|by left].
  assert (ValidateGateway c = None) as Hv.
  { unfold ParseConfig in Hparse. destruct (parse_flags _ _ _) as [cfg|]; [|done]. cbn in Hparse. destruct (ValidateGateway cfg) eqn:Hv; [done|]. by injection Hparse as <-. }
  case_bool_decide as Hskip; [right; exists c; by split; [|left]|].
  destruct ping as [cause|]; [right; exists c; split; [done|right; split; [done|left; by exists cause]]|].
  pose proof (built_gateway accepts temp vendor_error c Hv router) as Hb.
  destruct (buildGatewayMux _ _ _ _ _) as [[[[m r] a]|e]|]; cbn [then_ outcome] in *.
  - injection Hb as <- <- <-. destruct listen as [e|]; [right; exists c; split; [done|right; split; [done|right; split; [done|by right]]]|].
    exists c. split_and!; try done.
    + unfold media_sweep. case_decide as Hd; [by rewrite (proj1 Hd), (proj2 (Z.ltb_lt _ _) (proj2 Hd))|].
      destruct (wecom_enabled _); [|done]. cbn. destruct (0 <? _) eqn:Hlt; [|done]. apply Z.ltb_lt in Hlt. tauto.
    + intros f Hfa L header body plain Hp. apply event_parsed in Hp as (_ & Hs & _). apply Hs. intros Hkey.
      pose proof (feishu_keyed temp vendor_error c Hv f Hfa) as Hf. by rewrite Hkey in Hf.
  - right. exists c. split; [done|]. right. split; [done|]. right. split; [done|by left].
  - by exists c.
Qed.

(** The error of the vendor's clients is that of the DingTalk adapter's own
    constructor, whose configuration is the adapter's. *)
Section vendor.
Context {W : Type} (ip_host : string → option string).
Variable oauth_NewClient : openAPIConfig → result (string → string → W → result (option (string * Z)) * W).
Variable im_NewClient : openAPIConfig → result (interactiveCard → string → W → result (option bool) * W).
Variable do : ctx → OutRequest → W → result string * W.

Definition client_error (cfg : AppConfig) : option error :=
  match newDingtalkClient ip_host oauth_NewClient im_NewClient do cfg with Ok _ => None | Fail e => Some e end.

Lemma dingtalk_adapter_built cfg :
  NewDingtalkAdapter client_error cfg =
    match NewDingtalkAppAdapter ip_host oauth_NewClient im_NewClient do cfg with Ok a => Ok (dt_cfg a) | Fail e => Fail e end.
Proof.
  unfold NewDingtalkAdapter, NewDingtalkAppAdapter, client_error. destruct (ValidateApp _); [done|]. unfold newDingtalkClient.
  by destruct (newSDKAppAPI _ _ _ _ _).
Qed.
End vendor.

(** A mux that refuses a path it has. *)
Definition distinct_paths (ps : list string) (p : string) : bool := negb (bool_decide (p ∈ ps)).

Definition demo_vars : list (string * string) :=
  [("FEISHU_APP_ID", "cli"); ("FEISHU_APP_SECRET", "s"); ("FEISHU_APP_VERIFICATION_TOKEN", "t"); ("FEISHU_APP_ENCRYPT_KEY", "k");
   ("WECOM_ROBOT_WEBHOOK_URL", "https://robot")]%string.
Definition feishu_env (k : string) : string := match filter (λ m, m.1 = k) demo_vars with m :: _ => m.2 | [] => EmptyString end.
Definition feishu_cfg : GatewayConfig := env_config feishu_env "/tmp/media".
Definition feishu_run : option (result (mux * SessionRouter unit * Adapters * option (string * Z))) :=
  run distinct_paths "/tmp" (λ _, None) feishu_env "/tmp/media" [] None (NewSessionRouter tt) None.

Lemma gateway_starts_witness :
  match feishu_run with
  | Some (Ok (m, r, a, sweep)) =>
    m = gateway_routes feishu_cfg ∧ r = registered ["wecom_robot"; "feishu_app"]%string (NewSessionRouter tt) ∧
    a = adapters_of "/tmp" (λ _, None) feishu_cfg
  | _ => False
  end.
Proof.
  pose proof (gateway_starts distinct_paths "/tmp" (λ _, None) feishu_env "/tmp/media" [] None (NewSessionRouter tt) None) as Hx.
  fold feishu_run in Hx. assert (∃ m r a sweep, feishu_run = Some (Ok (m, r, a, sweep))) as (m & r & a & sweep & He) by (do 4 eexists; vm_compute; reflexivity).
  rewrite He in *. destruct Hx as (c & Hc & _ & _ & _ & Hm & Hr & Ha & _).
  assert (ParseConfig feishu_env "/tmp/media" [] = Ok feishu_cfg) as Hp by (vm_compute; reflexivity).
  rewrite Hp in Hc. injection Hc as <-. split; [exact Hm|]. split; [rewrite Hr; reflexivity|exact Ha].
Defined.

(** Two applications on one path: the configuration is accepted, and the start
    panics. *)
Example same_path_panics :
  let cfg := set_gc_FeishuApp (set_fa_CardCallbackPath "/callbacks/feishu/events" (gc_FeishuApp feishu_cfg)) feishu_cfg in
  ValidateGateway cfg = None ∧ buildGatewayMux distinct_paths "/tmp" (λ _, None) cfg (NewSessionRouter tt) = None.
Proof. vm_compute. done. Qed.

Example no_redis :
  run distinct_paths "/tmp" (λ _, None) feishu_env "/tmp/media" ["--redis-addr=skip"]%string None (NewSessionRouter tt) None =
  Some (Fail (new_error "gateway requires redis transport in runtime")).
Proof. vm_compute. reflexivity. Qed.
