(* ===== verification/CallbackSim.v ===== *)
(** * The WeCom callback simulator: cmd/wecom-callback-sim/main.go

    A command-line tool that makes the callback WeCom would make: it encrypts and
    signs a message and posts it to the gateway.  Reading a file, the clock, the
    random bytes and the HTTP exchange are parameters; a panic is an absent
    result. *)
From Stdlib Require Import String Ascii.
From S2P Require Import Prelude GoStrings Strconv Xml Sha256 Cipher Callback Url Wecom Transport GatewayTypes Router WebhookAuth Ingress WecomHandler GatewayConfig.
From stdpp Require Import list.

Local Open Scope Z_scope.

Record requestConfig := MkSim {
  rq_Endpoint : string;
  rq_CorpID : string;
  rq_AgentID : Z;
  rq_Token : string;
  rq_EncodingAESKey : string;
  rq_Timestamp : string;
  rq_Nonce : string;
  rq_InnerXML : string
}.

(** ** The command line *)

(** The configuration with the path of the message's file. *)
Definition sim_default : requestConfig * string :=
  (MkSim "http://127.0.0.1:8081/callbacks/wecom" "" 0 "" "" "" "" "", EmptyString).

Definition sim_flags : list (string * flag_var (requestConfig * string)) :=
  let on f := λ v p, (f v p.1, p.2) in
  [ ("endpoint", FString (on (λ v c, MkSim v (rq_CorpID c) (rq_AgentID c) (rq_Token c) (rq_EncodingAESKey c) (rq_Timestamp c) (rq_Nonce c) (rq_InnerXML c))));
    ("corp-id", FString (on (λ v c, MkSim (rq_Endpoint c) v (rq_AgentID c) (rq_Token c) (rq_EncodingAESKey c) (rq_Timestamp c) (rq_Nonce c) (rq_InnerXML c))));
    ("agent-id", FInt (λ v p, let c := p.1 in
       (MkSim (rq_Endpoint c) (rq_CorpID c) v (rq_Token c) (rq_EncodingAESKey c) (rq_Timestamp c) (rq_Nonce c) (rq_InnerXML c), p.2)));
    ("token", FString (on (λ v c, MkSim (rq_Endpoint c) (rq_CorpID c) (rq_AgentID c) v (rq_EncodingAESKey c) (rq_Timestamp c) (rq_Nonce c) (rq_InnerXML c))));
    ("encoding-aes-key", FString (on (λ v c, MkSim (rq_Endpoint c) (rq_CorpID c) (rq_AgentID c) (rq_Token c) v (rq_Timestamp c) (rq_Nonce c) (rq_InnerXML c))));
    ("timestamp", FString (on (λ v c, MkSim (rq_Endpoint c) (rq_CorpID c) (rq_AgentID c) (rq_Token c) (rq_EncodingAESKey c) v (rq_Nonce c) (rq_InnerXML c))));
    ("nonce", FString (on (λ v c, MkSim (rq_Endpoint c) (rq_CorpID c) (rq_AgentID c) (rq_Token c) (rq_EncodingAESKey c) (rq_Timestamp c) v (rq_InnerXML c))));
    ("inner-xml", FString (λ v p, (p.1, v))) ]%string.

(** The message, and a time stamp and a nonce where none is given. *)
Definition complete (now : Z) (raw : string) (c : requestConfig) : requestConfig :=
  let timestamp := if bool_decide (rq_Timestamp c = EmptyString) then FormatInt now else rq_Timestamp c in
  let nonce := if bool_decide (rq_Nonce c = EmptyString) then ("nonce-" ++ timestamp)%string else rq_Nonce c in
  MkSim (rq_Endpoint c) (rq_CorpID c) (rq_AgentID c) (rq_Token c) (rq_EncodingAESKey c) timestamp nonce raw.

Definition parseArgs (read_file : string → result string) (now : Z) (args : list string) : result requestConfig :=
  '(cfg, path) ← parse_flags sim_flags args sim_default;
  if bool_decide (path = EmptyString) then Fail (new_error "inner-xml is required")
  else raw ← read_file path; Ok (complete now raw cfg).

(** ** The request *)
Definition sim_config (c : requestConfig) : Config := MkConfig (rq_CorpID c) 0 "" (rq_Token c) (rq_EncodingAESKey c) "" "" 0 "".

Definition validate_sim (c : requestConfig) : option error :=
  if Wecom.blank (rq_Endpoint c) then Some (new_error "endpoint is required")
  else if Wecom.blank (rq_CorpID c) then Some (new_error "corp id is required")
  else if rq_AgentID c <=? 0 then Some (new_error "agent id must be positive")
  else if Wecom.blank (rq_Token c) then Some (new_error "token is required")
  else if Wecom.blank (rq_EncodingAESKey c) then Some (new_error "encoding aes key is required")
  else if Wecom.blank (rq_InnerXML c) then Some (new_error "inner xml is required")
  else None.

Definition envelope_head (corp : string) (agent : Z) : string :=
  ("<xml><ToUserName><![CDATA[" ++ corp ++ "]]></ToUserName><AgentID><![CDATA[" ++ FormatInt agent ++ "]]></AgentID><Encrypt><![CDATA[")%string.
Definition envelope_tail : string := "]]></Encrypt></xml>".
Definition sim_envelope (corp : string) (agent : Z) (encrypted : string) : string := (envelope_head corp agent ++ encrypted ++ envelope_tail)%string.

(** The query's values, those of the endpoint included. *)
Definition sim_query (signature timestamp nonce : string) (endpoint : Values) : Values :=
  set_value "nonce" nonce (set_value "timestamp" timestamp (set_value "msg_signature" signature endpoint)).

Section request.
Variable ip_host : string → option string.

(** The request's URL and its body. *)
Definition request_of (c : requestConfig) (codec : Codec) (encrypted : string) : result (URL * string) :=
  endpoint ← Parse ip_host (rq_Endpoint c);
  let signature := Signature codec (rq_Timestamp c) (rq_Nonce c) encrypted in
  let query := sim_query signature (rq_Timestamp c) (rq_Nonce c) (ParseQuery (u_RawQuery endpoint)) in
  Ok (set_query (encode_values query) endpoint, sim_envelope (rq_CorpID c) (rq_AgentID c) encrypted).

(** [rand]: sixteen random bytes. *)
Definition callbackRequest (rand : result (list Z)) (c : requestConfig) : option (result (URL * string)) :=
  match validate_sim c with
  | Some e => Some (Fail e)
  | None =>
    match NewCodec (sim_config c) with
    | Fail e => Some (Fail e)
    | Ok codec =>
      match Encrypt codec rand (bytes_of (rq_InnerXML c)) with
      | None => None
      | Some (Fail e) => Some (Fail e)
      | Some (Ok encrypted) => Some (request_of c codec encrypted)
      end
    end
  end.

Definition buildCallbackRequest (rand : result (list Z)) (c : requestConfig) : option (result (string * string)) :=
  r ← callbackRequest rand c; Some ('(url, body) ← r; Ok (url_text url, body)).

(** [run]: [do] posts a body to an address and gives the status and what reading
    the response gives; [write] is the standard output's error.  The result is
    the error, if any, and what was written. *)
Definition RunSimulator {W} (read_file : string → result string) (now : Z) (rand : result (list Z))
    (do : string → string → W → result (Z * result string) * W) (write : string → option error) (args : list string) (w : W) :
    option (option error * string) * W :=
  match parseArgs read_file now args with
  | Fail e => (Some (Some e, EmptyString), w)
  | Ok cfg =>
    match buildCallbackRequest rand cfg with
    | None => (None, w)
    | Some (Fail e) => (Some (Some e, EmptyString), w)
    | Some (Ok (url, body)) =>
      match do url body w with
      | (Fail e, w) => (Some (Some e, EmptyString), w)
      | (Ok (_, Fail e), w) => (Some (Some e, EmptyString), w)
      | (Ok (status, Ok text), w) =>
        if 300 <=? status then
          (Some (Some (new_error ("callback request failed: status=" ++ FormatInt status ++ " body=" ++ TrimSpace text)), EmptyString), w)
        else if bool_decide (text = EmptyString) then (Some (None, EmptyString), w)
        else match write text with Some e => (Some (Some e, EmptyString), w) | None => (Some (None, text), w) end
      end
    end
  end.
End request.

(** ** What the gateway makes of it *)
Section accepted.
Variable ip_host : string → option string.

Lemma sim_values k signature timestamp nonce l :
  get_value k (ParseQuery (encode_values (sim_query signature timestamp nonce l))) =
  if bool_decide (k = "nonce"%string) then nonce else if bool_decide (k = "timestamp"%string) then timestamp
  else if bool_decide (k = "msg_signature"%string) then signature else get_value k l.
Proof.
  rewrite ParseQuery_encode, get_value_sorted. unfold sim_query.
  repeat case_bool_decide; subst; rewrite ?get_set_other by done; by rewrite ?get_set_value.
Qed.

Lemma signed_values signature timestamp nonce l :
  let q := ParseQuery (encode_values (sim_query signature timestamp nonce l)) in
  get_value "msg_signature" q = signature ∧ get_value "timestamp" q = timestamp ∧ get_value "nonce" q = nonce.
Proof. cbv zeta. by rewrite !sim_values. Qed.

(** The codec of a gateway with the simulator's corporation, token and key is
    the simulator's. *)
Definition same_account (g : Config) (c : requestConfig) : Prop :=
  wc_CorpID g = rq_CorpID c ∧ wc_Token g = rq_Token c ∧ wc_EncodingAESKey g = rq_EncodingAESKey c.

Lemma same_codec g c : same_account g c → NewCodec (sim_config c) = NewCodec g.
Proof. intros (H1 & H2 & H3). unfold NewCodec, sim_config. cbn. by rewrite H1, H2, H3. Qed.

(** What is encrypted is written in base64. *)
Lemma encrypted_text cfg c rnd plain e :
  NewCodec cfg = Ok c → Forall byte rnd → Forall byte plain → Encrypt c (Ok rnd) plain = Some (Ok e) → ∃ l, Forall byte l ∧ e = base64_encode l.
Proof.
  intros Hc Hr Hp. pose proof (NewCodec_key_ok _ _ Hc) as Hk. unfold Encrypt. rewrite NewCipher_ok by done.
  destruct (padded_roundtrip (cd_aesKey c) (frame rnd plain (cd_receiveID c)) Hk) as (l & -> & Hl%base64_decode_byte & _); [by apply frame_byte|].
  intros [= <-]. eauto.
Qed.

Lemma base64_bare l : Forall byte l → forallb bare_char (list_ascii_of_string (base64_encode l)) = true.
Proof.
  assert (∀ n, 0 ≤ n < 64 → bare_char (alphabet n) = true) as Ha
    by (apply (all_below_spec 64 (λ n, bare_char (alphabet n))); vm_compute; reflexivity).
  induction l as [l IH] using (induction_ltof1 _ (@length Z)). unfold ltof in IH. intros Hl.
  destruct l as [|a [|b [|c l]]]; [done| | |]; rewrite ?Forall_cons in Hl; cbn [base64_encode list_ascii_of_string forallb].
  - destruct (base64_group a 0 0) as ((R1 & R2 & _) & _); [tauto|done|done|]. rewrite Z.add_0_r in R2. by rewrite !Ha by done.
  - destruct (base64_group a b 0) as ((R1 & R2 & R3 & _) & _); [tauto|tauto|done|]. rewrite Z.add_0_r in R3. by rewrite !Ha by done.
  - destruct (base64_group a b c) as ((R1 & R2 & R3 & R4) & _); [tauto..|]. rewrite !Ha by done. apply IH; [simpl; lia|tauto].
Qed.

(** The envelope is the document of its three elements, and is read as such. *)
Lemma sim_envelope_render corp agent e :
  sim_envelope corp agent e = render "xml" [("ToUserName", Cdata corp); ("AgentID", Cdata (FormatInt agent)); ("Encrypt", Cdata e)]%string.
Proof. unfold sim_envelope, envelope_head, envelope_tail, render, Xml.elements. cbn [foldr]. unfold element, content_body. cbn [fst snd]. by rewrite !sapp_assoc. Qed.

Lemma envelope_read letter corp agent l :
  plain_text true corp = true → in_int64 agent → Forall byte l →
  xml_envelope letter (sim_envelope corp agent (base64_encode l)) = Some (MkEnvelope (base64_encode l) agent).
Proof.
  intros Hc Ha Hl. unfold xml_envelope. rewrite sim_envelope_render, <-(sapp_nil_r (render _ _)), unmarshal_render; [|done|].
  - unfold envelope_elements. cbn [store_elements fst snd content_text].
    change (find_member _ "ToUserName") with (@None (string → callbackEnvelope → option callbackEnvelope)). cbv iota.
    change (find_member _ "AgentID") with (Some (int64_member "AgentID" (λ v e, MkEnvelope (ce_Encrypt e) v)).2). cbv iota.
    rewrite store_xml_int64 by done. done.
  - unfold elements_ok. cbn [forallb fst snd content_ok]. rewrite Hc, FormatInt_plain, bare_plain by (by apply base64_bare). done.
Qed.

Context {T : Type} `{Transport T} {W : Type}.
Variable DownloadMedia : ctx → string → W → result DownloadedMedia * W.

(** C23: A complete configuration whose endpoint is a URL and whose corporation's
    name is a text of XML gives a request to that endpoint, with its other query
    values, and a gateway of the same account that is given the request's query
    and body dispatches the configuration's text as the message it reads from
    it: the callback is written, signed and encrypted as the gateway expects. *)
Theorem simulated_callback_dispatched letter g codec cfg rnd endpoint msg :
  same_account g cfg → NewCodec g = Ok codec → validate_sim cfg = None → Parse ip_host (rq_Endpoint cfg) = Ok endpoint →
  plain_text true (rq_CorpID cfg) = true → in_int64 (rq_AgentID cfg) → xml_message letter (rq_InnerXML cfg) = Some msg →
  length rnd = 16%nat → Forall byte rnd → Z.of_nat (String.length (rq_InnerXML cfg)) + 20 < 2 ^ 32 →
  ∃ body url,
    let query k := get_value k (ParseQuery (u_RawQuery url)) in
    buildCallbackRequest ip_host (Ok rnd) cfg = Some (Ok (url_text url, body)) ∧
    url = set_query (u_RawQuery url) endpoint ∧
    (∀ k, k ∉ ["msg_signature"; "timestamp"; "nonce"]%string → query k = get_value k (ParseQuery (u_RawQuery endpoint))) ∧
    ∀ c now_ns t (ro : SessionRouter T) (w : W),
      let '(standard, w1) := enrichInboundMedia DownloadMedia c (toStandardMessage msg) w in
      let '(err, ro1) := HandleIncoming c standard now_ns t ro in
      CallbackHandler letter DownloadMedia codec (MkCallback "POST" query (Ok body)) c now_ns t (ro, w) =
        (Some (match err with Some _ => http_error "enqueue failed" 502 | None => MkResponse 200 [] EmptyString end), (ro1, w1)).
Proof.
  intros Hsame Hc Hv Hp Hcorp Hagent Hmsg Hr Hrb Hl.
  destruct (codec_roundtrip g codec rnd (bytes_of (rq_InnerXML cfg)) (rq_Timestamp cfg) (rq_Nonce cfg)) as (encrypted & He & Hd);
    [done|done|done|apply bytes_of_ok|by rewrite length_bytes_of|].
  exists (sim_envelope (rq_CorpID cfg) (rq_AgentID cfg) encrypted). eexists. cbv zeta.
  unfold buildCallbackRequest, callbackRequest. rewrite Hv, (same_codec g cfg Hsame), Hc, He.
  unfold request_of. rewrite Hp. cbn [mbind option_bind result_bind]. split; [reflexivity|]. split; [done|]. cbn [u_RawQuery set_query]. split.
  { intros k Hk. rewrite sim_values. by rewrite !bool_decide_eq_false_2 by set_solver. }
  destruct (encrypted_text _ _ _ _ _ Hc Hrb (bytes_of_ok _) He) as (l & Hlb & ->). intros c now_ns t ro w.
  destruct (enrichInboundMedia _ _ _ _) as [standard w1] eqn:Hen. destruct (HandleIncoming _ _ _ _ _) as [err ro1] eqn:Hhi.
  unfold CallbackHandler, handleCallback. cbn [cr_Method cr_Query cr_Body]. rewrite bool_decide_eq_false_2, bool_decide_eq_true_2 by done.
  rewrite envelope_read by done. edestruct signed_values as (-> & -> & ->). cbn [ce_Encrypt].
  rewrite Hd, string_of_bytes_of, Hmsg, Hen, Hhi. by destruct err.
Qed.
End accepted.

Definition sim_args : list string :=
  ["-endpoint"; "http://h:81/cb?lang=zh&nonce=old"; "--corp-id=corp"; "-agent-id"; "7"; "-token=token";
   "-encoding-aes-key"; "MDEyMzQ1Njc4OWFiY2RlZjAxMjM0NTY3ODlhYmNkZWY"; "-inner-xml=msg.xml"]%string.
Definition sim_file (path : string) : result string :=
  if bool_decide (path = "msg.xml"%string) then Ok demo_inner else Fail (new_error "no such file").
Definition demo_sim : requestConfig :=
  MkSim "http://h:81/cb?lang=zh&nonce=old" "corp" 7 "token" "MDEyMzQ1Njc4OWFiY2RlZjAxMjM0NTY3ODlhYmNkZWY" "1700000000" "nonce-1700000000" demo_inner.

Example sim_parsed : parseArgs sim_file 1700000000 sim_args = Ok demo_sim.
Proof. vm_compute. reflexivity. Qed.

Lemma simulated_callback_dispatched_witness :
  ∃ body url,
    buildCallbackRequest no_ip (Ok (bytes_of "fedcba9876543210")) demo_sim = Some (Ok (url_text url, body)) ∧
    (CallbackHandler (H := fake_transport (λ l, l)) no_letter no_media demo_codec
       (MkCallback "POST" (λ k, get_value k (ParseQuery (u_RawQuery url))) (Ok body)) background 5 7 (router_demo, tt)).1 =
    Some (MkResponse 200 [] EmptyString).
Proof.
  destruct (simulated_callback_dispatched (H := fake_transport (λ l, l)) no_ip no_media no_letter demo_config demo_codec demo_sim (bytes_of "fedcba9876543210")
    (match Parse no_ip (rq_Endpoint demo_sim) with Ok u => u | Fail _ => zero_url end) demo_message) as (body & url & Hb & _ & _ & Hd).
  - split_and!; reflexivity.
  - vm_compute. reflexivity.
  - vm_compute. reflexivity.
  - vm_compute. reflexivity.
  - vm_compute. reflexivity.
  - vm_compute. split; congruence.
  - vm_compute. reflexivity.
  - reflexivity.
  - apply bytes_of_ok.
  - vm_compute. reflexivity.
  - exists body, url. split; [exact Hb|]. specialize (Hd background 5 7 router_demo tt). rewrite Hd. vm_compute. reflexivity.
Defined.

(** The URL's text, parsed again, has the same query; the endpoint's own nonce is
    replaced. *)
Example sim_url :
  match buildCallbackRequest no_ip (Ok (bytes_of "fedcba9876543210")) demo_sim with
  | Some (Ok (url, _)) =>
    match Parse no_ip url with
    | Ok u => map (λ k, get_value k (ParseQuery (u_RawQuery u))) ["lang"; "nonce"; "timestamp"]%string
    | Fail _ => []
    end
  | _ => []
  end = ["zh"; "nonce-1700000000"; "1700000000"]%string.
Proof. vm_compute. reflexivity. Qed.
