(* ===== verification/ProviderStream.v ===== *)
(** * Bridging a provider's stream: publishProviderStream of
    internal/gateway/chat_completions_handler.go

    A provider answers a streaming request with server-sent events.  The
    gateway reads them line by line, decodes each event and publishes it as a
    chunk of the task; the end of the stream is published as the final chunk.

    The reader is the text it delivers and the error it ends with; reading is
    [bufio.Scanner]'s, with its limit on the length of a line. *)
From Stdlib Require Import String Ascii.
From S2P Require Import Prelude GoStrings Strconv Contracts Runtime Chunk.
From stdpp Require Import list.

Local Open Scope Z_scope.

(** ** Lines *)
Definition lf : ascii := "010".
Definition cr : ascii := "013".

(** The pieces between line feeds. *)
Fixpoint pieces (s : string) : string * list string :=
  match s with
  | EmptyString => (EmptyString, [])
  | String c s => let '(p, ps) := pieces s in if bool_decide (c = lf) then (EmptyString, p :: ps) else (String c p, ps)
  end.

Fixpoint dropCR (s : string) : string :=
  match s with
  | EmptyString => EmptyString
  | String c EmptyString => if bool_decide (c = cr) then EmptyString else s
  | String c s => String c (dropCR s)
  end.

(** The largest token of the scanner's buffer. *)
Definition max_line : Z := 1048576.
Definition too_long (p : string) : bool := max_line <=? Z.of_nat (String.length p).

(** The lines a scanner delivers, and whether a line was too long; what follows
    the last line feed is a line if it is not empty. *)
Fixpoint tokens (p : string) (ps : list string) : list string * bool :=
  if too_long p then ([], true)
  else match ps with
  | [] => (if bool_decide (p = EmptyString) then [] else [dropCR p], false)
  | q :: ps => let '(l, b) := tokens q ps in (dropCR p :: l, b)
  end.

Definition scan_lines (s : string) : list string * bool := let '(p, ps) := pieces s in tokens p ps.

Example scan_lines_sample :
  scan_lines (String.concat (String lf "") ["a"; String "b" (String cr ""); ""; "c"]) = (["a"; "b"; ""; "c"], false)%string.
Proof. vm_compute. reflexivity. Qed.

Definition err_too_long : error := new_error "bufio.Scanner: token too long".

(** What a reader delivers: a text, then end of file or an error. *)
Record reader := MkReader { rd_text : string; rd_err : option error }.

Definition scanner_lines (r : reader) : list string := (scan_lines (rd_text r)).1.
Definition scanner_err (r : reader) : option error := if (scan_lines (rd_text r)).2 then Some err_too_long else rd_err r.

(** ** Events *)
Record providerStreamEnvelope := StreamEnvelope { pe_ErrorMessage : string; pe_Choices : list string }.

Definition error_message_fields : list (field providerStreamEnvelope) :=
  [ string_field "message" (λ v e, StreamEnvelope v (pe_Choices e)) ].
Definition delta_fields : list (field string) := [ string_field "content" (λ v _, v) ].
Definition choice_fields : list (field string) := [ ("delta"%string, λ t c, struct_value false delta_fields t c) ].
Definition stream_fields : list (field providerStreamEnvelope) :=
  [ ("error"%string, λ t e, struct_value false error_message_fields t e);
    ("choices"%string, λ t e, l ← slice_value false choice_fields EmptyString t (pe_Choices e); Ok (StreamEnvelope (pe_ErrorMessage e) l)) ].

(** The delta and the error of an event. *)
Definition parseProviderStreamPayload (raw : string) : result (string * string) :=
  match Unmarshal stream_fields (StreamEnvelope EmptyString []) raw with
  | Fail e => Fail (Err ("invalid provider stream payload: " ++ err_msg e)%string (err_chain e))
  | Ok p =>
    if negb (bool_decide (pe_ErrorMessage p = EmptyString)) then Ok (EmptyString, pe_ErrorMessage p)
    else match pe_Choices p with [] => Ok (EmptyString, EmptyString) | delta :: _ => Ok (delta, EmptyString) end
  end.

Example parse_stream_payload :
  map (λ s, parseProviderStreamPayload (jtext s)) ["{'choices':[{'delta':{'content':'hi'}}]}"; "{'error':{'message':'boom'}}"; "{}"]%string =
  [Ok ("hi", ""); Ok ("", "boom"); Ok ("", "")]%string.
Proof. vm_compute. reflexivity. Qed.

(** ** Publishing *)
Section publish.
Context {W : Type} (E : env W).

(** [ctx.Err()], read from the world. *)
Context (ctx_err : W → ctx).

Definition get_ctx : M W ctx := λ s, (ctx_err (r_world s), s).

Definition delta_chunk (delta payload : string) (c : StreamChunk) : StreamChunk :=
  set_sc_Data payload (set_sc_Delta delta (set_sc_Role "assistant" c)).

(** The answer is the error and the content so far. *)
Definition flushFrame (dataLines : list string) (content : string) : M W (option error * string) :=
  match dataLines with
  | [] => mret (None, content)
  | _ :: _ =>
    let payload := TrimSpace (String.concat (String lf "") dataLines) in
    if bool_decide (payload = EmptyString) then mret (None, content)
    else if bool_decide (payload = "[DONE]"%string) then err ← EmitFinal E content; mret (err, content)
    else match parseProviderStreamPayload payload with
    | Fail e => _ ← EmitError E (err_msg e); mret (Some e, content)
    | Ok (delta, streamErr) =>
      if negb (bool_decide (streamErr = EmptyString))
      then _ ← EmitError E streamErr; mret (Some (new_error streamErr), content)
      else
        err ← with_fanout (λ f, chunk ← NewChunk E f "delta"; Emit E (delta_chunk delta payload chunk));
        mret (err, (content ++ delta)%string)
    end
  end.

(** The loop over the lines, and what follows it; [scan_err] is the scanner's
    error. *)
Fixpoint publish_lines (scan_err : option error) (lines : list string) (dataLines : list string) (content : string) : M W (option error) :=
  match lines with
  | [] =>
    match scan_err with
    | Some e => _ ← EmitError E (err_msg e); mret (Some e)
    | None =>
      '(err, content) ← flushFrame dataLines content;
      match err with Some e => mret (Some e) | None => EmitFinal E content end
    end
  | line :: lines =>
    c ← get_ctx;
    match c with
    | Some e => _ ← EmitCancelled E (err_msg e); mret (Some e)
    | None =>
      if bool_decide (TrimSpace line = EmptyString) then
        '(err, content) ← flushFrame dataLines content;
        match err with Some e => mret (Some e) | None => publish_lines scan_err lines [] content end
      else if HasPrefix line "data:" then publish_lines scan_err lines (dataLines ++ [TrimSpace (TrimPrefix line "data:")]) content
      else publish_lines scan_err lines dataLines content
    end
  end.

Definition publishProviderStream (r : reader) : M W (option error) := publish_lines (scanner_err r) (scanner_lines r) [] EmptyString.
End publish.

(** ** Reading the lines of a stream of events *)

(** An event's text: an object on one line, not too long, which decodes to a
    delta. *)
Record event_ok (p delta : string) : Prop := {
  ev_open : ∃ u, p = String "{" u;
  ev_close : ∃ v, p = (v ++ "}")%string;
  ev_line : pieces p = (p, []);
  ev_short : Z.of_nat (String.length p) + 6 < max_line;
  ev_delta : parseProviderStreamPayload p = Ok (delta, EmptyString)
}.

Definition data_line (p : string) : string := ("data: " ++ p)%string.
Definition event_lines (ps : list string) : list string := flat_map (λ p, [data_line p; EmptyString]) ps.
Definition done_lines (fin : bool) : list string := if fin then [data_line "[DONE]"; EmptyString] else [].
Definition lines_text (ls : list string) : string := foldr (λ l s, (l ++ String lf s)%string) EmptyString ls.

(** The text of the events and, perhaps, of the closing one. *)
Definition stream_text (ps : list string) (fin : bool) : string := lines_text (event_lines ps ++ done_lines fin).

Lemma pieces_line p s : pieces p = (p, []) → pieces (p ++ String lf s) = (p, let '(q, qs) := pieces s in q :: qs).
Proof.
  induction p as [|c p IH]; cbn [pieces String.append].
  - intros _. rewrite bool_decide_eq_true_2 by done. by destruct (pieces s).
  - destruct (pieces p) as [q qs] eqn:Hp. case_bool_decide; [done|]. intros [= -> ->]. by rewrite IH.
Qed.

Lemma dropCR_last t d : d ≠ cr → dropCR (t ++ String d "") = (t ++ String d "")%string.
Proof.
  intros Hd. induction t as [|c t IH].
  - cbn. by rewrite bool_decide_eq_false_2.
  - destruct t as [|c' t]; [cbn; by rewrite bool_decide_eq_false_2|].
    change (String c (dropCR (String c' t ++ String d "")) = (String c (String c' t ++ String d ""))). by rewrite IH.
Qed.

(** A line the scanner delivers as it is. *)
Definition plain_line (l : string) : Prop := pieces l = (l, []) ∧ too_long l = false ∧ dropCR l = l.

Lemma scan_lines_text ls : Forall plain_line ls → scan_lines (lines_text ls) = (ls, false).
Proof.
  induction 1 as [|l ls (Hp & Ht & Hd) _ IH]; [done|]. cbn [lines_text foldr]. unfold scan_lines in *.
  rewrite pieces_line by done. destruct (pieces (foldr _ _ ls)) as [q qs] eqn:Hq. unfold lines_text in IH. rewrite Hq in IH.
  cbn [tokens]. by rewrite Ht, IH, Hd.
Qed.

Lemma data_line_plain p d v :
  p = (v ++ String d "")%string → d ≠ cr → pieces p = (p, []) → Z.of_nat (String.length p) + 6 < max_line → plain_line (data_line p).
Proof.
  intros Hv Hd Hp Hl. split_and!.
  - unfold data_line. cbn. by rewrite Hp.
  - unfold too_long, data_line. rewrite slength_app. cbn. apply Z.leb_gt. lia.
  - rewrite Hv. unfold data_line. rewrite <-sapp_assoc. by apply dropCR_last.
Qed.

Lemma stream_lines_plain pds fin :
  Forall (λ pd, event_ok pd.1 pd.2) pds → Forall plain_line (event_lines pds.*1 ++ done_lines fin).
Proof.
  intros Hall. apply Forall_app. split.
  - unfold event_lines. induction Hall as [|[p d] pds Hp _ IH]; [constructor|]. cbn. destruct (ev_close _ _ Hp) as [v Hv].
    constructor; [|constructor; [done|exact IH]].
    apply (data_line_plain _ "}" v); [done|done|apply Hp|apply Hp].
  - destruct fin; repeat constructor.
Qed.

Lemma data_line_trim p c u d v :
  p = String c u → p = (v ++ String d "")%string → solid c = true → solid d = true →
  TrimSpace p = p ∧ TrimSpace (TrimPrefix (data_line p) "data:") = p ∧ TrimSpace (data_line p) ≠ EmptyString.
Proof.
  intros Hu Hv Hc Hd. split_and!.
  - rewrite <-(sapp_nil_r p) at 1. apply (TrimSpace_frame "" "" c p d); eauto.
  - change (TrimPrefix (data_line p) "data:") with (" " ++ p)%string. rewrite <-(sapp_nil_r p) at 1.
    apply (TrimSpace_frame " " "" c p d); eauto.
  - assert (TrimSpace (data_line p) = data_line p) as ->; [|done]. rewrite <-(sapp_nil_r (data_line p)) at 1.
    apply (TrimSpace_frame "" "" "d" (data_line p) d); [done..|].
    exists ("data: " ++ v)%string. split; [|by eexists]. rewrite sapp_assoc. by rewrite <-Hv.
Qed.

(** ** What is published *)

(** Chunks up to their time stamps. *)
Definition untimed (c : StreamChunk) : StreamChunk := set_sc_TimestampMs 0 c.

Definition blank (f : Fanout) (n : Z) (event : string) : StreamChunk :=
  Build_StreamChunk (f_TraceID f) (f_SessionID f) (f_TaskID f) n event "" "" "" false "" "" 0.

Definition final_chunk (f : Fanout) (n : Z) (content : string) : StreamChunk :=
  chunk_with "assistant" "" true "" (print (JObj [("content"%string, jstring content)])) (blank f n "final").

(** The chunks of the events, numbered from [n + 1], and the final one. *)
Fixpoint expected (f : Fanout) (n : Z) (pds : list (string * string)) (content : string) : list StreamChunk :=
  match pds with
  | [] => [final_chunk f (n + 1) content]
  | (p, d) :: pds => delta_chunk d p (blank f (n + 1) "delta") :: expected f (n + 1) pds (content ++ d)%string
  end.

Section exact.
Context {W : Type} (E : env W) (ctx_err : W → ctx) (pub : StreamChunk → W → option error * W).
Context (Hpub : publisher E = Some pub) (Hok : ∀ c w, (pub c w).1 = None) (Hctx : ∀ w, ctx_err w = None).

(** The fan-out of [f] after [n] chunks. *)
Definition at_number (f : Fanout) (n : Z) (term : bool) : Fanout := Build_Fanout (f_TraceID f) (f_SessionID f) (f_TaskID f) n term.

Lemma wp_new f n term ev w log (Q : StreamChunk → rstate W → Prop) :
  0 ≤ n → n + 1 ≤ int64_max →
  (∀ t w', Q (set_sc_TimestampMs t (blank f (n + 1) ev)) (RState w' (Some (at_number f (n + 1) term)) log)) →
  wp (NewChunk E (at_number f n term) ev) Q (RState w (Some (at_number f n term)) log).
Proof.
  intros H0 Hn HQ. unfold NewChunk, NextSequence. cbn [f_sequence at_number].
  rewrite wrap64_id by (unfold in_int64, int64_min, int64_max in *; lia).
  do 2 apply wp_bind. apply wp_put_fan, wp_ret, wp_bind, wp_now. intros t w'. apply wp_ret. apply HQ.
Qed.

Lemma wp_publish c fan w log (Q : option error → rstate W → Prop) :
  (∀ w', Q None (RState w' fan (log ++ [EvChunk c]))) → wp (Emit E c) Q (RState w fan log).
Proof.
  intros HQ. unfold Emit. rewrite Hpub. apply wp_ask. cbn [r_world r_fan r_log]. intros e w' Hp.
  assert (e = None) as -> by (rewrite <-(Hok c w); by rewrite Hp). apply HQ.
Qed.

Lemma wp_final_open f n content w log (Q : option error → rstate W → Prop) :
  0 ≤ n → n + 1 ≤ int64_max →
  (∀ t w', Q None (RState w' (Some (at_number f (n + 1) true)) (log ++ [EvChunk (set_sc_TimestampMs t (final_chunk f (n + 1) content))]))) →
  wp (EmitFinal E content) Q (RState w (Some (at_number f n false)) log).
Proof.
  intros H0 Hn HQ. unfold EmitFinal, with_fanout. apply wp_bind, wp_get_fan. cbn [r_fan]. apply wp_bind, wp_new; [done..|].
  intros t w'. unfold emitTerminal. apply wp_bind, wp_get_fan. cbn [r_fan f_terminalSent at_number]. apply wp_bind, wp_put_fan.
  cbn [r_world r_log]. apply wp_publish. intros w''. apply HQ.
Qed.

Lemma wp_final_shut f n content w log (Q : option error → rstate W → Prop) :
  0 ≤ n → n + 1 ≤ int64_max →
  (∀ w', Q None (RState w' (Some (at_number f (n + 1) true)) log)) →
  wp (EmitFinal E content) Q (RState w (Some (at_number f n true)) log).
Proof.
  intros H0 Hn HQ. unfold EmitFinal, with_fanout. apply wp_bind, wp_get_fan. cbn [r_fan]. apply wp_bind, wp_new; [done..|].
  intros t w'. unfold emitTerminal. apply wp_bind, wp_get_fan. apply wp_ret. apply HQ.
Qed.

Lemma wp_line l ls dataLines content w fan log (Q : option error → rstate W → Prop) :
  (let s := RState w fan log in
   if bool_decide (TrimSpace l = EmptyString) then
     wp (flushFrame E dataLines content) (λ r s', match r.1 with Some e => Q (Some e) s' | None => wp (publish_lines E ctx_err None ls [] r.2) Q s' end) s
   else if HasPrefix l "data:" then wp (publish_lines E ctx_err None ls (dataLines ++ [TrimSpace (TrimPrefix l "data:")]) content) Q s
   else wp (publish_lines E ctx_err None ls dataLines content) Q s) →
  wp (publish_lines E ctx_err None (l :: ls) dataLines content) Q (RState w fan log).
Proof.
  cbv zeta. intros H. cbn [publish_lines]. apply wp_bind. unfold wp at 1. cbn [get_ctx fst snd r_world]. rewrite Hctx.
  case_bool_decide; [|by destruct (HasPrefix l "data:")]. apply wp_bind. eapply wp_mono; [|exact H].
  intros [[e|] c] s'; done.
Qed.

Lemma wp_event_lines f fin : ∀ pds n content w log,
  Forall (λ pd, event_ok pd.1 pd.2) pds → 0 ≤ n → n + Z.of_nat (length pds) + 2 ≤ int64_max →
  wp (publish_lines E ctx_err None (event_lines pds.*1 ++ done_lines fin) [] content)
    (λ err s', err = None ∧ ∃ cs, stream (r_log s') = stream log ++ cs ∧ map untimed cs = expected f n pds content)
    (RState w (Some (at_number f n false)) log).
Proof.
  induction pds as [|[p d] pds IH]; intros n content w log Hall H0 Hn.
  - cbn [event_lines fmap list_fmap flat_map app]. destruct fin; cbn [done_lines].
    + apply wp_line. rewrite bool_decide_eq_false_2 by (vm_compute; done). cbn [HasPrefix]. 
      change (HasPrefix (data_line "[DONE]") "data:") with true. cbn [app].
      replace (TrimSpace (TrimPrefix (data_line "[DONE]") "data:")) with "[DONE]"%string by (vm_compute; reflexivity).
      apply wp_line. rewrite bool_decide_eq_true_2 by done. unfold flushFrame.
      replace (TrimSpace (String.concat (String lf "") ["[DONE]"%string])) with "[DONE]"%string by (vm_compute; reflexivity).
      rewrite bool_decide_eq_false_2, bool_decide_eq_true_2 by done. apply wp_bind, wp_final_open; [done|lia|].
      intros t w'. apply wp_ret. cbn [fst snd publish_lines]. apply wp_bind. unfold flushFrame. apply wp_ret.
      apply wp_final_shut; [lia|lia|]. intros w''. split; [done|]. eexists. cbn [r_log]. rewrite stream_snoc. split; [done|].
      done.
    + cbn [publish_lines]. apply wp_bind. unfold flushFrame. apply wp_ret. apply wp_final_open; [done|lia|].
      intros t w'. split; [done|]. eexists. cbn [r_log]. rewrite stream_snoc. by split.
  - apply Forall_cons in Hall as [Hp Hall]. cbn [fst snd] in Hp. cbn [length] in Hn.
    destruct (ev_open _ _ Hp) as [u Hu]. destruct (ev_close _ _ Hp) as [v Hv].
    destruct (data_line_trim p "{" u "}" v Hu Hv eq_refl eq_refl) as (T1 & T2 & T3).
    change (event_lines ((p, d) :: pds).*1 ++ done_lines fin) with (data_line p :: EmptyString :: (event_lines pds.*1 ++ done_lines fin)).
    apply wp_line. rewrite bool_decide_eq_false_2 by done. change (HasPrefix (data_line p) "data:") with true. cbn [app]. rewrite T2.
    apply wp_line. rewrite bool_decide_eq_true_2 by done. unfold flushFrame. change (String.concat (String lf "") [p]) with p. rewrite T1.
    rewrite bool_decide_eq_false_2 by (by rewrite Hu). rewrite bool_decide_eq_false_2 by (by rewrite Hu).
    rewrite (ev_delta _ _ Hp). rewrite bool_decide_eq_true_2 by done. cbn [negb].
    apply wp_bind. unfold with_fanout. apply wp_bind, wp_get_fan. cbn [r_fan]. apply wp_bind, wp_new; [done|lia|]. intros t w1.
    apply wp_publish. intros w2. apply wp_ret. cbn [fst snd].
    eapply wp_mono; [|apply IH; [done|lia|lia]]. intros err s' [-> (cs & Hs & Hcs)]. split; [done|].
    rewrite stream_snoc, <-app_assoc in Hs. eexists. split; [exact Hs|]. cbn [app map expected]. by rewrite Hcs.
Qed.
End exact.

(** When the provider sends events that decode to deltas, and then perhaps the
    closing event, and neither the publisher nor the request fails, the task's
    chunks are one per event, in order, numbered consecutively and carrying the
    event's delta and text, then one final chunk, the only terminal one, whose
    content is the concatenation of the deltas; the bridge returns no error. *)
Theorem provider_stream_exact {W} (E : env W) ctx_err pub pds fin w f :
  publisher E = Some pub → (∀ c w, (pub c w).1 = None) → (∀ w, ctx_err w = None) →
  Forall (λ pd, event_ok pd.1 pd.2) pds → f_terminalSent f = false → 0 ≤ f_sequence f →
  f_sequence f + Z.of_nat (length pds) + 2 ≤ int64_max →
  let '(err, s') := publishProviderStream E ctx_err (MkReader (stream_text pds.*1 fin) None) (RState w (Some f) []) in
  err = None ∧ map untimed (stream (r_log s')) = expected f (f_sequence f) pds EmptyString ∧
  (∀ c, c ∈ stream (r_log s') → sc_Done c = true → sc_Event c = "final"%string).
Proof.
  intros Hpub Hok Hctx Hall Ht H0 Hn. unfold publishProviderStream, scanner_lines, scanner_err, stream_text. cbn [rd_text].
  rewrite scan_lines_text by (by apply stream_lines_plain). cbn [fst snd rd_err].
  pose proof (wp_event_lines E ctx_err pub Hpub Hok Hctx f fin pds (f_sequence f) EmptyString w [] Hall H0 Hn) as H.
  assert (at_number f (f_sequence f) false = f) as Hf by (destruct f; cbn in *; by subst). rewrite Hf in H. unfold wp in H.
  destruct (publish_lines _ _ _ _ _ _ _) as [err s']. cbn [fst snd] in H. destruct H as [-> (cs & Hs & Hcs)]. cbn in Hs.
  split; [done|]. rewrite Hs. split; [done|].
  assert (∀ content n c, c ∈ expected f n pds content → sc_Done c = true → sc_Event c = "final"%string) as Hex.
  { clear. induction pds as [|[p d] pds IH]; intros content n c; cbn [expected]; rewrite elem_of_cons.
    - intros [->|Hc]; [done|by apply elem_of_nil in Hc].
    - intros [->|Hc]; [done|]. by apply (IH _ _ _ Hc). }
  intros c Hc. apply (Hex EmptyString (f_sequence f) (untimed c)). rewrite <-Hcs. apply list_elem_of_In, in_map_iff. exists c. split; [done|]. by apply list_elem_of_In.
Qed.

(** What the environment keeps, the bridge keeps. *)
Section keep_stream.
Context {W : Type} (E : env W) (ctx_err : W → ctx) (I : W → Prop) (HE : env_keeps E I).

Lemma kw_flush dataLines content : keeps_world I (flushFrame E dataLines content).
Proof.
  unfold flushFrame. destruct dataLines as [|d dataLines]; [apply kw_ret|]. case_bool_decide; [apply kw_ret|].
  case_bool_decide; [apply kw_bind; [by apply kw_final|intros; apply kw_ret]|].
  destruct (parseProviderStreamPayload _) as [[delta err]|e]; [|apply kw_bind; [by apply kw_failure|intros; apply kw_ret]].
  destruct (negb _); [apply kw_bind; [by apply kw_failure|intros; apply kw_ret]|].
  apply kw_bind; [|intros; apply kw_ret]. apply kw_fanout. intros f. apply kw_bind; [by apply kw_chunk|]. intros. by apply kw_emit.
Qed.

Lemma kw_lines scan_err lines : ∀ dataLines content, keeps_world I (publish_lines E ctx_err scan_err lines dataLines content).
Proof.
  induction lines as [|l lines IH]; intros dataLines content; cbn [publish_lines].
  - destruct scan_err; [apply kw_bind; [by apply kw_failure|intros; apply kw_ret]|].
    apply kw_bind; [apply kw_flush|]. intros [[e|] c]; [apply kw_ret|by apply kw_final].
  - apply kw_bind; [intros s Hs; exact Hs|]. intros [e|]; [apply kw_bind; [by apply kw_failure|intros; apply kw_ret]|].
    case_bool_decide; [|by destruct (HasPrefix l "data:")].
    apply kw_bind; [apply kw_flush|]. intros [[e|] c]; [apply kw_ret|apply IH].
Qed.

Lemma stream_keeps_world r : keeps_world I (publishProviderStream E ctx_err r).
Proof. apply kw_lines. Qed.
End keep_stream.

(** A stream of two events, and its reading. *)
Definition stream_demo : list (string * string) :=
  [(jtext "{'choices':[{'delta':{'content':'he'}}]}", "he"); (jtext "{'choices':[{'delta':{'content':'llo'}}]}", "llo")]%string.

Lemma provider_stream_exact_witness :
  let '(err, s') := publishProviderStream demo_env (λ _, None) (MkReader (stream_text stream_demo.*1 true) None) (RState [] (Some demo_fan) []) in
  err = None ∧ map sc_Delta (stream (r_log s')) = ["he"; "llo"; ""]%string.
Proof.
  pose proof (provider_stream_exact demo_env (λ _, None) (λ _ w, (None, w)) stream_demo true [] demo_fan) as H.
  destruct (publishProviderStream _ _ _ _) as [err s']. destruct H as (He & Hs & _); [done|done|done| |done|done|done|].
  - repeat constructor; try (by eexists); try (vm_compute; reflexivity); cbn [fst snd].
    + exists (jtext "{'choices':[{'delta':{'content':'he'}}]"). vm_compute. reflexivity.
    + exists (jtext "{'choices':[{'delta':{'content':'llo'}}]"). vm_compute. reflexivity.
  - split; [done|]. transitivity (map sc_Delta (map untimed (stream (r_log s')))); [by rewrite map_map|].
    rewrite Hs. vm_compute. reflexivity.
Defined.
