(* ===== verification/ChatCompletions.v ===== *)
(** * The chat completions endpoint: internal/gateway/chat_completions_handler.go

    An OpenAI-compatible endpoint: a request is validated, routed to a model
    provider, run (with the gateway's own tools when it asks for tools) and
    answered, as one JSON document or as a stream of events; the task it makes
    is kept in the task state store.

    The handler's state is the sender's and the store's.  A nil sender or store
    is a flag of the handler; the world the provider, the skills, the clock, the
    request's context and the response writer act on is the sender's.  The
    receiving loop of the sender runs concurrently with the handler: what it
    does while the handler waits is part of the ticks of [waitForSinkDrain]. *)
From Stdlib Require Import String Ascii.
From S2P Require Import Prelude GoStrings Strconv TaskStatus Contracts Runtime TaskStore Prompt ChatRequest Float64 GoValue Transport AuditTrail Skills Threads Chunk Sender Ingress ProviderStream.
From stdpp Require Import list.

Local Open Scope Z_scope.

(** ** Temperatures *)

(** The float32 nearest to a decimal, as its bits. *)
Definition float32_bits (d : decimal) : Z :=
  let m := Z.abs (d_mantissa d) in
  let sign := if d_mantissa d <? 0 then 2 ^ 31 else 0 in
  if m =? 0 then 0 else
  let '(n, den) := if d_exponent d <? 0 then (m, 10 ^ (- d_exponent d)) else (m * 10 ^ d_exponent d, 1) in
  let b0 := Z.log2 n - Z.log2 den - 23 in
  let scaled b := if b <? 0 then (n * 2 ^ (- b), den) else (n, den * 2 ^ b) in
  let b := if (let '(n', d') := scaled b0 in n' <? 2 ^ 23 * d') then b0 - 1 else b0 in
  let b := Z.max b (-149) in
  let '(n', d') := scaled b in
  let f := round_half_even n' d' in
  let '(f, b) := if f =? 2 ^ 24 then (2 ^ 23, b + 1) else (f, b) in
  sign + (if f <? 2 ^ 23 then f else (b + 150) * 2 ^ 23 + (f - 2 ^ 23)).

(** 0.7, 1, 2 and the least positive float32. *)
Example float32_sample :
  map float32_bits [Decimal 7 (-1); Decimal 1 0; Decimal 20 (-1); Decimal 1 (-45)] = [1060320051; 1065353216; 1073741824; 1].
Proof. vm_compute. reflexivity. Qed.

(** ** Requested tools *)
Definition requested_function_fields : list (field requestTool) :=
  [ string_field "type" (λ v t, Build_requestTool v (rt_FunctionName t));
    ("function"%string, λ x t, struct_value false function_fields x t) ].

Definition parseRequestedToolNames (raw : string) : result (list string) :=
  if bool_decide (raw = EmptyString) then Ok []
  else match slice_value false requested_function_fields zero_tool raw [] with
  | Fail e => Fail (Err ("invalid tools payload: " ++ err_msg e)%string (err_chain e))
  | Ok tools => Ok (map rt_FunctionName tools)
  end.

Definition unsupported_tool (name : string) : error :=
  new_error ("tool " ++ name ++ " is not supported on the gateway chat completions path")%string.

Definition hasRequestedTools (req : InferenceRequest) : bool :=
  negb (bool_decide (TrimSpace (default EmptyString (ir_Metadata req !! "requested_tools"%string)) = EmptyString)).

(** ** Statuses *)
Definition taskStatusForError (err : option error) : string :=
  match err with
  | None => TaskStatusSuccess
  | Some e =>
    let errLower := ToLower (err_msg e) in
    if errors_is e ContextCanceled then TaskStatusCancelled
    else if errors_is e ContextDeadlineExceeded then TaskStatusTimeout
    else if Contains errLower "approval rejected" then TaskStatusRejected
    else if Contains errLower "timeout" then TaskStatusTimeout
    else TaskStatusFailed
  end.

Definition taskStatusForResult (result : FinalResult) (err : option error) : string :=
  if negb (bool_decide (fr_Status result = EmptyString)) then NormalizeTaskStatus (fr_Status result) else taskStatusForError err.

(** ** Responses *)
Definition json_response (status : Z) (v : json) : Response :=
  MkResponse status [("Content-Type", "application/json")]%string (print v ++ eol)%string.

(** [writeError]; the members in key order. *)
Definition writeError (status : Z) (typ msg : string) : Response :=
  json_response status (JObj [("error", JObj [("message", jstring msg); ("type", jstring typ)])]%string).

Definition provider_error (e : error) : Response := let '(status, typ, msg) := MapProviderError (Some e) in writeError status typ msg.

Definition completion_json (req : InferenceRequest) (content : string) (created : Z) : json :=
  JObj [("choices", JArr [JObj [("finish_reason", jstring "stop"); ("index", jint 0);
           ("message", JObj [("content", jstring content); ("role", jstring "assistant")])]]);
        ("created", jint created); ("id", jstring (ir_TraceID req)); ("model", jstring (ir_ModelAlias req));
        ("object", jstring "chat.completion")]%string.

Definition error_json (msg : string) : string := print (JObj [("error"%string, jstring msg)]).

(** [ChatCompletionStreamSink] *)
Definition completion_write {W} (write : writer W) (chunk : StreamChunk) : W → option error * W :=
  let ev := sc_Event chunk in
  if bool_decide (ev = "delta"%string) then
    WriteSSEFrame write "" (if negb (bool_decide (sc_Data chunk = EmptyString)) then sc_Data chunk
                            else print (JObj [("content"%string, jstring (sc_Delta chunk))]))
  else if bool_decide (ev = "final"%string) then λ w, (None, w)
  else if bool_decide (ev ∈ ["error"; "timeout"; "cancelled"]%string) then
    WriteSSEFrame write "error" (if bool_decide (sc_Data chunk = EmptyString) then error_json (sc_Error chunk) else sc_Data chunk)
  else WriteSSEFrame write ev (match chunk_json chunk with Some v => print v | None => EmptyString end).

Definition ChatCompletionStreamSink {W} (write : writer W) : StreamSink W := MkStreamSink (completion_write write) (WriteDoneFrame write).

(** ** The wrapped provider of the inference loop *)

(** An envelope with nothing but a final text. *)
Definition wrap_json (content : string) : json := JObj ([("think"%string, jstring "")] ++ omitempty "final" content).

Definition runtime_predict {W} (p : @Provider W InferenceRequest reader) (wrapFinal : bool) (req : InferenceRequest) (w : W) : result string * W :=
  match p_Predict p req w with
  | (Fail e, w) => (Fail e, w)
  | (Ok content, w) => (Ok (if wrapFinal then print (wrap_json content) else content), w)
  end.

(** ** The handler *)
Record ChatState (T S W : Type) := MkChat { cs_sender : Sender T W; cs_store : S }.
Arguments MkChat {T S W} _ _.
Arguments cs_sender {T S W} _.
Arguments cs_store {T S W} _.

(** What an approval gate's [WaitDecision] is. *)
Abbreviation gate W := (ApprovalRequest → Z → W → (ApprovalDecision * option error) * W).

Record ChatCompletionsHandler (W : Type) := MkHandler {
  hc_resolver : @ModelResolver W InferenceRequest reader;
  hc_sender : bool;
  hc_store : bool;
  hc_registry : option (gmap string (@Skill W));
  hc_gate : option (gate W)
}.
Arguments MkHandler {W} _ _ _ _ _.
Arguments hc_resolver {W} _.
Arguments hc_sender {W} _.
Arguments hc_store {W} _.
Arguments hc_registry {W} _.
Arguments hc_gate {W} _.

(** How a request ends: with a response; with a stream, whose bytes are in the
    world; still waiting for the sink when the ticks given run out; or in a
    panic, for a nil provider. *)
Inductive served := Answered (r : Response) | Streamed | StillWaiting | Panicked.

(** One turn of the waiting loop: the request's context is done, or what the
    rest of the program did to the sender until the next look. *)
Inductive drain_tick (T W : Type) := CtxDone | Tick (others : Sender T W → Sender T W).
Arguments CtxDone {T W}.
Arguments Tick {T W} _.

Section chat.
Context {T S W : Type} `{Transport T} `{TaskStateStore S}.

(** The clock in nanoseconds, what skills read of it, the request's context. *)
Context (tick : W → Z * W) (clock_ms : W → Z) (clock_text : W → string) (ctx_err : W → ctx).

(** The gate a sender's bus makes, and the response's writer. *)
Context (sender_gate : gate W) (write : writer W).

Abbreviation Chat := (ChatState T S W).
Abbreviation Handler := (ChatCompletionsHandler W).

Definition set_cs_sender (x : Sender T W) (s : Chat) : Chat := MkChat x (cs_store s).
Definition set_cs_store (x : S) (s : Chat) : Chat := MkChat (cs_sender s) x.
Definition chat_world (s : Chat) : W := sn_world (cs_sender s).
Definition on_chat_world {A} (op : W → A * W) (s : Chat) : A * Chat :=
  let '(a, w) := op (chat_world s) in (a, set_cs_sender (set_sn_world w (cs_sender s)) s).
Definition on_sender {A} (m : act (Sender T W) A) (s : Chat) : A * Chat := let '(a, x) := run m (cs_sender s) in (a, set_cs_sender x s).

Definition chat_ns (s : Chat) : Z * Chat := on_chat_world tick s.
Definition chat_ms (s : Chat) : Z * Chat := let '(t, s) := chat_ns s in (t / 1000000, s).
Definition chat_s (s : Chat) : Z * Chat := let '(t, s) := chat_ns s in (t / 1000000000, s).
Definition chat_ctx (s : Chat) : ctx := ctx_err (chat_world s).

(** *** Construction: the sender's gate is the default *)
Definition NewHandler (resolver : @ModelResolver W InferenceRequest reader) (sender store : bool)
    (registry : option (gmap string (@Skill W))) (approvalGate : option (gate W)) : Handler :=
  MkHandler resolver sender store registry
    (match approvalGate with Some g => Some g | None => if sender then Some sender_gate else None end).

Definition NewChatCompletionsHandlerWithStore resolver sender store : Handler := NewHandler resolver sender store None None.
Definition NewChatCompletionsHandler resolver sender : Handler := NewChatCompletionsHandlerWithStore resolver sender false.

Definition newGatewaySkillRegistry : gmap string (@Skill W) :=
  RegisterSkill HttpGetSkill (RegisterSkill (CurrentTimeSkill clock_text) NewRegistry).

Definition skillRegistry (h : Handler) : gmap string (@Skill W) := default newGatewaySkillRegistry (hc_registry h).

Definition approvalGate (h : Handler) : option (gate W) :=
  match hc_gate h with Some g => Some g | None => if hc_sender h then Some sender_gate else None end.

(** *** Tools *)
Fixpoint ensureSupportedRequestedTools (registry : gmap string (@Skill W)) (names : list string) : option error :=
  match names with
  | [] => None
  | name :: names =>
    match GetSkill name registry with None => Some (unsupported_tool name) | Some _ => ensureSupportedRequestedTools registry names end
  end.

Fixpoint add_tools (registry : gmap string (@Skill W)) (names : list string) (b : SystemPromptBuilder) : result SystemPromptBuilder :=
  match names with
  | [] => Ok b
  | name :: names =>
    match GetSkill name registry with
    | None => Fail (unsupported_tool name)
    | Some t =>
      add_tools registry names
        (AddTool (Build_ToolInfo (sk_Name t) (sk_Description t) (sk_Schema t))
          (AddInstruction ("Tool " ++ sk_Name t ++ " requires is_write_operation=" ++ (if sk_IsWriteOperation t then "true" else "false") ++ ".")%string b))
    end
  end.

Definition tool_prompt (toolChoiceRaw : string) : SystemPromptBuilder :=
  let b := AddInstruction "When calling a tool, use only the provided builtin tool names and JSON object arguments."
    (AddInstruction (jtext "You must respond with a JSON object matching exactly one of: {'think':'...','call_skill':{'id':'...','name':'...','arguments':{...},'is_write_operation':<tool-required-bool>}} or {'think':'...','final':'...'}.")
    (AddInstruction "You are executing a chat completion request with gateway-managed tools." (NewSystemPromptBuilder "gateway.chat"))) in
  if negb (bool_decide (toolChoiceRaw = EmptyString)) && negb (bool_decide (toolChoiceRaw = jtext "'auto'"))
  then AddInstruction "Respect the caller's tool_choice constraint while staying within the available builtin tools." b else b.

Definition buildGatewayToolRuntimeMessages (registry : gmap string (@Skill W)) (messages : list ChatMessage)
    (requestedToolsRaw toolChoiceRaw : string) : result (list ChatMessage) :=
  match parseRequestedToolNames requestedToolsRaw with
  | Fail e => Fail e
  | Ok names =>
    match add_tools registry names (tool_prompt toolChoiceRaw) with
    | Fail e => Fail e
    | Ok b => Ok (Build_ChatMessage "system" (Build b) "" "" "" :: messages)
    end
  end.

Definition tool_messages (h : Handler) (req : InferenceRequest) : result (list ChatMessage) :=
  buildGatewayToolRuntimeMessages (skillRegistry h) (ir_Messages req)
    (default EmptyString (ir_Metadata req !! "requested_tools"%string)) (default EmptyString (ir_Metadata req !! "tool_choice"%string)).

(** *** Records of the task *)

(** The store's error is ignored. *)
Definition persistTaskState (h : Handler) (taskID agentName status errMsg : string) (s : Chat) : Chat :=
  if hc_store h && negb (bool_decide (taskID = EmptyString)) then
    let '(t, s) := chat_s s in
    let '(_, st) := Save (chat_ctx s) (Build_TaskState taskID EmptyString agentName status t errMsg) (cs_store s) in
    set_cs_store st s
  else s.

Definition chat_auditor : option Auditor := Some {| au_events := true; au_senderID := "gateway.chat" |}.

Definition route_event (req : InferenceRequest) (t : Z) : AuditEvent :=
  {| ae_TraceID := ir_TraceID req; ae_SessionID := ir_SessionID req; ae_TaskID := ir_TaskID req; ae_ParentTaskID := "";
     ae_ToolCallID := ""; ae_Event := "route"; ae_Actor := "gateway.chat"; ae_Level := ""; ae_Status := "running"; ae_Error := "";
     ae_Data := print (JObj [("model_alias", jstring (ir_ModelAlias req)); ("stream", JBool (ir_Stream req))]%string);
     ae_TimestampMs := t |}.

Definition recordRouteAudit (h : Handler) (req : InferenceRequest) (s : Chat) : Chat :=
  if hc_sender h then
    let '(t, s) := chat_ms s in
    let x := cs_sender s in
    let '(_, b, lines) := RecordEvent chat_auditor 0 (chat_ctx s) (route_event req t) (sn_bus x) in
    set_cs_sender (add_lines lines (set_sn_bus b x)) s
  else s.

(** *** Running the request *)

(** [sender.PublishChunk], as the handler sees it. *)
Definition publish_chunk (chunk : StreamChunk) (s : Chat) : option error * Chat := on_sender (PublishChunk tick (chat_ctx s) chunk) s.

(** The environment of the inference loop; without tools there is no executor
    and no gate, and the loop does not reach for them. *)
Definition chat_env (h : Handler) (p : @Provider W InferenceRequest reader) (wrapFinal tools : bool) : env Chat :=
  Env Chat
    (λ req, on_chat_world (runtime_predict p wrapFinal req))
    (λ call s, if tools then on_chat_world (ExecuteCall clock_ms (skillRegistry h) call) s
               else ((Build_ToolResult "" "" false "" "" 0, Some (new_error "nil executor")), s))
    (if tools then (λ (g : gate W) r timeout s, on_chat_world (g r timeout) s) <$> approvalGate h else None)
    (Some publish_chunk)
    chat_ms.

Definition with_task (req : InferenceRequest) (taskID : string) (messages : list ChatMessage) : InferenceRequest :=
  {| ir_TraceID := ir_TraceID req; ir_SessionID := ir_SessionID req; ir_TaskID := taskID; ir_AgentType := ir_AgentType req;
     ir_Messages := messages; ir_ModelAlias := ir_ModelAlias req; ir_MaxTurns := ir_MaxTurns req; ir_Stream := ir_Stream req;
     ir_Temperature := ir_Temperature req; ir_Metadata := ir_Metadata req; ir_OnApprovalReject := ir_OnApprovalReject req |}.

Definition task_of (req : InferenceRequest) : string :=
  if bool_decide (ir_TaskID req = EmptyString) then ir_TraceID req else ir_TaskID req.

Definition persist (h : Handler) (req : InferenceRequest) (status errMsg : string) : Chat → Chat :=
  persistTaskState h (ir_TaskID req) "gateway.chat" status errMsg.

Definition writeNonStreamResponse (req : InferenceRequest) (content : string) (s : Chat) : served * Chat :=
  let '(t, s) := chat_s s in (Answered (json_response 200 (completion_json req content t)), s).

(** A run of the inference loop over the handler's state. *)
Definition run_chat (h : Handler) (p : @Provider W InferenceRequest reader) (wrapFinal tools : bool) (maxTurns : Z)
    (fan : option Fanout) (req : InferenceRequest) (s : Chat) : outcome * Chat :=
  let '(out, r) := Run (chat_env h p wrapFinal tools) maxTurns req (RState s fan []) in (out, r_world r).

Definition handleNonStream (h : Handler) (p : @Provider W InferenceRequest reader) (req : InferenceRequest) (s : Chat) : served * Chat :=
  let req := with_task req (task_of req) (ir_Messages req) in
  let fan := if hc_sender h then Some (NewFanout (ir_TraceID req) (ir_SessionID req) (ir_TaskID req)) else None in
  if hc_sender h || hasRequestedTools req then
    match (if hasRequestedTools req then tool_messages h req else Ok (ir_Messages req)) with
    | Fail e =>
      (Answered (writeError 400 "invalid_request_error" (err_msg e)), persist h req "failed" (err_msg e) s)
    | Ok messages =>
      let req := with_task req (ir_TaskID req) messages in
      let '((result, err), s) :=
        if hasRequestedTools req then run_chat h p false true default_max_turns fan req s
        else run_chat h p true false 1 fan req s in
      match err with
      | Some e => (Answered (provider_error e), persist h req (taskStatusForResult result err) (err_msg e) s)
      | None => writeNonStreamResponse req (fr_Content result) (persist h req "success" "" s)
      end
    end
  else
    match on_chat_world (p_Predict p req) s with
    | (Fail e, s) => (Answered (provider_error e), persist h req (taskStatusForError (Some e)) (err_msg e) s)
    | (Ok content, s) => writeNonStreamResponse req content (persist h req "success" "" s)
    end.

(** *** Streaming *)
Definition handleStreamPassthrough (p : @Provider W InferenceRequest reader) (req : InferenceRequest) (s : Chat) : Chat :=
  match on_chat_world (p_PredictStream p req) s with
  | (Fail e, s) => (on_chat_world (WriteSSEFrame write "error" (error_json (err_msg e))) s).2
  | (Ok stream, s) => (on_chat_world (write (rd_text stream)) s).2
  end.

Definition bridgeProviderStream (h : Handler) (p : @Provider W InferenceRequest reader) (req : InferenceRequest)
    (fan : Fanout) (s : Chat) : option error * Chat :=
  let E := chat_env h p false false in
  match on_chat_world (p_PredictStream p req) s with
  | (Fail e, s) => let '(_, r) := EmitError E (err_msg e) (RState s (Some fan) []) in (Some e, r_world r)
  | (Ok stream, s) => let '(err, r) := publishProviderStream E chat_ctx stream (RState s (Some fan) []) in (err, r_world r)
  end.

(** [None]: still waiting. *)
Fixpoint waitForSinkDrain (taskID : string) (ticks : list (drain_tick T W)) (x : Sender T W) : option (Sender T W) :=
  if (run (HasSink taskID) x).1 then
    match ticks with
    | [] => None
    | CtxDone :: _ => Some x
    | Tick others :: ticks => waitForSinkDrain taskID ticks (others x)
    end
  else Some x.

(** The wait, and the deferred [UnregisterSink]. *)
Definition drain (taskID : string) (ticks : list (drain_tick T W)) (s : Chat) : served * Chat :=
  match waitForSinkDrain taskID ticks (cs_sender s) with
  | None => (StillWaiting, s)
  | Some x => (Streamed, set_cs_sender (run (UnregisterSink taskID) x).2 s)
  end.

(** [sinkID] is the new sink; [ticks] is the wait for it. *)
Definition handleStream (h : Handler) (p : @Provider W InferenceRequest reader) (sinkID : nat) (ticks : list (drain_tick T W))
    (req : InferenceRequest) (s : Chat) : served * Chat :=
  if hasRequestedTools req && negb (hc_sender h)
  then (Answered (writeError 400 "invalid_request_error" "streaming tool execution requires gateway sender support"), s)
  else if negb (hc_sender h) then (Streamed, handleStreamPassthrough p req s)
  else
    let taskID := task_of req in
    let req := with_task req taskID (ir_Messages req) in
    let s := (on_sender (RegisterSink taskID sinkID) s).2 in
    let fan := NewFanout (ir_TraceID req) (ir_SessionID req) taskID in
    if hasRequestedTools req then
      match tool_messages h req with
      | Fail e =>
        let s := persist h req "failed" (err_msg e) s in
        let s := (on_chat_world (WriteSSEFrame write "error" (error_json (err_msg e))) s).2 in
        let s := (on_chat_world (WriteDoneFrame write) s).2 in
        (Streamed, (on_sender (UnregisterSink taskID) s).2)
      | Ok messages =>
        let req := with_task req taskID messages in
        let '((result, err), s) := run_chat h p false true default_max_turns (Some fan) req s in
        let s := match err with
                 | Some e => persist h req (taskStatusForResult result err) (err_msg e) s
                 | None => persist h req "success" "" s
                 end in
        drain taskID ticks s
      end
    else
      let '(err, s) := bridgeProviderStream h p req fan s in
      let s := match err with
               | Some e => persist h req (taskStatusForError err) (err_msg e) s
               | None => persist h req "success" "" s
               end in
      drain taskID ticks s.

(** *** The request *)
Definition inference_of (req : ChatCompletionRequest) (traceID : string) : InferenceRequest :=
  let tools := negb (bool_decide (cr_Tools req = EmptyString)) in
  {| ir_TraceID := traceID; ir_SessionID := ""; ir_TaskID := traceID; ir_AgentType := ""; ir_Messages := cr_Messages req;
     ir_ModelAlias := cr_Model req; ir_MaxTurns := 0; ir_Stream := cr_Stream req;
     ir_Temperature := float32_bits <$> cr_Temperature req;
     ir_Metadata := if tools then <["requested_tools" := cr_Tools req]> (<["tool_choice" := cr_ToolChoice req]> ∅) else ∅;
     ir_OnApprovalReject := if tools then "fail" else "" |}%string.

(** The tools the request names are ones the handler has. *)
Definition check_tools (h : Handler) (raw : string) : option error :=
  if bool_decide (raw = EmptyString) then None
  else match parseRequestedToolNames raw with
  | Fail e => Some e
  | Ok names => ensureSupportedRequestedTools (skillRegistry h) names
  end.

Definition trace_id (now_ns : Z) : string := ("tr_" ++ FormatInt now_ns)%string.

Definition ServeHTTP (h : Handler) (sinkID : nat) (ticks : list (drain_tick T W)) (r : HttpRequest) (s : Chat) : served * Chat :=
  if negb (bool_decide (rq_Method r = "POST"%string)) then (Answered (http_error "Method not allowed" 405), s)
  else match rq_Body r with
  | Fail e => (Answered (writeError 400 "invalid_request_error" (err_msg e)), s)
  | Ok raw =>
    match ValidateChatCompletionRequest raw with
    | Fail e => (Answered (provider_error e), s)
    | Ok req =>
      match check_tools h (cr_Tools req) with
      | Some e => (Answered (writeError 400 "invalid_request_error" (err_msg e)), s)
      | None =>
        match ResolveByAlias (cr_Model req) (hc_resolver h) with
        | (_, _, Some e) => (Answered (provider_error e), s)
        | (o, _, None) =>
          let '(n, s) := chat_ns s in
          let infReq := inference_of req (trace_id n) in
          let s := recordRouteAudit h infReq s in
          let s := persist h infReq "running" "" s in
          match o with
          | None => (Panicked, s)
          | Some provider =>
            if cr_Stream req then handleStream h provider sinkID ticks infReq s else handleNonStream h provider infReq s
          end
        end
      end
    end
  end.

(** ** What the store keeps *)








(** ** Every accepted task ends *)



Context (Hctx : ∀ w, ctx_err w = None).
















End chat.

(** ** Concrete requests

    The world says whether the request has been cancelled. *)
Section demo.
#[local] Existing Instance range_ascending.
#[local] Instance chat_demo_bus : Transport FakeTransport := fake_transport (λ l, l).
#[local] Existing Instance InMemoryTaskStateStore.

Definition chat_demo_provider (answer : string) (cancel : bool) : @Provider bool InferenceRequest reader :=
  {| p_Predict := λ _ w, if cancel then (Fail err_canceled, true) else (Ok answer, w);
     p_PredictStream := λ _ w, (Ok (MkReader EmptyString None), w) |}.

Definition chat_demo_resolver (p : @Provider bool InferenceRequest reader) :=
  RegisterRoute (Build_StaticRoute "m" "p" "" "" "" 0) (Register "p" p NewModelResolver).

Definition chat_demo_handler (p : @Provider bool InferenceRequest reader) (sender : bool) : ChatCompletionsHandler bool :=
  MkHandler (chat_demo_resolver p) sender true None None.

Definition chat_demo_state : ChatState FakeTransport states bool := MkChat (MkSender ∅ NewFakeTransport false [] []) ∅.

Definition chat_demo_request : HttpRequest := MkRequest "POST" ∅ (Ok (jtext "{'model':'m','messages':[{'role':'user','content':'hi'}]}")).

Definition chat_demo_tick (w : bool) : Z * bool := (5000000000, w).
Definition chat_demo_ctx (w : bool) : ctx := if w then Some err_canceled else None.

Definition chat_demo (ctx_err : bool → ctx) (h : ChatCompletionsHandler bool) : served * ChatState FakeTransport states bool :=
  ServeHTTP chat_demo_tick (λ _, 0) (λ _, EmptyString) ctx_err (λ _ _ w, ((zero_decision, None), w)) (λ _ w, (None, w)) h 0%nat []
    chat_demo_request chat_demo_state.

Definition answer_of (x : served * ChatState FakeTransport states bool) : option Z * option string :=
  (match x.1 with Answered r => Some (rs_status r) | _ => None end, ts_Status <$> cs_store x.2 !! "tr_5000000000"%string).

(** With the inference loop between them, an empty answer of the provider is an
    error of the endpoint; without, it is the answer. *)
Example empty_answers :
  answer_of (chat_demo chat_demo_ctx (chat_demo_handler (chat_demo_provider "ok" false) true)) = (Some 200, Some "success"%string) ∧
  answer_of (chat_demo chat_demo_ctx (chat_demo_handler (chat_demo_provider "" false) true)) = (Some 502, Some "failed"%string) ∧
  answer_of (chat_demo chat_demo_ctx (chat_demo_handler (chat_demo_provider "" false) false)) = (Some 200, Some "success"%string).
Proof. vm_compute. done. Qed.

(** A request its client cancels leaves its task running: the store is written
    with the request's context, and refuses. *)
Example cancelled_stays_running :
  (answer_of (chat_demo chat_demo_ctx (chat_demo_handler (chat_demo_provider "ok" true) true))).2 = Some "running"%string.
Proof. vm_compute. done. Qed.

End demo.
