(* ===== verification/OpenAI.v ===== *)
(** * The OpenAI provider: internal/llm/openai_provider.go

    A model provider over HTTP: the request as the chat completions protocol has
    it, and what is read from the answer.  The HTTP exchange is a parameter, a
    function of the address, the key and the body. *)
From Stdlib Require Import String Ascii.
From S2P Require Import Prelude GoStrings Strconv Contracts Bus Runtime ChatRequest Float64 GoValue Chunk TaskResult ProviderStream ChatCompletions.
From stdpp Require Import list.

Local Open Scope Z_scope.

(** ** float32 numbers in JSON *)

(** The float32 nearest to [m * 10 ^ e], [m] not negative, as its bits. *)
Definition float32_at (m e : Z) : Z := float32_bits (Decimal m e).

(** Mantissa and binary exponent of the bits of a number that is not negative. *)
Definition float32_parts (bits : Z) : Z * Z :=
  let e := bits / 2 ^ 23 in
  let f := bits mod 2 ^ 23 in
  if e =? 0 then (f, -149) else (2 ^ 23 + f, e - 150).

(** The fewest digits that read back as the number. *)
Fixpoint shortest32 (fuel : nat) (bits f b k : Z) : Z * Z :=
  let '(low, near) := scale10 f b k in
  let other := if near =? low then low + 1 else low in
  match fuel with
  | O => (near, k)
  | S fuel =>
    if float32_at near k =? bits then (near, k)
    else if float32_at other k =? bits then (other, k)
    else shortest32 fuel bits f b (k - 1)
  end.

(** [strconv.AppendFloat] as encoding/json uses it for 32 bits. *)
Definition float32_text (bits : Z) : string :=
  let body :=
    let v := bits mod 2 ^ 31 in
    let '(f, b) := float32_parts v in
    if f =? 0 then "0"%string
    else
      let k := dec_exponent 8 f b ((Z.log2 f + b) * 30103 / 100000) in
      let '(d, k') := shortest32 10 v f b k in
      let '(d, k') := strip_zeros 20 d k' in decimal_text d k' in
  if 2 ^ 31 <=? bits then ("-" ++ body)%string else body.

(** 0.7, 1, 2, 0.1 and the least positive number. *)
Example float32_texts : map float32_text [1060320051; 1065353216; 1073741824; 1036831949; 1; 0] = ["0.7"; "1"; "2"; "0.1"; "1e-45"; "0"]%string.
Proof. vm_compute. reflexivity. Qed.

(** ** The provider *)
Record ModelConfig := MkModel {
  mo_ProviderName : string;
  mo_ModelID : string;
  mo_APIKey : string;
  mo_BaseURL : string;
  mo_Temperature : option decimal
}.

Definition NewOpenAIProvider (c : ModelConfig) : ModelConfig :=
  MkModel (mo_ProviderName c) (mo_ModelID c) (mo_APIKey c)
    (if bool_decide (mo_BaseURL c = EmptyString) then "https://api.openai.com/v1"%string else mo_BaseURL c) (mo_Temperature c).

(** *** The request's body

    A message whose tool calls are no JSON is the encoder's error; an empty list
    of messages is nil. *)
Definition message_value (m : ChatMessage) : option json :=
  calls ← (if bool_decide (cm_ToolCalls m = EmptyString) then Some [] else v ← raw_json (cm_ToolCalls m); Some [("tool_calls"%string, v)]);
  Some (JObj ([("role", jstring (cm_Role m)); ("content", jstring (cm_Content m))]%string ++ omitempty "name" (cm_Name m) ++
    omitempty "tool_call_id" (cm_ToolCallID m) ++ calls)).

Definition messages_value (l : list ChatMessage) : option json :=
  match l with [] => Some JNull | _ => vs ← mapM message_value l; Some (JArr vs) end.

Definition completion_request (model : string) (messages : json) (temperature : option Z) (stream : bool) : json :=
  JObj ([("model", jstring model); ("messages", messages)]%string ++
    match temperature with Some bits => [("temperature"%string, JNum (float32_text bits))] | None => [] end ++
    (if stream then [("stream"%string, JBool true)] else [])).

Definition request_body (c : ModelConfig) (req : InferenceRequest) (stream : bool) : option string :=
  messages ← messages_value (ir_Messages req); Some (print (completion_request (mo_ModelID c) messages (ir_Temperature req) stream)).

(** *** The answer *)
Record completion := MkCompletion { co_Choices : list ChatMessage; co_Error : string }.
Definition zero_completion : completion := MkCompletion [] EmptyString.

Definition choice_fields : list (field ChatMessage) := [ ("message"%string, λ t m, struct_value false chat_message_fields t m) ].
Definition completion_fields : list (field completion) :=
  [ ("choices"%string, λ t c, l ← slice_value false choice_fields zero_chat_message t (co_Choices c); Ok (MkCompletion l (co_Error c)));
    ("error"%string, λ t c, m ← struct_value false [string_field "message" (λ v _, v)] t (co_Error c); Ok (MkCompletion (co_Choices c) m)) ].

(** [io.ReadAll] of a response's body. *)
Definition read_all (r : reader) : result string := match rd_err r with Some e => Fail e | None => Ok (rd_text r) end.

Record api_request := ApiRequest { aq_URL : string; aq_Authorization : string; aq_Body : string }.

Section provider.
Context {W : Type}.
(** The exchange: a status and a body, or an error. *)
Variable do : api_request → W → result (Z * reader) * W.

Definition api_call (c : ModelConfig) (req : InferenceRequest) (stream : bool) : option api_request :=
  body ← request_body c req stream;
  Some (ApiRequest (mo_BaseURL c ++ "/chat/completions") ("Bearer " ++ mo_APIKey c) body).

(** The answer of [Predict] to a status and a body. *)
Definition read_completion (status : Z) (body : string) : result string :=
  if negb (status =? 200) then
    Fail (new_error ("openai error (" ++ FormatInt status ++ "): " ++ co_Error (UnmarshalLenient completion_fields zero_completion body)))
  else
    parsed ← Unmarshal completion_fields zero_completion body;
    match co_Choices parsed with
    | [] => Fail (new_error "openai returned no choices")
    | m :: _ => Ok (cm_Content m)
    end.

Definition OpenAIPredict (c : ModelConfig) (req : InferenceRequest) (w : W) : result string * W :=
  match api_call c req false with
  | None => (Fail marshal_error, w)
  | Some r =>
    match do r w with
    | (Fail e, w) => (Fail e, w)
    | (Ok (status, r), w) => (body ← read_all r; read_completion status body, w)
    end
  end.

Definition OpenAIPredictStream (c : ModelConfig) (req : InferenceRequest) (w : W) : result reader * W :=
  match api_call c req true with
  | None => (Fail marshal_error, w)
  | Some r =>
    match do r w with
    | (Fail e, w) => (Fail e, w)
    | (Ok (status, r), w) =>
      (if negb (status =? 200) then Fail (new_error ("openai streaming error (" ++ FormatInt status ++ "): " ++ rd_text r)) else Ok r, w)
    end
  end.

(** The provider as the resolver has it. *)
Definition OpenAIProvider (config : ModelConfig) : @Provider W InferenceRequest reader :=
  let c := NewOpenAIProvider config in {| p_Predict := OpenAIPredict c; p_PredictStream := OpenAIPredictStream c |}.
End provider.

(** ** What is sent is a chat completions request *)

(** *** Arrays read back *)
Section print_items.
#[local] Arguments print : simpl never.
#[local] Arguments print_tail : simpl never.

Lemma follow_tail l t : follow (print_tail l ++ t).
Proof. by destruct l. Qed.

Lemma scan_items_print l : ∀ v f t,
  all_ok 1 (v :: l) = true → (length l < f)%nat → scan_items f (print v ++ (print_tail l ++ t)) = Some (map print (v :: l), t).
Proof.
  induction l as [|w l IH]; intros v f t Hok Hf; (destruct f as [|f]; [simpl in Hf; lia|]); apply andb_prop in Hok as [Hv Hl];
    cbn [scan_items]; rewrite (skip_ws_print v 1) by done; rewrite (parse_value_print_default v 1) by (done || apply follow_tail);
    cbn [mbind option_bind].
  - change (print_tail [] ++ t)%string with (String "]" t). rewrite skip_ws_nows by done.
    rewrite bool_decide_eq_false_2, bool_decide_eq_true_2 by done. by rewrite span_app.
  - change (print_tail (w :: l)) with (String "," (print w ++ print_tail l))%string. cbn [String.append]. rewrite skip_ws_nows by done.
    rewrite bool_decide_eq_true_2 by done. rewrite sapp_assoc, IH by (done || (simpl in Hf; lia)). cbn [mbind option_bind]. by rewrite span_app.
Qed.

Lemma array_items_print l : json_ok 0 (JArr l) = true → array_items (print (JArr l)) = Some (map print l, EmptyString).
Proof.
  intros [_ Hok]%andb_prop. destruct l as [|v l]; [done|]. rewrite print_arr. unfold array_items. rewrite skip_ws_nows by done.
  rewrite bool_decide_eq_true_2 by done. rewrite <-(sapp_nil_r (print v ++ print_tail l)), sapp_assoc.
  pose proof Hok as [Hv _]%andb_prop. pose proof (skip_ws_print v 1 (print_tail l ++ EmptyString) Hv) as Hs. rewrite Hs.
  destruct (print_head v 1 Hv) as (c & s & Hp & _ & Hc & _).
  assert (scan_items (String.length (print v ++ print_tail l ++ EmptyString)) (print v ++ print_tail l ++ EmptyString) = Some (map print (v :: l), EmptyString)) as <-.
  { apply scan_items_print; [done|]. rewrite !slength_app. assert (length l < String.length (print_tail l))%nat as Hlen; [|lia].
    clear. induction l as [|w l IH]; [change (print_tail []) with (String "]" EmptyString); simpl; lia|]. change (print_tail (w :: l)) with (String "," (print w ++ print_tail l))%string.
    cbn [length String.length]. rewrite slength_app. lia. }
  rewrite Hp. cbn [String.append]. by rewrite bool_decide_eq_false_2.
Qed.
End print_items.

(** An array whose elements decode is decoded. *)
Lemma slice_value_print {A} strict (fs : list (field A)) zero vs as_ :
  json_ok 0 (JArr vs) = true → Forall2 (λ v a, struct_value strict fs (print v) zero = Ok a) vs as_ →
  slice_value strict fs zero (print (JArr vs)) [] = Ok as_.
Proof.
  intros Hok Hd. unfold slice_value. rewrite parse_print, array_items_print by done. clear Hok.
  induction Hd as [|v a vs as_ Hv _ IH]; [done|]. cbn [map slice_items head tail default]. rewrite Hv. cbn [mbind result_bind].
  by rewrite IH.
Qed.

(** An object's members decode as they are stored. *)
Lemma struct_value_print {A} strict (fs : list (field A)) ms (a : A) :
  json_ok 0 (JObj ms) = true → struct_value strict fs (print (JObj ms)) a = store_members strict fs (map field_text ms) a.
Proof.
  intros Hok. unfold struct_value. rewrite parse_print by done. pose proof (object_fields_print ms EmptyString Hok) as Ho.
  rewrite sapp_nil_r in Ho. by rewrite Ho.
Qed.

(** *** Messages and requests *)

(** A message the protocol knows: a role, texts in UTF-8, tool calls that are
    JSON. *)
Definition sendable (m : ChatMessage) : Prop :=
  cm_Role m ∈ validRoles ∧ Forall (λ s, valid_utf8 s = true) [cm_Role m; cm_Content m; cm_Name m; cm_ToolCallID m] ∧
  (cm_ToolCalls m = EmptyString ∨ ∃ v, raw_json (cm_ToolCalls m) = Some v ∧ json_ok 3 v = true).

(** The message with its tool calls as they are printed. *)
Definition wire_message (m : ChatMessage) : ChatMessage :=
  Build_ChatMessage (cm_Role m) (cm_Content m) (cm_Name m) (cm_ToolCallID m)
    (if bool_decide (cm_ToolCalls m = EmptyString) then EmptyString else match raw_json (cm_ToolCalls m) with Some v => print v | None => EmptyString end).

Lemma message_decodes m : sendable m →
  ∃ v, message_value m = Some v ∧ json_ok 2 v = true ∧ struct_value true chat_message_fields (print v) zero_chat_message = Ok (wire_message m).
Proof.
  intros (_ & Hu & Hc). rewrite !Forall_cons in Hu. destruct Hu as (Hr & Hco & Hn & Hi & _).
  assert (∃ calls, (if bool_decide (cm_ToolCalls m = EmptyString) then Some [] else v ← raw_json (cm_ToolCalls m); Some [("tool_calls"%string, v)]) = Some calls ∧
    members_ok 3 calls = true ∧ ∀ a, store_members true chat_message_fields (map field_text calls) a =
      Ok (Build_ChatMessage (cm_Role a) (cm_Content a) (cm_Name a) (cm_ToolCallID a)
            (if bool_decide (cm_ToolCalls m = EmptyString) then cm_ToolCalls a else cm_ToolCalls (wire_message m)))) as (calls & Hcalls & Hok & Hst).
  { unfold wire_message. case_bool_decide as He; [exists []; split_and!; [done|done|by intros []]|].
    destruct Hc as [?|(v & -> & Hv)]; [done|]. eexists. split_and!; [reflexivity|by rewrite members_ok_value|]. intros a.
    by rewrite (store_raw true chat_message_fields "tool_calls" (λ v m, Build_ChatMessage (cm_Role m) (cm_Content m) (cm_Name m) (cm_ToolCallID m) v)). }
  unfold message_value. rewrite Hcalls. cbn [mbind option_bind]. eexists. split; [reflexivity|].
  assert (json_ok 2 (JObj ([("role", jstring (cm_Role m)); ("content", jstring (cm_Content m))]%string ++ omitempty "name" (cm_Name m) ++
    omitempty "tool_call_id" (cm_ToolCallID m) ++ calls)) = true) as Hall.
  { change (members_ok 3 ([("role", jstring (cm_Role m)); ("content", jstring (cm_Content m))]%string ++ omitempty "name" (cm_Name m) ++
      omitempty "tool_call_id" (cm_ToolCallID m) ++ calls) = true).
    by rewrite !members_ok_app, members_ok_string, members_ok_string, !members_ok_omitempty, Hok. }
  split; [done|]. rewrite struct_value_print by (by apply (json_ok_depth _ 2)). cbn [app].
  rewrite (store_string true chat_message_fields "role" (λ v m, Build_ChatMessage v (cm_Content m) (cm_Name m) (cm_ToolCallID m) (cm_ToolCalls m))) by done.
  rewrite (store_string true chat_message_fields "content" (λ v m, Build_ChatMessage (cm_Role m) v (cm_Name m) (cm_ToolCallID m) (cm_ToolCalls m))) by done.
  rewrite (store_optional true chat_message_fields "name" (λ v m, Build_ChatMessage (cm_Role m) (cm_Content m) v (cm_ToolCallID m) (cm_ToolCalls m))) by done.
  rewrite (store_optional true chat_message_fields "tool_call_id" (λ v m, Build_ChatMessage (cm_Role m) (cm_Content m) (cm_Name m) v (cm_ToolCalls m))) by done.
  rewrite Hst. unfold wire_message. cbn [cm_Role cm_Content cm_Name cm_ToolCallID cm_ToolCalls zero_chat_message]. by case_bool_decide.
Qed.

(** A temperature whose text reads back into the range of the protocol. *)
Definition temperature_fits (t : option Z) : Prop :=
  match t with
  | None => True
  | Some bits => token_num (float32_text bits) = true ∧
      ∃ d, decimal_of (float32_text bits) = Some d ∧ float32_overflows d = false ∧ float32_negative d = false ∧ float32_above_two d = false
  end.
Definition temperature_sent (t : option Z) : option decimal := bits ← t; decimal_of (float32_text bits).

Lemma decode_one_print v : json_ok 0 v = true → decode_one (print v) = Some (print v, false).
Proof.
  intros Hok. unfold decode_one. pose proof (skip_ws_print v 0 EmptyString Hok) as Hs. pose proof (parse_value_print_default v 0 EmptyString Hok I) as Hp.
  pose proof (span_app (print v) EmptyString) as Hsp. rewrite sapp_nil_r in Hs, Hp, Hsp. rewrite Hs, Hp. cbn [mbind option_bind]. by rewrite Hsp.
Qed.

Lemma messages_decode l : Forall sendable l → l ≠ [] →
  ∃ vs, mapM message_value l = Some vs ∧ messages_value l = Some (JArr vs) ∧ json_ok 1 (JArr vs) = true ∧
    ∀ r, messages_field.2 (print (JArr vs)) r =
      Ok (Build_ChatCompletionRequest (cr_Model r) (map wire_message l) (cr_Tools r) (cr_ToolChoice r) (cr_Temperature r) (cr_Stream r)) ∨ cr_Messages r ≠ [].
Proof.
  intros Hl Hne. assert (∃ vs, mapM message_value l = Some vs ∧ all_ok 2 vs = true ∧
    Forall2 (λ v a, struct_value true chat_message_fields (print v) zero_chat_message = Ok a) vs (map wire_message l)) as (vs & Hvs & Hok & Hd).
  { clear Hne. induction Hl as [|m l Hm _ (vs & Hvs & Hok & Hd)]; [by exists []|]. destruct (message_decodes m Hm) as (v & Hv & Hvok & Hvd).
    exists (v :: vs). cbn [mapM]. rewrite Hv. cbn [mbind option_bind]. rewrite Hvs. split_and!; [done| |by constructor]. cbn. by rewrite Hvok. }
  exists vs. assert (json_ok 1 (JArr vs) = true) as Hj by done. split_and!; [done|destruct l; [done|]; unfold messages_value; by rewrite Hvs|done|].
  intros r. destruct (decide (cr_Messages r = [])) as [Hr|]; [left|by right]. unfold messages_field. cbn [snd]. rewrite Hr.
  rewrite (slice_value_print true _ _ vs (map wire_message l)) by (done || by apply (json_ok_depth _ 1)). done.
Qed.

Lemma roles_known l : Forall sendable l → first_bad_role (map wire_message l) = None.
Proof. induction 1 as [|m l (Hr & _) _ IH]; [done|]. cbn [map first_bad_role wire_message cm_Role]. by rewrite bool_decide_eq_true_2. Qed.

Lemma store_temperature bits l r d :
  decimal_of (float32_text bits) = Some d → float32_overflows d = false → token_num (float32_text bits) = true →
  store_members true request_fields (map field_text (("temperature"%string, JNum (float32_text bits)) :: l)) r =
  store_members true request_fields (map field_text l) (set_Temperature (Some d) r).
Proof.
  intros Hd Ho Ht. cbn [map store_members]. rewrite (store_member_found true request_fields "temperature" temperature_field) by done.
  unfold temperature_field. cbn [snd]. rewrite parse_print by done. rewrite Hd, Ho. done.
Qed.

(** C34: The body the provider sends for messages of the protocol, with a
    temperature that is printed as a number the validation reads as one from 0
    to 2, or none, is a chat completions request that the program's own strict validation accepts, with
    the configured model, the messages, the temperature and whether to stream:
    a gateway can be the model provider of another. *)
Theorem openai_request_accepted c req stream :
  mo_ModelID c ≠ EmptyString → valid_utf8 (mo_ModelID c) = true → ir_Messages req ≠ [] → Forall sendable (ir_Messages req) →
  temperature_fits (ir_Temperature req) →
  ∃ body, request_body c req stream = Some body ∧
    ValidateChatCompletionRequest body =
      Ok (Build_ChatCompletionRequest (mo_ModelID c) (map wire_message (ir_Messages req)) "" "" (temperature_sent (ir_Temperature req)) stream).
Proof.
  intros Hm Hmu Hne Hl Ht. destruct (messages_decode _ Hl Hne) as (vs & _ & Hv & Hok & Hst). unfold request_body. rewrite Hv. cbn [mbind option_bind].
  eexists. split; [reflexivity|]. unfold completion_request. set (ms := _ ++ _ ++ _).
  assert (json_ok 0 (JObj ms) = true) as Hall.
  { change (members_ok 1 ms = true). unfold ms. rewrite !members_ok_app, members_ok_string, members_ok_value by done.
    destruct (ir_Temperature req) as [bits|]; [destruct Ht as [Htok _]; cbn -[token_num token_str]; rewrite Htok|]; by destruct stream. }
  unfold ValidateChatCompletionRequest. rewrite decode_one_print, struct_value_print by done. unfold ms. cbn [app].
  rewrite (store_string true request_fields "model" (λ v r, Build_ChatCompletionRequest v (cr_Messages r) (cr_Tools r) (cr_ToolChoice r) (cr_Temperature r) (cr_Stream r))) by done.
  rewrite map_cons. cbn [store_members]. rewrite (store_member_found true request_fields "messages" messages_field) by done.
  destruct (Hst (Build_ChatCompletionRequest (mo_ModelID c) [] "" "" None false)) as [Hf|?]; [|done]. unfold zero_request. cbn [cr_Messages cr_Tools cr_ToolChoice cr_Temperature cr_Stream].
  rewrite Hf. cbn [mbind result_bind cr_Messages cr_Tools cr_ToolChoice cr_Temperature cr_Stream cr_Model].
  assert (∀ t, (match t with Some d => float32_negative d || float32_above_two d | None => false end) = false →
    check_request (Build_ChatCompletionRequest (mo_ModelID c) (map wire_message (ir_Messages req)) "" "" t stream) =
    Ok (Build_ChatCompletionRequest (mo_ModelID c) (map wire_message (ir_Messages req)) "" "" t stream)) as Hcheck.
  { intros t Hr. unfold check_request. cbn [cr_Messages cr_Tools cr_ToolChoice cr_Temperature cr_Stream cr_Model].
    rewrite !(bool_decide_eq_false_2 (_ = _)) by (done || by destruct (ir_Messages req)). by rewrite roles_known, Hr. }
  destruct (ir_Temperature req) as [bits|].
  - destruct Ht as (Htok & d & Hd & Ho & Hn & Ha). cbn [app temperature_sent mbind option_bind]. rewrite Hd, (store_temperature bits _ _ d) by done.
    destruct stream; apply Hcheck; by rewrite Hn, Ha.
  - destruct stream; by apply Hcheck.
Qed.

(** A prediction asks once, unless a message cannot be encoded, and answers the
    content of the first choice of a complete response of status 200. *)
Lemma predict_exact {W} (do : api_request → W → result (Z * reader) * W) c req w :
  match api_call c req false with
  | None => OpenAIPredict do c req w = (Fail marshal_error, w)
  | Some r =>
    (OpenAIPredict do c req w).2 = (do r w).2 ∧
    ∀ text, (OpenAIPredict do c req w).1 = Ok text ↔
      ∃ body parsed m ms, (do r w).1 = Ok (200, MkReader body None) ∧ Unmarshal completion_fields zero_completion body = Ok parsed ∧
        co_Choices parsed = m :: ms ∧ text = cm_Content m
  end.
Proof.
  unfold OpenAIPredict. destruct (api_call c req false) as [r|]; [|done]. destruct (do r w) as [[[status [body err]]|e] w']; cbn [fst snd]; [|naive_solver].
  split; [done|]. intros text. unfold read_all. cbn [rd_err rd_text]. destruct err as [e|]; cbn [mbind result_bind]; [naive_solver|].
  unfold read_completion. destruct (Z.eqb_spec status 200) as [->|Hs]; cbn [negb]; [|naive_solver]. split.
  - destruct (Unmarshal _ _ body) as [parsed|e] eqn:Hu; cbn [mbind result_bind]; [|done].
    destruct (co_Choices parsed) as [|m ms] eqn:Hc; [done|]. intros [= <-]. by exists body, parsed, m, ms.
  - intros (b & parsed & m & ms & [= <-] & -> & Hc & ->). cbn [mbind result_bind]. by rewrite Hc.
Qed.

(** ** Samples *)
Definition demo_model : ModelConfig := MkModel "openai" "gpt-4" "sk-1" "" (Some (Decimal 1 (-1))).
Definition demo_chat (temperature : option Z) : InferenceRequest :=
  {| ir_TraceID := ""; ir_SessionID := ""; ir_TaskID := ""; ir_AgentType := ""; ir_ModelAlias := "openai"; ir_MaxTurns := 0; ir_Stream := false;
     ir_Messages := [Build_ChatMessage "user" "hi" "" "" (jtext "[{'id': 1}]")]; ir_Temperature := temperature; ir_Metadata := ∅; ir_OnApprovalReject := "" |}.

Lemma openai_request_accepted_witness :
  ∃ body, request_body demo_model (demo_chat (Some 1060320051)) true = Some body ∧
    ValidateChatCompletionRequest body =
      Ok (Build_ChatCompletionRequest "gpt-4" [Build_ChatMessage "user" "hi" "" "" (jtext "[{'id':1}]")] "" "" (Some (Decimal 7 (-1))) true).
Proof.
  apply (openai_request_accepted demo_model (demo_chat (Some 1060320051)) true).
  - discriminate.
  - vm_compute. reflexivity.
  - discriminate.
  - constructor; [|constructor]. split_and!.
    + apply (bool_decide_unpack _). vm_compute. exact I.
    + repeat constructor.
    + right. exists (JArr [JObj [("id"%string, JNum "1")]]). split; vm_compute; reflexivity.
  - split; [vm_compute; reflexivity|]. exists (Decimal 7 (-1)). split_and!; vm_compute; reflexivity.
Defined.

(** The configured temperature is in no request: only the request's own is. *)
Example config_temperature_unused : request_body demo_model (demo_chat None) false =
  Some (jtext "{'model':'gpt-4','messages':[{'role':'user','content':'hi','tool_calls':[{'id':1}]}]}").
Proof. vm_compute. reflexivity. Qed.

Definition answering (status : Z) (body : string) (r : api_request) (w : list string) : result (Z * reader) * list string :=
  (Ok (status, MkReader (jtext body) None), w ++ [aq_URL r; aq_Authorization r]).

Example answers : 
  OpenAIPredict (answering 200 "{'choices':[{'message':{'content':'ok'}},{}]}") (NewOpenAIProvider demo_model) (demo_chat None) [] =
    (Ok "ok"%string, ["https://api.openai.com/v1/chat/completions"; "Bearer sk-1"]%string) ∧
  (MapProviderError (match (OpenAIPredict (answering 429 "{'error':{'message':'slow down'}}") (NewOpenAIProvider demo_model) (demo_chat None) []).1 with
                     | Fail e => Some e | Ok _ => None end)).1.1 = 429.
Proof. split; vm_compute; reflexivity. Qed.
