(* ===== verification/Escaping.v ===== *)
(** * Encoded values are encoded once

    [json.Marshal] HTML-escapes the raw messages it embeds.  What the program's
    own encoders write is escaped already, so embedding it again, on the next
    hop over the bus, changes nothing: [stable]. *)
From Stdlib Require Import String Ascii.
From S2P Require Import Prelude GoStrings Strconv GoValue Bus GatewayTypes TaskResult.
From stdpp Require Import list.

Local Open Scope Z_scope.

(** ** Escaping twice *)

(** Characters that escaping leaves alone wherever they stand. *)
Definition inert (c : ascii) : bool := negb (html_special c) && negb (code c =? 226).

Fixpoint all_inert (s : string) : bool := match s with EmptyString => true | String c s => inert c && all_inert s end.

Lemma html_escape_inert c s : inert c = true → html_escape (String c s) = String c (html_escape s).
Proof. unfold inert. intros [H1%negb_true_iff H2%negb_true_iff]%andb_prop. by apply html_escape_plain. Qed.

Lemma html_escape_prefix p s : all_inert p = true → html_escape (p ++ s) = (p ++ html_escape s)%string.
Proof.
  induction p as [|c p IH]; [done|]. intros [Hc Hp]%andb_prop. cbn [String.append]. rewrite html_escape_inert by done. by rewrite IH.
Qed.

Lemma quote_ascii_inert c : (code c <? 128) = true → all_inert (quote_ascii c) = true.
Proof. intros H. destruct c as [[] [] [] [] [] [] [] []]; try (vm_compute in H; discriminate H); reflexivity. Qed.

Lemma range_inert c : (code c <? 128) = false → code c ≠ 226 → inert c = true.
Proof.
  intros H1 H2. unfold inert. apply andb_true_intro. split; [|by apply negb_true_iff, Z.eqb_neq].
  destruct c as [[] [] [] [] [] [] [] []]; try (vm_compute in H1; discriminate H1); reflexivity.
Qed.

Lemma cont_inert c : JsonString.between 128 (code c) 191 = true → inert c = true.
Proof. unfold JsonString.between. intros H. apply range_inert; [apply Z.ltb_ge|]; lia. Qed.

Lemma valid3_cont c1 c2 c3 : valid3 c1 c2 c3 = true → JsonString.between 128 (code c2) 191 = true ∧ cont c3 = true.
Proof.
  unfold valid3, cont, JsonString.between. intros [H2 H3]%andb_prop. split; [|done].
  repeat case_match; lia.
Qed.

Lemma valid4_cont c1 c2 c3 c4 :
  valid4 c1 c2 c3 c4 = true → 240 ≤ code c1 ∧ JsonString.between 128 (code c2) 191 = true ∧ cont c3 = true ∧ cont c4 = true.
Proof.
  unfold valid4, cont, JsonString.between. intros [[H2 H3]%andb_prop H4]%andb_prop. repeat case_match; split_and!; try done; lia.
Qed.

Lemma html_escape_e2 c1 c2 c3 s :
  html_special c1 = false → is_line_sep c1 c2 c3 = false →
  html_escape (String c1 (String c2 (String c3 s))) = String c1 (html_escape (String c2 (String c3 s))).
Proof.
  intros H1 H2. change (html_escape (String c1 (String c2 (String c3 s)))) with
    (if html_special c1 then (esc_u (code c1) ++ html_escape (String c2 (String c3 s)))%string
     else if is_line_sep c1 c2 c3 then (esc_u (8192 + code c3 - 128) ++ html_escape s)%string
     else String c1 (html_escape (String c2 (String c3 s)))). by rewrite H1, H2.
Qed.

Lemma high_not_special c : (code c <? 128) = false → html_special c = false.
Proof. intros H. destruct c as [[] [] [] [] [] [] [] []]; try (vm_compute in H; discriminate H); reflexivity. Qed.

(** An encoded string is escaped. *)
Lemma html_escape_quote s : html_escape (quote s) = quote s.
Proof.
  induction s as [|c s H IH|c1 c2 s H H2 IH|c1 c2 c3 s H H2 H3 IH|c1 c2 c3 c4 s H H2 H3 H4 IH|c s H IH] using utf8_ind.
  - done.
  - cbn [quote]. rewrite H, html_escape_prefix by (by apply quote_ascii_inert). by rewrite IH.
  - cbn [quote]. rewrite H, H2. unfold valid2, JsonString.between in H2. rewrite html_escape_inert by (apply range_inert; [done|lia]).
    rewrite html_escape_inert by (apply cont_inert; unfold cont, JsonString.between in *; lia). by rewrite IH.
  - cbn [quote]. rewrite H, H2, H3. pose proof (valid3_cont _ _ _ H3) as [Hc2 Hc3]. destruct (is_line_sep c1 c2 c3) eqn:Hl.
    + rewrite html_escape_prefix; [by rewrite IH|]. unfold is_line_sep in Hl. rewrite !andb_true_iff, orb_true_iff, !Z.eqb_eq in Hl.
      destruct Hl as [_ [-> | ->]]; reflexivity.
    + rewrite html_escape_e2 by (done || by apply high_not_special). rewrite !html_escape_inert by (by apply cont_inert). by rewrite IH.
  - cbn [quote]. rewrite H, H2, H3, H4. pose proof (valid4_cont _ _ _ _ H4) as (Hc1 & Hc2 & Hc3 & Hc4).
    rewrite (html_escape_inert c1) by (apply range_inert; [done|lia]). rewrite !html_escape_inert by (by apply cont_inert). by rewrite IH.
  - rewrite quote_bad by done. unfold bad_byte. rewrite html_escape_prefix by reflexivity. by rewrite IH.
Qed.

Lemma esc_special_inert c : html_special c = true → all_inert (esc_u (code c)) = true.
Proof. intros H. destruct c as [[] [] [] [] [] [] [] []]; try (vm_compute in H; discriminate H); reflexivity. Qed.

(** Escaped texts: no special character and no line separator. *)
Definition sep_tail (s : string) : bool :=
  match s with String c2 (String c3 _) => (code c2 =? 128) && ((code c3 =? 168) || (code c3 =? 169)) | _ => false end.

Inductive escaped : string → Prop :=
| escaped_nil : escaped EmptyString
| escaped_inert c s : inert c = true → escaped s → escaped (String c s)
| escaped_e2 c s : code c = 226 → sep_tail s = false → escaped s → escaped (String c s).

Lemma html_escape_cons c s :
  html_escape (String c s) =
  if html_special c then (esc_u (code c) ++ html_escape s)%string
  else if (code c =? 226) && sep_tail s
  then match s with String _ (String c3 s3) => (esc_u (8192 + code c3 - 128) ++ html_escape s3)%string | _ => EmptyString end
  else String c (html_escape s).
Proof.
  destruct (html_special c) eqn:Hc.
  - unfold html_special in Hc. cbn. by rewrite Hc.
  - destruct s as [|c2 [|c3 s]]; cbn [sep_tail]; rewrite ?andb_false_r; unfold html_special in Hc.
    1,2: cbn; by rewrite Hc.
    destruct (is_line_sep c c2 c3) eqn:Hl.
    + unfold is_line_sep in Hl. rewrite <-andb_assoc in Hl. rewrite Hl. cbn. rewrite Hc.
      unfold is_line_sep. by rewrite <-andb_assoc, Hl.
    + rewrite html_escape_e2 by done. unfold is_line_sep in Hl. by rewrite <-andb_assoc in Hl; rewrite Hl.
Qed.

Lemma e2_not_special c : code c = 226 → html_special c = false.
Proof. intros H. apply high_not_special. by rewrite H. Qed.

Lemma html_escape_escaped s : escaped s → html_escape s = s.
Proof.
  induction 1 as [|c s Hc _ IH|c s Hc Ht _ IH]; [done| |].
  - by rewrite html_escape_inert, IH.
  - by rewrite html_escape_cons, e2_not_special, Ht, andb_false_r, IH.
Qed.

Lemma escaped_app p s : all_inert p = true → escaped s → escaped (p ++ s).
Proof. intros Hp Hs. induction p as [|c p IH]; [done|]. apply andb_prop in Hp as [Hc Hp]. cbn. constructor; auto. Qed.

(** Escaping makes no line separator of what followed a byte that begins one. *)
Lemma sep_tail_escape s : sep_tail s = false → sep_tail (html_escape s) = false.
Proof.
  intros Hs. destruct s as [|c2 s]; [done|]. rewrite html_escape_cons.
  destruct (html_special c2); [done|]. destruct ((code c2 =? 226) && sep_tail s) eqn:Hl.
  { destruct s as [|c3 [|c4 s]]; done. }
  clear Hl. destruct s as [|c3 s]; [done|]. cbn [sep_tail] in Hs. rewrite (html_escape_cons c3).
  destruct (html_special c3); [cbn; by rewrite andb_false_r|]. destruct ((code c3 =? 226) && sep_tail s) eqn:Hl; [|done].
  destruct s as [|c4 [|c5 s]]; [done..|]. cbn. by rewrite andb_false_r.
Qed.

Lemma escaped_html_escape s : escaped (html_escape s).
Proof.
  induction s as [s IH] using string_length_ind. destruct s as [|c s]; [constructor|].
  assert (escaped (html_escape s)) as Hs by (apply IH; simpl; lia). rewrite html_escape_cons.
  destruct (html_special c) eqn:Hc; [by apply escaped_app, Hs; apply esc_special_inert|].
  destruct ((code c =? 226) && sep_tail s) eqn:Hl.
  - apply andb_prop in Hl as [_ Ht]. destruct s as [|c2 [|c3 s]]; [done..|].
    apply escaped_app; [|apply IH; simpl; lia]. cbn [sep_tail] in Ht. apply andb_prop in Ht as [_ Ht].
    rewrite orb_true_iff, !Z.eqb_eq in Ht. destruct Ht as [-> | ->]; reflexivity.
  - destruct (code c =? 226) eqn:He.
    + apply Z.eqb_eq in He. apply escaped_e2; [done| |done]. by apply sep_tail_escape.
    + apply escaped_inert; [|done]. unfold inert. by rewrite Hc, He.
Qed.

Lemma html_escape_idem s : html_escape (html_escape s) = html_escape s.
Proof. apply html_escape_escaped, escaped_html_escape. Qed.

(** ** Stable values *)
Definition stable (v : json) : Prop := escape_json v = v.

Definition stable_member (m : string * json) : Prop := html_escape m.1 = m.1 ∧ stable m.2.

Lemma stable_string s : stable (jstring s).
Proof. unfold stable, jstring. cbn. by rewrite html_escape_quote. Qed.

Lemma stable_escaped v : stable (escape_json v).
Proof.
  unfold stable. induction v as [|b|n|b|l IH|ms IH] using json_induction; try done; cbn.
  - by rewrite html_escape_idem.
  - f_equal. rewrite map_map. induction IH as [|v l Hv _ IHl]; [done|]. cbn. by rewrite Hv, IHl.
  - f_equal. rewrite map_map. induction IH as [|[k v] l Hv _ IHl]; [done|]. cbn in *. by rewrite html_escape_idem, Hv, IHl.
Qed.

Lemma stable_raw t v : raw_json t = Some v → stable v.
Proof.
  unfold raw_json. destruct t; [by intros [= <-]|]. intros (x & _ & ->)%fmap_Some_1. apply stable_escaped.
Qed.

Lemma stable_obj ms : Forall stable_member ms → stable (JObj ms).
Proof.
  intros Hms. unfold stable. cbn. f_equal. induction Hms as [|[k v] ms [Hk Hv] _ IH]; [done|]. cbn in *. by rewrite Hk, Hv, IH.
Qed.

Lemma stable_arr l : Forall stable l → stable (JArr l).
Proof. intros Hl. unfold stable. cbn. f_equal. induction Hl as [|v l Hv _ IH]; [done|]. cbn. by rewrite Hv, IH. Qed.

Lemma stable_omitempty name s : html_escape name = name → Forall stable_member (omitempty name s).
Proof. intros Hn. unfold omitempty. case_bool_decide; repeat constructor; [done|apply stable_string]. Qed.

Lemma Forall_sort_keys (P : string * json → Prop) l : Forall P l → Forall P (sort_keys l).
Proof.
  assert (∀ m l, P m → Forall P l → Forall P (insert_key m l)) as Hins.
  { intros m l' Hm Hl'. induction Hl' as [|m' l' Hm' Hl' IH]; [by repeat constructor|]. cbn. case_match; by repeat constructor. }
  induction 1 as [|m l Hm _ IH]; [constructor|]. by apply Hins.
Qed.

Lemma stable_value v : stable (encode_value v).
Proof.
  induction v as [|b|n|z|s|l IH|ms IH] using gvalue_nested_ind; try done; cbn [encode_value].
  - apply stable_string.
  - apply stable_arr. induction IH; constructor; auto.
  - apply stable_obj. apply Forall_map. apply (Forall_impl (λ m, stable m.2)).
    + apply Forall_sort_keys. induction IH as [|kv ms Hv _ IH']; constructor; auto.
    + intros m Hm. split; [apply html_escape_quote|done].
Qed.

#[export] Hint Resolve stable_string stable_value stable_omitempty : agentic.

(** A message whose payload an encoder wrote arrives as it is. *)
Lemma wire_normal_stable m v : Payload m = print v → json_ok 0 v = true → stable v → wire_normal m = m.
Proof.
  intros Hp Hok Hs. unfold wire_normal. assert (raw_json (Payload m) = Some v) as ->.
  { rewrite Hp. unfold raw_json. rewrite parse_print by done. cbn [fmap option_fmap option_map]. rewrite Hs.
    destruct (print v) eqn:Hpr; [|done]. destruct (print_head v 0 Hok) as (c & t & Hc & _). by rewrite Hc in Hpr. }
  rewrite <-Hp. by destruct m.
Qed.

(** ** The program's encoders *)
Ltac stable_members := repeat first [apply Forall_nil_2 | apply Forall_cons_2 | apply Forall_app_2 | apply stable_omitempty; reflexivity
  | split; [reflexivity|] | apply stable_string | reflexivity | progress cbn [fst snd]].

Lemma stable_result r v : result_json r = Some v → stable v.
Proof.
  unfold result_json. intros (out & Hout & [= <-])%bind_Some. apply stable_raw in Hout. apply stable_obj. stable_members. exact Hout.
Qed.

Lemma stable_map name ms : html_escape name = name → Forall stable_member (opt_map name ms).
Proof. intros Hn. destruct ms as [[|kv ms]|]; cbn [opt_map]; try constructor; [|constructor]. split; [done|]. apply stable_value. Qed.

Lemma stable_int name z : html_escape name = name → Forall stable_member (opt_int name z).
Proof. intros Hn. unfold opt_int. case_match; repeat constructor. done. Qed.

Lemma stable_jmap ms : stable (jmap ms).
Proof. destruct ms; [apply stable_value|done]. Qed.

Lemma stable_jslice {A} (f : A → json) l : (∀ a, stable (f a)) → stable (jslice f l).
Proof. intros Hf. destruct l as [l|]; [|done]. apply stable_arr, Forall_map. by apply Forall_true. Qed.

Lemma stable_media m : stable (media_json m).
Proof. apply stable_obj. stable_members; [by apply stable_int|by apply stable_map]. Qed.

Lemma stable_article a : stable (article_json a).
Proof. apply stable_obj. stable_members. Qed.
