(* ===== verification/Startup.v ===== *)
(** * The starts of the orchestrator and the subagent

    cmd/orchestrator/main.go and cmd/subagent/main.go from the command line to
    the running program, the in-process and MQTT heartbeats
    (bus/mqtt_heartbeat.go) and the orchestrator's HTTP routes.  What a start
    asks of the outside is a [call]; the buses and the stores it makes are
    arguments. *)
From Stdlib Require Import String Ascii.
From S2P Require Import Prelude GoStrings Strconv TaskStatus Url Filepath Contracts Bus Runtime ChatRequest WebhookAuth Workflow TaskStore Transport AuditTrail.
From S2P Require Import Threads Orchestrator GatewayConfig Session Skills ProviderStream OpenAI.
From stdpp Require Import gmap list.

Local Open Scope Z_scope.

(** ** The command lines *)
Record AppConfig := MkAppConfig {
  op_SQLiteDSN : string;
  op_RedisAddr : string;
  op_MQTTBroker : string;
  op_SubagentBinary : string;
  op_HTTPPort : string;
  op_Loop : bool;
  op_LLMAPIKey : string;
  op_LLMBaseURL : string;
  op_ApprovalSecret : string
}.

Definition app_default (getenv : string → string) : AppConfig :=
  MkAppConfig "agentic_core.db" "localhost:16379" "tcp://localhost:11883" "./subagent" ":8080" false (getenv "LLM_API_KEY") (getenv "LLM_BASE_URL")
    (getenv "APPROVAL_WEBHOOK_SECRET").

Definition app_flags : list (string * flag_var AppConfig) :=
  [ ("sqlite-dsn", FString (λ v c, MkAppConfig v (op_RedisAddr c) (op_MQTTBroker c) (op_SubagentBinary c) (op_HTTPPort c) (op_Loop c) (op_LLMAPIKey c) (op_LLMBaseURL c) (op_ApprovalSecret c)));
    ("redis-addr", FString (λ v c, MkAppConfig (op_SQLiteDSN c) v (op_MQTTBroker c) (op_SubagentBinary c) (op_HTTPPort c) (op_Loop c) (op_LLMAPIKey c) (op_LLMBaseURL c) (op_ApprovalSecret c)));
    ("mqtt-broker", FString (λ v c, MkAppConfig (op_SQLiteDSN c) (op_RedisAddr c) v (op_SubagentBinary c) (op_HTTPPort c) (op_Loop c) (op_LLMAPIKey c) (op_LLMBaseURL c) (op_ApprovalSecret c)));
    ("subagent-binary", FString (λ v c, MkAppConfig (op_SQLiteDSN c) (op_RedisAddr c) (op_MQTTBroker c) v (op_HTTPPort c) (op_Loop c) (op_LLMAPIKey c) (op_LLMBaseURL c) (op_ApprovalSecret c)));
    ("http-port", FString (λ v c, MkAppConfig (op_SQLiteDSN c) (op_RedisAddr c) (op_MQTTBroker c) (op_SubagentBinary c) v (op_Loop c) (op_LLMAPIKey c) (op_LLMBaseURL c) (op_ApprovalSecret c)));
    ("loop", FBool (λ v c, MkAppConfig (op_SQLiteDSN c) (op_RedisAddr c) (op_MQTTBroker c) (op_SubagentBinary c) (op_HTTPPort c) v (op_LLMAPIKey c) (op_LLMBaseURL c) (op_ApprovalSecret c)));
    ("llm-api-key", FString (λ v c, MkAppConfig (op_SQLiteDSN c) (op_RedisAddr c) (op_MQTTBroker c) (op_SubagentBinary c) (op_HTTPPort c) (op_Loop c) v (op_LLMBaseURL c) (op_ApprovalSecret c)));
    ("llm-base-url", FString (λ v c, MkAppConfig (op_SQLiteDSN c) (op_RedisAddr c) (op_MQTTBroker c) (op_SubagentBinary c) (op_HTTPPort c) (op_Loop c) (op_LLMAPIKey c) v (op_ApprovalSecret c)));
    ("approval-secret", FString (λ v c, MkAppConfig (op_SQLiteDSN c) (op_RedisAddr c) (op_MQTTBroker c) (op_SubagentBinary c) (op_HTTPPort c) (op_Loop c) (op_LLMAPIKey c) (op_LLMBaseURL c) v)) ]%string.

Definition ParseAppConfig (getenv : string → string) (args : list string) : result AppConfig := parse_flags app_flags args (app_default getenv).

Record SubagentConfig := MkSubConfig {
  sf_AgentType : string;
  sf_TaskID : string;
  sf_RedisAddr : string;
  sf_MQTTBroker : string;
  sf_SQLiteDSN : string;
  sf_LLMProvider : string;
  sf_LLMModel : string;
  sf_LLMAPIKey : string;
  sf_LLMBaseURL : string
}.

Definition sub_default (getenv : string → string) : SubagentConfig :=
  MkSubConfig "" "" "localhost:16379" "tcp://localhost:11883" "agentic_core.db" "openai" "gpt-4" (getenv "LLM_API_KEY") (getenv "LLM_BASE_URL").

Definition sub_flags : list (string * flag_var SubagentConfig) :=
  [ ("agent-type", FString (λ v c, MkSubConfig v (sf_TaskID c) (sf_RedisAddr c) (sf_MQTTBroker c) (sf_SQLiteDSN c) (sf_LLMProvider c) (sf_LLMModel c) (sf_LLMAPIKey c) (sf_LLMBaseURL c)));
    ("task-id", FString (λ v c, MkSubConfig (sf_AgentType c) v (sf_RedisAddr c) (sf_MQTTBroker c) (sf_SQLiteDSN c) (sf_LLMProvider c) (sf_LLMModel c) (sf_LLMAPIKey c) (sf_LLMBaseURL c)));
    ("redis-addr", FString (λ v c, MkSubConfig (sf_AgentType c) (sf_TaskID c) v (sf_MQTTBroker c) (sf_SQLiteDSN c) (sf_LLMProvider c) (sf_LLMModel c) (sf_LLMAPIKey c) (sf_LLMBaseURL c)));
    ("mqtt-broker", FString (λ v c, MkSubConfig (sf_AgentType c) (sf_TaskID c) (sf_RedisAddr c) v (sf_SQLiteDSN c) (sf_LLMProvider c) (sf_LLMModel c) (sf_LLMAPIKey c) (sf_LLMBaseURL c)));
    ("sqlite-dsn", FString (λ v c, MkSubConfig (sf_AgentType c) (sf_TaskID c) (sf_RedisAddr c) (sf_MQTTBroker c) v (sf_LLMProvider c) (sf_LLMModel c) (sf_LLMAPIKey c) (sf_LLMBaseURL c)));
    ("llm-provider", FString (λ v c, MkSubConfig (sf_AgentType c) (sf_TaskID c) (sf_RedisAddr c) (sf_MQTTBroker c) (sf_SQLiteDSN c) v (sf_LLMModel c) (sf_LLMAPIKey c) (sf_LLMBaseURL c)));
    ("llm-model", FString (λ v c, MkSubConfig (sf_AgentType c) (sf_TaskID c) (sf_RedisAddr c) (sf_MQTTBroker c) (sf_SQLiteDSN c) (sf_LLMProvider c) v (sf_LLMAPIKey c) (sf_LLMBaseURL c)));
    ("llm-api-key", FString (λ v c, MkSubConfig (sf_AgentType c) (sf_TaskID c) (sf_RedisAddr c) (sf_MQTTBroker c) (sf_SQLiteDSN c) (sf_LLMProvider c) (sf_LLMModel c) v (sf_LLMBaseURL c)));
    ("llm-base-url", FString (λ v c, MkSubConfig (sf_AgentType c) (sf_TaskID c) (sf_RedisAddr c) (sf_MQTTBroker c) (sf_SQLiteDSN c) (sf_LLMProvider c) (sf_LLMModel c) (sf_LLMAPIKey c) v)) ]%string.

Definition ParseSubConfig (getenv : string → string) (args : list string) : result SubagentConfig :=
  cfg ← parse_flags sub_flags args (sub_default getenv);
  if bool_decide (sf_TaskID cfg = EmptyString) then Fail (new_error "task-id is required") else Ok cfg.

(** ** Heartbeats *)

(** What a publication to the broker comes to: an answer, an error or nothing
    within the context's time; [late] says that a context done at the same time
    is noticed first. *)
Inductive token := Answered (e : option error) | Unanswered.

Section mqtt.
Context {W : Type}.
Variable publish : string → string → W → token * W.

(** [None]: the call does not return. *)
Definition MqttPublishHeartbeat (c : ctx) (late : bool) (agentID status : string) (w : W) : option (option error) * W :=
  let '(t, w) := publish ("agents/" ++ agentID ++ "/heartbeat") status w in
  (match t, c with
   | Answered e, None => Some e
   | Answered e, Some d => Some (if late then Some d else e)
   | Unanswered, Some d => Some (Some d)
   | Unanswered, None => None
   end, w).

(** The ticks of the subagent's heartbeat until its context is done: the first
    beat and one per tick; errors are ignored, a call that does not return ends
    it. *)
Fixpoint startHeartbeat (beat : W → option (option error) * W) (ticks : nat) (w : W) : W :=
  match beat w with
  | (None, w) => w
  | (Some _, w) => match ticks with O => w | S ticks => startHeartbeat beat ticks w end
  end.
End mqtt.

(** ** The orchestrator's HTTP routes *)

(** [http.ServeMux] over patterns without wildcards, methods and hosts: the
    segments of the path are compared unescaped, and a path that is not clean is
    redirected, except for CONNECT. *)
Definition clean_path (p : string) : string :=
  if bool_decide (p = EmptyString) then "/"%string
  else let p := if HasPrefix p "/" then p else ("/" ++ p)%string in
       let np := Clean p in
       if HasSuffix p "/" && negb (bool_decide (np = "/"%string)) then (np ++ "/")%string else np.

Definition segment (s : string) : string := default s (Url.unescape encodePath s).

Definition mux_match {A} (patterns : list (string * A)) (path : string) : option A :=
  snd <$> head (filter (λ p, path_parts p.1 = map segment (path_parts path)) patterns).

Inductive routed (A : Type) := Routed (a : A) | MovedPermanently (path : string) | RouteNotFound | RouteBadRequest.
Arguments Routed {A} _.
Arguments MovedPermanently {A} _.
Arguments RouteNotFound {A}.
Arguments RouteBadRequest {A}.

(** [uri] and [path]: the request's target and its escaped path. *)
Definition mux_serve {A} (patterns : list (string * A)) (method uri path : string) : routed A :=
  if bool_decide (uri = "*"%string) then RouteBadRequest
  else
    let clean := if bool_decide (method = "CONNECT"%string) then path else clean_path path in
    if negb (bool_decide (clean = path)) then MovedPermanently clean
    else match mux_match patterns path with Some a => Routed a | None => RouteNotFound end.

(** [ServeHTTP], with the handlers behind the routes; the chat handler is made
    at the first request and kept. *)
Definition AppServeHTTP {A} (approval chat : A) (method uri path : string) : routed A :=
  mux_serve [("/approval", approval); ("/v1/chat/completions", chat)]%string method uri path.

Definition chatCompletionsHandler {A} (new : A) (cached : option A) : A * option A :=
  match cached with Some h => (h, cached) | None => (new, Some new) end.

Example routes :
  map (λ p, AppServeHTTP true false "POST" p p) ["/approval"; "/v1/chat/completions"; "/approval/"; "/x/../approval"; "//approval"; "/appr%6Fval"; "*"; ""]%string =
  [Routed true; Routed false; RouteNotFound; MovedPermanently "/approval"; MovedPermanently "/approval"; Routed true; RouteBadRequest; MovedPermanently "/"].
Proof. vm_compute. reflexivity. Qed.

(** ** What a start asks of the outside *)
Inductive call :=
| InitLogging (program : string)
| OpenDB (dsn : string)
| InitTaskSchema (dsn : string)
| InitHistorySchema (dsn : string)
| CloseDB (dsn : string)
| Ping (addr : string)
| Connect (broker clientID : string).

Inductive heartbeat := MqttHeartbeat (broker clientID : string) | InProcess (statuses : gmap string string).

Definition failed_connection (what : string) (e : error) : error := Err (what ++ " connection failed: " ++ err_msg e) (err_chain e).

Section start.
Context `{RangeOrder} {S T W : Type} `{TaskStateStore S} `{Transport T}.
(** Every call's error; the buses, in process and over Redis, and a
    subscription; the store of a database; the HTTP exchange of a provider. *)
Variable do : call → W → option error * W.
Variables (fake : T) (redis : string → T) (subscribe : string → T → option error * T).
Variables (tasks : string → S) (sessions : string → history).
Variable http : api_request → W → result (Z * reader) * W.

(** [sql.Open]'s and [Redis]'s part of both programs. *)
Definition connect_bus (addr : string) (w : W) : result T * W :=
  if bool_decide (addr = "skip"%string) then (Ok fake, w)
  else match do (Ping addr) w with
       | (Some e, w) => (Fail (failed_connection "redis" e), w)
       | (None, w) => (Ok (redis addr), w)
       end.

Definition connect_heartbeat (broker clientID : string) (w : W) : result heartbeat * W :=
  if bool_decide (broker = "skip"%string) then (Ok (InProcess ∅), w)
  else match do (Connect broker clientID) w with
       | (Some e, w) => (Fail (failed_connection "mqtt" e), w)
       | (None, w) => (Ok (MqttHeartbeat broker clientID), w)
       end.

(** *** The orchestrator *)
Abbreviation Resolver := (@ModelResolver W InferenceRequest reader).

(** The application: its handlers' state, whether the stream sender is
    subscribed, what kept the approval gate from subscribing, the resolver and
    the heartbeat. *)
Record Application := MkApplication {
  aa_cfg : AppConfig; aa_app : App S T W; aa_listening : bool; aa_gate_error : option error; aa_resolver : Resolver; aa_heartbeat : heartbeat }.

Definition default_routes (cfg : AppConfig) : Resolver :=
  if bool_decide (op_LLMAPIKey cfg = EmptyString) then NewModelResolver
  else RegisterRoute (Build_StaticRoute "gpt-4" "openai" "" "" "gpt-4" 0)
    (Register "openai" (OpenAIProvider http (MkModel "openai" "gpt-4" (op_LLMAPIKey cfg) (op_LLMBaseURL cfg) None)) NewModelResolver).

Definition NewApp (cfg : AppConfig) (w : W) : result Application * W :=
  match do (OpenDB (op_SQLiteDSN cfg)) w with
  | (Some e, w) => (Fail e, w)
  | (None, w) =>
    let close e w := (Fail e, (do (CloseDB (op_SQLiteDSN cfg)) w).2) in
    match do (InitTaskSchema (op_SQLiteDSN cfg)) w with
    | (Some e, w) => close e w
    | (None, w) =>
      match connect_bus (op_RedisAddr cfg) w with
      | (Fail e, w) => close e w
      | (Ok bus, w) =>
        let '(err, bus) := subscribe "chunks.*" bus in
        let '(gate_err, bus) := subscribe "approvals" bus in
        match connect_heartbeat (op_MQTTBroker cfg) "orchestrator" w with
        | (Fail e, w) => close e w
        | (Ok h, w) =>
          (Ok (MkApplication cfg
                 (MkApp (tasks (op_SQLiteDSN cfg)) bus (Procs (op_SubagentBinary cfg) ∅ w) [] ∅ (Some NewInMemNonceStore) [])
                 (match err with None => true | Some _ => false end) gate_err (default_routes cfg) h), w)
        end
      end
    end
  end.

(** [runMain] up to its two goroutines, and the error it ends with. *)
Definition start_main (getenv : string → string) (args : list string) (w : W) : result Application * W :=
  match ParseAppConfig getenv args with
  | Fail e => (Fail e, w)
  | Ok cfg => match do (InitLogging "orchestrator") w with (Some e, w) => (Fail e, w) | (None, w) => NewApp cfg w end
  end.

Section main.
Context (O : OS W) (tick : W → Z * W) (profiles : AgentRegistry).

(** [Run]: the health message, the heartbeat, and the context's end, whose error
    is [done]. *)
Definition RunApp (beat : W → option (option error) * W) (c : ctx) (done : error) : act (App S T W) (option (option error)) :=
  t ← now_ms tick;
  _ ← publish c "system.health" (health_message t);
  b ← atomic (λ s, let '(r, w) := beat (pm_os (ap_procs s)) in (r, set_world w s));
  mret (match b with None => None | Some _ => Some (Some done) end).

(** What the main goroutine does with a started application; [None] is for a
    loop still running after the given turns, or a call that does not return. *)
Definition main_action (loop : bool) (beat : W → option (option error) * W) (c : ctx) (done : error) (turns : list (ctx * arrival)) :
    act (App S T W) (option (option error)) :=
  if loop then
    err ← RecoverTasksOnStartup O tick profiles c;
    match err with Some e => mret (Some (Some e)) | None => ProcessLoop O tick profiles turns end
  else RunApp beat c done.

(** [runMain], without what the result listener and the HTTP server do
    meanwhile ([Orchestrator] interleaves them): the database is closed when the
    main goroutine returns. *)
Definition runMain (getenv : string → string) (args : list string) (beat : W → option (option error) * W) (c : ctx) (done : error)
    (turns : list (ctx * arrival)) (w : W) : option (option error) * W :=
  match start_main getenv args w with
  | (Fail e, w) => (Some (Some e), w)
  | (Ok a, _) =>
    let '(r, s) := run (main_action (op_Loop (aa_cfg a)) beat c done turns) (aa_app a) in
    let w := pm_os (ap_procs s) in
    match r with None => (None, w) | Some e => (Some e, (do (CloseDB (op_SQLiteDSN (aa_cfg a))) w).2) end
  end.
End main.

(** *** The subagent *)
Record Started := MkStarted {
  ss_cfg : SubagentConfig;
  ss_bus : T;
  ss_history : option history;
  ss_resolver : Resolver;
  ss_provider : option (@Provider W InferenceRequest reader);
  ss_heartbeat : heartbeat
}.

(** The session store: an error of opening leaves the subagent without one, an
    error of the schema is ignored. *)
Definition open_history (dsn : string) (w : W) : option history * W :=
  if bool_decide (dsn = "skip"%string) then (None, w)
  else match do (OpenDB dsn) w with
       | (Some _, w) => (None, w)
       | (None, w) => (Some (sessions dsn), (do (InitHistorySchema dsn) w).2)
       end.

Definition sub_resolver (cfg : SubagentConfig) : result Resolver :=
  if negb (bool_decide (sf_LLMAPIKey cfg = EmptyString)) then
    Ok (Register (sf_LLMProvider cfg)
      (OpenAIProvider http (MkModel (sf_LLMProvider cfg) (sf_LLMModel cfg) (sf_LLMAPIKey cfg) (sf_LLMBaseURL cfg) (Some (Decimal 1 (-1))))) NewModelResolver)
  else if bool_decide (sf_RedisAddr cfg = "skip"%string) then Ok NewModelResolver
  else Fail (new_error "LLM_API_KEY is required").

Definition mqtt_client (cfg : SubagentConfig) (now : Z) : string := ("subagent-" ++ sf_AgentType cfg ++ "-" ++ FormatInt now)%string.

(** [now] is read for the name of the client only. *)
Definition NewSubagent (now : Z) (cfg : SubagentConfig) (w : W) : result Started * W :=
  let '(h, w) := open_history (sf_SQLiteDSN cfg) w in
  match sub_resolver cfg with
  | Fail e => (Fail e, w)
  | Ok resolver =>
    match connect_bus (sf_RedisAddr cfg) w with
    | (Fail e, w) => (Fail e, w)
    | (Ok bus, w) =>
      match connect_heartbeat (sf_MQTTBroker cfg) (mqtt_client cfg now) w with
      | (Fail e, w) => (Fail e, w)
      | (Ok hb, w) => (Ok (MkStarted cfg bus h resolver (match Resolve (sf_LLMProvider cfg) resolver with Ok p => Some p | Fail _ => None end) hb), w)
      end
    end
  end.

(** [main] up to the message loop. *)
Definition sub_main (getenv : string → string) (now : Z) (args : list string) (w : W) : result Started * W :=
  match ParseSubConfig getenv args with
  | Fail e => (Fail e, w)
  | Ok cfg => match do (InitLogging "subagent") w with (Some e, w) => (Fail e, w) | (None, w) => NewSubagent now cfg w end
  end.
End start.
Arguments MkApplication {S T W} _ _ _ _ _ _.
Arguments aa_cfg {S T W} _.
Arguments aa_app {S T W} _.
Arguments aa_listening {S T W} _.
Arguments aa_gate_error {S T W} _.
Arguments aa_resolver {S T W} _.
Arguments aa_heartbeat {S T W} _.
Arguments ss_cfg {T W} _.
Arguments ss_bus {T W} _.
Arguments ss_history {T W} _.
Arguments ss_resolver {T W} _.
Arguments ss_provider {T W} _.
Arguments ss_heartbeat {T W} _.

(** ** The orchestrator starts, or closes what it opened *)
Section traced.
Context {W : Type}.
Variable do : call → W → option error * W.

(** The calls made, with their errors. *)
Definition traced (c : call) (x : W * list (call * option error)) : option error * (W * list (call * option error)) :=
  let '(e, w) := do c x.1 in (e, (w, x.2 ++ [(c, e)])).

Definition passed (l : list call) : list (call * option error) := map (λ c, (c, None)) l.
End traced.

(** What a start asks for, in order: the database is the second. *)
Definition start_calls (cfg : AppConfig) : list call :=
  [InitLogging "orchestrator"; OpenDB (op_SQLiteDSN cfg); InitTaskSchema (op_SQLiteDSN cfg)] ++
  (if bool_decide (op_RedisAddr cfg = "skip"%string) then [] else [Ping (op_RedisAddr cfg)]) ++
  (if bool_decide (op_MQTTBroker cfg = "skip"%string) then [] else [Connect (op_MQTTBroker cfg) "orchestrator"]).

Section starts.
Context `{RangeOrder} {S T W : Type} `{TaskStateStore S} `{Transport T}.
Variable do : call → W → option error * W.
Variables (fake : T) (redis : string → T) (subscribe : string → T → option error * T).
Variable tasks : string → S.
Variable http : api_request → W * list (call * option error) → result (Z * reader) * (W * list (call * option error)).

(** The start stopped at the [n]th of its calls; a database that was opened is
    closed at the end. *)
Definition stopped (cfg : AppConfig) (tr : list (call * option error)) : Prop :=
  ∃ n c e, start_calls cfg !! n = Some c ∧
    ((n ≤ 1)%nat ∧ tr = passed (take n (start_calls cfg)) ++ [(c, Some e)] ∨
     (1 < n)%nat ∧ ∃ e', tr = passed (take n (start_calls cfg)) ++ [(c, Some e); (CloseDB (op_SQLiteDSN cfg), e')]).

#[local] Ltac decided :=
  repeat match goal with
  | H : ?P |- context [bool_decide ?P] => rewrite (bool_decide_eq_true_2 P H)
  | H : ¬ ?P |- context [bool_decide ?P] => rewrite (bool_decide_eq_false_2 P H)
  end.

(** A leaf of the start: the call [n] failed. *)
#[local] Ltac stopped_at n :=
  right; eexists; split; [reflexivity|]; exists n; do 2 eexists; unfold start_calls; decided; split; [reflexivity|];
  first [left; split; [lia|reflexivity] | right; split; [lia|eexists; reflexivity]].

Lemma default_routes_alias cfg : (ResolveByAlias "gpt-4" (default_routes http cfg)).2 = None ↔ op_LLMAPIKey cfg ≠ EmptyString.
Proof. unfold default_routes. case_bool_decide as Hk; [split; [discriminate|done]|]. split; [done|]. intros _. vm_compute. reflexivity. Qed.

(** C21: The orchestrator starts exactly when its command line parses and every
    call of its start succeeds; it then has no workflow and no process, answers
    for the alias gpt-4 when it has a key, and holds its database.  A start that
    fails stopped at the first call that failed, and closed the database if it
    was opened before. *)
Theorem orchestrator_starts getenv args w :
  let '(r, (_, tr)) := start_main (traced do) fake redis subscribe tasks http getenv args (w, []) in
  match r with
  | Ok a => ParseAppConfig getenv args = Ok (aa_cfg a) ∧ tr = passed (start_calls (aa_cfg a)) ∧
      ap_store (aa_app a) = tasks (op_SQLiteDSN (aa_cfg a)) ∧ ap_workflows (aa_app a) = ∅ ∧ pm_tracked (ap_procs (aa_app a)) = ∅ ∧ heap_ok (aa_app a) ∧
      ((ResolveByAlias "gpt-4" (aa_resolver a)).2 = None ↔ op_LLMAPIKey (aa_cfg a) ≠ EmptyString)
  | Fail e => (ParseAppConfig getenv args = Fail e ∧ tr = []) ∨ ∃ cfg, ParseAppConfig getenv args = Ok cfg ∧ stopped cfg tr
  end.
Proof.
  unfold start_main, traced. destruct (ParseAppConfig getenv args) as [cfg|e]; [|by left]. cbn [fst snd].
  destruct (do (InitLogging _) _) as [[e|] w1]; [stopped_at 0%nat|]. unfold NewApp. cbn [fst snd].
  destruct (do (OpenDB _) _) as [[e|] w2]; [stopped_at 1%nat|]. cbn [fst snd].
  destruct (do (InitTaskSchema _) _) as [[e|] w3]; cbn [fst snd]; [destruct (do (CloseDB _) _); stopped_at 2%nat|].
  unfold connect_bus, connect_heartbeat. pose proof (default_routes_alias cfg) as Hr.
  case_bool_decide; case_bool_decide; cbn [fst snd app];
    repeat first
      [ destruct (do (Ping _) _) as [[e|] w4]; cbn [fst snd]; [destruct (do (CloseDB _) _); stopped_at 3%nat|]
      | match goal with |- context [subscribe ?t ?b] => destruct (subscribe t b) as [? ?] end
      | destruct (do (Connect _ _) _) as [[e|] w5]; cbn [fst snd]; [destruct (do (CloseDB _) _); first [stopped_at 3%nat | stopped_at 4%nat]|] ];
    (split_and!; [done|by unfold start_calls; cbn [aa_cfg]; decided|done|done|done|intros ? ? ?; simplify_map_eq|exact Hr]).
Qed.
End starts.

(** ** A spawned subagent *)

(** The arguments the process manager gives to a subagent. *)
Definition spawn_args (agentType taskID : string) : list string := ["--agent-type"; agentType; "--task-id"; taskID]%string.

Lemma spawned_config getenv agentType taskID :
  taskID ≠ EmptyString →
  ParseSubConfig getenv (spawn_args agentType taskID) =
    Ok (MkSubConfig agentType taskID "localhost:16379" "tcp://localhost:11883" "agentic_core.db" "openai" "gpt-4" (getenv "LLM_API_KEY") (getenv "LLM_BASE_URL")).
Proof.
  intros Ht. unfold ParseSubConfig, spawn_args. cbn [mbind result_bind].
  assert (∀ c, parse_flags sub_flags ["--agent-type"; agentType; "--task-id"; taskID]%string c =
    Ok (MkSubConfig agentType taskID (sf_RedisAddr c) (sf_MQTTBroker c) (sf_SQLiteDSN c) (sf_LLMProvider c) (sf_LLMModel c) (sf_LLMAPIKey c) (sf_LLMBaseURL c))) as ->.
  { intros []. vm_compute. reflexivity. }
  cbn [mbind result_bind sf_TaskID]. by rewrite bool_decide_eq_false_2.
Qed.

Section spawned.
Context `{RangeOrder} {T W : Type} `{Transport T}.
Variable do : call → W → option error * W.
Variables (fake : T) (redis : string → T).
Variable sessions : string → history.
Variable http : api_request → W → result (Z * reader) * W.
Context (O : OS W).

(** What the process manager starts for a task is a subagent of that agent
    type and task, whatever their names (an argument that looks like a flag
    included).  Where the environment has a key and the services answer, it
    serves the task's queue on the Redis of the default address, with a
    provider; where the environment has none, it exits.  The orchestrator's own
    flags are not among its arguments. *)
Theorem spawned_subagent getenv now agentType taskID m w :
  taskID ≠ EmptyString → pm_BinaryPath m ≠ EmptyString → (∀ c w, (do c w).1 = None) →
  ∃ args, (SpawnAgent O None agentType taskID m).1 = (os_Start O (pm_BinaryPath m) args (pm_os m)).1 ∧
    match (sub_main do fake redis sessions http getenv now args w).1 with
    | Fail e => getenv "LLM_API_KEY"%string = EmptyString ∧ e = new_error "LLM_API_KEY is required"
    | Ok s => getenv "LLM_API_KEY"%string ≠ EmptyString ∧ sf_AgentType (ss_cfg s) = agentType ∧ sf_TaskID (ss_cfg s) = taskID ∧
        ss_bus s = redis "localhost:16379" ∧ ss_history s = Some (sessions "agentic_core.db") ∧ is_Some (ss_provider s)
    end.
Proof.
  intros Ht Hb Hdo. exists (spawn_args agentType taskID). split.
  { unfold SpawnAgent. rewrite bool_decide_eq_false_2 by done. by destruct (os_Start _ _ _ _) as [[pid|e] w']. }
  unfold sub_main. rewrite spawned_config by done. pose proof (Hdo (InitLogging "subagent") w) as Hl.
  destruct (do (InitLogging _) w) as [[e|] w1]; [done|]. unfold NewSubagent, open_history. cbn [sf_SQLiteDSN].
  rewrite bool_decide_eq_false_2 by done. pose proof (Hdo (OpenDB "agentic_core.db") w1) as Ho. destruct (do (OpenDB _) w1) as [[e|] w2]; [done|].
  unfold sub_resolver. cbn [sf_LLMAPIKey sf_RedisAddr]. case_bool_decide as Hk; cbn [negb].
  { rewrite bool_decide_eq_false_2 by done. done. }
  unfold connect_bus. cbn [sf_RedisAddr]. rewrite bool_decide_eq_false_2 by done.
  match goal with |- context [do (Ping ?a) ?x] => pose proof (Hdo (Ping a) x) as Hp; destruct (do (Ping a) x) as [[e|] w3] end; [done|].
  unfold connect_heartbeat. cbn [sf_MQTTBroker]. rewrite bool_decide_eq_false_2 by done.
  match goal with |- context [do (Connect ?a ?b) ?x] => pose proof (Hdo (Connect a b) x) as Hc; destruct (do (Connect a b) x) as [[e|] w4] end; [done|].
  by split_and!.
Qed.
End spawned.

(** ** Samples *)
Definition silent (c : call) (w : Z) : option error * Z := (None, w + 1).
Definition no_http (r : api_request) (w : Z) : result (Z * reader) * Z := (Ok (200, MkReader "" None), w).
Definition demo_env (k : string) : string := if bool_decide (k = "LLM_API_KEY"%string) then "sk-1" else "".
Definition counting_os : OS Z :=
  {| os_Start := λ _ args w, (Ok (Z.of_nat (length args)), w); os_FindProcess := λ _ _, None; os_Kill := λ _ w, (None, w) |}.
Definition demo_procs : procs Z := Procs "./subagent" ∅ 7.

Lemma spawned_subagent_witness :
  ∃ args, (SpawnAgent counting_os None "coder" "--task-id" demo_procs).1 = (os_Start counting_os "./subagent" args 7).1 ∧
    match (sub_main silent "mem"%string (λ a, a) (λ _, History [] None) no_http demo_env 5 args 0).1 with
    | Fail e => demo_env "LLM_API_KEY"%string = EmptyString ∧ e = new_error "LLM_API_KEY is required"
    | Ok s => demo_env "LLM_API_KEY"%string ≠ EmptyString ∧ sf_AgentType (ss_cfg s) = "coder"%string ∧ sf_TaskID (ss_cfg s) = "--task-id"%string ∧
        ss_bus s = "localhost:16379"%string ∧ ss_history s = Some (History [] None) ∧ is_Some (ss_provider s)
    end.
Proof.
  apply (spawned_subagent silent "mem"%string (λ a, a) (λ _, History [] None) no_http counting_os demo_env 5 "coder" "--task-id" demo_procs 0).
  - discriminate.
  - discriminate.
  - reflexivity.
Defined.

(** An orchestrator with a bus, a broker and a key of its own starts subagents
    that use none of them. *)
Example flags_not_passed :
  match ParseAppConfig (λ _, EmptyString) ["-redis-addr=redis:6379"; "-mqtt-broker"; "skip"; "-llm-api-key"; "sk-1"; "--loop"]%string with
  | Ok cfg => (op_RedisAddr cfg, op_MQTTBroker cfg, op_LLMAPIKey cfg, op_Loop cfg)
  | Fail _ => ("", "", "", false)%string
  end = ("redis:6379", "skip", "sk-1", true)%string ∧
  (sub_main silent "mem"%string (λ a, a) (λ _, History [] None) no_http (λ _, EmptyString) 5 (spawn_args "coder" "t1") 0).1 =
    Fail (new_error "LLM_API_KEY is required").
Proof. split; vm_compute; reflexivity. Qed.

(** The start of an orchestrator whose broker does not answer closes its
    database. *)
Definition no_broker (c : call) (w : Z) : option error * Z := match c with Connect _ _ => (Some (new_error "refused"), w) | _ => (None, w) end.
Example broker_down :
  map fst (start_main (T := FakeTransport) (traced no_broker) NewFakeTransport (λ _, NewFakeTransport) (λ _ t, (None, t)) (λ _, SQLite ∅ None)
    (λ _ w, (Ok (200, MkReader "" None), w)) demo_env [] (0, [])).2.2 =
  [InitLogging "orchestrator"; OpenDB "agentic_core.db"; InitTaskSchema "agentic_core.db"; Ping "localhost:16379";
   Connect "tcp://localhost:11883" "orchestrator"; CloseDB "agentic_core.db"]%string.
Proof. vm_compute. reflexivity. Qed.

(** A heartbeat per tick. *)
Example beats : startHeartbeat (MqttPublishHeartbeat (λ t s w, (Answered None, w ++ [(t, s)])) None false "t1" "running") 2 [] =
  replicate 3 ("agents/t1/heartbeat", "running")%string.
Proof. reflexivity. Qed.
