(* ===== verification/System.v ===== *)
(** * A conversation through the system

    The parts together: a channel message goes from the gateway
    (gateway/router.go) over the bus (bus/message.go) to the orchestrator, on
    to its subagent (cmd/subagent/main.go), and the subagent's answer comes
    back over the bus to the gateway, which delivers it.  Each hop encodes the
    message and decodes it again. *)
From Stdlib Require Import String Ascii.
From S2P Require Import Prelude GoStrings Strconv TaskStatus GoValue Bus Transport TaskResult GatewayTypes Router Escaping Subagent.
From stdpp Require Import list.

Local Open Scope Z_scope.

(** One hop over the bus. *)
Definition hop (m m' : Message) : Prop := ∃ data, MarshalMessage m = Ok data ∧ ParseMessage data = Ok m'.

Lemma hop_stable m m' v :
  Validate m = None → wire_ok m → Payload m = print v → json_ok 0 v = true → stable v → hop m m' → m' = m.
Proof.
  intros Hval Hw Hp Hok Hs (data & Hm & Hparse). destruct (marshal_parse m Hval Hw) as (data' & Hm' & Hp' & _).
  rewrite Hm in Hm'. injection Hm' as <-. rewrite Hparse in Hp'. injection Hp' as ->. by eapply wire_normal_stable.
Qed.

(** ** The question *)
Lemma stable_dispatch req v : dispatch_json req = Some v → stable v.
Proof.
  unfold dispatch_json. intros (raw & Hraw & [= <-])%bind_Some. apply stable_raw in Hraw. apply stable_obj.
  stable_members; try apply stable_jmap; try exact Hraw; apply stable_jslice; [apply stable_article|apply stable_media].
Qed.

(** What a subagent reads in the payload the gateway wrote. *)
Lemma parse_dispatch req v :
  valid_utf8 (sm_SessionID req) = true → valid_utf8 (sm_Text req) = true →
  dispatch_json req = Some v → json_ok 0 v = true → numbers_ok v = true →
  parse_task (print v) = (sm_SessionID req, sm_Text req).
Proof.
  unfold dispatch_json. intros Hs Ht (raw & _ & [= <-])%bind_Some Hok Hn. unfold parse_task, UnmarshalMap.
  rewrite parse_print by done. rewrite Hn. cbn [decode_value].
  match goal with |- context [put_all ?l] => set (ms := l) end.
  assert (get_key "session_id" (put_all ms) = Some (GString (sm_SessionID req))) as ->.
  { rewrite <-(unquote_quote_valid (sm_SessionID req)) by done.
    change ms with (take 14 ms ++ ("session_id"%string, GString (unquote (quote (sm_SessionID req)))) :: drop 15 ms).
    by apply get_key_put_all. }
  assert (get_key "task" (put_all ms) = Some (GString (sm_Text req))) as ->; [|done].
  rewrite <-(unquote_quote_valid (sm_Text req)) by done.
  change ms with (take 15 ms ++ ("task"%string, GString (unquote (quote (sm_Text req)))) :: []). by apply get_key_put_all.
Qed.

(** ** The answer *)

Lemma store_body {A} strict (fs : list (field A)) name (set : string → A → A) b l a :
  token_str b = true → find_field fs (unquote name) = Some (string_field name set) →
  store_members strict fs (map field_text ((name, JStr b) :: l)) a = store_members strict fs (map field_text l) (set (unquote b) a).
Proof.
  intros Hb Hf. cbn [map store_members]. rewrite (store_member_found _ _ _ _ _ _ Hf). unfold string_field. cbn [snd].
  by rewrite parse_print.
Qed.

(** The result text a subagent sends carries its answer. *)
Lemma result_carries_answer (AgentType : string) msg output t v :
  result_ok (task_result AgentType msg TaskStatusSuccess output "" t) → token_str output = true →
  result_json (task_result AgentType msg TaskStatusSuccess output "" t) = Some v →
  json_ok 0 v = true ∧ (unquote (html_escape output) ≠ EmptyString → plain_result (print v) (MessageID msg) (unquote (html_escape output))).
Proof.
  intros Hok Ht Hv. pose proof (result_output_json output Ht) as Hraw. pose proof (token_html_escape output Ht) as Ht'.
  assert (∃ v', result_json (task_result AgentType msg TaskStatusSuccess output "" t) = Some v' ∧ json_ok 0 v' = true ∧
    Unmarshal result_fields zero_result (print v') = Ok (set_res_Output (result_output (html_escape output)) (task_result AgentType msg TaskStatusSuccess output "" t))) as (v' & Hv' & Hok' & Hun).
  { destruct (result_decodes _ _ Hok Hraw (result_output_ok _ Ht')) as (v' & H1 & H2 & H3). exists v'. split_and!; [done|done|].
    rewrite H3. by rewrite (result_output_print (html_escape output)). }
  rewrite Hv in Hv'. injection Hv' as <-. split; [done|]. intros Hne. eexists _, _. split_and!; [exact Hun|done| | | |exact Hne].
  - cbn [res_Output set_res_Output]. rewrite result_output_print. unfold Unmarshal.
    pose proof (result_output_ok _ Ht') as Hj. apply (json_ok_depth _ _ 0) in Hj; [|lia]. rewrite parse_print by done.
    pose proof (object_fields_print _ EmptyString Hj) as Ho. rewrite sapp_nil_r in Ho. rewrite Ho.
    rewrite (store_body _ _ _ (λ v e, Envelope v (ge_Message e))) by done. reflexivity.
  - done.
  - done.
Qed.

(** ** Question and answer *)
Section conversation.
Context {T : Type} `{Transport T}.

(** A channel message dispatched by the gateway, carried over the bus to the
    orchestrator and on to the subagent, is read there as the session and the
    text the channel sent; and when the subagent's result with an answer that
    is the body of a JSON string comes back over the bus while the message's
    route is known, the gateway sends the answer to that session through that
    channel's adapter. *)
Theorem conversation c req now_ns t (r : SessionRouter T) id r1 v m1 m2 (AgentType output : string) ts answer mr mr' rv (r2 : SessionRouter T) rich :
  (* the question *)
  let m := dispatch_message id req t in
  sm_ChannelName req ≠ "" → valid_utf8 (sm_SessionID req) = true → valid_utf8 (sm_Text req) = true →
  dispatch_json req = Some v → json_ok 1 v = true → numbers_ok v = true → Validate m = None → wire_ok m →
  DispatchIncoming c req now_ns t r = (Ok id, r1) → ro_adapters r !! sm_ChannelName req = Some rich →
  hop m m1 → hop m1 m2 →
  (* the answer *)
  answer = task_result AgentType m2 TaskStatusSuccess output "" ts →
  result_ok answer → token_str output = true → unquote (html_escape output) ≠ "" → result_json answer = Some rv →
  json_ok 1 rv = true → Payload mr = print rv → Validate mr = None → wire_ok mr → hop mr mr' →
  (* in between *)
  routeForTask id r2 = routeForTask id r1 → ro_adapters r2 = ro_adapters r1 →
  parse_task (Payload m2) = (sm_SessionID req, sm_Text req) ∧
  ro_sent (handle_task_result (Payload mr') r2) = ro_sent r2 ++ [reply rich req (unquote (html_escape output))].
Proof.
  intros m Hchan Hs Ht Hv Hok1 Hnum Hval Hw Hd Had Hh1 Hh2 -> Hrok Htok Hne Hrv Hrok1 Hpr Hvr Hwr Hhr Hroute Hads.
  pose proof (json_ok_depth v 1 0 ltac:(lia) Hok1) as Hok. pose proof (stable_dispatch req v Hv) as Hst.
  assert (Payload m = print v) as Hpm by (unfold m, dispatch_message; cbn; by rewrite Hv).
  assert (m1 = m) as -> by (by eapply hop_stable). assert (m2 = m) as -> by (by eapply hop_stable).
  assert (mr' = mr) as ->.
  { apply (hop_stable _ _ rv); [done|done|done|by apply (json_ok_depth rv 1)|by eapply stable_result|done]. }
  split; [rewrite Hpm; by apply parse_dispatch|].
  destruct (result_carries_answer AgentType m output ts rv Hrok Htok Hrv) as [_ Hplain]. specialize (Hplain Hne).
  change (MessageID m) with id in Hplain. rewrite Hpr, (handle_plain _ id (unquote (html_escape output))) by done.
  unfold DispatchIncoming in Hd. destruct (tq_Enqueue c "tasks" _ _) as [[e|] q]; [done|]. injection Hd as <- <-.
  rewrite !Hroute. cbn. rewrite lookup_insert_eq, bind_text. cbn [rb_SessionID rb_ChannelName rb_Metadata].
  set (resp := set_sm_Metadata _ _). assert (sm_ChannelName resp = sm_ChannelName req) as Hc by done.
  rewrite Hc, bool_decide_eq_false_2 by done. unfold deliver. rewrite Hc, Hads. cbn. rewrite Had. unfold reply. by destruct rich.
Qed.
End conversation.

(** A question and its answer on the in-memory bus. *)
Definition conv_question : Message := dispatch_message "session_5" router_request 7.
Definition conv_answer : TaskResult := task_result "coder" conv_question TaskStatusSuccess "hi <there>" "" 9.
Definition conv_reply : Message :=
  {| MessageID := "session_5.result"; ParentTaskID := ""; SenderID := "session_5"; ReceiverID := "orchestrator"; TargetAgent := "";
     Payload := match result_json conv_answer with Some v => print v | None => EmptyString end; Timestamp := 8 |}.

Definition conv_data (m : Message) : string := match MarshalMessage m with Ok d => d | Fail _ => EmptyString end.

Ltac wire_ok_by_computation := split; try (vm_compute; reflexivity); [vm_compute; split; discriminate|];
  eexists; split; [vm_compute; reflexivity|vm_compute; reflexivity].

Lemma conversation_witness :
  let r1 := (DispatchIncoming (H := fake_transport (λ l, l)) background router_request 5 7 router_demo).2 in
  parse_task (Payload conv_question) = ("wecom:u1", "hello")%string ∧
  ro_sent (handle_task_result (Payload conv_reply) r1) = [SendText "wecom" "wecom:u1" "hi <there>"].
Proof.
  destruct (dispatch_json router_request) as [v|] eqn:Hv; [|vm_compute in Hv; discriminate Hv].
  destruct (result_json conv_answer) as [rv|] eqn:Hrv; [|vm_compute in Hrv; discriminate Hrv].
  destruct (conversation (H := fake_transport (λ l, l)) background router_request 5 7 router_demo "session_5"
    (DispatchIncoming (H := fake_transport (λ l, l)) background router_request 5 7 router_demo).2 v conv_question conv_question
    "coder" "hi <there>" 9 conv_answer conv_reply conv_reply rv
    (DispatchIncoming (H := fake_transport (λ l, l)) background router_request 5 7 router_demo).2 false) as [H1 H2].
  - done.
  - vm_compute. reflexivity.
  - vm_compute. reflexivity.
  - exact Hv.
  - vm_compute in Hv. injection Hv as <-. vm_compute. reflexivity.
  - vm_compute in Hv. injection Hv as <-. vm_compute. reflexivity.
  - vm_compute. reflexivity.
  - wire_ok_by_computation.
  - vm_compute. reflexivity.
  - vm_compute. reflexivity.
  - exists (conv_data conv_question). split; vm_compute; reflexivity.
  - exists (conv_data conv_question). split; vm_compute; reflexivity.
  - reflexivity.
  - split; try (vm_compute; reflexivity). vm_compute. split; discriminate.
  - vm_compute. reflexivity.
  - vm_compute. discriminate.
  - exact Hrv.
  - vm_compute in Hrv. injection Hrv as <-. vm_compute. reflexivity.
  - unfold conv_reply. by rewrite Hrv.
  - vm_compute. reflexivity.
  - wire_ok_by_computation.
  - exists (conv_data conv_reply). split; vm_compute; reflexivity.
  - reflexivity.
  - reflexivity.
  - split; [exact H1|]. cbv zeta. rewrite H2. vm_compute. reflexivity.
Defined.
