(* ===== verification/Delivery.v ===== *)
(** * A task's way from the gateway to its subagent and back, over Redis

    The processes share a Redis server: the gateway (gateway/router.go) pushes a
    task on the queue of tasks, the orchestrator (cmd/orchestrator/main.go) pops
    it there, pushes it on the task's own queue and starts a process, and that
    process (cmd/subagent/main.go) pops the queue its command line names and
    pushes its result on the queue of results, where the gateway pops it.
    Between these steps others may happen: each part is stated of any state in
    which the message has come to the head of its queue. *)
From Stdlib Require Import String Ascii.
From S2P Require Import Prelude GoStrings Strconv TaskStore Workflow GoValue Bus Transport AuditTrail Threads Orchestrator GatewayTypes Router TaskStatus TaskResult JsonString Escaping Subagent Startup System.
From stdpp Require Import list.

Local Open Scope Z_scope.


(** What the gateway remembers of a message it dispatched. *)
Definition route_of (req : StandardMessage) : routeBinding := Binding (sm_SessionID req) (sm_ChannelName req) (cloneMetadata (sm_Metadata req)).

Section redis.
Context {R : Type} `{RedisServer R}.





(** A queue's head is popped as it was pushed when the wire keeps its payload. *)
Lemma pop_head q r m rest vs r' v :
  holds q r (m :: rest) → BRPop q r = (Ok vs, r') → Payload m = print v → json_ok 0 v = true → stable v →
  RedisDequeue_iter q r = (Some m, r') ∧ holds q r' rest.
Proof.
  intros Hh Hp Hpay Hok Hst. destruct (redis_queue_fifo q r (m :: rest) Hh) as [_ Hpop].
  destruct (Hpop vs r' Hp) as (m' & rest' & [= <- <-] & Hd & Hh'). by rewrite (wire_normal_stable m v) in Hd.
Qed.

(** A message is read once: the gateway and the orchestrator both pop the queue
    of results, and the one that comes first leaves the other nothing. *)
Lemma result_read_once q r m vs r' :
  holds q r [m] → BRPop q r = (Ok vs, r') →
  (RedisDequeue_iter q r).1 = Some (wire_normal m) ∧ ∀ vs' r'', BRPop q r' ≠ (Ok vs', r'').
Proof.
  intros Hh Hp. destruct (redis_queue_fifo q r [m] Hh) as [_ Hpop]. destruct (Hpop vs r' Hp) as (m' & rest & [= <- <-] & -> & Hh').
  split; [done|]. intros vs' r'' Hp'. destruct (redis_queue_fifo q r' [] Hh') as [_ Hpop']. by destruct (Hpop' vs' r'' Hp') as (? & ? & ? & _).
Qed.
End redis.

Section delivery.
Context `{RangeOrder} {R S W : Type} `{RedisServer R} `{TaskStateStore S}.
Context (O : OS W) (tick : W → Z * W) (profiles : AgentRegistry).



End delivery.

(** ** The way back *)

(** A result's text is nested no deeper than its output. *)
Lemma result_depth r out v d :
  result_json r = Some v → raw_json (res_Output r) = Some out → json_ok (d + 1) out = true → d < 10000 → json_ok d v = true.
Proof.
  unfold result_json. intros Hv Hout Hok Hd. rewrite Hout in Hv. injection Hv as <-.
  match goal with |- json_ok d (JObj ?ms) = true => change ((d <? max_depth) && members_ok (d + 1) ms = true) end.
  rewrite members_ok_string, members_ok_app, members_ok_omitempty, !members_ok_string, members_ok_value, members_ok_app, members_ok_omitempty by done.
  by rewrite members_ok_int, (proj2 (Z.ltb_lt d max_depth)).
Qed.

Section answer.
Context {R W : Type} `{RedisServer R}.
Context (AgentType TaskID : string) (tick : W → Z * W).

(** The message of a result that is a success, and its result. *)
Definition success_message (msg : Message) (t : Z) (rv : json) : Message :=
  {| MessageID := (MessageID msg ++ ".result")%string; ParentTaskID := ""; SenderID := TaskID; ReceiverID := "orchestrator"; TargetAgent := "";
     Payload := print rv; Timestamp := t |}.

Hypothesis task_named : TaskID ≠ "" ∧ valid_utf8 TaskID = true ∧ valid_utf8 AgentType = true.
Hypothesis clock : ∀ w, 1000000 ≤ (tick w).1 < 2 ^ 63.

(** What a success that can be written as JSON puts on the queue of results. *)
Lemma success_sent msg output (s : Sub R W) :
  valid_utf8 (MessageID msg) = true → valid_utf8 (ParentTaskID msg) = true → token_str output = true →
  ∃ ts t rv, let mr := success_message msg t rv in let res := task_result AgentType msg TaskStatusSuccess output "" ts in
    sb_bus (sendResult AgentType TaskID tick msg TaskStatusSuccess output "" s) = (RedisEnqueue "task_results" mr (sb_bus s)).2 ∧
    result_ok res ∧ result_json res = Some rv ∧ json_ok 1 rv = true ∧ Validate mr = None ∧ wire_ok mr.
Proof.
  destruct task_named as (Htask & Htu & Hau). intros Hid Hpar Htok. unfold sendResult, clock_s, clock_ms, clock_ns, on_world.
  pose proof (clock (sb_world s)) as Hc1. destruct (tick (sb_world s)) as [t1 w1] eqn:E1. cbn [fst snd sb_world set_sb_world] in *.
  pose proof (clock w1) as Hc2. destruct (tick w1) as [t2 w2] eqn:E2. cbn [fst snd] in *.
  assert (∀ a k, 1000000 ≤ a < 2 ^ 63 → 1 ≤ k → in_int64 (a / k)) as Hint.
  { intros a k Ha Hk. unfold in_int64, int64_min, int64_max. pose proof (Z.div_pos a k). pose proof (Z.div_le_upper_bound a k (2 ^ 63 - 1)). nia. }
  set (res := task_result AgentType msg TaskStatusSuccess output "" (t1 / 1000000000)).
  assert (result_ok res) as Hres by (constructor; try done; apply Hint; lia).
  pose proof (result_output_json output Htok) as Hraw. pose proof (token_html_escape output Htok) as Htok'.
  destruct (result_decodes res _ Hres Hraw (result_output_ok _ Htok')) as (rv & Hrv & _). rewrite Hrv.
  assert (json_ok 1 rv = true) as Hok1 by (apply (result_depth res _ rv 1 Hrv Hraw); [cbn; by rewrite Htok'|lia]).
  exists (t1 / 1000000000), (t2 / 1000000), rv. cbv zeta. split_and!; try done.
  - change (tq_Enqueue background ?q ?m ?x) with (RedisEnqueue q m x). unfold success_message. cbn [sb_bus set_sb_world].
    by destruct (RedisEnqueue _ _ _) as [e b].
  - apply Validate_spec. cbn. split_and!; [by destruct (MessageID msg)|done|done| |].
    + pose proof (Z.div_le_lower_bound t2 1000000 1). lia.
    + apply Valid_print. by apply (json_ok_depth rv 1).
  - constructor; cbn; try done; [by apply valid_utf8_app|apply Hint; lia|]. exists rv. split; [|done]. apply parse_print. by apply (json_ok_depth rv 1).
Qed.

(** C3: The way back: when a subagent's answer is the body of a JSON string that
    is not empty, its result waits at the end of the queue of results once the
    server has taken it.  When it comes to the head, the one that pops the
    queue receives it as it was sent; and when that is the gateway and the
    task's route is known, the answer is sent to the session it was asked in,
    through that channel's adapter, and the route forgotten. *)
Theorem answer_reaches_channel msg output (s : Sub R W) sent :
  let text := unquote (html_escape output) in
  let s' := sendResult AgentType TaskID tick msg TaskStatusSuccess output "" s in
  valid_utf8 (MessageID msg) = true → valid_utf8 (ParentTaskID msg) = true → token_str output = true → text ≠ "" →
  holds "task_results" (sb_bus s) sent →
  ∃ mr, sb_bus s' = (RedisEnqueue "task_results" mr (sb_bus s)).2 ∧
    ((RedisEnqueue "task_results" mr (sb_bus s)).1 = None → holds "task_results" (sb_bus s') (sent ++ [mr])) ∧
    (∀ b rest vs b', holds "task_results" b (mr :: rest) → BRPop "task_results" b = (Ok vs, b') →
      RedisDequeue_iter "task_results" b = (Some mr, b') ∧ holds "task_results" b' rest) ∧
    ∀ req rich (r : SessionRouter R),
      routeForTask (MessageID msg) r = Some (route_of req) → sm_ChannelName req ≠ "" → ro_adapters r !! sm_ChannelName req = Some rich →
      let r' := handle_task_result (Payload mr) r in
      ro_sent r' = ro_sent r ++ [reply rich req text] ∧ routeForTask (MessageID msg) r' = None.
Proof.
  cbv zeta. intros Hid Hpar Htok Hne Hh. destruct (success_sent msg output s Hid Hpar Htok) as (ts & t & rv & Hbus & Hres & Hrv & Hok1 & Hval & Hw).
  set (mr := success_message msg t rv) in *. exists mr. rewrite Hbus. pose proof (json_ok_depth rv 1 0 ltac:(lia) Hok1) as Hok. split_and!; [done|..].
  - destruct (RedisEnqueue "task_results" mr (sb_bus s)) as [e b] eqn:He. cbn. intros ->. by eapply redis_queue_fifo.
  - intros b rest vs b' Hb Hp. eapply (pop_head _ _ _ _ _ _ rv); [done..|by eapply stable_result].
  - intros req rich r Hroute Hchan Had. destruct (result_carries_answer AgentType msg output ts rv Hres Htok Hrv) as [_ Hplain].
    change (Payload mr) with (print rv). rewrite (handle_plain _ _ _ _ (Hplain Hne)). cbv zeta. rewrite !Hroute. unfold route_of. rewrite bind_text.
    cbn [rb_SessionID rb_ChannelName rb_Metadata]. set (resp := set_sm_Metadata _ _). assert (sm_ChannelName resp = sm_ChannelName req) as Hc by done.
    rewrite Hc, bool_decide_eq_false_2 by done. unfold deliver. rewrite Hc, Had. split.
    + unfold reply. by destruct rich.
    + unfold routeForTask, deleteRoute, with_routes. cbn. apply lookup_delete_eq.
Qed.
End answer.

(** A task on a server of its own, from the channel to the subagent. *)
Definition redis_router : SessionRouter (gmap string (list string)) := RegisterAdapter "wecom" false (NewSessionRouter ∅).
Definition redis_dispatched : SessionRouter (gmap string (list string)) :=
  (DispatchIncoming (H := redis_transport (H := map_server)) background router_request 5 7 redis_router).2.

Section demo.
#[local] Existing Instance range_ascending.
#[local] Existing Instance map_server.
#[local] Existing Instance InMemoryTaskStateStore.


(** The answer of that subagent, and the gateway that asked. *)
Definition redis_sub : Sub (gmap string (list string)) Z := MkSub ∅ None 1700000000000000000 [].
Definition redis_answered : gmap string (list string) :=
  sb_bus (sendResult "orchestrator" "session_5" sub_demo_tick conv_question TaskStatusSuccess "hi <there>" "" redis_sub).

Lemma map_enqueue q m r : (RedisEnqueue q m r).1 = None ∨ (RedisEnqueue q m r).2 = r.
Proof. unfold RedisEnqueue. destruct (Validate m); [by right|]. destruct (MarshalMessage m); [by left|by right]. Qed.

Lemma answer_reaches_channel_witness :
  ∃ mr, (RedisDequeue_iter "task_results" redis_answered).1 = Some mr ∧
    ro_sent (handle_task_result (Payload mr) redis_dispatched) = [SendText "wecom" "wecom:u1" "hi <there>"].
Proof.
  destruct (answer_reaches_channel "orchestrator" "session_5" sub_demo_tick) with (msg := conv_question) (output := "hi <there>"%string) (s := redis_sub) (sent := @nil Message)
    as (mr & Hbus & Hsent & Hpop & Hreply).
  - split_and!; [discriminate|vm_compute; reflexivity|vm_compute; reflexivity].
  - intros w. cbn. lia.
  - vm_compute. reflexivity.
  - vm_compute. reflexivity.
  - vm_compute. reflexivity.
  - vm_compute. discriminate.
  - constructor.
  - exists mr. assert (sb_bus (sendResult "orchestrator" "session_5" sub_demo_tick conv_question TaskStatusSuccess "hi <there>" "" redis_sub) = redis_answered) as Heq by (unfold redis_answered; reflexivity).
    rewrite Heq in Hbus, Hsent. clear Heq.
    assert (r_list "task_results" redis_answered ≠ []) as Hne by (vm_compute; discriminate).
    assert (match (BRPop "task_results" redis_answered).1 with Ok _ => True | Fail _ => False end) as Hok by (vm_compute; exact I).
    assert ((RedisEnqueue "task_results" mr (sb_bus redis_sub)).1 = None) as Hnone.
    { destruct (map_enqueue "task_results" mr (sb_bus redis_sub)) as [Hx|Hx]; [exact Hx|]. rewrite Hx in Hbus. rewrite Hbus in Hne. destruct Hne. reflexivity. }
    specialize (Hsent Hnone). destruct (BRPop "task_results" redis_answered) as [[vs|e] b'] eqn:Hp; [|done].
    destruct (Hpop redis_answered [] vs b' Hsent Hp) as [-> _]. split; [done|].
    assert (routeForTask (MessageID conv_question) redis_dispatched = Some (route_of router_request)) as Hroute by (vm_compute; reflexivity).
    destruct (Hreply router_request false redis_dispatched Hroute) as [-> _]; [discriminate|vm_compute; reflexivity|]. vm_compute. reflexivity.
Defined.
End demo.
